(* ===== verification/_CoqProject ===== *)
-Q . S2P
Prelude.v
Bytes.v
CString.v
CMem.v
State.v
Console.v
Printf.v
Pic.v
Rtc.v
Filesys.v
Paging.v
Idt.v
Keyboard.v
Descriptors.v
Process.v
Halt.v
Terminals.v
Sched.v
Interrupts.v
Entry.v
Boot.v
Loader.v
Gdt.v
SysSpec.v
Support.v
Cat.v
Syserr.v
Shell.v
Counter.v
Grep.v
Nested.v
KernelOs.v
Spawn.v
Userland.v
Session.v
Desk.v
Poweron.v
