(* ===== verification/Prelude.v ===== *)
(** * A Unix-like kernel for the i386: verification development

    This development models the kernel of src/student-distrib (a protected-mode
    kernel with paging, three text terminals, up to six processes, a read-only
    file system, and eight system calls) and the programs of src/syscalls that
    run on it, and proves what they do: from the string routines to the boot,
    and from the loader's jump to the transcript of a session on the screen.

    ** The program and its parts

    GRUB loads the kernel and a file-system image and jumps to [start] (boot.S),
    which calls [entry] (kernel.c): it reports what the loader left, sets up the
    descriptors, the IDT, the interrupt controllers, the clock, the keyboard,
    paging and the file system, enables interrupts and executes the program
    "shell". [execute] takes a process slot, maps the 4 MB page of the slot at
    128 MB, loads the file there and enters it in user mode; [halt] goes back
    into the frame [execute] saved for the parent. A process calls the kernel
    through vector 0x80; [read], [write], [open] and [close] go through the jump
    table of a descriptor to the terminal, the file system, or the clock. The
    keyboard handler edits the line of the shown terminal, and switches terminals
    on alt and a function key; [read] of the keyboard waits for its Enter.

    ** Files

    - Prelude: generic lemmas on loops, lists and machine words; tactics, hints.
    - Bytes: byte-addressed objects (the class [ByteArr]) and little-endian words.
    - CString, CMem: the string and block routines of lib.c.
    - State: the data of the kernel and the machine, address translation, the
      monad of the kernel's code.
    - Console: cursor, screen, [putc], [puts] of lib.c. Printf: [printf].
    - Pic: i8259.c. Rtc: rtc.c, but for the wait of [read_rtc].
    - Filesys: filesys.c.
    - Paging: paging.c, and [create_paging], [page_switch], [vidmap] of syscall.c.
    - Idt: idt.c. Keyboard: keyboard.c, but for what waits or switches.
    - Descriptors: the tables, [open], [close], [getargs] of syscall.c.
    - Process: [execute] and [halt] of syscall.c; Halt: their joint properties.
    - Terminals: [process_init] and [display_switch] of syscall.c.
    - Sched: sched.c.
    - Interrupts: the handlers and the dispatch of interrupt.S, the whole of
      [keyboard_handler], the waits of [read_terminal] and [read_rtc], the calls
      [read] and [write].
    - Entry: the assembly of interrupt.S and of the ends of [execute] and [halt],
      instruction by instruction: what the processor pushes, the routines save and
      the C functions are given, and what the interrupted program finds again.
    - Boot: boot.S, kernel.c, the descriptor formats of x86_desc.h, multiboot.h.
      Loader: the report of what the loader left, and the boot from there.
    - Gdt: the tables of x86_desc.S and the meaning of their segments.

    The user programs are proved against an interface, and the kernel is proved
    to implement it:

    - SysSpec: the abstract state [os] a program can observe, the effect of each
      call on it ([spec_read], [spec_write], ...), the classes [Machine] (memory
      and [int 0x80]) and [Kernel] (the calls behave as specified), the monad of
      programs, loops with a number of turns.
    - Support: ece391support.c, the stubs of ece391syscall.S, and what they give
      on any [Kernel].
    - Cat: ece391cat.c and ece391ls.c. Shell: ece391shell.c, ece391hello.c and
      ece391testprint.c. Counter: ece391counter.c. Grep: ece391grep.c. Syserr:
      ece391syserr.c.
    - Nested: the machine on which [execute] comes back, because the program that
      was started runs and ends; sessions of the shell from the first line to
      the last, for any kernel with the class [Commands] ([execute] starts a
      program below its caller, [halt] gives the caller its state back).
    - KernelOs: the machine whose memory is the page of the process that runs and
      whose [int 0x80] is [handle_SIG_SYSCALL]; the relation [serving] between
      the kernel's state and an [os]; each call keeps it.
    - Spawn: commands and the programs they start, from [execute] to [halt]; the
      instances [kstate_kernel] and [kstate_commands].
    - Userland: the refinement call by call, and runs from the command to the
      screen. Session: from the loader to "exit". Desk, Poweron: concrete runs.

    ** How the model corresponds to the code

    A C integer is a [Z], wrapped ([u8], [u16], [u32], [s32]) where the code's
    type makes it wrap; pointer arithmetic is not wrapped at 2^32. A structure is
    a record, a global a field of one of the records of [kstate]. Bytes reached
    through pointers (video memory, the image, user buffers) are one physical
    memory, read and written through the page tables of the state, as the
    processor walks them ([walk]); PCBs and terminals, which the code reaches
    through their fields only, are records by address or number, not bytes of
    that memory. Port accesses are a trace of events, and a port read is answered
    by a function of the trace so far.

    Code that returns, jumps to user mode or into another frame, spins, or leaves
    the meaning of C (a store past a local array, a call through a null pointer)
    is a function of the monad [M], with one outcome for each; straight-line code
    is a function on states. [kstate -> outcome] is total: a loop without a
    structural measure is [loop_or] with a bound from the width of its counter
    (2^32 turns, or the length of the object), and the theorems say that it ends
    before it. The loops of the user programs have the number of their turns as
    an argument, and the theorems say how many are enough: one more than the
    bytes of the file ([cat]), than the files ([ls]) or than both ([grep]), one for
    each line typed ([shell]). Interrupts are delivered in the waits, one for every test of the
    condition, and in user mode; a wait that no pending interrupt can end is
    [Hang].

    What the source does not determine is the class [Platform]: replies of the
    devices, addresses chosen by the linker, memory past the end of an array,
    assembly outputs that no instruction writes. The platform [quiet_platform],
    and variants of it, run the concrete examples (the lemmas named [_witness],
    which also show that hypotheses can hold).

    ** What the theorems show

    - Isolation: whatever switches and [vidmap]s have happened, user code reaches
      the 4 MB page of its process and, after a [vidmap] of any process, video
      memory, and nothing else (Paging); the map after boot, after [page_switch]
      and after [vidmap], address by address.
    - Boot: from the structures a loader leaves, with a file system that has a
      shell among them, the kernel reads these, changes no byte but the screen's,
      and runs the shell in user mode, with gates, lines, descriptors and
      terminals set up; without the loader's magic number it stops.
    - Processes: [execute] on every branch; [halt] returns to the parent; a
      program started and halted leaves the slots and the page as they were; the
      defects found on these paths (slots lost, numbers overwritten, arrays
      overflowed).
    - Entry: the assembly routine of a system call or of a device is its C
      counterpart, and brings back the interrupted program with its registers,
      flags and stack; exceptions end in [handle_exception]; [halt]'s jump resumes
      the parent after its [int 0x80]; the segments are flat.
    - Files: the descriptor table is well-formed after any calls; [open] then
      [read] in pieces gives the contents of the file in order; names, entries
      and blocks are found as the image has them.
    - Terminals: [putc], [puts], [printf] and [write] refine the abstract console
      [Spec]; switches keep every terminal's screen; a typed line is what [read]
      returns; the modifier keys; the bounds of the buffers.
    - Devices: masks and ports of the controllers; rates of the clock; the wait
      for a tick; the timer and what its scheduler does.
    - System calls: between the moments a process runs, the kernel's state stands
      for an [os], and each call takes it to the [os] the specification gives,
      with the result, the bytes and nothing else of the process's page changed;
      among them reads of lines typed ahead, through the keyboard handler.
    - Programs: the shell answers and starts commands; [cat] shows a file, [ls]
      the directory, [hello] greets, [counter] counts, [grep] finds the lines with
      a string on a disk of plain text; the error tests of [syserr] pass. The first shell of
      a terminal keeps a transcript: its answers and what the programs it starts
      show, in order, until "exit".
      With the refinement and the boot: from [entry] on, the kernel starts the
      shell, each command's program runs in a process of its own and ends, and
      the screen at "exit" is the blank screen with that transcript written on it
      (Session).
    - Library: [memcpy], [memset], [memmove], [itoa], [strncmp], [strncpy],
      [strlen] against their specifications, for every alignment and overlap.

    ** Not modelled

    tests.c, which is not called; of the user programs pingpong and sigtest, and
    those of src/fish; the emulation of the calls under Linux. Local arrays and string literals of a user
    program are at addresses that are arguments; that its image holds the code
    that is modelled is not stated. The calls that wait for the clock or change
    the map (reads and writes of "rtc", [vidmap] of a good pointer) are outside
    [os]: their theorems are in Interrupts, Rtc and Paging. An [os] knows where
    its program stands: the first shell of its terminal, a program that shell
    has started and waits for, or elsewhere; of the end of a program elsewhere it
    says nothing, because the code loses the identity of deeper parents (the
    theorems on that are in Halt). The TLB is not modelled: a change of a table is seen
    at once. The kernel's data structures are not part of the byte memory, so a
    stray byte store cannot change them; the stores the code makes past an array
    are modelled one by one where they occur. Interrupts are delivered in the kernel's
    waits and in user mode only: the gates are interrupt gates, which mask them,
    but [read] and the handlers enable them before they end, and an interrupt
    taken between there and their return is not modelled. *)

From Stdlib Require Import ZArith Lia Ascii String.
From stdpp Require Export base numbers list gmap.
#[export] Set Default Goal Selector "!".

Declare Scope kernel_scope.
Delimit Scope kernel_scope with K.
#[local] Open Scope Z_scope.

(** ** Hint databases and tactics of the development *)

Create HintDb kernel.
Create HintDb words.
Create Rewrite HintDb kernel.
Create Rewrite HintDb words.

(** Case analysis on the first test of the goal, with arithmetic closing the
    impossible branches. *)
Ltac case_test :=
  match goal with
  | |- context [ if ?b then _ else _ ] =>
      lazymatch type of b with
      | bool => destruct b eqn:?
      end
  end.
Ltac case_tests := repeat (case_test; try lia; try done).

(** Decide a boolean test by arithmetic and rewrite with it. *)
Ltac test_true b := replace b with true by (symmetry; lia).
Ltac test_false b := replace b with false by (symmetry; lia).

(** Evaluate a closed [if] test by arithmetic, in either direction. *)
Ltac reduce_test :=
  match goal with
  | |- context [ if ?b then _ else _ ] => first [ test_true b | test_false b ]; cbv iota
  end.
Ltac reduce_tests := repeat reduce_test.

(** ** Machine integers

    A C object of width [w] is an integer of [Z]; conversions to a type write
    out the wrap-around. *)

Definition u8 (z : Z) : Z := z mod 256.
Definition u16 (z : Z) : Z := z mod 65536.
Definition u32 (z : Z) : Z := z mod 4294967296.
Definition s8 (z : Z) : Z := (z + 128) mod 256 - 128.
Definition s32 (z : Z) : Z := (z + 2147483648) mod 4294967296 - 2147483648.

Ltac unfold_ints := unfold u8, u16, u32, s8, s32 in *.
(** Arithmetic on wrapped integers. *)
Ltac warith := unfold_ints; Z.div_mod_to_equations; lia.

Lemma u8_small z : 0 <= z < 256 -> u8 z = z.
Proof. intros; apply Z.mod_small; lia. Qed.
Lemma u16_small z : 0 <= z < 65536 -> u16 z = z.
Proof. intros; apply Z.mod_small; lia. Qed.
Lemma u32_small z : 0 <= z < 4294967296 -> u32 z = z.
Proof. intros; apply Z.mod_small; lia. Qed.
Lemma s8_small z : -128 <= z < 128 -> s8 z = z.
Proof. intros; warith. Qed.
Lemma s32_small z : -2147483648 <= z < 2147483648 -> s32 z = z.
Proof. intros; warith. Qed.
Lemma u8_range z : 0 <= u8 z < 256.
Proof. apply Z.mod_pos_bound; lia. Qed.
Lemma u32_range z : 0 <= u32 z < 4294967296.
Proof. apply Z.mod_pos_bound; lia. Qed.
Lemma s32_range z : -2147483648 <= s32 z < 2147483648.
Proof. warith. Qed.
Lemma u8_u8 z : u8 (u8 z) = u8 z.
Proof. apply u8_small, u8_range. Qed.
Lemma u32_s32 z : u32 (s32 z) = u32 z.
Proof. warith. Qed.
Lemma s32_u32 z : s32 (u32 z) = s32 z.
Proof. warith. Qed.
#[export] Hint Rewrite u8_u8 u32_s32 s32_u32 : words.
#[export] Hint Resolve u8_range u32_range s32_range : words.

(** Signed bytes are equal exactly when the bytes are. *)
Lemma s8_inj a b : 0 <= a < 256 -> 0 <= b < 256 -> s8 a = s8 b -> a = b.
Proof. intros; warith. Qed.

(** ** Loops

    [loop p f s] runs the body [f] at most [p] times: [inl] is the state of the
    next iteration, [inr] leaves the loop. The fuel is binary, so a bound such
    as 2^32 costs nothing when the loop exits early. *)
Fixpoint loop {S R} (p : positive) (f : S -> S + R) (s : S) : S + R :=
  match p with
  | xH => f s
  | xO q => match loop q f s with inl s' => loop q f s' | inr r => inr r end
  | xI q => match f s with
            | inl s' => match loop q f s' with inl s'' => loop q f s'' | inr r => inr r end
            | inr r => inr r
            end
  end.

(** The same loop with unary fuel, for proofs. *)
Fixpoint nloop {S R} (n : nat) (f : S -> S + R) (s : S) : S + R :=
  match n with
  | O => inl s
  | Datatypes.S m => match f s with inl s' => nloop m f s' | inr r => inr r end
  end.

Lemma nloop_add {S R} n m (f : S -> S + R) s :
  nloop (n + m) f s = match nloop n f s with inl s' => nloop m f s' | inr r => inr r end.
Proof. revert s; induction n as [|n IH]; intros s; simpl; [done|]. by destruct (f s). Qed.

Lemma loop_nloop {S R} p (f : S -> S + R) s : loop p f s = nloop (Pos.to_nat p) f s.
Proof.
  revert s; induction p as [p IH|p IH|]; intros s; cbn [loop].
  - rewrite Pos2Nat.inj_xI. replace (Datatypes.S (2 * Pos.to_nat p))%nat
      with (1 + (Pos.to_nat p + Pos.to_nat p))%nat by lia.
    rewrite nloop_add; simpl. destruct (f s) as [s'|r]; [|done].
    rewrite nloop_add, IH. destruct (nloop _ f s'); [by rewrite IH|done].
  - rewrite Pos2Nat.inj_xO. replace (2 * Pos.to_nat p)%nat
      with (Pos.to_nat p + Pos.to_nat p)%nat by lia.
    rewrite nloop_add, IH. destruct (nloop _ f s); [by rewrite IH|done].
  - change (Pos.to_nat 1) with 1%nat. simpl. by destruct (f s).
Qed.

(** Total correctness of a loop: an invariant, a measure below the fuel that
    decreases at each iteration, and a property of the value it leaves with. *)
Lemma loop_rule {S R} (Inv : S -> Prop) (m : S -> Z) (Post : R -> Prop) p (f : S -> S + R) s :
  (forall s, Inv s -> match f s with
                 | inl s' => Inv s' /\ 0 <= m s' < m s
                 | inr r => Post r
                 end) ->
  Inv s -> 0 <= m s < Zpos p -> exists r, loop p f s = inr r /\ Post r.
Proof.
  intros Hf Hs Hm. rewrite loop_nloop.
  assert (0 <= m s < Z.of_nat (Pos.to_nat p)) as Hlt by lia. revert Hlt. clear Hm.
  generalize (Pos.to_nat p) as n. intros n. revert s Hs.
  induction n as [|n IH]; intros s Hs Hlt; simpl; [lia|].
  specialize (Hf s Hs). destruct (f s) as [s'|r]; [|by eauto].
  destruct Hf. apply IH; [done|lia].
Qed.

(** Apply the loop rule to the loop of the goal: the subgoals are the body, the
    initial state, the fuel, and the goal with the exit value [r]. *)
Ltac loop_with Inv m Post r Hr :=
  match goal with
  | |- context [ loop ?p ?f ?s ] =>
      destruct (loop_rule Inv m Post p f s) as (r & -> & Hr)
  end.

(** The value a loop leaves with, or [d] when the fuel runs out. *)
Definition loop_or {S R} (d : R) (p : positive) (f : S -> S + R) (s : S) : R :=
  match loop p f s with inl _ => d | inr r => r end.

Lemma loop_or_rule {S R} (Inv : S -> Prop) (m : S -> Z) (Post : R -> Prop) d p (f : S -> S + R) s :
  (forall s, Inv s -> match f s with
                 | inl s' => Inv s' /\ 0 <= m s' < m s
                 | inr r => Post r
                 end) ->
  Inv s -> 0 <= m s < Zpos p -> Post (loop_or d p f s).
Proof.
  intros Hf Hs Hm. unfold loop_or.
  by destruct (loop_rule Inv m Post p f s Hf Hs Hm) as (r & -> & ?).
Qed.

(** Partial correctness, for what a loop preserves however it ends. *)
Lemma loop_inv {S R} (Inv : S -> Prop) (Post : R -> Prop) p (f : S -> S + R) s :
  (forall s, Inv s -> match f s with inl s' => Inv s' | inr r => Post r end) ->
  Inv s -> match loop p f s with inl s' => Inv s' | inr r => Post r end.
Proof.
  intros Hf Hs. rewrite loop_nloop. revert s Hs.
  induction (Pos.to_nat p) as [|n IH]; intros s Hs; simpl; [done|].
  specialize (Hf s Hs). destruct (f s); [by apply IH|done].
Qed.
(** The same, counting the iterations. *)
Lemma loop_count {S R} (Inv : Z -> S -> Prop) (Post : R -> Prop) p (f : S -> S + R) s :
  (forall i s, 0 <= i < Zpos p -> Inv i s -> match f s with inl s' => Inv (i + 1) s' | inr r => Post r end) ->
  Inv 0 s -> match loop p f s with inl s' => Inv (Zpos p) s' | inr r => Post r end.
Proof.
  rewrite loop_nloop, <- positive_nat_Z. generalize (Pos.to_nat p) as n. intros n Hf Hs.
  enough (forall m i s, (i + m)%nat = n -> Inv (Z.of_nat i) s ->
    match nloop m f s with inl s' => Inv (Z.of_nat n) s' | inr r => Post r end) as Hgo by (apply (Hgo n 0%nat); [lia|done]).
  clear s Hs. induction m as [|m IH]; intros i s Hi Hs; simpl.
  - by replace n with i by lia.
  - specialize (Hf (Z.of_nat i) s ltac:(lia) Hs). destruct (f s) as [s'|r]; [|done].
    apply (IH (Datatypes.S i)); [lia|]. by rewrite Nat2Z.inj_succ, <- Z.add_1_r.
Qed.
Lemma loop_or_inv {S R} (Inv : S -> Prop) (Post : R -> Prop) d p (f : S -> S + R) s :
  (forall s, Inv s -> match f s with inl s' => Inv s' | inr r => Post r end) ->
  Inv s -> Post d -> Post (loop_or d p f s).
Proof.
  intros Hf Hs Hd. pose proof (loop_inv Inv Post p f s Hf Hs) as Hl. unfold loop_or. by destruct (loop p f s).
Qed.

(** [for (i = lo; i < hi; i++) f] with no exit from the body. *)
Fixpoint for_upto {S} (n : nat) (i : Z) (f : Z -> S -> S) (s : S) : S :=
  match n with O => s | Datatypes.S m => for_upto m (i + 1) f (f i s) end.
Definition for_loop {S} (lo hi : Z) (f : Z -> S -> S) (s : S) : S :=
  for_upto (Z.to_nat (hi - lo)) lo f s.

Lemma for_loop_empty {S} lo hi (f : Z -> S -> S) s : hi <= lo -> for_loop lo hi f s = s.
Proof. intros. unfold for_loop. by replace (Z.to_nat (hi - lo)) with 0%nat by lia. Qed.

Lemma for_loop_rule {S} (Inv : Z -> S -> Prop) lo hi (f : Z -> S -> S) s :
  lo <= hi -> Inv lo s ->
  (forall i s, lo <= i < hi -> Inv i s -> Inv (i + 1) (f i s)) ->
  Inv hi (for_loop lo hi f s).
Proof.
  intros Hle H0 Hstep. unfold for_loop.
  assert (hi = lo + Z.of_nat (Z.to_nat (hi - lo))) as Hhi by lia.
  revert Hhi Hle H0 Hstep. generalize (Z.to_nat (hi - lo)) as n. intros n. revert lo s.
  induction n as [|n IH]; intros lo s Hhi Hle H0 Hstep; simpl.
  - by replace hi with lo by lia.
  - apply IH; [lia|lia| |].
    + apply Hstep; [lia|done].
    + intros i s' Hi. apply Hstep; lia.
Qed.

(** ** Bit fields of a word

    [bits w off n] reads the [n]-bit field of [w] at bit [off]; [set_bits w off n v]
    is the assignment to it: the value is truncated to the width of the field and
    the other bits of the word are kept. *)
Definition bits (w off n : Z) : Z := Z.land (Z.shiftr w off) (Z.ones n).
Definition set_bits (w off n v : Z) : Z :=
  Z.lor (Z.ldiff w (Z.shiftl (Z.ones n) off)) (Z.shiftl (Z.land v (Z.ones n)) off).

Lemma bits_testbit w off n i : 0 <= off -> 0 <= n ->
  Z.testbit (bits w off n) i = Z.testbit w (i + off) && (0 <=? i) && (i <? n).
Proof.
  intros Ho Hn. unfold bits. rewrite Z.land_spec.
  destruct (Z.leb_spec 0 i).
  - rewrite Z.shiftr_spec, Z.testbit_ones by lia. destruct (Z.ltb_spec i n), (Z.leb_spec 0 i); simpl; lia || (by rewrite ?andb_true_r, ?andb_false_r).
  - rewrite (Z.testbit_neg_r (Z.shiftr w off)) by lia. by rewrite andb_false_r.
Qed.

Lemma set_bits_testbit w off n v i : 0 <= off -> 0 <= n -> 0 <= i ->
  Z.testbit (set_bits w off n v) i =
    if (off <=? i) && (i <? off + n) then Z.testbit v (i - off) else Z.testbit w i.
Proof.
  intros Ho Hn Hi. unfold set_bits.
  rewrite Z.lor_spec, Z.ldiff_spec, !Z.shiftl_spec, Z.land_spec by lia.
  destruct (Z.leb_spec off i).
  - rewrite Z.testbit_ones by lia.
    replace (0 <=? i - off) with true by (symmetry; lia).
    replace (i - off <? n) with (i <? off + n)
      by (destruct (Z.ltb_spec i (off + n)), (Z.ltb_spec (i - off) n); lia).
    destruct (i <? off + n); simpl;
      by rewrite ?andb_true_r, ?andb_false_r, ?orb_false_r.
  - rewrite !(Z.testbit_neg_r _ (i - off)) by lia. simpl.
    by rewrite andb_true_r, orb_false_r.
Qed.

(** Reading back the field just assigned. *)
Lemma bits_set_same w off n v : 0 <= off -> 0 <= v < 2 ^ n -> 0 <= n ->
  bits (set_bits w off n v) off n = v.
Proof.
  intros Ho Hv Hn. apply Z.bits_inj'. intros i Hi.
  rewrite bits_testbit, set_bits_testbit by lia.
  replace (off <=? i + off) with true by (symmetry; lia).
  replace (i + off <? off + n) with (i <? n)
    by (destruct (Z.ltb_spec i n), (Z.ltb_spec (i + off) (off + n)); lia).
  replace (i + off - off) with i by lia.
  replace (0 <=? i) with true by (symmetry; lia).
  destruct (Z.ltb_spec i n); simpl; rewrite ?andb_true_r, ?andb_false_r; [done|].
  rewrite <- (Z.mod_small v (2 ^ n)) by lia. by rewrite Z.mod_pow2_bits_high by lia.
Qed.

(** An assignment to one field leaves a disjoint field unchanged. *)
Lemma bits_set_other w off n v off' n' :
  0 <= off -> 0 <= n -> 0 <= off' -> 0 <= n' -> off + n <= off' \/ off' + n' <= off ->
  bits (set_bits w off n v) off' n' = bits w off' n'.
Proof.
  intros Ho Hn Ho' Hn' Hd. apply Z.bits_inj'. intros i Hi.
  rewrite !bits_testbit, set_bits_testbit by lia.
  destruct (Z.ltb_spec i n'); rewrite ?andb_false_r; [|done].
  test_false ((off <=? i + off') && (i + off' <? off + n)). done.
Qed.

Lemma set_bits_range w off n v b : 0 <= off -> 0 <= n -> off + n <= b ->
  0 <= w < 2 ^ b -> 0 <= set_bits w off n v < 2 ^ b.
Proof.
  intros Ho Hn Hb Hw. assert (set_bits w off n v = set_bits w off n v mod 2 ^ b) as ->.
  - apply Z.bits_inj'. intros i Hi. destruct (Z.ltb_spec i b).
    + by rewrite Z.mod_pow2_bits_low by lia.
    + rewrite Z.mod_pow2_bits_high, set_bits_testbit by lia.
      test_false ((off <=? i) && (i <? off + n)).
      rewrite <- (Z.mod_small w (2 ^ b)) by lia. by rewrite Z.mod_pow2_bits_high by lia.
  - apply Z.mod_pos_bound. lia.
Qed.

(** A field as a quotient and a remainder. *)
Lemma bits_div w off n : 0 <= off -> 0 <= n -> bits w off n = (w / 2 ^ off) mod 2 ^ n.
Proof. intros. unfold bits. by rewrite Z.land_ones, Z.shiftr_div_pow2 by lia. Qed.

(** Reading back a field whatever the value assigned: its low bits. *)
Lemma bits_set_low w off n v : 0 <= off -> 0 <= n -> bits (set_bits w off n v) off n = bits v 0 n.
Proof.
  intros Ho Hn. apply Z.bits_inj'. intros i Hi.
  rewrite !bits_testbit, set_bits_testbit, Z.add_0_r by lia.
  destruct (Z.ltb_spec i n); rewrite ?andb_false_r; [|done].
  test_true ((off <=? i + off) && (i + off <? off + n)). by replace (i + off - off) with i by lia.
Qed.

Lemma testbit_bits w i : 0 <= i -> Z.testbit w i = (bits w i 1 =? 1).
Proof.
  intros Hi. rewrite bits_div, Z.pow_1_r, <- Z.shiftr_div_pow2 by lia.
  rewrite <- (Z.add_0_l i) at 1. rewrite <- Z.shiftr_spec, Z.bit0_odd by lia.
  rewrite Zmod_odd. by destruct (Z.odd _).
Qed.

(** A high part or'ed with a low part. *)
Lemma lor_high a b n : 0 <= n -> 0 <= b < 2 ^ n -> Z.lor (Z.shiftl a n) b = a * 2 ^ n + b.
Proof.
  intros Hn Hb. rewrite <- Z.shiftl_mul_pow2 by lia. rewrite <- Z.add_lor_land.
  replace (Z.land (Z.shiftl a n) b) with 0; [lia|]. symmetry. apply Z.bits_inj'. intros i Hi.
  rewrite Z.land_spec, Z.shiftl_spec, Z.bits_0 by lia. destruct (Z.lt_ge_cases i n).
  - by rewrite Z.testbit_neg_r by lia.
  - rewrite <- (Z.mod_small b (2 ^ n)) by lia. by rewrite Z.mod_pow2_bits_high, andb_false_r by lia.
Qed.

(** Arithmetic on fields at constant places. *)
Ltac eval_pows :=
  repeat match goal with
  | |- context [ Z.pow 2 ?n ] => let v := eval vm_compute in (Z.pow 2 n) in
      lazymatch v with Zpos _ => change (Z.pow 2 n) with v end
  end.
Ltac bits_arith :=
  rewrite ?bits_div, ?Z.shiftr_div_pow2, ?Z.shiftl_mul_pow2 by lia; eval_pows;
  Z.div_mod_to_equations; lia.

(** ** Total lookup in integer-indexed objects

    A C array of integers is a [gmap Z Z]; an element never stored is 0, as in
    an object of static storage. *)
Notation "a .[ i ]" := (default 0 (a !! i)) (at level 1, left associativity, format "a .[ i ]") : kernel_scope.
#[local] Open Scope kernel_scope.

Lemma elem_same (a : gmap Z Z) i v : (<[i:=v]> a).[i] = v.
Proof. by rewrite lookup_insert_eq. Qed.
Lemma elem_other (a : gmap Z Z) i j v : i <> j -> (<[i:=v]> a).[j] = a.[j].
Proof. intros. by rewrite lookup_insert_ne. Qed.
Lemma elem_insert (a : gmap Z Z) i j v :
  (<[i:=v]> a).[j] = if i =? j then v else a.[j].
Proof.
  destruct (Z.eqb_spec i j) as [->|]; [apply elem_same|by apply elem_other].
Qed.
#[export] Hint Rewrite elem_same : kernel.
#[export] Hint Rewrite elem_other using lia : kernel.

(** A decidable property of the integers of a range, checked by evaluation. *)
Lemma range_check (f : Z -> bool) lo n :
  forallb f (seqZ lo n) = true -> forall i, lo <= i < lo + n -> f i = true.
Proof.
  intros Hall i Hi. rewrite forallb_forall in Hall. apply Hall.
  apply list_elem_of_In, elem_of_seqZ. lia.
Qed.

(** The bytes of a C string literal, without its terminator. *)
Definition chars (s : string) : list Z :=
  (fun c => Z.of_nat (nat_of_ascii c)) <$> list_ascii_of_string s.
(** A line of text: the string and a newline. *)
Definition line (s : string) : list Z := chars s ++ [10].

(** Loops are unfolded by their rules, never by conversion. *)
#[global] Opaque for_loop loop.
