(* ===== verification/Bytes.v ===== *)
(** Byte-addressed objects.

    C code reaches bytes through pointers into memory, through local arrays and
    through arrays inside a structure. The class [ByteArr] is the interface the
    string routines of lib.c are written against: a read, a store, and the
    location each index denotes (two indices may denote the same location when
    the object is seen through page tables). Its laws are all the clients use.

    Two instances: [mem], bytes by index (physical memory, or a local array),
    and [aspace], memory seen through an address translation. Words are
    little-endian, as on the i386. *)

From S2P Require Import Prelude.
#[local] Open Scope Z_scope.
#[local] Open Scope kernel_scope.

Class ByteArr (A : Type) := {
  get8 : A -> Z -> Z;
  put8 : Z -> Z -> A -> A;
  loc : A -> Z -> Z;
  cell : A -> Z -> Z;
  get8_cell a i : get8 a i = cell a (loc a i);
  get8_range a i : 0 <= get8 a i < 256;
  cell_put8 a i v x : cell (put8 i v a) x = if loc a i =? x then u8 v else cell a x;
  loc_put8 a i v j : loc (put8 i v a) j = loc a j
}.

Section laws.
Context `{ByteArr A}.

Lemma get8_put8 a i v j : get8 (put8 i v a) j = if loc a i =? loc a j then u8 v else get8 a j.
Proof. by rewrite !get8_cell, loc_put8, cell_put8. Qed.
Lemma get8_put8_same a i v : get8 (put8 i v a) i = u8 v.
Proof. by rewrite get8_put8, Z.eqb_refl. Qed.
Lemma get8_put8_other a i v j : loc a i <> loc a j -> get8 (put8 i v a) j = get8 a j.
Proof. intros. rewrite get8_put8. by test_false (loc a i =? loc a j). Qed.

(** The indices [p .. p + n) denote distinct locations. *)
Definition sep_range (a : A) (p n : Z) : Prop :=
  forall i j, 0 <= i < n -> 0 <= j < n -> loc a (p + i) = loc a (p + j) -> i = j.
(** [x] is no location of [p .. p + n), and index [j] denotes none. *)
Definition away (a : A) (p n x : Z) : Prop := forall i, 0 <= i < n -> loc a (p + i) <> x.
Definition outside (a : A) (p n j : Z) : Prop :=
  forall i, 0 <= i < n -> loc a (p + i) <> loc a j.

(** [filled a0 a p k f]: [a] is [a0] with the bytes [f 0 .. f (k - 1)] stored
    from index [p] on, and nothing else changed. This is the invariant of
    every loop that fills a buffer, and the postcondition of every copy. *)
Definition filled (a0 a : A) (p k : Z) (f : Z -> Z) : Prop :=
  (forall j, 0 <= j < k -> get8 a (p + j) = f j) /\
  (forall x, away a0 p k x -> cell a x = cell a0 x) /\
  (forall j, loc a j = loc a0 j).
Lemma filled_outside a0 a p k f j : filled a0 a p k f -> outside a0 p k j -> get8 a j = get8 a0 j.
Proof. intros (_ & Hout & Hloc) Ho. rewrite !get8_cell, Hloc. by apply Hout. Qed.

Lemma outside_le (a : A) p k n j : k <= n -> outside a p n j -> outside a p k j.
Proof. intros Hk Ho i Hi. apply Ho. lia. Qed.
Lemma sep_range_le (a : A) p k n : k <= n -> sep_range a p n -> sep_range a p k.
Proof. intros Hk Ho i j Hi Hj. apply Ho; lia. Qed.
Lemma sep_outside (a : A) p n k : 0 <= k < n -> sep_range a p n -> outside a p k (p + k).
Proof. intros Hk Hs i Hi E%Hs; lia. Qed.

Lemma sep_eqb (a : A) p n i j : sep_range a p n -> 0 <= i < n -> 0 <= j < n ->
  (loc a (p + i) =? loc a (p + j)) = (i =? j).
Proof.
  intros Hs Hi Hj. destruct (Z.eqb_spec i j) as [->|]; [apply Z.eqb_refl|].
  apply Z.eqb_neq. intros E%Hs; lia.
Qed.
Lemma outside_eqb (a : A) p n i j : outside a p n j -> 0 <= i < n ->
  (loc a (p + i) =? loc a j) = false.
Proof. intros Ho Hi. by apply Z.eqb_neq, Ho. Qed.

Lemma filled_nil a p f : filled a a p 0 f.
Proof. split_and!; [lia|done|done]. Qed.

Lemma filled_snoc a0 a p n k f v :
  sep_range a0 p n -> 0 <= k < n -> u8 v = f k ->
  filled a0 a p k f -> filled a0 (put8 (p + k) v a) p (k + 1) f.
Proof.
  intros Hs Hk Hv (Hin & Hout & Hloc). split_and!.
  - intros j Hj. rewrite get8_put8, !Hloc.
    destruct (Z.eqb_spec (loc a0 (p + k)) (loc a0 (p + j))) as [E|E].
    + apply Hs in E; [by subst|lia|lia].
    + apply Hin. destruct (Z.eq_dec j k); [by subst|lia].
  - intros x Ho. rewrite cell_put8, !Hloc.
    rewrite (proj2 (Z.eqb_neq _ _)) by (apply Ho; lia).
    apply Hout. intros i Hi. apply Ho. lia.
  - intros j. by rewrite loc_put8.
Qed.

Lemma filled_ext a0 a p k f g :
  (forall j, 0 <= j < k -> f j = g j) -> filled a0 a p k f -> filled a0 a p k g.
Proof. intros Hfg (Hin & ?). split; [|done]. intros j Hj. rewrite <- Hfg by done. auto. Qed.

(** A second fill of a prefix of the same range. *)
Lemma filled_trans a0 a1 a2 p k n f g :
  0 <= k <= n -> sep_range a0 p n -> filled a0 a1 p n f -> filled a1 a2 p k g ->
  filled a0 a2 p n (fun i => if i <? k then g i else f i).
Proof.
  intros Hk Hs (Hin & Hout & Hloc) (Hin' & Hout' & Hloc'). split_and!.
  - intros j Hj. destruct (Z.ltb_spec j k); [apply Hin'; lia|].
    rewrite <- (Hin j) by done. rewrite !get8_cell, Hloc'. apply Hout'. intros i Hi. rewrite !Hloc. intros E%Hs; lia.
  - intros x Ho. rewrite Hout'; [by apply Hout|].
    intros i Hi. rewrite !Hloc. apply Ho. lia.
  - intros j. by rewrite Hloc', Hloc.
Qed.

(** The trivial writes past the end are invisible to a longer range. *)
Lemma filled_sep a0 a p k f q n : filled a0 a p k f -> sep_range a0 q n -> sep_range a q n.
Proof. intros (_ & _ & Hloc) Hs i j. rewrite !Hloc. apply Hs. Qed.
End laws.
#[export] Hint Rewrite @get8_put8_same @loc_put8 : kernel.

(** *** Memory and local arrays *)

Abbreviation mem := (gmap Z Z).

Definition mem_get (m : mem) (i : Z) : Z := u8 m.[i].
Definition mem_put (i v : Z) (m : mem) : mem := <[i := u8 v]> m.

#[export] Program Instance mem_bytes : ByteArr mem :=
  {| get8 := mem_get; put8 := mem_put; loc := fun _ i => i; cell := mem_get |}.
Next Obligation. done. Qed.
Next Obligation. intros. apply u8_range. Qed.
Next Obligation.
  intros a i v j. unfold mem_get, mem_put. rewrite elem_insert.
  destruct (i =? j); [apply u8_u8|done].
Qed.
Next Obligation. done. Qed.

Lemma mem_get_same m i v : mem_get (mem_put i v m) i = u8 v.
Proof. exact (get8_put8_same (A:=mem) m i v). Qed.
Lemma mem_get_other m i j v : i <> j -> mem_get (mem_put i v m) j = mem_get m j.
Proof. exact (get8_put8_other (A:=mem) m i v j). Qed.
#[export] Hint Rewrite mem_get_same : kernel.
#[export] Hint Rewrite mem_get_other using lia : kernel.

Lemma mem_sep_range (m : mem) p n : sep_range m p n.
Proof. intros i j _ _. simpl. lia. Qed.
Lemma mem_outside (m : mem) p n j : j < p \/ p + n <= j -> outside m p n j.
Proof. intros Hj i Hi. simpl. lia. Qed.

#[export] Hint Extern 2 (outside (_ : gmap Z Z) _ _ _) => (apply mem_outside; lia) : kernel.

(** *** Memory behind an address translation *)

Record aspace := ASpace { as_tr : Z -> Z; as_mem : mem }.

#[export] Program Instance aspace_bytes : ByteArr aspace :=
  {| get8 := fun a p => mem_get (as_mem a) (as_tr a p);
     put8 := fun p v a => ASpace (as_tr a) (mem_put (as_tr a p) v (as_mem a));
     loc := as_tr; cell := fun a => mem_get (as_mem a) |}.
Next Obligation. done. Qed.
Next Obligation. intros. apply u8_range. Qed.
Next Obligation.
  intros a i v x. exact (cell_put8 (A:=mem) (as_mem a) (as_tr a i) v x).
Qed.
Next Obligation. done. Qed.

(** *** Little-endian words *)

Section words.
Context `{ByteArr A}.
Definition get32 (a : A) (p : Z) : Z :=
  get8 a p + 256 * (get8 a (p + 1) + 256 * (get8 a (p + 2) + 256 * get8 a (p + 3))).
Definition put32 (p v : Z) (a : A) : A :=
  put8 (p + 3) (Z.shiftr v 24) (put8 (p + 2) (Z.shiftr v 16)
    (put8 (p + 1) (Z.shiftr v 8) (put8 p v a))).

Lemma get32_range a p : 0 <= get32 a p < 4294967296.
Proof.
  unfold get32. pose proof (get8_range a p). pose proof (get8_range a (p + 1)).
  pose proof (get8_range a (p + 2)). pose proof (get8_range a (p + 3)). lia.
Qed.

(** A word stored is the word read back. *)
Lemma get32_put32 a p v : sep_range a p 4 -> get32 (put32 p v a) p = u32 v.
Proof.
  intros Hs.
  pose proof (fun i j => sep_eqb a p 4 i j Hs) as Heq.
  pose proof (fun i => Heq i 0) as Hi0. rewrite Z.add_0_r in Hi0.
  unfold get32, put32. rewrite !get8_put8, !loc_put8, !Z.eqb_refl.
  rewrite !Heq, !Hi0 by lia. simpl.
  rewrite !Z.shiftr_div_pow2 by lia. warith.
Qed.

Lemma get32_byte a p k : 0 <= k < 4 -> u8 (Z.shiftr (get32 a p) (8 * k)) = get8 a (p + k).
Proof.
  intros Hk. rewrite Z.shiftr_div_pow2 by lia. unfold get32.
  pose proof (get8_range a p). pose proof (get8_range a (p + 1)).
  pose proof (get8_range a (p + 2)). pose proof (get8_range a (p + 3)).
  assert (k = 0 \/ k = 1 \/ k = 2 \/ k = 3) as [-> | [-> | [-> | ->]]] by lia;
    rewrite ?Z.add_0_r; simpl; change (2 ^ 0) with 1; change (2 ^ 8) with 256;
    change (2 ^ 16) with 65536; change (2 ^ 24) with 16777216; warith.
Qed.

(** A word store extends a fill by four bytes. *)
Lemma filled_snoc4 a0 a p n k f v :
  sep_range a0 p n -> 0 <= k -> k + 4 <= n ->
  (forall j, 0 <= j < 4 -> u8 (Z.shiftr v (8 * j)) = f (k + j)) ->
  filled a0 a p k f -> filled a0 (put32 (p + k) v a) p (k + 4) f.
Proof.
  intros Hs Hk Hn Hv Hf. unfold put32. rewrite <- !Z.add_assoc.
  replace (k + 4) with (k + 3 + 1) by lia.
  apply (filled_snoc _ _ _ n); [done|lia|by apply (Hv 3); lia|].
  replace (k + 3) with (k + 2 + 1) by lia.
  apply (filled_snoc _ _ _ n); [done|lia|by apply (Hv 2); lia|].
  replace (k + 2) with (k + 1 + 1) by lia.
  apply (filled_snoc _ _ _ n); [done|lia|by apply (Hv 1); lia|].
  apply (filled_snoc _ _ _ n); [done|lia| |done].
  specialize (Hv 0). rewrite Z.add_0_r, Z.shiftr_0_r in Hv. apply Hv. lia.
Qed.
End words.
