(* ===== verification/CString.v ===== *)
(** The string routines of lib.c (lines 339-407 and 562-621): [itoa], [strrev],
    [strlen], [strncmp], [strcpy] and [strncpy], over any byte-addressed object.

    A source string is the function giving the byte at each index from the
    pointer on. Where the destination and the source may share storage the
    source is read from the current destination object. [int8_t] is [char],
    signed on the i386: bytes are compared after sign extension. *)

From S2P Require Import Prelude Bytes.
#[local] Open Scope Z_scope.
#[local] Open Scope kernel_scope.

(** lib.c [strlen]: the counter and the address wrap at 2^32, so a string with
    no NUL in 2^32 bytes is scanned for ever; [None] is that case. *)
Definition strlen (s : Z -> Z) : option Z :=
  match loop 4294967296
          (fun len => if s len =? 0 then inr len else inl (len + 1)) 0 with
  | inr len => Some len
  | inl _ => None
  end.

(** lib.c [strncmp]. *)
Definition strncmp (s1 s2 : Z -> Z) (n : Z) : Z :=
  loop_or 0 (Z.to_pos (n + 1))
    (fun i => if i <? n then
                if negb (s8 (s1 i) =? s8 (s2 i)) || (s8 (s1 i) =? 0)
                then inr (s8 (s1 i) - s8 (s2 i))
                else inl (i + 1)
              else inr 0) 0.

Section routines.
Context `{ByteArr A}.

(** lib.c [strrev]. *)
Definition strrev (s : Z) (a : A) : option A :=
  match strlen (fun i => get8 a (s + i)) with
  | None => None
  | Some len =>
      match loop (Z.to_pos (len + 1))
              (fun '(beg, fin, a) =>
                 if beg <? fin then
                   let tmp := get8 a (s + fin) in
                   let a := put8 (s + fin) (get8 a (s + beg)) a in
                   let a := put8 (s + beg) tmp a in
                   inl (beg + 1, fin - 1, a)
                 else inr a) (0, s32 (len - 1), a) with
      | inr a => Some a
      | inl _ => None
      end
  end.

(** The static array [lookup] of [itoa]. *)
Definition itoa_lookup (i : Z) : Z :=
  if i <? 0 then 0 else if i <? 10 then 48 + i else if i <? 36 then 55 + i else 0.

(** lib.c [itoa]. [None]: the loop does not end (radix 1) or divides by zero. *)
Definition itoa (value buf radix : Z) (a : A) : option A :=
  if value =? 0 then Some (put8 (buf + 1) 0 (put8 buf 48 a))
  else if u32 radix =? 0 then None
  else
    match loop 33
            (fun '(newbuf, newval, a) =>
               if 0 <? newval then
                 let i := newval mod u32 radix in
                 inl (newbuf + 1, newval / u32 radix, put8 newbuf (itoa_lookup i) a)
               else inr (put8 newbuf 0 a)) (buf, value, a) with
    | inr a => strrev buf a
    | inl _ => None
    end.

(** lib.c [strcpy]; [None] when no NUL ends the source within 2^31 bytes. *)
Definition strcpy (dest : Z) (src : A -> Z -> Z) (a : A) : option A :=
  match loop 2147483648
          (fun '(i, a) => if negb (src a i =? 0)
                          then inl (i + 1, put8 (dest + i) (src a i) a)
                          else inr (put8 (dest + i) 0 a)) (0, a) with
  | inr a => Some a
  | inl _ => None
  end.

(** lib.c [strncpy]: copy up to the NUL or [n] bytes, then pad with NULs. *)
Definition strncpy (dest : Z) (src : A -> Z -> Z) (n : Z) (a : A) : A :=
  let '(i, a) := loop_or (0, a) (Z.to_pos (n + 1))
      (fun '(i, a) => if negb (src a i =? 0) && (i <? n)
                      then inl (i + 1, put8 (dest + i) (src a i) a)
                      else inr (i, a)) (0, a) in
  loop_or a (Z.to_pos (n + 1))
    (fun '(i, a) => if i <? n then inl (i + 1, put8 (dest + i) 0 a) else inr a) (i, a).
End routines.

(** ** [strlen] *)

(** [is_cstr s n]: the string at [s] has length [n]. *)
Definition is_cstr (s : Z -> Z) (n : Z) : Prop :=
  0 <= n /\ s n = 0 /\ forall i, 0 <= i < n -> s i <> 0.

Lemma is_cstr_unique s n n' : is_cstr s n -> is_cstr s n' -> n = n'.
Proof.
  intros (? & Hz & Hn) (? & Hz' & Hn').
  destruct (Z.lt_trichotomy n n') as [?|[?|?]]; [|done|].
  - destruct (Hn' n); [lia|done].
  - destruct (Hn n'); [lia|done].
Qed.

Lemma strlen_some s n : is_cstr s n -> n < 4294967296 -> strlen s = Some n.
Proof.
  intros (Hn & Hz & Hnz) Hlt. unfold strlen.
  destruct (loop_rule (fun i => 0 <= i <= n) (fun i => n - i) (fun r => r = n) 4294967296
    (fun len => if s len =? 0 then inr len else inl (len + 1)) 0) as (r & -> & ->); [|lia|lia|done].
  intros i Hi. destruct (Z.eqb_spec (s i) 0).
  - destruct (Z.eq_dec i n); [done|]. destruct (Hnz i); [lia|done].
  - destruct (Z.eq_dec i n); [congruence|lia].
Qed.

Lemma nloop_strlen s n i len :
  nloop n (fun len => if s len =? 0 then inr len else inl (len + 1)) i = inr len ->
  i <= len /\ s len = 0 /\ forall j, i <= j < len -> s j <> 0.
Proof.
  revert i; induction n as [|n IH]; intros i; simpl; [done|].
  destruct (Z.eqb_spec (s i) 0) as [|Hi].
  - intros [= <-]. split_and!; [lia|done|lia].
  - intros (? & ? & Hj)%IH. split_and!; [lia|done|].
    intros j ?. destruct (Z.eq_dec i j) as [<-|]; [done|apply Hj; lia].
Qed.

Lemma strlen_inv s n : strlen s = Some n -> is_cstr s n.
Proof.
  unfold strlen. rewrite loop_nloop. destruct (nloop _ _ _) eqn:E; [done|]. intros [= <-].
  apply nloop_strlen in E as (? & ? & ?). done.
Qed.

(** ** [strncmp] *)

(** The strings agree on their first [n] bytes, or up to a common NUL. *)
Definition str_agree (s1 s2 : Z -> Z) (n : Z) : Prop :=
  forall i, 0 <= i < n -> (forall j, 0 <= j < i -> s1 j <> 0) -> s1 i = s2 i.

Definition is_bytes (s : Z -> Z) : Prop := forall i, 0 <= s i < 256.

Lemma s8_zero a : 0 <= a < 256 -> s8 a = 0 -> a = 0.
Proof. intros; warith. Qed.

Lemma strncmp_rule s1 s2 n (Q : Z -> Prop) :
  0 <= n -> is_bytes s1 -> is_bytes s2 ->
  (str_agree s1 s2 n -> Q 0) ->
  (forall i, 0 <= i < n -> s1 i <> s2 i -> (forall j, 0 <= j < i -> s1 j = s2 j /\ s1 j <> 0) ->
             Q (s8 (s1 i) - s8 (s2 i))) ->
  Q (strncmp s1 s2 n).
Proof.
  intros Hn Hb1 Hb2 Heq Hne. unfold strncmp.
  eapply (loop_or_rule (fun i => 0 <= i <= n /\ forall j, 0 <= j < i -> s1 j = s2 j /\ s1 j <> 0)
            (fun i => n - i)); [|split; lia|lia].
  intros i [Hi Hpre]. destruct (Z.ltb_spec i n) as [Hlt|Hge].
  - destruct (Z.eqb_spec (s8 (s1 i)) (s8 (s2 i))) as [E|E]; simpl.
    + apply s8_inj in E; [|done|done]. destruct (Z.eqb_spec (s8 (s1 i)) 0) as [E0|E0].
      * rewrite <- E, Z.sub_diag. apply Heq. intros k Hk Hnz.
        destruct (Z.lt_trichotomy k i) as [?|[->|?]]; [by apply Hpre; lia|done|].
        destruct (Hnz i); [lia|]. by apply s8_zero.
      * split; [|lia]. split; [lia|]. intros j Hj.
        destruct (Z.eq_dec j i) as [->|]; [|apply Hpre; lia].
        split; [done|]. intros E1. by rewrite E1 in E0.
    + apply Hne; [lia| |done]. intros E1. by rewrite E1 in E.
  - apply Heq. intros k Hk _. apply Hpre. lia.
Qed.

Lemma strncmp_eq s1 s2 n : 0 <= n -> is_bytes s1 -> is_bytes s2 ->
  strncmp s1 s2 n = 0 <-> str_agree s1 s2 n.
Proof.
  intros Hn H1 H2.
  apply (strncmp_rule s1 s2 n (fun r => r = 0 <-> str_agree s1 s2 n)); [done..|tauto|].
  intros i Hi Hne Hpre. split.
  - intros E. destruct Hne. apply s8_inj; [done|done|lia].
  - intros Ha. destruct Hne. apply Ha; [lia|]. intros j Hj. by apply Hpre.
Qed.

(** ** [strcpy] and [strncpy] *)

Section copies.
Context `{ByteArr A}.
Implicit Types (a : A).

(** The stores to [dest .. dest + n) do not change the source. *)
Definition src_stable (dest n m : Z) (src : A -> Z -> Z) : Prop :=
  forall a i v k, 0 <= i < n -> 0 <= k <= m -> src (put8 (dest + i) v a) k = src a k.

Lemma strcpy_filled dest src n a :
  is_cstr (src a) n -> n < 2147483648 -> sep_range a dest (n + 1) ->
  src_stable dest (n + 1) n src -> (forall i, 0 <= src a i < 256) ->
  exists a', strcpy dest src a = Some a' /\ filled a a' dest (n + 1) (src a).
Proof.
  intros (Hn & Hz & Hnz) Hlt Hs Hst Hb. unfold strcpy.
  loop_with (fun '(i, a') => 0 <= i <= n /\ filled a a' dest i (src a) /\
               forall k, 0 <= k <= n -> src a' k = src a k)
    (fun '((i, _) : Z * A) => n - i)
    (fun a' => filled a a' dest (n + 1) (src a)) r Hr; [..|by eauto].
  - intros [i a'] (Hi & Hf & Hsrc). rewrite Hsrc by lia.
    destruct (Z.eqb_spec (src a i) 0) as [E|E]; simpl.
    + destruct (Z.eq_dec i n) as [->|]; [|by destruct (Hnz i); [lia|]].
      apply (filled_snoc _ _ _ (n + 1)); [done|lia| |done]. by rewrite Hz.
    + destruct (Z.eq_dec i n) as [->|]; [done|]. split_and!; [lia|lia| | |lia|lia].
      * apply (filled_snoc _ _ _ (n + 1)); [done|lia|by apply u8_small|done].
      * intros k Hk. rewrite Hst by lia. auto.
  - split_and!; [lia|lia|apply filled_nil|done].
  - lia.
Qed.

Lemma strncpy_filled dest src n l a :
  0 <= l <= n -> (forall i, 0 <= i < l -> src a i <> 0) -> (l = n \/ src a l = 0) ->
  sep_range a dest n -> src_stable dest n n src -> (forall i, 0 <= src a i < 256) ->
  filled a (strncpy dest src n a) dest n (fun i => if i <? l then src a i else 0).
Proof.
  intros Hl Hnz Hz Hs Hst Hb. unfold strncpy.
  set (f := fun i => if i <? l then src a i else 0).
  assert (let '(i, a') := loop_or (0, a) (Z.to_pos (n + 1))
      (fun '(i, a) => if negb (src a i =? 0) && (i <? n)
                      then inl (i + 1, put8 (dest + i) (src a i) a)
                      else inr (i, a)) (0, a) in i = l /\ filled a a' dest l f) as Hfst.
  { apply (loop_or_rule (fun '(i, a') => 0 <= i <= l /\ filled a a' dest i f /\
                   forall k, 0 <= k <= n -> src a' k = src a k) (fun '(i, _) => l - i)).
    - intros [i a'] (Hi & Hf & Hsrc). rewrite Hsrc by lia.
      destruct (Z.eqb_spec (src a i) 0) as [E|E], (Z.ltb_spec i n); simpl;
        try (destruct (Z.eq_dec i l) as [->|]; [by split|]; by destruct (Hnz i); [lia|]).
      + destruct (Z.eq_dec i l) as [->|]; [lia|]. split_and!; [lia|lia| | |lia|lia].
        * apply (filled_snoc _ _ _ n); [done|lia| |done]. unfold f.
          test_true (i <? l). by apply u8_small.
        * intros k Hk. rewrite Hst by lia. auto.
      + replace l with i by lia. by replace n with i in * by lia.
    - split_and!; [lia|lia|apply filled_nil|done].
    - lia. }
  destruct (loop_or (0, a) _ _ _) as [i a']. destruct Hfst as [-> Hf].
  apply (loop_or_rule (fun '(i, a') => l <= i <= n /\ filled a a' dest i f)
           (fun '(i, _) => n - i)); [|split; [lia|done]|lia].
  intros [i b] [Hi Hb']. destruct (Z.ltb_spec i n).
  - split; [|lia]. split; [lia|]. apply (filled_snoc _ _ _ n); [done|lia| |done].
    unfold f. by test_false (i <? l).
  - by replace n with i by lia.
Qed.
End copies.

(** ** [strrev] and [itoa] *)

Section reverse.
Context `{ByteArr A}.
Implicit Types (a : A).

Lemma strrev_filled s n a :
  is_cstr (fun i => get8 a (s + i)) n -> n < 2147483648 -> sep_range a s n ->
  exists a', strrev s a = Some a' /\
             filled a a' s n (fun i => get8 a (s + (n - 1 - i))).
Proof.
  intros Hc Hlt Hs. unfold strrev. rewrite (strlen_some _ n) by (done || lia).
  destruct Hc as (Hn & _ & _). rewrite s32_small by lia.
  loop_with
    (fun '(beg, fin, b) => 0 <= beg <= fin + 1 /\ fin = n - 1 - beg /\
        (forall j, loc b j = loc a j) /\
        (forall x, away a s n x -> cell b x = cell a x) /\
        (forall j, 0 <= j < n -> get8 b (s + j) =
           if (j <? beg) || (fin <? j) then get8 a (s + (n - 1 - j)) else get8 a (s + j)))
    (fun '((beg, fin, _) : Z * Z * A) => fin + 1 - beg)
    (fun a' => filled a a' s n (fun i => get8 a (s + (n - 1 - i)))) r Hr; [..|by eauto].
  - intros [[beg fin] b] (Hb & -> & Hloc & Hout & Hin).
    destruct (Z.ltb_spec beg (n - 1 - beg)) as [Hlt'|Hge].
    + split; [|lia].
      split_and!; [lia|lia|lia| |..].
      * intros j. by rewrite !loc_put8.
      * intros x Ho. rewrite !cell_put8, !loc_put8, !Hloc.
        rewrite !(proj2 (Z.eqb_neq _ x)) by (apply Ho; lia). by apply Hout.
      * intros j Hj. rewrite !get8_put8, !loc_put8, !Hloc, !(sep_eqb _ _ n) by (done || lia).
        rewrite !u8_small by apply get8_range. rewrite !Hin by lia.
        case_tests; try (f_equal; lia); lia.
    + split_and!; [|done..]. intros j Hj. rewrite Hin by lia.
      case_tests. do 2 f_equal. lia.
  - split_and!; [lia..|done|done|]. intros j Hj. by test_false ((j <? 0) || (n - 1 <? j)).
  - lia.
Qed.

Lemma itoa_lookup_range i : 0 <= i < 36 -> 48 <= itoa_lookup i < 91.
Proof. intros. unfold itoa_lookup. case_tests. Qed.

(** The digit of weight [r ^ k]. *)
Definition digit (r v k : Z) : Z := (v / r ^ k) mod r.

Lemma digit_range r v k : 0 < r -> 0 <= digit r v k < r.
Proof. intros. by apply Z.mod_pos_bound. Qed.

Lemma div_pow_succ v r k : 0 < r -> 0 <= k -> v / r ^ k / r = v / r ^ (k + 1).
Proof.
  intros. rewrite Z.div_div by (try apply Z.pow_nonzero; try apply Z.pow_pos_nonneg; lia).
  by rewrite Z.pow_add_r, Z.pow_1_r by lia.
Qed.

(** The number [d] of digits of [v] in base [r]. *)
Definition ndigits (r v d : Z) : Prop :=
  1 <= d /\ v < r ^ d /\ (v = 0 /\ d = 1 \/ r ^ (d - 1) <= v).

Lemma itoa_filled v buf r a :
  0 <= v < 4294967296 -> 2 <= r <= 36 -> sep_range a buf 33 ->
  exists a' d, itoa v buf r a = Some a' /\ 1 <= d <= 32 /\ ndigits r v d /\
    filled a a' buf (d + 1)
      (fun i => if i <? d then itoa_lookup (digit r v (d - 1 - i)) else 0).
Proof.
  intros Hv Hr Hs. unfold itoa. destruct (Z.eqb_spec v 0) as [->|Hv0].
  { exists (put8 (buf + 1) 0 (put8 buf 48 a)), 1. split_and!; [done|lia|lia| |].
    - split_and!; [lia|rewrite Z.pow_1_r; lia|by left].
    - replace buf with (buf + 0) at 2 by lia.
      apply (filled_snoc _ _ _ 33 1); [done|lia|done|].
      apply (filled_snoc _ _ _ 33 0); [done|lia| |apply filled_nil].
      unfold digit. by rewrite Z.div_0_l, Z.mod_0_l by (simpl; lia). }
  rewrite (u32_small r) by lia. test_false (r =? 0). cbv iota.
  pose (dig := fun i => itoa_lookup (digit r v i)).
  loop_with (fun '(p, w, b) => exists k, p = buf + k /\ 0 <= k <= 32 /\ w = v / r ^ k /\
               (k = 0 \/ r ^ (k - 1) <= v) /\ filled a b buf k dig)
    (fun '((p, _, _) : Z * Z * A) => 32 - (p - buf))
    (fun b => exists d, 1 <= d <= 32 /\ ndigits r v d /\
               filled a b buf (d + 1) (fun i => if i <? d then dig i else 0)) b Hb.
  - intros [[p w] b] (k & -> & Hk & -> & Hmin & Hf).
    assert (0 < r ^ k) by (apply Z.pow_pos_nonneg; lia).
    destruct (Z.ltb_spec 0 (v / r ^ k)) as [Hpos|Hz].
    + assert (r ^ k <= v) as Hle.
      { destruct (Z.le_gt_cases (r ^ k) v); [done|]. rewrite Z.div_small in Hpos by lia. lia. }
      assert (k < 32) as Hk32.
      { apply (Z.pow_lt_mono_r_iff 2); [lia..|].
        pose proof (Z.pow_le_mono_l 2 r k). lia. }
      split; [|lia]. exists (k + 1). split_and!; [lia|lia|lia| | |].
      * apply div_pow_succ; lia.
      * right. by replace (k + 1 - 1) with k by lia.
      * apply (filled_snoc _ _ _ 33); [done|lia| |done].
        apply u8_small. pose proof (itoa_lookup_range (digit r v k)).
        pose proof (digit_range r v k). unfold dig, digit in *. lia.
    + assert (v < r ^ k) as Hlt.
      { apply Z.nle_gt. intros Hle. apply (Z.div_le_mono _ _ (r ^ k)) in Hle; [|done].
        rewrite Z.div_same in Hle by lia. lia. }
      assert (k <> 0) by (intros ->; simpl in *; lia).
      exists k. split_and!; [lia|lia| |].
      { split_and!; [lia|done|]. destruct Hmin; [done|by right]. }
      apply (filled_snoc _ _ _ 33); [done|lia|by test_false (k <? k)|].
      eapply filled_ext; [|done]. intros j Hj. by test_true (j <? k).
  - exists 0. split_and!; [lia..| |by left|apply filled_nil].
    by rewrite Z.pow_0_r, Z.div_1_r.
  - lia.
  - destruct Hb as (d & Hd & Hnd & Hf). pose proof Hf as (Hin & _ & _).
    destruct (strrev_filled buf d b) as (a' & -> & Hrev); [|lia| |].
    { split_and!; [lia| |].
      - rewrite Hin by lia. by test_false (d <? d).
      - intros i Hi. rewrite Hin by lia. test_true (i <? d). unfold dig.
        pose proof (itoa_lookup_range (digit r v i)). pose proof (digit_range r v i). lia. }
    { eapply filled_sep; [done|]. by apply (sep_range_le _ _ _ 33); [lia|]. }
    exists a', d. split_and!; [done|lia|lia|done|].
    assert (sep_range a buf (d + 1)) as Hs' by (apply (sep_range_le _ _ _ 33); [lia|done]).
    eapply filled_ext; [|exact (filled_trans _ _ _ _ d (d + 1) _ _ ltac:(lia) Hs' Hf Hrev)].
    intros j Hj. simpl. case_tests. rewrite Hin by lia. by test_true (d - 1 - j <? d).
Qed.
(** A property that byte stores in the buffer keep is kept by the routines. *)
Definition stores_keep (P : A -> Prop) (p n : Z) : Prop := forall a i v, P a -> 0 <= i < n -> P (put8 (p + i) v a).
Lemma strrev_keeps P s n m a a' : stores_keep P s n -> is_cstr (fun i => get8 a (s + i)) m -> m <= n < 4294967296 ->
  P a -> strrev s a = Some a' -> P a'.
Proof.
  intros HP Hm Hn Ha. unfold strrev. rewrite (strlen_some _ m) by (done || lia).
  pose proof (loop_inv (fun '((b, e, a) : Z * Z * A) => 0 <= b /\ e < m /\ P a) P (Z.to_pos (m + 1))
    (fun '(beg, fin, a) => if beg <? fin then
       let tmp := get8 a (s + fin) in let a := put8 (s + fin) (get8 a (s + beg)) a in
       let a := put8 (s + beg) tmp a in inl (beg + 1, fin - 1, a) else inr a) (0, s32 (m - 1), a)) as Hl.
  destruct (loop _ _ _) as [|b]; [done|]. intros [= <-]. apply Hl.
  - intros [[b0 e] c] (Hb & He & Hc). case_test; [|done]. split_and!; [lia|lia|]. apply HP; [apply HP; [done|lia]|lia].
  - destruct Hm as [Hm _]. split_and!; [lia|warith|done].
Qed.
Lemma itoa_keeps P v buf r a a' : stores_keep P buf 33 -> P a -> itoa v buf r a = Some a' -> P a'.
Proof.
  intros HP Ha. unfold itoa. destruct (v =? 0).
  { intros [= <-]. apply (HP _ 1); [|lia]. rewrite <- (Z.add_0_r buf) at 1. apply HP; [done|lia]. }
  destruct (u32 r =? 0); [done|].
  pose proof (loop_count (fun i '((p, w, b) : Z * Z * A) => p = buf + i /\ P b)
    (fun b => P b /\ exists k, 0 <= k < 33 /\ get8 b (buf + k) = 0) 33
    (fun '(newbuf, newval, a) => if 0 <? newval then
       let i := newval mod u32 r in inl (newbuf + 1, newval / u32 r, put8 newbuf (itoa_lookup i) a)
     else inr (put8 newbuf 0 a)) (buf, v, a)) as Hl.
  destruct (loop _ _ _) as [|b]; [done|]. intros Er. destruct Hl as [Hb (k & Hk & Hz)].
  - intros i [[p w] b0] Hi [-> Hb0]. case_test.
    + split; [lia|]. by apply HP.
    + split; [by apply HP|]. exists i. split; [done|]. apply get8_put8_same.
  - by rewrite Z.add_0_r.
  - unfold strrev in Er. destruct (strlen (fun i => get8 b (buf + i))) as [m|] eqn:Em; [|done].
    apply strlen_inv in Em as Hm. assert (m <= k).
    { destruct Hm as (Hm0 & _ & Hnz). destruct (Z.le_gt_cases m k); [done|]. by destruct (Hnz k ltac:(lia)). }
    apply (strrev_keeps P buf 33 m b); [done|done|lia|done|]. unfold strrev. by rewrite Em.
Qed.
End reverse.

(** ** Properties *)

(** A reference for numerals: the value of the [n] digits at [s] in base [r]. *)
Definition digit_value (c : Z) : Z := if c <? 58 then c - 48 else c - 55.
Definition numeral (r : Z) (s : Z -> Z) (n : Z) : Z :=
  fold_left (fun acc i => acc * r + digit_value (s i)) (seqZ 0 n) 0.

Lemma digit_value_lookup i : 0 <= i < 36 -> digit_value (itoa_lookup i) = i.
Proof. intros. unfold digit_value, itoa_lookup. case_tests. Qed.

Lemma numeral_snoc r s n : 0 <= n -> numeral r s (n + 1) = numeral r s n * r + digit_value (s n).
Proof. intros. unfold numeral. by rewrite seqZ_app, fold_left_app by lia. Qed.

(** The digits of [v] from the most significant on, read back. *)
Lemma numeral_digits r v d s : 2 <= r <= 36 -> 0 <= v < r ^ d ->
  (forall i, 0 <= i < d -> s i = itoa_lookup (digit r v (d - 1 - i))) ->
  forall n, 0 <= n <= d -> numeral r s n = v / r ^ (d - n).
Proof.
  intros Hr Hv Hs n Hn. revert n Hn.
  enough (forall n, 0 <= n -> n <= d -> numeral r s n = v / r ^ (d - n)) as Hall by (intros n Hn; apply Hall; lia).
  apply (natlike_ind (fun n => n <= d -> numeral r s n = v / r ^ (d - n))).
  - intros _. rewrite Z.sub_0_r, Z.div_small by done. done.
  - intros n Hn IH Hle. rewrite <- Z.add_1_r, numeral_snoc, IH, Hs by lia.
    pose proof (digit_range r v (d - 1 - n) ltac:(lia)) as Hdig.
    rewrite digit_value_lookup by lia. unfold digit in *.
    replace (d - n) with (d - 1 - n + 1) by lia.
    replace (d - (n + 1)) with (d - 1 - n) by lia.
    rewrite <- div_pow_succ by lia. pose proof (Z.div_mod (v / r ^ (d - 1 - n)) r). lia.
Qed.

Section properties.
Context `{ByteArr A}.
Implicit Types (a : A).

(** C37: [itoa] of a 32-bit value in a base of 2 to 36 ends with a string of at
    most 32 digits whose value in that base is the value given, with no
    leading zero, and touches only the 33 bytes of the buffer. *)
Theorem itoa_numeral v buf r a :
  0 <= v < 4294967296 -> 2 <= r <= 36 -> sep_range a buf 33 ->
  exists a' d, itoa v buf r a = Some a' /\ 1 <= d <= 32 /\
    is_cstr (fun i => get8 a' (buf + i)) d /\
    numeral r (fun i => get8 a' (buf + i)) d = v /\
    (v <> 0 -> get8 a' buf <> 48) /\
    forall j, outside a buf 33 j -> get8 a' j = get8 a j.
Proof.
  intros Hv Hr Hs. destruct (itoa_filled v buf r a Hv Hr Hs) as (a' & d & E & Hd & Hnd & Hf).
  pose proof (fun j => filled_outside _ _ _ _ _ j Hf) as Hout. destruct Hf as [Hin _].
  exists a', d. split; [done|]. split; [done|].
  assert (forall i, 0 <= i < d -> get8 a' (buf + i) = itoa_lookup (digit r v (d - 1 - i))) as Hdig
    by (intros i Hi; rewrite Hin by lia; by test_true (i <? d)).
  destruct Hnd as (_ & Hlt & Hmin). split_and!.
  - split; [lia|]. split.
    + rewrite Hin by lia. by test_false (d <? d).
    + intros i Hi. rewrite Hdig by done. pose proof (digit_range r v (d - 1 - i) ltac:(lia)).
      pose proof (itoa_lookup_range (digit r v (d - 1 - i)) ltac:(lia)). lia.
  - rewrite (numeral_digits r v d _ Hr) by (done || lia). by rewrite Z.sub_diag, Z.pow_0_r, Z.div_1_r.
  - intros Hv0 E0. destruct Hmin as [[? _]|Hmin]; [done|].
    rewrite <- (Z.add_0_r buf) in E0. rewrite Hdig, Z.sub_0_r in E0 by lia.
    assert (digit r v (d - 1) = 0) as Ed.
    { rewrite <- (digit_value_lookup (digit r v (d - 1))), E0; [done|].
      pose proof (digit_range r v (d - 1) ltac:(lia)). lia. }
    unfold digit in Ed. assert (0 < r ^ (d - 1)) by (apply Z.pow_pos_nonneg; lia).
    assert (r ^ d = r ^ (d - 1) * r) as Hp by (rewrite Z.mul_comm, <- Z.pow_succ_r by lia; f_equal; lia).
    rewrite Z.mod_small in Ed; [apply Z.div_small_iff in Ed; lia|].
    split; [apply Z.div_pos; lia|apply Z.div_lt_upper_bound; lia].
  - intros j Ho. apply Hout, (outside_le _ _ _ 33); [lia|done].
Qed.

(** [strncpy] stores [n] bytes: the source up to its NUL, then NULs; a
    source of [n] bytes or more is cut with no terminator. *)
Theorem strncpy_pads dest src n l a :
  0 <= l <= n -> (forall i, 0 <= i < l -> src a i <> 0) -> (l = n \/ src a l = 0) ->
  sep_range a dest n -> src_stable dest n n src -> (forall i, 0 <= src a i < 256) ->
  filled a (strncpy dest src n a) dest n (fun i => if i <? l then src a i else 0).
Proof. apply strncpy_filled. Qed.
End properties.

(** [strncmp] is zero exactly when the strings agree on their first [n]
    bytes or up to a common NUL; otherwise it is the difference, as signed
    bytes, at the first place where they differ. *)
Theorem strncmp_first_difference s1 s2 n :
  0 <= n -> is_bytes s1 -> is_bytes s2 ->
  (str_agree s1 s2 n /\ strncmp s1 s2 n = 0) \/
  (exists i, 0 <= i < n /\ s1 i <> s2 i /\ (forall j, 0 <= j < i -> s1 j = s2 j /\ s1 j <> 0) /\
     strncmp s1 s2 n = s8 (s1 i) - s8 (s2 i) /\ strncmp s1 s2 n <> 0).
Proof.
  intros Hn H1 H2. apply (strncmp_rule s1 s2 n (fun r => (str_agree s1 s2 n /\ r = 0) \/
    (exists i, 0 <= i < n /\ s1 i <> s2 i /\ (forall j, 0 <= j < i -> s1 j = s2 j /\ s1 j <> 0) /\
     r = s8 (s1 i) - s8 (s2 i) /\ r <> 0))); [done..|by left|].
  intros i Hi Hne Hpre. right. exists i. split_and!; [lia|lia|done|done|done|].
  intros E. apply Hne, s8_inj; [done|done|lia].
Qed.

(** [strlen] gives the index of the first NUL, whatever the distance below
    2^32, and only that. *)
Theorem strlen_first_nul s n :
  n < 4294967296 -> strlen s = Some n <-> 0 <= n /\ s n = 0 /\ forall i, 0 <= i < n -> s i <> 0.
Proof. intros Hn. split; [apply strlen_inv|]. intros Hc. by apply strlen_some. Qed.

(** ** Concrete runs *)

Lemma itoa_numeral_witness :
  exists a' d, itoa 0xBEEF 4 16 (∅ : mem) = Some a' /\ 1 <= d <= 32 /\
    numeral 16 (fun i => get8 a' (4 + i)) d = 0xBEEF.
Proof.
  destruct (itoa_numeral 0xBEEF 4 16 (∅ : mem)) as (a' & d & E & Hd & _ & Hn & _);
    [done|done|apply mem_sep_range|].
  by exists a', d.
Defined.

(** The two names "cat" and "car". *)
Definition str_cat (i : Z) : Z := match i with 0 => 99 | 1 => 97 | 2 => 116 | _ => 0 end.
Definition str_car (i : Z) : Z := match i with 0 => 99 | 1 => 97 | 2 => 114 | _ => 0 end.

Lemma str_cat_bytes : is_bytes str_cat.
Proof. intros i. unfold str_cat. repeat case_match; lia. Qed.
Lemma str_car_bytes : is_bytes str_car.
Proof. intros i. unfold str_car. repeat case_match; lia. Qed.

Lemma strncpy_pads_witness :
  filled (∅ : mem) (strncpy 8 (fun _ => str_cat) 5 (∅ : mem)) 8 5 (fun i => if i <? 3 then str_cat i else 0).
Proof.
  apply (strncpy_pads 8 (fun (_ : mem) => str_cat) 5 3 ∅);
    [done| |by right|apply mem_sep_range|done|apply str_cat_bytes].
  intros i Hi. assert (i = 0 \/ i = 1 \/ i = 2) as [-> | [-> | ->]] by lia; done.
Defined.

Lemma strncmp_first_difference_witness :
  (str_agree str_cat str_car 32 /\ strncmp str_cat str_car 32 = 0) \/
  (exists i, 0 <= i < 32 /\ str_cat i <> str_car i /\
     (forall j, 0 <= j < i -> str_cat j = str_car j /\ str_cat j <> 0) /\
     strncmp str_cat str_car 32 = s8 (str_cat i) - s8 (str_car i) /\ strncmp str_cat str_car 32 <> 0).
Proof. apply (strncmp_first_difference str_cat str_car 32); [done|apply str_cat_bytes|apply str_car_bytes]. Defined.

Lemma strlen_first_nul_witness :
  strlen str_cat = Some 3 <-> 0 <= 3 /\ str_cat 3 = 0 /\ forall i, 0 <= i < 3 -> str_cat i <> 0.
Proof. apply (strlen_first_nul str_cat 3). done. Defined.
