(* ===== verification/CMem.v ===== *)
(** The block operations of lib.c (lines 408-560), written in inline assembly:
    [memset], [memset_word], [memset_dword], [memcpy] and [memmove].

    The registers of each loop are its state ([edi], [esi], [ecx], [edx]); a
    [rep] string instruction is a counted loop of byte, word or dword moves, the
    direction flag being clear unless [std] was executed. *)

From S2P Require Import Prelude Bytes.
#[local] Open Scope Z_scope.
#[local] Open Scope kernel_scope.

Section blocks.
Context `{ByteArr A}.
Implicit Types (a : A).

(** The bytes up to the first dword boundary of the destination. [step] is
    the byte move; the result is the state at [.memset_aligned] /
    [.memcpy_aligned], or at the end. *)
Definition align_loop (step : Z -> A -> A) (edi ecx : Z) (a : A) : Z * Z * A :=
  loop_or (edi, 0, a) (Z.to_pos (ecx + 1))
    (fun '(i, ecx, a) =>
       if ecx =? 0 then inr (i, ecx, a)
       else if Z.land (edi + i) 3 =? 0 then inr (i, ecx, a)
       else inl (i + 1, ecx - 1, step i a)) (0, ecx, a).

(** lib.c [memset]. *)
Definition memset (s c n : Z) (a : A) : A :=
  let c := Z.land c 255 in
  let eax := Z.lor (Z.lor (Z.lor (Z.shiftl c 24) (Z.shiftl c 16)) (Z.shiftl c 8)) c in
  let '(i, ecx, a) := align_loop (fun i => put8 (s + i) eax) s n a in
  let edx := Z.land ecx 3 in
  let ecx := Z.shiftr ecx 2 in
  let a := for_loop 0 ecx (fun k => put32 (s + (i + 4 * k)) eax) a in
  for_loop 0 edx (fun k => put8 (s + (i + 4 * ecx + k)) eax) a.

(** lib.c [memset_word]: [rep stosw] stores [n] words. *)
Definition memset_word (s c n : Z) (a : A) : A :=
  for_loop 0 n (fun k a => put8 (s + 2 * k + 1) (Z.shiftr c 8) (put8 (s + 2 * k) c a)) a.

(** lib.c [memset_dword]: [rep stosl] stores [n] dwords. *)
Definition memset_dword (s c n : Z) (a : A) : A :=
  for_loop 0 n (fun k => put32 (s + 4 * k) c) a.

(** lib.c [memcpy]. *)
Definition memcpy (dest src n : Z) (a : A) : A :=
  let '(i, ecx, a) :=
    align_loop (fun i a => put8 (dest + i) (get8 a (src + i)) a) dest n a in
  let edx := Z.land ecx 3 in
  let ecx := Z.shiftr ecx 2 in
  let a := for_loop 0 ecx (fun k a => put32 (dest + (i + 4 * k)) (get32 a (src + (i + 4 * k))) a) a in
  for_loop 0 edx
    (fun k a => put8 (dest + (i + 4 * ecx + k)) (get8 a (src + (i + 4 * ecx + k))) a) a.

(** lib.c [memmove]: the result is the memory and the direction flag on return. *)
Definition memmove (dest src n : Z) (a : A) : A * bool :=
  if dest <=? src then
    (for_loop 0 n (fun k a => put8 (dest + k) (get8 a (src + k)) a) a, false)
  else
    let esi := src + n - 1 in
    let edi := dest + n - 1 in
    (for_loop 0 n (fun k a => put8 (edi - k) (get8 a (esi - k)) a) a, true).

(** ** The assembly against the byte-by-byte reference *)

Lemma land3_shiftr2 n : 0 <= n -> 4 * Z.shiftr n 2 + Z.land n 3 = n /\ 0 <= Z.land n 3 < 4 /\ 0 <= Z.shiftr n 2.
Proof.
  intros. change 3 with (Z.ones 2). rewrite Z.land_ones, Z.shiftr_div_pow2 by lia.
  change (2 ^ 2) with 4. split_and!; Z.div_mod_to_equations; lia.
Qed.

(** The shape the fills share: bytes until aligned, dwords, the last bytes. *)
Lemma align_loop_filled step p q n a0 a f (Pre : A -> Prop) :
  sep_range a0 p n -> 0 <= n -> filled a0 a p 0 f -> Pre a ->
  (forall i b, 0 <= i < n -> filled a0 b p i f -> Pre b ->
     filled a0 (step i b) p (i + 1) f /\ Pre (step i b)) ->
  let '(i, ecx, b) := align_loop step q n a in
  0 <= i /\ 0 <= ecx /\ i + ecx = n /\ filled a0 b p i f /\ Pre b.
Proof.
  intros Hs Hn Hf HP Hstep. unfold align_loop.
  apply (loop_or_rule
    (fun '(i, ecx, b) => 0 <= i /\ 0 <= ecx /\ i + ecx = n /\ filled a0 b p i f /\ Pre b)
    (fun '((_, ecx, _) : Z * Z * A) => ecx)); [|split_and!; (done || lia)|lia].
  intros [[i ecx] b] (Hi & He & Hsum & Hb & HPb).
  destruct (Z.eqb_spec ecx 0); [by split_and!|].
  destruct (Z.land (q + i) 3 =? 0); [by split_and!|].
  destruct (Hstep i b) as [? ?]; [lia|done..|]. split_and!; (done || lia).
Qed.

(** The byte replicated in [eax] by [memset]. *)
Lemma replicate_byte c j : 0 <= c < 256 -> 0 <= j < 4 ->
  u8 (Z.shiftr (Z.lor (Z.lor (Z.lor (Z.shiftl c 24) (Z.shiftl c 16)) (Z.shiftl c 8)) c) (8 * j)) = c.
Proof.
  intros Hc Hj.
  pose proof (range_check (fun c => forallb (fun j => u8 (Z.shiftr (Z.lor (Z.lor (Z.lor
    (Z.shiftl c 24) (Z.shiftl c 16)) (Z.shiftl c 8)) c) (8 * j)) =? c) (seqZ 0 4)) 0 256) as Hr.
  specialize (Hr ltac:(vm_compute; reflexivity) c Hc). cbv beta in Hr.
  pose proof (range_check _ 0 4 Hr j Hj) as Hj'. by apply Z.eqb_eq in Hj'.
Qed.

(** The dword phase and the last bytes, after [align_loop]. *)
Lemma dwords_filled a0 a p n i ecx f (step4 step1 : Z -> A -> A) (Pre : A -> Prop) :
  0 <= i -> 0 <= ecx -> i + ecx = n -> filled a0 a p i f -> Pre a ->
  (forall k b, 0 <= k -> k + 4 <= n -> filled a0 b p k f -> Pre b ->
     filled a0 (step4 k b) p (k + 4) f /\ Pre (step4 k b)) ->
  (forall k b, 0 <= k < n -> filled a0 b p k f -> Pre b ->
     filled a0 (step1 k b) p (k + 1) f /\ Pre (step1 k b)) ->
  filled a0 (for_loop 0 (Z.land ecx 3) (fun k => step1 (i + 4 * Z.shiftr ecx 2 + k))
               (for_loop 0 (Z.shiftr ecx 2) (fun k => step4 (i + 4 * k)) a)) p n f.
Proof.
  intros Hi He Hsum Hf HP H4 H1. destruct (land3_shiftr2 ecx He) as (Hd & Hr & Hq).
  set (q := Z.shiftr ecx 2) in *. set (r := Z.land ecx 3) in *.
  assert (filled a0 (for_loop 0 q (fun k => step4 (i + 4 * k)) a) p (i + 4 * q) f /\
          Pre (for_loop 0 q (fun k => step4 (i + 4 * k)) a)) as [Hf' HP'].
  { apply (for_loop_rule (fun k b => filled a0 b p (i + 4 * k) f /\ Pre b)); [done| |].
    - by rewrite Z.mul_0_r, Z.add_0_r.
    - intros k b Hk [Hb HPb]. replace (i + 4 * (k + 1)) with (i + 4 * k + 4) by lia.
      apply H4; (done || lia). }
  replace n with (i + 4 * q + r) by lia.
  apply (for_loop_rule (fun k b => filled a0 b p (i + 4 * q + k) f /\ Pre b)); [lia| |].
  - by rewrite Z.add_0_r.
  - intros k b Hk [Hb HPb]. rewrite Z.add_assoc. apply H1; (done || lia).
Qed.

(** [memset] stores [n] copies of the low byte of [c], and nothing else. *)
Lemma memset_filled s c n a :
  0 <= n -> sep_range a s n -> filled a (memset s c n a) s n (fun _ => u8 c).
Proof.
  intros Hn Hs. unfold memset.
  assert (Z.land c 255 = u8 c) as -> by (change 255 with (Z.ones 8); by rewrite Z.land_ones by lia).
  pose proof (fun j => replicate_byte (u8 c) j (u8_range c)) as He.
  set (eax := Z.lor _ (u8 c)) in *.
  assert (forall i b, 0 <= i < n -> filled a b s i (fun _ => u8 c) -> True ->
            filled a (put8 (s + i) eax b) s (i + 1) (fun _ => u8 c) /\ True) as H1.
  { intros i b Hi Hb _. split; [|done]. apply (filled_snoc _ _ _ n); [done|done| |done].
    rewrite <- (He 0) by lia. by rewrite Z.shiftr_0_r. }
  pose proof (align_loop_filled (fun i => put8 (s + i) eax) s s n a a (fun _ => u8 c)
    (fun _ => True) Hs Hn (filled_nil _ _ _) I H1) as Hal.
  destruct (align_loop _ s n a) as [[i ecx] b]. destruct Hal as (Hi & Hecx & Hsum & Hf & _).
  apply (dwords_filled a b s n i ecx _ (fun k => put32 (s + k) eax)
           (fun k => put8 (s + k) eax) (fun _ => True)); (done || lia || auto).
  intros k b' Hk Hk4 Hb' _. split; [|done].
  apply (filled_snoc4 _ _ _ n); (done || lia || auto).
Qed.

(** The bytes of [src .. src + n) lie outside [dest .. dest + n). *)
Definition disjoint_ranges (a : A) (dest src n : Z) : Prop :=
  forall i, 0 <= i < n -> outside a dest n (src + i).

Lemma copy_src a b dest src n k i : disjoint_ranges a dest src n -> k <= n -> 0 <= i < n ->
  filled a b dest k (fun i => get8 a (src + i)) -> get8 b (src + i) = get8 a (src + i).
Proof.
  intros Hd Hk Hi Hf. apply (filled_outside _ _ _ _ _ _ Hf), (outside_le _ _ _ n); [lia|]. by apply Hd.
Qed.

(** [memcpy] on disjoint ranges copies [n] bytes, and changes nothing else. *)
Lemma memcpy_filled dest src n a :
  0 <= n -> sep_range a dest n -> disjoint_ranges a dest src n ->
  filled a (memcpy dest src n a) dest n (fun i => get8 a (src + i)).
Proof.
  intros Hn Hs Hd. unfold memcpy. set (f := fun i => get8 a (src + i)).
  assert (forall i b, 0 <= i < n -> filled a b dest i f -> True ->
            filled a (put8 (dest + i) (get8 b (src + i)) b) dest (i + 1) f /\ True) as H1.
  { intros i b Hi Hb _. split; [|done]. apply (filled_snoc _ _ _ n); [done|done| |done].
    rewrite u8_small by apply get8_range. by apply (copy_src _ _ dest _ n i); [|lia|..]. }
  pose proof (align_loop_filled (fun i a => put8 (dest + i) (get8 a (src + i)) a) dest dest n a a f
    (fun _ => True) Hs Hn (filled_nil _ _ _) I H1) as Hal.
  destruct (align_loop _ dest n a) as [[i ecx] b]. destruct Hal as (Hi & Hecx & Hsum & Hf & _).
  apply (dwords_filled a b dest n i ecx f
           (fun k a => put32 (dest + k) (get32 a (src + k)) a)
           (fun k a => put8 (dest + k) (get8 a (src + k)) a) (fun _ => True)); (done || lia || auto).
  intros k b' Hk Hk4 Hb' _. split; [|done].
  apply (filled_snoc4 _ _ _ n); [done|lia|lia| |done].
  intros j Hj. rewrite get32_byte, <- Z.add_assoc by done.
  by apply (copy_src _ _ dest _ n k); [|lia|lia|].
Qed.

Lemma memset_dword_filled s c n a :
  0 <= n -> sep_range a s (4 * n) ->
  filled a (memset_dword s c n a) s (4 * n) (fun i => u8 (Z.shiftr c (8 * (i mod 4)))).
Proof.
  intros Hn Hs. unfold memset_dword.
  apply (for_loop_rule (fun k b => filled a b s (4 * k) _)); [lia|apply filled_nil|].
  intros k b Hk Hb. replace (4 * (k + 1)) with (4 * k + 4) by lia.
  apply (filled_snoc4 _ _ _ (4 * n)); [done|lia|lia| |done].
  intros j Hj. do 3 f_equal. Z.div_mod_to_equations; lia.
Qed.

Lemma memset_word_filled s c n a :
  0 <= n -> sep_range a s (2 * n) ->
  filled a (memset_word s c n a) s (2 * n) (fun i => u8 (Z.shiftr c (8 * (i mod 2)))).
Proof.
  intros Hn Hs. unfold memset_word.
  apply (for_loop_rule (fun k b => filled a b s (2 * k) _)); [lia|apply filled_nil|].
  intros k b Hk Hb. replace (2 * (k + 1)) with (2 * k + 1 + 1) by lia. rewrite <- Z.add_assoc.
  apply (filled_snoc _ _ _ (2 * n)); [done|lia| |].
  - do 3 f_equal. Z.div_mod_to_equations; lia.
  - apply (filled_snoc _ _ _ (2 * n)); [done|lia| |done].
    rewrite <- (Z.shiftr_0_r c) at 1. do 3 f_equal. Z.div_mod_to_equations; lia.
Qed.
End blocks.

(** [memmove] copies correctly whatever the overlap of the two ranges. *)
Lemma memmove_bytes dest src n (m : mem) :
  0 <= n -> forall j, get8 (memmove dest src n m).1 j =
    if (dest <=? j) && (j <? dest + n) then get8 m (src + (j - dest)) else get8 m j.
Proof.
  intros Hn j. unfold memmove. destruct (Z.leb_spec dest src) as [Hle|Hgt]; cbn [fst].
  - assert (forall j, get8 (for_loop 0 n (fun k a => put8 (dest + k) (get8 a (src + k)) a) m) j =
      if (dest <=? j) && (j <? dest + n) then get8 m (src + (j - dest)) else get8 m j) as Hf; [|apply Hf].
    clear j. apply (for_loop_rule (fun k b => forall j, get8 b j =
      if (dest <=? j) && (j <? dest + k) then get8 m (src + (j - dest)) else get8 m j)); [lia| |].
    + intros j. by test_false ((dest <=? j) && (j <? dest + 0)).
    + intros k b Hk Hb j. rewrite get8_put8. change (loc b) with (fun i : Z => i). cbv beta.
      rewrite u8_small by apply get8_range. rewrite !Hb.
      case_tests; do 2 f_equal; lia.
  - revert j.
    assert (forall j, get8 (for_loop 0 n (fun k a => put8 (dest + n - 1 - k)
        (get8 a (src + n - 1 - k)) a) m) j =
      if (dest + (n - n) <=? j) && (j <? dest + n) then get8 m (src + (j - dest)) else get8 m j) as Hf.
    2: { intros j. rewrite Hf. by replace (dest + (n - n)) with dest by lia. }
    apply (for_loop_rule (fun k b => forall j, get8 b j =
      if (dest + (n - k) <=? j) && (j <? dest + n) then get8 m (src + (j - dest)) else get8 m j)); [lia| |].
    + intros j. by test_false ((dest + (n - 0) <=? j) && (j <? dest + n)).
    + intros k b Hk Hb j. rewrite get8_put8. change (loc b) with (fun i : Z => i). cbv beta.
      rewrite u8_small by apply get8_range. rewrite !Hb.
      case_tests; do 2 f_equal; lia.
Qed.

(** ** Properties *)

Section properties.
Context `{ByteArr A}.
Implicit Types (a : A).

(** C36: [memcpy], which copies bytes up to an aligned address, then words,
    then the bytes left, copies exactly the [n] bytes of a source disjoint
    from its destination, whatever the alignment. *)
Theorem memcpy_copies dest src n a :
  0 <= n -> sep_range a dest n -> disjoint_ranges a dest src n ->
  filled a (memcpy dest src n a) dest n (fun i => get8 a (src + i)).
Proof. apply memcpy_filled. Qed.

(** [memset] stores the low byte of its argument [n] times, whatever the
    alignment, and nothing else. *)
Theorem memset_fills s c n a :
  0 <= n -> sep_range a s n -> filled a (memset s c n a) s n (fun _ => u8 c).
Proof. apply memset_filled. Qed.
End properties.

(** [memmove] leaves at its destination the bytes its source had, whatever
    the overlap, and changes nothing else; it leaves the direction flag set
    exactly when it copied backwards. *)
Theorem memmove_overlap dest src n (m : mem) :
  0 <= n ->
  (forall j, get8 (memmove dest src n m).1 j =
     if (dest <=? j) && (j <? dest + n) then get8 m (src + (j - dest)) else get8 m j) /\
  ((memmove dest src n m).2 = true <-> src < dest).
Proof.
  intros Hn. split; [by apply memmove_bytes|]. unfold memmove.
  destruct (Z.leb_spec dest src); cbn [snd]; split; (done || lia).
Qed.

(** ** Concrete runs *)

Lemma memcpy_copies_witness :
  filled (∅ : mem) (memcpy 3 40 11 (∅ : mem)) 3 11 (fun i => get8 (∅ : mem) (40 + i)).
Proof.
  apply (memcpy_copies 3 40 11 (∅ : mem)); [done|apply mem_sep_range|].
  intros i Hi. apply mem_outside. lia.
Defined.

Lemma memset_fills_witness :
  filled (∅ : mem) (memset 5 0x2A 7 (∅ : mem)) 5 7 (fun _ => 42).
Proof. apply (memset_fills 5 0x2A 7 (∅ : mem)); [done|apply mem_sep_range]. Defined.

Lemma memmove_overlap_witness :
  (forall j, get8 (memmove 2 0 4 (∅ : mem)).1 j =
     if (2 <=? j) && (j <? 2 + 4) then get8 (∅ : mem) (0 + (j - 2)) else get8 (∅ : mem) j) /\
  ((memmove 2 0 4 (∅ : mem)).2 = true <-> 0 < 2).
Proof. apply (memmove_overlap 2 0 4 (∅ : mem)). done. Defined.
