(* ===== verification/State.v ===== *)
(** The data of the kernel, its state, and the monad its code runs in.

    Structures and globals of the C headers are records, with an update
    [r <| f := v |>] per field. Memory reached through byte pointers (video
    memory, the file system image, user buffers) is one physical memory seen
    through the page tables of the state; the structures the code reaches only
    through their fields (PCBs, terminals) are records indexed by address or
    number. Device accesses go to a trace of port events, answered by the
    environment. *)

From S2P Require Import Prelude Bytes.
#[local] Open Scope Z_scope.
#[local] Open Scope kernel_scope.

(** ** Record update *)

Class Upd {R E} (f : R -> E) := upd_by : E -> R -> R.
Definition upd {R E} (f : R -> E) `{Upd R E f} : E -> R -> R := upd_by.
Arguments upd {R E} f {_} _ _ /.
Arguments upd_by {R E} f {_} _ _ /.
Notation "r <| f := v |>" := (upd f v r)
  (at level 1, left associativity, f constr, v constr, format "r <| f  :=  v |>") : kernel_scope.
Definition upd2 {R S E} (g : R -> S) (f : S -> E) `{Upd R S g} `{Upd S E f} (v : E) (r : R) : R :=
  upd g (upd f v (g r)) r.
Arguments upd2 {R S E} g f {_ _} _ _ /.
Notation "r <| g ; f := v |>" := (upd2 g f v r)
  (at level 1, left associativity, g constr, f constr, v constr, format "r <| g ; f  :=  v |>") : kernel_scope.

(** ** Data *)

(** A file-operations pointer: [NULL] or the address of a jump table. *)
Inductive fops_ref := FopsNull | FopsFiles | FopsDirectory | FopsRtc | FopsStdin | FopsStdout.

(** The functions the jump tables hold. *)
Inductive fn :=
  | FnNull
  | Fn_file_open | Fn_file_close | Fn_file_read | Fn_file_write
  | Fn_directory_open | Fn_directory_close | Fn_directory_read | Fn_directory_write
  | Fn_open_rtc | Fn_close_rtc | Fn_read_rtc | Fn_write_rtc
  | Fn_read_terminal | Fn_write_terminal | Fn_read_failure | Fn_write_failure.

(** The four scan-code tables [pointer] of keyboard.c selects from. *)
Inductive key_table := Lower | Uppershift | Caps | Lowershift.

#[export] Instance fops_ref_eq_dec : EqDecision fops_ref.
Proof. solve_decision. Defined.
#[export] Instance fn_eq_dec : EqDecision fn.
Proof. solve_decision. Defined.
#[export] Instance key_table_eq_dec : EqDecision key_table.
Proof. solve_decision. Defined.

(** Port accesses, and interrupt lines. *)
Inductive port_event := POut (port data : Z) | PIn (port data : Z).
Inductive irq := IRQ_PIT | IRQ_KBD | IRQ_RTC.
#[export] Instance irq_eq_dec : EqDecision irq.
Proof. solve_decision. Defined.

(** filesys.h [file_descriptor_t]. *)
Record file_descriptor_t := FileDescriptor {
  fops_ptr : fops_ref;
  inode : Z;
  file_pos : Z;
  flags : Z
}.
#[export] Instance upd_fops_ptr : Upd fops_ptr := fun v r => FileDescriptor v (inode r) (file_pos r) (flags r).
#[export] Instance upd_inode : Upd inode := fun v r => FileDescriptor (fops_ptr r) v (file_pos r) (flags r).
#[export] Instance upd_file_pos : Upd file_pos := fun v r => FileDescriptor (fops_ptr r) (inode r) v (flags r).
#[export] Instance upd_flags : Upd flags := fun v r => FileDescriptor (fops_ptr r) (inode r) (file_pos r) v.

Definition fd_zero : file_descriptor_t := FileDescriptor FopsNull 0 0 0.

(** filesys.h [pcb_t]; [parent] is an address, 0 for [NULL]. *)
Record pcb_t := Pcb {
  fds : gmap Z file_descriptor_t;
  args : mem;
  ksp : Z;
  kbp : Z;
  pid : Z;
  state : Z;
  ss0 : Z;
  esp0 : Z;
  terminal : Z;
  vidmap_field : Z;
  parent : Z
}.
#[export] Instance upd_fds : Upd fds := fun v r => Pcb v (args r) (ksp r) (kbp r) (pid r) (state r) (ss0 r) (esp0 r) (terminal r) (vidmap_field r) (parent r).
#[export] Instance upd_args : Upd args := fun v r => Pcb (fds r) v (ksp r) (kbp r) (pid r) (state r) (ss0 r) (esp0 r) (terminal r) (vidmap_field r) (parent r).
#[export] Instance upd_ksp : Upd ksp := fun v r => Pcb (fds r) (args r) v (kbp r) (pid r) (state r) (ss0 r) (esp0 r) (terminal r) (vidmap_field r) (parent r).
#[export] Instance upd_kbp : Upd kbp := fun v r => Pcb (fds r) (args r) (ksp r) v (pid r) (state r) (ss0 r) (esp0 r) (terminal r) (vidmap_field r) (parent r).
#[export] Instance upd_pid : Upd pid := fun v r => Pcb (fds r) (args r) (ksp r) (kbp r) v (state r) (ss0 r) (esp0 r) (terminal r) (vidmap_field r) (parent r).
#[export] Instance upd_state : Upd state := fun v r => Pcb (fds r) (args r) (ksp r) (kbp r) (pid r) v (ss0 r) (esp0 r) (terminal r) (vidmap_field r) (parent r).
#[export] Instance upd_ss0 : Upd ss0 := fun v r => Pcb (fds r) (args r) (ksp r) (kbp r) (pid r) (state r) v (esp0 r) (terminal r) (vidmap_field r) (parent r).
#[export] Instance upd_esp0 : Upd esp0 := fun v r => Pcb (fds r) (args r) (ksp r) (kbp r) (pid r) (state r) (ss0 r) v (terminal r) (vidmap_field r) (parent r).
#[export] Instance upd_terminal : Upd terminal := fun v r => Pcb (fds r) (args r) (ksp r) (kbp r) (pid r) (state r) (ss0 r) (esp0 r) v (vidmap_field r) (parent r).
#[export] Instance upd_vidmap_field : Upd vidmap_field := fun v r => Pcb (fds r) (args r) (ksp r) (kbp r) (pid r) (state r) (ss0 r) (esp0 r) (terminal r) v (parent r).
#[export] Instance upd_parent : Upd parent := fun v r => Pcb (fds r) (args r) (ksp r) (kbp r) (pid r) (state r) (ss0 r) (esp0 r) (terminal r) (vidmap_field r) v.

Definition pcb_zero : pcb_t := Pcb ∅ ∅ 0 0 0 0 0 0 0 0 0.

(** syscall.h [terminal_t]. *)
Record terminal_t := Terminal {
  processes : gmap Z Z;
  active_process : Z;
  term_screen_x : Z;
  term_screen_y : Z;
  keyboard_buf : mem;
  terminal_flag : Z;
  buffer_enable : Z
}.
#[export] Instance upd_processes : Upd processes := fun v r => Terminal v (active_process r) (term_screen_x r) (term_screen_y r) (keyboard_buf r) (terminal_flag r) (buffer_enable r).
#[export] Instance upd_active_process : Upd active_process := fun v r => Terminal (processes r) v (term_screen_x r) (term_screen_y r) (keyboard_buf r) (terminal_flag r) (buffer_enable r).
#[export] Instance upd_term_screen_x : Upd term_screen_x := fun v r => Terminal (processes r) (active_process r) v (term_screen_y r) (keyboard_buf r) (terminal_flag r) (buffer_enable r).
#[export] Instance upd_term_screen_y : Upd term_screen_y := fun v r => Terminal (processes r) (active_process r) (term_screen_x r) v (keyboard_buf r) (terminal_flag r) (buffer_enable r).
#[export] Instance upd_keyboard_buf : Upd keyboard_buf := fun v r => Terminal (processes r) (active_process r) (term_screen_x r) (term_screen_y r) v (terminal_flag r) (buffer_enable r).
#[export] Instance upd_terminal_flag : Upd terminal_flag := fun v r => Terminal (processes r) (active_process r) (term_screen_x r) (term_screen_y r) (keyboard_buf r) v (buffer_enable r).
#[export] Instance upd_buffer_enable : Upd buffer_enable := fun v r => Terminal (processes r) (active_process r) (term_screen_x r) (term_screen_y r) (keyboard_buf r) (terminal_flag r) v.

Definition terminal_zero : terminal_t := Terminal ∅ 0 0 0 ∅ 0 0.

(** filesys.h [file_operations_t]. *)
Record file_operations_t := FileOperations {
  op_open : fn;
  op_close : fn;
  op_read : fn;
  op_write : fn
}.
#[export] Instance upd_op_open : Upd op_open := fun v r => FileOperations v (op_close r) (op_read r) (op_write r).
#[export] Instance upd_op_close : Upd op_close := fun v r => FileOperations (op_open r) v (op_read r) (op_write r).
#[export] Instance upd_op_read : Upd op_read := fun v r => FileOperations (op_open r) (op_close r) v (op_write r).
#[export] Instance upd_op_write : Upd op_write := fun v r => FileOperations (op_open r) (op_close r) (op_read r) v.

Definition fops_zero : file_operations_t := FileOperations FnNull FnNull FnNull FnNull.

(** The jump tables of syscall.c. *)
Record jump_tables := JumpTables {
  files_table : file_operations_t;
  directory_table : file_operations_t;
  rtc_table : file_operations_t;
  stdin_table : file_operations_t;
  stdout_table : file_operations_t
}.
#[export] Instance upd_files_table : Upd files_table := fun v r => JumpTables v (directory_table r) (rtc_table r) (stdin_table r) (stdout_table r).
#[export] Instance upd_directory_table : Upd directory_table := fun v r => JumpTables (files_table r) v (rtc_table r) (stdin_table r) (stdout_table r).
#[export] Instance upd_rtc_table : Upd rtc_table := fun v r => JumpTables (files_table r) (directory_table r) v (stdin_table r) (stdout_table r).
#[export] Instance upd_stdin_table : Upd stdin_table := fun v r => JumpTables (files_table r) (directory_table r) (rtc_table r) v (stdout_table r).
#[export] Instance upd_stdout_table : Upd stdout_table := fun v r => JumpTables (files_table r) (directory_table r) (rtc_table r) (stdin_table r) v.

(** The cursor of lib.c. *)
Record console := Console {
  screen_x : Z;
  screen_y : Z
}.
#[export] Instance upd_screen_x : Upd screen_x := fun v r => Console v (screen_y r).
#[export] Instance upd_screen_y : Upd screen_y := fun v r => Console (screen_x r) v.

(** The masks of i8259.c. *)
Record pic_state := Pic {
  master_mask : Z;
  slave_mask : Z
}.
#[export] Instance upd_master_mask : Upd master_mask := fun v r => Pic v (slave_mask r).
#[export] Instance upd_slave_mask : Upd slave_mask := fun v r => Pic (master_mask r) v.

(** The globals of rtc.c. *)
Record rtc_state := Rtc {
  interrupt_rtc : Z;
  freq_value : Z
}.
#[export] Instance upd_interrupt_rtc : Upd interrupt_rtc := fun v r => Rtc v (freq_value r).
#[export] Instance upd_freq_value : Upd freq_value := fun v r => Rtc (interrupt_rtc r) v.

(** The globals of filesys.c. *)
Record fs_state := Fs {
  bootblock_addr : Z;
  dir_count : Z;
  inode_count : Z;
  data_count : Z;
  inodes : Z;
  num_files_read : Z
}.
#[export] Instance upd_bootblock_addr : Upd bootblock_addr := fun v r => Fs v (dir_count r) (inode_count r) (data_count r) (inodes r) (num_files_read r).
#[export] Instance upd_dir_count : Upd dir_count := fun v r => Fs (bootblock_addr r) v (inode_count r) (data_count r) (inodes r) (num_files_read r).
#[export] Instance upd_inode_count : Upd inode_count := fun v r => Fs (bootblock_addr r) (dir_count r) v (data_count r) (inodes r) (num_files_read r).
#[export] Instance upd_data_count : Upd data_count := fun v r => Fs (bootblock_addr r) (dir_count r) (inode_count r) v (inodes r) (num_files_read r).
#[export] Instance upd_inodes : Upd inodes := fun v r => Fs (bootblock_addr r) (dir_count r) (inode_count r) (data_count r) v (num_files_read r).
#[export] Instance upd_num_files_read : Upd num_files_read := fun v r => Fs (bootblock_addr r) (dir_count r) (inode_count r) (data_count r) (inodes r) v.

(** The globals of keyboard.c. *)
Record kbd_state := Kbd {
  flag : Z;
  pointer : key_table;
  case_status : Z;
  control_status : Z;
  alt_status : Z;
  caps_enable : Z;
  is_alphabet : Z;
  enter_read : gmap Z Z;
  number_printed_line : Z;
  index : gmap Z Z;
  disp_term_k : Z
}.
#[export] Instance upd_flag : Upd flag := fun v r => Kbd v (pointer r) (case_status r) (control_status r) (alt_status r) (caps_enable r) (is_alphabet r) (enter_read r) (number_printed_line r) (index r) (disp_term_k r).
#[export] Instance upd_pointer : Upd pointer := fun v r => Kbd (flag r) v (case_status r) (control_status r) (alt_status r) (caps_enable r) (is_alphabet r) (enter_read r) (number_printed_line r) (index r) (disp_term_k r).
#[export] Instance upd_case_status : Upd case_status := fun v r => Kbd (flag r) (pointer r) v (control_status r) (alt_status r) (caps_enable r) (is_alphabet r) (enter_read r) (number_printed_line r) (index r) (disp_term_k r).
#[export] Instance upd_control_status : Upd control_status := fun v r => Kbd (flag r) (pointer r) (case_status r) v (alt_status r) (caps_enable r) (is_alphabet r) (enter_read r) (number_printed_line r) (index r) (disp_term_k r).
#[export] Instance upd_alt_status : Upd alt_status := fun v r => Kbd (flag r) (pointer r) (case_status r) (control_status r) v (caps_enable r) (is_alphabet r) (enter_read r) (number_printed_line r) (index r) (disp_term_k r).
#[export] Instance upd_caps_enable : Upd caps_enable := fun v r => Kbd (flag r) (pointer r) (case_status r) (control_status r) (alt_status r) v (is_alphabet r) (enter_read r) (number_printed_line r) (index r) (disp_term_k r).
#[export] Instance upd_is_alphabet : Upd is_alphabet := fun v r => Kbd (flag r) (pointer r) (case_status r) (control_status r) (alt_status r) (caps_enable r) v (enter_read r) (number_printed_line r) (index r) (disp_term_k r).
#[export] Instance upd_enter_read : Upd enter_read := fun v r => Kbd (flag r) (pointer r) (case_status r) (control_status r) (alt_status r) (caps_enable r) (is_alphabet r) v (number_printed_line r) (index r) (disp_term_k r).
#[export] Instance upd_number_printed_line : Upd number_printed_line := fun v r => Kbd (flag r) (pointer r) (case_status r) (control_status r) (alt_status r) (caps_enable r) (is_alphabet r) (enter_read r) v (index r) (disp_term_k r).
#[export] Instance upd_index : Upd index := fun v r => Kbd (flag r) (pointer r) (case_status r) (control_status r) (alt_status r) (caps_enable r) (is_alphabet r) (enter_read r) (number_printed_line r) v (disp_term_k r).
#[export] Instance upd_disp_term_k : Upd disp_term_k := fun v r => Kbd (flag r) (pointer r) (case_status r) (control_status r) (alt_status r) (caps_enable r) (is_alphabet r) (enter_read r) (number_printed_line r) (index r) v.

(** The globals of syscall.c and syscall.h, and the PCBs by address. *)
Record proc_state := Procs {
  pcb_state : gmap Z Z;
  terminal_shell : gmap Z Z;
  temp_fd : Z;
  tables : jump_tables;
  pcbs : gmap Z pcb_t;
  terminals : gmap Z terminal_t;
  running_terminal : Z;
  next_term : Z;
  active_terminal : Z
}.
#[export] Instance upd_pcb_state : Upd pcb_state := fun v r => Procs v (terminal_shell r) (temp_fd r) (tables r) (pcbs r) (terminals r) (running_terminal r) (next_term r) (active_terminal r).
#[export] Instance upd_terminal_shell : Upd terminal_shell := fun v r => Procs (pcb_state r) v (temp_fd r) (tables r) (pcbs r) (terminals r) (running_terminal r) (next_term r) (active_terminal r).
#[export] Instance upd_temp_fd : Upd temp_fd := fun v r => Procs (pcb_state r) (terminal_shell r) v (tables r) (pcbs r) (terminals r) (running_terminal r) (next_term r) (active_terminal r).
#[export] Instance upd_tables : Upd tables := fun v r => Procs (pcb_state r) (terminal_shell r) (temp_fd r) v (pcbs r) (terminals r) (running_terminal r) (next_term r) (active_terminal r).
#[export] Instance upd_pcbs : Upd pcbs := fun v r => Procs (pcb_state r) (terminal_shell r) (temp_fd r) (tables r) v (terminals r) (running_terminal r) (next_term r) (active_terminal r).
#[export] Instance upd_terminals : Upd terminals := fun v r => Procs (pcb_state r) (terminal_shell r) (temp_fd r) (tables r) (pcbs r) v (running_terminal r) (next_term r) (active_terminal r).
#[export] Instance upd_running_terminal : Upd running_terminal := fun v r => Procs (pcb_state r) (terminal_shell r) (temp_fd r) (tables r) (pcbs r) (terminals r) v (next_term r) (active_terminal r).
#[export] Instance upd_next_term : Upd next_term := fun v r => Procs (pcb_state r) (terminal_shell r) (temp_fd r) (tables r) (pcbs r) (terminals r) (running_terminal r) v (active_terminal r).
#[export] Instance upd_active_terminal : Upd active_terminal := fun v r => Procs (pcb_state r) (terminal_shell r) (temp_fd r) (tables r) (pcbs r) (terminals r) (running_terminal r) (next_term r) v.

(** The paging structures (x86_desc.h, syscall.c) and control registers. *)
Record mmu_state := Mmu {
  page_directory : gmap Z Z;
  page_table : gmap Z Z;
  vidmap_pt : gmap Z Z;
  cr0 : Z;
  cr2 : Z;
  cr3 : Z;
  cr4 : Z
}.
#[export] Instance upd_page_directory : Upd page_directory := fun v r => Mmu v (page_table r) (vidmap_pt r) (cr0 r) (cr2 r) (cr3 r) (cr4 r).
#[export] Instance upd_page_table : Upd page_table := fun v r => Mmu (page_directory r) v (vidmap_pt r) (cr0 r) (cr2 r) (cr3 r) (cr4 r).
#[export] Instance upd_vidmap_pt : Upd vidmap_pt := fun v r => Mmu (page_directory r) (page_table r) v (cr0 r) (cr2 r) (cr3 r) (cr4 r).
#[export] Instance upd_cr0 : Upd cr0 := fun v r => Mmu (page_directory r) (page_table r) (vidmap_pt r) v (cr2 r) (cr3 r) (cr4 r).
#[export] Instance upd_cr2 : Upd cr2 := fun v r => Mmu (page_directory r) (page_table r) (vidmap_pt r) (cr0 r) v (cr3 r) (cr4 r).
#[export] Instance upd_cr3 : Upd cr3 := fun v r => Mmu (page_directory r) (page_table r) (vidmap_pt r) (cr0 r) (cr2 r) v (cr4 r).
#[export] Instance upd_cr4 : Upd cr4 := fun v r => Mmu (page_directory r) (page_table r) (vidmap_pt r) (cr0 r) (cr2 r) (cr3 r) v.

(** Registers, the TSS fields the kernel sets, descriptors and the IDT. *)
Record cpu_state := Cpu {
  esp : Z;
  ebp : Z;
  if_flag : bool;
  tss_ss0 : Z;
  tss_esp0 : Z;
  tss_ldt : Z;
  ldt_desc_ptr : Z;
  tss_desc_ptr : Z;
  ldtr : Z;
  tr : Z;
  idt : gmap Z (Z * Z)
}.
#[export] Instance upd_esp : Upd esp := fun v r => Cpu v (ebp r) (if_flag r) (tss_ss0 r) (tss_esp0 r) (tss_ldt r) (ldt_desc_ptr r) (tss_desc_ptr r) (ldtr r) (tr r) (idt r).
#[export] Instance upd_ebp : Upd ebp := fun v r => Cpu (esp r) v (if_flag r) (tss_ss0 r) (tss_esp0 r) (tss_ldt r) (ldt_desc_ptr r) (tss_desc_ptr r) (ldtr r) (tr r) (idt r).
#[export] Instance upd_if_flag : Upd if_flag := fun v r => Cpu (esp r) (ebp r) v (tss_ss0 r) (tss_esp0 r) (tss_ldt r) (ldt_desc_ptr r) (tss_desc_ptr r) (ldtr r) (tr r) (idt r).
#[export] Instance upd_tss_ss0 : Upd tss_ss0 := fun v r => Cpu (esp r) (ebp r) (if_flag r) v (tss_esp0 r) (tss_ldt r) (ldt_desc_ptr r) (tss_desc_ptr r) (ldtr r) (tr r) (idt r).
#[export] Instance upd_tss_esp0 : Upd tss_esp0 := fun v r => Cpu (esp r) (ebp r) (if_flag r) (tss_ss0 r) v (tss_ldt r) (ldt_desc_ptr r) (tss_desc_ptr r) (ldtr r) (tr r) (idt r).
#[export] Instance upd_tss_ldt : Upd tss_ldt := fun v r => Cpu (esp r) (ebp r) (if_flag r) (tss_ss0 r) (tss_esp0 r) v (ldt_desc_ptr r) (tss_desc_ptr r) (ldtr r) (tr r) (idt r).
#[export] Instance upd_ldt_desc_ptr : Upd ldt_desc_ptr := fun v r => Cpu (esp r) (ebp r) (if_flag r) (tss_ss0 r) (tss_esp0 r) (tss_ldt r) v (tss_desc_ptr r) (ldtr r) (tr r) (idt r).
#[export] Instance upd_tss_desc_ptr : Upd tss_desc_ptr := fun v r => Cpu (esp r) (ebp r) (if_flag r) (tss_ss0 r) (tss_esp0 r) (tss_ldt r) (ldt_desc_ptr r) v (ldtr r) (tr r) (idt r).
#[export] Instance upd_ldtr : Upd ldtr := fun v r => Cpu (esp r) (ebp r) (if_flag r) (tss_ss0 r) (tss_esp0 r) (tss_ldt r) (ldt_desc_ptr r) (tss_desc_ptr r) v (tr r) (idt r).
#[export] Instance upd_tr : Upd tr := fun v r => Cpu (esp r) (ebp r) (if_flag r) (tss_ss0 r) (tss_esp0 r) (tss_ldt r) (ldt_desc_ptr r) (tss_desc_ptr r) (ldtr r) v (idt r).
#[export] Instance upd_idt : Upd idt := fun v r => Cpu (esp r) (ebp r) (if_flag r) (tss_ss0 r) (tss_esp0 r) (tss_ldt r) (ldt_desc_ptr r) (tss_desc_ptr r) (ldtr r) (tr r) v.

(** The state of the machine and of the kernel. *)
Record kstate := KState {
  pmem : mem;
  io : list port_event;
  irqs : list irq;
  con : console;
  pic : pic_state;
  rtc : rtc_state;
  fs : fs_state;
  kbd : kbd_state;
  procs : proc_state;
  mmu : mmu_state;
  cpu : cpu_state
}.
#[export] Instance upd_pmem : Upd pmem := fun v r => KState v (io r) (irqs r) (con r) (pic r) (rtc r) (fs r) (kbd r) (procs r) (mmu r) (cpu r).
#[export] Instance upd_io : Upd io := fun v r => KState (pmem r) v (irqs r) (con r) (pic r) (rtc r) (fs r) (kbd r) (procs r) (mmu r) (cpu r).
#[export] Instance upd_irqs : Upd irqs := fun v r => KState (pmem r) (io r) v (con r) (pic r) (rtc r) (fs r) (kbd r) (procs r) (mmu r) (cpu r).
#[export] Instance upd_con : Upd con := fun v r => KState (pmem r) (io r) (irqs r) v (pic r) (rtc r) (fs r) (kbd r) (procs r) (mmu r) (cpu r).
#[export] Instance upd_pic : Upd pic := fun v r => KState (pmem r) (io r) (irqs r) (con r) v (rtc r) (fs r) (kbd r) (procs r) (mmu r) (cpu r).
#[export] Instance upd_rtc : Upd rtc := fun v r => KState (pmem r) (io r) (irqs r) (con r) (pic r) v (fs r) (kbd r) (procs r) (mmu r) (cpu r).
#[export] Instance upd_fs : Upd fs := fun v r => KState (pmem r) (io r) (irqs r) (con r) (pic r) (rtc r) v (kbd r) (procs r) (mmu r) (cpu r).
#[export] Instance upd_kbd : Upd kbd := fun v r => KState (pmem r) (io r) (irqs r) (con r) (pic r) (rtc r) (fs r) v (procs r) (mmu r) (cpu r).
#[export] Instance upd_procs : Upd procs := fun v r => KState (pmem r) (io r) (irqs r) (con r) (pic r) (rtc r) (fs r) (kbd r) v (mmu r) (cpu r).
#[export] Instance upd_mmu : Upd mmu := fun v r => KState (pmem r) (io r) (irqs r) (con r) (pic r) (rtc r) (fs r) (kbd r) (procs r) v (cpu r).
#[export] Instance upd_cpu : Upd cpu := fun v r => KState (pmem r) (io r) (irqs r) (con r) (pic r) (rtc r) (fs r) (kbd r) (procs r) (mmu r) v.

(** The frame address a control register or a paging entry holds. *)
Definition frame (w : Z) : Z := Z.shiftl (bits w 12 20) 12.

(** ** What the source does not determine

    Replies of the devices, addresses chosen by the linker, contents of the
    memory past an array, values of assembly outputs no instruction writes, and
    the place of a local array whose address is passed on, by stack pointer. *)
Class Platform := {
  dev_read : list port_event -> Z -> Z;
  addr_page_directory : Z;
  addr_page_table : Z;
  addr_vidmap_pt : Z;
  addr_ldt : Z;
  addr_tss : Z;
  isr_addr : Z -> Z;
  past_ascii_code : Z -> Z;
  past_terminals : Z -> Z -> kstate -> kstate;
  asm_output : Z -> kstate -> Z;
  exe_data_addr : Z -> Z;
  (** [__attribute__((aligned (SIZE_4KB)))] *)
  page_directory_aligned : frame addr_page_directory = addr_page_directory;
  page_table_aligned : frame addr_page_table = addr_page_table;
  vidmap_pt_aligned : frame addr_vidmap_pt = addr_vidmap_pt;
  tables_distinct : addr_page_table <> addr_vidmap_pt
}.

(** ** Accessors *)

Definition pcb_at (k : kstate) (a : Z) : pcb_t := default pcb_zero (pcbs (procs k) !! a).
Definition put_pcb (a : Z) (p : pcb_t) (k : kstate) : kstate :=
  k <| procs; pcbs := <[a := p]> (pcbs (procs k)) |>.
Definition fd_at (p : pcb_t) (i : Z) : file_descriptor_t := default fd_zero (fds p !! i).
Definition put_fd (i : Z) (d : file_descriptor_t) (p : pcb_t) : pcb_t :=
  p <| fds := <[i := d]> (fds p) |>.
Definition term_at (k : kstate) (i : Z) : terminal_t := default terminal_zero (terminals (procs k) !! i).
Definition put_term (i : Z) (t : terminal_t) (k : kstate) : kstate :=
  k <| procs; terminals := <[i := t]> (terminals (procs k)) |>.

(** ** Port input and output (lib.h [outb], [inb]) *)
Section ports.
Context `{Platform}.
Definition outb (data port : Z) (k : kstate) : kstate :=
  k <| io := io k ++ [POut (u16 port) (u8 data)] |>.
Definition inb (port : Z) (k : kstate) : Z * kstate :=
  let v := u8 (dev_read (io k) (u16 port)) in
  (v, k <| io := io k ++ [PIn (u16 port) v] |>).
Definition sti (k : kstate) : kstate := k <| cpu; if_flag := true |>.
Definition cli (k : kstate) : kstate := k <| cpu; if_flag := false |>.
End ports.

(** ** Address translation of the i386

    The two-level walk the processor performs: a page-directory entry with PS
    set (and CR4.PSE) maps 4 MB, another names a page table. An address whose
    walk fails denotes no physical location: it is sent below zero. *)
Section translation.
Context `{Platform}.

Definition directory_at (m : mmu_state) (base : Z) : gmap Z Z :=
  if base =? addr_page_directory then page_directory m else ∅.
Definition table_at (m : mmu_state) (base : Z) : gmap Z Z :=
  if base =? addr_page_table then page_table m
  else if base =? addr_vidmap_pt then vidmap_pt m else ∅.

(** [user]: the access is from privilege level 3, which needs the U/S bit of
    both levels. *)
Definition granted (user : bool) (entry : Z) : bool :=
  Z.testbit entry 0 && (negb user || Z.testbit entry 2).

Definition walk (user : bool) (m : mmu_state) (va : Z) : option Z :=
  if negb (Z.testbit (cr0 m) 31) then Some va
  else
    let pde := (directory_at m (frame (cr3 m))).[Z.shiftr va 22] in
    if negb (granted user pde) then None
    else if Z.testbit pde 7 && Z.testbit (cr4 m) 4
    then Some (Z.shiftl (bits pde 22 10) 22 + bits va 0 22)
    else
      let pte := (table_at m (frame pde)).[bits va 12 10] in
      if negb (granted user pte) then None
      else Some (frame pte + bits va 0 12).

Definition xlate (m : mmu_state) (va : Z) : Z :=
  match walk false m va with Some pa => pa | None => - va - 1 end.

(** The address space the kernel currently runs in. *)
Definition vspace (k : kstate) : aspace := ASpace (xlate (mmu k)) (pmem k).
Definition set_vspace (a : aspace) (k : kstate) : kstate := k <| pmem := as_mem a |>.
Definition ld8 (k : kstate) (va : Z) : Z := get8 (vspace k) va.
Definition st8 (va v : Z) (k : kstate) : kstate := set_vspace (put8 va v (vspace k)) k.
Definition ld32 (k : kstate) (va : Z) : Z := get32 (vspace k) va.
Definition st32 (va v : Z) (k : kstate) : kstate := set_vspace (put32 va v (vspace k)) k.

(** [k'] is [k] after stores through byte pointers, anywhere in the memory. *)
Definition only_mem (k k' : kstate) : Prop := k' = k <| pmem := pmem k' |>.
(** [k'] is [k] with [f 0 .. f (n - 1)] stored from [p] on, and nothing else. *)
Definition wrote (k k' : kstate) (p n : Z) (f : Z -> Z) : Prop :=
  only_mem k k' /\ filled (vspace k) (vspace k') p n f.

Lemma only_mem_set_vspace a k : only_mem k (set_vspace a k).
Proof. done. Qed.
Lemma only_mem_refl k : only_mem k k.
Proof. by destruct k. Qed.
Lemma only_mem_trans k1 k2 k3 : only_mem k1 k2 -> only_mem k2 k3 -> only_mem k1 k3.
Proof. unfold only_mem. intros -> ->. done. Qed.

Lemma wrote_ld8 k k' p n f va : wrote k k' p n f -> outside (vspace k) p n va -> ld8 k' va = ld8 k va.
Proof. intros [_ Hf]. exact (filled_outside _ _ _ _ _ _ Hf). Qed.
Lemma wrote_away k k' p n f pa : wrote k k' p n f -> away (vspace k) p n pa -> mem_get (pmem k') pa = mem_get (pmem k) pa.
Proof. intros [_ (_ & Ho & _)]. apply Ho. Qed.
Lemma wrote_ld32 k k' p n f va : wrote k k' p n f ->
  (forall j, 0 <= j < 4 -> outside (vspace k) p n (va + j)) -> ld32 k' va = ld32 k va.
Proof.
  intros [_ Hf] Hva. pose proof (fun j => filled_outside _ _ _ _ _ j Hf) as Ho. unfold ld32, get32.
  pose proof (Hva 0 ltac:(lia)) as H0. rewrite Z.add_0_r in H0. by rewrite !Ho by (done || apply Hva; lia).
Qed.
(** A library routine run on the current address space. *)
Lemma wrote_set_vspace k a p n f : filled (vspace k) a p n f -> wrote k (set_vspace a k) p n f.
Proof.
  intros (Hin & Hout & Hloc). split; [done|].
  assert (forall j, get8 (vspace (set_vspace a k)) j = get8 a j) as Hg.
  { intros j. specialize (Hloc j). simpl in *. by rewrite Hloc. }
  split_and!; [|exact Hout|done]. intros j Hj. rewrite Hg; auto.
Qed.
Lemma wrote_nil k p f : wrote k k p 0 f.
Proof. split; [apply only_mem_refl|apply filled_nil]. Qed.
Lemma wrote_snoc k k' p n m f v : sep_range (vspace k) p n -> 0 <= m < n -> u8 v = f m ->
  wrote k k' p m f -> wrote k (st8 (p + m) v k') p (m + 1) f.
Proof.
  intros Hs Hm Hv [Ho Hf]. split; [by apply (only_mem_trans _ k')|].
  by apply (filled_snoc _ _ _ n _ _ _ Hs Hm Hv Hf).
Qed.
End translation.

(** syscall.c [get_pcb]: the PCB is at the bottom of the 8 KB kernel stack. *)
Definition get_pcb (k : kstate) : Z := Z.land (esp (cpu k)) 0xffffe000.

(** ** Outcomes and the kernel monad

    A computation returns, leaves the C code for good (into user mode, or into
    the frame of a parent), spins for ever, or steps outside the meaning of C. *)
Inductive jump :=
  | IretUser (eip user_esp user_cs user_ds : Z)
  | LeaveRet (frame eax : Z).
Inductive stray := StraySmash | StrayCall | StrayEnd.
Inductive outcome (A : Type) :=
  | Ret (a : A) (k : kstate)
  | Jmp (j : jump) (k : kstate)
  | Hang (k : kstate)
  | Undef (u : stray) (k : kstate).
Arguments Ret {A} _ _.
Arguments Jmp {A} _ _.
Arguments Hang {A} _.
Arguments Undef {A} _ _.

Definition M (A : Type) := kstate -> outcome A.
Definition ret {A} (a : A) : M A := fun k => Ret a k.
Definition bind {A B} (m : M A) (f : A -> M B) : M B := fun k =>
  match m k with
  | Ret a k' => f a k'
  | Jmp j k' => Jmp j k'
  | Hang k' => Hang k'
  | Undef u k' => Undef u k'
  end.
Definition get : M kstate := fun k => Ret k k.
Definition gets {A} (f : kstate -> A) : M A := fun k => Ret (f k) k.
Definition modify (f : kstate -> kstate) : M unit := fun k => Ret tt (f k).
Definition run {A} (f : kstate -> A * kstate) : M A := fun k => let '(a, k) := f k in Ret a k.
Definition jump_to {A} (j : jump) : M A := fun k => Jmp j k.
Definition undef {A} (u : stray) : M A := fun k => Undef u k.
Definition hang {A} : M A := fun k => Hang k.

Notation "x <- m ; f" := (bind m (fun x => f))
  (at level 100, m at level 99, f at level 200, right associativity) : kernel_scope.
Notation "m ;; f" := (bind m (fun _ => f))
  (at level 100, f at level 200, right associativity) : kernel_scope.

Lemma bind_ret {A B} (m : M A) (f : A -> M B) k a k' : m k = Ret a k' -> bind m f k = f a k'.
Proof. intros E. unfold bind. by rewrite E. Qed.

Lemma bind_jmp {A B} (m : M A) (f : A -> M B) k j k' : m k = Jmp j k' -> bind m f k = Jmp j k'.
Proof. intros E. unfold bind. by rewrite E. Qed.
Lemma bind_get {A} (f : kstate -> M A) k : bind get f k = f k k.
Proof. done. Qed.
Lemma bind_modify {A} g (f : unit -> M A) k : bind (modify g) f k = f tt (g k).
Proof. done. Qed.

(** ** The machine at power-on

    All of memory and all globals are zero (static storage), paging is off. The
    platform below answers every port read with 0; the concrete runs of the
    development start here. *)
Definition tables_zero : jump_tables := JumpTables fops_zero fops_zero fops_zero fops_zero fops_zero.
Definition zero_state : kstate :=
  KState ∅ [] [] (Console 0 0) (Pic 0 0) (Rtc 0 0) (Fs 0 0 0 0 0 0)
    (Kbd 0 Lower 0 0 0 0 0 ∅ 0 ∅ 0)
    (Procs ∅ ∅ 0 tables_zero ∅ ∅ 0 0 0)
    (Mmu ∅ ∅ ∅ 0 0 0 0) (Cpu 0 0 false 0 0 0 0 0 0 0 ∅).

Definition quiet_platform : Platform.
Proof.
  refine {| dev_read := fun _ _ => 0;
     addr_page_directory := 0x500000; addr_page_table := 0x501000; addr_vidmap_pt := 0x502000;
     addr_ldt := 0x503000; addr_tss := 0x504000; isr_addr := fun v => 0x505000 + 64 * v;
     past_ascii_code := fun _ => 0; past_terminals := fun _ _ k => k; asm_output := fun _ _ => 0;
     exe_data_addr := fun _ => 0x7f0000 |}.
  all: by vm_compute.
Defined.

Lemma xlate_unpaged `{Platform} m va : Z.testbit (cr0 m) 31 = false -> xlate m va = va.
Proof. intros E. unfold xlate, walk. by rewrite E. Qed.
Lemma loc_unpaged `{Platform} k va : Z.testbit (cr0 (mmu k)) 31 = false -> loc (vspace k) va = va.
Proof. apply xlate_unpaged. Qed.
Lemma sep_unpaged `{Platform} k p n : Z.testbit (cr0 (mmu k)) 31 = false -> sep_range (vspace k) p n.
Proof. intros E i j _ _. rewrite !loc_unpaged by done. lia. Qed.
Lemma outside_unpaged `{Platform} k p n va : Z.testbit (cr0 (mmu k)) 31 = false ->
  va < p \/ p + n <= va -> outside (vspace k) p n va.
Proof. intros E Hva i Hi. rewrite !loc_unpaged by done. lia. Qed.
