(* ===== verification/Console.v ===== *)
(** The text console of lib.c (lines 6-134, 263-337 and 623-632): the cursor,
    the 80x25 video memory at 0xB8000, [clear], [scroll], [putc] and [puts].

    [Spec] is the abstract console: 2000 character cells and a cursor. The last
    part shows that [putc] refines it. *)

From S2P Require Import Prelude Bytes CString State.
#[local] Open Scope Z_scope.
#[local] Open Scope kernel_scope.

Definition VIDEO := 0xB8000.
Definition NUM_COLS := 80.
Definition NUM_ROWS := 25.
Definition ATTRIB := 7.
Definition BACKSPACE := 8.

Section console.
Context `{Platform}.

(** One cell: the character byte, then the attribute byte. *)
Definition put_cell (i c : Z) (k : kstate) : kstate :=
  st8 (VIDEO + Z.shiftl i 1 + 1) ATTRIB (st8 (VIDEO + Z.shiftl i 1) c k).

Definition set_x (x : Z) (k : kstate) : kstate := k <| con; screen_x := x |>.
Definition set_y (y : Z) (k : kstate) : kstate := k <| con; screen_y := y |>.
Definition scr_x (k : kstate) : Z := screen_x (con k).
Definition scr_y (k : kstate) : Z := screen_y (con k).

(** lib.c [place_cursor]. *)
Definition place_cursor (x y : Z) (k : kstate) : kstate :=
  let pos := u8 x + u8 y * NUM_COLS in
  let k := outb 0x0E 0x3D4 k in
  let k := outb (Z.land (Z.shiftr pos 8) 255) 0x3D5 k in
  let k := outb 0x0F 0x3D4 k in
  outb (Z.land pos 255) 0x3D5 k.

(** lib.c [disable_cursor]: the arguments of [outb] are (data, port). *)
Definition disable_cursor (k : kstate) : kstate := outb 0x3D5 0x20 (outb 0x3D4 0x0A k).

(** lib.c [enable_cursor]. *)
Definition enable_cursor (cursor_start cursor_end : Z) (k : kstate) : kstate :=
  let k := outb 0x3D4 0x0A k in
  let '(v, k) := inb 0x3D5 k in
  let k := outb 0x3D5 (Z.lor (Z.land v 0xC0) cursor_start) k in
  let k := outb 0x3D4 0x0B k in
  let '(v, k) := inb 0x3D5 k in
  outb 0x3D5 (Z.lor (Z.land v 0xE0) cursor_end) k.

(** lib.c [clear]. *)
Definition blank_cells (k : kstate) : kstate :=
  for_loop 0 (NUM_ROWS * NUM_COLS) (fun i => put_cell i 32) k.
Definition clear (k : kstate) : kstate :=
  let k := blank_cells k in
  let k := set_y 0 (set_x 0 k) in
  place_cursor (scr_x k) (scr_y k) k.

(** lib.c [clear_top_row]: from row [r] to the end of the screen. *)
Definition clear_top_row (r : Z) (k : kstate) : kstate :=
  for_loop (u8 r * NUM_COLS) (NUM_ROWS * NUM_COLS) (fun i => put_cell i 0) k.

Definition get_screenx (k : kstate) : Z := u8 (scr_x k).
Definition get_screeny (k : kstate) : Z := u8 (scr_y k).
Definition set_screenx (x_pos : Z) (k : kstate) : kstate := set_x (u8 x_pos) k.
Definition set_screeny (y_pos : Z) (k : kstate) : kstate := set_y (u8 y_pos) k.

(** lib.c [scroll]: every row takes the contents of the row below it, and the
    last one is blanked. *)
Definition scroll_rows (k : kstate) : kstate :=
  for_loop 0 ((NUM_ROWS - 1) * NUM_COLS)
    (fun i k =>
       let k := st8 (VIDEO + Z.shiftl i 1) (ld8 k (VIDEO + Z.shiftl (i + NUM_COLS) 1)) k in
       st8 (VIDEO + Z.shiftl i 1 + 1) (ld8 k (VIDEO + Z.shiftl (i + NUM_COLS) 1 + 1)) k) k.
Definition scroll (k : kstate) : kstate :=
  let k := scroll_rows k in
  clear_top_row (NUM_ROWS - 1) (set_y (NUM_ROWS - 1) (set_x 0 k)).

(** The cell under the cursor. *)
Definition cursor_cell (k : kstate) : Z := NUM_COLS * scr_y k + scr_x k.

(** lib.c [putc]. *)
Definition putc (c : Z) (k : kstate) : kstate :=
  let k :=
    if (c =? 10) || (c =? 13) then
      let k := set_y (scr_y k + 1) k in
      let k := if NUM_ROWS <=? scr_y k then scroll k else k in
      set_x 0 k
    else if c =? BACKSPACE then
      let k := set_x (scr_x k - 1) k in
      let k :=
        if (scr_y k <? 0) && (scr_x k <? 0) then set_x 0 (set_y 0 k)
        else if scr_x k <? 0 then
          let k := clear_top_row (scr_y k) k in
          set_x (NUM_COLS - 1) (set_y (scr_y k - 1) k)
        else k in
      put_cell (cursor_cell k) 32 k
    else if c =? 0 then put_cell (cursor_cell k) c k
    else
      let k := put_cell (cursor_cell k) c k in
      let k := set_x (scr_x k + 1) k in
      if NUM_COLS <=? scr_x k then
        let k := set_y (scr_y k + 1) (set_x 0 k) in
        let k := if NUM_ROWS <=? scr_y k then scroll k else k in
        clear_top_row (scr_y k) k
      else k in
  place_cursor (scr_x k) (scr_y k) k.

(** lib.c [puts]: [None] when no NUL ends the string. The string may lie in
    memory, so it is read from the current state. *)
Definition puts (s : kstate -> Z -> Z) (k : kstate) : option (Z * kstate) :=
  match loop 2147483648
          (fun '(i, k) => if negb (s k i =? 0) then inl (i + 1, putc (s k i) k)
                          else inr (i, k)) (0, k) with
  | inr r => Some r
  | inl _ => None
  end.

(** lib.c [test_interrupts]. *)
Definition test_interrupts (k : kstate) : kstate :=
  for_loop 0 (NUM_ROWS * NUM_COLS)
    (fun i k => st8 (VIDEO + Z.shiftl i 1) (ld8 k (VIDEO + Z.shiftl i 1) + 1) k) k.
End console.

(** ** The abstract console *)

Module Spec.
Record t := T { cells : list Z; cx : Z; cy : Z }.

(** Blank every row from [r] on. *)
Definition blank_from (r : Z) (l : list Z) : list Z :=
  take (Z.to_nat (80 * r)) l ++ replicate (Z.to_nat (80 * (25 - r))) 0.
(** Move the rows up by one. *)
Definition scroll_up (l : list Z) : list Z := drop 80 l ++ replicate 80 0.
Definition set_cell (x y c : Z) (l : list Z) : list Z := <[Z.to_nat (80 * y + x) := c]> l.

Definition newline (s : t) : t :=
  if cy s =? 24 then T (scroll_up (cells s)) 0 24 else T (cells s) 0 (cy s + 1).

Definition advance (s : t) : t :=
  if cx s <? 79 then T (cells s) (cx s + 1) (cy s)
  else let s := newline s in T (blank_from (cy s) (cells s)) (cx s) (cy s).

Definition erase (s : t) : t :=
  if cx s =? 0 then T (set_cell 79 (cy s - 1) 32 (blank_from (cy s) (cells s))) 79 (cy s - 1)
  else T (set_cell (cx s - 1) (cy s) 32 (cells s)) (cx s - 1) (cy s).

Definition write (c : Z) (s : t) : t :=
  if (c =? 10) || (c =? 13) then newline s
  else if c =? 8 then erase s
  else let s := T (set_cell (cx s) (cy s) c (cells s)) (cx s) (cy s) in
       if c =? 0 then s else advance s.

Definition wf (s : t) : Prop :=
  length (cells s) = 2000%nat /\ 0 <= cx s < 80 /\ 0 <= cy s < 25.
End Spec.

(** ** The refinement *)

Section refinement.
Context `{Platform}.

(** Video memory is mapped one to one. *)
Definition video_ident (m : mmu_state) : Prop :=
  forall va, VIDEO <= va < VIDEO + 4000 -> xlate m va = va.

Definition cell_at (k : kstate) (i : Z) : Z * Z :=
  (mem_get (pmem k) (VIDEO + 2 * i), mem_get (pmem k) (VIDEO + 2 * i + 1)).

(** What an operation on the console may change: the cursor, the port trace
    and the bytes of the 2000 cells. *)
Record console_frame (k k' : kstate) : Prop := {
  cf_state : k' = k <| pmem := pmem k' |> <| io := io k' |> <| con := con k' |>;
  cf_mem : forall pa, pa < VIDEO \/ VIDEO + 4000 <= pa -> mem_get (pmem k') pa = mem_get (pmem k) pa
}.

#[export] Instance console_frame_preorder : PreOrder console_frame.
Proof.
  split.
  - intros k. split; [by destruct k|done].
  - intros k1 k2 k3 [E1 M1] [E2 M2]. split.
    + rewrite E2, E1. done.
    + intros pa Hpa. rewrite M2, M1; done.
Qed.

Lemma console_frame_mmu k k' : console_frame k k' -> mmu k' = mmu k.
Proof. intros [-> _]. done. Qed.

Lemma ld8_video k i b : video_ident (mmu k) -> 0 <= i < 2000 -> 0 <= b < 2 ->
  ld8 k (VIDEO + Z.shiftl i 1 + b) = mem_get (pmem k) (VIDEO + 2 * i + b).
Proof.
  intros Hv Hi Hb. rewrite Z.shiftl_mul_pow2, Z.pow_1_r by lia. rewrite (Z.mul_comm i).
  unfold ld8. simpl. by rewrite Hv by lia.
Qed.

(** A cell stored with any attribute; [put_cell] is the case [ATTRIB]. *)
Definition put_pair (i c a : Z) (k : kstate) : kstate :=
  st8 (VIDEO + Z.shiftl i 1 + 1) a (st8 (VIDEO + Z.shiftl i 1) c k).

Lemma put_pair_pmem k i c a : video_ident (mmu k) -> 0 <= i < 2000 ->
  pmem (put_pair i c a k) =
    mem_put (VIDEO + 2 * i + 1) a (mem_put (VIDEO + 2 * i) c (pmem k)).
Proof.
  intros Hv Hi. unfold put_pair. rewrite Z.shiftl_mul_pow2, Z.pow_1_r by lia.
  rewrite (Z.mul_comm i). simpl. by rewrite !Hv by lia.
Qed.

Lemma put_pair_spec k i c a : video_ident (mmu k) -> 0 <= i < 2000 ->
  console_frame k (put_pair i c a k) /\ con (put_pair i c a k) = con k /\
  forall j, 0 <= j < 2000 ->
    cell_at (put_pair i c a k) j = if i =? j then (u8 c, u8 a) else cell_at k j.
Proof.
  intros Hv Hi. pose proof (put_pair_pmem k i c a Hv Hi) as Hm. split_and!; [split|..].
  - done.
  - intros pa Hpa. by rewrite Hm, !mem_get_other by lia.
  - done.
  - intros j Hj. unfold cell_at. rewrite Hm.
    destruct (Z.eqb_spec i j) as [->|Hne].
    + by rewrite (mem_get_other _ (_ + 1)), !mem_get_same by lia.
    + by rewrite !mem_get_other by lia.
Qed.

Lemma put_cell_spec k i c : video_ident (mmu k) -> 0 <= i < 2000 ->
  console_frame k (put_cell i c k) /\ con (put_cell i c k) = con k /\
  forall j, 0 <= j < 2000 ->
    cell_at (put_cell i c k) j = if i =? j then (u8 c, ATTRIB) else cell_at k j.
Proof. exact (put_pair_spec k i c ATTRIB). Qed.

(** A loop of cell stores. *)
Lemma put_cells_spec k lo hi c : video_ident (mmu k) -> 0 <= lo <= hi -> hi <= 2000 ->
  let k' := for_loop lo hi (fun i => put_cell i c) k in
  console_frame k k' /\ con k' = con k /\
  forall j, 0 <= j < 2000 ->
    cell_at k' j = if (lo <=? j) && (j <? hi) then (u8 c, ATTRIB) else cell_at k j.
Proof.
  intros Hv Hlo Hhi. cbv zeta.
  apply (for_loop_rule (fun n k' => console_frame k k' /\ con k' = con k /\
    forall j, 0 <= j < 2000 ->
      cell_at k' j = if (lo <=? j) && (j <? n) then (u8 c, ATTRIB) else cell_at k j)); [lia| |].
  - split_and!; [done|done|]. intros j Hj. by test_false ((lo <=? j) && (j <? lo)).
  - intros i b Hi (Hf & Hc & Hcells).
    destruct (put_cell_spec b i c) as (Hf' & Hc' & Hcell); [by rewrite (console_frame_mmu k b)|lia|].
    split_and!; [by transitivity b|congruence|]. intros j Hj. rewrite Hcell, Hcells by lia.
    case_tests.
Qed.

Lemma clear_top_row_spec k r : video_ident (mmu k) -> 0 <= r <= 25 ->
  console_frame k (clear_top_row r k) /\ con (clear_top_row r k) = con k /\
  forall j, 0 <= j < 2000 ->
    cell_at (clear_top_row r k) j = if 80 * r <=? j then (0, ATTRIB) else cell_at k j.
Proof.
  intros Hv Hr. unfold clear_top_row. rewrite u8_small by lia.
  destruct (put_cells_spec k (r * NUM_COLS) (NUM_ROWS * NUM_COLS) 0) as (Hf & Hc & Hcells);
    [done|unfold NUM_COLS, NUM_ROWS; lia..|].
  split_and!; [done..|]. intros j Hj. rewrite Hcells by done.
  unfold NUM_COLS, NUM_ROWS. replace ((r * 80 <=? j) && (j <? 25 * 80)) with (80 * r <=? j) by lia.
  done.
Qed.

Lemma set_xy_frame k x y : console_frame k (set_x x k) /\ console_frame k (set_y y k).
Proof. split; by split. Qed.

(** One iteration of [scroll] copies the cell one row below. *)
Lemma scroll_step b i : video_ident (mmu b) -> 0 <= i < 1920 ->
  (let k := st8 (VIDEO + Z.shiftl i 1) (ld8 b (VIDEO + Z.shiftl (i + NUM_COLS) 1)) b in
   st8 (VIDEO + Z.shiftl i 1 + 1) (ld8 k (VIDEO + Z.shiftl (i + NUM_COLS) 1 + 1)) k) =
  put_pair i (cell_at b (i + 80)).1 (cell_at b (i + 80)).2 b.
Proof.
  intros Hv Hi. cbv zeta. unfold put_pair, NUM_COLS.
  rewrite <- (Z.add_0_r (VIDEO + Z.shiftl (i + 80) 1)) at 1 3.
  rewrite !ld8_video by (done || lia). rewrite Z.add_0_r. cbn [fst snd cell_at].
  f_equal. simpl. rewrite Z.shiftl_mul_pow2, Z.pow_1_r, Hv by lia.
  by rewrite mem_get_other by lia.
Qed.

Lemma scroll_copy_spec k : video_ident (mmu k) ->
  console_frame k (scroll_rows k) /\ forall j, 0 <= j < 2000 ->
    cell_at (scroll_rows k) j = if j <? (NUM_ROWS - 1) * NUM_COLS then cell_at k (j + 80) else cell_at k j.
Proof.
  intros Hv. unfold scroll_rows.
  apply (for_loop_rule (fun n b => console_frame k b /\ forall j, 0 <= j < 2000 ->
      cell_at b j = if j <? n then cell_at k (j + 80) else cell_at k j)); [done| |].
  - split; [done|]. intros j Hj. by test_false (j <? 0).
  - intros i b Hi [Hf Hc]. assert (mmu b = mmu k) as Hm by (by apply console_frame_mmu).
    unfold NUM_ROWS, NUM_COLS in Hi. rewrite <- Hm in Hv.
    rewrite scroll_step by (done || lia).
    destruct (put_pair_spec b i (cell_at b (i + 80)).1 (cell_at b (i + 80)).2 Hv ltac:(lia))
        as (Hf' & _ & Hcell).
    split; [exact (transitivity Hf Hf')|]. intros j Hj. rewrite Hcell by done.
    unfold cell_at at 1 2. cbn [fst snd]. unfold mem_get. rewrite !u8_u8.
    destruct (Z.eqb_spec i j) as [->|].
    + test_true (j <? j + 1). specialize (Hc (j + 80) ltac:(lia)).
      rewrite (proj2 (Z.ltb_nlt _ _)) in Hc by lia. exact Hc.
    + rewrite Hc by done. case_tests.
Qed.

Lemma scroll_spec k : video_ident (mmu k) ->
  console_frame k (scroll k) /\ scr_x (scroll k) = 0 /\ scr_y (scroll k) = 24 /\
  forall j, 0 <= j < 2000 ->
    cell_at (scroll k) j = if j <? 1920 then cell_at k (j + 80) else (0, ATTRIB).
Proof.
  intros Hv. unfold scroll. destruct (scroll_copy_spec k Hv) as [Hf1 Hc1]. revert Hf1 Hc1.
  generalize (scroll_rows k) as k1.
  intros k1 Hf1 Hc1. cbv zeta.
  destruct (set_xy_frame k1 0 (NUM_ROWS - 1)) as [Hx _].
  destruct (set_xy_frame (set_x 0 k1) 0 (NUM_ROWS - 1)) as [_ Hy].
  set (k2 := set_y _ (set_x 0 k1)) in *.
  assert (console_frame k k2) as Hf2 by (by transitivity k1; [done|transitivity (set_x 0 k1)]).
  destruct (clear_top_row_spec k2 (NUM_ROWS - 1)) as (Hf3 & Hc3 & Hcells);
    [by rewrite (console_frame_mmu k k2)|done|].
  split_and!.
  - by transitivity k2.
  - unfold scr_x. by rewrite Hc3.
  - unfold scr_y. by rewrite Hc3.
  - intros j Hj. rewrite Hcells by done. change (cell_at k2 j) with (cell_at k1 j).
    rewrite Hc1 by done. unfold NUM_ROWS, NUM_COLS. case_tests.
Qed.

#[local] Opaque scroll clear_top_row.

Lemma frame_trans k1 k2 k3 : console_frame k1 k2 -> console_frame k2 k3 -> console_frame k1 k3.
Proof. intros. by transitivity k2. Qed.

(** The abstraction function: the characters of the cells, and the cursor. *)
Definition abs_cells (k : kstate) : list Z := (fun j => (cell_at k j).1) <$> seqZ 0 2000.
Definition abs (k : kstate) : Spec.t := Spec.T (abs_cells k) (scr_x k) (scr_y k).
Definition cursor_ok (k : kstate) : Prop := 0 <= scr_x k < 80 /\ 0 <= scr_y k < 25.

Lemma abs_cells_length k : length (abs_cells k) = 2000%nat.
Proof. unfold abs_cells. by rewrite length_fmap, length_seqZ. Qed.

Lemma abs_cells_lookup k n : (n < 2000)%nat -> abs_cells k !! n = Some (cell_at k (Z.of_nat n)).1.
Proof.
  intros Hn. unfold abs_cells. rewrite list_lookup_fmap, lookup_seqZ_lt by lia. done.
Qed.

Lemma abs_cells_ext k l : length l = 2000%nat ->
  (forall n, (n < 2000)%nat -> l !! n = Some (cell_at k (Z.of_nat n)).1) -> abs_cells k = l.
Proof.
  intros Hl Hn. apply list_eq. intros n. destruct (decide (n < 2000)%nat).
  - by rewrite abs_cells_lookup, Hn.
  - rewrite !lookup_ge_None_2; [done|lia|rewrite abs_cells_length; lia].
Qed.

Lemma abs_put_cell k i c : video_ident (mmu k) -> 0 <= i < 2000 -> 0 <= c < 256 ->
  abs_cells (put_cell i c k) = <[Z.to_nat i := c]> (abs_cells k).
Proof.
  intros Hv Hi Hc. apply abs_cells_ext; [by rewrite length_insert, abs_cells_length|].
  intros n Hn. destruct (put_cell_spec k i c Hv Hi) as (_ & _ & ->); [|lia].
  destruct (Z.eqb_spec i (Z.of_nat n)) as [->|].
  - rewrite Nat2Z.id, list_lookup_insert_eq by (rewrite abs_cells_length; lia).
    by rewrite u8_small.
  - rewrite list_lookup_insert_ne by lia. by apply abs_cells_lookup.
Qed.

Lemma abs_clear_top_row k r : video_ident (mmu k) -> 0 <= r <= 25 ->
  abs_cells (clear_top_row r k) = Spec.blank_from r (abs_cells k).
Proof.
  intros Hv Hr. unfold Spec.blank_from. apply abs_cells_ext.
  - rewrite length_app, length_take, length_replicate, abs_cells_length. lia.
  - intros n Hn. destruct (clear_top_row_spec k r Hv Hr) as (_ & _ & ->); [|lia].
    destruct (Z.leb_spec (80 * r) (Z.of_nat n)).
    + rewrite lookup_app_r, length_take, abs_cells_length
        by (rewrite length_take, abs_cells_length; lia).
      rewrite lookup_replicate_2 by lia. done.
    + rewrite lookup_app_l by (rewrite length_take, abs_cells_length; lia).
      rewrite lookup_take_lt by lia. by apply abs_cells_lookup.
Qed.

Lemma abs_scroll k : video_ident (mmu k) ->
  abs_cells (scroll k) = Spec.scroll_up (abs_cells k).
Proof.
  intros Hv. unfold Spec.scroll_up. apply abs_cells_ext.
  - rewrite length_app, length_drop, length_replicate, abs_cells_length. lia.
  - intros n Hn. destruct (scroll_spec k Hv) as (_ & _ & _ & ->); [|lia].
    destruct (Z.ltb_spec (Z.of_nat n) 1920).
    + rewrite lookup_app_l by (rewrite length_drop, abs_cells_length; lia).
      rewrite lookup_drop, abs_cells_lookup by lia. do 3 f_equal. lia.
    + rewrite lookup_app_r, length_drop, abs_cells_length
        by (rewrite length_drop, abs_cells_length; lia).
      rewrite lookup_replicate_2 by lia. done.
Qed.

(** Scrolling twice blanked rows: the blank row stays blank. *)
Lemma blank_scroll l : length l = 2000%nat -> Spec.blank_from 24 (Spec.scroll_up l) = Spec.scroll_up l.
Proof.
  intros Hl. unfold Spec.blank_from, Spec.scroll_up.
  change (Z.to_nat (80 * 24)) with 1920%nat. change (Z.to_nat (80 * (25 - 24))) with 80%nat.
  by rewrite take_app_length' by (rewrite length_drop; lia).
Qed.

(** [refines k k' s]: [k'] differs from [k] as a console operation may, and
    shows the abstract console [s]. *)
Definition refines (k k' : kstate) (s : Spec.t) : Prop :=
  console_frame k k' /\ abs k' = s.

Lemma place_cursor_frame x y k :
  console_frame k (place_cursor x y k) /\ abs (place_cursor x y k) = abs k.
Proof. split; [by split|done]. Qed.

Lemma refines_place k k' s x y : refines k k' s -> refines k (place_cursor x y k') s.
Proof.
  intros [Hf Ha]. destruct (place_cursor_frame x y k'). split; [by transitivity k'|congruence].
Qed.

Lemma abs_intro k x y l : scr_x k = x -> scr_y k = y -> abs_cells k = l -> abs k = Spec.T l x y.
Proof. intros <- <- <-. done. Qed.

(** Moving to the next line, from a row on the screen. *)
Lemma next_line_refines k : video_ident (mmu k) -> cursor_ok k ->
  let k' := set_x 0 (let k := set_y (scr_y k + 1) k in
                     if NUM_ROWS <=? scr_y k then scroll k else k) in
  refines k k' (Spec.newline (abs k)).
Proof.
  intros Hv [Hx Hy]. cbv zeta. unfold Spec.newline. cbn [Spec.cy Spec.cells abs].
  change (scr_y (set_y (scr_y k + 1) k)) with (scr_y k + 1). unfold NUM_ROWS.
  set (k1 := set_y (scr_y k + 1) k).
  destruct (set_xy_frame k 0 (scr_y k + 1)) as [_ Hf1].
  destruct (Z.eqb_spec (scr_y k) 24) as [E|E].
  - test_true (25 <=? scr_y k + 1). cbv iota.
    destruct (scroll_spec k1 Hv) as (Hf2 & Hx2 & Hy2 & _).
    pose proof (abs_scroll k1 Hv) as Ha2. change (abs_cells k1) with (abs_cells k) in Ha2.
    revert Hf2 Hx2 Hy2 Ha2. generalize (scroll k1) as k2. intros k2 Hf2 Hx2 Hy2 Ha2.
    destruct (set_xy_frame k2 0 0) as [Hf3 _]. split.
    + exact (frame_trans _ _ _ Hf1 (frame_trans _ _ _ Hf2 Hf3)).
    + by apply abs_intro.
  - test_false (25 <=? scr_y k + 1). cbv iota.
    destruct (set_xy_frame k1 0 0) as [Hf3 _]. split; [by transitivity k1|done].
Qed.

Lemma put_cursor_refines k c : video_ident (mmu k) -> cursor_ok k -> 0 <= c < 256 ->
  refines k (put_cell (cursor_cell k) c k)
    (Spec.T (Spec.set_cell (scr_x k) (scr_y k) c (abs_cells k)) (scr_x k) (scr_y k)).
Proof.
  intros Hv [Hx Hy] Hc. assert (0 <= cursor_cell k < 2000) by (unfold cursor_cell, NUM_COLS; lia).
  destruct (put_cell_spec k (cursor_cell k) c Hv) as (Hf & Hcon & _); [done|].
  split; [done|]. apply abs_intro; [by unfold scr_x; rewrite Hcon|by unfold scr_y; rewrite Hcon|].
  by apply abs_put_cell.
Qed.

(** The backspace branch. *)
Lemma erase_refines k : video_ident (mmu k) -> cursor_ok k -> scr_x k <> 0 \/ scr_y k <> 0 ->
  let k1 := set_x (scr_x k - 1) k in
  let k2 := if (scr_y k1 <? 0) && (scr_x k1 <? 0) then set_x 0 (set_y 0 k1)
        else if scr_x k1 <? 0 then
          let k := clear_top_row (scr_y k1) k1 in
          set_x (NUM_COLS - 1) (set_y (scr_y k - 1) k)
        else k1 in
  refines k (put_cell (cursor_cell k2) 32 k2) (Spec.erase (abs k)).
Proof.
  intros Hv [Hx Hy] Hor. cbv zeta. unfold Spec.erase. cbn [Spec.cx Spec.cy Spec.cells abs].
  change (scr_x (set_x (scr_x k - 1) k)) with (scr_x k - 1).
  change (scr_y (set_x (scr_x k - 1) k)) with (scr_y k).
  test_false ((scr_y k <? 0) && (scr_x k - 1 <? 0)). cbv iota.
  set (k1 := set_x (scr_x k - 1) k).
  assert (console_frame k k1) as Hf1 by (by destruct (set_xy_frame k (scr_x k - 1) 0)).
  destruct (Z.eqb_spec (scr_x k) 0) as [E|E].
  - test_true (scr_x k - 1 <? 0). cbv iota.
    destruct (clear_top_row_spec k1 (scr_y k) Hv) as (Hf2 & Hc2 & _); [lia|].
    set (k2 := clear_top_row (scr_y k) k1) in *.
    assert (scr_y k2 = scr_y k) as Hy2 by (unfold scr_y; by rewrite Hc2).
    rewrite Hy2. set (k3 := set_x _ (set_y _ k2)).
    assert (console_frame k k3) as Hf3.
    { transitivity k1; [done|]. transitivity k2; [done|].
      transitivity (set_y (scr_y k - 1) k2); [by destruct (set_xy_frame k2 0 (scr_y k - 1))|].
      by destruct (set_xy_frame (set_y (scr_y k - 1) k2) (NUM_COLS - 1) 0). }
    destruct (put_cursor_refines k3 32) as [Hf4 Ha4];
      [by rewrite (console_frame_mmu k k3)|unfold cursor_ok;
       change (scr_x k3) with 79; change (scr_y k3) with (scr_y k - 1); lia|lia|].
    split; [by transitivity k3|]. rewrite Ha4. change (scr_x k3) with 79.
    change (scr_y k3) with (scr_y k - 1). do 2 f_equal.
    change (abs_cells k3) with (abs_cells k2). apply (abs_clear_top_row k1); [done|lia].
  - test_false (scr_x k - 1 <? 0). cbv iota.
    destruct (put_cursor_refines k1 32) as [Hf4 Ha4];
      [done|unfold cursor_ok; change (scr_x k1) with (scr_x k - 1);
       change (scr_y k1) with (scr_y k); lia|lia|].
    split; [by transitivity k1|]. exact Ha4.
Qed.

(** Writing a printable character. *)
Lemma advance_refines k : video_ident (mmu k) -> cursor_ok k ->
  let k1 := set_x (scr_x k + 1) k in
  let k' := if NUM_COLS <=? scr_x k1 then
        let k := set_y (scr_y k1 + 1) (set_x 0 k1) in
        let k := if NUM_ROWS <=? scr_y k then scroll k else k in
        clear_top_row (scr_y k) k
      else k1 in
  refines k k' (Spec.advance (abs k)).
Proof.
  intros Hv [Hx Hy]. cbv zeta. unfold Spec.advance, Spec.newline.
  cbn [Spec.cx Spec.cy Spec.cells abs]. unfold NUM_COLS, NUM_ROWS.
  change (scr_x (set_x (scr_x k + 1) k)) with (scr_x k + 1).
  change (scr_y (set_x (scr_x k + 1) k)) with (scr_y k).
  change (scr_y (set_y (scr_y k + 1) _)) with (scr_y k + 1).
  destruct (Z.ltb_spec (scr_x k) 79).
  { test_false (80 <=? scr_x k + 1). split; [by destruct (set_xy_frame k (scr_x k + 1) 0)|done]. }
  test_true (80 <=? scr_x k + 1). cbv iota.
  set (k2 := set_y (scr_y k + 1) _).
  assert (console_frame k k2) as Hf2.
  { transitivity (set_x (scr_x k + 1) k); [by destruct (set_xy_frame k (scr_x k + 1) 0)|].
    by split. }
  destruct (Z.eqb_spec (scr_y k) 24) as [E|E]; cbn [Spec.cx Spec.cy Spec.cells].
  - test_true (25 <=? scr_y k + 1). cbv iota.
    destruct (scroll_spec k2 Hv) as (Hf3 & Hx3 & Hy3 & _). set (k3 := scroll k2) in *.
    assert (video_ident (mmu k3)) as Hv3 by (by rewrite (console_frame_mmu k2)).
    destruct (clear_top_row_spec k3 (scr_y k3) Hv3) as (Hf4 & Hc4 & _); [lia|]. split.
    + exact (frame_trans _ _ _ Hf2 (frame_trans _ _ _ Hf3 Hf4)).
    + apply abs_intro; [by unfold scr_x; rewrite Hc4|by unfold scr_y in *; rewrite Hc4|].
      rewrite abs_clear_top_row, Hy3 by (done || lia). unfold k3. by rewrite abs_scroll.
  - test_false (25 <=? scr_y k + 1). cbv iota.
    destruct (clear_top_row_spec k2 (scr_y k2) Hv) as (Hf4 & Hc4 & _); [change (scr_y k2) with (scr_y k + 1); lia|].
    split; [by transitivity k2|].
    apply abs_intro; [by unfold scr_x; rewrite Hc4|by unfold scr_y in *; rewrite Hc4|].
    rewrite abs_clear_top_row; [done|done|]. change (scr_y k2) with (scr_y k + 1). lia.
Qed.

Lemma refines_trans k1 k2 k3 s s' : refines k1 k2 s -> refines k2 k3 s' -> refines k1 k3 s'.
Proof. intros [? _] [? ?]. split; [by transitivity k2|done]. Qed.

Lemma putc_refines_aux c k : video_ident (mmu k) -> cursor_ok k -> 0 <= c < 256 ->
  (c = 8 -> scr_x k <> 0 \/ scr_y k <> 0) ->
  refines k (putc c k) (Spec.write c (abs k)).
Proof.
  intros Hv Hc Hb H8. unfold putc, Spec.write. apply refines_place.
  destruct ((c =? 10) || (c =? 13)); [by apply next_line_refines|].
  unfold BACKSPACE. destruct (Z.eqb_spec c 8); [apply erase_refines; auto|].
  pose proof (put_cursor_refines k c Hv Hc Hb) as Hr.
  destruct (Z.eqb_spec c 0) as [->|]; [done|]. destruct Hr as [Hf Ha].
  set (k1 := put_cell _ _ _) in *. eapply refines_trans; [by split|].
  change (Spec.T _ _ _) with (Spec.T (Spec.set_cell (scr_x k) (scr_y k) c (abs_cells k)) (scr_x k) (scr_y k)).
  rewrite <- Ha. apply advance_refines; [by rewrite (console_frame_mmu k)|].
  pose proof (f_equal Spec.cx Ha) as Ex. pose proof (f_equal Spec.cy Ha) as Ey.
  simpl in Ex, Ey. unfold cursor_ok. by rewrite Ex, Ey.
Qed.
End refinement.

Lemma spec_putc_wf c s : Spec.wf s -> 0 <= c < 256 -> (c = 8 -> Spec.cx s <> 0 \/ Spec.cy s <> 0) ->
  Spec.wf (Spec.write c s).
Proof.
  intros (Hl & Hx & Hy) Hc H8.
  assert (forall x y v l, length l = 2000%nat -> length (Spec.set_cell x y v l) = 2000%nat) as Hset
    by (intros; unfold Spec.set_cell; by rewrite length_insert).
  assert (forall l, length l = 2000%nat -> length (Spec.scroll_up l) = 2000%nat) as Hscr
    by (intros; unfold Spec.scroll_up; rewrite length_app, length_drop, length_replicate; lia).
  assert (forall r l, 0 <= r <= 25 -> length l = 2000%nat -> length (Spec.blank_from r l) = 2000%nat) as Hbl
    by (intros; unfold Spec.blank_from; rewrite length_app, length_take, length_replicate; lia).
  unfold Spec.wf, Spec.write, Spec.advance, Spec.erase, Spec.newline.
  repeat (case_test; cbn [Spec.cells Spec.cx Spec.cy]);
    (split_and!; [auto 8 using Z.le_refl with lia|lia..]).
Qed.

(** ** What [putc] leaves alone, wherever the cursor is *)

Section frames.
Context `{Platform}.

(** Nothing but the memory, the port trace and the cursor differs, wherever the
    cursor is; that the bytes are those of the screen, when it is on the screen,
    is what [console_frame] adds. *)
Definition con_only (k k' : kstate) : Prop :=
  k' = k <| pmem := pmem k' |> <| io := io k' |> <| con := con k' |>.

Lemma con_only_refl k : con_only k k.
Proof. by destruct k. Qed.
Lemma con_only_trans k1 k2 k3 : con_only k1 k2 -> con_only k2 k3 -> con_only k1 k3.
Proof. unfold con_only. intros -> ->. done. Qed.
Lemma con_only_loop lo hi f k : lo <= hi -> (forall i k, con_only k (f i k)) -> con_only k (for_loop lo hi f k).
Proof.
  intros Hle Hf. apply (for_loop_rule (fun _ k' => con_only k k')); [done|apply con_only_refl|].
  intros i b _ Hb. exact (con_only_trans _ _ _ Hb (Hf i b)).
Qed.

Lemma put_cell_con_only i c k : con_only k (put_cell i c k).
Proof. done. Qed.
Lemma clear_top_row_con_only r k : con_only k (clear_top_row r k).
Proof.
  unfold clear_top_row. destruct (Z.le_gt_cases (u8 r * NUM_COLS) (NUM_ROWS * NUM_COLS)).
  - apply con_only_loop; [done|]. intros. apply put_cell_con_only.
  - rewrite for_loop_empty by lia. apply con_only_refl.
Qed.
Lemma st8_con_only va v k : con_only k (st8 va v k).
Proof. done. Qed.
Lemma scroll_rows_con_only k : con_only k (scroll_rows k).
Proof.
  unfold scroll_rows. apply con_only_loop; [done|]. intros i b. cbv zeta.
  eapply con_only_trans; apply st8_con_only.
Qed.
Lemma scroll_con_only k : con_only k (scroll k).
Proof.
  unfold scroll. apply (con_only_trans _ (scroll_rows k)); [apply scroll_rows_con_only|].
  generalize (scroll_rows k) as k1. intros k1.
  eapply con_only_trans; [|apply clear_top_row_con_only]. done.
Qed.
Lemma scroll_if_con_only k : con_only k (if NUM_ROWS <=? scr_y k then scroll k else k).
Proof. destruct (NUM_ROWS <=? scr_y k); [apply scroll_con_only|apply con_only_refl]. Qed.

Lemma putc_con_only c k : con_only k (putc c k).
Proof.
  assert (forall k k' x y, con_only k k' -> con_only k (place_cursor x y k')) as Hpl
    by (intros k0 k1 x y Hk; by apply (con_only_trans _ k1)).
  unfold putc. apply Hpl. destruct ((c =? 10) || (c =? 13)); [|destruct (c =? BACKSPACE); [|destruct (c =? 0)]].
  - apply (con_only_trans _ (set_y (scr_y k + 1) k)); [done|].
    eapply con_only_trans; [apply scroll_if_con_only|done].
  - apply (con_only_trans _ (set_x (scr_x k - 1) k)); [done|].
    eapply con_only_trans; [|apply put_cell_con_only].
    case_test; [done|]. case_test; [|apply con_only_refl].
    eapply con_only_trans; [apply clear_top_row_con_only|done].
  - done.
  - apply (con_only_trans _ (set_x (scr_x k + 1) (put_cell (cursor_cell k) c k))); [done|].
    case_test; [|apply con_only_refl]. cbv zeta.
    eapply con_only_trans; [|apply clear_top_row_con_only].
    eapply con_only_trans; [|apply scroll_if_con_only]. done.
Qed.

Lemma putc_loop_con_only n f k : con_only k (for_loop 0 n (fun i k => putc (f k i) k) k).
Proof.
  destruct (Z.le_gt_cases 0 n).
  - apply con_only_loop; [done|]. intros. apply putc_con_only.
  - rewrite for_loop_empty by lia. apply con_only_refl.
Qed.
End frames.

(** [k'] is [k] with the characters of [l] written to the console. *)
Definition shows `{Platform} (l : list Z) (k k' : kstate) : Prop :=
  console_frame k k' /\ cursor_ok k' /\ abs k' = fold_left (fun st c => Spec.write c st) l (abs k).

Section output.
Context `{Platform}.

Lemma shows_nil k : cursor_ok k -> shows [] k k.
Proof. split; [reflexivity|done]. Qed.
Lemma shows_app l1 l2 k1 k2 k3 : shows l1 k1 k2 -> shows l2 k2 k3 -> shows (l1 ++ l2) k1 k3.
Proof.
  intros (F1 & _ & A1) (F2 & C2 & A2). split; [|split]; [exact (frame_trans _ _ _ F1 F2)|done|].
  by rewrite fold_left_app, <- A1.
Qed.
Lemma shows_mmu l k k' : shows l k k' -> mmu k' = mmu k.
Proof. intros (Hf & _). exact (console_frame_mmu _ _ Hf). Qed.

Lemma putc_shows c k : video_ident (mmu k) -> cursor_ok k -> 0 <= c < 256 ->
  (c = 8 -> scr_x k <> 0 \/ scr_y k <> 0) -> shows [c] k (putc c k).
Proof.
  intros Hv Hc Hb H8. destruct (putc_refines_aux c k Hv Hc Hb H8) as [Hf Ha].
  split; [done|]. split; [|done].
  assert (Spec.wf (abs (putc c k))) as (_ & Hx & Hy); [|done].
  rewrite Ha. apply spec_putc_wf; [|done|done]. split; [apply abs_cells_length|done].
Qed.

Lemma puts_shows s n k :
  video_ident (mmu k) -> cursor_ok k -> is_cstr s n -> n < 2147483648 -> is_bytes s ->
  (forall i, 0 <= i < n -> s i <> 8) ->
  exists k', puts (fun _ => s) k = Some (n, k') /\ shows (s <$> seqZ 0 n) k k'.
Proof.
  intros Hv Hc (Hn & Hz & Hnz) Hlt Hb H8. unfold puts.
  loop_with (fun '(i, k') => 0 <= i <= n /\ shows (s <$> seqZ 0 i) k k')
    (fun '((i, _) : Z * kstate) => n - i)
    (fun '(i, k') => i = n /\ shows (s <$> seqZ 0 n) k k') r Hr.
  - intros [i k'] (Hi & Hs). destruct (Z.eqb_spec (s i) 0) as [E|E]; simpl.
    + destruct (Z.eq_dec i n) as [->|]; [done|]. by destruct (Hnz i); [lia|].
    + destruct (Z.eq_dec i n) as [->|]; [done|]. split; [|lia]. split; [lia|].
      rewrite seqZ_app, fmap_app by lia. apply (shows_app _ _ _ k'); [done|].
      apply putc_shows; [by rewrite (shows_mmu _ _ _ Hs)|apply Hs|done|].
      intros ?. destruct (H8 i); [lia|done].
  - split; [lia|]. by apply shows_nil.
  - lia.
  - destruct r as [i k']. destruct Hr as (-> & ?). eauto.
Qed.
End output.

(** ** Properties of the console *)

Section properties.
Context `{Platform}.

Lemma clear_spec k : video_ident (mmu k) ->
  console_frame k (clear k) /\ abs (clear k) = Spec.T (replicate 2000 32) 0 0.
Proof.
  intros Hv. unfold clear.
  destruct (put_cells_spec k 0 (NUM_ROWS * NUM_COLS) 32) as (Hf & Hc & Hcells);
    [done|done|done|].
  fold (blank_cells k) in Hf, Hc, Hcells. revert Hf Hc Hcells.
  generalize (blank_cells k) as k1. intros k1 Hf Hc Hcells.
  apply (refines_place k (set_y 0 (set_x 0 k1))). split.
  - destruct (set_xy_frame k1 0 0) as [Hx _]. destruct (set_xy_frame (set_x 0 k1) 0 0) as [_ Hy].
    exact (frame_trans _ _ _ Hf (frame_trans _ _ _ Hx Hy)).
  - apply abs_intro; [done|done|]. change (abs_cells (set_y 0 (set_x 0 k1))) with (abs_cells k1).
    apply abs_cells_ext; [by rewrite length_replicate|]. intros n Hn.
    rewrite lookup_replicate_2, Hcells by lia. unfold NUM_ROWS, NUM_COLS.
    by test_true ((0 <=? Z.of_nat n) && (Z.of_nat n <? 25 * 80)).
Qed.

(** C22: [putc] refines the abstract console: from a cursor on the screen, the
    cells and the cursor after it are those of the specification, the cursor
    stays on the screen, and only the cursor, the VGA ports and the 4000
    bytes of video memory are touched. The one excluded case is a backspace
    at the top-left corner. *)
Theorem putc_refines_console c k :
  video_ident (mmu k) -> cursor_ok k -> 0 <= c < 256 ->
  (c = 8 -> scr_x k <> 0 \/ scr_y k <> 0) ->
  console_frame k (putc c k) /\ abs (putc c k) = Spec.write c (abs k) /\ cursor_ok (putc c k).
Proof.
  intros Hv Hc Hb H8. destruct (putc_refines_aux c k Hv Hc Hb H8) as [Hf Ha].
  split_and!; [done|done|].
  assert (Spec.wf (abs (putc c k))) as (_ & Hx & Hy); [|done].
  rewrite Ha. apply spec_putc_wf; [|done|done]. split; [apply abs_cells_length|done].
Qed.

(** [puts] on a NUL-terminated string without backspaces ends, returns the
    length of the string, and shows the console obtained by writing its
    characters one after the other. *)
Theorem puts_refines_console s n k :
  video_ident (mmu k) -> cursor_ok k -> is_cstr s n -> n < 2147483648 -> is_bytes s ->
  (forall i, 0 <= i < n -> s i <> 8) ->
  exists k', puts (fun _ => s) k = Some (n, k') /\ console_frame k k' /\
    abs k' = fold_left (fun st c => Spec.write c st) (s <$> seqZ 0 n) (abs k).
Proof.
  intros Hv Hc Hs Hlt Hb H8. destruct (puts_shows s n k Hv Hc Hs Hlt Hb H8) as (k' & E & Hf & _ & Ha).
  eauto.
Qed.

(** [clear] leaves 2000 spaces and the cursor at the origin. *)
Theorem clear_blanks_console k : video_ident (mmu k) ->
  console_frame k (clear k) /\ abs (clear k) = Spec.T (replicate 2000 32) 0 0.
Proof. apply clear_spec. Qed.

(** A backspace with the cursor at the top-left corner leaves the screen:
    the cursor goes to row -1 and the blank is stored two bytes below video
    memory. *)
Theorem putc_backspace_at_origin k :
  scr_x k = 0 -> scr_y k = 0 -> video_ident (mmu k) ->
  xlate (mmu k) (VIDEO - 2) = VIDEO - 2 -> xlate (mmu k) (VIDEO - 1) = VIDEO - 1 ->
  scr_x (putc 8 k) = 79 /\ scr_y (putc 8 k) = -1 /\
  mem_get (pmem (putc 8 k)) (VIDEO - 2) = 32.
Proof.
  intros Hx Hy Hv H2 H1. unfold putc. change ((8 =? 10) || (8 =? 13)) with false.
  change (8 =? BACKSPACE) with true. cbv iota zeta.
  change (scr_x (set_x (scr_x k - 1) k)) with (scr_x k - 1).
  change (scr_y (set_x (scr_x k - 1) k)) with (scr_y k). rewrite Hx, Hy.
  change ((0 <? 0) && (0 - 1 <? 0)) with false. change (0 - 1 <? 0) with true. cbv iota.
  destruct (clear_top_row_spec (set_x (0 - 1) k) 0 Hv) as (Hf & Hc & _); [lia|].
  pose proof (console_frame_mmu _ _ Hf) as Hm.
  revert Hf Hc Hm. generalize (clear_top_row 0 (set_x (0 - 1) k)) as k2. intros k2 Hf Hc Hm.
  assert (scr_y k2 = 0) as -> by (unfold scr_y; rewrite Hc; done).
  split_and!; [done..|]. unfold cursor_cell.
  change (NUM_COLS * scr_y (set_x _ _) + scr_x (set_x _ _)) with (-1).
  change (mmu (set_x (0 - 1) k)) with (mmu k) in Hm. simpl. rewrite Hm.
  change (VIDEO + -2) with (VIDEO - 2). change (VIDEO + Z.shiftl (-1) 1) with (VIDEO - 2).
  change (VIDEO - 2 + 1) with (VIDEO - 1).
  rewrite H1, H2. by rewrite mem_get_other, mem_get_same by (unfold VIDEO; lia).
Qed.
End properties.

(** ** Concrete runs: the power-on state, where paging is off *)

Lemma video_ident_unpaged `{Platform} m : Z.testbit (cr0 m) 31 = false -> video_ident m.
Proof. intros E va _. by apply xlate_unpaged. Qed.

(** The string "Hi" and its terminator. *)
Definition hi_string (i : Z) : Z := match i with 0 => 72 | 1 => 105 | _ => 0 end.

Lemma putc_refines_console_witness :
  cursor_ok (@putc quiet_platform 65 zero_state).
Proof.
  apply (@putc_refines_console quiet_platform 65 zero_state);
    [by apply @video_ident_unpaged|done|done|done].
Defined.

Lemma puts_refines_console_witness :
  exists k', @puts quiet_platform (fun _ => hi_string) zero_state = Some (2, k') /\
    @console_frame zero_state k' /\
    abs k' = fold_left (fun st c => Spec.write c st) (hi_string <$> seqZ 0 2) (abs zero_state).
Proof.
  apply (@puts_refines_console quiet_platform hi_string 2 zero_state).
  - by apply @video_ident_unpaged.
  - done.
  - split; [done|]. split; [done|]. intros i Hi. unfold hi_string.
    assert (i = 0 \/ i = 1) as [-> | ->] by lia; done.
  - done.
  - intros i. unfold hi_string. by destruct i as [|[]|].
  - intros i Hi. assert (i = 0 \/ i = 1) as [-> | ->] by lia; done.
Defined.

Lemma clear_blanks_console_witness :
  abs (@clear quiet_platform zero_state) = Spec.T (replicate 2000 32) 0 0.
Proof. apply (@clear_blanks_console quiet_platform zero_state). by apply @video_ident_unpaged. Defined.

Lemma putc_backspace_at_origin_witness :
  scr_y (@putc quiet_platform 8 zero_state) = -1.
Proof.
  apply (@putc_backspace_at_origin quiet_platform zero_state);
    [done|done|by apply @video_ident_unpaged|by apply @xlate_unpaged|by apply @xlate_unpaged].
Defined.
