(* ===== verification/Printf.v ===== *)
(** [printf] of lib.c (lines 154-261).

    The format string is the function giving its bytes; the arguments are the
    32-bit words of the stack above it, one per conversion. [render] is the text
    a format stands for; the property is that [printf] shows it. *)

From S2P Require Import Prelude Bytes CString State Console.
#[local] Open Scope Z_scope.
#[local] Open Scope kernel_scope.

Section printf.
Context `{Platform}.

(** The local [conv_buf], as bytes by index. *)
Definition show_buf (b : mem) (from : Z) (k : kstate) : option kstate :=
  snd <$> puts (fun _ i => get8 b (from + i)) k.

(** [%x], [%u] and [%d]: the number converted to text, and the text written. *)
Definition printf_x (v : Z) (alternate : bool) (k : kstate) : option kstate :=
  if alternate then
    match itoa v 8 16 (∅ : mem) with
    | None => None
    | Some b =>
        match strlen (fun i => get8 b (8 + i)) with
        | None => None
        | Some starting_index =>
            let b := for_loop starting_index 8 (fun i => put8 i 48) b in
            show_buf b starting_index k
        end
    end
  else match itoa v 0 16 (∅ : mem) with Some b => show_buf b 0 k | None => None end.

Definition printf_u (v : Z) (k : kstate) : option kstate :=
  match itoa v 0 10 (∅ : mem) with Some b => show_buf b 0 k | None => None end.

Definition printf_d (v : Z) (k : kstate) : option kstate :=
  let value := s32 v in
  if value <? 0 then
    match itoa (u32 (- value)) 1 10 (put8 0 45 (∅ : mem)) with Some b => show_buf b 0 k | None => None end
  else match itoa (u32 value) 0 10 (∅ : mem) with Some b => show_buf b 0 k | None => None end.

(** The conversion whose specifier, after any [#], is [c]: the arguments left,
    and the state. *)
Definition printf_conv (c : Z) (alternate : bool) (args : list Z) (k : kstate) :
    option (list Z * kstate) :=
  let arg := hd 0 args in
  match c with
  | 37 (* %% *) => Some (args, putc 37 k)
  | 120 (* x *) => pair (tl args) <$> printf_x arg alternate k
  | 117 (* u *) => pair (tl args) <$> printf_u arg k
  | 100 (* d *) => pair (tl args) <$> printf_d arg k
  | 99 (* c *) => Some (tl args, putc (u8 (s32 arg)) k)
  | 115 (* s *) => (fun r => (tl args, snd r)) <$> puts (fun k i => ld8 k (arg + i)) k
  | _ => Some (args, k)
  end.

(** The specifier after a [%] at [i]: its place, and whether a [#] was seen. *)
Definition conv_spec (s : Z -> Z) (i : Z) : option (Z * bool) :=
  match loop 2147483648 (fun '(i, alternate) =>
          if s i =? 35 then inl (i + 1, true) else inr (i, alternate)) (i + 1, false) with
  | inr r => Some r
  | inl _ => None
  end.

(** lib.c [printf]; [None] when a string it reads is never ended. *)
Definition printf_step (s : Z -> Z) :
    Z * list Z * kstate -> (Z * list Z * kstate) + option (Z * kstate) :=
  fun '(i, args, k) =>
    if s i =? 0 then inr (Some (i, k))
    else if s i =? 37 then
      match conv_spec s i with
      | None => inr None
      | Some (i, alternate) =>
          match printf_conv (s i) alternate args k with
          | Some (args, k) => inl (i + 1, args, k)
          | None => inr None
          end
      end
    else inl (i + 1, args, putc (s i) k).

Definition printf (s : Z -> Z) (args : list Z) (k : kstate) : option (Z * kstate) :=
  loop_or None 2147483648 (printf_step s) (0, args, k).
End printf.

(** ** The text of a format *)

(** The number of digits of [v] in base [r], and the digits. *)
Fixpoint count_digits (fuel : nat) (r v : Z) : Z :=
  match fuel with
  | O => 1
  | S f => if v <? r then 1 else 1 + count_digits f r (v / r)
  end.
Definition digits (r v : Z) : list Z :=
  let d := count_digits 32 r v in (fun i => itoa_lookup (digit r v (d - 1 - i))) <$> seqZ 0 d.

(** The text of one conversion without [s], and whether it uses an argument. *)
Definition render_conv (c : Z) (alternate : bool) (v : Z) : list Z * bool :=
  if c =? 37 then ([37], false)
  else if c =? 120 then
    ((if alternate then replicate (Z.to_nat (8 - count_digits 32 16 v)) 48 else []) ++ digits 16 v, true)
  else if c =? 117 then (digits 10 v, true)
  else if c =? 100 then
    (if s32 v <? 0 then 45 :: digits 10 (- s32 v) else digits 10 (s32 v), true)
  else if c =? 99 then ([u8 v], true)
  else ([], false).

(** The text of a format given as a list; [conv] is set after a [%], with the
    [#] seen so far. *)
Fixpoint render (fmt : list Z) (conv : option bool) (args : list Z) : list Z :=
  match fmt with
  | [] => []
  | c :: fmt =>
      match conv with
      | None => if c =? 37 then render fmt (Some false) args else c :: render fmt None args
      | Some alternate =>
          if c =? 35 then render fmt (Some true) args
          else let '(t, used) := render_conv c alternate (hd 0 args) in
               t ++ render fmt None (if used then tl args else args)
      end
  end.

(** ** Numbers *)

Lemma ndigits_unique r v d d' : 2 <= r -> 0 <= v -> ndigits r v d -> ndigits r v d' -> d = d'.
Proof.
  intros Hr Hv. assert (forall a b, ndigits r v a -> ndigits r v b -> a <= b) as Hle.
  { intros a b (Ha & _ & Hlo) (Hb & Hhi & _). destruct Hlo as [[-> ->]|Hlo]; [lia|].
    assert (a - 1 < b); [|lia]. apply (Z.pow_lt_mono_r_iff r); lia. }
  intros H1 H2. pose proof (Hle _ _ H1 H2). pose proof (Hle _ _ H2 H1). lia.
Qed.

Lemma count_digits_pos f r v : 1 <= count_digits f r v.
Proof. revert v; induction f as [|f IH]; intros v; simpl; [lia|]. case_test; [lia|]. specialize (IH (v / r)). lia. Qed.

Lemma count_ndigits f r v : 2 <= r -> 0 <= v < r ^ (Z.of_nat f + 1) -> ndigits r v (count_digits f r v).
Proof.
  intros Hr. revert v; induction f as [|f IH]; intros v Hv; cbn [count_digits].
  - simpl in Hv. split_and!; [lia|lia|]. destruct (Z.eq_dec v 0); [by left|right].
    rewrite Z.sub_diag, Z.pow_0_r. lia.
  - destruct (Z.ltb_spec v r) as [Hlt|Hge].
    + split_and!; [lia|rewrite Z.pow_1_r; lia|]. destruct (Z.eq_dec v 0); [by left|right].
      rewrite Z.sub_diag, Z.pow_0_r. lia.
    + destruct (IH (v / r)) as (H1 & Hhi & Hlo).
      { split; [apply Z.div_pos; lia|]. apply Z.div_lt_upper_bound; [lia|].
        rewrite <- Z.pow_succ_r by lia. replace (Z.succ (Z.of_nat f + 1)) with (Z.of_nat (S f) + 1) by lia. lia. }
      set (d := count_digits f r (v / r)) in *.
      assert (1 <= v / r) by (apply Z.div_le_lower_bound; lia).
      pose proof (Z.div_mod v r ltac:(lia)) as Hdm. pose proof (Z.mod_pos_bound v r ltac:(lia)).
      split_and!; [lia| |right].
      * replace (1 + d) with (Z.succ d) by lia. rewrite Z.pow_succ_r by lia. nia.
      * replace (1 + d - 1) with (Z.succ (d - 1)) by lia. rewrite Z.pow_succ_r by lia.
        destruct Hlo as [[? _]|Hlo]; [lia|]. nia.
Qed.

#[local] Opaque count_digits.

Lemma digits_length r v : length (digits r v) = Z.to_nat (count_digits 32 r v).
Proof. unfold digits. by rewrite length_fmap, length_seqZ. Qed.

(** [l] is the string at [p] of the buffer [b]. *)
Definition holds (b : mem) (p : Z) (l : list Z) : Prop :=
  get8 b (p + Z.of_nat (length l)) = 0 /\
  forall i c, l !! i = Some c -> get8 b (p + Z.of_nat i) = c /\ 8 < c < 256.

Lemma itoa_holds v p r b : 0 <= v < 4294967296 -> 2 <= r <= 36 ->
  exists b', itoa v p r b = Some b' /\ holds b' p (digits r v) /\ count_digits 32 r v <= 32 /\
    forall j, j < p -> get8 b' j = get8 b j.
Proof.
  intros Hv Hr. destruct (itoa_filled v p r b Hv Hr) as (b' & d & E & Hd & Hnd & Hin & Hout & _);
    [apply mem_sep_range|].
  assert (d = count_digits 32 r v) as ->.
  { eapply ndigits_unique; [|exact (proj1 Hv)|exact Hnd|]; [lia|]. apply count_ndigits; [lia|].
    change (Z.of_nat 32 + 1) with 33. destruct Hv as [Hv0 Hv1]. split; [exact Hv0|].
    apply (Z.lt_le_trans _ (2 ^ 33)); [|apply Z.pow_le_mono_l; lia]. apply (Z.lt_trans _ _ _ Hv1). vm_compute. reflexivity. }
  exists b'. split_and!; [done| |lia|].
  - split.
    + rewrite digits_length, Z2Nat.id by lia. rewrite Hin by lia. by test_false (count_digits 32 r v <? count_digits 32 r v).
    + intros i c Hc. assert (Z.of_nat i < count_digits 32 r v) as Hi
        by (apply lookup_lt_Some in Hc; rewrite digits_length in Hc; lia).
      unfold digits in Hc. rewrite list_lookup_fmap, lookup_seqZ_lt in Hc by lia. injection Hc as <-.
      rewrite Hin by lia. test_true (Z.of_nat i <? count_digits 32 r v). split; [done|].
      pose proof (digit_range r v (count_digits 32 r v - 1 - (0 + Z.of_nat i)) ltac:(lia)).
      pose proof (itoa_lookup_range (digit r v (count_digits 32 r v - 1 - (0 + Z.of_nat i))) ltac:(lia)). lia.
  - intros j Hj. apply Hout. apply mem_outside. lia.
Qed.

Section shown.
Context `{Platform}.

Lemma show_buf_shows b p l k : video_ident (mmu k) -> cursor_ok k -> holds b p l ->
  Z.of_nat (length l) < 2147483648 -> exists k', show_buf b p k = Some k' /\ shows l k k'.
Proof.
  intros Hv Hc [Hz Hl] Hlen. unfold show_buf.
  assert (forall i, 0 <= i < Z.of_nat (length l) -> exists c, l !! Z.to_nat i = Some c /\
    get8 b (p + i) = c /\ 8 < c < 256) as Hi.
  { intros i Hi. destruct (lookup_lt_is_Some_2 l (Z.to_nat i)) as [c E]; [lia|].
    exists c. destruct (Hl _ _ E) as [? ?]. rewrite Z2Nat.id in * by lia. done. }
  destruct (puts_shows (fun i => get8 b (p + i)) (Z.of_nat (length l)) k) as (k' & -> & Hs); [done|done| |done|..].
  - split; [lia|]. split; [done|]. intros i Hii. destruct (Hi i Hii) as (c & _ & ? & ?). lia.
  - intros i. apply get8_range.
  - intros i Hii. destruct (Hi i Hii) as (c & _ & ? & ?). lia.
  - exists k'. split; [done|].
    assert (((fun i => get8 b (p + i)) <$> seqZ 0 (Z.of_nat (length l))) = l) as <-; [|done].
    apply list_eq. intros i. rewrite list_lookup_fmap. destruct (decide (i < length l)%nat).
    + rewrite lookup_seqZ_lt by lia. change (Some (get8 b (p + (0 + Z.of_nat i))) = l !! i).
      rewrite Z.add_0_l. destruct (Hi (Z.of_nat i)) as (c & E & Eb & _); [lia|].
      rewrite Nat2Z.id in E. by rewrite E, Eb.
    + rewrite lookup_seqZ_ge by lia. by rewrite lookup_ge_None_2 by lia.
Qed.

Lemma printf_u_shows v k : video_ident (mmu k) -> cursor_ok k -> 0 <= v < 4294967296 ->
  exists k', printf_u v k = Some k' /\ shows (digits 10 v) k k'.
Proof.
  intros Hvi Hc Hv. unfold printf_u. destruct (itoa_holds v 0 10 ∅ Hv) as (b & -> & Hb & Hd & _); [lia|].
  apply show_buf_shows; [done..|]. rewrite digits_length. pose proof (count_digits_pos 32 10 v). lia.
Qed.

Lemma printf_d_shows v k : video_ident (mmu k) -> cursor_ok k -> 0 <= v < 4294967296 ->
  exists k', printf_d v k = Some k' /\
    shows (if s32 v <? 0 then 45 :: digits 10 (- s32 v) else digits 10 (s32 v)) k k'.
Proof.
  intros Hvi Hc Hv. unfold printf_d. pose proof (s32_range v). destruct (Z.ltb_spec (s32 v) 0).
  - rewrite u32_small by lia.
    destruct (itoa_holds (- s32 v) 1 10 (put8 0 45 (∅ : mem))) as (b & -> & [Hz Hb] & Hd & Ho); [lia..|].
    pose proof (count_digits_pos 32 10 (- s32 v)).
    apply show_buf_shows; [done..| |cbn [length]; rewrite digits_length; lia].
    split; [cbn [length]; rewrite <- Hz; f_equal; lia|]. intros i c Hi. destruct i as [|i].
    + simpl in Hi. injection Hi as <-. rewrite Ho by lia. by vm_compute.
    + simpl in Hi. apply Hb in Hi. by replace (0 + Z.of_nat (S i)) with (1 + Z.of_nat i) by lia.
  - rewrite u32_small by lia. destruct (itoa_holds (s32 v) 0 10 ∅) as (b & -> & Hb & Hd & _); [lia..|].
    apply show_buf_shows; [done..|]. rewrite digits_length. pose proof (count_digits_pos 32 10 (s32 v)). lia.
Qed.

(** The zeros before the digits of [%#x]. *)
Lemma pad_zeros (b : mem) n : 0 <= n <= 8 ->
  let b' := for_loop n 8 (fun i => put8 i 48) b in
  forall j, get8 b' j = if (n <=? j) && (j <? 8) then 48 else get8 b j.
Proof.
  intros Hn. cbv zeta. apply (for_loop_rule (fun m (b' : mem) => forall j, get8 b' j =
    if (n <=? j) && (j <? m) then 48 else get8 b j)); [lia| |].
  - intros j. by test_false ((n <=? j) && (j <? n)).
  - intros i c Hi IH j. rewrite get8_put8. change (loc c) with (fun i : Z => i). cbv beta.
    rewrite IH. case_tests.
Qed.

Lemma printf_x_shows v alternate k : video_ident (mmu k) -> cursor_ok k -> 0 <= v < 4294967296 ->
  exists k', printf_x v alternate k = Some k' /\
    shows ((if alternate then replicate (Z.to_nat (8 - count_digits 32 16 v)) 48 else []) ++ digits 16 v) k k'.
Proof.
  intros Hvi Hc Hv. unfold printf_x. pose proof (count_digits_pos 32 16 v). destruct alternate.
  - destruct (itoa_holds v 8 16 ∅ Hv) as (b & -> & [Hz Hb] & Hd & _); [lia|].
    assert (count_digits 32 16 v <= 8) as H8.
    { destruct (count_ndigits 32 16 v) as (_ & _ & Hlo); [lia| |].
      - change (Z.of_nat 32 + 1) with 33. split; [apply Hv|].
        apply (Z.lt_le_trans _ (16 ^ 8)); [exact (proj2 Hv)|]. apply Z.pow_le_mono_r; lia.
      - destruct Hlo as [[_ ->]|Hlo]; [lia|].
        assert (count_digits 32 16 v - 1 < 8); [|lia]. apply (Z.pow_lt_mono_r_iff 16); [lia..|].
        apply (Z.le_lt_trans _ v); [done|]. exact (proj2 Hv). }
    assert (is_cstr (fun i => get8 b (8 + i)) (count_digits 32 16 v)) as Hcs.
    { rewrite digits_length, Z2Nat.id in Hz by lia. split; [lia|]. split; [done|]. intros i Hi.
      destruct (lookup_lt_is_Some_2 (digits 16 v) (Z.to_nat i)) as [c E]; [rewrite digits_length; lia|].
      destruct (Hb _ _ E) as [E8 ?]. rewrite Z2Nat.id in E8 by lia. lia. }
    rewrite (strlen_some _ _ Hcs) by lia. set (n := count_digits 32 16 v) in *.
    pose proof (pad_zeros b n ltac:(lia)) as Hp. cbv zeta in Hp.
    revert Hp. generalize (for_loop n 8 (fun i => put8 i 48) b) as b'. intros b' Hp.
    apply show_buf_shows; [done..| |rewrite length_app, length_replicate, digits_length; fold n; lia].
    split.
    + rewrite length_app, length_replicate, digits_length. fold n. rewrite Hp.
      rewrite digits_length in Hz. fold n in Hz. rewrite Z2Nat.id in Hz by lia.
      replace (n + Z.of_nat (Z.to_nat (8 - n) + Z.to_nat n)) with (8 + n + 0) by lia.
      test_false ((n <=? 8 + n + 0) && (8 + n + 0 <? 8)). by rewrite Z.add_0_r, Hz.
    + intros i c Hi. apply lookup_app_Some in Hi as [Hi|[Hi1 Hi2]].
      * apply lookup_replicate in Hi as [-> Hi]. rewrite Hp.
        by test_true ((n <=? n + Z.of_nat i) && (n + Z.of_nat i <? 8)).
      * rewrite length_replicate in Hi1, Hi2. destruct (Hb _ _ Hi2) as [E ?]. split; [|done].
        rewrite Hp, <- E. test_false ((n <=? n + Z.of_nat i) && (n + Z.of_nat i <? 8)). f_equal. lia.
  - destruct (itoa_holds v 0 16 ∅ Hv) as (b & -> & Hb & Hd & _); [lia|].
    apply show_buf_shows; [done..|]. simpl. rewrite digits_length. lia.
Qed.
End shown.

(** ** Formats *)

(** A format every [%] of which is followed, after any [#], by a specifier
    other than [s]. *)
Fixpoint format_ok (fmt : list Z) (conv : bool) : bool :=
  match fmt with
  | [] => negb conv
  | c :: fmt =>
      negb (c =? 0) &&
      (if conv then if c =? 35 then format_ok fmt true else negb (c =? 115) && format_ok fmt false
       else format_ok fmt (c =? 37))
  end.

(** The string with the bytes of [l]. *)
Definition bytes_of (l : list Z) (i : Z) : Z := default 0 (l !! Z.to_nat i).

Lemma bytes_of_drop l i : 0 <= i < Z.of_nat (length l) ->
  drop (Z.to_nat i) l = bytes_of l i :: drop (Z.to_nat (i + 1)) l.
Proof.
  intros Hi. destruct (lookup_lt_is_Some_2 l (Z.to_nat i)) as [c E]; [lia|].
  unfold bytes_of. rewrite E. cbn [default]. rewrite (drop_S _ _ _ E). do 2 f_equal. lia.
Qed.

Lemma bytes_of_end l : drop (Z.to_nat (Z.of_nat (length l))) l = [] /\ bytes_of l (Z.of_nat (length l)) = 0.
Proof.
  rewrite Nat2Z.id. split; [apply drop_all|]. unfold bytes_of. rewrite Nat2Z.id.
  by rewrite lookup_ge_None_2 by lia.
Qed.

Section format.
Context `{Platform}.

(** The scan of the [#]s. *)
Lemma conv_spec_ok l i : Z.of_nat (length l) < 2147483647 -> 0 <= i < Z.of_nat (length l) ->
  format_ok (drop (Z.to_nat (i + 1)) l) true = true ->
  exists j alternate, conv_spec (bytes_of l) i = Some (j, alternate) /\ i < j < Z.of_nat (length l) /\
    bytes_of l j <> 0 /\ bytes_of l j <> 115 /\ format_ok (drop (Z.to_nat (j + 1)) l) false = true /\
    forall args, render (drop (Z.to_nat (i + 1)) l) (Some false) args =
      (let '(t, used) := render_conv (bytes_of l j) alternate (hd 0 args) in
       t ++ render (drop (Z.to_nat (j + 1)) l) None (if used then tl args else args)).
Proof.
  intros Hlen Hi Hok. unfold conv_spec.
  loop_with (fun '(p, alternate) => i < p <= Z.of_nat (length l) /\
      format_ok (drop (Z.to_nat p) l) true = true /\
      forall args, render (drop (Z.to_nat (i + 1)) l) (Some false) args =
        render (drop (Z.to_nat p) l) (Some alternate) args)
    (fun '((p, _) : Z * bool) => Z.of_nat (length l) - p)
    (fun '(j, alternate) => i < j < Z.of_nat (length l) /\
      bytes_of l j <> 0 /\ bytes_of l j <> 115 /\ format_ok (drop (Z.to_nat (j + 1)) l) false = true /\
      forall args, render (drop (Z.to_nat (i + 1)) l) (Some false) args =
        (let '(t, used) := render_conv (bytes_of l j) alternate (hd 0 args) in
         t ++ render (drop (Z.to_nat (j + 1)) l) None (if used then tl args else args))) r Hr.
  - intros [p alternate] (Hp & Hok' & Hren).
    destruct (Z.eq_dec p (Z.of_nat (length l))) as [->|].
    { rewrite (proj1 (bytes_of_end l)) in Hok'. done. }
    rewrite bytes_of_drop in Hok' by lia. simpl in Hok'. apply andb_true_iff in Hok' as [Hc Hok'].
    destruct (Z.eqb_spec (bytes_of l p) 35) as [E|E].
    + split; [|lia]. split_and!; [lia|lia|done|]. intros args.
      rewrite Hren, (bytes_of_drop l p) by lia. cbn [render]. by rewrite E.
    + apply andb_true_iff in Hok' as [H1 H2]. split_and!; [lia|lia|lia|lia|done|].
      intros args. rewrite Hren, (bytes_of_drop l p) by lia. cbn [render].
      by rewrite (proj2 (Z.eqb_neq _ _) E).
  - split_and!; [lia|lia|done|done].
  - lia.
  - destruct r as [j alternate]. by exists j, alternate.
Qed.

(** One conversion. *)
Lemma printf_conv_shows c alternate args k :
  video_ident (mmu k) -> cursor_ok k -> Forall (fun v => 0 <= v < 4294967296) args -> c <> 115 ->
  (let '(t, used) := render_conv c alternate (hd 0 args) in Forall (fun c => c <> 8) t) ->
  exists k', (let '(t, used) := render_conv c alternate (hd 0 args) in
    printf_conv c alternate args k = Some (if used then tl args else args, k') /\ shows t k k').
Proof.
  intros Hvi Hc Ha H115 H8.
  assert (0 <= hd 0 args < 4294967296) as Hv by (destruct Ha; simpl; lia).
  unfold render_conv in *.
  destruct (Z.eqb_spec c 37) as [->|H37].
  { eexists. split; [done|]. by apply putc_shows. }
  destruct (Z.eqb_spec c 120) as [->|H120].
  { destruct (printf_x_shows (hd 0 args) alternate k Hvi Hc Hv) as (k' & E & Hs).
    exists k'. split; [|done]. unfold printf_conv. by rewrite E. }
  destruct (Z.eqb_spec c 117) as [->|H117].
  { destruct (printf_u_shows (hd 0 args) k Hvi Hc Hv) as (k' & E & Hs).
    exists k'. split; [|done]. unfold printf_conv. by rewrite E. }
  destruct (Z.eqb_spec c 100) as [->|H100].
  { destruct (printf_d_shows (hd 0 args) k Hvi Hc Hv) as (k' & E & Hs).
    exists k'. split; [|done]. unfold printf_conv. by rewrite E. }
  destruct (Z.eqb_spec c 99) as [->|H99].
  { assert (u8 (s32 (hd 0 args)) = u8 (hd 0 args)) as E by warith.
    exists (putc (u8 (hd 0 args)) k). apply Forall_cons_1 in H8 as [H8 _].
    split; [unfold printf_conv; by rewrite E|]. apply putc_shows; [done|done|apply u8_range|done]. }
  exists k. split; [|by apply shows_nil]. unfold printf_conv.
  repeat (case_match; try done; try lia).
Qed.

(** The loop over the format. *)
Definition format_inv (l : list Z) (args : list Z) (k : kstate) : Z * list Z * kstate -> Prop :=
  fun '(i, args', k') => 0 <= i <= Z.of_nat (length l) /\
    format_ok (drop (Z.to_nat i) l) false = true /\
    Forall (fun v => 0 <= v < 4294967296) args' /\
    exists t, shows t k k' /\ render l None args = t ++ render (drop (Z.to_nat i) l) None args'.

Lemma printf_step_inv l args k st :
  video_ident (mmu k) -> Forall (fun c => 0 <= c < 256) l -> Z.of_nat (length l) < 2147483647 ->
  Forall (fun c => c <> 8) (render l None args) -> format_inv l args k st ->
  match printf_step (bytes_of l) st with
  | inl st' => format_inv l args k st' /\ st.1.1 < st'.1.1
  | inr r => exists k', r = Some (Z.of_nat (length l), k') /\ shows (render l None args) k k'
  end.
Proof.
  destruct st as [[i args'] k']. intros Hvi Hl Hlen H8 (Hi & Hok & Ha & t & Hs & Hr).
  assert (video_ident (mmu k') /\ cursor_ok k') as [Hvi' Hc'] by (rewrite (shows_mmu _ _ _ Hs); split; [done|apply Hs]).
  unfold printf_step. destruct (Z.eqb_spec (bytes_of l i) 0) as [E0|E0].
  { destruct (Z.eq_dec i (Z.of_nat (length l))) as [->|].
    - exists k'. split; [done|]. rewrite Hr, (proj1 (bytes_of_end l)). simpl. by rewrite app_nil_r.
    - rewrite bytes_of_drop in Hok by lia. simpl in Hok. rewrite E0 in Hok. done. }
  destruct (Z.eq_dec i (Z.of_nat (length l))) as [->|Hne]; [by destruct (bytes_of_end l)|].
  rewrite bytes_of_drop in Hok, Hr by lia. cbn [format_ok render] in Hok, Hr.
  apply andb_true_iff in Hok as [_ Hok]. destruct (Z.eqb_spec (bytes_of l i) 37) as [E|E].
  - destruct (conv_spec_ok l i Hlen ltac:(lia) Hok) as (j & alternate & -> & Hj & Hj0 & H115 & Hok' & Hren).
    rewrite Hren in Hr.
    pose proof (printf_conv_shows (bytes_of l j) alternate args' k' Hvi' Hc' Ha H115) as Hconv.
    destruct (render_conv (bytes_of l j) alternate (hd 0 args')) as [t' used].
    rewrite Hr in H8. apply Forall_app in H8 as [_ H8]. apply Forall_app in H8 as [H8 _].
    destruct (Hconv H8) as (k'' & -> & Hs'). split; [|simpl; lia].
    split; [lia|]. split; [done|]. split.
    + destruct used; [|done]. by destruct Ha.
    + exists (t ++ t'). split; [by apply (shows_app _ _ _ k')|]. by rewrite Hr, <- app_assoc.
  - split; [|simpl; lia]. split; [lia|]. split; [done|]. split; [done|].
    rewrite Hr in H8. apply Forall_app in H8 as [_ H8]. apply Forall_cons_1 in H8 as [H8 _].
    exists (t ++ [bytes_of l i]). split; [|by rewrite Hr, <- app_assoc].
    apply (shows_app _ _ _ k'); [done|]. apply putc_shows; [done|done| |done].
    unfold bytes_of. destruct (l !! Z.to_nat i) as [c|] eqn:Ec; simpl; [|lia].
    by apply (Forall_lookup_1 _ _ _ _ Hl Ec).
Qed.

Lemma printf_shows l args k :
  video_ident (mmu k) -> cursor_ok k -> Forall (fun c => 0 <= c < 256) l ->
  Z.of_nat (length l) < 2147483647 -> format_ok l false = true ->
  Forall (fun v => 0 <= v < 4294967296) args -> Forall (fun c => c <> 8) (render l None args) ->
  exists k', printf (bytes_of l) args k = Some (Z.of_nat (length l), k') /\ shows (render l None args) k k'.
Proof.
  intros Hvi Hc Hl Hlen Hok Ha H8. unfold printf.
  apply (loop_or_rule (fun st => format_inv l args k st) (fun st => Z.of_nat (length l) - st.1.1)).
  - intros st Hst. pose proof (printf_step_inv l args k st Hvi Hl Hlen H8 Hst) as Hstep.
    destruct (printf_step (bytes_of l) st) as [[[i' args'] k']|r]; [|exact Hstep].
    destruct Hstep as [Hinv Hlt]. split; [done|]. destruct Hinv as (Hi & _). simpl in *. lia.
  - split; [lia|]. split; [done|]. split; [done|]. exists []. split; [by apply shows_nil|done].
  - simpl. lia.
Qed.

(** A format of which every argument prints: no [%s], no [%c], no backspace. *)
Fixpoint plain (fmt : list Z) (conv : bool) : bool :=
  match fmt with
  | [] => negb conv
  | c :: fmt =>
      (0 <? c) && (c <? 256) && negb (c =? 8) &&
      (if conv then if c =? 35 then plain fmt true else negb (c =? 115) && negb (c =? 99) && plain fmt false
       else plain fmt (c =? 37))
  end.

Lemma plain_format fmt conv : plain fmt conv = true ->
  format_ok fmt conv = true /\ Forall (fun c => 0 <= c < 256) fmt.
Proof.
  revert conv; induction fmt as [|c fmt IH]; intros conv; [done|]. cbn [plain format_ok].
  intros Hp. apply andb_true_iff in Hp as [Hc Hp]. test_true (negb (c =? 0)). cbn [andb].
  assert (format_ok fmt (if conv then c =? 35 else c =? 37) = true /\ Forall (fun c => 0 <= c < 256) fmt) as [Hf Hb].
  { destruct conv; [|by apply IH]. destruct (c =? 35); [by apply IH|].
    apply andb_true_iff in Hp as [_ Hp]. by apply IH. }
  split; [|constructor; [lia|done]]. destruct conv; [|done]. destruct (c =? 35); [done|].
  apply andb_true_iff in Hp as [Hp _]. apply andb_true_iff in Hp as [Hp _]. by rewrite Hp, Hf.
Qed.

Lemma digits_printable r v : 2 <= r <= 36 -> Forall (fun c => c <> 8) (digits r v).
Proof.
  intros Hr. apply Forall_fmap, Forall_forall. intros i _. simpl.
  pose proof (digit_range r v (count_digits 32 r v - 1 - i) ltac:(lia)) as Hd.
  pose proof (itoa_lookup_range (digit r v (count_digits 32 r v - 1 - i)) ltac:(lia)). lia.
Qed.

Lemma render_conv_printable c alternate v : c <> 99 ->
  let '(t, _) := render_conv c alternate v in Forall (fun c => c <> 8) t.
Proof.
  intros Hc. unfold render_conv. pose proof (fun w => digits_printable 10 w ltac:(lia)) as H10.
  pose proof (digits_printable 16 v ltac:(lia)) as H16.
  case_test; [by repeat constructor|]. case_test.
  { apply Forall_app. split; [|exact H16]. destruct alternate; [|constructor]. by apply Forall_replicate. }
  case_test; [apply H10|]. case_test; [case_test; [constructor; [lia|apply H10]|apply H10]|].
  test_false (c =? 99). constructor.
Qed.

Lemma render_printable fmt (conv : option bool) args : plain fmt (match conv with Some _ => true | None => false end) = true ->
  Forall (fun c => c <> 8) (render fmt conv args).
Proof.
  revert conv args; induction fmt as [|c fmt IH]; intros conv args; [done|]. cbn [plain render].
  intros Hp. apply andb_true_iff in Hp as [Hc Hp]. destruct conv as [alternate|].
  - destruct (c =? 35); [by apply IH|]. apply andb_true_iff in Hp as [Hp1 Hp].
    pose proof (render_conv_printable c alternate (hd 0 args) ltac:(lia)) as Ht.
    destruct (render_conv _ _ _) as [t used]. apply Forall_app. split; [done|by apply IH].
  - destruct (c =? 37); [by apply IH|]. constructor; [lia|by apply IH].
Qed.

Lemma printf_plain l args k :
  video_ident (mmu k) -> cursor_ok k -> plain l false = true -> Z.of_nat (length l) < 2147483647 ->
  Forall (fun v => 0 <= v < 4294967296) args ->
  exists k', printf (bytes_of l) args k = Some (Z.of_nat (length l), k') /\ shows (render l None args) k k'.
Proof.
  intros Hvi Hc Hp Hlen Ha. destruct (plain_format _ _ Hp) as [Hf Hb].
  apply printf_shows; [done..|]. by apply render_printable.
Qed.

(** C23: [printf] with a well-formed format without [%s], printing no backspace,
    ends, returns the length of the format, and shows on the console exactly
    the text the format stands for: numbers in their base without leading
    zeros, eight digits for [%#x], a sign for negative [%d]. *)
Theorem printf_renders l args k :
  video_ident (mmu k) -> cursor_ok k -> Forall (fun c => 0 <= c < 256) l ->
  Z.of_nat (length l) < 2147483647 -> format_ok l false = true ->
  Forall (fun v => 0 <= v < 4294967296) args -> Forall (fun c => c <> 8) (render l None args) ->
  exists k', printf (bytes_of l) args k = Some (Z.of_nat (length l), k') /\ shows (render l None args) k k'.
Proof. apply printf_shows. Qed.
End format.

(** ** A concrete run: "%#x %d" of 48879 and -1 *)

Definition sample_format : list Z := [37; 35; 120; 32; 37; 100].

Lemma printf_renders_witness :
  exists k', @printf quiet_platform (bytes_of sample_format) [0xBEEF; 0xFFFFFFFF] zero_state = Some (6, k') /\
    @shows quiet_platform [48; 48; 48; 48; 66; 69; 69; 70; 32; 45; 49] zero_state k'.
Proof.
  apply (@printf_renders quiet_platform sample_format [0xBEEF; 0xFFFFFFFF] zero_state).
  - by apply @video_ident_unpaged.
  - done.
  - by repeat constructor.
  - done.
  - done.
  - by repeat constructor.
  - change (render sample_format None [0xBEEF; 0xFFFFFFFF]) with [48; 48; 48; 48; 66; 69; 69; 70; 32; 45; 49].
    by repeat constructor.
Defined.
