(* ===== verification/Pic.v ===== *)
(** The 8259 interrupt controllers (i8259.c): the mask variables, their ports,
    [i8259_init], [enable_irq], [disable_irq] and [send_eoi]. *)

From S2P Require Import Prelude Bytes State.
#[local] Open Scope Z_scope.
#[local] Open Scope kernel_scope.

Definition MASTER_8259_PORT := 0x20.
Definition SLAVE_8259_PORT := 0xA0.
Definition ICW1 := 0x11.
Definition ICW2_MASTER := 0x20.
Definition ICW2_SLAVE := 0x28.
Definition ICW3_MASTER := 0x04.
Definition ICW3_SLAVE := 0x02.
Definition ICW4 := 0x01.
Definition EOI := 0x60.
Definition CASCADE := 2.
Definition MASK_ALL := 0xFF.
Definition SLAVE_START := 8.

(** The byte last written to a port. *)
Definition last_out (port : Z) (t : list port_event) : option Z :=
  fold_left (fun r e => match e with
                        | POut p d => if p =? port then Some d else r
                        | PIn _ _ => r
                        end) t None.

Lemma last_out_snoc port t e :
  last_out port (t ++ [e]) =
    match e with POut p d => if p =? port then Some d else last_out port t | PIn _ _ => last_out port t end.
Proof. unfold last_out. by rewrite fold_left_app. Qed.

Section pic.
Context `{Platform}.

Definition set_master (v : Z) (k : kstate) : kstate := k <| pic; master_mask := u8 v |>.
Definition set_slave (v : Z) (k : kstate) : kstate := k <| pic; slave_mask := u8 v |>.
Definition get_master (k : kstate) : Z := master_mask (pic k).
Definition get_slave (k : kstate) : Z := slave_mask (pic k).

(** i8259.c [enable_irq]; the argument is unsigned. *)
Definition enable_irq (irq_num : Z) (k : kstate) : kstate :=
  if 15 <? irq_num then k
  else if negb (Z.land irq_num SLAVE_START =? 0) then
    let k := set_master (Z.land (get_master k) (Z.lnot (Z.shiftl 1 2))) k in
    let k := outb (get_master k) (MASTER_8259_PORT + 1) k in
    let k := outb (Z.land (get_slave k) (Z.shiftl (Z.lnot 1) (irq_num - 8))) (SLAVE_8259_PORT + 1) k in
    set_slave (Z.land (get_slave k) (Z.lnot (Z.shiftl 1 (irq_num - 8)))) k
  else
    let k := set_master (Z.land (get_master k) (Z.lnot (Z.shiftl 1 irq_num))) k in
    outb (get_master k) (MASTER_8259_PORT + 1) k.

(** i8259.c [disable_irq]: the mask variables are not updated. *)
Definition disable_irq (irq_num : Z) (k : kstate) : kstate :=
  if 15 <? irq_num then k
  else if negb (Z.land irq_num SLAVE_START =? 0) then
    let '(v, k) := inb (SLAVE_8259_PORT + 1) k in
    outb (Z.lor v (Z.shiftl 1 (irq_num - 8))) (SLAVE_8259_PORT + 1) k
  else
    let '(v, k) := inb (MASTER_8259_PORT + 1) k in
    outb (Z.lor v (Z.shiftl 1 irq_num)) (MASTER_8259_PORT + 1) k.

(** i8259.c [send_eoi]. *)
Definition send_eoi (irq_num : Z) (k : kstate) : kstate :=
  if negb (Z.land irq_num SLAVE_START =? 0) then
    outb (Z.lor EOI CASCADE) MASTER_8259_PORT
      (outb (Z.lor EOI (irq_num - 8)) SLAVE_8259_PORT k)
  else outb (Z.lor EOI irq_num) MASTER_8259_PORT k.

(** i8259.c [i8259_init]. *)
Definition i8259_init (k : kstate) : kstate :=
  let k := set_slave MASK_ALL (set_master MASK_ALL k) in
  let k := outb ICW1 MASTER_8259_PORT k in
  let k := outb ICW2_MASTER (MASTER_8259_PORT + 1) k in
  let k := outb ICW3_MASTER (MASTER_8259_PORT + 1) k in
  let k := outb ICW4 (MASTER_8259_PORT + 1) k in
  let k := outb ICW1 SLAVE_8259_PORT k in
  let k := outb ICW2_SLAVE (SLAVE_8259_PORT + 1) k in
  let k := outb ICW3_SLAVE (SLAVE_8259_PORT + 1) k in
  let k := outb ICW4 (SLAVE_8259_PORT + 1) k in
  let k := outb MASK_ALL (MASTER_8259_PORT + 1) k in
  let k := outb MASK_ALL (SLAVE_8259_PORT + 1) k in
  enable_irq 2 k.

(** ** Lemmas *)

Lemma u8_testbit v i : 0 <= i < 8 -> Z.testbit (u8 v) i = Z.testbit v i.
Proof. intros. unfold u8. change 256 with (2 ^ 8). apply Z.mod_pow2_bits_low; lia. Qed.

Lemma clear_bit_testbit m n i : 0 <= n -> 0 <= i < 8 ->
  Z.testbit (u8 (Z.land m (Z.lnot (Z.shiftl 1 n)))) i = Z.testbit m i && negb (i =? n).
Proof.
  intros Hn Hi. rewrite u8_testbit, Z.land_spec, Z.lnot_spec by lia.
  rewrite Z.shiftl_1_l, Z.pow2_bits_eqb by lia. by rewrite (Z.eqb_sym n i).
Qed.

Lemma slave_line_test n : 0 <= n < 16 -> negb (Z.land n SLAVE_START =? 0) = (8 <=? n).
Proof.
  intros Hn. pose proof (range_check (fun n => Bool.eqb (negb (Z.land n SLAVE_START =? 0)) (8 <=? n))
    0 16 ltac:(vm_compute; reflexivity) n Hn) as E. by apply Bool.eqb_prop in E.
Qed.

(** What the two controllers have unmasked, line by line. *)
Definition line_enabled (k : kstate) (n : Z) : bool :=
  if n <? 8 then negb (Z.testbit (get_master k) n) else negb (Z.testbit (get_slave k) (n - 8)).

Lemma get_enable_irq k n : 0 <= n < 16 ->
  get_master (enable_irq n k) =
    u8 (Z.land (get_master k) (Z.lnot (Z.shiftl 1 (if 8 <=? n then 2 else n)))) /\
  get_slave (enable_irq n k) =
    (if 8 <=? n then u8 (Z.land (get_slave k) (Z.lnot (Z.shiftl 1 (n - 8)))) else get_slave k).
Proof.
  intros Hn. unfold enable_irq. test_false (15 <? n). cbv iota.
  rewrite slave_line_test by done. by destruct (8 <=? n).
Qed.

Lemma enable_irq_line k n i : 0 <= n < 16 -> 0 <= i < 16 ->
  line_enabled (enable_irq n k) i = line_enabled k i || (i =? n) || ((8 <=? n) && (i =? 2)).
Proof.
  intros Hn Hi. unfold line_enabled. destruct (get_enable_irq k n Hn) as [-> ->].
  destruct (Z.leb_spec 8 n), (Z.ltb_spec i 8); rewrite ?clear_bit_testbit by lia;
    rewrite ?negb_andb, ?negb_involutive; simpl.
  - test_false (i =? n). by rewrite orb_false_r.
  - test_false (i =? 2). rewrite orb_false_r. by replace (i - 8 =? n - 8) with (i =? n) by lia.
  - by rewrite orb_false_r.
  - test_false (i =? n). by rewrite !orb_false_r.
Qed.

Lemma i8259_init_line k i : 0 <= i < 16 -> line_enabled (i8259_init k) i = (i =? 2).
Proof.
  intros Hi. unfold i8259_init. rewrite enable_irq_line by lia.
  assert (line_enabled (set_slave MASK_ALL (set_master MASK_ALL k)) i = false) as Hz.
  { unfold line_enabled. change (get_master _) with (Z.ones 8). change (get_slave _) with (Z.ones 8).
    destruct (Z.ltb_spec i 8); by rewrite Z.ones_spec_low by lia. }
  change (line_enabled _ i) with (line_enabled (set_slave MASK_ALL (set_master MASK_ALL k)) i).
  rewrite Hz. simpl. by rewrite orb_false_r.
Qed.

(** The controllers' mask registers hold what was last written to their ports. *)
Definition ports_in_sync (k : kstate) : Prop :=
  last_out 0x21 (io k) = Some (get_master k) /\ last_out 0xA1 (io k) = Some (get_slave k).

Lemma ports_in_sync_init k :
  ports_in_sync (outb MASK_ALL (SLAVE_8259_PORT + 1) (outb MASK_ALL (MASTER_8259_PORT + 1)
    (outb ICW4 (SLAVE_8259_PORT + 1) (outb ICW3_SLAVE (SLAVE_8259_PORT + 1)
    (outb ICW2_SLAVE (SLAVE_8259_PORT + 1) (outb ICW1 SLAVE_8259_PORT
    (outb ICW4 (MASTER_8259_PORT + 1) (outb ICW3_MASTER (MASTER_8259_PORT + 1)
    (outb ICW2_MASTER (MASTER_8259_PORT + 1) (outb ICW1 MASTER_8259_PORT
    (set_slave MASK_ALL (set_master MASK_ALL k)))))))))))).
Proof. split; unfold outb; simpl; by rewrite !last_out_snoc. Qed.

Lemma enable_irq_sync n k : 0 <= n <= 8 -> ports_in_sync k -> ports_in_sync (enable_irq n k).
Proof.
  intros Hn [Hm Hs]. unfold ports_in_sync. destruct (get_enable_irq k n) as [-> ->]; [lia|].
  unfold enable_irq. test_false (15 <? n). rewrite slave_line_test by lia.
  destruct (Z.leb_spec 8 n); unfold outb; simpl; rewrite !last_out_snoc; simpl. 
  - split; [exact (f_equal Some (u8_u8 _))|]. by replace n with 8 by lia.
  - split; [exact (f_equal Some (u8_u8 _))|done].
Qed.

(** ** Properties *)

(** After [i8259_init] and any sequence of [enable_irq] on valid lines, the
    mask variables have exactly those lines enabled, the cascade line 2 being
    enabled by the initialisation. *)
Theorem enable_irq_lines ns k i :
  Forall (fun n => 0 <= n < 16) ns -> 0 <= i < 16 ->
  line_enabled (fold_left (fun k n => enable_irq n k) ns (i8259_init k)) i =
    (i =? 2) || existsb (Z.eqb i) ns.
Proof.
  intros Hns Hi. induction ns as [|n ns IH] using rev_ind.
  - simpl. by rewrite i8259_init_line, orb_false_r.
  - apply Forall_app in Hns as [Hns Hn]. apply Forall_cons_1 in Hn as [Hn _].
    rewrite fold_left_app, existsb_app. cbn [fold_left existsb].
    rewrite enable_irq_line, IH by done.
    by destruct (i =? 2), (existsb _ _), (i =? n), (8 <=? n).
Qed.

(** As long as only the lines 0 to 8 are enabled (the kernel enables 1 and
    8), the masks last written to the two controllers are the mask variables,
    so [line_enabled] is what the controllers deliver. *)
Theorem enable_irq_ports_in_sync ns k :
  Forall (fun n => 0 <= n <= 8) ns ->
  let k' := fold_left (fun k n => enable_irq n k) ns (i8259_init k) in
  last_out 0x21 (io k') = Some (get_master k') /\ last_out 0xA1 (io k') = Some (get_slave k').
Proof.
  intros Hns. cbv zeta. change (ports_in_sync (fold_left (fun k n => enable_irq n k) ns (i8259_init k))).
  induction ns as [|n ns IH] using rev_ind.
  - apply enable_irq_sync; [lia|]. apply ports_in_sync_init.
  - apply Forall_app in Hns as [Hns Hn]. apply Forall_cons_1 in Hn as [Hn _].
    rewrite fold_left_app. apply enable_irq_sync; [done|]. by apply IH.
Qed.

(** Enabling a slave line writes to the controller a mask in which every
    line up to it is enabled too (the shift is applied to [~1], so the low
    bits are zero), while the mask variable only has that line added. *)
Theorem enable_irq_slave_port k n :
  8 <= n < 16 ->
  exists v, io (enable_irq n k) = io k ++ [POut 0x21 (get_master (enable_irq n k)); POut 0xA1 v] /\
    (forall i, 0 <= i < 8 -> Z.testbit v i = Z.testbit (get_slave k) i && (n - 8 <? i)) /\
    (forall i, 0 <= i < 8 -> Z.testbit (get_slave (enable_irq n k)) i =
                        Z.testbit (get_slave k) i && negb (i =? n - 8)).
Proof.
  intros Hn. eexists. split_and!.
  - unfold enable_irq. test_false (15 <? n). rewrite slave_line_test by lia.
    test_true (8 <=? n). simpl. rewrite <- app_assoc. simpl.
    do 3 f_equal. exact (u8_u8 _).
  - intros i Hi. rewrite u8_testbit, Z.land_spec by done. f_equal.
    rewrite Z.shiftl_spec by lia. change (Z.lnot 1) with (-2).
    destruct (Z.ltb_spec (n - 8) i).
    + destruct (Z.eq_dec i (n - 8 + 1)) as [->|]; [by replace (n - 8 + 1 - (n - 8)) with 1 by lia|].
      replace (i - (n - 8)) with (Z.succ (i - (n - 8) - 1)) by lia.
      change (-2) with (2 * -1). rewrite Z.testbit_even_succ by lia. by apply Z.bits_m1; lia.
    + destruct (Z.eq_dec i (n - 8)) as [->|]; [by rewrite Z.sub_diag|].
      apply Z.testbit_neg_r. lia.
  - intros i Hi. destruct (get_enable_irq k n) as [_ ->]; [lia|].
    test_true (8 <=? n). apply clear_bit_testbit; lia.
Qed.
End pic.

Lemma enable_irq_lines_witness :
  line_enabled (fold_left (fun k n => @enable_irq n k) [1; 8] (@i8259_init zero_state)) 8 = true.
Proof. apply (@enable_irq_lines [1; 8] zero_state 8); [by repeat constructor|done]. Defined.

Lemma enable_irq_ports_in_sync_witness :
  last_out 0xA1 (io (fold_left (fun k n => @enable_irq n k) [1; 8] (@i8259_init zero_state))) = Some 0xFE.
Proof. apply (@enable_irq_ports_in_sync [1; 8] zero_state). by repeat constructor. Defined.

Lemma enable_irq_slave_port_witness :
  exists v, io (@enable_irq 12 zero_state) =
              [] ++ [POut 0x21 (get_master (@enable_irq 12 zero_state)); POut 0xA1 v] /\
    (forall i, 0 <= i < 8 -> Z.testbit v i = Z.testbit 0 i && (12 - 8 <? i)) /\
    (forall i, 0 <= i < 8 -> Z.testbit (get_slave (@enable_irq 12 zero_state)) i =
                        Z.testbit 0 i && negb (i =? 12 - 8)).
Proof. apply (@enable_irq_slave_port zero_state 12). done. Defined.
