(* ===== verification/Rtc.v ===== *)
(** The real-time clock driver (rtc.c): [init_rtc], [rtc_handler], [open_rtc],
    [set_freq_rtc], [write_rtc], [close_rtc] and [get_freq]. The spin of
    [read_rtc] is in Interrupts.v, with the handlers it waits for.

    The clock is programmed through an index port and a data port;
    [cmos_writes] reads a port trace as the register writes it makes. *)

From S2P Require Import Prelude Bytes State Pic.
#[local] Open Scope Z_scope.
#[local] Open Scope kernel_scope.

Definition REG_A := 0x8A.
Definition REG_B := 0x8B.
Definition COMMAND_PORT := 0x70.
Definition RTC_PORT := 0x71.

Section rtc.
Context `{Platform}.

Definition set_interrupt_rtc (v : Z) (k : kstate) : kstate := k <| State.rtc; interrupt_rtc := v |>.

(** rtc.c [init_rtc]; the second half passes port and data in the wrong
    order to [outb]. *)
Definition init_rtc (k : kstate) : kstate :=
  let k := outb REG_B COMMAND_PORT k in
  let '(v, k) := inb RTC_PORT k in
  let prev := s8 v in
  let k := outb REG_B COMMAND_PORT k in
  let k := outb (Z.lor prev 0x40) RTC_PORT k in
  let rate := 0xF in
  let k := outb RTC_PORT REG_A k in
  let '(v, k) := inb RTC_PORT k in
  let prev := s8 v in
  let k := outb COMMAND_PORT REG_A k in
  let prev := s8 (Z.land prev 0xF0) in
  let k := outb (Z.lor prev rate) RTC_PORT k in
  enable_irq 8 k.

(** rtc.c [rtc_handler]. *)
Definition rtc_handler (k : kstate) : kstate :=
  let k := outb 0x0C COMMAND_PORT k in
  let '(_, k) := inb RTC_PORT k in
  send_eoi 8 (set_interrupt_rtc 1 k).

(** rtc.c [set_freq_rtc]. *)
Definition set_freq_rtc (curr_freq : Z) : Z :=
  if (curr_freq <? 2) || (1024 <? curr_freq) then -1
  else match curr_freq with
       | 1024 => 0x06 | 512 => 0x07 | 256 => 0x08 | 128 => 0x09 | 64 => 0x0A
       | 32 => 0x0B | 16 => 0x0C | 8 => 0x0D | 4 => 0x0E | 2 => 0x0F
       | _ => -1
       end.

(** rtc.c [open_rtc]. *)
Definition open_rtc (k : kstate) : Z * kstate :=
  let k := outb REG_A COMMAND_PORT k in
  let '(prev_, k) := inb RTC_PORT k in
  let val_freq := set_freq_rtc 2 in
  let k := outb REG_A COMMAND_PORT k in
  (0, outb (Z.lor (Z.land 0xF0 prev_) val_freq) RTC_PORT k).

(** rtc.c [write_rtc]; [buffer] holds the frequency as a 32-bit integer. *)
Definition write_rtc (fd buffer num : Z) (k : kstate) : Z * kstate :=
  let k := outb REG_A COMMAND_PORT k in
  let '(prev_, k) := inb RTC_PORT k in
  let val_freq := set_freq_rtc (s32 (get32 (vspace k) buffer)) in
  let k := k <| State.rtc; freq_value := val_freq |> in
  let k := outb REG_A COMMAND_PORT k in
  (0, outb (Z.lor (Z.land 0xF0 prev_) val_freq) RTC_PORT k).

(** rtc.c [close_rtc]. *)
Definition close_rtc (fd : Z) (k : kstate) : Z * kstate := (0, k).

(** rtc.c [get_freq]. *)
Definition get_freq (k : kstate) : Z := s8 (freq_value (State.rtc k)).
End rtc.

(** ** The register writes of a trace *)

(** The index selected so far, and the writes (register, value) in order. *)
Definition cmos_step (st : Z * list (Z * Z)) (e : port_event) : Z * list (Z * Z) :=
  match e with
  | POut 0x70 d => (d, st.2)
  | POut 0x71 d => (st.1, st.2 ++ [(st.1, d)])
  | _ => st
  end.
Definition cmos (t : list port_event) : Z * list (Z * Z) := fold_left cmos_step t (0, []).
Definition cmos_writes (t : list port_event) : list (Z * Z) := (cmos t).2.

Lemma cmos_writes_app t l ws :
  (forall st, (fold_left cmos_step l st).2 = st.2 ++ ws) ->
  cmos_writes (t ++ l) = cmos_writes t ++ ws.
Proof. intros Hl. unfold cmos_writes, cmos. by rewrite fold_left_app, Hl. Qed.

(** The writes of the events a driver function appends to the trace. *)
Ltac cmos_trace :=
  unfold outb, inb; simpl; rewrite <- ?app_assoc; simpl;
  eapply cmos_writes_app; intros [? ?]; simpl;
  rewrite <- ?app_assoc, ?app_nil_r; simpl; reflexivity.

Section trace.
Context `{Platform}.

(** The rate field of register A is replaced, its high half kept. *)
Lemma high_nibble_or v r : 0 <= r < 16 -> u8 (Z.lor (Z.land 0xF0 (u8 v)) r) = 16 * (u8 v / 16) + r.
Proof.
  intros Hr. pose proof (u8_range v) as Hv.
  pose proof (range_check (fun w => forallb (fun r => u8 (Z.lor (Z.land 0xF0 w) r) =? 16 * (w / 16) + r)
    (seqZ 0 16)) 0 256 ltac:(vm_compute; reflexivity) (u8 v) Hv) as E.
  cbv beta in E. rewrite forallb_forall in E. apply Z.eqb_eq, E.
  apply list_elem_of_In, elem_of_seqZ. lia.
Qed.

(** Sign extension of the byte read does not show in the byte written. *)
Lemma prev_bits v : 0 <= v < 256 ->
  u8 (Z.lor (s8 v) 0x40) = Z.lor (u8 v) 0x40 /\
  u8 (Z.lor (s8 (Z.land (s8 v) 0xF0)) 0xF) = Z.lor (Z.land (u8 v) 0xF0) 0xF.
Proof.
  intros Hv. pose proof (range_check (fun v => (u8 (Z.lor (s8 v) 0x40) =? Z.lor (u8 v) 0x40) &&
    (u8 (Z.lor (s8 (Z.land (s8 v) 0xF0)) 0xF) =? Z.lor (Z.land (u8 v) 0xF0) 0xF)) 0 256
    ltac:(vm_compute; reflexivity) v Hv) as E. cbv beta in E. lia.
Qed.

Lemma enable_irq_cmos k : cmos_writes (io (enable_irq 8 k)) = cmos_writes (io k).
Proof.
  unfold enable_irq. change (15 <? 8) with false. change (Z.land 8 SLAVE_START) with 8.
  rewrite <- (app_nil_r (cmos_writes (io k))). cbv iota. change (negb (8 =? 0)) with true. cmos_trace.
Qed.
End trace.

(** ** Properties *)

Section properties.
Context `{Platform}.

(** [set_freq_rtc] gives the rate [16 - n] exactly for the frequencies
    [2 ^ n] of 2 to 1024 Hz, and -1 for every other argument. *)
Theorem set_freq_rtc_rate f :
  (exists n, 1 <= n <= 10 /\ f = 2 ^ n /\ set_freq_rtc f = 16 - n) \/
  ((forall n, 1 <= n <= 10 -> f <> 2 ^ n) /\ set_freq_rtc f = -1).
Proof.
  destruct (decide (2 <= f < 1025)) as [Hf|Hf].
  - pose proof (range_check (fun f =>
      existsb (fun n => (f =? 2 ^ n) && (set_freq_rtc f =? 16 - n)) (seqZ 1 10) ||
      forallb (fun n => negb (f =? 2 ^ n)) (seqZ 1 10) && (set_freq_rtc f =? -1)) 2 1023
      ltac:(vm_compute; reflexivity) f ltac:(lia)) as E.
    cbv beta in E. apply orb_true_iff in E as [E|E].
    + left. apply existsb_exists in E as (n & Hn & E). exists n.
      apply list_elem_of_In, elem_of_seqZ in Hn. split_and!; lia.
    + right. apply andb_true_iff in E as [E Er]. split; [|lia].
      intros n Hn. rewrite forallb_forall in E. specialize (E n).
      rewrite <- list_elem_of_In, elem_of_seqZ in E. specialize (E ltac:(lia)). lia.
  - right. unfold set_freq_rtc. test_true ((f <? 2) || (1024 <? f)). split; [|done].
    intros n Hn ->. pose proof (Z.pow_le_mono_r 2 1 n). pose proof (Z.pow_le_mono_r 2 n 10). lia.
Qed.

(** [open_rtc] succeeds and makes one register write, of rate 15 (2 Hz) to
    register A, the high half of what was read there being kept. *)
Theorem open_rtc_sets_2hz k :
  (open_rtc k).1 = 0 /\
  exists prev, cmos_writes (io (open_rtc k).2) =
    cmos_writes (io k) ++ [(REG_A, 16 * (u8 prev / 16) + 15)].
Proof.
  split; [done|]. exists (dev_read (io (outb REG_A COMMAND_PORT k)) RTC_PORT).
  rewrite <- high_nibble_or by lia. cmos_trace.
Qed.

(** [write_rtc] on a buffer with a frequency [2 ^ n], 2 to 1024 Hz, writes
    the rate [16 - n] to register A with its high half kept, records it for
    [get_freq], and returns 0. *)
Theorem write_rtc_sets_rate k fd buffer num n :
  1 <= n <= 10 -> get32 (vspace k) buffer = 2 ^ n ->
  let '(r, k') := write_rtc fd buffer num k in
  r = 0 /\ get_freq k' = 16 - n /\
  exists prev, cmos_writes (io k') = cmos_writes (io k) ++ [(REG_A, 16 * (u8 prev / 16) + (16 - n))].
Proof.
  intros Hn Hb.
  assert (set_freq_rtc (s32 (2 ^ n)) = 16 - n) as Hf.
  { apply Z.eqb_eq, (range_check (fun n => set_freq_rtc (s32 (2 ^ n)) =? 16 - n) 1 10);
      [vm_compute; reflexivity|lia]. }
  rewrite <- Hb in Hf. change (vspace k) with (vspace (inb RTC_PORT (outb REG_A COMMAND_PORT k)).2) in Hf.
  unfold write_rtc. rewrite (surjective_pairing (inb _ _)), Hf. cbv iota beta.
  split_and!; [done|apply s8_small; simpl; lia|].
  exists (dev_read (io (outb REG_A COMMAND_PORT k)) RTC_PORT).
  rewrite <- high_nibble_or by lia. cmos_trace.
Qed.

(** [write_rtc] with a frequency [set_freq_rtc] rejects still returns 0,
    and stores 0xFF, every bit set, in register A. *)
Theorem write_rtc_bad_frequency k fd buffer num :
  set_freq_rtc (s32 (get32 (vspace k) buffer)) = -1 ->
  let '(r, k') := write_rtc fd buffer num k in
  r = 0 /\ get_freq k' = -1 /\ cmos_writes (io k') = cmos_writes (io k) ++ [(REG_A, 0xFF)].
Proof.
  intros Hf. change (vspace k) with (vspace (inb RTC_PORT (outb REG_A COMMAND_PORT k)).2) in Hf.
  unfold write_rtc. rewrite (surjective_pairing (inb _ _)), Hf. cbv iota beta.
  split_and!; [done..|]. rewrite Z.lor_m1_r. cmos_trace.
Qed.

(** [init_rtc] never writes register A: both register writes go to
    register B, so the rate it means to set is not set. *)
Theorem init_rtc_writes_register_B k :
  exists v w, cmos_writes (io (init_rtc k)) =
    cmos_writes (io k) ++ [(REG_B, Z.lor (u8 v) 0x40); (REG_B, Z.lor (Z.land (u8 w) 0xF0) 0xF)].
Proof.
  unfold init_rtc. rewrite (surjective_pairing (inb _ _)). cbv iota beta.
  rewrite (surjective_pairing (inb _ _)). rewrite enable_irq_cmos.
  set (v := (inb RTC_PORT (outb REG_B COMMAND_PORT k)).1).
  set (w := (inb RTC_PORT (outb RTC_PORT _ _)).1). exists v, w.
  assert (v = u8 v) as Hv by (symmetry; apply u8_u8). assert (w = u8 w) as Hw by (symmetry; apply u8_u8).
  destruct (prev_bits v) as [<- _]; [rewrite Hv; apply u8_range|].
  destruct (prev_bits w) as [_ <-]; [rewrite Hw; apply u8_range|].
  clearbody v w. cmos_trace.
Qed.
End properties.

(** A buffer at address 0 holding the frequency 32, and one holding 3. *)
Definition buffer_state (f : Z) : kstate := zero_state <| pmem := put32 0 f (pmem zero_state) |>.

Lemma write_rtc_sets_rate_witness :
  let '(r, k') := @write_rtc quiet_platform 2 0 4 (buffer_state 32) in
  r = 0 /\ get_freq k' = 16 - 5 /\
  exists prev, cmos_writes (io k') = cmos_writes [] ++ [(REG_A, 16 * (u8 prev / 16) + (16 - 5))].
Proof. apply (@write_rtc_sets_rate quiet_platform (buffer_state 32) 2 0 4 5); done. Defined.

Lemma write_rtc_bad_frequency_witness :
  let '(r, k') := @write_rtc quiet_platform 2 0 4 (buffer_state 3) in
  r = 0 /\ get_freq k' = -1 /\ cmos_writes (io k') = cmos_writes [] ++ [(REG_A, 0xFF)].
Proof. apply (@write_rtc_bad_frequency quiet_platform (buffer_state 3) 2 0 4). done. Defined.
