(* ===== verification/Filesys.v ===== *)
(** The read-only file system (filesys.c) over the image GRUB loads as a module.

    The image is blocks of 4096 bytes in memory: the boot block with the counts
    and 63 directory entries of 64 bytes, one block per inode, then the data
    blocks. [read_dentry_by_name] and [read_dentry_by_index] fill a local
    [dentry_t]; [read_data] copies file bytes to a buffer of the same memory;
    the [file_*] and [directory_*] functions are the jump-table entries. *)

From S2P Require Import Prelude Bytes CString State.
#[local] Open Scope Z_scope.
#[local] Open Scope kernel_scope.

Definition FAILURE := -1.
Definition SUCCESS := 0.
Definition FILENAME_LEN := 32.
Definition NUM_MAX_DENTRIES := 63.

(** filesys.h [dentry_t], less its reserved bytes. *)
Record dentry_t := Dentry { filename : mem; filetype : Z; inode_num : Z }.

Section filesys.
Context `{Platform}.

(** [bootblock_addr->direntries[i]]. *)
Definition direntry (k : kstate) (i : Z) : Z := bootblock_addr (fs k) + 64 + 64 * i.

(** filesys.c [init_filesys]. *)
Definition init_filesys (start : Z) (k : kstate) : kstate :=
  let k := k <| fs; bootblock_addr := start |> in
  let k := k <| fs; dir_count := ld32 k start |> in
  let k := k <| fs; inode_count := ld32 k (start + 4) |> in
  let k := k <| fs; data_count := ld32 k (start + 8) |> in
  k <| fs; inodes := start + 4096 |>.

(** The copy of entry [i] that both lookups make. *)
Definition read_dentry (i : Z) (d : dentry_t) (k : kstate) : dentry_t :=
  let name := strncpy 0 (fun _ j => ld8 k (direntry k i + j)) FILENAME_LEN (filename d) in
  Dentry name (s32 (ld32 k (direntry k i + 32))) (s32 (ld32 k (direntry k i + 36))).

(** filesys.c [read_dentry_by_index]. *)
Definition read_dentry_by_index (index : Z) (d : dentry_t) (k : kstate) : Z * dentry_t :=
  (SUCCESS, read_dentry index d k).

(** filesys.c [read_dentry_by_name]; [None] when no NUL ends the name. *)
Definition read_dentry_by_name (fname : Z -> Z) (d : dentry_t) (k : kstate) : option (Z * dentry_t) :=
  match strlen fname with
  | None => None
  | Some len =>
      Some (if 32 <? len then (FAILURE, d)
            else loop_or (FAILURE, d) 64
                   (fun i => if i <? NUM_MAX_DENTRIES then
                               if strncmp (fun j => ld8 k (direntry k i + j)) fname 32 =? 0
                               then inr (SUCCESS, read_dentry i d k)
                               else inl (i + 1)
                             else inr (FAILURE, d)) 0)
  end.

(** filesys.c [read_data]: one iteration, then the loop. The counter is an
    [int], the bounds are unsigned. *)
Definition read_data_step (curr_inode offset length : Z) :
    Z * Z * kstate -> (Z * Z * kstate) + (Z * kstate) :=
  fun '(i, buf, k) =>
    if u32 i <? u32 (offset + length) then
      let block_idx := s32 (ld32 k (curr_inode + 4 + 4 * Z.quot i 4096)) in
      if data_count (fs k) <=? u32 block_idx then inr (s32 (i - offset - 1), k)
      else
        let blk := s32 (s32 (ld32 k (bootblock_addr (fs k) + 4)) + 1 + block_idx) in
        let data_struct := bootblock_addr (fs k) + 4096 * blk in
        let k := st8 buf (ld8 k (data_struct + Z.rem i 4096)) k in
        if i =? s32 (ld32 k curr_inode) then inr (s32 (i - offset), k)
        else inl (s32 (i + 1), buf + 1, k)
    else inr (s32 (i - offset), k).

Definition read_data (inode offset buf length : Z) (k : kstate) : Z * kstate :=
  if ld32 k (bootblock_addr (fs k) + 4) <=? inode then (FAILURE, k)
  else
    let curr_inode := bootblock_addr (fs k) + 4096 * (inode + 1) in
    loop_or (FAILURE, k) 4294967297 (read_data_step curr_inode offset length) (s32 offset, buf, k).

(** filesys.c [file_open], [file_close], [file_write]. *)
Definition file_open (k : kstate) : Z * kstate := (SUCCESS, k).
Definition file_close (fd : Z) (k : kstate) : Z * kstate := (SUCCESS, k).
Definition file_write (fd buf nbytes : Z) (k : kstate) : Z * kstate := (FAILURE, k).

(** filesys.c [file_read]. *)
Definition file_read (fd buf nbytes : Z) (k : kstate) : Z * kstate :=
  let pcb := get_pcb k in
  let offset := file_pos (fd_at (pcb_at k pcb) fd) in
  let ino := inode (fd_at (pcb_at k pcb) fd) in
  let '(bytes_read, k) := read_data ino offset buf (u32 nbytes) k in
  let offset := u32 (offset + bytes_read) in
  let d := fd_at (pcb_at k pcb) fd in
  (bytes_read, put_pcb pcb (put_fd fd (d <| file_pos := offset |>) (pcb_at k pcb)) k).

(** filesys.c [directory_open], [directory_close], [directory_write]. *)
Definition directory_open (k : kstate) : Z * kstate := (SUCCESS, k <| fs; num_files_read := 0 |>).
Definition directory_close (fd : Z) (k : kstate) : Z * kstate := (SUCCESS, k).
Definition directory_write (fd buf nbytes : Z) (k : kstate) : Z * kstate := (FAILURE, k).

(** filesys.c [directory_read]; [None] is the [strlen] that never ends, which
    the NUL stored at [buf[32]] excludes. *)
Definition directory_read (fd buf nbytes : Z) (k : kstate) : option (Z * kstate) :=
  if buf =? 0 then Some (FAILURE, k)
  else
    let '(r, d) := read_dentry_by_index (num_files_read (fs k)) (Dentry ∅ 0 0) k in
    if r =? SUCCESS then
      let k := set_vspace (strncpy buf (fun _ j => get8 (filename d) j) FILENAME_LEN (vspace k)) k in
      let k := st8 (buf + 32) 0 k in
      let k := k <| fs; num_files_read := u8 (num_files_read (fs k) + 1) |> in
      match strlen (fun i => ld8 k (buf + i)) with
      | Some n => Some (s32 n, k)
      | None => None
      end
    else Some (FAILURE, k).
End filesys.

(** ** The contents of the image *)

Section image.
Context `{Platform}.

Definition img (k : kstate) : Z := bootblock_addr (fs k).
Definition n_inodes (k : kstate) : Z := ld32 k (img k + 4).
Definition inode_addr (k : kstate) (ino : Z) : Z := img k + 4096 * (ino + 1).
Definition file_length (k : kstate) (ino : Z) : Z := s32 (ld32 k (inode_addr k ino)).
Definition block_of (k : kstate) (ino b : Z) : Z := s32 (ld32 k (inode_addr k ino + 4 + 4 * b)).
Definition block_ok (k : kstate) (ino b : Z) : Prop := u32 (block_of k ino b) < data_count (fs k).
(** Byte [j] of file [ino]. *)
Definition file_byte (k : kstate) (ino j : Z) : Z :=
  ld8 k (img k + 4096 * (n_inodes k + 1 + block_of k ino (j / 4096)) + j mod 4096).

(** An image of less than 2 GB, and the file of an inode: at most 1023 blocks,
    those of its bytes all within the image. *)
Record file_wf (k : kstate) (ino : Z) : Prop := {
  wf_ino : 0 <= ino < n_inodes k;
  wf_size : 0 <= data_count (fs k) /\ n_inodes k + 1 + data_count (fs k) < 524288;
  wf_length : 0 <= file_length k ino < 4190208;
  wf_blocks : forall b, 0 <= b -> 4096 * b < file_length k ino -> block_ok k ino b
}.

(** The buffer shares no byte with the image, nor with itself. *)
Record buf_apart (k : kstate) (buf n : Z) : Prop := {
  ba_sep : sep_range (vspace k) buf n;
  ba_img : forall o, 0 <= o < 4096 * (n_inodes k + 1 + data_count (fs k)) ->
               outside (vspace k) buf n (img k + o)
}.

Lemma block_small k ino b : file_wf k ino -> block_ok k ino b ->
  0 <= block_of k ino b < data_count (fs k).
Proof.
  intros [Hi Hs _ _] Hb. unfold block_ok in Hb.
  assert (-2147483648 <= block_of k ino b < 2147483648) by apply s32_range.
  pose proof (u32_range (block_of k ino b)). revert Hb. unfold u32.
  Z.div_mod_to_equations. lia.
Qed.

(** The bytes of the image are the same in both states. *)
Record same_image (k k' : kstate) : Prop := {
  si_fs : fs k' = fs k;
  si_bytes : forall o, 0 <= o < 4096 * (n_inodes k + 1 + data_count (fs k)) ->
    ld8 k' (img k + o) = ld8 k (img k + o)
}.

Lemma same_image_ld32 k k' o : same_image k k' ->
  0 <= o -> o + 4 <= 4096 * (n_inodes k + 1 + data_count (fs k)) ->
  ld32 k' (img k + o) = ld32 k (img k + o).
Proof.
  intros [_ Hb] Ho Ho'. unfold ld32, get32. pose proof (fun j => Hb (o + j)) as Hj.
  unfold ld8 in Hj, Hb. rewrite <- !Z.add_assoc, !Hj, Hb by lia. done.
Qed.

(** Then a file is the same. *)
Lemma same_image_file k k' ino : same_image k k' -> file_wf k ino ->
  img k' = img k /\ data_count (fs k') = data_count (fs k) /\ n_inodes k' = n_inodes k /\
  file_length k' ino = file_length k ino /\
  (forall b, 0 <= b < 1023 -> block_of k' ino b = block_of k ino b) /\
  forall j, 0 <= j < 4190208 -> block_ok k ino (j / 4096) -> file_byte k' ino j = file_byte k ino j.
Proof.
  intros Hsi Hwf. destruct (wf_ino _ _ Hwf), (wf_size _ _ Hwf).
  assert (img k' = img k) as Hi by (unfold img; by rewrite (si_fs _ _ Hsi)).
  assert (n_inodes k' = n_inodes k) as Hn.
  { unfold n_inodes. rewrite Hi. apply same_image_ld32; [done|lia|lia]. }
  assert (forall b, 0 <= b < 1023 -> block_of k' ino b = block_of k ino b) as Hb.
  { intros b Hb. unfold block_of, inode_addr. rewrite Hi, <- !Z.add_assoc. f_equal.
    apply same_image_ld32; [done|lia|lia]. }
  split_and!; [done|by rewrite (si_fs _ _ Hsi)|done| |done|].
  - unfold file_length, inode_addr. rewrite Hi. f_equal. apply same_image_ld32; [done|lia|lia].
  - intros j Hj Hok. unfold file_byte. rewrite Hi, Hn, Hb, <- !Z.add_assoc by (Z.div_mod_to_equations; lia).
    apply Hsi. pose proof (block_small _ _ _ Hwf Hok). Z.div_mod_to_equations. lia.
Qed.
Lemma same_image_wf k k' ino : same_image k k' -> file_wf k ino -> file_wf k' ino.
Proof.
  intros Hsi Hwf. destruct (same_image_file k k' ino Hsi Hwf) as (_ & Ed & En & El & Eb & _).
  destruct Hwf as [W1 W2 W3 W4].
  split; [by rewrite En|by rewrite En, Ed|by rewrite El|]. intros b Hb. rewrite El. intros Hb'.
  unfold block_ok. rewrite Ed, Eb by lia. by apply W4.
Qed.
Lemma same_image_byte k k' ino j : same_image k k' -> file_wf k ino -> 0 <= j < file_length k ino ->
  file_byte k' ino j = file_byte k ino j.
Proof.
  intros Hsi Hwf Hj. pose proof (wf_length _ _ Hwf).
  destruct (same_image_file k k' ino Hsi Hwf) as (_ & _ & _ & _ & _ & E). apply E; [lia|].
  apply Hwf; Z.div_mod_to_equations; lia.
Qed.
Lemma same_image_refl k : same_image k k.
Proof. done. Qed.
Lemma same_image_trans k1 k2 k3 ino : file_wf k1 ino -> same_image k1 k2 -> same_image k2 k3 -> same_image k1 k3.
Proof.
  intros Hwf H1 [F2 B2]. destruct (same_image_file k1 k2 ino H1 Hwf) as (Ei & Ed & En & _).
  destruct H1 as [F1 B1]. split; [by rewrite F2|]. intros o Ho. rewrite <- B1 by done.
  rewrite <- Ei. apply B2. by rewrite En, Ed.
Qed.

(** The image is not changed by stores to a buffer apart from it. *)
Lemma same_image_wrote k k' buf n m f : buf_apart k buf n -> m <= n -> wrote k k' buf m f -> same_image k k'.
Proof.
  intros [_ Himg] Hm Hw. split; [by destruct Hw as [-> _]|].
  intros o Ho. apply (wrote_ld8 _ _ _ _ _ _ Hw). eapply outside_le; [done|auto].
Qed.
Lemma image_stable k k' ino buf n m f : buf_apart k buf n -> file_wf k ino -> m <= n ->
  wrote k k' buf m f ->
  img k' = img k /\ data_count (fs k') = data_count (fs k) /\ n_inodes k' = n_inodes k /\
  file_length k' ino = file_length k ino /\
  (forall b, 0 <= b < 1023 -> block_of k' ino b = block_of k ino b) /\
  forall j, 0 <= j < 4190208 -> block_ok k ino (j / 4096) -> file_byte k' ino j = file_byte k ino j.
Proof. intros. apply same_image_file; [by eapply same_image_wrote|done]. Qed.

(** The state after [m] bytes of [file] from [offset] were copied. *)
Definition copied (k k' : kstate) (ino offset buf m : Z) : Prop :=
  wrote k k' buf m (fun j => file_byte k ino (offset + j)).

(** One iteration, at position [i] of the file. *)
Lemma read_data_step_spec k k' ino offset buf n i :
  file_wf k ino -> buf_apart k buf (i - offset + 1) -> 0 <= offset <= i -> i <= file_length k ino ->
  offset + n < 2147483648 -> i < offset + n ->
  copied k k' ino offset buf (i - offset) ->
  if data_count (fs k) <=? u32 (block_of k ino (i / 4096))
  then read_data_step (inode_addr k ino) offset n (i, buf + (i - offset), k') = inr (i - offset - 1, k')
  else exists k'', copied k k'' ino offset buf (i - offset + 1) /\
    read_data_step (inode_addr k ino) offset n (i, buf + (i - offset), k') =
      if i =? file_length k ino then inr (i - offset, k'')
      else inl (i + 1, buf + (i + 1 - offset), k'').
Proof.
  intros Hwf Hba Ho Hi Hn Hlt Hc. pose proof (wf_length _ _ Hwf) as Hlen.
  destruct (image_stable k k' ino buf (i - offset + 1) (i - offset) _ Hba Hwf ltac:(lia) Hc)
    as (Eimg & Edc & Enn & _ & Eb & Ebyte).
  unfold read_data_step. rewrite (u32_small i), (u32_small (offset + n)) by lia. test_true (i <? offset + n). cbv iota.
  rewrite Z.quot_div_nonneg, Z.rem_mod_nonneg by lia. rewrite Edc.
  assert (inode_addr k' ino = inode_addr k ino) as Ea by (unfold inode_addr; by rewrite Eimg).
  rewrite <- Ea. fold (block_of k' ino (i / 4096)). rewrite Eb by (Z.div_mod_to_equations; lia).
  destruct (Z.leb_spec (data_count (fs k)) (u32 (block_of k ino (i / 4096)))) as [Hbad|Hok].
  { by rewrite s32_small by lia. }
  pose proof (block_small k ino (i / 4096) Hwf Hok) as Hb. destruct (wf_ino _ _ Hwf), (wf_size _ _ Hwf).
  fold (img k') (n_inodes k'). rewrite Enn, (s32_small (n_inodes k)), (s32_small (_ + _)) by lia.
  set (v := ld8 k' _).
  assert (v = file_byte k ino i) as Ev.
  { rewrite <- Ebyte by (done || lia). unfold v, file_byte. by rewrite Enn, Eb by (Z.div_mod_to_equations; lia). }
  exists (st8 (buf + (i - offset)) v k'). 
  assert (copied k (st8 (buf + (i - offset)) v k') ino offset buf (i - offset + 1)) as Hc'.
  { apply wrote_snoc with (n := i - offset + 1); [apply Hba|lia| |done].
    rewrite Ev. replace (offset + (i - offset)) with i by lia. apply u8_small, get8_range. }
  split; [done|].
  destruct (image_stable k _ ino buf _ _ _ Hba Hwf ltac:(reflexivity) Hc') as (Ei' & _ & _ & El & _).
  replace (ld32 (st8 (buf + (i - offset)) v k') (inode_addr k' ino))
    with (ld32 (st8 (buf + (i - offset)) v k') (inode_addr (st8 (buf + (i - offset)) v k') ino))
    by (f_equal; rewrite Ea; unfold inode_addr; by rewrite Ei').
  fold (file_length (st8 (buf + (i - offset)) v k') ino). rewrite El.
  rewrite !s32_small by lia. case_test; [done|]. do 3 f_equal. lia.
Qed.

Lemma buf_apart_le k buf m n : m <= n -> buf_apart k buf n -> buf_apart k buf m.
Proof.
  intros Hm [Hs Hi]. split; [by apply (sep_range_le _ _ _ n)|].
  intros o Ho. apply (outside_le _ _ _ n); auto.
Qed.

(** What [read_data] has done when it returns [r]: the three ways out. *)
Definition read_data_post (k : kstate) (ino offset buf n : Z) : Z * kstate -> Prop :=
  fun '(r, k') =>
  let len := file_length k ino in
  (offset + n <= len -> r = n /\ copied k k' ino offset buf n) /\
  (len < offset + n -> block_ok k ino (len / 4096) ->
     r = len - offset /\ copied k k' ino offset buf (len - offset + 1)) /\
  (len < offset + n -> ~ block_ok k ino (len / 4096) ->
     r = len - offset - 1 /\ copied k k' ino offset buf (len - offset)).

Lemma read_data_post_holds k ino offset buf n :
  file_wf k ino -> 0 <= offset <= file_length k ino -> 0 <= n -> offset + n < 2147483648 ->
  buf_apart k buf (Z.min n (file_length k ino - offset + 1)) ->
  read_data_post k ino offset buf n (read_data ino offset buf n k).
Proof.
  intros Hwf Ho Hn Hlt Hba. pose proof (wf_length _ _ Hwf) as Hlen. unfold read_data.
  fold (img k) (n_inodes k). destruct (wf_ino _ _ Hwf). test_false (n_inodes k <=? ino). cbv iota zeta.
  fold (inode_addr k ino). rewrite (s32_small offset) by lia.
  apply (loop_or_rule
    (fun '(i, b, k') => offset <= i /\ i <= file_length k ino /\ i <= offset + n /\
       b = buf + (i - offset) /\ copied k k' ino offset buf (i - offset))
    (fun '((i, _, _) : Z * Z * kstate) => offset + n - i)).
  - intros [[i b] k'] (Hi1 & Hi2 & Hi3 & -> & Hc).
    destruct (Z.lt_ge_cases i (offset + n)) as [Hi|Hi].
    2: { unfold read_data_step. rewrite (u32_small i), (u32_small (offset + n)) by lia.
         test_false (i <? offset + n). rewrite s32_small by lia.
         assert (i = offset + n) as -> by lia. replace (offset + n - offset) with n in * by lia.
         split_and!; [done|lia|lia]. }
    pose proof (read_data_step_spec k k' ino offset buf n i Hwf
      ltac:(eapply buf_apart_le; [|exact Hba]; lia) ltac:(lia) Hi2 Hlt Hi Hc) as Hstep.
    destruct (Z.leb_spec (data_count (fs k)) (u32 (block_of k ino (i / 4096)))) as [Hbad|Hok].
    + assert (i = file_length k ino) as ->.
      { destruct (Z.eq_dec i (file_length k ino)); [done|].
        pose proof (wf_blocks _ _ Hwf (i / 4096) ltac:(Z.div_mod_to_equations; lia)
          ltac:(Z.div_mod_to_equations; lia)) as Hok. unfold block_ok in Hok. lia. }
      rewrite Hstep. split_and!; [lia|unfold block_ok; lia|done].
    + destruct Hstep as (k'' & Hc'' & ->). destruct (Z.eqb_spec i (file_length k ino)) as [->|].
      * split_and!; [lia|done|unfold block_ok; lia].
      * split; [|lia]. split_and!; [lia..|].
        by replace (i + 1 - offset) with (i - offset + 1) by lia.
  - rewrite Z.sub_diag, Z.add_0_r. split_and!; [lia..|apply wrote_nil].
  - lia.
Qed.
End image.

(** ** Frames *)

(** Whatever the image and the arguments, [read_data] stores bytes only. *)
Lemma read_data_only_mem `{Platform} ino offset buf n k : only_mem k (read_data ino offset buf n k).2.
Proof.
  unfold read_data. case_match; [apply only_mem_refl|].
  apply (loop_or_inv (fun '(_, _, k') => only_mem k k') (fun r => only_mem k r.2)); [|apply only_mem_refl..].
  intros [[i b] k'] Hk. unfold read_data_step. repeat case_match; simplify_eq; try done;
    by apply (only_mem_trans _ _ _ Hk).
Qed.

(** ** Names *)

Section names.
Context `{Platform}.

(** [l] is the length of a name held in a field of [n] bytes. *)
Definition field_len (s : Z -> Z) (n l : Z) : Prop :=
  0 <= l <= n /\ (forall i, 0 <= i < l -> s i <> 0) /\ (l = n \/ s l = 0).

Lemma field_len_exists s n : 0 <= n -> exists l, field_len s n l.
Proof.
  intros Hn. pattern n. apply natlike_ind; [|clear n Hn|done].
  - exists 0. split_and!; [lia|lia|lia|by left].
  - intros n Hn (l & Hl & Hnz & Hend). destruct (Z.eq_dec (s l) 0) as [E|E].
    + exists l. split_and!; [lia|lia|done|by right].
    + destruct Hend as [->|]; [|done]. exists (Z.succ n). split_and!; [lia|lia| |by left].
      intros i Hi. destruct (Z.eq_dec i n) as [->|]; [done|apply Hnz; lia].
Qed.

(** The name of directory entry [i]. *)
Definition entry_name (k : kstate) (i : Z) : Z -> Z := fun j => ld8 k (direntry k i + j).

Lemma entry_name_bytes k i : is_bytes (entry_name k i).
Proof. intros j. apply get8_range. Qed.

Lemma read_dentry_name i d k l j : field_len (entry_name k i) 32 l -> 0 <= j < 32 ->
  get8 (filename (read_dentry i d k)) j = if j <? l then entry_name k i j else 0.
Proof.
  intros (Hl & Hnz & Hend) Hj. unfold read_dentry. cbn [filename].
  destruct (strncpy_filled (A:=mem) 0 (fun _ j => ld8 k (direntry k i + j)) FILENAME_LEN l (filename d))
    as [Hin _]; [done..|apply mem_sep_range|done|intros; apply get8_range|].
  by apply (Hin j).
Qed.

(** A name that agrees with a string of at most 32 bytes. *)
Lemma field_len_agree s fname n : is_cstr fname n -> n <= 32 -> str_agree s fname 32 ->
  field_len s 32 n /\ forall j, 0 <= j < n -> s j = fname j.
Proof.
  intros (Hn & Hz & Hnz) H32 Ha.
  assert (forall j, 0 <= j -> 0 <= j < n -> s j = fname j) as Heq.
  { intros j Hj. pattern j. apply Z_lt_induction; [|done]. intros x IH Hx.
    apply Ha; [lia|]. intros y Hy. rewrite IH by lia. apply Hnz. lia. }
  split; [|intros j Hj; apply Heq; lia]. split_and!; [lia..| |].
  - intros i Hi. rewrite Heq by lia. auto.
  - destruct (Z.eq_dec n 32); [by left|right]. rewrite (Ha n), Hz; [done|lia|].
    intros j Hj. rewrite Heq by lia. auto.
Qed.
End names.

(** ** Properties of lookups *)

Section lookup.
Context `{Platform}.

Lemma read_dentry_by_name_finds fname n d k :
  is_cstr fname n -> n <= 32 -> is_bytes fname ->
  (exists i, 0 <= i < 63 /\ str_agree (entry_name k i) fname 32 /\
     (forall j, 0 <= j < i -> ~ str_agree (entry_name k j) fname 32) /\
     read_dentry_by_name fname d k = Some (SUCCESS, read_dentry i d k)) \/
  ((forall i, 0 <= i < 63 -> ~ str_agree (entry_name k i) fname 32) /\
   read_dentry_by_name fname d k = Some (FAILURE, d)).
Proof.
  intros Hs Hn Hb. unfold read_dentry_by_name.
  rewrite (strlen_some _ _ Hs) by lia. test_false (32 <? n). cbv iota.
  apply (loop_or_rule
    (fun i => 0 <= i <= 63 /\ forall j, 0 <= j < i -> ~ str_agree (entry_name k j) fname 32)
    (fun i => 63 - i)).
  - intros i [Hi Hno]. unfold NUM_MAX_DENTRIES. destruct (Z.ltb_spec i 63).
    + fold (entry_name k i). pose proof (strncmp_eq (entry_name k i) fname 32 ltac:(lia) (entry_name_bytes k i) Hb) as Hcmp.
      destruct (Z.eqb_spec (strncmp (entry_name k i) fname 32) 0) as [E|E].
      * left. exists i. apply Hcmp in E. by split_and!; [lia|lia|..].
      * split; [|lia]. split; [lia|]. intros j Hj.
        destruct (Z.eq_dec j i) as [->|]; [by rewrite <- Hcmp|apply Hno; lia].
    + right. split; [|done]. intros j Hj. apply Hno. lia.
  - split; lia.
  - lia.
Qed.

(** [read_dentry_by_name] on a string of at most 32 bytes finds the first
    of the 63 entries whose name agrees with it, and copies that entry: its
    name padded with NULs, its type and its inode number. When no entry
    agrees it fails and leaves the output untouched. *)
Theorem read_dentry_by_name_first fname n d k :
  is_cstr fname n -> n <= 32 -> is_bytes fname ->
  (exists i d', 0 <= i < 63 /\ str_agree (entry_name k i) fname 32 /\
     (forall j, 0 <= j < i -> ~ str_agree (entry_name k j) fname 32) /\
     read_dentry_by_name fname d k = Some (SUCCESS, d') /\
     (forall j, 0 <= j < 32 -> get8 (filename d') j = if j <? n then fname j else 0) /\
     filetype d' = s32 (ld32 k (direntry k i + 32)) /\
     inode_num d' = s32 (ld32 k (direntry k i + 36))) \/
  ((forall i, 0 <= i < 63 -> ~ str_agree (entry_name k i) fname 32) /\
   read_dentry_by_name fname d k = Some (FAILURE, d)).
Proof.
  intros Hs Hn Hb. destruct (read_dentry_by_name_finds fname n d k Hs Hn Hb) as [(i & Hi & E & Hno & ->)|[Hno ->]]; [|by right].
  left. exists i, (read_dentry i d k). destruct (field_len_agree _ _ _ Hs Hn E) as [Hfl Heq].
  split_and!; [lia|lia|done|done|done| |done|done].
  intros j Hj. rewrite (read_dentry_name _ _ _ _ _ Hfl Hj).
  destruct (Z.ltb_spec j n); [apply Heq; lia|done].
Qed.

(** A lookup that succeeds gives the same file in every state with this image. *)
Lemma same_image_entry k k' i j : same_image k k' -> 0 <= n_inodes k -> 0 <= data_count (fs k) ->
  0 <= i < 63 -> 0 <= j < 64 -> entry_name k' i j = entry_name k i j.
Proof.
  intros [Ef Eb] Hn Hd Hi Hj. unfold entry_name, direntry. rewrite Ef. fold (img k).
  rewrite <- !Z.add_assoc. apply Eb. lia.
Qed.
Lemma same_image_lookup k k' fname d d0 : same_image k k' -> 0 <= n_inodes k -> 0 <= data_count (fs k) ->
  is_bytes fname -> read_dentry_by_name fname d0 k = Some (SUCCESS, d) ->
  exists d', read_dentry_by_name fname d0 k' = Some (SUCCESS, d') /\
    filetype d' = filetype d /\ inode_num d' = inode_num d.
Proof.
  intros Hsi Hn Hd Hb E.
  assert (exists n, is_cstr fname n /\ n <= 32) as (n & Hs & H32).
  { unfold read_dentry_by_name in E. destruct (strlen fname) as [n|] eqn:El; [|done].
    exists n. split; [by apply strlen_inv|]. destruct (Z.ltb_spec 32 n); [done|lia]. }
  pose proof (fun i j => same_image_entry k k' i j Hsi Hn Hd) as He.
  assert (forall i, 0 <= i < 63 -> str_agree (entry_name k' i) fname 32 <-> str_agree (entry_name k i) fname 32) as Ha.
  { intros i Hi. split; intros H1 x Hx Hz.
    - rewrite <- He by lia. apply H1; [done|]. intros y Hy. rewrite He by lia. by apply Hz.
    - rewrite He by lia. apply H1; [done|]. intros y Hy. rewrite <- He by lia. by apply Hz. }
  destruct (read_dentry_by_name_finds fname n d0 k Hs H32 Hb) as [(i & Hi & E1 & Hno & E2)|[_ E2]];
    rewrite E2 in E; [|by injection E].
  injection E as <-.
  destruct (read_dentry_by_name_finds fname n d0 k' Hs H32 Hb) as [(i' & Hi' & E1' & Hno' & E2')|[Hno' _]].
  - assert (i' = i) as ->.
    { destruct (Z.lt_trichotomy i' i) as [?|[?|?]]; [|done|].
      - destruct (Hno i'); [lia|by apply Ha].
      - destruct (Hno' i); [lia|by apply Ha]. }
    exists (read_dentry i d0 k'). split; [done|]. cbn [filetype inode_num read_dentry].
    assert (forall o, 0 <= o -> o + 4 <= 64 -> ld32 k' (direntry k' i + o) = ld32 k (direntry k i + o)) as Ho.
    { intros o H1 H2. unfold direntry. rewrite (si_fs _ _ Hsi). fold (img k). rewrite <- !Z.add_assoc.
      apply same_image_ld32; [done|lia|lia]. }
    by rewrite !Ho by lia.
  - destruct (Hno' i Hi). by apply Ha.
Qed.

(** A name of more than 32 bytes is rejected without looking at the
    directory. *)
Theorem read_dentry_by_name_long fname n d k :
  is_cstr fname n -> 32 < n < 4294967296 ->
  read_dentry_by_name fname d k = Some (FAILURE, d).
Proof.
  intros Hs Hn. unfold read_dentry_by_name. rewrite (strlen_some _ _ Hs) by lia.
  by test_true (32 <? n).
Qed.

(** The name of the next entry, stored with its padding. *)
Lemma directory_read_spec fd buf nbytes k l :
  buf <> 0 -> sep_range (vspace k) buf 33 ->
  field_len (entry_name k (num_files_read (fs k))) 32 l ->
  exists k', directory_read fd buf nbytes k =
      Some (l, k' <| fs; num_files_read := u8 (num_files_read (fs k) + 1) |>) /\
    wrote k k' buf 33 (fun j => if j <? l then entry_name k (num_files_read (fs k)) j else 0).
Proof.
  intros Hbuf Hs Hfl. destruct Hfl as (Hl & Hnz & Hend) eqn:Hfl_eq. clear Hfl_eq.
  unfold directory_read. test_false (buf =? 0). cbn [read_dentry_by_index fst snd].
  change (SUCCESS =? SUCCESS) with true. cbv iota zeta.
  set (i := num_files_read (fs k)) in *. set (d := read_dentry i _ k).
  assert (forall j, 0 <= j < 32 -> get8 (filename d) j = if j <? l then entry_name k i j else 0) as Hd
    by (intros j Hj; by apply read_dentry_name).
  clearbody d. set (k1 := set_vspace _ k).
  assert (wrote k k1 buf 32 (fun j => if j <? l then entry_name k i j else 0)) as Hw.
  { apply wrote_set_vspace. eapply (filled_ext _ _ _ _ (fun j => if j <? l then get8 (filename d) j else 0)).
    - intros j Hj. cbv beta. rewrite Hd by done. by destruct (j <? l).
    - apply (strncpy_filled buf (fun (_ : aspace) j => get8 (filename d) j) FILENAME_LEN l);
        [done| |unfold FILENAME_LEN| |done|intros; apply get8_range].
      + intros j Hj. rewrite Hd by lia. test_true (j <? l). by apply Hnz.
      + destruct (Z.eq_dec l 32); [by left|right]. rewrite Hd by lia. by test_false (l <? l).
      + by apply (sep_range_le _ _ _ 33). }
  clearbody k1. apply (wrote_snoc _ _ _ 33 _ _ 0 Hs) in Hw; [|lia|by test_false (32 <? l)].
  set (k2 := st8 (buf + 32) 0 k1) in *. clearbody k2. exists k2.
  assert (fs k2 = fs k) as Hfs by (by destruct Hw as [-> _]). split; [|done].
  assert (is_cstr (fun i => ld8 k2 (buf + i)) l) as Hc.
  { destruct Hw as [_ (Hin & _)]. unfold is_cstr, ld8. split_and!; [lia| |].
    - rewrite Hin by lia. by test_false (l <? l).
    - intros j Hj. rewrite Hin by lia. test_true (j <? l). by apply Hnz. }
  rewrite Hfs. fold i. change (fun i0 => ld8 _ (buf + i0)) with (fun i0 => ld8 k2 (buf + i0)).
  by rewrite (strlen_some _ _ Hc), s32_small by lia.
Qed.

(** [directory_read] at counter [i] stores the name of entry [i], padded
    with NULs to 32 bytes and terminated, whatever size the caller gave;
    returns its length, and moves the counter on, modulo 256. *)
Theorem directory_read_entry fd buf nbytes k l :
  buf <> 0 -> sep_range (vspace k) buf 33 ->
  field_len (entry_name k (num_files_read (fs k))) 32 l ->
  exists k', directory_read fd buf nbytes k =
      Some (l, k' <| fs; num_files_read := u8 (num_files_read (fs k) + 1) |>) /\
    wrote k k' buf 33 (fun j => if j <? l then entry_name k (num_files_read (fs k)) j else 0).
Proof. apply directory_read_spec. Qed.
End lookup.

(** ** Properties of reads *)

Section reads.
Context `{Platform}.

(** The end of the file can be met: the block after the last byte is valid,
    or the read stops before it. *)
Definition end_ok (k : kstate) (ino last : Z) : Prop :=
  last <= file_length k ino \/ block_ok k ino (file_length k ino / 4096).

(** The bytes [read_data] stores: one more than it returns at the end of file. *)
Definition stored (len offset n : Z) : Z := if offset + n <=? len then n else len - offset + 1.

Lemma stored_le len offset n : 0 <= n -> offset <= len -> stored len offset n <= Z.min n (len - offset + 1).
Proof. intros. unfold stored. case_tests. Qed.

Lemma read_data_returns ino offset buf n k :
  file_wf k ino -> 0 <= offset <= file_length k ino -> 0 <= n -> offset + n < 2147483648 ->
  buf_apart k buf (Z.min n (file_length k ino - offset + 1)) -> end_ok k ino (offset + n) ->
  exists k', read_data ino offset buf n k = (Z.min n (file_length k ino - offset), k') /\
    copied k k' ino offset buf (stored (file_length k ino) offset n).
Proof.
  intros Hwf Ho Hn Hlt Hba He.
  pose proof (read_data_post_holds k ino offset buf n Hwf Ho Hn Hlt Hba) as Hp.
  destruct (read_data ino offset buf n k) as [r k']. destruct Hp as (H1 & H2 & _).
  exists k'. unfold stored. destruct (Z.leb_spec (offset + n) (file_length k ino)) as [Hle|Hgt].
  - destruct (H1 Hle) as [-> Hc]. by rewrite Z.min_l by lia.
  - destruct He as [?|Hok]; [lia|]. destruct (H2 Hgt Hok) as [-> Hc]. by rewrite Z.min_r by lia.
Qed.

(** C21: [read_data] of a well-formed file returns the number of bytes asked
    for or left before the end, and the buffer holds those bytes of the file.
    Nothing else is stored, except that a read that meets the end of the file
    stores one byte more than it returns. A read that asks for more than is left
    is of a file whose length is not a multiple of the block size, or whose table
    goes on with a valid block ([read_data_short_count] is the other case). *)
Theorem read_data_copies_file ino offset buf n k :
  file_wf k ino -> 0 <= offset <= file_length k ino -> 0 <= n -> offset + n < 2147483648 ->
  buf_apart k buf (Z.min n (file_length k ino - offset + 1)) -> end_ok k ino (offset + n) ->
  exists k', read_data ino offset buf n k = (Z.min n (file_length k ino - offset), k') /\
    copied k k' ino offset buf (stored (file_length k ino) offset n).
Proof. apply read_data_returns. Qed.

(** When the length of the file is a multiple of the block size and the
    table has no valid block after the last one, a read that meets the end of
    the file returns one less than the bytes it stored. *)
Theorem read_data_short_count ino offset buf n k :
  file_wf k ino -> 0 <= offset <= file_length k ino -> file_length k ino < offset + n < 2147483648 ->
  buf_apart k buf (Z.min n (file_length k ino - offset + 1)) ->
  ~ block_ok k ino (file_length k ino / 4096) ->
  exists k', read_data ino offset buf n k = (file_length k ino - offset - 1, k') /\
    copied k k' ino offset buf (file_length k ino - offset).
Proof.
  intros Hwf Ho Hlt Hba Hbad.
  pose proof (read_data_post_holds k ino offset buf n Hwf Ho ltac:(lia) ltac:(lia) Hba) as Hp.
  destruct (read_data ino offset buf n k) as [r k']. destruct Hp as (_ & _ & H3).
  destruct H3 as [-> Hc]; [lia|done|]. eauto.
Qed.

(** ** [file_read] and sequences of reads *)

Definition cur_fd (fd : Z) (k : kstate) : file_descriptor_t := fd_at (pcb_at k (get_pcb k)) fd.
Definition set_cur_fd (fd : Z) (d : file_descriptor_t) (k : kstate) : kstate :=
  put_pcb (get_pcb k) (put_fd fd d (pcb_at k (get_pcb k))) k.

Lemma cur_set_fd fd d k : cur_fd fd (set_cur_fd fd d k) = d.
Proof.
  unfold cur_fd, set_cur_fd, fd_at, pcb_at. simpl. rewrite lookup_insert_eq. simpl.
  by rewrite lookup_insert_eq.
Qed.

(** The file a descriptor reads: well-formed, with the position within it. *)
Record reads_file (k : kstate) (fd ino pos : Z) : Prop := {
  rf_wf : file_wf k ino;
  rf_inode : inode (cur_fd fd k) = ino;
  rf_pos : file_pos (cur_fd fd k) = pos;
  rf_in : 0 <= pos <= file_length k ino
}.

Lemma file_read_spec fd buf n k ino pos :
  reads_file k fd ino pos -> 0 <= n -> pos + n < 2147483648 ->
  buf_apart k buf (Z.min n (file_length k ino - pos + 1)) -> end_ok k ino (pos + n) ->
  let r := Z.min n (file_length k ino - pos) in
  exists k1, copied k k1 ino pos buf (stored (file_length k ino) pos n) /\
    file_read fd buf n k = (r, set_cur_fd fd ((cur_fd fd k) <| file_pos := pos + r |>) k1).
Proof.
  intros [Hwf Hi Hp Hin] Hn Hlt Hba He. cbv zeta. unfold file_read. fold (cur_fd fd k).
  rewrite Hi, Hp, (u32_small n) by lia.
  destruct (read_data_returns ino pos buf n k Hwf Hin Hn Hlt Hba He) as (k1 & -> & Hc).
  exists k1. split; [done|]. rewrite u32_small by lia.
  assert (pcb_at k1 (get_pcb k) = pcb_at k (get_pcb k) /\ get_pcb k1 = get_pcb k) as [E1 E2]
    by (destruct Hc as [-> _]; done).
  unfold set_cur_fd. rewrite E2, E1. done.
Qed.

(** Reads of [ns] bytes, one after the other, into consecutive places. *)
Fixpoint file_reads (fd buf : Z) (ns : list Z) (k : kstate) : Z * kstate :=
  match ns with
  | [] => (0, k)
  | n :: ns =>
      let '(r, k) := file_read fd buf n k in
      let '(rs, k) := file_reads fd (buf + r) ns k in (r + rs, k)
  end.

(** A sub-range of a buffer apart from the image, in a state that shows the
    same image through the same translation. *)
Lemma buf_apart_sub k k' buf n d m : 0 <= d -> d + m <= n -> buf_apart k buf n ->
  (forall va, loc (vspace k') va = loc (vspace k) va) ->
  img k' = img k -> n_inodes k' = n_inodes k -> data_count (fs k') = data_count (fs k) ->
  buf_apart k' (buf + d) m.
Proof.
  intros Hd Hm [Hs Hi] Hloc E1 E2 E3. split.
  - intros i j Hi' Hj. rewrite !Hloc, <- !Z.add_assoc. intros E%Hs; lia.
  - intros o. rewrite E1, E2, E3. intros Ho i Hi'. rewrite !Hloc, <- Z.add_assoc. apply Hi; lia.
Qed.

(** One read leaves the descriptor on the same file, at the new position. *)
Lemma file_read_step fd buf n k ino pos top :
  reads_file k fd ino pos -> 0 <= n -> pos + n <= top -> top < 2147483648 ->
  buf_apart k buf (file_length k ino - pos + 1) -> end_ok k ino top ->
  let r := Z.min n (file_length k ino - pos) in
  exists k', file_read fd buf n k = (r, k') /\ reads_file k' fd ino (pos + r) /\
    end_ok k' ino top /\ file_length k' ino = file_length k ino /\
    buf_apart k' (buf + r) (file_length k ino - (pos + r) + 1) /\
    (forall j, 0 <= j < 4190208 -> block_ok k ino (j / 4096) -> file_byte k' ino j = file_byte k ino j) /\
    filled (vspace k) (vspace k') buf (stored (file_length k ino) pos n) (fun j => file_byte k ino (pos + j)).
Proof.
  intros Hr Hn Htop Hlt Hba He. cbv zeta. destruct (Hr) as [Hwf Hino Hpos Hin].
  pose proof (stored_le (file_length k ino) pos n Hn (proj2 Hin)) as Hst.
  destruct (file_read_spec fd buf n k ino pos Hr Hn) as (k1 & Hc & ->);
    [lia|eapply buf_apart_le; [|exact Hba]; lia|destruct He; [left; lia|by right]|].
  eexists. split; [done|].
  assert (stored (file_length k ino) pos n <= file_length k ino - pos + 1) as Hle by lia.
  destruct (image_stable k k1 ino buf _ _ _ Hba Hwf Hle Hc) as (E1 & E2 & E3 & E4 & E5 & E6).
  set (k2 := set_cur_fd _ _ _).
  change (n_inodes k1) with (n_inodes k2) in E3. change (file_length k1 ino) with (file_length k2 ino) in E4.
  assert (forall b, 0 <= b < 1023 -> block_ok k2 ino b <-> block_ok k ino b) as Hbk.
  { intros b Hb. unfold block_ok. change (block_of k2 ino b) with (block_of k1 ino b).
    by rewrite E5, <- E2 by done. }
  destruct (wf_size _ _ Hwf), (wf_ino _ _ Hwf), (wf_length _ _ Hwf). split_and!.
  - split.
    + split; [by rewrite E3|change (fs k2) with (fs k1); by rewrite E2, E3|by rewrite E4|].
      intros b Hb. rewrite E4. intros Hb'. apply Hbk; [lia|]. by apply Hwf.
    + unfold k2. by rewrite cur_set_fd.
    + unfold k2. by rewrite cur_set_fd.
    + rewrite E4. lia.
  - destruct He as [?|?]; [left; by rewrite E4|right]. rewrite E4. apply Hbk; [Z.div_mod_to_equations; lia|done].
  - done.
  - apply (buf_apart_sub k _ _ (file_length k ino - pos + 1)); [lia|lia|done|apply Hc|exact E1|exact E3|exact E2].
  - exact E6.
  - apply Hc.
Qed.

Lemma file_reads_spec fd ino ns pos buf k :
  reads_file k fd ino pos -> Forall (Z.le 0) ns -> pos + foldr Z.add 0 ns < 2147483648 ->
  buf_apart k buf (file_length k ino - pos + 1) -> end_ok k ino (pos + foldr Z.add 0 ns) ->
  let total := Z.min (foldr Z.add 0 ns) (file_length k ino - pos) in
  exists k', file_reads fd buf ns k = (total, k') /\
    (forall j, 0 <= j < total -> ld8 k' (buf + j) = file_byte k ino (pos + j)) /\
    (forall va, outside (vspace k) buf (file_length k ino - pos + 1) va -> ld8 k' va = ld8 k va) /\
    file_pos (cur_fd fd k') = pos + total.
Proof.
  revert pos buf k. induction ns as [|n ns IH]; intros pos buf k Hr Hns Hlt Hba He; cbn [foldr file_reads] in *.
  { pose proof (rf_in _ _ _ _ Hr). rewrite Z.min_l by lia. exists k. split_and!; [done|lia|done|].
    by rewrite (rf_pos _ _ _ _ Hr), Z.add_0_r. }
  apply Forall_cons_1 in Hns as [Hn Hns].
  assert (0 <= foldr Z.add 0 ns) as Hsum by (clear -Hns; induction Hns; simpl; lia).
  destruct (file_read_step fd buf n k ino pos (pos + (n + foldr Z.add 0 ns)))
    as (k1 & -> & Hr1 & He1 & El & Hba1 & Eb & Hf); [done|done|lia|done|done|done|].
  set (r := Z.min n (file_length k ino - pos)) in *. pose proof (rf_in _ _ _ _ Hr) as Hpos.
  destruct (IH (pos + r) (buf + r) k1) as (k' & -> & Hbytes & Hout & Hp);
    [done|done|lia|by rewrite El|destruct He1; [left; lia|by right]|].
  exists k'. rewrite El in *. pose proof (fun j => filled_outside _ _ _ _ _ j Hf) as Hof. destruct Hf as (Hin & _ & Hloc).
  pose proof (stored_le (file_length k ino) pos n Hn (proj2 Hpos)) as Hst.
  assert (r <= stored (file_length k ino) pos n) as Hrs by (unfold stored; case_tests).
  split_and!.
  - f_equal. lia.
  - intros j Hj. destruct (Z.lt_ge_cases j r).
    + rewrite Hout.
      * apply Hin. lia.
      * intros i Hi. rewrite !Hloc, <- Z.add_assoc. intros E%(ba_sep _ _ _ Hba); lia.
    + replace (buf + j) with (buf + r + (j - r)) by lia. rewrite Hbytes by lia.
      replace (pos + r + (j - r)) with (pos + j) by lia. apply Eb.
      * pose proof (wf_length _ _ (rf_wf _ _ _ _ Hr)). lia.
      * apply (wf_blocks _ _ (rf_wf _ _ _ _ Hr)); Z.div_mod_to_equations; lia.
  - intros va Ho. rewrite Hout.
    + apply Hof. eapply outside_le; [|exact Ho]. lia.
    + intros i Hi. rewrite !Hloc, <- Z.add_assoc. apply Ho. lia.
  - rewrite Hp. lia.
Qed.

(** C20: any sequence of [file_read]s into consecutive places of a buffer reads
    the file contiguously: the counts add up to the bytes asked for or left,
    the buffer holds those bytes of the file in order, the position has
    moved by their number, and no byte beyond the buffer is touched; when more is
    asked for than is left, the length of the file is not a multiple of the block
    size, or its table goes on with a valid block. *)
Theorem file_reads_contiguous fd ino ns pos buf k :
  reads_file k fd ino pos -> Forall (Z.le 0) ns -> pos + foldr Z.add 0 ns < 2147483648 ->
  buf_apart k buf (file_length k ino - pos + 1) -> end_ok k ino (pos + foldr Z.add 0 ns) ->
  let total := Z.min (foldr Z.add 0 ns) (file_length k ino - pos) in
  exists k', file_reads fd buf ns k = (total, k') /\
    (forall j, 0 <= j < total -> ld8 k' (buf + j) = file_byte k ino (pos + j)) /\
    (forall va, outside (vspace k) buf (file_length k ino - pos + 1) va -> ld8 k' va = ld8 k va) /\
    file_pos (cur_fd fd k') = pos + total.
Proof. apply file_reads_spec. Qed.

(** A [file_read] that fails (an inode the image does not have) moves the
    position back by one, to 2^32 - 1 from the start of the file. *)
Theorem file_read_failure_moves_position fd buf n k :
  n_inodes k <= inode (cur_fd fd k) ->
  let '(r, k') := file_read fd buf n k in
  r = FAILURE /\ file_pos (cur_fd fd k') = u32 (file_pos (cur_fd fd k) - 1).
Proof.
  intros Hi. unfold file_read, read_data. fold (cur_fd fd k) (img k) (n_inodes k).
  test_true (n_inodes k <=? inode (cur_fd fd k)). cbv iota zeta. split; [done|].
  exact (f_equal file_pos (cur_set_fd fd
    ((cur_fd fd k) <| file_pos := u32 (file_pos (cur_fd fd k) + FAILURE) |>) k)).
Qed.
End reads.

(** ** A concrete image

    One inode whose file is the three bytes "abc" in data block 0, at 0x10000;
    the directory has the one entry "x", a regular file. *)

Definition sample_image : mem :=
  put8 0x12002 99 (put8 0x12001 98 (put8 0x12000 97
    (put32 0x11004 0 (put32 0x11000 3
      (put32 0x10064 0 (put32 0x10060 2 (put8 0x10040 120
        (put32 0x10008 1 (put32 0x10004 1 (put32 0x10000 1 (∅ : mem))))))))))).
Definition sample_state : kstate :=
  @init_filesys quiet_platform 0x10000 (zero_state <| pmem := sample_image |>).

Section sample.
#[local] Existing Instance quiet_platform.

Lemma sample_file : file_wf sample_state 0.
Proof.
  split; [vm_compute; done..|]. intros b Hb. change (file_length sample_state 0) with 3. intros ?.
  assert (b = 0) as -> by lia. vm_compute. done.
Qed.
Lemma apart_below k n : Z.testbit (cr0 (mmu k)) 31 = false -> n <= img k -> buf_apart k 0 n.
Proof. intros E Hn. split; [by apply sep_unpaged|]. intros o Ho. apply outside_unpaged; [done|lia]. Qed.
Lemma sample_reads : reads_file sample_state 2 0 0.
Proof. split; [apply sample_file|done|done|vm_compute; done]. Qed.
End sample.

(** The name "x", and a name of 33 bytes. *)
Definition name_x (i : Z) : Z := if i =? 0 then 120 else 0.
Definition name_long (i : Z) : Z := if (0 <=? i) && (i <? 33) then 120 else 0.

Lemma read_dentry_by_name_first_witness :
  exists r, @read_dentry_by_name quiet_platform name_x (Dentry ∅ 0 0) sample_state = Some r.
Proof.
  destruct (@read_dentry_by_name_first quiet_platform name_x 1 (Dentry ∅ 0 0) sample_state)
    as [(i & d' & _ & _ & _ & E & _)|[_ E]].
  - split; [done|]. split; [done|]. intros i Hi. by assert (i = 0) as -> by lia.
  - done.
  - intros i. unfold name_x. case_tests.
  - by eexists.
  - by eexists.
Defined.

Lemma read_dentry_by_name_long_witness :
  @read_dentry_by_name quiet_platform name_long (Dentry ∅ 0 0) sample_state = Some (FAILURE, Dentry ∅ 0 0).
Proof.
  apply (@read_dentry_by_name_long quiet_platform name_long 33); [|done].
  split; [done|]. split; [done|]. intros i Hi. unfold name_long. by test_true ((0 <=? i) && (i <? 33)).
Defined.

Lemma directory_read_entry_witness :
  exists k', @directory_read quiet_platform 3 0x100 5 sample_state = Some (1, k').
Proof.
  destruct (@directory_read_entry quiet_platform 3 0x100 5 sample_state 1) as (k' & E & _).
  - done.
  - by apply @sep_unpaged.
  - split; [done|]. split; [|by right]. intros i Hi. by assert (i = 0) as -> by lia.
  - by eexists.
Defined.

Lemma read_data_copies_file_witness :
  exists k', @read_data quiet_platform 0 1 0 100 sample_state = (2, k').
Proof.
  destruct (@read_data_copies_file quiet_platform 0 1 0 100 sample_state) as (k' & E & _);
    [apply sample_file|by vm_compute|done|done|apply @apart_below; by vm_compute|by right; vm_compute|].
  by exists k'.
Defined.

(** The image with a block index past the data blocks after its only block,
    and a length of exactly one block. *)
Definition full_state : kstate :=
  @init_filesys quiet_platform 0x10000
    (zero_state <| pmem := put32 0x11008 7 (put32 0x11000 4096 sample_image) |>).

Lemma read_data_short_count_witness :
  exists k', @read_data quiet_platform 0 4000 0 200 full_state = (95, k').
Proof.
  destruct (@read_data_short_count quiet_platform 0 4000 0 200 full_state) as (k' & E & _).
  - split; [vm_compute; done..|]. intros b Hb.
    change (@file_length quiet_platform full_state 0) with 4096. intros ?.
    assert (b = 0) as -> by lia. vm_compute. done.
  - by vm_compute.
  - by vm_compute.
  - apply @apart_below; by vm_compute.
  - by vm_compute.
  - by exists k'.
Defined.

Lemma file_reads_contiguous_witness :
  exists k', @file_reads quiet_platform 2 0 [2; 0; 7] sample_state = (3, k').
Proof.
  destruct (@file_reads_contiguous quiet_platform 2 0 [2; 0; 7] 0 0 sample_state) as (k' & E & _).
  - apply sample_reads.
  - by repeat constructor.
  - done.
  - apply @apart_below; by vm_compute.
  - right. by vm_compute.
  - by exists k'.
Defined.

Lemma file_read_failure_moves_position_witness :
  let '(r, k') := @file_read quiet_platform 2 0 8 zero_state in
  r = FAILURE /\ file_pos (cur_fd 2 k') = 4294967295.
Proof. apply (@file_read_failure_moves_position quiet_platform 2 0 8 zero_state). done. Defined.
