(* ===== verification/Paging.v ===== *)
(** Address spaces: [init_paging] (paging.c), and [create_paging],
    [page_switch] and [vidmap] (syscall.c).

    The source assigns the bit fields of the entries one by one; an entry's
    assignments are a list of fields with their values, applied in order. The
    properties are about the translation the processor then makes ([walk] of
    State.v), for the kernel and for user code. *)

From S2P Require Import Prelude Bytes State.
#[local] Open Scope Z_scope.
#[local] Open Scope kernel_scope.

Definition SIZE_4KB := 4096.
Definition SIZE_4MB := 0x400000.
Definition SIZE_8MB := 0x800000.
Definition SIZE_128MB := 0x8000000.
Definition SIZE_132MB := 0x8400000.
Definition VIDEO_MEMORY := 0xB8000.
Definition PD_NUM_ENTRIES := 1024.
Definition PT_NUM_ENTRIES := 1024.
Definition USER_ADD := 0x08048000.

(** ** The bit fields of x86_desc.h *)

Definition field : Type := Z * Z.
Definition present : field := (0, 1).
Definition read_write : field := (1, 1).
Definition user_supervisor : field := (2, 1).
Definition write_through : field := (3, 1).
Definition cache_disabled : field := (4, 1).
Definition accessed : field := (5, 1).
(** Bit 6 and bit 7 have a name per entry type. *)
Definition dirty : field := (6, 1).
Definition reserved_4kb : field := (6, 1).
Definition page_size : field := (7, 1).
Definition pt_attribute_index : field := (7, 1).
Definition global_page : field := (8, 1).
Definition avail : field := (9, 3).
Definition attribute_index : field := (12, 1).
Definition reserved : field := (13, 9).
Definition bit_20_addr : field := (12, 20).
Definition bit_10_addr : field := (22, 10).

(** x86_desc.h: the three layouts, first field lowest. *)
Definition page_directory_4kb : list field :=
  [present; read_write; user_supervisor; write_through; cache_disabled; accessed; reserved_4kb;
   page_size; global_page; avail; bit_20_addr].
Definition page_table_4kb : list field :=
  [present; read_write; user_supervisor; write_through; cache_disabled; accessed; dirty;
   pt_attribute_index; global_page; avail; bit_20_addr].
Definition page_directory_4mb : list field :=
  [present; read_write; user_supervisor; write_through; cache_disabled; accessed; dirty;
   page_size; global_page; avail; attribute_index; reserved; bit_10_addr].

(** The end of a layout whose fields follow one another from bit [o] on. *)
Fixpoint packed (o : Z) (fs : list field) : option Z :=
  match fs with [] => Some o | (off, n) :: fs => if off =? o then packed (o + n) fs else None end.

Lemma entry_layouts :
  packed 0 page_directory_4kb = Some 32 /\ packed 0 page_table_4kb = Some 32 /\
  packed 0 page_directory_4mb = Some 32.
Proof. done. Qed.

(** The assignments of [fs], in order, to the fields of the word [w]. *)
Definition assign (fs : list (field * Z)) (w : Z) : Z :=
  fold_left (fun w '((off, n), v) => set_bits w off n v) fs w.

Section paging.
Context `{Platform}.

Definition assign_pde (i : Z) (fs : list (field * Z)) (k : kstate) : kstate :=
  k <| mmu; page_directory := <[i := assign fs (page_directory (mmu k)).[i]]> (page_directory (mmu k)) |>.
Definition assign_pte (i : Z) (fs : list (field * Z)) (k : kstate) : kstate :=
  k <| mmu; page_table := <[i := assign fs (page_table (mmu k)).[i]]> (page_table (mmu k)) |>.

(** paging.c [init_paging], lines 13-35: the page table. *)
Definition init_pte (i : Z) (k : kstate) : kstate :=
  let k :=
    if (VIDEO_MEMORY / SIZE_4KB <=? i) || (i <=? VIDEO_MEMORY / SIZE_4KB + 3) then
      assign_pte i [(present, 1); (global_page, 1);
        (bit_20_addr, Z.shiftr VIDEO_MEMORY 12 + (i - VIDEO_MEMORY / SIZE_4KB))] k
    else
      assign_pte i [(present, 0); (global_page, 0); (bit_20_addr, i * Z.shiftr SIZE_4KB 12)] k in
  assign_pte i [(read_write, 1); (user_supervisor, 0); (write_through, 0); (cache_disabled, 0);
    (accessed, 0); (dirty, 0); (pt_attribute_index, 0); (avail, 0)] k.
Definition init_page_table (k : kstate) : kstate := for_loop 0 PT_NUM_ENTRIES init_pte k.

(** Lines 38-63: the entries of the low 4 MB and of the kernel. *)
Definition low_pde : list (field * Z) :=
  [(present, 1); (read_write, 1); (user_supervisor, 0); (write_through, 0); (cache_disabled, 1);
   (accessed, 0); (reserved_4kb, 0); (page_size, 0); (global_page, 1); (avail, 0);
   (bit_20_addr, Z.shiftr addr_page_table 12)].
Definition kernel_pde : list (field * Z) :=
  [(present, 1); (read_write, 1); (user_supervisor, 0); (write_through, 0); (cache_disabled, 0);
   (accessed, 0); (dirty, 0); (page_size, 1); (global_page, 0); (avail, 0);
   (attribute_index, 0); (reserved, 0); (bit_10_addr, Z.shiftr SIZE_4MB 22)].

(** Lines 67-82: the other entries. *)
Definition absent_pde (i : Z) : list (field * Z) :=
  [(present, 0); (read_write, 1); (user_supervisor, 0); (write_through, 0); (cache_disabled, 0);
   (accessed, 0); (dirty, 0); (page_size, 0); (global_page, 0); (avail, 0);
   (attribute_index, 0); (reserved, 0); (bit_10_addr, i * Z.shiftr SIZE_4MB 22)].
Definition init_other_pdes (k : kstate) : kstate :=
  for_loop 2 PD_NUM_ENTRIES (fun i => assign_pde i (absent_pde i)) k.

(** Lines 85-94: the control registers. *)
Definition enable_paging (k : kstate) : kstate :=
  let k := k <| mmu; cr3 := addr_page_directory |> in
  let k := k <| mmu; cr4 := Z.lor (cr4 (mmu k)) 0x10 |> in
  k <| mmu; cr0 := Z.lor (cr0 (mmu k)) 0x80000000 |>.

(** paging.c [init_paging]. *)
Definition init_paging (k : kstate) : kstate :=
  let k := init_page_table k in
  let k := assign_pde 0 low_pde k in
  let k := assign_pde 1 kernel_pde k in
  let k := init_other_pdes k in
  enable_paging k.

(** syscall.c [create_paging]. *)
Definition create_paging (process_num : Z) (k : kstate) : kstate :=
  let program_addr := Z.shiftr (SIZE_8MB + process_num * SIZE_4MB) 22 in
  let user_idx := Z.shiftr SIZE_128MB 22 in
  assign_pde user_idx
    [(present, 1); (read_write, 1); (user_supervisor, 1); (write_through, 1); (cache_disabled, 1);
     (accessed, 0); (dirty, 0); (page_size, 1); (global_page, 0); (avail, 0);
     (attribute_index, 0); (reserved, 0); (bit_10_addr, program_addr)] k.

(** syscall.c [page_switch]; the reload of [cr3] flushes the TLB, which the
    translation here does not have. *)
Definition page_switch (pross_id : Z) (k : kstate) : kstate :=
  if (pross_id <? 0) || (8 <=? pross_id) then k
  else
    let addr := SIZE_8MB + pross_id * SIZE_4MB in
    let user_idx := Z.shiftr USER_ADD 22 in
    assign_pde user_idx
      [(present, 1); (read_write, 1); (user_supervisor, 1); (write_through, 0); (cache_disabled, 0);
       (accessed, 0); (dirty, 0); (page_size, 1); (global_page, 0); (avail, 0);
       (attribute_index, 0); (reserved, 0); (bit_10_addr, Z.shiftr addr 22)] k.

(** syscall.c [vidmap], lines 633-660. *)
Definition vidmap_entries (k : kstate) : kstate :=
  let user_idx_ := Z.shiftr SIZE_132MB 22 in
  let k := assign_pde user_idx_
    [(present, 1); (read_write, 1); (user_supervisor, 1); (write_through, 0); (cache_disabled, 0);
     (accessed, 0); (reserved_4kb, 0); (page_size, 0); (global_page, 0); (avail, 0);
     (bit_20_addr, Z.shiftr addr_vidmap_pt 12)] k in
  let k := assign_pte user_idx_
    [(present, 1); (global_page, 0); (read_write, 1); (user_supervisor, 1); (write_through, 0);
     (cache_disabled, 0); (accessed, 0); (dirty, 0); (pt_attribute_index, 0); (avail, 0);
     (bit_20_addr, Z.shiftr VIDEO_MEMORY 12)] k in
  k <| mmu; vidmap_pt := <[Z.land (Z.shiftr SIZE_132MB 12) 0x03FF :=
                             (page_table (mmu k)).[user_idx_]]> (vidmap_pt (mmu k)) |>.

(** syscall.c [vidmap]. *)
Definition vidmap (screen_start : Z) (k : kstate) : Z * kstate :=
  if screen_start =? 0 then (-1, k)
  else if (s32 screen_start <? SIZE_128MB) || (SIZE_128MB + SIZE_4MB <=? s32 screen_start) then (-1, k)
  else
    let k := vidmap_entries k in
    (0, st32 screen_start SIZE_132MB k).
End paging.

(** ** Fields after an assignment *)

(** The value of a field after a list of assignments to disjoint fields. *)
Ltac read_field :=
  unfold assign; cbn [fold_left]; cbv beta iota zeta delta
    [present read_write user_supervisor write_through cache_disabled accessed dirty
     reserved_4kb page_size pt_attribute_index global_page avail attribute_index reserved
     bit_20_addr bit_10_addr];
  repeat first [rewrite bits_set_low by lia | rewrite bits_set_other by lia].

Section walks.
Context `{Platform}.

(** Paging is on, with 4 MB pages, and the directory is the kernel's. *)
Record paging_on (m : mmu_state) : Prop := {
  po_cr0 : Z.testbit (cr0 m) 31 = true;
  po_cr4 : Z.testbit (cr4 m) 4 = true;
  po_cr3 : frame (cr3 m) = addr_page_directory
}.

Definition pde_of (m : mmu_state) (va : Z) : Z := (page_directory m).[Z.shiftr va 22].

Lemma walk_on user m va : paging_on m ->
  walk user m va =
    if negb (granted user (pde_of m va)) then None
    else if Z.testbit (pde_of m va) 7
    then Some (Z.shiftl (bits (pde_of m va) 22 10) 22 + bits va 0 22)
    else
      let pte := (table_at m (frame (pde_of m va))).[bits va 12 10] in
      if negb (granted user pte) then None else Some (frame pte + bits va 0 12).
Proof.
  intros [E0 E4 E3]. unfold walk. rewrite E0, E4, E3. cbn [negb].
  unfold directory_at. rewrite Z.eqb_refl, andb_true_r. done.
Qed.

Lemma granted_bits user w : granted user w = (bits w 0 1 =? 1) && (negb user || (bits w 2 1 =? 1)).
Proof. unfold granted. by rewrite !testbit_bits by lia. Qed.

Lemma table_at_page_table m : table_at m addr_page_table = page_table m.
Proof. unfold table_at. by rewrite Z.eqb_refl. Qed.
Lemma table_at_vidmap m : table_at m addr_vidmap_pt = vidmap_pt m.
Proof.
  unfold table_at. rewrite Z.eqb_refl. pose proof tables_distinct.
  by test_false (addr_vidmap_pt =? addr_page_table).
Qed.

(** An entry that names the frame of an aligned table. *)
Lemma frame_shiftr w a : bits w 12 20 = bits (Z.shiftr a 12) 0 20 -> frame w = frame a.
Proof. unfold frame. by intros ->. Qed.

(** [k'] differs from [k] by its paging structures only. *)
Definition only_mmu (k k' : kstate) : Prop := k' = k <| mmu := mmu k' |>.

Lemma only_mmu_refl k : only_mmu k k.
Proof. by destruct k. Qed.
Lemma only_mmu_trans k1 k2 k3 : only_mmu k1 k2 -> only_mmu k2 k3 -> only_mmu k1 k3.
Proof. unfold only_mmu. intros -> ->. done. Qed.
Lemma assign_pde_only i fs k : only_mmu k (assign_pde i fs k).
Proof. done. Qed.

(** The page table after [init_paging]: every page present, mapped to itself,
    for the kernel only. *)
Definition identity_pte (w i : Z) : Prop := bits w 0 1 = 1 /\ bits w 2 1 = 0 /\ bits w 12 20 = i.

Lemma init_pte_entry i k : 0 <= i < 1024 ->
  let k' := init_pte i k in
  only_mmu k k' /\ page_directory (mmu k') = page_directory (mmu k) /\
  vidmap_pt (mmu k') = vidmap_pt (mmu k) /\ cr0 (mmu k') = cr0 (mmu k) /\ cr4 (mmu k') = cr4 (mmu k) /\
  identity_pte (page_table (mmu k')).[i] i /\
  forall j, j <> i -> (page_table (mmu k')).[j] = (page_table (mmu k)).[j].
Proof.
  intros Hi. cbv zeta. unfold init_pte.
  change (VIDEO_MEMORY / SIZE_4KB) with 184. change (Z.shiftr VIDEO_MEMORY 12) with 184.
  test_true ((184 <=? i) || (i <=? 184 + 3)). cbv iota. split_and!; try done.
  - unfold assign_pte. simpl. rewrite !elem_same. split_and!; read_field.
    + done.
    + done.
    + rewrite bits_div, Z.pow_0_r, Z.div_1_r, Z.mod_small by lia. lia.
  - intros j Hj. unfold assign_pte. simpl. by rewrite !elem_other by lia.
Qed.

Lemma init_page_table_entries k :
  let k' := init_page_table k in
  only_mmu k k' /\ page_directory (mmu k') = page_directory (mmu k) /\
  vidmap_pt (mmu k') = vidmap_pt (mmu k) /\ cr0 (mmu k') = cr0 (mmu k) /\ cr4 (mmu k') = cr4 (mmu k) /\
  forall i, 0 <= i < 1024 -> identity_pte (page_table (mmu k')).[i] i.
Proof.
  cbv zeta. unfold init_page_table.
  apply (for_loop_rule (fun n k' => only_mmu k k' /\ page_directory (mmu k') = page_directory (mmu k) /\
    vidmap_pt (mmu k') = vidmap_pt (mmu k) /\ cr0 (mmu k') = cr0 (mmu k) /\ cr4 (mmu k') = cr4 (mmu k) /\
    forall i, 0 <= i < n -> identity_pte (page_table (mmu k')).[i] i)); [done| |].
  - split_and!; (done || apply only_mmu_refl || lia).
  - intros i b Hi (H1 & H2 & H3 & H4 & H5 & H6).
    destruct (init_pte_entry i b Hi) as (G1 & G2 & G3 & G4 & G5 & G6 & G7).
    split_and!; [by apply (only_mmu_trans _ b)|congruence..|].
    intros j Hj. destruct (Z.eq_dec j i) as [->|]; [done|]. rewrite G7 by done. apply H6. lia.
Qed.

Lemma init_other_pdes_entries k :
  let k' := init_other_pdes k in
  only_mmu k k' /\ page_table (mmu k') = page_table (mmu k) /\
  vidmap_pt (mmu k') = vidmap_pt (mmu k) /\ cr0 (mmu k') = cr0 (mmu k) /\ cr4 (mmu k') = cr4 (mmu k) /\
  (forall i, i < 2 -> (page_directory (mmu k')).[i] = (page_directory (mmu k)).[i]) /\
  forall i, 2 <= i < 1024 -> bits (page_directory (mmu k')).[i] 0 1 = 0.
Proof.
  cbv zeta. unfold init_other_pdes.
  apply (for_loop_rule (fun n k' => only_mmu k k' /\ page_table (mmu k') = page_table (mmu k) /\
    vidmap_pt (mmu k') = vidmap_pt (mmu k) /\ cr0 (mmu k') = cr0 (mmu k) /\ cr4 (mmu k') = cr4 (mmu k) /\
    (forall i, i < 2 -> (page_directory (mmu k')).[i] = (page_directory (mmu k)).[i]) /\
    forall i, 2 <= i < n -> bits (page_directory (mmu k')).[i] 0 1 = 0)); [done| |].
  - split_and!; (done || apply only_mmu_refl || lia).
  - intros i b Hi (H1 & H2 & H3 & H4 & H5 & H6 & H7). unfold PD_NUM_ENTRIES in Hi.
    split_and!; [by apply (only_mmu_trans _ b)|done..| |].
    + intros j Hj. simpl. rewrite elem_other by lia. by apply H6.
    + intros j Hj. simpl. destruct (Z.eq_dec j i) as [->|].
      * rewrite elem_same. read_field. done.
      * rewrite elem_other by lia. apply H7. lia.
Qed.
End walks.

(** ** The address space of the kernel and of a process *)

Section spaces.
Context `{Platform}.

(** What [init_paging] sets up for the first 8 MB: the page table behind entry
    0 and the 4 MB page of entry 1, both for the kernel only. *)
Record kernel_map (m : mmu_state) : Prop := {
  km_on : paging_on m;
  km_low : let w := (page_directory m).[0] in
    bits w 0 1 = 1 /\ bits w 2 1 = 0 /\ bits w 7 1 = 0 /\ frame w = addr_page_table;
  km_kernel : let w := (page_directory m).[1] in
    bits w 0 1 = 1 /\ bits w 2 1 = 0 /\ bits w 7 1 = 1 /\ bits w 22 10 = 1;
  km_pages : forall i, 0 <= i < 1024 -> identity_pte (page_table m).[i] i
}.

Lemma kernel_map_walk user m va : kernel_map m -> 0 <= va < SIZE_8MB ->
  walk user m va = if user then None else Some va.
Proof.
  intros [Hon Hlow Hker Hpt] Hva. unfold SIZE_8MB in Hva. rewrite (walk_on _ _ _ Hon).
  unfold pde_of. rewrite granted_bits, testbit_bits by lia.
  assert (Z.shiftr va 22 = 0 \/ Z.shiftr va 22 = 1) as [E|E] by bits_arith; rewrite E.
  - destruct Hlow as (-> & -> & -> & ->). destruct user; [done|]. cbv zeta beta iota.
    rewrite table_at_page_table. destruct (Hpt (bits va 12 10)) as (Hp & Hu & Ha); [bits_arith|].
    change (negb ((1 =? 1) && (negb false || (0 =? 1)))) with false. change (1 =? 1) with true.
    change (0 =? 1) with false. cbv iota. rewrite granted_bits, Hp. cbv beta iota.
    change (negb ((1 =? 1) && (negb false || _))) with false. cbv iota. f_equal.
    unfold frame. rewrite Ha. revert E. bits_arith.
  - destruct Hker as (-> & -> & -> & ->). destruct user; [done|].
    change (negb ((1 =? 1) && (negb false || (0 =? 1)))) with false. change (1 =? 1) with true.
    cbv iota. f_equal. revert E. bits_arith.
Qed.

Lemma absent_walk user m va : paging_on m -> bits (pde_of m va) 0 1 = 0 -> walk user m va = None.
Proof. intros Hon E. by rewrite walk_on, granted_bits, E. Qed.

Lemma lor_bit a b i : Z.testbit b i = true -> Z.testbit (Z.lor a b) i = true.
Proof. intros E. by rewrite Z.lor_spec, E, orb_true_r. Qed.

Lemma init_paging_map k :
  let m := mmu (init_paging k) in
  only_mmu k (init_paging k) /\ kernel_map m /\ vidmap_pt m = vidmap_pt (mmu k) /\
  forall i, 2 <= i < 1024 -> bits (page_directory m).[i] 0 1 = 0.
Proof.
  cbv zeta. unfold init_paging.
  destruct (init_page_table_entries k) as (P1 & P2 & P3 & P4 & P5 & P6).
  revert P1 P2 P3 P4 P5 P6. generalize (init_page_table k) as k1. intros k1 P1 P2 P3 P4 P5 P6.
  set (k2 := assign_pde 1 kernel_pde (assign_pde 0 low_pde k1)).
  destruct (init_other_pdes_entries k2) as (Q1 & Q2 & Q3 & Q4 & Q5 & Q6 & Q7).
  revert Q1 Q2 Q3 Q4 Q5 Q6 Q7. generalize (init_other_pdes k2) as k3. intros k3 Q1 Q2 Q3 Q4 Q5 Q6 Q7.
  split_and!.
  - apply (only_mmu_trans _ k1); [done|]. apply (only_mmu_trans _ k2); [done|].
    by apply (only_mmu_trans _ k3).
  - split.
    + split; [by apply lor_bit|by apply lor_bit|apply page_directory_aligned].
    + change (page_directory _) with (page_directory (mmu k3)). rewrite Q6 by lia.
      subst k2. unfold assign_pde, low_pde. simpl. rewrite elem_other, elem_same by lia. split_and!; [read_field; done..|].
      rewrite <- page_table_aligned at 2. apply frame_shiftr. by read_field.
    + change (page_directory _) with (page_directory (mmu k3)). rewrite Q6 by lia.
      subst k2. unfold assign_pde, kernel_pde. simpl. rewrite elem_same.
      split_and!; read_field; done.
    + change (page_table _) with (page_table (mmu k3)). by rewrite Q2.
  - exact (eq_trans Q3 P3).
  - exact Q7.
Qed.

(** The entry [page_switch] writes. *)
Lemma page_switch_entry p k : 0 <= p < 8 ->
  let k' := page_switch p k in
  only_mmu k k' /\ cr0 (mmu k') = cr0 (mmu k) /\ cr3 (mmu k') = cr3 (mmu k) /\ cr4 (mmu k') = cr4 (mmu k) /\
  page_table (mmu k') = page_table (mmu k) /\ vidmap_pt (mmu k') = vidmap_pt (mmu k) /\
  (forall i, i <> 32 -> (page_directory (mmu k')).[i] = (page_directory (mmu k)).[i]) /\
  let w := (page_directory (mmu k')).[32] in
  bits w 0 1 = 1 /\ bits w 2 1 = 1 /\ bits w 7 1 = 1 /\ bits w 22 10 = p + 2.
Proof.
  intros Hp. cbv zeta. unfold page_switch. test_false ((p <? 0) || (8 <=? p)). cbv iota zeta.
  change (Z.shiftr USER_ADD 22) with 32. split_and!; try done.
  { intros i Hi. unfold assign_pde. simpl. by rewrite elem_other by lia. }
  all: unfold assign_pde; simpl; rewrite elem_same; read_field; try done.
  unfold SIZE_8MB, SIZE_4MB. bits_arith.
Qed.

Lemma page_switch_kernel_map p k : 0 <= p < 8 -> kernel_map (mmu k) -> kernel_map (mmu (page_switch p k)).
Proof.
  intros Hp [[E0 E4 E3] Hlow Hker Hpt].
  destruct (page_switch_entry p k Hp) as (_ & C0 & C3 & C4 & Ept & _ & Eo & _).
  split; [split; by rewrite ?C0, ?C3, ?C4|by rewrite Eo by lia|by rewrite Eo by lia|by rewrite Ept].
Qed.

Lemma page_switch_user user p k va : paging_on (mmu k) -> 0 <= p < 8 ->
  SIZE_128MB <= va < SIZE_132MB ->
  walk user (mmu (page_switch p k)) va = Some (SIZE_8MB + p * SIZE_4MB + (va - SIZE_128MB)).
Proof.
  intros [E0 E4 E3] Hp Hva. unfold SIZE_128MB, SIZE_132MB in Hva.
  destruct (page_switch_entry p k Hp) as (_ & C0 & C3 & C4 & _ & _ & _ & W0 & W2 & W7 & W22).
  rewrite walk_on by (split; by rewrite ?C0, ?C3, ?C4). unfold pde_of.
  assert (Z.shiftr va 22 = 32) as -> by bits_arith.
  rewrite granted_bits, testbit_bits, W0, W2, W7, W22 by lia.
  rewrite orb_true_r. cbn. f_equal. unfold SIZE_8MB, SIZE_4MB, SIZE_128MB. bits_arith.
Qed.

Lemma page_switch_other user p k va : 0 <= va -> Z.shiftr va 22 <> 32 -> 0 <= p < 8 ->
  walk user (mmu (page_switch p k)) va = walk user (mmu k) va.
Proof.
  intros Hva Hne Hp. destruct (page_switch_entry p k Hp) as (_ & C0 & C3 & C4 & Ept & Evm & Eo & _).
  unfold walk, directory_at, table_at. rewrite C0, C3, C4, Ept, Evm.
  destruct (_ =? addr_page_directory); [by rewrite Eo|done].
Qed.

Lemma page_switch_invalid p k : p < 0 \/ 8 <= p -> page_switch p k = k.
Proof. intros Hp. unfold page_switch. by test_true ((p <? 0) || (8 <=? p)). Qed.

(** The states reached from [init_paging] by page switches. *)
Definition switched (ps : list Z) (k : kstate) : kstate :=
  fold_left (fun k p => page_switch p k) ps (init_paging k).

Lemma switched_map ps k :
  kernel_map (mmu (switched ps k)) /\
  (forall i, 2 <= i < 1024 -> i <> 32 -> bits (page_directory (mmu (switched ps k))).[i] 0 1 = 0) /\
  vidmap_pt (mmu (switched ps k)) = vidmap_pt (mmu k).
Proof.
  unfold switched. destruct (init_paging_map k) as (_ & Hm & Hv & Ho).
  induction ps as [|q ps (IHm & IHo & IHv)] using rev_ind.
  - split_and!; [done| |done]. intros. by apply Ho.
  - rewrite fold_left_app. cbn [fold_left]. revert IHm IHo IHv.
    generalize (fold_left (fun k p => page_switch p k) ps (init_paging k)) as k1. intros k1 IHm IHo IHv.
    destruct (decide (0 <= q < 8)) as [Hq|Hq].
    + destruct (page_switch_entry q k1 Hq) as (_ & _ & _ & _ & _ & Ev & Eo & _).
      split_and!; [by apply page_switch_kernel_map| |by rewrite Ev].
      intros i Hi Hne. rewrite Eo by done. by apply IHo.
    + rewrite page_switch_invalid by lia. exact (conj IHm (conj IHo IHv)).
Qed.

Lemma process_walk user ps p k va : 0 <= p < 8 -> 0 <= va < 4294967296 ->
  walk user (mmu (page_switch p (switched ps k))) va =
    if (SIZE_128MB <=? va) && (va <? SIZE_132MB) then Some (SIZE_8MB + p * SIZE_4MB + (va - SIZE_128MB))
    else if negb user && (va <? SIZE_8MB) then Some va else None.
Proof.
  intros Hp Hva. destruct (switched_map ps k) as (Hm & Ho & _). revert Hm Ho.
  generalize (switched ps k) as k1. intros k1 Hm Ho.
  destruct (decide (SIZE_128MB <= va < SIZE_132MB)) as [Hu|Hu].
  - test_true ((SIZE_128MB <=? va) && (va <? SIZE_132MB)). apply page_switch_user; [apply Hm|done|done].
  - test_false ((SIZE_128MB <=? va) && (va <? SIZE_132MB)).
    assert (Z.shiftr va 22 <> 32) as Hne by (unfold SIZE_128MB, SIZE_132MB in *; revert Hu; bits_arith).
    rewrite page_switch_other by (done || lia). destruct (Z.ltb_spec va SIZE_8MB).
    + rewrite kernel_map_walk by (done || lia). by destruct user.
    + rewrite andb_false_r. apply absent_walk; [apply Hm|]. apply Ho; [|done].
      unfold SIZE_8MB in *. bits_arith.
Qed.

(** The entries [vidmap] writes. *)
Lemma vidmap_entries_spec k :
  let k' := vidmap_entries k in
  only_mmu k k' /\ cr0 (mmu k') = cr0 (mmu k) /\ cr3 (mmu k') = cr3 (mmu k) /\ cr4 (mmu k') = cr4 (mmu k) /\
  (forall i, i <> 33 -> (page_directory (mmu k')).[i] = (page_directory (mmu k)).[i]) /\
  (forall i, i <> 33 -> (page_table (mmu k')).[i] = (page_table (mmu k)).[i]) /\
  (let w := (page_directory (mmu k')).[33] in
   bits w 0 1 = 1 /\ bits w 2 1 = 1 /\ bits w 7 1 = 0 /\ frame w = addr_vidmap_pt) /\
  (let w := (page_table (mmu k')).[33] in
   bits w 0 1 = 1 /\ bits w 2 1 = 1 /\ frame w = VIDEO_MEMORY) /\
  (vidmap_pt (mmu k')).[0] = (page_table (mmu k')).[33].
Proof.
  cbv zeta. unfold vidmap_entries. change (Z.shiftr SIZE_132MB 22) with 33.
  change (Z.land (Z.shiftr SIZE_132MB 12) 0x03FF) with 0. unfold assign_pde, assign_pte. simpl.
  rewrite !elem_same. split_and!; try done.
  1,2: intros i Hi; by rewrite elem_other by lia.
  all: try (read_field; done).
  - rewrite <- vidmap_pt_aligned at 2. apply frame_shiftr. by read_field.
  - change VIDEO_MEMORY with (frame VIDEO_MEMORY) at 2. apply frame_shiftr. by read_field.
Qed.

Lemma vidmap_on k : paging_on (mmu k) -> paging_on (mmu (vidmap_entries k)).
Proof.
  intros [E0 E4 E3]. destruct (vidmap_entries_spec k) as (_ & C0 & C3 & C4 & _).
  split; by rewrite ?C0, ?C3, ?C4.
Qed.

(** The first page of the entry [vidmap] fills is video memory. *)
Lemma vidmap_video user k o : paging_on (mmu k) -> 0 <= o < 4096 ->
  walk user (mmu (vidmap_entries k)) (SIZE_132MB + o) = Some (VIDEO_MEMORY + o).
Proof.
  intros Hon Ho. rewrite walk_on by (by apply vidmap_on).
  destruct (vidmap_entries_spec k) as (_ & _ & _ & _ & _ & _ & (D0 & D2 & D7 & Df) & (T0 & T2 & Tf) & Ev).
  unfold pde_of. unfold SIZE_132MB in *.
  assert (Z.shiftr (0x8400000 + o) 22 = 33) as -> by bits_arith.
  rewrite granted_bits, testbit_bits, D0, D2, D7, Df, table_at_vidmap by lia.
  assert (bits (0x8400000 + o) 12 10 = 0) as -> by bits_arith.
  cbv zeta. rewrite Ev, granted_bits, T0, T2, Tf, orb_true_r.
  change (negb ((1 =? 1) && true)) with false. change (0 =? 1) with false. cbv iota. f_equal. f_equal. bits_arith.
Qed.

(** The only page table in use is that of the low 4 MB. *)
Definition one_table (m : mmu_state) : Prop :=
  forall i, 0 <= i < 1024 -> i <> 33 -> bits (page_directory m).[i] 0 1 = 1 ->
       bits (page_directory m).[i] 7 1 = 0 -> i = 0 /\ frame (page_directory m).[i] = addr_page_table.

Lemma switched_one_table p ps k : 0 <= p < 8 -> one_table (mmu (page_switch p (switched ps k))).
Proof.
  intros Hp. destruct (switched_map ps k) as (Hm & Ho & _).
  destruct (page_switch_entry p (switched ps k) Hp) as (_ & _ & _ & _ & _ & _ & Eo & _ & _ & W7 & _).
  intros i Hi Hne E0 E7. destruct (decide (i = 32)) as [->|]; [by rewrite W7 in E7|].
  rewrite Eo in * by done. destruct (decide (i = 0)) as [->|]; [split; [done|apply Hm]|].
  destruct (decide (i = 1)) as [->|]; [destruct (km_kernel _ Hm) as (_ & _ & E & _); congruence|].
  rewrite Ho in E0 by lia. done.
Qed.

(** Any other page, but for the page 33 of the low 4 MB, is left as it was. *)
Lemma vidmap_other user k va : paging_on (mmu k) -> one_table (mmu k) -> 0 <= va < 4294967296 ->
  ~ (SIZE_132MB <= va < SIZE_132MB + SIZE_4MB) -> ~ (0x21000 <= va < 0x22000) ->
  walk user (mmu (vidmap_entries k)) va = walk user (mmu k) va.
Proof.
  intros Hon Hone Hva Hd Ht. rewrite !walk_on by (done || by apply vidmap_on).
  destruct (vidmap_entries_spec k) as (_ & _ & _ & _ & Ed & Et & _). unfold pde_of.
  unfold SIZE_132MB, SIZE_4MB in Hd.
  assert (Z.shiftr va 22 <> 33) as Hne by (revert Hd; bits_arith).
  assert (0 <= Z.shiftr va 22 < 1024) as Hi by bits_arith.
  rewrite Ed by done. specialize (Hone _ Hi Hne). cbv zeta.
  rewrite !granted_bits, !testbit_bits by lia.
  destruct (Z.eqb_spec (bits (page_directory (mmu k)).[Z.shiftr va 22] 0 1) 1) as [E0|]; [|done].
  case_test; [done|].
  destruct (Z.eqb_spec (bits (page_directory (mmu k)).[Z.shiftr va 22] 7 1) 1) as [|E7]; [done|].
  destruct (Hone E0) as [Ei Ef].
  { assert (0 <= bits (page_directory (mmu k)).[Z.shiftr va 22] 7 1 < 2); [|lia].
    rewrite bits_div by lia. by apply Z.mod_pos_bound. }
  rewrite Ef, !table_at_page_table, Et; [done|]. revert Ei Ht. bits_arith.
Qed.

Lemma vidmap_user_page ps p k va : 0 <= p < 8 -> SIZE_128MB <= va < SIZE_132MB ->
  xlate (mmu (vidmap_entries (page_switch p (switched ps k)))) va = SIZE_8MB + p * SIZE_4MB + (va - SIZE_128MB).
Proof.
  intros Hp Hva. pose proof (process_walk false ps p k va Hp) as Hw.
  pose proof (switched_one_table p ps k Hp) as Hone.
  pose proof (page_switch_kernel_map p _ Hp (proj1 (switched_map ps k))) as Hm.
  revert Hw Hone Hm. generalize (page_switch p (switched ps k)) as k1. intros k1 Hw Hone Hm.
  unfold xlate. unfold SIZE_128MB, SIZE_132MB in *.
  rewrite vidmap_other, Hw by (done || apply Hm || unfold SIZE_132MB, SIZE_4MB; lia).
  by test_true ((0x8000000 <=? va) && (va <? 0x8400000)).
Qed.

(** C24: after [init_paging] the kernel sees exactly the first 8 MB, one to one,
    the page of the null pointer included, and user code sees nothing. *)
Theorem init_paging_translation user k va : 0 <= va < 4294967296 ->
  walk user (mmu (init_paging k)) va =
    if negb user && (va <? SIZE_8MB) then Some va else None.
Proof.
  intros Hva. destruct (init_paging_map k) as (_ & Hm & _ & Ho).
  destruct (Z.ltb_spec va SIZE_8MB).
  - rewrite kernel_map_walk by (done || lia). by destruct user.
  - rewrite andb_false_r. apply absent_walk; [apply Hm|]. apply Ho. unfold SIZE_8MB in *. bits_arith.
Qed.

(** The address space of process [p]: after [init_paging] and any
    [page_switch]es, the last to a valid [p], user code sees exactly the 4 MB
    from 128 MB on, at physical 8 MB + 4 MB * [p]; the kernel sees these and the
    first 8 MB one to one. *)
Theorem process_address_space user ps p k va : 0 <= p < 8 -> 0 <= va < 4294967296 ->
  walk user (mmu (page_switch p (switched ps k))) va =
    if (SIZE_128MB <=? va) && (va <? SIZE_132MB) then Some (SIZE_8MB + p * SIZE_4MB + (va - SIZE_128MB))
    else if negb user && (va <? SIZE_8MB) then Some va else None.
Proof. apply process_walk. Qed.

(** The states of the tables while the kernel runs: after [init_paging] and a
    first [page_switch], any of the functions that change them, with anything in
    between that does not. [p] is the process switched to last; [m] says whether
    [vidmap] has mapped video memory. *)
Inductive paging (k0 : kstate) : Z -> bool -> kstate -> Prop :=
  | pg_first p : 0 <= p < 8 -> paging k0 p false (page_switch p (init_paging k0))
  | pg_switch p m k q : paging k0 p m k -> 0 <= q < 8 -> paging k0 q m (page_switch q k)
  | pg_vidmap p m k s : paging k0 p m k -> paging k0 p (m || ((vidmap s k).1 =? 0)) (vidmap s k).2
  | pg_other p m k k' : paging k0 p m k -> mmu k' = mmu k -> paging k0 p m k'.

(** The page of process [p], and video memory. *)
Definition own_page (p a : Z) : Prop := SIZE_8MB + p * SIZE_4MB <= a < SIZE_8MB + (p + 1) * SIZE_4MB.
Definition video_page (a : Z) : Prop := VIDEO_MEMORY <= a < VIDEO_MEMORY + 4096.
(** The table of [vidmap] as it is loaded: only its first entry is ever written. *)
Definition vidmap_pt_blank (m : mmu_state) : Prop := forall i, 1 <= i < 1024 -> bits (vidmap_pt m).[i] 0 1 = 0.

Record user_map (p : Z) (m : bool) (t : mmu_state) : Prop := {
  um_on : paging_on t;
  um_kernel : forall i, 0 <= i < 2 -> bits (page_directory t).[i] 2 1 = 0;
  um_own : let w := (page_directory t).[32] in bits w 7 1 = 1 /\ bits w 22 10 = p + 2;
  um_video : if m then (let w := (page_directory t).[33] in
                 bits w 0 1 = 1 /\ bits w 2 1 = 1 /\ bits w 7 1 = 0 /\ frame w = addr_vidmap_pt) /\
               (let w := (vidmap_pt t).[0] in bits w 0 1 = 1 /\ bits w 2 1 = 1 /\ frame w = VIDEO_MEMORY)
             else bits (page_directory t).[33] 0 1 = 0;
  um_other : forall i, 2 <= i < 1024 -> i <> 32 -> i <> 33 -> bits (page_directory t).[i] 0 1 = 0;
  um_blank : vidmap_pt_blank t
}.

Lemma user_map_walk p m t va a : user_map p m t -> 0 <= p < 8 -> 0 <= va < 4294967296 -> walk true t va = Some a ->
  own_page p a \/ m = true /\ video_page a.
Proof.
  intros [Hon Hk [W7 W22] Hv Ho Hb] Hp Hva. rewrite (walk_on _ _ _ Hon). unfold pde_of. rewrite granted_bits.
  assert (0 <= Z.shiftr va 22 < 1024) as Hi by bits_arith. destruct (decide (Z.shiftr va 22 < 2)).
  { rewrite Hk by lia. cbn [negb orb]. change (0 =? 1) with false. by rewrite andb_false_r. }
  destruct (decide (Z.shiftr va 22 = 32)) as [->|H32].
  { destruct (negb _); [done|]. rewrite testbit_bits, W7, W22 by lia. change (1 =? 1) with true. cbv iota.
    intros [= <-]. left. unfold own_page, SIZE_8MB, SIZE_4MB. bits_arith. }
  destruct (decide (Z.shiftr va 22 = 33)) as [->|H33]; [|by rewrite Ho by lia].
  destruct m; [|by rewrite Hv]. destruct Hv as [(_ & _ & V7 & Vf) (_ & _ & V0)]. destruct (negb _); [done|].
  rewrite testbit_bits, V7, Vf, table_at_vidmap by lia. change (0 =? 1) with false. cbv iota zeta. rewrite granted_bits.
  destruct (decide (bits va 12 10 = 0)) as [->|Hne].
  - destruct (negb _); [done|]. intros [= <-]. right. split; [done|]. rewrite V0. unfold video_page. bits_arith.
  - rewrite Hb; [done|]. revert Hne. bits_arith.
Qed.

Lemma user_map_video p t o : user_map p true t -> 0 <= o < 4096 -> walk true t (SIZE_132MB + o) = Some (VIDEO_MEMORY + o).
Proof.
  intros [Hon _ _ [(D0 & D2 & D7 & Df) (T0 & T2 & Tf)] _ _] Ho. rewrite (walk_on _ _ _ Hon). unfold pde_of. unfold SIZE_132MB in *.
  assert (Z.shiftr (0x8400000 + o) 22 = 33) as -> by bits_arith.
  rewrite granted_bits, testbit_bits, D0, D2, D7, Df, table_at_vidmap by lia.
  assert (bits (0x8400000 + o) 12 10 = 0) as -> by bits_arith. cbv zeta. rewrite granted_bits, T0, T2, Tf.
  change (negb ((1 =? 1) && (negb true || (1 =? 1)))) with false. change (0 =? 1) with false. cbv iota. do 2 f_equal. bits_arith.
Qed.

Lemma vidmap_entries_blank k : vidmap_pt_blank (mmu k) -> vidmap_pt_blank (mmu (vidmap_entries k)).
Proof.
  intros Hb i Hi. unfold vidmap_entries. change (Z.land (Z.shiftr SIZE_132MB 12) 0x03FF) with 0. unfold assign_pde, assign_pte. simpl.
  rewrite elem_other by lia. by apply Hb.
Qed.
Lemma vidmap_entries_user_map p m k : user_map p m (mmu k) -> user_map p true (mmu (vidmap_entries k)).
Proof.
  intros [Hon Hk Hw _ Ho Hb]. destruct (vidmap_entries_spec k) as (_ & _ & _ & _ & Ed & _ & Hd & Ht & E0).
  split; [by apply vidmap_on|..].
  - intros i Hi. rewrite Ed by lia. by apply Hk.
  - by rewrite Ed.
  - rewrite E0. by split.
  - intros i Hi H32 H33. rewrite Ed by done. by apply Ho.
  - by apply vidmap_entries_blank.
Qed.
Lemma page_switch_user_map p q m k : 0 <= q < 8 -> user_map p m (mmu k) -> user_map q m (mmu (page_switch q k)).
Proof.
  intros Hq [[E0 E4 E3] Hk _ Hv Ho Hb]. destruct (page_switch_entry q k Hq) as (_ & C0 & C3 & C4 & _ & Ev & Eo & _ & _ & W7 & W22).
  split; [split; by rewrite ?C0, ?C3, ?C4| |done| | |unfold vidmap_pt_blank; by rewrite Ev].
  - intros i Hi. rewrite Eo by lia. by apply Hk.
  - by rewrite Ev, Eo.
  - intros i Hi H32 H33. rewrite Eo by done. by apply Ho.
Qed.
Lemma first_user_map p k : 0 <= p < 8 -> vidmap_pt_blank (mmu k) -> user_map p false (mmu (page_switch p (init_paging k))).
Proof.
  intros Hp Hb. destruct (init_paging_map k) as (_ & Hm & Ev & Ho). revert Hm Ev Ho. generalize (init_paging k) as k1. intros k1 Hm Ev Ho.
  destruct (page_switch_entry p k1 Hp) as (_ & _ & _ & _ & _ & Ev' & Eo & _ & _ & W7 & W22).
  split; [by apply page_switch_kernel_map| |done| | |unfold vidmap_pt_blank; by rewrite Ev', Ev].
  - intros i Hi. rewrite Eo by lia. destruct (decide (i = 0)) as [->|]; [apply (km_low _ Hm)|]. assert (i = 1) as -> by lia. apply (km_kernel _ Hm).
  - rewrite Eo by done. by apply Ho.
  - intros i Hi H32 H33. rewrite Eo by done. by apply Ho.
Qed.
Lemma paging_user_map k0 p m k : vidmap_pt_blank (mmu k0) -> paging k0 p m k -> 0 <= p < 8 /\ user_map p m (mmu k).
Proof.
  intros Hb. induction 1 as [p Hp|p m k q _ [Hp IH] Hq|p m k s _ [Hp IH]|p m k k' _ [Hp IH] E].
  - split; [done|]. by apply first_user_map.
  - split; [done|]. by eapply page_switch_user_map.
  - split; [done|]. assert (user_map p (m || false) (mmu k)) as IH0 by (by rewrite orb_false_r).
    unfold vidmap. destruct (s =? 0); [exact IH0|]. destruct ((s32 s <? _) || _); [exact IH0|].
    replace (m || ((0, st32 s SIZE_132MB (vidmap_entries k)).1 =? 0)) with true by (by destruct m).
    change (mmu (0, _).2) with (mmu (vidmap_entries k)). by eapply vidmap_entries_user_map.
  - split; [done|]. by rewrite E.
Qed.

(** C3: isolation, while the kernel runs: whatever [page_switch]es and [vidmap]s have
    been called since [init_paging], which finds the table of [vidmap] blank as it
    is loaded, user code reaches the 4 MB page of the process switched to last
    and, once [vidmap] has mapped them, the 4096 bytes of video memory, and
    nothing else: no byte of the kernel's memory but these. So no byte is reached
    by two processes except in video memory; and that, once any process has called
    [vidmap], user code of whatever process runs reaches at 132 MB. *)
Theorem process_isolation k0 p q m n k k' va vb a b : vidmap_pt_blank (mmu k0) ->
  paging k0 p m k -> paging k0 q n k' -> 0 <= va < 4294967296 -> 0 <= vb < 4294967296 ->
  walk true (mmu k) va = Some a -> walk true (mmu k') vb = Some b ->
  (own_page p a \/ m = true /\ video_page a) /\ (own_page q b \/ n = true /\ video_page b) /\
  (p <> q -> a = b -> m = true /\ n = true /\ video_page a) /\
  (m = true -> forall o, 0 <= o < 4096 -> walk true (mmu k) (SIZE_132MB + o) = Some (VIDEO_MEMORY + o)).
Proof.
  intros Hb Hp Hq Hva Hvb Ea Eb. destruct (paging_user_map _ _ _ _ Hb Hp) as [Hp8 Up]. destruct (paging_user_map _ _ _ _ Hb Hq) as [Hq8 Uq].
  pose proof (user_map_walk _ _ _ _ _ Up Hp8 Hva Ea) as Ha. pose proof (user_map_walk _ _ _ _ _ Uq Hq8 Hvb Eb) as Hb'.
  split; [done|]. split; [done|]. split; [|intros ->; intros o; by apply (user_map_video p)]. intros Hne <-.
  unfold own_page, video_page, SIZE_8MB, SIZE_4MB, VIDEO_MEMORY in *. destruct Ha as [Ha|[-> Ha]], Hb' as [Hb'|[-> Hb']]; lia || done.
Qed.

(** C25: [vidmap] of a pointer in the user page of process [p] succeeds, stores
    132 MB there, and the page at 132 MB is then video memory, for user code
    too; every address outside the 4 MB from there and the page at 0x21000 is
    translated as before. *)
Theorem vidmap_maps_video ps p k s :
  0 <= p < 8 -> SIZE_128MB <= s -> s + 4 <= SIZE_132MB ->
  let k := page_switch p (switched ps k) in
  let '(r, k') := vidmap s k in
  r = 0 /\ ld32 k' s = SIZE_132MB /\
  (forall user o, 0 <= o < 4096 -> walk user (mmu k') (SIZE_132MB + o) = Some (VIDEO_MEMORY + o)) /\
  (forall user va, 0 <= va < 4294967296 -> ~ (SIZE_132MB <= va < SIZE_132MB + SIZE_4MB) ->
     ~ (0x21000 <= va < 0x22000) -> walk user (mmu k') va = walk user (mmu k) va).
Proof.
  intros Hp Hs Hs4. cbv zeta. set (k1 := page_switch p (switched ps k)). unfold vidmap.
  unfold SIZE_128MB, SIZE_132MB, SIZE_4MB in Hs, Hs4 |- *. test_false (s =? 0).
  rewrite s32_small by lia. test_false ((s <? 0x8000000) || (0x8000000 + 0x400000 <=? s)). cbv iota.
  destruct (switched_map ps k) as (Hm & Ho & _).
  pose proof (page_switch_kernel_map p _ Hp Hm) as Hm1. fold k1 in Hm1.
  pose proof (switched_one_table p ps k Hp) as Hone. fold k1 in Hone.
  pose proof (vidmap_user_page ps p k) as Hu. fold k1 in Hu. clearbody k1.
  split_and!.
  - done.
  - change (get32 (put32 s 0x8400000 (vspace (vidmap_entries k1))) s = u32 0x8400000).
    apply get32_put32. intros i j Hi Hj.
    change (xlate (mmu (vidmap_entries k1)) (s + i) = xlate (mmu (vidmap_entries k1)) (s + j) -> i = j).
    rewrite !Hu by (unfold SIZE_128MB, SIZE_132MB; lia). lia.
  - intros user o Hoo. apply (vidmap_video user k1 o); [apply Hm1|done].
  - intros user va. exact (vidmap_other user k1 va (km_on _ Hm1) Hone).
Qed.

(** [vidmap] rejects the null pointer and every pointer outside the user
    page, and changes nothing then. *)
Theorem vidmap_rejects s k :
  0 <= s < 4294967296 -> ~ (SIZE_128MB <= s < SIZE_132MB) -> vidmap s k = (-1, k).
Proof.
  intros Hs Hout. unfold vidmap. destruct (s =? 0); [done|].
  unfold SIZE_128MB, SIZE_132MB, SIZE_4MB in *.
  assert (s32 s < 0x8000000 \/ 0x8400000 <= s32 s) as Hs32 by (revert Hout; warith).
  by test_true ((s32 s <? 0x8000000) || (0x8000000 + 0x400000 <=? s32 s)).
Qed.

(** [vidmap] also changes an entry of the kernel's own page table: the page
    at 0x21000 becomes video memory. *)
Theorem vidmap_remaps_kernel_page ps p k s o :
  0 <= p < 8 -> SIZE_128MB <= s < SIZE_132MB -> 0 <= o < 4096 ->
  let k := page_switch p (switched ps k) in
  walk false (mmu k) (0x21000 + o) = Some (0x21000 + o) /\
  walk false (mmu (vidmap s k).2) (0x21000 + o) = Some (VIDEO_MEMORY + o).
Proof.
  intros Hp Hs Ho. cbv zeta. destruct (switched_map ps k) as (Hm & _ & _).
  pose proof (page_switch_kernel_map p _ Hp Hm) as Hm1. revert Hm1.
  generalize (page_switch p (switched ps k)) as k1. intros k1 Hm1.
  split; [rewrite kernel_map_walk by (done || unfold SIZE_8MB; lia); done|].
  unfold vidmap. unfold SIZE_128MB, SIZE_132MB, SIZE_4MB in *. test_false (s =? 0).
  rewrite s32_small by lia. test_false ((s <? 0x8000000) || (0x8000000 + 0x400000 <=? s)). cbv iota.
  change (mmu (0, _).2) with (mmu (vidmap_entries k1)). rewrite walk_on by (apply vidmap_on, Hm1).
  destruct (vidmap_entries_spec k1) as (_ & _ & _ & _ & Ed & _ & _ & (T0 & T2 & Tf) & _). unfold pde_of.
  assert (Z.shiftr (0x21000 + o) 22 = 0) as -> by bits_arith.
  assert (bits (0x21000 + o) 12 10 = 33) as -> by bits_arith.
  rewrite granted_bits, testbit_bits, Ed by lia. destruct (km_low _ Hm1) as (-> & -> & -> & ->).
  rewrite table_at_page_table. cbv zeta. rewrite granted_bits, T0, T2, Tf.
  change (negb ((1 =? 1) && (negb false || (0 =? 1)))) with false. change (0 =? 1) with false.
  change (negb ((1 =? 1) && (negb false || (1 =? 1)))) with false. cbv iota. do 2 f_equal. bits_arith.
Qed.
End spaces.

(** ** Concrete runs *)

Lemma init_paging_translation_witness :
  @walk quiet_platform false (mmu (@init_paging quiet_platform zero_state)) 0 = Some 0.
Proof. apply (@init_paging_translation quiet_platform false zero_state 0). done. Defined.

Lemma process_address_space_witness :
  @walk quiet_platform true (mmu (page_switch 3 (@switched quiet_platform [0; 7; 9] zero_state))) 0x8048000
    = Some 0x1448000.
Proof. apply (@process_address_space quiet_platform true [0; 7; 9] 3 zero_state 0x8048000); done. Defined.

(** Process 3 maps video memory, and the kernel switches to process 0. *)
Definition after_vidmap : kstate := (@vidmap quiet_platform 0x8048100 (page_switch 3 (@init_paging quiet_platform zero_state))).2.
Lemma zero_blank : vidmap_pt_blank (mmu zero_state).
Proof. intros i Hi. done. Qed.
Lemma after_paging : @paging quiet_platform zero_state 3 true after_vidmap.
Proof.
  pose proof (@pg_vidmap quiet_platform zero_state 3 false _ 0x8048100 (@pg_first quiet_platform zero_state 3 ltac:(lia))) as Hp.
  assert ((@vidmap quiet_platform 0x8048100 (page_switch 3 (@init_paging quiet_platform zero_state))).1 = 0) as E by (by vm_compute).
  rewrite E in Hp. exact Hp.
Qed.
Lemma process_isolation_witness :
  @walk quiet_platform true (mmu after_vidmap) 0x8048000 = Some 0x1448000 /\
  @walk quiet_platform true (mmu (page_switch 0 after_vidmap)) 0x8400010 = Some 0xB8010 /\
  (own_page 3 0x1448000 \/ true = true /\ video_page 0x1448000) /\ (own_page 0 0xB8010 \/ true = true /\ video_page 0xB8010).
Proof.
  assert (@walk quiet_platform true (mmu after_vidmap) 0x8048000 = Some 0x1448000) as E1 by (by vm_compute).
  assert (@walk quiet_platform true (mmu (page_switch 0 after_vidmap)) 0x8400010 = Some 0xB8010) as E2 by (by vm_compute).
  split; [exact E1|]. split; [exact E2|]. revert E1 E2. pose proof after_paging as Hp. revert Hp. generalize after_vidmap. intros k Hp E1 E2.
  destruct (@process_isolation quiet_platform zero_state 3 0 true true k (page_switch 0 k) 0x8048000 0x8400010 0x1448000 0xB8010
    zero_blank Hp (@pg_switch quiet_platform zero_state 3 true k 0 Hp ltac:(lia)) ltac:(lia) ltac:(lia) E1 E2) as (Ha & Hb & _).
  by split.
Defined.

Lemma vidmap_maps_video_witness :
  let k := page_switch 1 (@switched quiet_platform [0] zero_state) in
  let '(r, k') := @vidmap quiet_platform 0x8048100 k in
  r = 0 /\ @ld32 quiet_platform k' 0x8048100 = SIZE_132MB.
Proof.
  pose proof (@vidmap_maps_video quiet_platform [0] 1 zero_state 0x8048100) as Hv. cbv zeta in Hv |- *.
  destruct (@vidmap quiet_platform _ _) as [r k']. by destruct Hv as (? & ? & _).
Defined.

Lemma vidmap_rejects_witness : @vidmap quiet_platform 0xB8000 zero_state = (-1, zero_state).
Proof. apply (@vidmap_rejects quiet_platform 0xB8000 zero_state); [done|unfold SIZE_128MB; lia]. Defined.

Lemma vidmap_remaps_kernel_page_witness :
  let k := page_switch 1 (@switched quiet_platform [] zero_state) in
  @walk quiet_platform false (mmu (@vidmap quiet_platform 0x8048100 k).2) (0x21000 + 5) = Some (VIDEO_MEMORY + 5).
Proof. apply (@vidmap_remaps_kernel_page quiet_platform [] 1 zero_state 0x8048100 5); done. Defined.
