(* ===== verification/Idt.v ===== *)
(** The interrupt descriptor table and the exceptions (idt.c).

    A descriptor is its two words; the [set_*_gate] functions assign its bit
    fields one by one. The handlers are assembly entry points, known by the
    vector they are written for ([isr_addr]). *)

From Stdlib Require Import String.
From S2P Require Import Prelude Bytes State Console Printf.
#[local] Open Scope Z_scope.
#[local] Open Scope kernel_scope.

Definition KERNEL_CS := 0x0010.
Definition USER_PL := 3.
Definition KERNEL_PL := 0.
Definition NUM_VEC := 256.
Definition SIG_IDK := 0xFF.
Definition SIG_SYSCALL := 0x80.

(** ** x86_desc.h [idt_desc_t]: the word and the place of each field *)

Definition idt_field : Type := bool * Z * Z.
Definition offset_15_00 : idt_field := (false, 0, 16).
Definition seg_selector : idt_field := (false, 16, 16).
Definition reserved4 : idt_field := (true, 0, 8).
Definition reserved3 : idt_field := (true, 8, 1).
Definition reserved2 : idt_field := (true, 9, 1).
Definition reserved1 : idt_field := (true, 10, 1).
Definition size : idt_field := (true, 11, 1).
Definition reserved0 : idt_field := (true, 12, 1).
Definition dpl : idt_field := (true, 13, 2).
Definition gate_present : idt_field := (true, 15, 1).
Definition offset_31_16 : idt_field := (true, 16, 16).

(** x86_desc.h [idt_desc_t]: the fields in order; the first two are in the low
    word of [val], the others in the high one. *)
Definition idt_desc_t : list idt_field :=
  [offset_15_00; seg_selector; reserved4; reserved3; reserved2; reserved1; size; reserved0; dpl;
   gate_present; offset_31_16].

Definition assign_idt_field (d : Z * Z) (f : idt_field * Z) : Z * Z :=
  let '((high, off, n), v) := f in
  if high : bool then (d.1, set_bits d.2 off n v) else (set_bits d.1 off n v, d.2).

Section idt.
Context `{Platform}.

Definition idt_at (k : kstate) (n : Z) : Z * Z := default (0, 0) (idt (cpu k) !! n).
Definition assign_gate (n : Z) (fs : list (idt_field * Z)) (k : kstate) : kstate :=
  k <| cpu; idt := <[n := fold_left assign_idt_field fs (idt_at k n)]> (idt (cpu k)) |>.

(** x86_desc.h [SET_IDT_ENTRY]. *)
Definition SET_IDT_ENTRY (handler : Z) : list (idt_field * Z) :=
  [(offset_31_16, Z.shiftr (Z.land handler 0xFFFF0000) 16); (offset_15_00, Z.land handler 0xFFFF)].

(** idt.c [set_intr_gate]. *)
Definition set_intr_gate (n addr : Z) (k : kstate) : kstate :=
  assign_gate (u8 n)
    ([(gate_present, 1); (dpl, KERNEL_PL); (reserved0, 0); (reserved1, 1); (reserved2, 1); (reserved4, 0);
      (reserved3, 0); (size, 1); (seg_selector, KERNEL_CS)] ++ SET_IDT_ENTRY addr) k.

(** idt.c [set_trap_gate]. *)
Definition set_trap_gate (n addr : Z) (k : kstate) : kstate :=
  assign_gate (u8 n)
    ([(gate_present, 1); (dpl, KERNEL_PL); (reserved0, 0); (reserved1, 1); (reserved2, 1); (reserved4, 0);
      (reserved3, 1); (size, 1); (seg_selector, KERNEL_CS)] ++ SET_IDT_ENTRY addr) k.

(** idt.c [set_system_gate]. *)
Definition set_system_gate (n addr : Z) (k : kstate) : kstate :=
  assign_gate (u8 n)
    ([(gate_present, 1); (dpl, USER_PL); (reserved0, 0); (reserved1, 1); (reserved2, 1); (reserved4, 0);
      (reserved3, 0); (size, 1); (seg_selector, KERNEL_CS)] ++ SET_IDT_ENTRY addr) k.

(** The vectors [init_idt] sets an interrupt gate for, in order: SIG_DE to
    SIG_PF, SIG_MF to SIG_XF, SIG_KBD, SIG_RTC, SIG_PIT. *)
Definition intr_vectors : list Z :=
  [0; 1; 2; 3; 4; 5; 6; 7; 8; 9; 10; 11; 12; 13; 14; 16; 17; 18; 19; 33; 40; 32].

(** idt.c [init_idt]. *)
Definition trap_gates (k : kstate) : kstate :=
  for_loop 0 NUM_VEC (fun i => set_trap_gate i (isr_addr SIG_IDK)) k.
Definition init_idt (k : kstate) : kstate :=
  let k := trap_gates k in
  let k := fold_left (fun k v => set_intr_gate v (isr_addr v) k) intr_vectors k in
  set_system_gate SIG_SYSCALL (isr_addr SIG_SYSCALL) k.

(** [printf] as a command of the kernel. *)
Definition print (fmt : list Z) (args : list Z) : M unit := fun k =>
  match printf (bytes_of fmt) args k with Some (_, k) => Ret tt k | None => Hang k end.

(** The message of an exception other than the division error. *)
Definition exception_message (int_vector cr2 : Z) : list Z * list Z :=
  match int_vector with
  | 1 => (line "[EXCEPTION] Debug Exception", [])
  | 2 => (line "[EXCEPTION] Non-maskable Interrupt", [])
  | 3 => (line "[EXCEPTION] Breakpoint Exception", [])
  | 4 => (line "[EXCEPTION] Overflow Exception", [])
  | 5 => (line "[EXCEPTION] Bound Range Exceeded", [])
  | 6 => (line "[EXCEPTION] Invalid Opcode", [])
  | 7 => (line "[EXCEPTION] Device not available", [])
  | 8 => (line "[EXCEPTION] Double Fault", [])
  | 9 => (line "[EXCEPTION] Coprocessor Segment Overrun", [])
  | 10 => (line "[EXCEPTION] Invalid TSS", [])
  | 11 => (line "[EXCEPTION] Segment not present", [])
  | 12 => (line "[EXCEPTION] Stack Fault Error", [])
  | 13 => (line "[EXCEPTION] General Protection Error", [])
  | 14 => (line "Page fault occur at %#x", [cr2])
  | 16 => (line "[EXCEPTION] Floating Point Error", [])
  | 17 => (line "[EXCEPTION] Alignment Check Error", [])
  | 18 => (line "[EXCEPTION] Machine-Check Error", [])
  | 19 => (line "[EXCEPTION] SIMD Floating point", [])
  | _ => (line "[EXCEPTION] Unknown Interrupt %d", [int_vector])
  end%string.

(** idt.c [handle_exception]: the case of the division error has no [break],
    and the function ends in [while(1)]. *)
Definition handle_exception (int_vector : Z) : M unit :=
  (if int_vector =? 0 then print (line "[EXCEPTION] Division Error"%string) [] else ret tt) ;;
  k <- get ;
  let int_vector := if int_vector =? 0 then 1 else int_vector in
  let '(fmt, args) := exception_message int_vector (cr2 (mmu k)) in
  print fmt args ;;
  hang.
End idt.

(** ** What a descriptor denotes *)

(** A present 32-bit gate: the handler's address, the privilege level that may
    raise it, and whether it is a trap gate (interrupts stay enabled). *)
Record is_gate (d : Z * Z) (addr level : Z) (trap : bool) : Prop := {
  gate_offset : bits d.1 0 16 + 65536 * bits d.2 16 16 = u32 addr;
  gate_selector : bits d.1 16 16 = KERNEL_CS;
  gate_valid : bits d.2 15 1 = 1;
  gate_dpl : bits d.2 13 2 = level;
  gate_type : bits d.2 8 5 = if trap then 15 else 14
}.

Ltac gate_field :=
  cbv beta iota zeta delta
    [fold_left app offset_15_00 seg_selector reserved4 reserved3 reserved2 reserved1 size reserved0 dpl
     gate_present offset_31_16 assign_idt_field SET_IDT_ENTRY fst snd];
  repeat first [rewrite bits_set_low by lia | rewrite bits_set_other by lia].

Lemma bits_split w off a b : 0 <= off -> 0 <= a -> 0 <= b ->
  bits w off (a + b) = bits w off a + 2 ^ a * bits w (off + a) b.
Proof.
  intros Ho Ha Hb. rewrite !bits_div by lia.
  assert (0 < 2 ^ a /\ 0 < 2 ^ b /\ 0 < 2 ^ off) as (? & ? & ?) by (split_and!; apply Z.pow_pos_nonneg; lia).
  rewrite !Z.pow_add_r by lia. rewrite Z.rem_mul_r by lia. by rewrite Z.div_div by lia.
Qed.

(** The type field from its five one-bit parts. *)
Lemma gate_type_bits w t b0 b1 b2 b3 b4 :
  bits w 8 1 = b0 -> bits w 9 1 = b1 -> bits w 10 1 = b2 -> bits w 11 1 = b3 -> bits w 12 1 = b4 ->
  t = b0 + 2 * (b1 + 2 * (b2 + 2 * (b3 + 2 * b4))) -> bits w 8 5 = t.
Proof.
  intros <- <- <- <- <- ->. change 5 with (1 + (1 + (1 + (1 + 1)))).
  rewrite !bits_split by lia. done.
Qed.

Lemma offset_split addr :
  bits (Z.land addr 0xFFFF) 0 16 + 65536 * bits (Z.shiftr (Z.land addr 0xFFFF0000) 16) 0 16 = u32 addr.
Proof.
  assert (bits (Z.land addr 0xFFFF) 0 16 = bits addr 0 16) as ->.
  { unfold bits. rewrite !Z.shiftr_0_r, <- Z.land_assoc. done. }
  assert (bits (Z.shiftr (Z.land addr 0xFFFF0000) 16) 0 16 = bits addr 16 16) as ->.
  { unfold bits. rewrite Z.shiftr_0_r, Z.shiftr_land, <- Z.land_assoc. done. }
  change 65536 with (2 ^ 16). rewrite <- bits_split by lia. rewrite bits_div by lia.
  by rewrite Z.pow_0_r, Z.div_1_r.
Qed.

Section gates.
Context `{Platform}.

Lemma idt_at_same n fs k : idt_at (assign_gate n fs k) n = fold_left assign_idt_field fs (idt_at k n).
Proof. unfold idt_at at 1, assign_gate. simpl. by rewrite lookup_insert_eq. Qed.
Lemma idt_at_other n fs k m : m <> n -> idt_at (assign_gate n fs k) m = idt_at k m.
Proof. intros. unfold idt_at, assign_gate. simpl. by rewrite lookup_insert_ne. Qed.

Lemma set_gate_is d addr (level r3 : Z) : 0 <= level < 4 -> r3 = 0 \/ r3 = 1 ->
  is_gate (fold_left assign_idt_field
    ([(gate_present, 1); (dpl, level); (reserved0, 0); (reserved1, 1); (reserved2, 1); (reserved4, 0);
      (reserved3, r3); (size, 1); (seg_selector, KERNEL_CS)] ++ SET_IDT_ENTRY addr) d) addr level (r3 =? 1).
Proof.
  intros Hl Hr. destruct d as [d1 d2]. split.
  - gate_field. apply offset_split.
  - gate_field. done.
  - gate_field. done.
  - gate_field. rewrite bits_div, Z.pow_0_r, Z.div_1_r by lia. apply Z.mod_small. simpl. lia.
  - eapply gate_type_bits; [gate_field; reflexivity..|]. by destruct Hr as [-> | ->].
Qed.

Lemma set_intr_gate_is n addr k : 0 <= n < 256 -> is_gate (idt_at (set_intr_gate n addr k) n) addr 0 false.
Proof.
  intros Hn. unfold set_intr_gate. rewrite u8_small, idt_at_same by lia. by apply (set_gate_is _ _ 0 0); [|left].
Qed.
Lemma set_trap_gate_is n addr k : 0 <= n < 256 -> is_gate (idt_at (set_trap_gate n addr k) n) addr 0 true.
Proof.
  intros Hn. unfold set_trap_gate. rewrite u8_small, idt_at_same by lia. by apply (set_gate_is _ _ 0 1); [|right].
Qed.
Lemma set_system_gate_is n addr k : 0 <= n < 256 -> is_gate (idt_at (set_system_gate n addr k) n) addr 3 false.
Proof.
  intros Hn. unfold set_system_gate. rewrite u8_small, idt_at_same by lia. by apply (set_gate_is _ _ 3 0); [|left].
Qed.

Lemma trap_gates_is k v : 0 <= v < 256 -> is_gate (idt_at (trap_gates k) v) (isr_addr SIG_IDK) 0 true.
Proof.
  intros Hv. unfold trap_gates.
  apply (for_loop_rule (fun n k => forall v, 0 <= v < n -> is_gate (idt_at k v) (isr_addr SIG_IDK) 0 true)
    0 NUM_VEC); [done|lia| |done].
  intros i b Hi IH w Hw. unfold NUM_VEC in Hi. destruct (Z.eq_dec w i) as [->|]; [by apply set_trap_gate_is|].
  unfold set_trap_gate. rewrite u8_small, idt_at_other by lia. apply IH. lia.
Qed.

Lemma intr_gates_is vs k v : 0 <= v < 256 -> Forall (fun v => 0 <= v < 256) vs ->
  let k' := fold_left (fun k v => set_intr_gate v (isr_addr v) k) vs k in
  if existsb (Z.eqb v) vs then is_gate (idt_at k' v) (isr_addr v) 0 false else idt_at k' v = idt_at k v.
Proof.
  intros Hv Hvs. cbv zeta. induction vs as [|w vs IH] using rev_ind; [done|].
  apply Forall_app in Hvs as [Hvs Hw]. apply Forall_cons_1 in Hw as [Hw _].
  rewrite fold_left_app, existsb_app. cbn [fold_left existsb]. specialize (IH Hvs).
  destruct (Z.eqb_spec v w) as [->|Hne].
  - rewrite orb_true_l, orb_true_r. by apply set_intr_gate_is.
  - rewrite orb_false_l, orb_false_r. unfold set_intr_gate at 1 3. rewrite u8_small by lia.
    by rewrite idt_at_other.
Qed.

Lemma init_idt_is k v : 0 <= v < 256 ->
  let d := idt_at (init_idt k) v in
  if v =? SIG_SYSCALL then is_gate d (isr_addr v) USER_PL false
  else if existsb (Z.eqb v) intr_vectors then is_gate d (isr_addr v) KERNEL_PL false
  else is_gate d (isr_addr SIG_IDK) KERNEL_PL true.
Proof.
  intros Hv. cbv zeta. unfold init_idt.
  pose proof (intr_gates_is intr_vectors (trap_gates k) v Hv ltac:(by repeat constructor)) as Hi.
  cbv zeta in Hi. pose proof (trap_gates_is k v Hv) as Ht. revert Hi Ht.
  generalize (fold_left (fun k v => set_intr_gate v (isr_addr v) k) intr_vectors (trap_gates k)) as k2.
  generalize (trap_gates k) as k1. intros k1 k2 Hi Ht.
  destruct (Z.eqb_spec v SIG_SYSCALL) as [->|Hne]; [by apply set_system_gate_is|].
  unfold set_system_gate. change (u8 SIG_SYSCALL) with SIG_SYSCALL. rewrite idt_at_other by done.
  destruct (existsb _ _); [done|]. by rewrite Hi.
Qed.

(** ** Properties *)

(** C27: after [init_idt] every one of the 256 vectors has a present gate into
    the kernel's code segment: an interrupt gate to its own handler for the
    exceptions 0-14 and 16-19, the timer, the keyboard and the clock; the one
    gate user code may raise, an interrupt gate too, for the system call; and a
    trap gate to the unknown-interrupt handler for all others. The comments of
    idt.c and idt.h say trap gates for the exceptions and the system call: the
    code sets none of theirs. *)
Theorem init_idt_gates k v : 0 <= v < 256 ->
  let d := idt_at (init_idt k) v in
  if v =? SIG_SYSCALL then is_gate d (isr_addr v) USER_PL false
  else if existsb (Z.eqb v) intr_vectors then is_gate d (isr_addr v) KERNEL_PL false
  else is_gate d (isr_addr SIG_IDK) KERNEL_PL true.
Proof. apply init_idt_is. Qed.

Lemma print_shows fmt args k : video_ident (mmu k) -> cursor_ok k -> plain fmt false = true ->
  Z.of_nat (List.length fmt) < 2147483647 -> Forall (fun v => 0 <= v < 4294967296) args ->
  exists k', print fmt args k = Ret tt k' /\ shows (render fmt None args) k k'.
Proof.
  intros Hvi Hc Hp Hl Ha. destruct (printf_plain fmt args k Hvi Hc Hp Hl Ha) as (k' & E & Hs).
  exists k'. unfold print. by rewrite E.
Qed.

Lemma exception_message_plain v cr2 : 0 <= v < 4294967296 -> 0 <= cr2 < 4294967296 ->
  let '(fmt, args) := exception_message v cr2 in
  plain fmt false = true /\ Z.of_nat (List.length fmt) < 2147483647 /\
  Forall (fun v => 0 <= v < 4294967296) args.
Proof.
  intros Hv Hc. unfold exception_message.
  repeat case_match; simplify_eq; (split_and!; [reflexivity|reflexivity|repeat constructor; lia]).
Qed.

(** The text of the messages [handle_exception] prints. *)
Definition exception_text (v cr2 : Z) : list Z :=
  let v' := if v =? 0 then 1 else v in
  let '(fmt, args) := exception_message v' cr2 in
  (if v =? 0 then line "[EXCEPTION] Division Error"%string else []) ++ render fmt None args.

Lemma handle_exception_shows v k :
  video_ident (mmu k) -> cursor_ok k -> 0 <= v < 4294967296 -> 0 <= cr2 (mmu k) < 4294967296 ->
  exists k', handle_exception v k = Hang k' /\ shows (exception_text v (cr2 (mmu k))) k k'.
Proof.
  intros Hvi Hc Hv Hcr. unfold handle_exception, exception_text.
  assert (exists k1, (if v =? 0 then print (line "[EXCEPTION] Division Error"%string) [] else ret tt) k = Ret tt k1 /\
    shows (if v =? 0 then line "[EXCEPTION] Division Error"%string else []) k k1) as (k1 & E1 & Hs1).
  { destruct (v =? 0); [|exists k; split; [done|by apply shows_nil]].
    destruct (print_shows (line "[EXCEPTION] Division Error"%string) [] k) as (k1 & E & Hs); [done..|].
    exists k1. split; [done|exact Hs]. }
  rewrite (bind_ret _ _ _ _ _ E1). unfold bind at 1, get. cbv beta iota.
  pose proof (shows_mmu _ _ _ Hs1) as Hm. rewrite Hm. set (v' := if v =? 0 then 1 else v).
  assert (0 <= v' < 4294967296) as Hv' by (unfold v'; by destruct (v =? 0)).
  pose proof (exception_message_plain v' (cr2 (mmu k)) Hv' Hcr) as Hp.
  destruct (exception_message v' (cr2 (mmu k))) as [fmt args]. destruct Hp as (Hp & Hl & Ha).
  destruct (print_shows fmt args k1) as (k2 & E2 & Hs2); [by rewrite Hm|apply Hs1|done..|].
  rewrite (bind_ret _ _ _ _ _ E2). exists k2. split; [done|]. by apply (shows_app _ _ _ k1).
Qed.
(** [handle_exception] never returns: for any vector it shows the message of
    that vector and spins. For the division error it shows the message of the
    debug exception as well. *)
Theorem handle_exception_spins v k :
  video_ident (mmu k) -> cursor_ok k -> 0 <= v < 4294967296 -> 0 <= cr2 (mmu k) < 4294967296 ->
  exists k', handle_exception v k = Hang k' /\ shows (exception_text v (cr2 (mmu k))) k k'.
Proof. apply handle_exception_shows. Qed.
End gates.

(** ** Concrete runs *)

Lemma init_idt_gates_witness :
  is_gate (@idt_at (@init_idt quiet_platform zero_state) 0x80) 0x507000 3 false.
Proof. apply (@init_idt_gates quiet_platform zero_state 0x80). done. Defined.

Lemma handle_exception_spins_witness :
  exists k', @handle_exception quiet_platform 0 zero_state = Hang k' /\
    @shows quiet_platform (exception_text 0 0) zero_state k'.
Proof.
  apply (@handle_exception_spins quiet_platform 0 zero_state); [by apply @video_ident_unpaged|done..].
Defined.
