(* ===== verification/Keyboard.v ===== *)
(** The keyboard driver and the terminal files (keyboard.c): the scan-code
    tables, the modifier state ([key_status]), the line buffers, the parts of
    [keyboard_handler] other than the display switch, and [read_terminal] from
    the moment its wait is over. The handler with its switch, and the wait, are
    in Interrupts.v.

    The buffer of a terminal is an array inside the structure [terminal_t]; an
    index outside it falls on the fields around, laid out as on the i386. *)

From S2P Require Import Prelude Bytes CString CMem State Console Pic.
#[local] Open Scope Z_scope.
#[local] Open Scope kernel_scope.

Definition KEYBOARD_ENCODER := 0x60.
Definition LEFT_SHIFT_PRESS := 0x2A.
Definition RIGHT_SHIFT_PRESS := 0x36.
Definition LEFT_SHIFT_RELEASE := 0xAA.
Definition RIGHT_SHIFT_RELEASE := 0xB6.
Definition CAPS_PRESS := 0x3A.
Definition LEFT_CONTROL_PRESS := 0x1D.
Definition LEFT_CONTROL_RELEASE := 0x9D.
Definition KEYBOARDSIZE := 127.
Definition LEFT_ALT_PRESS := 0x38.
Definition RIGHT_ALT_PRESS := 0xE0.
Definition LEFT_ALT_RELEASE := 0xB8.
Definition RIGHT_ALT_RELEASE := 0xE0.
Definition F1_scancode := 0x3B.
Definition F2_scancode := 0x3C.
Definition F3_scancode := 0x3D.

(** ** The scan-code tables; the entries past the end of a list are [0] *)

Definition lower : list Z :=
  [0; 0; 49; 50; 51; 52; 53; 54; 55; 56; 57; 48; 45; 61; 8; 32; 113; 119; 101; 114; 116;
   121; 117; 105; 111; 112; 91; 93; 10; 0; 97; 115; 100; 102; 103; 104; 106; 107; 108; 59;
   39; 96; 0; 92; 122; 120; 99; 118; 98; 110; 109; 44; 46; 47; 0; 42; 0; 32; 0; 0; 0; 32;
   0; 0; 0; 0; 0; 0; 0; 0; 0; 55; 56; 57; 45; 52; 53; 54; 43; 49; 50; 51; 48; 46].

Definition uppershift : list Z :=
  [0; 0; 33; 64; 35; 36; 37; 94; 38; 42; 40; 41; 95; 43; 8; 32; 81; 87; 69; 82; 84; 89; 85;
   73; 79; 80; 123; 125; 10; 0; 65; 83; 68; 70; 71; 72; 74; 75; 76; 58; 34; 126; 0; 124;
   90; 88; 67; 86; 66; 78; 77; 60; 62; 63; 0; 42; 0; 32; 0; 0; 0; 32; 0; 0; 0; 0; 0; 0; 0;
   0; 0; 55; 56; 57; 45; 52; 53; 54; 43; 49; 50; 51; 48; 46].

Definition caps : list Z :=
  [0; 0; 49; 50; 51; 52; 53; 54; 55; 56; 57; 48; 45; 61; 8; 32; 81; 87; 69; 82; 84; 89; 85;
   73; 79; 80; 91; 93; 10; 0; 65; 83; 68; 70; 71; 72; 74; 75; 76; 59; 39; 96; 0; 92; 90;
   88; 67; 86; 66; 78; 77; 44; 46; 47; 0; 42; 0; 32; 0; 0; 0; 32; 0; 0; 0; 0; 0; 0; 0; 0;
   0; 55; 56; 57; 45; 52; 53; 54; 43; 49; 50; 51; 48; 46].

Definition lowershift : list Z :=
  [0; 0; 33; 64; 35; 36; 37; 94; 38; 42; 40; 41; 95; 43; 8; 32; 113; 119; 101; 114; 116;
   121; 117; 105; 111; 112; 123; 125; 10; 0; 97; 115; 100; 102; 103; 104; 106; 107; 108;
   58; 34; 126; 0; 124; 122; 120; 99; 118; 98; 110; 109; 60; 62; 63; 0; 42; 0; 32; 0; 0; 0;
   32; 0; 0; 0; 0; 0; 0; 0; 0; 0; 55; 56; 57; 45; 52; 53; 54; 43; 49; 50; 51; 48; 46].

(** The first column of [ascii_code], which has 58 rows. *)
Definition ascii_code : list Z :=
  [0; 0; 49; 50; 51; 52; 53; 54; 55; 56; 57; 48; 45; 61; 8; 0; 113; 119; 101; 114; 116; 121;
   117; 105; 111; 112; 91; 93; 10; 0; 97; 115; 100; 102; 103; 104; 106; 107; 108; 59; 39;
   96; 0; 92; 122; 120; 99; 118; 98; 110; 109; 44; 46; 47; 0; 0; 0; 32].

Definition table_of (t : key_table) : list Z :=
  match t with Lower => lower | Uppershift => uppershift | Caps => caps | Lowershift => lowershift end.

(** The entry of a table at a scan code. *)
Definition key_at (t : key_table) (sc : Z) : Z := default 0 (table_of t !! Z.to_nat sc).

Section keyboard.
Context `{Platform}.

(** ** The array of terminals, byte by byte

    Offsets within [terminal_t]: [processes] 0, [active_process] 4, [screen_x]
    8, [screen_y] 12, [keyboard_buf] 16, [terminal_flag] 144, [buffer_enable]
    148; the structure has 152 bytes. *)
Definition set_byte (w j v : Z) : Z := s32 (set_bits (u32 w) (8 * j) 8 v).

Definition terminal_store8 (o v : Z) (t : terminal_t) : terminal_t :=
  if o <? 4 then t <| processes := <[o := s8 v]> (processes t) |>
  else if o <? 8 then t <| active_process := set_byte (active_process t) (o - 4) v |>
  else if o <? 12 then t <| term_screen_x := set_byte (term_screen_x t) (o - 8) v |>
  else if o <? 16 then t <| term_screen_y := set_byte (term_screen_y t) (o - 12) v |>
  else if o <? 144 then t <| keyboard_buf := put8 (o - 16) v (keyboard_buf t) |>
  else if o =? 144 then t <| terminal_flag := u8 v |>
  else if o <? 148 then t
  else t <| buffer_enable := set_byte (buffer_enable t) (o - 148) v |>.

Definition terminals_store8 (a v : Z) (k : kstate) : kstate :=
  if (0 <=? a) && (a <? 456) then
    put_term (a / 152) (terminal_store8 (a mod 152) v (term_at k (a / 152))) k
  else past_terminals a v k.

(** [terminals[d].keyboard_buf[i] = v]. *)
Definition store_key (d i v : Z) (k : kstate) : kstate := terminals_store8 (152 * d + 16 + i) v k.

(** ** The globals *)

Definition disp (k : kstate) : Z := disp_term_k (kbd k).
Definition index_at (k : kstate) (d : Z) : Z := (index (kbd k)).[d].
Definition set_index (d v : Z) (k : kstate) : kstate := k <| kbd; index := <[d := v]> (index (kbd k)) |>.
Definition set_enter_read (d v : Z) (k : kstate) : kstate :=
  k <| kbd; enter_read := <[d := v]> (enter_read (kbd k)) |>.
Definition set_printed (v : Z) (k : kstate) : kstate := k <| kbd; number_printed_line := v |>.

(** keyboard.c [init_keyboard]. *)
Definition init_keyboard (k : kstate) : kstate :=
  let k := k <| kbd; pointer := Lower |> in
  let k := k <| kbd; case_status := 0 |> in
  let k := k <| kbd; control_status := 0 |> in
  let k := k <| kbd; caps_enable := 0 |> in
  let k := k <| kbd; is_alphabet := 0 |> in
  let k := for_loop 0 3 (fun i k =>
      put_term i ((term_at k i) <| keyboard_buf := memset 0 0 128 (keyboard_buf (term_at k i)) |>) k) k in
  let k := set_printed 0 k in
  enable_irq 1 k.

(** keyboard.c [key_status], on the globals it reads and sets. *)
Definition set_case (c : Z) (p : key_table) (s : kbd_state) : kbd_state :=
  s <| case_status := c |> <| pointer := p |> <| flag := 1 |>.

Definition key_status (key_pressed : Z) (s : kbd_state) : kbd_state :=
  let s :=
    if key_pressed =? CAPS_PRESS then
      if caps_enable s =? 1 then set_case 0 Lower (s <| caps_enable := 0 |>)
      else set_case 1 Caps (s <| caps_enable := 1 |>)
    else s in
  let s :=
    if (key_pressed =? LEFT_SHIFT_PRESS) || (key_pressed =? RIGHT_SHIFT_PRESS) then
      if caps_enable s =? 1 then set_case 0 Lowershift s else set_case 1 Uppershift s
    else s in
  let s :=
    if (key_pressed =? LEFT_SHIFT_RELEASE) || (key_pressed =? RIGHT_SHIFT_RELEASE) then
      if caps_enable s =? 1 then set_case 1 Caps s else set_case 0 Lower s
    else s in
  let s :=
    if key_pressed =? LEFT_CONTROL_PRESS then s <| control_status := 1 |> <| flag := 1 |>
    else if key_pressed =? LEFT_CONTROL_RELEASE then s <| control_status := 0 |> <| flag := 1 |>
    else s in
  let s :=
    if (key_pressed =? LEFT_ALT_PRESS) || (key_pressed =? RIGHT_ALT_PRESS) then
      s <| alt_status := 1 |> <| flag := 1 |>
    else if (key_pressed =? LEFT_ALT_RELEASE) || (key_pressed =? RIGHT_ALT_RELEASE) then
      s <| alt_status := 0 |> <| flag := 1 |>
    else s in
  if flag s =? 0 then s <| is_alphabet := 1 |> else s.

(** keyboard.c [cntl_l_check]; the table is indexed by any scan code. *)
Definition ascii_at (data : Z) : Z :=
  if data <? 58 then default 0 (ascii_code !! Z.to_nat data) else s8 (past_ascii_code data).
Definition cntl_l_check (data : Z) (k : kstate) : Z * kstate :=
  let curr_key := ascii_at data in
  if negb (control_status (kbd k) =? 0) then
    if (curr_key =? 108) || (curr_key =? 76) then (1, clear k) else (0, k)
  else (0, k).

(** keyboard.c [key_noprint]; the test [index != 0] is of the array's address. *)
Definition key_noprint (key_pressed : Z) (k : kstate) : kstate :=
  let d := disp k in
  if key_pressed =? 8 then
    let k :=
      if negb (number_printed_line (kbd k) =? 0) then
        let k := store_key d (index_at k d - 1) 0 k in
        let k := set_index d (index_at k d - 1) k in
        let k := set_printed (number_printed_line (kbd k) - 1) k in
        putc 8 k
      else k in
    send_eoi 1 k
  else if key_pressed =? 10 then
    let k := store_key d (index_at k d) 10 k in
    let k := if negb (buffer_enable (term_at k d) =? 0) then set_enter_read d 1 k else k in
    let k := set_index d (index_at k d + 1) k in
    let k := set_printed 0 k in
    send_eoi 1 k
  else k.

(** keyboard.c [keyboard_handler], lines 142-145. *)
Definition handler_entry (k : kstate) : kstate :=
  let k := k <| kbd; disp_term_k := active_terminal (procs k) |> in
  let k := k <| kbd; is_alphabet := 0 |> in
  set_enter_read (disp k) 0 k.

(** Lines 151-158: up to the tests that decide what to do with the character,
    which is the first component of the result. *)
Definition key_char (k : kstate) (data : Z) : Z := key_at (pointer (kbd k)) data.
Definition handler_front (data : Z) (k : kstate) : Z * kstate :=
  let k := k <| kbd := key_status data (kbd k) |> in
  let '(_, k) := cntl_l_check data k in
  let k := key_noprint (key_char k data) k in
  (key_char k data, k).

(** Lines 186-191: a character goes to the buffer and to the screen. *)
Definition key_typed (print : Z) (k : kstate) : kstate :=
  let d := disp k in
  if negb (print =? 0) && negb (print =? 8) then
    let k := store_key d (index_at k d) print k in
    let k := set_index d (index_at k d + 1) k in
    let k := set_printed (number_printed_line (kbd k) + 1) k in
    putc print k
  else k.

(** The handler from the scan code on, when neither control-L nor alt applies
    (lines 151-158 and 186-193). *)
Definition key_plain (data : Z) (k : kstate) : kstate :=
  let '(print, k) := handler_front data k in
  send_eoi 1 (key_typed print k).

(** keyboard.c [open_terminal], [close_terminal], [read_failure], [write_failure]. *)
Definition open_terminal (k : kstate) : Z * kstate := (0, k).
Definition close_terminal (fd : Z) (k : kstate) : Z * kstate := (-1, k).
Definition read_failure (fd buf num : Z) (k : kstate) : Z * kstate := (-1, k).
Definition write_failure (fd buf num : Z) (k : kstate) : Z * kstate := (-1, k).

(** keyboard.c [write_terminal]. *)
Definition write_chars (buf num : Z) (k : kstate) : kstate :=
  for_loop 0 num (fun i k => putc (ld8 k (buf + i)) k) k.
Definition write_terminal (fd buf num : Z) (k : kstate) : Z * kstate :=
  (Z.max 0 num, write_chars buf num k).

(** keyboard.c [read_terminal], lines 351-356: the copy of the line. *)
Definition copy_line (buf num : Z) (k : kstate) : Z * kstate :=
  loop_or (0, k) 128
    (fun '(i, k) =>
       if (i <? num) && (i <? KEYBOARDSIZE) then
         let c := get8 (keyboard_buf (term_at k (disp k))) i in
         let k := st8 (buf + i) c k in
         if get8 (keyboard_buf (term_at k (disp k))) i =? 10 then inr (i, k) else inl (i + 1, k)
       else inr (i, k)) (0, k).

(** Lines 357-361: the buffer is emptied. *)
Definition reset_line (k : kstate) : kstate :=
  let t := term_at k (disp k) in
  let k := put_term (disp k) (t <| keyboard_buf := memset 0 0 128 (keyboard_buf t) |>) k in
  let k := set_index (disp k) 0 k in
  let k := set_enter_read (disp k) 0 k in
  put_term (disp k) ((term_at k (disp k)) <| buffer_enable := 0 |>) k.

(** Lines 351-361: [read_terminal] once a line has been entered. *)
Definition take_line (buf num : Z) (k : kstate) : Z * kstate :=
  let '(i, k) := copy_line buf num k in
  (i + 1, reset_line k).
End keyboard.

(** ** The modifier keys *)

Module Modifiers.
Record t := T { caps_on : bool; shifted : bool; control : bool; alt : bool }.
Definition start : t := T false false false false.

(** A caps-lock press also ends a shift; a control or alt press lasts until its
    release, and the prefix 0xE0 counts as an alt press. *)
Definition step (m : t) (sc : Z) : t :=
  if sc =? 0x3A then T (negb (caps_on m)) false (control m) (alt m)
  else if (sc =? 0x2A) || (sc =? 0x36) then T (caps_on m) true (control m) (alt m)
  else if (sc =? 0xAA) || (sc =? 0xB6) then T (caps_on m) false (control m) (alt m)
  else if sc =? 0x1D then T (caps_on m) (shifted m) true (alt m)
  else if sc =? 0x9D then T (caps_on m) (shifted m) false (alt m)
  else if (sc =? 0x38) || (sc =? 0xE0) then T (caps_on m) (shifted m) (control m) true
  else if sc =? 0xB8 then T (caps_on m) (shifted m) (control m) false
  else m.

Definition table (m : t) : key_table :=
  match caps_on m, shifted m with
  | false, false => Lower | false, true => Uppershift
  | true, false => Caps | true, true => Lowershift
  end.
End Modifiers.

(** The globals of the driver represent the modifiers [m]. *)
Definition modifiers_ok (s : kbd_state) (m : Modifiers.t) : Prop :=
  pointer s = Modifiers.table m /\
  caps_enable s = Z.b2z (Modifiers.caps_on m) /\
  case_status s = Z.b2z (xorb (Modifiers.caps_on m) (Modifiers.shifted m)) /\
  control_status s = Z.b2z (Modifiers.control m) /\
  alt_status s = Z.b2z (Modifiers.alt m).

Lemma key_status_step sc s m : modifiers_ok s m -> modifiers_ok (key_status sc s) (Modifiers.step m sc).
Proof.
  intros (Hp & Hca & Hcs & Hct & Hal). destruct m as [[] sh ct al]; simpl in *.
  all: unfold key_status, Modifiers.step; cbn [Modifiers.caps_on Modifiers.shifted Modifiers.control Modifiers.alt];
    unfold CAPS_PRESS, LEFT_SHIFT_PRESS, RIGHT_SHIFT_PRESS, LEFT_SHIFT_RELEASE, RIGHT_SHIFT_RELEASE,
      LEFT_CONTROL_PRESS, LEFT_CONTROL_RELEASE, LEFT_ALT_PRESS, RIGHT_ALT_PRESS, LEFT_ALT_RELEASE, RIGHT_ALT_RELEASE.
  all: destruct (Z.eqb_spec sc 0x3A) as [->|]; [simpl; rewrite Hca; simpl; try case_test; repeat split; done|].
  all: destruct (Z.eqb_spec sc 0x2A) as [->|]; [simpl; rewrite Hca; simpl; try case_test; repeat split; done|].
  all: destruct (Z.eqb_spec sc 0x36) as [->|]; [simpl; rewrite Hca; simpl; try case_test; repeat split; done|].
  all: destruct (Z.eqb_spec sc 0xAA) as [->|]; [simpl; rewrite Hca; simpl; try case_test; repeat split; done|].
  all: destruct (Z.eqb_spec sc 0xB6) as [->|]; [simpl; rewrite Hca; simpl; try case_test; repeat split; done|].
  all: simpl.
  all: destruct (Z.eqb_spec sc 0x1D) as [->|]; [simpl; try case_test; repeat split; done|].
  all: destruct (Z.eqb_spec sc 0x9D) as [->|]; [simpl; try case_test; repeat split; done|].
  all: destruct (Z.eqb_spec sc 0x38) as [->|]; [simpl; try case_test; repeat split; done|].
  all: destruct (Z.eqb_spec sc 0xE0) as [->|]; [simpl; try case_test; repeat split; done|].
  all: destruct (Z.eqb_spec sc 0xB8) as [->|]; [simpl; try case_test; repeat split; done|].
  all: simpl; try case_test; repeat split; done.
Qed.

(** ** The line buffers *)

Section buffers.
Context `{Platform}.

Lemma store_key_in d i v k : 0 <= d < 3 -> 0 <= i < 128 ->
  store_key d i v k =
    put_term d ((term_at k d) <| keyboard_buf := put8 i v (keyboard_buf (term_at k d)) |>) k.
Proof.
  intros Hd Hi. unfold store_key, terminals_store8.
  test_true ((0 <=? 152 * d + 16 + i) && (152 * d + 16 + i <? 456)). cbv iota.
  assert ((152 * d + 16 + i) / 152 = d) as -> by (Z.div_mod_to_equations; lia).
  assert ((152 * d + 16 + i) mod 152 = 16 + i) as -> by (Z.div_mod_to_equations; lia).
  unfold terminal_store8. test_false (16 + i <? 4). test_false (16 + i <? 8).
  test_false (16 + i <? 12). test_false (16 + i <? 16). test_true (16 + i <? 144). cbv iota.
  by replace (16 + i - 16) with i by lia.
Qed.

Lemma store_key_flag d v k : 0 <= d < 3 ->
  store_key d 128 v k = put_term d ((term_at k d) <| terminal_flag := u8 v |>) k.
Proof.
  intros Hd. unfold store_key, terminals_store8.
  test_true ((0 <=? 152 * d + 16 + 128) && (152 * d + 16 + 128 <? 456)). cbv iota.
  assert ((152 * d + 16 + 128) / 152 = d) as -> by (Z.div_mod_to_equations; lia).
  assert ((152 * d + 16 + 128) mod 152 = 144) as -> by (Z.div_mod_to_equations; lia). done.
Qed.

Lemma store_key_below d v k : 0 <= d < 3 ->
  store_key d (-1) v k = put_term d ((term_at k d) <| term_screen_y := set_byte (term_screen_y (term_at k d)) 3 v |>) k.
Proof.
  intros Hd. unfold store_key, terminals_store8.
  test_true ((0 <=? 152 * d + 16 + -1) && (152 * d + 16 + -1 <? 456)). cbv iota.
  assert ((152 * d + 16 + -1) / 152 = d) as -> by (Z.div_mod_to_equations; lia).
  assert ((152 * d + 16 + -1) mod 152 = 15) as -> by (Z.div_mod_to_equations; lia). done.
Qed.

Lemma term_at_put d t k : term_at (put_term d t k) d = t.
Proof. unfold term_at, put_term. simpl. by rewrite lookup_insert_eq. Qed.

(** The state of a line being typed at terminal [d]: [l] is in its buffer, and
    control is not held. *)
Record typing (k : kstate) (d : Z) (l : list Z) : Prop := {
  ty_disp : disp k = d;
  ty_range : 0 <= d < 3;
  ty_index : index_at k d = Z.of_nat (length l);
  ty_buf : forall i c, l !! i = Some c -> get8 (keyboard_buf (term_at k d)) (Z.of_nat i) = c;
  ty_control : control_status (kbd k) = 0
}.

(** What one key press shows on the console, whatever it does elsewhere. *)
Definition echoes (l : list Z) (k k' : kstate) : Prop :=
  mmu k' = mmu k /\ cursor_ok k' /\ abs k' = fold_left (fun st c => Spec.write c st) l (abs k) /\
  forall pa, pa < VIDEO \/ VIDEO + 4000 <= pa -> mem_get (pmem k') pa = mem_get (pmem k) pa.

Lemma echoes_app l1 l2 k1 k2 k3 : echoes l1 k1 k2 -> echoes l2 k2 k3 -> echoes (l1 ++ l2) k1 k3.
Proof.
  intros (M1 & _ & A1 & P1) (M2 & C2 & A2 & P2). split; [congruence|]. split; [done|]. split.
  - by rewrite fold_left_app, <- A1.
  - intros pa Hpa. by rewrite P2, P1.
Qed.

Definition printable (c : Z) : Prop := 32 <= c < 127.

(** A scan code with a printable character is not that of a modifier. *)
Lemma printable_no_modifier t data : 0 <= data < 256 ->
  key_at t data <> 0 ->
  forall s, key_status data s = if flag s =? 0 then s <| is_alphabet := 1 |> else s.
Proof.
  intros Hd Hc s.
  assert (forallb (fun sc => key_at t sc =? 0)
    [0x3A; 0x2A; 0x36; 0xAA; 0xB6; 0x1D; 0x9D; 0x38; 0xE0; 0xB8] = true) as Hall by (by destruct t).
  rewrite forallb_forall in Hall.
  assert (forall sc, In sc [0x3A; 0x2A; 0x36; 0xAA; 0xB6; 0x1D; 0x9D; 0x38; 0xE0; 0xB8] -> (data =? sc) = false) as Hne.
  { intros sc Hin. apply Z.eqb_neq. intros ->. apply Hall in Hin. lia. }
  unfold key_status. unfold CAPS_PRESS, LEFT_SHIFT_PRESS, RIGHT_SHIFT_PRESS, LEFT_SHIFT_RELEASE,
    RIGHT_SHIFT_RELEASE, LEFT_CONTROL_PRESS, LEFT_CONTROL_RELEASE, LEFT_ALT_PRESS, RIGHT_ALT_PRESS,
    LEFT_ALT_RELEASE, RIGHT_ALT_RELEASE.
  rewrite !Hne by (simpl; tauto). done.
Qed.

(** The modifier state after such a key. *)
Definition settled (s : kbd_state) : kbd_state := if flag s =? 0 then s <| is_alphabet := 1 |> else s.

Lemma handler_front_printable data k : 0 <= data < 256 -> control_status (kbd k) = 0 ->
  printable (key_char k data) ->
  handler_front data k = (key_char k data, k <| kbd := settled (kbd k) |>).
Proof.
  intros Hd Hct Hp. unfold handler_front. unfold printable in Hp.
  rewrite (printable_no_modifier (pointer (kbd k))) by (done || unfold key_char in Hp; lia).
  fold (settled (kbd k)). set (k1 := k <| kbd := settled (kbd k) |>).
  assert (pointer (kbd k1) = pointer (kbd k) /\ control_status (kbd k1) = 0) as [E1 E2].
  { unfold k1, settled. simpl. by destruct (flag (kbd k) =? 0). }
  unfold cntl_l_check. rewrite E2. change (negb (0 =? 0)) with false. cbv iota zeta.
  assert (key_char k1 data = key_char k data) as E by (unfold key_char; by rewrite E1).
  rewrite E. unfold key_noprint. test_false (key_char k data =? 8). test_false (key_char k data =? 10).
  cbv iota. by rewrite E.
Qed.

(** Storing a character at the end of the line, in the buffer. *)
Definition append_key (d c : Z) (k : kstate) : kstate :=
  let k := store_key d (index_at k d) c k in
  let k := set_index d (index_at k d + 1) k in
  set_printed (number_printed_line (kbd k) + 1) k.

Lemma append_key_typing d l c k : typing k d l -> (length l < 128)%nat -> 0 <= c < 256 ->
  typing (append_key d c k) d (l ++ [c]) /\ pointer (kbd (append_key d c k)) = pointer (kbd k) /\
  buffer_enable (term_at (append_key d c k) d) = buffer_enable (term_at k d) /\
  enter_read (kbd (append_key d c k)) = enter_read (kbd k).
Proof.
  intros [Hdi Hr Hi Hb Hct] Hl Hc. unfold append_key. rewrite Hi, store_key_in by lia. cbv zeta.
  set (k1 := put_term _ _ k).
  assert (index_at k1 d = Z.of_nat (length l)) as Hi1 by exact Hi. rewrite Hi1.
  assert (term_at k1 d = (term_at k d) <| keyboard_buf := put8 (Z.of_nat (length l)) c (keyboard_buf (term_at k d)) |>)
    as Ht by apply term_at_put.
  set (k2 := set_printed _ _).
  assert (term_at k2 d = term_at k1 d) as Ht2 by done. split; [|split; [done|split; [by rewrite Ht2, Ht|done]]].
  split.
  - exact Hdi.
  - done.
  - unfold index_at. simpl. rewrite elem_same, length_app. simpl. lia.
  - intros i c' E. rewrite Ht2, Ht. simpl.
    destruct (decide (i = length l)) as [->|Hne].
    + rewrite lookup_app_r, Nat.sub_diag in E by lia. simpl in E. injection E as <-.
      rewrite mem_get_same. by apply u8_small.
    + assert (i < length l)%nat by (apply lookup_lt_Some in E; rewrite length_app in E; simpl in E; lia).
      rewrite lookup_app_l in E by lia. rewrite mem_get_other by lia. by apply Hb.
  - exact Hct.
Qed.

(** [putc] and [send_eoi] touch neither the driver's globals nor the terminals. *)
Lemma typing_frame k k' d l : console_frame k k' -> typing k d l -> typing k' d l.
Proof. intros [-> _] [? ? ? ? ?]. by split. Qed.

Lemma key_plain_printable data k d l : 0 <= data < 256 -> typing k d l ->
  printable (key_char k data) -> (length l < 128)%nat -> video_ident (mmu k) -> cursor_ok k ->
  let k' := key_plain data k in
  typing k' d (l ++ [key_char k data]) /\ echoes [key_char k data] k k' /\
  pointer (kbd k') = pointer (kbd k) /\
  buffer_enable (term_at k' d) = buffer_enable (term_at k d) /\
  enter_read (kbd k') = enter_read (kbd k).
Proof.
  intros Hd Ht Hp Hl Hvi Hc. cbv zeta. unfold key_plain.
  rewrite handler_front_printable by (done || apply Ht). set (c := key_char k data) in *. unfold printable in Hp.
  unfold key_typed. test_true (negb (c =? 0) && negb (c =? 8)). cbv iota zeta.
  set (k1 := k <| kbd := settled (kbd k) |>).
  assert (typing k1 d l /\ pointer (kbd k1) = pointer (kbd k) /\ enter_read (kbd k1) = enter_read (kbd k)) as (Ht1 & Ep & Ee).
  { unfold k1, settled. destruct Ht as [? ? ? ? ?]. simpl. destruct (flag (kbd k) =? 0); by split_and!. }
  replace (disp k1) with d by (symmetry; apply Ht1). fold (append_key d c k1).
  destruct (append_key_typing d l c k1 Ht1 Hl ltac:(lia)) as (Ht2 & Ep2 & Eb2 & Ee2).
  set (k2 := append_key d c k1) in *.
  assert (mmu k2 = mmu k /\ con k2 = con k /\ pmem k2 = pmem k) as (Em & Ec & Epm).
  { unfold k2, append_key. rewrite store_key_in; [done|apply Ht1|].
    rewrite (ty_index _ _ _ Ht1). lia. }
  clearbody k2.
  destruct (putc_shows c k2) as (Hf & Hc' & Ha); [by rewrite Em|unfold cursor_ok, scr_x, scr_y; by rewrite Ec|lia|lia|].
  assert (console_frame k2 (send_eoi 1 (putc c k2))) as Hf'.
  { apply (frame_trans _ (putc c k2)); [done|]. by split. }
  split; [by apply (typing_frame k2)|]. split; [|split; [|split]].
  - split; [by rewrite (console_frame_mmu _ _ Hf'), Em|]. split; [exact Hc'|].
    split; [|intros pa Hpa; by rewrite (cf_mem _ _ Hf' pa Hpa), Epm].
    change (abs (send_eoi 1 (putc c k2))) with (abs (putc c k2)). rewrite Ha. cbn [fold_left].
    assert (abs k2 = abs k) as ->; [|done]. unfold abs, abs_cells, cell_at, scr_x, scr_y. by rewrite Ec, Epm.
  - rewrite (cf_state _ _ Hf'). cbn. congruence.
  - rewrite (cf_state _ _ Hf'). change (buffer_enable (term_at k2 d) = buffer_enable (term_at k d)).
    rewrite Eb2. done.
  - rewrite (cf_state _ _ Hf'). cbn. congruence.
Qed.
End buffers.

(** ** Typing a line, and reading it *)

Section lines.
Context `{Platform}.

Definition press (scs : list Z) (k : kstate) : kstate := fold_left (fun k sc => key_plain sc k) scs k.

Lemma press_typing scs k d l : Forall (fun sc => 0 <= sc < 256 /\ printable (key_char k sc)) scs ->
  typing k d l -> (length l + length scs <= 128)%nat -> video_ident (mmu k) -> cursor_ok k ->
  let k' := press scs k in
  typing k' d (l ++ (key_char k <$> scs)) /\ echoes (key_char k <$> scs) k k' /\
  pointer (kbd k') = pointer (kbd k) /\
  buffer_enable (term_at k' d) = buffer_enable (term_at k d) /\
  enter_read (kbd k') = enter_read (kbd k).
Proof.
  cbv zeta. revert k l. induction scs as [|sc scs IH]; intros k l Hscs Ht Hlen Hvi Hc.
  - simpl. rewrite app_nil_r. by split_and!.
  - apply Forall_cons_1 in Hscs as [[Hsc Hp] Hscs]. cbn [length] in Hlen.
    destruct (key_plain_printable sc k d l) as (Ht1 & He1 & Ep1 & Eb1 & Ee1); [done|done|done|lia|done|done|].
    change (press (sc :: scs) k) with (press scs (key_plain sc k)).
    assert (forall s, key_char (key_plain sc k) s = key_char k s) as Ek by (intros s; unfold key_char; by rewrite Ep1).
    destruct (IH (key_plain sc k) (l ++ [key_char k sc])) as (Ht2 & He2 & Ep2 & Eb2 & Ee2).
    + eapply Forall_impl; [exact Hscs|]. intros s. cbv beta. by rewrite Ek.
    + done.
    + rewrite length_app. simpl. lia.
    + destruct He1 as (-> & _). done.
    + apply He1.
    + assert ((key_char (key_plain sc k) <$> scs) = (key_char k <$> scs)) as Em by (apply list_fmap_ext; intros; apply Ek).
      rewrite Em in *. cbn [fmap list_fmap]. change (list_fmap _ _ (key_char k) scs) with (key_char k <$> scs).
      split; [by rewrite <- app_assoc in Ht2|]. split; [by apply (echoes_app [_] _ _ (key_plain sc k))|].
      split_and!; congruence.
Qed.

Lemma enter_char t : key_at t 0x1C = 10.
Proof. by destruct t. Qed.

(** The Enter key stores two newlines: [key_noprint] one, the handler another. *)
Lemma key_plain_enter k d l : typing k d l -> (length l <= 126)%nat ->
  video_ident (mmu k) -> cursor_ok k -> buffer_enable (term_at k d) <> 0 ->
  let k' := key_plain 0x1C k in
  typing k' d (l ++ [10; 10]) /\ echoes [10] k k' /\ (enter_read (kbd k')).[d] = 1 /\
  number_printed_line (kbd k') = 1.
Proof.
  intros Ht Hl Hvi Hc Hbe. cbv zeta. unfold key_plain, handler_front.
  rewrite (printable_no_modifier (pointer (kbd k))) by (by rewrite ?enter_char).
  fold (settled (kbd k)). set (k1 := k <| kbd := settled (kbd k) |>).
  assert (typing k1 d l /\ enter_read (kbd k1) = enter_read (kbd k)) as (Ht1 & Ee1).
  { unfold k1, settled. destruct Ht as [? ? ? ? ?]. simpl. destruct (flag (kbd k) =? 0); by split_and!. }
  unfold cntl_l_check. rewrite (ty_control _ _ _ Ht1). change (negb (0 =? 0)) with false. cbv iota zeta.
  assert (forall k, key_char k 0x1C = 10) as Ek by (intros; apply enter_char). rewrite !Ek.
  unfold key_noprint. change (10 =? 8) with false. change (10 =? 10) with true. cbv iota.
  replace (disp k1) with d by (symmetry; apply Ht1).
  rewrite (ty_index _ _ _ Ht1), store_key_in by (done || apply Ht1 || lia).
  set (k2 := put_term d _ k1).
  assert (term_at k2 d = (term_at k1 d) <| keyboard_buf := put8 (Z.of_nat (length l)) 10 (keyboard_buf (term_at k1 d)) |>)
    as Et2 by apply term_at_put.
  assert (buffer_enable (term_at k2 d) <> 0) as Hbe2 by (rewrite Et2; exact Hbe).
  rewrite (proj2 (Z.eqb_neq _ _) Hbe2). change (negb false) with true. cbv iota.
  set (k3 := send_eoi 1 (set_printed _ _)).
  assert (typing k3 d (l ++ [10])) as Ht3.
  { destruct Ht1 as [Hdi Hr Hi Hb Hct]. split.
    - exact Hdi.
    - done.
    - unfold index_at. change (index (kbd k3)) with (<[d := (index (kbd k1)).[d] + 1]> (index (kbd k1))).
      rewrite elem_same, length_app. unfold index_at in Hi. rewrite Hi. simpl. lia.
    - intros i c E. change (term_at k3 d) with (term_at k2 d). rewrite Et2. simpl.
      destruct (decide (i = length l)) as [->|Hne].
      + rewrite lookup_app_r, Nat.sub_diag in E by lia. simpl in E. injection E as <-. by rewrite mem_get_same.
      + assert (i < length l)%nat by (apply lookup_lt_Some in E; rewrite length_app in E; simpl in E; lia).
        rewrite lookup_app_l in E by lia. rewrite mem_get_other by lia. by apply Hb.
    - exact Hct. }
  assert ((enter_read (kbd k3)).[d] = 1 /\ number_printed_line (kbd k3) = 0) as [Ee3 Ep3]
    by (split; [simpl; by rewrite elem_same|done]).
  assert (mmu k3 = mmu k /\ con k3 = con k /\ pmem k3 = pmem k) as (Em3 & Ec3 & Epm3) by done.
  clearbody k3. unfold key_typed. change (negb (10 =? 0) && negb (10 =? 8)) with true. cbv iota zeta.
  replace (disp k3) with d by (symmetry; apply Ht3). fold (append_key d 10 k3).
  destruct (append_key_typing d (l ++ [10]) 10 k3 Ht3) as (Ht4 & _ & _ & Ee4); [rewrite length_app; simpl; lia|lia|].
  assert (number_printed_line (kbd (append_key d 10 k3)) = 1 /\
    mmu (append_key d 10 k3) = mmu k /\ con (append_key d 10 k3) = con k /\ pmem (append_key d 10 k3) = pmem k)
    as (Ep4 & Em4 & Ec4 & Epm4).
  { unfold append_key. rewrite store_key_in; [|apply Ht3|rewrite (ty_index _ _ _ Ht3), length_app; simpl; lia].
    split_and!; [|done..]. simpl. by rewrite Ep3. }
  set (k4 := append_key d 10 k3) in *. clearbody k4.
  destruct (putc_shows 10 k4) as (Hf & Hc' & Ha); [by rewrite Em4|unfold cursor_ok, scr_x, scr_y; by rewrite Ec4|done|done|].
  assert (console_frame k4 (send_eoi 1 (putc 10 k4))) as Hf' by (apply (frame_trans _ (putc 10 k4)); [done|by split]).
  rewrite <- app_assoc in Ht4. split; [by apply (typing_frame k4)|]. split; [|split].
  - split; [by rewrite (console_frame_mmu _ _ Hf'), Em4|]. split; [exact Hc'|].
    split; [|intros pa Hpa; by rewrite (cf_mem _ _ Hf' pa Hpa), Epm4].
    change (abs (send_eoi 1 (putc 10 k4))) with (abs (putc 10 k4)). rewrite Ha.
    assert (abs k4 = abs k) as ->; [|done]. unfold abs, abs_cells, cell_at, scr_x, scr_y. by rewrite Ec4, Epm4.
  - rewrite (cf_state _ _ Hf'). cbn. by rewrite Ee4.
  - rewrite (cf_state _ _ Hf'). exact Ep4.
Qed.

(** The bytes of the current terminal's buffer. *)
Definition line_byte (k : kstate) (i : Z) : Z := get8 (keyboard_buf (term_at k (disp k))) i.

(** The copy stops after the first newline, or at [num] or 127 bytes. *)
Lemma copy_line_spec buf num k m : 0 <= m <= 127 -> m <= Z.max 0 num ->
  (forall i, 0 <= i < m -> line_byte k i <> 10) ->
  (m < num /\ m < 127 /\ line_byte k m = 10 \/ m = Z.min (Z.max 0 num) 127) ->
  sep_range (vspace k) buf (m + 1) ->
  exists k', copy_line buf num k = (m, k') /\
    wrote k k' buf (if (m <? num) && (m <? 127) then m + 1 else m) (line_byte k).
Proof.
  intros Hm Hmn Hno Hend Hs. unfold copy_line.
  apply (loop_or_rule (fun '(i, k') => 0 <= i <= m /\ wrote k k' buf i (line_byte k))
    (fun '((i, _) : Z * kstate) => m - i)).
  - intros [i k'] [Hi Hw]. unfold KEYBOARDSIZE.
    assert (term_at k' (disp k') = term_at k (disp k)) as Et by (by destruct Hw as [-> _]).
    destruct ((i <? num) && (i <? 127)) eqn:Ein.
    + rewrite Et. fold (line_byte k i). set (k'' := st8 _ _ k').
      assert (term_at k'' (disp k'') = term_at k (disp k)) as -> by (by rewrite <- Et).
      fold (line_byte k i).
      assert (wrote k k'' buf (i + 1) (line_byte k)) as Hw'.
      { apply (wrote_snoc _ _ _ (m + 1)); [done|lia|apply u8_small, get8_range|done]. }
      destruct (Z.eqb_spec (line_byte k i) 10) as [E|E].
      * assert (i = m) as -> by (destruct (Z.eq_dec i m); [done|destruct (Hno i); [lia|done]]).
        exists k''. split; [done|]. by rewrite Ein.
      * destruct (Z.eq_dec i m) as [->|]; [destruct Hend as [(? & ? & ?)|?]; [done|lia]|].
        split; [|lia]. split; [lia|done].
    + assert (i = m) as -> by (destruct Hend as [(? & ? & ?)|?]; lia).
      exists k'. split; [done|]. by rewrite Ein.
  - split; [lia|apply wrote_nil].
  - lia.
Qed.

Lemma reset_line_spec k : 0 <= disp k < 3 -> control_status (kbd k) = 0 ->
  typing (reset_line k) (disp k) [] /\ (enter_read (kbd (reset_line k))).[disp k] = 0 /\
  vspace (reset_line k) = vspace k /\ buffer_enable (term_at (reset_line k) (disp k)) = 0.
Proof.
  intros Hd Hct. unfold reset_line. split_and!; [split| | |]; try done.
  - unfold index_at. simpl. by rewrite elem_same.
  - simpl. by rewrite elem_same.
  - by rewrite term_at_put.
Qed.

(** Reading a line that has been entered: its characters and one newline. *)
Lemma take_typed_line k d cs buf num :
  typing k d (cs ++ [10; 10]) -> Forall printable cs -> (length cs <= 126)%nat -> Z.of_nat (length cs) < num ->
  sep_range (vspace k) buf (Z.of_nat (length cs) + 1) ->
  exists k2, take_line buf num k = (Z.of_nat (length cs) + 1, reset_line k2) /\
    wrote k k2 buf (Z.of_nat (length cs) + 1) (fun i => default 10 (cs !! Z.to_nat i)) /\
    typing (reset_line k2) d [] /\ (enter_read (kbd (reset_line k2))).[d] = 0.
Proof.
  intros Ht Hcs Hlen Hnum Hs.
  assert (forall i, 0 <= i <= Z.of_nat (length cs) -> line_byte k i = default 10 (cs !! Z.to_nat i)) as Hbyte.
  { intros i Hi. unfold line_byte. rewrite (ty_disp _ _ _ Ht). rewrite <- (Z2Nat.id i) at 1 by lia.
    destruct (decide (Z.to_nat i < length cs)%nat) as [Hlt|Hge].
    - destruct (lookup_lt_is_Some_2 cs (Z.to_nat i) Hlt) as [c E]. rewrite E.
      apply (ty_buf _ _ _ Ht). by apply lookup_app_l_Some.
    - rewrite (lookup_ge_None_2 cs) by lia. apply (ty_buf _ _ _ Ht).
      rewrite lookup_app_r by lia. by replace (Z.to_nat i - length cs)%nat with 0%nat by lia. }
  unfold take_line.
  destruct (copy_line_spec buf num k (Z.of_nat (length cs))) as (k2 & -> & Hw); [lia|lia|..|done|].
  - intros i Hi. rewrite Hbyte by lia.
    destruct (lookup_lt_is_Some_2 cs (Z.to_nat i)) as [c E]; [lia|]. rewrite E. simpl.
    apply (Forall_lookup_1 _ _ _ _ Hcs) in E. unfold printable in E. lia.
  - left. split_and!; [lia|lia|]. rewrite Hbyte by lia. by rewrite (lookup_ge_None_2 cs) by lia.
  - replace ((Z.of_nat (length cs) <? num) && (Z.of_nat (length cs) <? 127)) with true in Hw by (symmetry; lia).
    assert (disp k2 = d /\ control_status (kbd k2) = 0) as [Ed2 Ect2].
    { destruct Hw as [-> _]. split; apply Ht. }
    destruct (reset_line_spec k2) as (Htr & Her & _ & _); [rewrite Ed2; apply Ht|done|].
    rewrite Ed2 in Htr, Her. exists k2. split; [done|]. split; [|by split]. destruct Hw as [Ho Hw]. split; [done|].
    eapply filled_ext; [|exact Hw]. intros i Hi. apply Hbyte. lia.
Qed.

(** ** Properties *)

(** The line discipline: characters typed at an idle terminal whose reader
    waits, followed by Enter, are echoed on the console, wake the reader, and
    are what [read_terminal] then gives it: the characters and one newline, the
    number of them as result; the buffer is empty again after it. *)
Theorem typed_line_is_read k d scs buf num :
  typing k d [] -> buffer_enable (term_at k d) <> 0 -> video_ident (mmu k) -> cursor_ok k ->
  Forall (fun sc => 0 <= sc < 256 /\ printable (key_char k sc)) scs ->
  (length scs <= 126)%nat -> Z.of_nat (length scs) < num ->
  sep_range (vspace k) buf (Z.of_nat (length scs) + 1) ->
  let cs := key_char k <$> scs in
  let k1 := key_plain 0x1C (press scs k) in
  echoes (cs ++ [10]) k k1 /\ (enter_read (kbd k1)).[d] = 1 /\
  exists k2, take_line buf num k1 = (Z.of_nat (length scs) + 1, k2) /\
    filled (vspace k1) (vspace k2) buf (Z.of_nat (length scs) + 1) (fun i => default 10 (cs !! Z.to_nat i)) /\
    typing k2 d [] /\ (enter_read (kbd k2)).[d] = 0.
Proof.
  intros Ht Hbe Hvi Hc Hscs Hlen Hnum Hs. cbv zeta.
  destruct (press_typing scs k d [] Hscs Ht) as (Ht1 & He1 & _ & Eb1 & _); [simpl; lia|done|done|].
  cbn [app] in Ht1. set (cs := key_char k <$> scs) in *. set (kp := press scs k) in *.
  assert (length cs = length scs) as Hcs by (unfold cs; by rewrite length_fmap).
  destruct (key_plain_enter kp d cs Ht1) as (Ht2 & He2 & Een & _);
    [lia|by rewrite (proj1 He1)|apply He1|by rewrite Eb1|].
  set (k1 := key_plain 28 kp) in *.
  split; [by apply (echoes_app _ _ _ kp)|]. split; [done|].
  destruct (take_typed_line k1 d cs buf num Ht2) as (k2 & E & [_ Hf] & Ht3 & Her); rewrite ?Hcs; try done.
  - unfold cs. rewrite Forall_fmap. eapply Forall_impl; [exact Hscs|]. by intros ? [].
  - assert (mmu k1 = mmu k) as Em by (destruct He2 as (-> & _); apply He1).
    unfold vspace. by rewrite Em.
  - rewrite Hcs in E, Hf. by exists (reset_line k2).
Qed.

(** When no newline comes within the first [num] bytes of the buffer, the
    [num] bytes are copied and [read_terminal] returns [num + 1]. *)
Theorem long_line_count buf num k :
  0 <= num <= 127 -> (forall i, 0 <= i < num -> line_byte k i <> 10) ->
  sep_range (vspace k) buf (num + 1) ->
  exists k', take_line buf num k = (num + 1, k') /\ filled (vspace k) (vspace k') buf num (line_byte k).
Proof.
  intros Hn Hno Hs. unfold take_line.
  destruct (copy_line_spec buf num k num) as (k' & -> & Hw); [lia|lia|done|right; lia|done|].
  exists (reset_line k'). split; [done|]. replace ((num <? num) && (num <? 127)) with false in Hw by (symmetry; lia).
  apply Hw.
Qed.

(** C39: the buffer has no bound above, and the one below is not the line's own. The
    129th key of a line is stored in the terminal's [terminal_flag]. A backspace
    does nothing while the count of printed characters, which is one for all
    terminals, is 0. While it is not, as with a line begun on another terminal, a
    backspace at index 0 clears the byte before the buffer, the high byte of
    [screen_y], and the index becomes -1: what is meant to test the index tests
    the address of the array. *)
Theorem keyboard_buffer_overflow k d c :
  0 <= d < 3 -> disp k = d -> printable c ->
  (index_at k d = 128 -> terminal_flag (term_at (key_typed c k) d) = c) /\
  (number_printed_line (kbd k) = 0 -> key_noprint 8 k = send_eoi 1 k) /\
  (index_at k d = 0 -> number_printed_line (kbd k) <> 0 ->
     index_at (key_noprint 8 k) d = -1 /\
     term_screen_y (term_at (key_noprint 8 k) d) = set_byte (term_screen_y (term_at k d)) 3 0).
Proof.
  intros Hd Hdi Hp. unfold printable in Hp. split; [|split].
  - intros Hi. unfold key_typed. test_true (negb (c =? 0) && negb (c =? 8)). cbv iota zeta.
    rewrite Hdi, Hi, store_key_flag by done. set (k1 := put_term d _ k). rewrite putc_con_only.
    change (terminal_flag (term_at k1 d) = c). unfold k1. rewrite term_at_put. apply u8_small. lia.
  - intros Hn. unfold key_noprint. by rewrite Hn.
  - intros Hi Hn. unfold key_noprint. change (8 =? 8) with true. cbv iota.
    rewrite (proj2 (Z.eqb_neq _ _) Hn). change (negb false) with true. cbv iota zeta.
    rewrite Hdi, Hi. change (0 - 1) with (-1). rewrite store_key_below by done. set (k1 := put_term d _ k).
    rewrite putc_con_only. split.
    + change ((<[d := index_at k1 d - 1]> (index (kbd k1))).[d] = -1). rewrite elem_same.
      change (index_at k1 d) with (index_at k d). lia.
    + change (term_screen_y (term_at k1 d) = set_byte (term_screen_y (term_at k d)) 3 0).
      unfold k1. by rewrite term_at_put.
Qed.

(** C32: the modifier keys: after [init_keyboard] and any sequence of scan codes,
    the table characters are looked up in and the flags of the driver are those
    of the caps lock, shift, control and alt states the sequence leads to. *)
Theorem key_status_modifiers scs k : alt_status (kbd k) = 0 ->
  modifiers_ok (fold_left (fun s sc => key_status sc s) scs (kbd (init_keyboard k)))
    (fold_left Modifiers.step scs Modifiers.start).
Proof.
  intros Hal. assert (modifiers_ok (kbd (init_keyboard k)) Modifiers.start) as H0.
  { unfold init_keyboard. set (k0 := _ <| kbd; is_alphabet := 0 |>).
    assert (kbd (for_loop 0 3 (fun i k => put_term i ((term_at k i)
      <| keyboard_buf := memset 0 0 128 (keyboard_buf (term_at k i)) |>) k) k0) = kbd k0) as E.
    { by apply (for_loop_rule (fun _ k' => kbd k' = kbd k0)). }
    revert E. generalize (for_loop 0 3 (fun i k => put_term i ((term_at k i)
      <| keyboard_buf := memset 0 0 128 (keyboard_buf (term_at k i)) |>) k) k0) as k1. intros k1 E.
    change (kbd (enable_irq 1 (set_printed 0 k1))) with ((kbd k1) <| number_printed_line := 0 |>).
    rewrite E. repeat split; done. }
  revert H0. generalize (kbd (init_keyboard k)) as s. generalize Modifiers.start as m.
  induction scs as [|sc scs IH]; intros m s Hs; [done|]. cbn [fold_left]. by apply IH, key_status_step.
Qed.

(** The four tables agree: for every scan code, caps lock upper-cases the
    letters of the plain table and nothing else, shift with caps lock
    lower-cases those of the shift table, and the letters of the shift table are
    those of the caps-lock table. *)
Theorem key_tables_agree sc : 0 <= sc < 256 ->
  let at_ t := key_at t sc in
  at_ Caps = (if (97 <=? at_ Lower) && (at_ Lower <=? 122) then at_ Lower - 32 else at_ Lower) /\
  at_ Lowershift = (if (65 <=? at_ Uppershift) && (at_ Uppershift <=? 90) then at_ Uppershift + 32 else at_ Uppershift) /\
  ((65 <=? at_ Caps) && (at_ Caps <=? 90) = true -> at_ Uppershift = at_ Caps).
Proof.
  intros Hsc. cbv zeta.
  pose proof (range_check (fun sc =>
    let at_ t := key_at t sc in
    (at_ Caps =? (if (97 <=? at_ Lower) && (at_ Lower <=? 122) then at_ Lower - 32 else at_ Lower)) &&
    (at_ Lowershift =? (if (65 <=? at_ Uppershift) && (at_ Uppershift <=? 90) then at_ Uppershift + 32 else at_ Uppershift)) &&
    implb ((65 <=? at_ Caps) && (at_ Caps <=? 90)) (at_ Uppershift =? at_ Caps)) 0 256
    ltac:(vm_compute; reflexivity) sc Hsc) as E.
  cbv beta zeta in E. apply andb_true_iff in E as [E E3]. apply andb_true_iff in E as [E1 E2].
  split; [by apply Z.eqb_eq|]. split; [by apply Z.eqb_eq|]. intros Hu. rewrite Hu in E3. by apply Z.eqb_eq.
Qed.
End lines.

(** ** Concrete runs: "hi" typed at terminal 0, whose reader waits *)

Definition reading_state : kstate :=
  put_term 0 (terminal_zero <| buffer_enable := 1 |>) zero_state.

Lemma reading_typing : typing reading_state 0 [].
Proof. by split. Qed.

Lemma typed_line_is_read_witness :
  let k1 := @key_plain quiet_platform 0x1C (@press quiet_platform [0x23; 0x17] reading_state) in
  exists k2, @take_line quiet_platform 0x1000 10 k1 = (3, k2).
Proof.
  destruct (@typed_line_is_read quiet_platform reading_state 0 [0x23; 0x17] 0x1000 10) as (_ & _ & k2 & E & _).
  - apply reading_typing.
  - done.
  - by apply @video_ident_unpaged.
  - done.
  - by repeat constructor.
  - simpl. lia.
  - done.
  - by apply @sep_unpaged.
  - by exists k2.
Defined.

Lemma long_line_count_witness :
  exists k', @take_line quiet_platform 0x1000 5 reading_state = (6, k').
Proof.
  destruct (@long_line_count quiet_platform 0x1000 5 reading_state) as (k' & E & _);
    [done|done|by apply @sep_unpaged|by exists k'].
Defined.

Lemma keyboard_buffer_overflow_witness :
  terminal_flag (term_at (@key_typed quiet_platform 65 (set_index 0 128 zero_state)) 0) = 65 /\
  let k := (@key_typed quiet_platform 65 zero_state) <| kbd; disp_term_k := 1 |> in index_at (@key_noprint quiet_platform 8 k) 1 = -1.
Proof.
  split; [apply (@keyboard_buffer_overflow quiet_platform (set_index 0 128 zero_state) 0 65); done|].
  apply (@keyboard_buffer_overflow quiet_platform ((@key_typed quiet_platform 65 zero_state) <| kbd; disp_term_k := 1 |>) 1 65); by vm_compute.
Defined.

Lemma key_status_modifiers_witness :
  modifiers_ok (fold_left (fun s sc => key_status sc s) [0x3A; 0x2A] (kbd (@init_keyboard zero_state)))
    (fold_left Modifiers.step [0x3A; 0x2A] Modifiers.start).
Proof. apply (@key_status_modifiers [0x3A; 0x2A] zero_state). done. Defined.

Lemma key_tables_agree_witness :
  key_at Caps 0x23 = 72.
Proof. destruct (key_tables_agree 0x23) as [E _]; [done|exact E]. Defined.
