(* ===== verification/Descriptors.v ===== *)
(** The open files of a process (syscall.c): the jump tables, [open], [close]
    and [getargs], over the descriptor array of the current PCB.

    The PCB of a process is the record at the bottom of its kernel stack. A
    call through a jump table goes to the function the table names; a call
    through a null entry is outside the meaning of the program. *)

From Stdlib Require Import String.
From S2P Require Import Prelude Bytes CString CMem State Rtc Filesys.
#[local] Open Scope Z_scope.
#[local] Open Scope kernel_scope.

Definition NOT_USED := 0.
Definition USED := 1.
Definition RTC_FILETYPE := 0.
Definition DIR_FILETYPE := 1.
Definition REG_FILETYPE := 2.

Section descriptors.
Context `{Platform}.

(** ** State accessors *)
Definition upd_pcb (a : Z) (f : pcb_t -> pcb_t) (k : kstate) : kstate := put_pcb a (f (pcb_at k a)) k.
Definition upd_fd (a i : Z) (f : file_descriptor_t -> file_descriptor_t) (k : kstate) : kstate :=
  upd_pcb a (fun p => put_fd i (f (fd_at p i)) p) k.
Definition upd_term (d : Z) (f : terminal_t -> terminal_t) (k : kstate) : kstate := put_term d (f (term_at k d)) k.
Definition active (k : kstate) : Z := active_terminal (procs k).
Definition cur_pcb (k : kstate) : pcb_t := pcb_at k (get_pcb k).
Definition proc_used (k : kstate) (i : Z) : Z := (pcb_state (procs k)).[i].
Definition set_proc_used (i v : Z) (k : kstate) : kstate :=
  k <| procs; pcb_state := <[i := v]> (pcb_state (procs k)) |>.
Definition processes_at (k : kstate) (d i : Z) : Z := (processes (term_at k d)).[i].
Definition set_processes (d i v : Z) (k : kstate) : kstate :=
  upd_term d (fun t => t <| processes := <[i := s8 v]> (processes t) |>) k.
Definition set_terminal_shell (d v : Z) (k : kstate) : kstate :=
  k <| procs; terminal_shell := <[d := s8 v]> (terminal_shell (procs k)) |>.

(** syscall.c [tables_init]. *)
Definition tables_init (k : kstate) : kstate :=
  k <| procs; tables := JumpTables
    (FileOperations Fn_file_open Fn_file_close Fn_file_read Fn_file_write)
    (FileOperations Fn_directory_open Fn_directory_close Fn_directory_read Fn_directory_write)
    (FileOperations Fn_open_rtc Fn_close_rtc Fn_read_rtc Fn_write_rtc)
    (FileOperations Fn_write_failure Fn_write_failure Fn_read_terminal Fn_write_failure)
    (FileOperations Fn_read_failure Fn_read_failure Fn_read_failure Fn_write_terminal) |>.

(** The table a [fops_ptr] points to. *)
Definition ops_at (k : kstate) (r : fops_ref) : file_operations_t :=
  match r with
  | FopsNull => fops_zero
  | FopsFiles => files_table (tables (procs k))
  | FopsDirectory => directory_table (tables (procs k))
  | FopsRtc => rtc_table (tables (procs k))
  | FopsStdin => stdin_table (tables (procs k))
  | FopsStdout => stdout_table (tables (procs k))
  end.

(** Calls through a table's [open] and [close]. *)
Definition call_open (f : fn) : M Z :=
  match f with
  | Fn_file_open => run file_open
  | Fn_directory_open => run directory_open
  | Fn_open_rtc => run open_rtc
  | Fn_read_failure | Fn_write_failure => ret (-1)
  | _ => undef StrayCall
  end.
Definition call_close (f : fn) (fd : Z) : M Z :=
  match f with
  | Fn_file_close => run (file_close fd)
  | Fn_directory_close => run (directory_close fd)
  | Fn_close_rtc => run (close_rtc fd)
  | Fn_read_failure | Fn_write_failure => ret (-1)
  | _ => undef StrayCall
  end.

(** syscall.c [ret_active_term]. *)
Definition ret_active_term (k : kstate) : Z := active k.

(** ** Opening and closing files *)

(** The search of [open] for a free descriptor from 2 on. *)
Definition free_fd (p : pcb_t) : Z :=
  loop_or 8 7 (fun i => if i <=? 7 then
                          if flags (fd_at p i) =? NOT_USED then inr i else inl (i + 1)
                        else inr i) 2.

(** The body of the [switch] of [open]: [None] is its [default] case. *)
Definition open_fd (pcb i file_type ino : Z) (k : kstate) : option kstate :=
  if file_type =? RTC_FILETYPE then
    Some (upd_fd pcb i (fun d => d <| inode := 0 |> <| flags := 1 |> <| fops_ptr := FopsRtc |>) k)
  else if file_type =? DIR_FILETYPE then
    Some (upd_fd pcb i (fun d => d <| inode := 0 |> <| flags := 1 |> <| fops_ptr := FopsDirectory |>) k)
  else if file_type =? REG_FILETYPE then
    Some (upd_fd pcb i (fun d => d <| inode := u32 ino |> <| flags := 1 |> <| fops_ptr := FopsFiles |>
                                   <| file_pos := 0 |>) k)
  else None.

(** syscall.c [open]. *)
Definition open (filename : Z) : M Z :=
  k <- get ;
  if (filename =? 0) || (ld8 k filename =? 0) then ret FAILURE
  else
    match read_dentry_by_name (fun i => ld8 k (filename + i)) (Dentry ∅ 0 0) k with
    | None => hang
    | Some (r, dentry_to_open) =>
        if r =? FAILURE then ret FAILURE
        else
          let pcb := get_pcb k in
          let i := free_fd (pcb_at k pcb) in
          if i =? 8 then ret FAILURE
          else if negb (flags (fd_at (pcb_at k pcb) i) =? USED) then
            match open_fd pcb i (filetype dentry_to_open) (inode_num dentry_to_open) k with
            | None => ret FAILURE
            | Some k =>
                modify (fun _ => k) ;;
                k <- get ;
                r <- call_open (op_open (ops_at k (fops_ptr (fd_at (pcb_at k pcb) i)))) ;
                if r =? -1 then ret FAILURE else ret i
            end
          else ret i
    end.

(** syscall.c [close]. *)
Definition close (fd : Z) : M Z :=
  k <- get ;
  let pcb := get_pcb k in
  if (fd <? 0) || (7 <? fd) || (fd =? 1) || (fd =? 0) then ret FAILURE
  else if negb (flags (fd_at (pcb_at k pcb) fd) =? 0) then
    modify (upd_fd pcb fd (fun d => d <| flags := NOT_USED |> <| file_pos := 0 |> <| inode := 0 |>)) ;;
    k <- get ;
    call_close (op_close (ops_at k (fops_ptr (fd_at (pcb_at k pcb) fd)))) fd ;;
    ret SUCCESS
  else ret FAILURE.

(** syscall.c [getargs]; the array [args] is never the null pointer. *)
Definition getargs (buf nbytes : Z) : M Z :=
  k <- get ;
  if (buf =? 0) || (nbytes <=? 0) then ret FAILURE
  else
    let args_to_copy := fun i => get8 (args (cur_pcb k)) i in
    match strlen args_to_copy with
    | None => hang
    | Some len =>
        if nbytes <? u32 (len + 1) then ret FAILURE
        else
          match strcpy buf (fun _ => args_to_copy) (vspace k) with
          | None => hang
          | Some a => modify (set_vspace a) ;; ret SUCCESS
          end
    end.
End descriptors.

(** ** Accessor laws *)

Section accessors.
Context `{Platform}.

Lemma pcb_at_put a b p k : pcb_at (put_pcb a p k) b = if a =? b then p else pcb_at k b.
Proof.
  unfold pcb_at, put_pcb. simpl. destruct (Z.eqb_spec a b) as [->|].
  - by rewrite lookup_insert_eq.
  - by rewrite lookup_insert_ne.
Qed.
Lemma pcb_at_upd a b f k : pcb_at (upd_pcb a f k) b = if a =? b then f (pcb_at k a) else pcb_at k b.
Proof. apply pcb_at_put. Qed.
Lemma fd_at_put i j d p : fd_at (put_fd i d p) j = if i =? j then d else fd_at p j.
Proof.
  unfold fd_at, put_fd. simpl. destruct (Z.eqb_spec i j) as [->|].
  - by rewrite lookup_insert_eq.
  - by rewrite lookup_insert_ne.
Qed.
Lemma term_at_upd d e f k : term_at (upd_term d f k) e = if d =? e then f (term_at k d) else term_at k e.
Proof.
  unfold upd_term, term_at at 1, put_term. simpl. destruct (Z.eqb_spec d e) as [->|].
  - by rewrite lookup_insert_eq.
  - by rewrite lookup_insert_ne.
Qed.
Lemma processes_at_set d i v e j k :
  processes_at (set_processes d i v k) e j =
    if (d =? e) && (i =? j) then s8 v else processes_at k e j.
Proof.
  unfold processes_at, set_processes. rewrite term_at_upd. destruct (Z.eqb_spec d e) as [->|]; [|done].
  cbn [andb]. simpl. by rewrite elem_insert.
Qed.
Lemma proc_used_set i v j k : proc_used (set_proc_used i v k) j = if i =? j then v else proc_used k j.
Proof. unfold proc_used, set_proc_used. simpl. apply elem_insert. Qed.

(** A descriptor of the current process, after one of them was updated. *)
Lemma cur_fd_upd i j f k :
  cur_fd j (upd_fd (get_pcb k) i f k) = if i =? j then f (cur_fd i k) else cur_fd j k.
Proof.
  unfold cur_fd, upd_fd. change (get_pcb (upd_pcb _ _ _)) with (get_pcb k).
  rewrite pcb_at_upd, Z.eqb_refl. apply fd_at_put.
Qed.
End accessors.
#[export] Hint Rewrite @pcb_at_put @pcb_at_upd @fd_at_put @term_at_upd @processes_at_set @proc_used_set
  @cur_fd_upd : kernel.

(** ** Well-formed descriptor tables *)

Section wf.
Context `{Platform}.

(** The tables [tables_init] leaves. *)
Definition tables_ready (k : kstate) : Prop := tables (procs k) = tables (procs (tables_init k)).

(** Standard input and output are in use, and a descriptor in use from 2 on
    goes to one of the three tables [open] selects. *)
Record fds_wf (k : kstate) : Prop := {
  fw_stdin : flags (cur_fd 0 k) = 1 /\ fops_ptr (cur_fd 0 k) = FopsStdin;
  fw_stdout : flags (cur_fd 1 k) = 1 /\ fops_ptr (cur_fd 1 k) = FopsStdout;
  fw_rest : forall i, 2 <= i < 8 -> flags (cur_fd i k) = 0 \/
       (flags (cur_fd i k) = 1 /\ fops_ptr (cur_fd i k) ∈ [FopsRtc; FopsDirectory; FopsFiles])
}.

(** The table [open] selects for a file type. *)
Definition fops_for (t : Z) : fops_ref :=
  if t =? 0 then FopsRtc else if t =? 1 then FopsDirectory else FopsFiles.

Lemma fops_for_table t : fops_for t ∈ [FopsRtc; FopsDirectory; FopsFiles].
Proof. unfold fops_for. repeat case_match; repeat constructor. Qed.

Lemma free_fd_spec p :
  let i := free_fd p in
  2 <= i <= 8 /\ (forall j, 2 <= j < i -> flags (fd_at p j) <> 0) /\ (i < 8 -> flags (fd_at p i) = 0).
Proof.
  cbv zeta. unfold free_fd. apply (loop_or_rule
    (fun i => 2 <= i <= 8 /\ forall j, 2 <= j < i -> flags (fd_at p j) <> 0) (fun i => 8 - i)).
  - intros i [Hi Hno]. destruct (Z.leb_spec i 7); [|split_and!; (done || lia)].
    unfold NOT_USED. destruct (Z.eqb_spec (flags (fd_at p i)) 0).
    + split_and!; (done || lia).
    + split; [|lia]. split; [lia|]. intros j Hj. destruct (Z.eq_dec j i) as [->|]; [done|apply Hno; lia].
  - split; lia.
  - lia.
Qed.

Lemma free_fd_first p i : 2 <= i < 8 -> flags (fd_at p i) = 0 ->
  (forall j, 2 <= j < i -> flags (fd_at p j) <> 0) -> free_fd p = i.
Proof.
  intros Hi H0 Hno. destruct (free_fd_spec p) as (H1 & H2 & H3). cbv zeta in *.
  destruct (Z.lt_trichotomy (free_fd p) i) as [Hlt|[E|Hgt]]; [|done|].
  - exfalso. apply (Hno (free_fd p)); [lia|apply H3; lia].
  - exfalso. apply (H2 i); [lia|done].
Qed.
End wf.

(** ** [open] and [close], case by case *)

Section cases.
Context `{Platform}.

(** The descriptor [open] sets up, and what the [open] of its table does. *)
Definition opened (t ino : Z) (d : file_descriptor_t) : file_descriptor_t :=
  FileDescriptor (fops_for t) (if t =? 2 then u32 ino else 0)
    (if t =? 2 then 0 else file_pos d) 1.
Definition open_effect (t : Z) (k : kstate) : kstate :=
  if t =? 0 then (open_rtc k).2 else if t =? 1 then (directory_open k).2 else k.

(** The string at [filename] is not empty, and the directory has [r] for it. *)
Definition lookup_file (filename : Z) (r : Z * dentry_t) (k : kstate) : Prop :=
  filename <> 0 /\ ld8 k filename <> 0 /\
  read_dentry_by_name (fun i => ld8 k (filename + i)) (Dentry ∅ 0 0) k = Some r.

Lemma open_fd_opened pcb i t ino k : 0 <= t <= 2 ->
  open_fd pcb i t ino k = Some (upd_fd pcb i (opened t ino) k).
Proof. intros Ht. assert (t = 0 \/ t = 1 \/ t = 2) as [-> | [-> | ->]] by lia; done. Qed.
Lemma open_fd_unknown pcb i t ino k : ~ 0 <= t <= 2 -> open_fd pcb i t ino k = None.
Proof.
  intros Ht. unfold open_fd, RTC_FILETYPE, DIR_FILETYPE, REG_FILETYPE.
  test_false (t =? 0). test_false (t =? 1). by test_false (t =? 2).
Qed.

(** The call through the table just installed. *)
Lemma call_open_for t k : 0 <= t <= 2 -> tables_ready k ->
  exists r, call_open (op_open (ops_at k (fops_for t))) k = Ret r (open_effect t k) /\ r = 0.
Proof.
  intros Ht Hr. unfold ops_at, fops_for. rewrite Hr.
  assert (t = 0 \/ t = 1 \/ t = 2) as [-> | [-> | ->]] by lia; by eexists.
Qed.

Lemma open_found filename d k : tables_ready k -> lookup_file filename (SUCCESS, d) k ->
  0 <= filetype d <= 2 -> let i := free_fd (cur_pcb k) in i < 8 ->
  open filename k =
    Ret i (open_effect (filetype d) (upd_fd (get_pcb k) i (opened (filetype d) (inode_num d)) k)).
Proof.
  intros Hr (Hn & Hc & Hl) Ht i Hi. unfold open. rewrite bind_get.
  test_false ((filename =? 0) || (ld8 k filename =? 0)). rewrite Hl. change (SUCCESS =? FAILURE) with false.
  cbv iota zeta. fold (cur_pcb k). change (free_fd (cur_pcb k)) with i.
  destruct (free_fd_spec (cur_pcb k)) as (Hi1 & _ & Hi0). fold i in Hi1, Hi0. specialize (Hi0 Hi).
  test_false (i =? 8). rewrite Hi0. change (negb (0 =? USED)) with true. cbv iota.
  rewrite open_fd_opened by done. set (k1 := upd_fd _ _ _ k).
  rewrite bind_modify, bind_get. cbv beta.
  assert (fops_ptr (fd_at (pcb_at k1 (get_pcb k)) i) = fops_for (filetype d)) as ->.
  { subst k1. unfold upd_fd. by rewrite pcb_at_upd, Z.eqb_refl, fd_at_put, Z.eqb_refl. }
  unfold bind. destruct (call_open_for (filetype d) k1 Ht Hr) as (r & -> & ->). done.
Qed.

Lemma open_fails filename r d k : lookup_file filename (r, d) k ->
  r = FAILURE \/ (r = SUCCESS /\ (free_fd (cur_pcb k) = 8 \/ ~ 0 <= filetype d <= 2)) ->
  open filename k = Ret FAILURE k.
Proof.
  intros (Hn & Hc & Hl) Hcase. unfold open. rewrite bind_get.
  test_false ((filename =? 0) || (ld8 k filename =? 0)). rewrite Hl.
  destruct Hcase as [->|[-> Hcase]]; [done|]. change (SUCCESS =? FAILURE) with false.
  cbv iota zeta. fold (cur_pcb k). destruct (Z.eqb_spec (free_fd (cur_pcb k)) 8) as [E|E]; [done|].
  destruct (free_fd_spec (cur_pcb k)) as (Hi1 & _ & Hi0). rewrite Hi0 by lia.
  change (negb (0 =? USED)) with true. cbv iota. destruct Hcase as [?|Hcase]; [done|].
  by rewrite open_fd_unknown.
Qed.

Lemma open_null filename k : filename = 0 \/ ld8 k filename = 0 -> open filename k = Ret FAILURE k.
Proof.
  intros Hc. unfold open. rewrite bind_get. by test_true ((filename =? 0) || (ld8 k filename =? 0)).
Qed.

(** What [open] can do. *)
Lemma open_cases filename k : tables_ready k ->
  open filename k = Ret FAILURE k \/ open filename k = Hang k \/
  exists t ino, let i := free_fd (cur_pcb k) in
    0 <= t <= 2 /\ 2 <= i < 8 /\
    open filename k = Ret i (open_effect t (upd_fd (get_pcb k) i (opened t ino) k)).
Proof.
  intros Hr. destruct (decide (filename = 0 \/ ld8 k filename = 0)) as [Hn|Hn];
    [left; by apply open_null|].
  destruct (read_dentry_by_name (fun i => ld8 k (filename + i)) (Dentry ∅ 0 0) k) as [[r d]|] eqn:El.
  2: { right. left. unfold open. rewrite bind_get.
       test_false ((filename =? 0) || (ld8 k filename =? 0)). by rewrite El. }
  assert (lookup_file filename (r, d) k) as Hl by (unfold lookup_file; split_and!; [lia|lia|done]).
  destruct (decide (r = FAILURE)) as [->|Hf]; [left; eapply open_fails; [done|by left]|].
  assert (r = SUCCESS) as ->.
  { revert El. unfold read_dentry_by_name. destruct (strlen _); [|done]. intros [= E].
    revert E. case_test; [congruence|]. apply (loop_or_rule
      (fun i => 0 <= i <= 63) (fun i => 63 - i)
      (fun x => x = (r, d) -> r = SUCCESS)); [|lia|lia].
    intros i Hi. unfold NUM_MAX_DENTRIES. case_tests; congruence. }
  destruct (free_fd_spec (cur_pcb k)) as (Hi & _ & _). cbv zeta in Hi.
  destruct (decide (free_fd (cur_pcb k) = 8 \/ ~ 0 <= filetype d <= 2)) as [Hc|Hc].
  - left. eapply open_fails; [done|]. right. split; done.
  - right. right. exists (filetype d), (inode_num d). split_and!; [lia..|].
    apply open_found; (done || lia).
Qed.

(** A descriptor as [close] leaves it. *)
Definition closed (d : file_descriptor_t) : file_descriptor_t :=
  FileDescriptor (fops_ptr d) 0 0 0.

Lemma close_open_fd fd k : tables_ready k -> 2 <= fd < 8 -> flags (cur_fd fd k) <> 0 ->
  fops_ptr (cur_fd fd k) ∈ [FopsRtc; FopsDirectory; FopsFiles] ->
  close fd k = Ret SUCCESS (upd_fd (get_pcb k) fd closed k).
Proof.
  intros Hr Hfd Hf Hops. unfold close. rewrite bind_get. cbv zeta.
  test_false ((fd <? 0) || (7 <? fd) || (fd =? 1) || (fd =? 0)). fold (cur_fd fd k).
  test_true (negb (flags (cur_fd fd k) =? 0)). set (k1 := upd_fd (get_pcb k) fd closed k).
  rewrite bind_modify, bind_get. change (upd_fd (get_pcb k) fd _ k) with k1. cbv beta.
  assert (fops_ptr (fd_at (pcb_at k1 (get_pcb k)) fd) = fops_ptr (cur_fd fd k)) as ->.
  { subst k1. unfold upd_fd. by rewrite pcb_at_upd, Z.eqb_refl, fd_at_put, Z.eqb_refl. }
  unfold ops_at. change (tables (procs k1)) with (tables (procs k)). rewrite Hr.
  set_unfold. destruct Hops as [-> | [-> | [-> | []]]]; done.
Qed.

Lemma close_fails fd k : ~ 2 <= fd < 8 \/ flags (cur_fd fd k) = 0 -> close fd k = Ret FAILURE k.
Proof.
  intros Hc. unfold close. rewrite bind_get. cbv zeta. fold (cur_fd fd k).
  destruct (decide (2 <= fd < 8)) as [Hfd|Hfd].
  - test_false ((fd <? 0) || (7 <? fd) || (fd =? 1) || (fd =? 0)).
    by test_false (negb (flags (cur_fd fd k) =? 0)).
  - by test_true ((fd <? 0) || (7 <? fd) || (fd =? 1) || (fd =? 0)).
Qed.
End cases.

(** ** Properties of [open] and [close] *)

Section properties.
Context `{Platform}.

Lemma cur_fd_effect t i k : cur_fd i (open_effect t k) = cur_fd i k.
Proof. unfold open_effect. by repeat case_match. Qed.
Lemma tables_effect t k : tables_ready k -> tables_ready (open_effect t k).
Proof. unfold open_effect. by repeat case_match. Qed.

(** The invariant: well-formed descriptors under initialised tables. *)
Definition fds_ok (k : kstate) : Prop := fds_wf k /\ tables_ready k.

Lemma fds_ok_upd i f k : fds_ok k -> 2 <= i < 8 ->
  (flags (f (cur_fd i k)) = 0 \/ (flags (f (cur_fd i k)) = 1 /\
     fops_ptr (f (cur_fd i k)) ∈ [FopsRtc; FopsDirectory; FopsFiles])) ->
  fds_ok (upd_fd (get_pcb k) i f k).
Proof.
  intros [[H0 H1 Hrest] Hr] Hi Hf. split; [|done]. split.
  - rewrite cur_fd_upd. by test_false (i =? 0).
  - rewrite cur_fd_upd. by test_false (i =? 1).
  - intros j Hj. rewrite cur_fd_upd. destruct (Z.eqb_spec i j) as [->|]; [done|by apply Hrest].
Qed.

(** The file calls of a program, in order. *)
Inductive file_call := Open (filename : Z) | Close (fd : Z).
Definition run_call (c : file_call) : M Z :=
  match c with Open filename => open filename | Close fd => close fd end.
Fixpoint run_calls (cs : list file_call) : M (list Z) :=
  match cs with
  | [] => ret []
  | c :: cs => r <- run_call c ; rs <- run_calls cs ; ret (r :: rs)
  end.

(** The results of a call: a failure, a descriptor from 2 on, or success. *)
Definition call_result (c : file_call) (r : Z) : Prop :=
  r = FAILURE \/ match c with Open _ => 2 <= r < 8 | Close _ => r = SUCCESS end.

Lemma run_call_ok c k : fds_ok k ->
  run_call c k = Hang k \/ exists r k', run_call c k = Ret r k' /\ fds_ok k' /\ call_result c r.
Proof.
  intros Hok. destruct (Hok) as [Hwf Hr]. destruct c as [filename|fd]; cbn [run_call].
  - destruct (open_cases filename k Hr) as [E|[E|(t & ino & Ht & Hi & E)]]; rewrite E.
    + right. exists FAILURE, k. split; [done|]. split; [done|by left].
    + by left.
    + right. eexists _, _. split; [done|]. split; [|right; exact Hi].
      assert (fds_ok (upd_fd (get_pcb k) (free_fd (cur_pcb k)) (opened t ino) k)) as [[F0 F1 F2] Fr].
      { apply fds_ok_upd; [done|done|]. right. split; [done|]. apply fops_for_table. }
      split; [|by apply tables_effect].
      split; [by rewrite cur_fd_effect..|]. intros j Hj. rewrite cur_fd_effect. by apply F2.
  - right. destruct (decide (2 <= fd < 8)) as [Hfd|Hfd].
    2: { rewrite close_fails by (by left). exists FAILURE, k. split; [done|]. split; [done|by left]. }
    destruct (fw_rest _ Hwf fd Hfd) as [E|[E Hops]].
    + rewrite close_fails by (by right). exists FAILURE, k. split; [done|]. split; [done|by left].
    + rewrite close_open_fd by (done || congruence). eexists _, _. split; [done|].
      split; [|by right]. apply fds_ok_upd; [done|done|]. by left.
Qed.

(** C18: any sequence of [open]s and [close]s, on any names and any descriptor
    numbers, keeps the descriptor table well-formed: 0 and 1 stay standard
    input and output, and what is open from 2 on goes to one of the three
    file tables. No call goes through a null pointer; each fails, returns a
    descriptor from 2 to 7 or succeeds, or spins on a name that no NUL ends. *)
Theorem file_calls_keep_descriptors cs k : fds_ok k ->
  match run_calls cs k with
  | Ret rs k' => fds_ok k' /\ Forall2 call_result cs rs
  | Hang k' => fds_ok k'
  | _ => False
  end.
Proof.
  revert k. induction cs as [|c cs IH]; intros k Hok; cbn [run_calls]; [by split; [|constructor]|].
  unfold bind at 1. destruct (run_call_ok c k Hok) as [->|(r & k1 & -> & Hok1 & Hr)]; [done|].
  unfold bind. specialize (IH k1 Hok1). destruct (run_calls cs k1); [|done..].
  destruct IH as [? ?]. split; [done|by constructor].
Qed.

(** [open] of a name the directory has, with a descriptor left, returns
    the lowest free one from 2 on, in use and going to the table of the
    file's type; for a regular file it names the inode, at position 0. No
    other descriptor changes. *)
Theorem open_lowest_descriptor filename d i k :
  tables_ready k -> lookup_file filename (SUCCESS, d) k -> 0 <= filetype d <= 2 ->
  2 <= i < 8 -> flags (cur_fd i k) = 0 -> (forall j, 2 <= j < i -> flags (cur_fd j k) <> 0) ->
  exists k', open filename k = Ret i k' /\
    flags (cur_fd i k') = 1 /\ fops_ptr (cur_fd i k') = fops_for (filetype d) /\
    (filetype d = 2 -> inode (cur_fd i k') = u32 (inode_num d) /\ file_pos (cur_fd i k') = 0) /\
    forall j, j <> i -> cur_fd j k' = cur_fd j k.
Proof.
  intros Hr Hl Ht Hi H0 Hno.
  assert (free_fd (cur_pcb k) = i) as Ei by (by apply free_fd_first).
  pose proof (open_found filename d k Hr Hl Ht) as Eo. cbv zeta in Eo. rewrite Ei in Eo.
  eexists. split.
  - apply Eo. lia.
  - rewrite cur_fd_effect, cur_fd_upd, Z.eqb_refl. split_and!; [done|done| |].
    + intros E. simpl. by rewrite E.
    + intros j Hj. rewrite cur_fd_effect, cur_fd_upd. by test_false (i =? j).
Qed.

(** [open] fails, and changes nothing, on the null pointer, an empty name,
    a name the directory does not have, when descriptors 2 to 7 are all in
    use, and on a file of no known type. *)
Theorem open_failures filename k :
  filename = 0 \/ ld8 k filename = 0 \/ (exists d, lookup_file filename (FAILURE, d) k) \/
    (exists d, lookup_file filename (SUCCESS, d) k /\
       ((forall i, 2 <= i < 8 -> flags (cur_fd i k) <> 0) \/ ~ 0 <= filetype d <= 2)) ->
  open filename k = Ret FAILURE k.
Proof.
  intros [E|[E|[(d & Hl)|(d & Hl & Hc)]]]; [apply open_null; by left|apply open_null; by right| |].
  - eapply open_fails; [done|by left].
  - eapply open_fails; [done|]. right. split; [done|]. destruct Hc as [Hall|?]; [left|by right].
    destruct (free_fd_spec (cur_pcb k)) as (Hi & _ & H0). cbv zeta in *.
    destruct (Z.lt_ge_cases (free_fd (cur_pcb k)) 8) as [Hlt|]; [|lia].
    exfalso. by apply (Hall (free_fd (cur_pcb k))); [lia|apply H0].
Qed.

(** [close] of an open descriptor succeeds and frees it, with position and
    inode cleared, and no other changes; of 0, 1, a number outside the
    table, or a descriptor not in use it fails and changes nothing. *)
Theorem close_frees_descriptor fd k : fds_ok k ->
  if decide (2 <= fd < 8 /\ flags (cur_fd fd k) <> 0) then
    exists k', close fd k = Ret SUCCESS k' /\ flags (cur_fd fd k') = 0 /\
      file_pos (cur_fd fd k') = 0 /\ inode (cur_fd fd k') = 0 /\
      forall j, j <> fd -> cur_fd j k' = cur_fd j k
  else close fd k = Ret FAILURE k.
Proof.
  intros [Hwf Hr]. case_decide as Hc.
  - destruct Hc as [Hfd Hf]. destruct (fw_rest _ Hwf fd Hfd) as [?|[_ Hops]]; [done|].
    eexists. rewrite close_open_fd by done. split; [done|].
    rewrite cur_fd_upd, Z.eqb_refl. split_and!; [done..|].
    intros j Hj. rewrite cur_fd_upd. by test_false (fd =? j).
  - apply close_fails. destruct (decide (2 <= fd < 8)); [right|by left].
    destruct (Z.eq_dec (flags (cur_fd fd k)) 0); [done|]. exfalso. by apply Hc.
Qed.

(** A descriptor [open] returned can be closed, and the table is then free
    where it was: the next [open] would get the same descriptor. *)
Theorem open_close_reuses filename i k k1 : tables_ready k -> open filename k = Ret i k1 ->
  i <> FAILURE ->
  exists k2, close i k1 = Ret SUCCESS k2 /\ free_fd (cur_pcb k2) = i.
Proof.
  intros Hr Ho Hi. destruct (open_cases filename k Hr) as [E|[E|(t & ino & Ht & Hj & E)]];
    rewrite Ho in E; [congruence|done|]. injection E as -> ->.
  destruct (free_fd_spec (cur_pcb k)) as (_ & Hno & H0). cbv zeta in *.
  set (i := free_fd (cur_pcb k)) in *. set (k1 := open_effect t _).
  assert (get_pcb k1 = get_pcb k) as Eg by (unfold k1, open_effect; by repeat case_match).
  assert (forall j, cur_fd j k1 = if i =? j then opened t ino (cur_fd i k) else cur_fd j k) as Ek.
  { intros j. unfold k1. rewrite cur_fd_effect. apply cur_fd_upd. }
  eexists. rewrite close_open_fd; [split; [done|]| |done| |].
  - apply free_fd_first; [done| |].
    + change (flags (cur_fd i (upd_fd (get_pcb k1) i closed k1)) = 0). by rewrite cur_fd_upd, Z.eqb_refl.
    + intros j Hj'. change (flags (cur_fd j (upd_fd (get_pcb k1) i closed k1)) <> 0).
      rewrite cur_fd_upd. test_false (i =? j). cbv iota. rewrite Ek. test_false (i =? j). by apply Hno.
  - by apply tables_effect.
  - by rewrite Ek, Z.eqb_refl.
  - rewrite Ek, Z.eqb_refl. apply fops_for_table.
Qed.
End properties.

(** ** Reading an opened file, and arguments *)

Section contents.
Context `{Platform}.

(** C19: a regular file opened and then read in pieces, from the first byte on:
    the pieces are the contents of the file, in order, up to its end. *)
Theorem open_then_read filename d i ns buf k :
  tables_ready k -> lookup_file filename (SUCCESS, d) k -> filetype d = 2 -> 0 <= inode_num d ->
  2 <= i < 8 -> flags (cur_fd i k) = 0 -> (forall j, 2 <= j < i -> flags (cur_fd j k) <> 0) ->
  file_wf k (inode_num d) -> Forall (Z.le 0) ns -> foldr Z.add 0 ns < 2147483648 ->
  buf_apart k buf (file_length k (inode_num d) + 1) -> end_ok k (inode_num d) (foldr Z.add 0 ns) ->
  let total := Z.min (foldr Z.add 0 ns) (file_length k (inode_num d)) in
  exists k1 k2, open filename k = Ret i k1 /\ file_reads i buf ns k1 = (total, k2) /\
    forall j, 0 <= j < total -> ld8 k2 (buf + j) = file_byte k (inode_num d) j.
Proof.
  intros Hr Hl Ht Hd Hi H0 Hno Hwf Hns Hsum Hba He total.
  assert (free_fd (cur_pcb k) = i) as Ei by (by apply free_fd_first).
  pose proof (open_found filename d k Hr Hl ltac:(lia)) as Eo. cbv zeta in Eo. rewrite Ei, Ht in Eo.
  set (k1 := upd_fd (get_pcb k) i (opened 2 (inode_num d)) k).
  pose proof (wf_ino _ _ Hwf). pose proof (wf_size _ _ Hwf). pose proof (wf_length _ _ Hwf).
  assert (file_wf k1 (inode_num d)) as Hwf1 by (destruct Hwf; by split).
  assert (buf_apart k1 buf (file_length k (inode_num d) + 1)) as Hba1 by (destruct Hba; by split).
  destruct (file_reads_spec i (inode_num d) ns 0 buf k1) as (k2 & E & Hb & _).
  - split; [done| | |change (0 <= 0 <= file_length k (inode_num d)); lia].
    + unfold k1. rewrite cur_fd_upd, Z.eqb_refl. simpl. apply u32_small. lia.
    + unfold k1. by rewrite cur_fd_upd, Z.eqb_refl.
  - done.
  - lia.
  - rewrite Z.sub_0_r. exact Hba1.
  - done.
  - exists k1, k2. split; [by apply Eo; lia|]. rewrite Z.sub_0_r in E, Hb. done.
Qed.

(** [getargs] copies the arguments of the process, with their terminating
    NUL, when the buffer is large enough for both; otherwise it fails and
    stores nothing. It does not fail for a command without arguments. *)
Theorem getargs_copies buf nbytes n k :
  buf <> 0 -> is_cstr (fun i => get8 (args (cur_pcb k)) i) n -> n < 2147483647 ->
  sep_range (vspace k) buf (n + 1) ->
  if n + 1 <=? nbytes then
    exists k', getargs buf nbytes k = Ret SUCCESS k' /\
      wrote k k' buf (n + 1) (fun i => get8 (args (cur_pcb k)) i)
  else getargs buf nbytes k = Ret FAILURE k.
Proof.
  intros Hbuf Hs Hn Hsep. pose proof Hs as (Hn0 & _). unfold getargs. rewrite bind_get. cbv zeta.
  test_false (buf =? 0). cbn [orb].
  destruct (Z.leb_spec (n + 1) nbytes) as [Hle|Hgt].
  - test_false (nbytes <=? 0). rewrite (strlen_some _ _ Hs), u32_small by lia. test_false (nbytes <? n + 1).
    destruct (strcpy_filled (A:=aspace) buf (fun _ i => get8 (args (cur_pcb k)) i) n (vspace k))
      as (a & -> & Hf); [done|lia|done|done|intros; apply get8_range|].
    eexists. split; [done|]. by apply wrote_set_vspace.
  - destruct (nbytes <=? 0); [done|]. rewrite (strlen_some _ _ Hs), u32_small by lia. by test_true (nbytes <? n + 1).
Qed.
End contents.

(** ** Concrete runs

    A process whose PCB is at 0x7fe000, on the image with the file "x". *)

(** Well-formed descriptors of a concrete state. *)
Ltac fds_by_computation :=
  split; [split; [by vm_compute|by vm_compute|]|by vm_compute];
  intros i Hi; left;
  assert (i = 2 \/ i = 3 \/ i = 4 \/ i = 5 \/ i = 6 \/ i = 7) as Hc by lia;
  by destruct Hc as [-> | [-> | [-> | [-> | [-> | ->]]]]]; vm_compute.

Definition sample_process : kstate :=
  put_pcb 0x7fe000 (put_fd 1 (FileDescriptor FopsStdout 0 0 1)
                     (put_fd 0 (FileDescriptor FopsStdin 0 0 1) pcb_zero))
    (tables_init (sample_state <| pmem := put8 0x101 0 (put8 0x100 120 (pmem sample_state)) |>
                     <| cpu; esp := 0x7fffe0 |>)).

Section runs.
#[local] Existing Instance quiet_platform.

Lemma sample_fds : fds_ok sample_process.
Proof. fds_by_computation. Qed.
Definition sample_dentry : dentry_t :=
  Dentry (strncpy 0 (fun _ => name_x) 32 (∅ : mem)) 2 0.
Lemma sample_lookup : lookup_file 0x100 (SUCCESS, sample_dentry) sample_process.
Proof. split; [done|]. split; by vm_compute. Qed.
End runs.

Definition sample_calls : list file_call := [Open 0x100; Open 0x100; Close 2; Close 0; Open 0x200].
Lemma file_calls_keep_descriptors_witness :
  match @run_calls quiet_platform sample_calls sample_process with
  | Ret rs k' => rs = [2; 3; 0; -1; -1] /\ fds_wf k' | _ => False
  end.
Proof.
  pose proof (@file_calls_keep_descriptors quiet_platform sample_calls sample_process sample_fds) as Hc.
  assert (match @run_calls quiet_platform sample_calls sample_process with
          | Ret rs _ => rs = [2; 3; 0; -1; -1] | _ => False end) as Er by (by vm_compute).
  destruct (@run_calls quiet_platform sample_calls sample_process); [|done..].
  split; [exact Er|apply Hc].
Defined.

Lemma open_lowest_descriptor_witness :
  exists k', @open quiet_platform 0x100 sample_process = Ret 2 k' /\ fops_ptr (cur_fd 2 k') = FopsFiles.
Proof.
  destruct (@open_lowest_descriptor quiet_platform 0x100 sample_dentry 2 sample_process)
    as (k' & E & _ & Hf & _).
  - done.
  - apply sample_lookup.
  - done.
  - done.
  - by vm_compute.
  - lia.
  - by exists k'.
Defined.

Lemma open_failures_witness : @open quiet_platform 0 sample_process = Ret FAILURE sample_process.
Proof. apply @open_failures. by left. Defined.

Lemma close_frees_descriptor_witness : close 1 sample_process = Ret FAILURE sample_process.
Proof. exact (close_frees_descriptor 1 sample_process sample_fds). Defined.

Lemma open_close_reuses_witness :
  exists k1 k2, @open quiet_platform 0x100 sample_process = Ret 2 k1 /\ close 2 k1 = Ret 0 k2.
Proof.
  eexists. destruct (@open_close_reuses quiet_platform 0x100 2 sample_process
    (match @open quiet_platform 0x100 sample_process with Ret _ k => k | _ => sample_process end))
    as (k2 & E & _); [done|by vm_compute|done|]. exists k2. split; [|exact E]. by vm_compute.
Defined.

Lemma open_then_read_witness :
  exists k1 k2, @open quiet_platform 0x100 sample_process = Ret 2 k1 /\
    @file_reads quiet_platform 2 0 [2; 5] k1 = (3, k2).
Proof.
  destruct (@open_then_read quiet_platform 0x100 sample_dentry 2 [2; 5] 0 sample_process)
    as (k1 & k2 & E1 & E2 & _).
  - done.
  - apply sample_lookup.
  - done.
  - done.
  - done.
  - by vm_compute.
  - lia.
  - destruct sample_file. split; [by vm_compute..|]. intros b Hb.
    change (@file_length quiet_platform _ _) with 3. intros ?. assert (b = 0) as -> by lia. by vm_compute.
  - by repeat constructor.
  - done.
  - apply @apart_below; by vm_compute.
  - right. by vm_compute.
  - by exists k1, k2.
Defined.

Lemma getargs_copies_witness :
  @getargs quiet_platform 0x200 0 sample_process = Ret FAILURE sample_process.
Proof.
  apply (@getargs_copies quiet_platform 0x200 0 0 sample_process); [done| |done|by apply @sep_unpaged].
  split; [done|]. split; [by vm_compute|lia].
Defined.
