(* ===== verification/Process.v ===== *)
(** Processes (syscall.c): [execute] and [halt].

    [execute] and [halt] call each other: [execute] of a command that starts
    with "quit" calls [halt], and [halt] of the first shell of a terminal calls
    [execute("shell")]. The recursion is one level deep, since "shell" is not
    "quit": [execute_gen] takes the [halt] it calls as an argument.

    A store past a local array is outside the meaning of the program
    ([Undef StraySmash]). *)

From Stdlib Require Import Ascii String.
From S2P Require Import Prelude Bytes CString CMem State Filesys Paging Keyboard Descriptors.
#[local] Open Scope Z_scope.
#[local] Open Scope kernel_scope.

Definition page8MB := 0x800000.
Definition page8KB := 0x2000.
Definition KERNEL_DS_ := 0x0018.

(** The kernel's string literals, as C strings. *)
Definition literal (s : string) (i : Z) : Z := default 0 (chars s !! Z.to_nat i).

Section process.
Context `{Platform}.
(** ** [execute] *)

(** Lines 323-359: the command's name and its arguments, in the local arrays
    [cmds] and [arg_dat]. *)
Inductive parsed := ParseFail | ParseSmash | Parsed (cmds arg_dat : mem).

Definition clear_array (n : Z) : mem := for_loop 0 n (fun i => put8 i 0) ∅.

Definition parse_name (command : Z -> Z) : Z * mem :=
  loop_or (32, ∅) 33
    (fun '(i, cmds) =>
       if i <? 32 then
         if command i =? 0 then inr (i, cmds)
         else if (command i =? 32) || (command i =? 10) then inr (i, cmds)
         else inl (i + 1, put8 i (command i) cmds)
       else inr (i, cmds)) (0, clear_array 32).

(** [None]: the arguments run over the 128 bytes of [arg_dat]. *)
Definition parse_args (command : Z -> Z) (len : Z) : option mem :=
  loop_or None 130
    (fun '(i, arg_dat) =>
       if negb (command (i + len + 1) =? 10) && negb (command (i + len + 1) =? 0) then
         if i <? 128 then inl (i + 1, put8 i (command (i + len + 1)) arg_dat) else inr None
       else if i <? 128 then inr (Some (put8 i 0 arg_dat)) else inr None) (0, clear_array 128).

Definition parse_command (command : option (Z -> Z)) : parsed :=
  match command with
  | None => ParseFail
  | Some command =>
      let '(i, cmds) := parse_name command in
      if 32 <=? i then ParseSmash
      else
        let cmds := put8 i 0 cmds in
        if i =? 0 then ParseFail
        else
          match strlen (fun j => get8 cmds j) with
          | None => ParseSmash
          | Some len =>
              if command len =? 32 then
                match parse_args command len with
                | Some arg_dat => Parsed cmds arg_dat
                | None => ParseSmash
                end
              else Parsed cmds (clear_array 128)
          end
  end.

(** Lines 366-394: the file of the command is found, is a regular file, and
    starts with the ELF magic; the result is its inode and entry address. *)
Inductive lookup_result := LookupHang | LookupFail (k : kstate) | LookupOk (ino entry_address : Z) (k : kstate).

Definition exe_data (k : kstate) : Z := exe_data_addr (esp (cpu k)).
Definition exe_byte (k : kstate) (i : Z) : Z := ld8 k (exe_data k + i).

Definition find_executable (cmds : mem) (k : kstate) : lookup_result :=
  match read_dentry_by_name (fun j => get8 cmds j) (Dentry ∅ 0 0) k with
  | None => LookupHang
  | Some (r, cmds_dentry) =>
      if r =? FAILURE then LookupFail k
      else if negb (filetype cmds_dentry =? 2) then LookupFail k
      else
        let cmds_inode := u32 (inode_num cmds_dentry) in
        let k := (read_data cmds_inode 0 (exe_data k) 40 k).2 in
        if negb (exe_byte k 0 =? 0x7F) || negb (exe_byte k 1 =? 0x45) ||
           negb (exe_byte k 2 =? 0x4C) || negb (exe_byte k 3 =? 0x46) then LookupFail k
        else
          LookupOk cmds_inode
            (Z.lor (Z.lor (Z.lor (Z.shiftl (exe_byte k 27) 24) (Z.shiftl (exe_byte k 26) 16))
                          (Z.shiftl (exe_byte k 25) 8)) (exe_byte k 24)) k
  end.

(** Lines 398-410: the first free process number, marked used. *)
Definition all_used (k : kstate) : bool := forallb (fun i => proc_used k i =? 1) [0; 1; 2; 3; 4; 5].
Definition alloc_process (k : kstate) : Z * kstate :=
  loop_or (0, k) 7
    (fun j => if j <? 6 then
                if proc_used k j =? 0 then inr (j, set_proc_used j 1 k) else inl (j + 1)
              else inr (0, k)) 0.

(** Line 413. *)
Definition pcb_addr (process_num : Z) : Z := page8MB - (process_num + 1) * page8KB.

(** Lines 418-437: the process is entered in the active terminal. *)
Definition enter_terminal (cur_process_num : Z) (k : kstate) : kstate :=
  let d := active k in
  if terminal_flag (term_at k d) =? 1 then
    let k := if d =? 0 then set_terminal_shell 0 0 k else k in
    let k := k <| procs; running_terminal := d |> in
    let k := set_processes d 0 cur_process_num k in
    upd_term d (fun t => t <| terminal_flag := 0 |>) k
  else
    loop_or k 5
      (fun i => if i <? 4 then
                  if processes_at k d i =? -1 then inr (set_processes d i cur_process_num k) else inl (i + 1)
                else inr k) 0.

(** Lines 413-445: the PCB's identity and arguments, and the user page. Line
    440 writes through [parent] before it is set. *)
Definition setup_pcb (cur_process_num : Z) (arg_dat : mem) (k : kstate) : option kstate :=
  let task_pcb := pcb_addr cur_process_num in
  let k := upd_pcb task_pcb (fun p => p <| pid := cur_process_num |>) k in
  let k := enter_terminal cur_process_num k in
  let k := upd_pcb (parent (pcb_at k task_pcb))
             (fun p => p <| pid := u32 (processes_at k (active k) 0) |>) k in
  match strcpy 0 (fun _ i => get8 arg_dat i) (args (pcb_at k task_pcb)) with
  | None => None
  | Some a =>
      let k := upd_pcb task_pcb (fun p => p <| args := a |>) k in
      Some (page_switch cur_process_num k)
  end.

(** Lines 458-471: the descriptors of the new process. *)
Definition setup_fds (task_pcb : Z) (k : kstate) : kstate :=
  let k := upd_fd task_pcb 0 (fun d => d <| flags := 1 |> <| fops_ptr := FopsStdin |> <| file_pos := 0 |>) k in
  let k := upd_fd task_pcb 1 (fun d => d <| flags := 1 |> <| fops_ptr := FopsStdout |> <| file_pos := 0 |>) k in
  for_loop 2 8 (fun temp k => upd_fd task_pcb temp (fun d => d <| flags := NOT_USED |>) k) k.

(** Lines 473-492: the parent's frame is saved, and the TSS set for the new
    process. *)
Definition setup_return (cur_process_num task_pcb : Z) (k : kstate) : kstate :=
  let parent_pcb := get_pcb k in
  let k := upd_pcb task_pcb (fun p => p <| parent := parent_pcb |>) k in
  let k := upd_pcb parent_pcb (fun p => p <| kbp := ebp (cpu k) |>) k in
  let k := upd_pcb parent_pcb (fun p => p <| ksp := esp (cpu k) |>) k in
  let k := upd_pcb parent_pcb (fun p => p <| ss0 := tss_ss0 (cpu k) |>) k in
  let k := upd_pcb parent_pcb (fun p => p <| esp0 := tss_esp0 (cpu k) |>) k in
  let k := k <| cpu; tss_ss0 := KERNEL_DS_ |> in
  k <| cpu; tss_esp0 := SIZE_8MB - cur_process_num * page8KB - 4 |>.

(** Where user code starts: 128 MB + 0x48000, loaded with up to 1023 blocks. *)
Definition load_program (ino : Z) (k : kstate) : kstate :=
  (read_data ino 0 (SIZE_128MB + 0x48000) (1023 * 4096) k).2.

(** Lines 396-516: from a valid executable to user mode. *)
Definition start_process (ino entry_address : Z) (arg_dat : mem) : M Z :=
  k <- get ;
  if all_used k then ret FAILURE
  else
    cur_process_num <- run alloc_process ;
    k <- get ;
    match setup_pcb cur_process_num arg_dat k with
    | None => hang
    | Some k =>
        modify (fun _ => setup_return cur_process_num (pcb_addr cur_process_num)
                  (setup_fds (pcb_addr cur_process_num) (load_program ino k))) ;;
        modify sti ;;
        jump_to (IretUser (u32 entry_address) 0x083FFFFC 0x23 0x2B)
    end.

Definition is_quit (cmds : mem) : bool := strncmp (fun i => get8 cmds i) (literal "quit") 4 =? 0.

(** syscall.c [execute], given the [halt] it calls. *)
Definition execute_gen (halt : Z -> M Z) (command : option (Z -> Z)) : M Z :=
  modify tables_init ;;
  match parse_command command with
  | ParseFail => ret FAILURE
  | ParseSmash => undef StraySmash
  | Parsed cmds arg_dat =>
      (if is_quit cmds then halt 0 ;; ret tt else ret tt) ;;
      k <- get ;
      match find_executable cmds k with
      | LookupHang => hang
      | LookupFail k => modify (fun _ => k) ;; ret FAILURE
      | LookupOk ino entry_address k => modify (fun _ => k) ;; start_process ino entry_address arg_dat
      end
  end.

(** [execute("shell")]. *)
Definition execute_shell : M Z := execute_gen (fun _ => undef StrayEnd) (Some (literal "shell")).

(** ** [halt] *)

(** Lines 248-255. *)
Definition leave_terminal (pid : Z) (k : kstate) : kstate :=
  let d := active k in
  loop_or k 5
    (fun i => if i <? 4 then
                if u32 (processes_at k d i) =? pid then inr (set_processes d i (-1) k) else inl (i + 1)
              else inr k) 0.

(** Lines 263-267. *)
Fixpoint close_all (n : nat) (i : Z) : M unit :=
  match n with
  | O => ret tt
  | S n =>
      k <- get ;
      (if flags (fd_at (cur_pcb k) i) =? 1 then close i ;; ret tt else ret tt) ;;
      close_all n (i + 1)
  end.

(** Lines 273-295: the process is freed, and its parent's [execute] returns. *)
Definition return_to_parent (curr_status : Z) : M Z :=
  k <- get ;
  let curr_pcb := cur_pcb k in
  modify (set_proc_used (pid curr_pcb) 0) ;;
  let parent_pid := pid (pcb_at k (parent curr_pcb)) in
  modify (page_switch (s32 parent_pid)) ;;
  modify (fun k => k <| cpu; tss_esp0 := u32 (SIZE_8MB - parent_pid * page8KB - 4) |>) ;;
  jump_to (LeaveRet (kbp (pcb_at k (parent curr_pcb))) curr_status).

(** syscall.c [halt]. *)
Definition halt (status : Z) : M Z :=
  k <- get ;
  let pcb := get_pcb k in
  let p := pid (pcb_at k pcb) in
  if proc_used k p =? 0 then ret FAILURE
  else
    let first_shell := u32 (processes_at k (active k) 0) =? p in
    modify (leave_terminal p) ;;
    k <- get ;
    (if u32 (terminal_shell (procs k)).[active k] =? p
     then modify (set_terminal_shell (active k) (pid (pcb_at k (parent (pcb_at k pcb)))))
     else ret tt) ;;
    close_all 8 0 ;;
    (if first_shell then execute_shell ;; ret tt else ret tt) ;;
    return_to_parent (u8 status).

(** syscall.c [execute]. *)
Definition execute (command : option (Z -> Z)) : M Z := execute_gen halt command.
(** [execute] of a pointer. *)
Definition execute_at (command : Z) : M Z :=
  k <- get ;
  execute (if command =? 0 then None else Some (fun i => ld8 k (command + i))).
End process.

(** ** Parsing a command *)

Section parsing.

Lemma clear_array_get n i : get8 (clear_array n : mem) i = 0.
Proof.
  unfold clear_array. destruct (Z.le_gt_cases n 0); [by rewrite for_loop_empty|].
  apply (for_loop_rule (fun _ (m : mem) => forall i, get8 m i = 0)); [lia|done|].
  intros j m _ Hm x. rewrite get8_put8. case_match; [done|apply Hm].
Qed.

(** A name of [n] bytes, ended by a NUL, a blank or a newline. *)
Definition ends_name (c : Z) : Prop := c = 0 \/ c = 32 \/ c = 10.
Definition is_name (command : Z -> Z) (n : Z) : Prop :=
  (forall i, 0 <= i < n -> ~ ends_name (command i)) /\ ends_name (command n).
(** Arguments of [m] bytes from [p] on, ended by a NUL or a newline. *)
Definition ends_args (c : Z) : Prop := c = 0 \/ c = 10.
Definition is_args (command : Z -> Z) (p m : Z) : Prop :=
  (forall i, 0 <= i < m -> ~ ends_args (command (p + i))) /\ ends_args (command (p + m)).

(** The array that holds the first [n] bytes of [f], cleared after them. *)
Definition holds (a : mem) (n : Z) (f : Z -> Z) : Prop :=
  forall j, 0 <= j -> get8 a j = if j <? n then f j else 0.

Lemma holds_snoc a n f v : is_bytes f -> 0 <= n -> f n = v -> holds a n f -> holds (put8 n v a) (n + 1) f.
Proof.
  intros Hf Hn Hv Ha j Hj. rewrite get8_put8. simpl. destruct (Z.eqb_spec n j) as [->|].
  - test_true (j <? j + 1). rewrite <- Hv. apply u8_small, Hf.
  - rewrite Ha by done. destruct (Z.ltb_spec j n), (Z.ltb_spec j (n + 1)); (done || lia).
Qed.
Lemma holds_terminate a n f : holds a n f -> 0 <= n -> holds (put8 n 0 a) n f.
Proof.
  intros Ha Hn j Hj. rewrite get8_put8. simpl. destruct (Z.eqb_spec n j) as [->|].
  - by test_false (j <? j).
  - by apply Ha.
Qed.
Lemma holds_nil n f : holds (clear_array n) 0 f.
Proof. intros j Hj. rewrite clear_array_get. by test_false (j <? 0). Qed.

Lemma parse_name_spec command n : is_bytes command -> 0 <= n -> is_name command n ->
  exists cmds, parse_name command = (Z.min n 32, cmds) /\ holds cmds (Z.min n 32) command.
Proof.
  intros Hb Hn [Hin Hend]. unfold parse_name.
  apply (loop_or_rule (fun '(i, a) => 0 <= i <= Z.min n 32 /\ holds a i command)
    (fun '((i, _) : Z * mem) => 32 - i)
    (fun r => exists cmds, r = (Z.min n 32, cmds) /\ holds cmds (Z.min n 32) command)).
  - intros [i a] [Hi Ha]. destruct (Z.ltb_spec i 32).
    2: { assert (i = Z.min n 32) as -> by lia. eauto. }
    destruct (Z.eq_dec i n) as [->|Hne].
    + rewrite Z.min_l in * by lia. destruct (Z.eqb_spec (command n) 0); [eauto|].
      unfold ends_name in Hend. test_true ((command n =? 32) || (command n =? 10)). eauto.
    + specialize (Hin i ltac:(lia)). unfold ends_name in Hin.
      test_false (command i =? 0). test_false ((command i =? 32) || (command i =? 10)).
      split; [|lia]. split; [lia|]. by apply holds_snoc; [..|lia|done|].
  - split; [lia|apply holds_nil].
  - lia.
Qed.

Lemma parse_args_spec command n m : is_bytes command -> 0 <= m -> is_args command (n + 1) m ->
  match parse_args command n with
  | Some arg_dat => m < 128 /\ holds arg_dat m (fun i => command (n + 1 + i))
  | None => 128 <= m
  end.
Proof.
  intros Hb Hm [Hin Hend]. unfold parse_args. apply (loop_or_rule
    (fun '(i, a) => 0 <= i <= Z.min m 128 /\ holds a i (fun i => command (n + 1 + i)))
    (fun '((i, _) : Z * mem) => 129 - i)
    (fun r : option mem => match r with
     | Some a => m < 128 /\ holds a m (fun i => command (n + 1 + i)) | None => 128 <= m end)).
  - intros [i a] [Hi Ha]. replace (i + n + 1) with (n + 1 + i) by lia.
    destruct (Z.eq_dec i m) as [->|Hne].
    + unfold ends_args in Hend.
      test_false (negb (command (n + 1 + m) =? 10) && negb (command (n + 1 + m) =? 0)).
      destruct (Z.ltb_spec m 128); [|lia]. split; [done|]. by apply holds_terminate.
    + assert (i < m -> ~ ends_args (command (n + 1 + i))) as Hi' by (intros; apply Hin; lia).
      unfold ends_args in Hi'.
      test_true (negb (command (n + 1 + i) =? 10) && negb (command (n + 1 + i) =? 0)).
      destruct (Z.ltb_spec i 128); [|lia]. split; [|lia]. split; [lia|].
      apply (holds_snoc _ _ (fun i => command (n + 1 + i))); [|lia|done|done]. intros j. apply Hb.
  - split; [lia|apply holds_nil].
  - lia.
Qed.

(** The name as a C string. *)
Lemma holds_cstr a n f : 0 <= n -> holds a n f -> (forall i, 0 <= i < n -> f i <> 0) ->
  is_cstr (fun j => get8 a j) n.
Proof.
  intros Hn Ha Hf. split; [done|]. split.
  - rewrite Ha by done. by test_false (n <? n).
  - intros i Hi. rewrite Ha by lia. test_true (i <? n). by apply Hf.
Qed.

(** The arguments of a command, empty without a blank after the name. *)
Definition args_len (command : Z -> Z) (n m : Z) : Z := if command n =? 32 then m else 0.

Lemma parse_command_spec command n m : is_bytes command -> 0 < n < 32 -> is_name command n ->
  0 <= m -> (command n = 32 -> is_args command (n + 1) m) ->
  if args_len command n m <? 128 then
    exists cmds arg_dat, parse_command (Some command) = Parsed cmds arg_dat /\
      holds cmds n command /\
      holds arg_dat (args_len command n m) (fun i => command (n + 1 + i))
  else parse_command (Some command) = ParseSmash.
Proof.
  intros Hb Hn Hname Hm Hargs. unfold parse_command, args_len.
  destruct (parse_name_spec command n Hb ltac:(lia) Hname) as (cmds & -> & Hc).
  rewrite Z.min_l in * by lia. test_false (32 <=? n). cbv iota zeta. test_false (n =? 0). cbv iota.
  pose proof (holds_terminate _ _ _ Hc ltac:(lia)) as Ht. destruct Hname as [Hin _].
  assert (is_cstr (fun j => get8 (put8 n 0 cmds) j) n) as Hs.
  { apply (holds_cstr _ _ command); [lia|done|]. intros i Hi E. apply (Hin i Hi). by left. }
  rewrite (strlen_some _ _ Hs) by lia. destruct (Z.eqb_spec (command n) 32) as [E32|].
  - pose proof (parse_args_spec command n m Hb Hm (Hargs E32)) as Ha. destruct (parse_args command n) as [a|].
    + destruct Ha as [Hlt Ha]. test_true (m <? 128). eauto.
    + by test_false (m <? 128).
  - test_true (0 <? 128). eexists _, _. split_and!; [done|done|apply holds_nil].
Qed.

(** C34: a command line of a name of 1 to 31 bytes, then at most 127 bytes of
    arguments after a blank, up to a NUL or a newline, is split into its name
    and its arguments, each a NUL-terminated string. *)
Theorem parse_command_splits command n m :
  is_bytes command -> 0 < n < 32 -> is_name command n ->
  0 <= m -> is_args command (n + 1) m -> args_len command n m < 128 ->
  exists cmds arg_dat, parse_command (Some command) = Parsed cmds arg_dat /\
    holds cmds n command /\
    holds arg_dat (args_len command n m) (fun i => command (n + 1 + i)).
Proof.
  intros Hb Hn Hname Hm Hargs Hlt. pose proof (parse_command_spec command n m Hb Hn Hname Hm (fun _ => Hargs)) as Hp.
  revert Hp. by test_true (args_len command n m <? 128).
Qed.

(** The parser stores past its local arrays on longer words: the name array
    at 32 bytes, the argument array at 128. *)
Theorem parse_command_overflows command n m :
  is_bytes command -> is_name command n -> 0 <= m -> is_args command (n + 1) m ->
  32 <= n \/ 0 < n < 32 /\ 128 <= args_len command n m ->
  parse_command (Some command) = ParseSmash.
Proof.
  intros Hb Hname Hm Hargs [Hn|[Hn Hlen]].
  - unfold parse_command. destruct (parse_name_spec command n Hb ltac:(lia) Hname) as (cmds & -> & _).
    by rewrite Z.min_r by lia.
  - pose proof (parse_command_spec command n m Hb Hn Hname Hm (fun _ => Hargs)) as Hp. revert Hp.
    by test_false (args_len command n m <? 128).
Qed.
End parsing.

(** ** Executables *)

Section executables.
Context `{Platform}.

(** The name in [cmds] is that of a regular file of at least 40 bytes that
    starts with the ELF magic and gives the entry address. *)
Record executable (k : kstate) (cmds : mem) (ino entry : Z) : Prop := {
  ex_lookup : exists d, read_dentry_by_name (fun j => get8 cmds j) (Dentry ∅ 0 0) k = Some (SUCCESS, d) /\
                 filetype d = 2 /\ inode_num d = ino;
  ex_wf : file_wf k ino;
  ex_len : 40 <= file_length k ino;
  ex_magic : file_byte k ino 0 = 0x7F /\ file_byte k ino 1 = 0x45 /\
             file_byte k ino 2 = 0x4C /\ file_byte k ino 3 = 0x46;
  ex_entry : entry = file_byte k ino 24 + 256 * file_byte k ino 25 +
               65536 * file_byte k ino 26 + 16777216 * file_byte k ino 27;
  ex_apart : buf_apart k (exe_data k) 40
}.

(** A file the loader rejects: no such name, not a regular file, or an ELF
    magic that is not there. *)
Definition not_executable (k : kstate) (cmds : mem) : Prop :=
  exists r d, read_dentry_by_name (fun j => get8 cmds j) (Dentry ∅ 0 0) k = Some (r, d) /\
    (r = FAILURE \/ r = SUCCESS /\ filetype d <> 2 \/
     r = SUCCESS /\ 0 <= inode_num d /\
       file_wf k (inode_num d) /\ 40 <= file_length k (inode_num d) /\ buf_apart k (exe_data k) 40 /\
       ~ (file_byte k (inode_num d) 0 = 0x7F /\ file_byte k (inode_num d) 1 = 0x45 /\
          file_byte k (inode_num d) 2 = 0x4C /\ file_byte k (inode_num d) 3 = 0x46)).

Lemma file_byte_range k ino j : 0 <= file_byte k ino j < 256.
Proof. apply get8_range. Qed.

(** The header read into the local array. *)
Lemma read_header k ino : file_wf k ino -> 40 <= file_length k ino -> buf_apart k (exe_data k) 40 ->
  exists k1, (read_data ino 0 (exe_data k) 40 k).2 = k1 /\ copied k k1 ino 0 (exe_data k) 40 /\
    forall j, 0 <= j < 40 -> exe_byte k1 j = file_byte k ino j.
Proof.
  intros Hwf Hlen Hba. pose proof (wf_length _ _ Hwf).
  destruct (read_data_returns ino 0 (exe_data k) 40 k Hwf) as (k1 & E & Hc).
  - lia.
  - lia.
  - lia.
  - eapply buf_apart_le; [|done]. lia.
  - left. lia.
  - exists k1. assert (stored (file_length k ino) 0 40 = 40) as Es by (unfold stored; by test_true (0 + 40 <=? file_length k ino)). rewrite Es in Hc.
    rewrite E. split; [done|]. split; [done|]. intros j Hj.
    assert (exe_data k1 = exe_data k) as Ed by (destruct Hc as [-> _]; done).
    unfold exe_byte. rewrite Ed. by apply Hc.
Qed.

Lemma find_executable_ok k cmds ino entry : executable k cmds ino entry ->
  exists k1, find_executable cmds k = LookupOk ino entry k1 /\ copied k k1 ino 0 (exe_data k) 40.
Proof.
  intros [(d & El & Et & Ei) Hwf Hlen (M0 & M1 & M2 & M3) Hentry Hba].
  destruct (read_header k ino Hwf Hlen Hba) as (k1 & E & Hc & Hb). exists k1. split; [|done].
  pose proof (wf_ino _ _ Hwf). pose proof (wf_size _ _ Hwf).
  unfold find_executable. rewrite El, Et, Ei. change (SUCCESS =? FAILURE) with false.
  cbv iota zeta. change (negb (2 =? 2)) with false. cbv iota.
  rewrite (u32_small ino) by lia. rewrite E, !Hb, M0, M1, M2, M3 by lia. cbn [Z.eqb negb orb Pos.eqb].
  f_equal. rewrite Hentry. pose proof (file_byte_range k ino) as Hr.
  pose proof (Hr 24). pose proof (Hr 25). pose proof (Hr 26). pose proof (Hr 27).
  rewrite <- !Z.lor_assoc. rewrite (lor_high (file_byte k ino 25)) by lia.
  rewrite (lor_high (file_byte k ino 26)), (lor_high (file_byte k ino 27)) by lia. lia.
Qed.

(** [k'] is [k] but for bytes of the local array of 40 bytes. *)
Definition array_only (k k' : kstate) : Prop :=
  only_mem k k' /\ forall pa, away (vspace k) (exe_data k) 40 pa -> mem_get (pmem k') pa = mem_get (pmem k) pa.
Lemma array_only_refl k : array_only k k.
Proof. split; [apply only_mem_refl|done]. Qed.
Lemma copied_array_only k k' ino : copied k k' ino 0 (exe_data k) 40 -> array_only k k'.
Proof. intros Hc. split; [apply Hc|]. intros pa. apply (wrote_away _ _ _ _ _ _ Hc). Qed.

Lemma find_executable_fails k cmds : not_executable k cmds ->
  exists k1, find_executable cmds k = LookupFail k1 /\ array_only k k1.
Proof.
  intros (r & d & El & Hcase). unfold find_executable. rewrite El.
  destruct Hcase as [->|[[-> Ht]|(-> & Hi & Hwf & Hlen & Hba & Hm)]].
  - exists k. split; [done|apply array_only_refl].
  - exists k. change (SUCCESS =? FAILURE) with false. cbv iota. test_true (negb (filetype d =? 2)).
    split; [done|apply array_only_refl].
  - change (SUCCESS =? FAILURE) with false. cbv iota zeta.
    destruct (negb (filetype d =? 2)); [exists k; split; [done|apply array_only_refl]|].
    pose proof (wf_ino _ _ Hwf). pose proof (wf_size _ _ Hwf). rewrite u32_small by lia.
    destruct (read_header k _ Hwf Hlen Hba) as (k1 & -> & Hc & Hb). exists k1.
    rewrite !Hb by lia. case_test; [split; [done|by eapply copied_array_only]|]. exfalso. apply Hm. lia.
Qed.
End executables.

(** ** Slots and terminals *)

Section slots.
Context `{Platform}.

(** Slot [p] is the lowest free one. *)
Definition lowest_free (k : kstate) (p : Z) : Prop :=
  0 <= p < 6 /\ proc_used k p = 0 /\ forall q, 0 <= q < p -> proc_used k q <> 0.

Lemma alloc_process_lowest k p : lowest_free k p -> alloc_process k = (p, set_proc_used p 1 k).
Proof.
  intros (Hp & H0 & Hq). unfold alloc_process. apply (loop_or_rule
    (fun j => 0 <= j <= p) (fun j => p - j) (fun r => r = (p, set_proc_used p 1 k))).
  - intros j Hj. test_true (j <? 6). destruct (Z.eq_dec j p) as [->|]; [by rewrite H0|].
    specialize (Hq j ltac:(lia)). test_false (proc_used k j =? 0). lia.
  - lia.
  - lia.
Qed.

Lemma all_used_true k : (forall q, 0 <= q < 6 -> proc_used k q = 1) -> all_used k = true.
Proof. intros Hq. unfold all_used. cbn [forallb]. by rewrite !Hq by lia. Qed.
Lemma all_used_false k p : lowest_free k p -> all_used k = false.
Proof.
  intros (Hp & H0 & _). unfold all_used. apply not_true_iff_false. rewrite forallb_forall. intros Hall.
  specialize (Hall p). rewrite H0 in Hall. enough ((0 =? 1) = true) by done. apply Hall.
  assert (p = 0 \/ p = 1 \/ p = 2 \/ p = 3 \/ p = 4 \/ p = 5) as Hc by lia. simpl.
  destruct Hc as [-> | [-> | [-> | [-> | [-> | ->]]]]]; tauto.
Qed.

(** The PCB of a process is found from any stack pointer within its stack. *)
Lemma pcb_addr_of_esp p e : 0 <= p < 6 -> 0 <= e - (SIZE_8MB - (p + 1) * page8KB) < page8KB ->
  Z.land e 0xffffe000 = pcb_addr p.
Proof.
  intros Hp He. unfold SIZE_8MB, page8KB in He. unfold pcb_addr, page8MB, page8KB.
  replace 0xffffe000 with (Z.shiftl (Z.ones 19) 13) by done.
  replace (Z.land e (Z.shiftl (Z.ones 19) 13)) with (Z.shiftl (bits e 13 19) 13).
  - bits_arith.
  - apply Z.bits_inj'. intros i Hi. rewrite Z.land_spec, !Z.shiftl_spec by lia.
    destruct (Z.lt_ge_cases i 13).
    + rewrite !(Z.testbit_neg_r _ (i - 13)) by lia. symmetry. apply andb_false_r.
    + rewrite bits_testbit, Z.testbit_ones by lia. replace (i - 13 + 13) with i by lia.
      by rewrite andb_assoc.
Qed.

(** The terminal structures, and nothing else. *)
Definition only_terminals (k k' : kstate) : Prop :=
  k' = k <| procs; terminals := terminals (procs k') |> <| procs; terminal_shell := terminal_shell (procs k') |>
         <| procs; running_terminal := running_terminal (procs k') |>.
Lemma only_terminals_refl k : only_terminals k k.
Proof. by destruct k as [? ? ? ? ? ? ? ? [] ? ?]. Qed.

Lemma enter_terminal_only p k : only_terminals k (enter_terminal p k).
Proof.
  unfold enter_terminal. case_match.
  - case_match; by destruct k as [? ? ? ? ? ? ? ? [] ? ?].
  - apply (loop_or_inv (fun _ => True) (only_terminals k)); [|done|apply only_terminals_refl].
    intros i _. repeat case_match; simplify_eq; try done; try apply only_terminals_refl;
      by destruct k as [? ? ? ? ? ? ? ? [] ? ?].
Qed.
Lemma leave_terminal_only p k : only_terminals k (leave_terminal p k).
Proof.
  unfold leave_terminal. apply (loop_or_inv (fun _ => True) (only_terminals k)); [|done|apply only_terminals_refl].
  intros i _. repeat case_match; simplify_eq; try done; try apply only_terminals_refl;
    by destruct k as [? ? ? ? ? ? ? ? [] ? ?].
Qed.

(** How the process list of a terminal changes when process [p] is entered: a
    terminal without a shell gets it first; another gets it in its first free
    place, and nowhere when it has none. *)
Definition entered (p : Z) (t t' : terminal_t) : Prop :=
  if terminal_flag t =? 1 then
    (processes t').[0] = s8 p /\ (forall j, j <> 0 -> (processes t').[j] = (processes t).[j]) /\
    terminal_flag t' = 0
  else
    terminal_flag t' = terminal_flag t /\
    ((exists j, 0 <= j < 4 /\ (processes t).[j] = -1 /\ (forall i, 0 <= i < j -> (processes t).[i] <> -1) /\
        (processes t').[j] = s8 p /\ forall i, i <> j -> (processes t').[i] = (processes t).[i]) \/
     ((forall j, 0 <= j < 4 -> (processes t).[j] <> -1) /\ t' = t)).

Lemma enter_terminal_entered p k : entered p (term_at k (active k)) (term_at (enter_terminal p k) (active k)).
Proof.
  unfold enter_terminal, entered. cbv zeta. set (d := active k).
  destruct (terminal_flag (term_at k d) =? 1).
  - set (k1 := if d =? 0 then _ else k). assert (term_at (k1 <| procs; running_terminal := d |>) d = term_at k d) as E1
      by (unfold k1; by destruct (d =? 0)).
    rewrite term_at_upd, Z.eqb_refl. unfold set_processes. rewrite term_at_upd, Z.eqb_refl, E1. simpl.
    split_and!; [apply elem_same|by intros j Hj; apply elem_other|done].
  - apply (loop_or_rule (fun i => 0 <= i <= 4 /\ forall j, 0 <= j < i -> (processes (term_at k d)).[j] <> -1)
      (fun i => 4 - i)); [|split; lia|lia].
    intros i [Hi Hno]. destruct (Z.ltb_spec i 4).
    + unfold processes_at. destruct (Z.eqb_spec (processes (term_at k d)).[i] (-1)).
      * unfold set_processes. rewrite term_at_upd, Z.eqb_refl. simpl. split; [done|]. left. exists i.
        split_and!; [lia|lia|done|done|apply elem_same|by intros j Hj; apply elem_other].
      * split; [|lia]. split; [lia|]. intros j Hj. destruct (Z.eq_dec j i) as [->|]; [done|apply Hno; lia].
    + split; [done|]. right. split; [|done]. intros j Hj. apply Hno. lia.
Qed.

Lemma enter_terminal_keys p k d : keyboard_buf (term_at (enter_terminal p k) d) = keyboard_buf (term_at k d).
Proof.
  assert (forall k f, (forall t, keyboard_buf (f t) = keyboard_buf t) ->
    keyboard_buf (term_at (upd_term (active k) f k) d) = keyboard_buf (term_at k d)) as Hu.
  { intros k0 f Hf. rewrite term_at_upd. destruct (Z.eqb_spec (active k0) d) as [<-|]; [apply Hf|done]. }
  unfold enter_terminal. case_match.
  - set (k1 := if active k =? 0 then _ else k).
    assert (forall e, term_at k1 e = term_at k e) as E1 by (intros e; unfold k1; by destruct (active k =? 0)).
    assert (active k1 = active k) as Ea by (unfold k1; by destruct (active k =? 0)). clearbody k1.
    set (k2 := set_processes (active k) 0 p _).
    assert (active k2 = active k) as Ea2 by (change (active k2) with (active k1); done).
    pose proof (Hu k2 (fun t => t <| terminal_flag := 0 |>) ltac:(done)) as H2. rewrite Ea2 in H2. rewrite H2.
    pose proof (Hu (k1 <| procs; running_terminal := active k |>) (fun t => t <| processes := <[0 := s8 p]> (processes t) |>) ltac:(done)) as H3.
    change (active (k1 <| procs; running_terminal := active k |>)) with (active k1) in H3. rewrite Ea in H3.
    etransitivity; [exact H3|]. change (term_at (k1 <| procs; running_terminal := active k |>) d) with (term_at k1 d). by rewrite E1.
  - apply (loop_or_inv (fun _ => True) (fun k' => keyboard_buf (term_at k' d) = keyboard_buf (term_at k d))); [|done|done].
    intros i _. repeat case_match; simplify_eq; try done.
    exact (Hu k (fun t => t <| processes := <[i := s8 p]> (processes t) |>) ltac:(done)).
Qed.

(** Process [p] is taken from the list where it stands first. *)
Definition removed (p : Z) (t t' : terminal_t) : Prop :=
  (exists j, 0 <= j < 4 /\ u32 (processes t).[j] = p /\ (forall i, 0 <= i < j -> u32 (processes t).[i] <> p) /\
     (processes t').[j] = -1 /\ forall i, i <> j -> (processes t').[i] = (processes t).[i]) \/
  ((forall j, 0 <= j < 4 -> u32 (processes t).[j] <> p) /\ t' = t).

Lemma leave_terminal_removed p k : removed p (term_at k (active k)) (term_at (leave_terminal p k) (active k)).
Proof.
  unfold leave_terminal, removed. cbv zeta. set (d := active k).
  apply (loop_or_rule (fun i => 0 <= i <= 4 /\ forall j, 0 <= j < i -> u32 (processes (term_at k d)).[j] <> p)
    (fun i => 4 - i)); [|split; lia|lia].
  intros i [Hi Hno]. destruct (Z.ltb_spec i 4).
  + unfold processes_at. destruct (Z.eqb_spec (u32 (processes (term_at k d)).[i]) p).
    * left. exists i. unfold set_processes. rewrite term_at_upd, Z.eqb_refl. simpl.
      split_and!; [lia|lia|done|done|apply elem_same|by intros j Hj; apply elem_other].
    * split; [|lia]. split; [lia|]. intros j Hj. destruct (Z.eq_dec j i) as [->|]; [done|apply Hno; lia].
  + right. split; [|done]. intros j Hj. apply Hno. lia.
Qed.
Lemma leave_terminal_keys p k d : keyboard_buf (term_at (leave_terminal p k) d) = keyboard_buf (term_at k d) /\
  terminal_flag (term_at (leave_terminal p k) d) = terminal_flag (term_at k d).
Proof.
  unfold leave_terminal. apply (loop_or_inv (fun _ => True)
    (fun k' => keyboard_buf (term_at k' d) = keyboard_buf (term_at k d) /\ terminal_flag (term_at k' d) = terminal_flag (term_at k d)));
    [|done|done].
  intros i _. repeat case_match; simplify_eq; try done. unfold set_processes. rewrite term_at_upd. by destruct (Z.eqb_spec (active k) d) as [<-|].
Qed.
End slots.

(** ** Setting up a process *)

Section setup.
Context `{Platform}.

Lemma upd_pcb_compose a f g k : upd_pcb a f (upd_pcb a g k) = upd_pcb a (fun p => f (g p)) k.
Proof.
  unfold upd_pcb at 1. rewrite pcb_at_upd, Z.eqb_refl. unfold upd_pcb, put_pcb. simpl.
  by rewrite insert_insert_eq.
Qed.
Lemma upd_pcb_ext a f g k : (forall p, f p = g p) -> upd_pcb a f k = upd_pcb a g k.
Proof. intros E. unfold upd_pcb. by rewrite E. Qed.

(** The descriptors of a new process: standard input and output, and none else. *)
Record fresh_fds (p : pcb_t) : Prop := {
  ff_stdin : fops_ptr (fd_at p 0) = FopsStdin /\ flags (fd_at p 0) = 1 /\ file_pos (fd_at p 0) = 0;
  ff_stdout : fops_ptr (fd_at p 1) = FopsStdout /\ flags (fd_at p 1) = 1 /\ file_pos (fd_at p 1) = 0;
  ff_rest : forall i, 2 <= i < 8 -> flags (fd_at p i) = 0
}.

Definition only_fds (g : pcb_t -> pcb_t) : Prop := forall p, g p = p <| fds := fds (g p) |>.

Lemma setup_fds_spec t k : exists g, setup_fds t k = upd_pcb t g k /\ only_fds g /\ forall p, fresh_fds (g p).
Proof.
  unfold setup_fds. cbv zeta. set (k1 := upd_fd t 1 _ _).
  cut (exists g, for_loop 2 8 (fun temp k => upd_fd t temp (fun d => d <| flags := NOT_USED |>) k) k1 = upd_pcb t g k /\
    only_fds g /\ forall p,
      (fops_ptr (fd_at (g p) 0) = FopsStdin /\ flags (fd_at (g p) 0) = 1 /\ file_pos (fd_at (g p) 0) = 0) /\
      (fops_ptr (fd_at (g p) 1) = FopsStdout /\ flags (fd_at (g p) 1) = 1 /\ file_pos (fd_at (g p) 1) = 0) /\
      forall i, 2 <= i < 8 -> flags (fd_at (g p) i) = 0).
  { intros (g & E & Ho & Hg). exists g. split; [done|]. split; [done|]. intros p. specialize (Hg p).
    destruct Hg as (? & ? & ?). by split. }
  apply (for_loop_rule (fun n k' => exists g, k' = upd_pcb t g k /\ only_fds g /\ forall p,
      (fops_ptr (fd_at (g p) 0) = FopsStdin /\ flags (fd_at (g p) 0) = 1 /\ file_pos (fd_at (g p) 0) = 0) /\
      (fops_ptr (fd_at (g p) 1) = FopsStdout /\ flags (fd_at (g p) 1) = 1 /\ file_pos (fd_at (g p) 1) = 0) /\
      forall i, 2 <= i < n -> flags (fd_at (g p) i) = 0)); [done| |].
  - eexists. split; [unfold k1, upd_fd; apply upd_pcb_compose|]. split; [intros p; reflexivity|].
    intros p. rewrite !fd_at_put. split_and!; (done || lia).
  - intros i k' Hi (g & -> & Ho & Hg). eexists. split; [unfold upd_fd; apply upd_pcb_compose|].
    split; [intros p; cbv beta; rewrite (Ho p) at 2; reflexivity|].
    intros p. destruct (Hg p) as (H0 & H1 & Hr). rewrite !fd_at_put.
    test_false (i =? 0). test_false (i =? 1). split_and!; [apply H0..|apply H1|apply H1|apply H1|].
    intros j Hj. rewrite fd_at_put. destruct (Z.eqb_spec i j) as [->|]; [done|]. apply Hr. lia.
Qed.

(** The arguments are copied into the PCB. *)
Lemma strcpy_args arg_dat m (a : mem) : is_cstr (fun i => get8 arg_dat i) m -> m < 2147483647 ->
  exists a', strcpy 0 (fun _ i => get8 (arg_dat : mem) i) a = Some a' /\
    forall j, 0 <= j <= m -> get8 a' j = get8 arg_dat j.
Proof.
  intros Hs Hm. destruct (strcpy_filled (A:=mem) 0 (fun _ i => get8 arg_dat i) m a) as (a' & -> & Hin & _);
    [done|lia|apply mem_sep_range|done|intros; apply get8_range|].
  exists a'. split; [done|]. intros j Hj. by rewrite <- (Hin j) by lia.
Qed.

(** The image lies in the first 8 MB, which the kernel sees one to one. *)
Record low_image (k : kstate) : Prop := {
  li_map : kernel_map (mmu k);
  li_low : 0 <= img k;
  li_high : img k + 4096 * (n_inodes k + 1 + data_count (fs k)) <= SIZE_8MB
}.

Lemma page_switch_low p k va : 0 <= p < 8 -> kernel_map (mmu k) -> 0 <= va < SIZE_8MB ->
  ld8 (page_switch p k) va = ld8 k va.
Proof.
  intros Hp Hm Hva. unfold ld8, vspace.
  change (mem_get (pmem (page_switch p k)) (xlate (mmu (page_switch p k)) va) =
          mem_get (pmem k) (xlate (mmu k) va)).
  unfold xlate. rewrite !kernel_map_walk by (done || by apply page_switch_kernel_map).
  by destruct (page_switch_entry p k Hp) as [-> _].
Qed.
Lemma page_switch_image p k : 0 <= p < 8 -> low_image k -> same_image k (page_switch p k).
Proof.
  intros Hp [Hm Hl Hh]. split; [by destruct (page_switch_entry p k Hp) as [-> _]|].
  intros o Ho. apply page_switch_low; [done|done|lia].
Qed.

(** In the address space of [p], a buffer of its page is apart from the image. *)
Lemma user_buf_apart p k ino buf n : 0 <= p < 8 -> low_image k -> file_wf k ino ->
  SIZE_128MB <= buf -> buf + n <= SIZE_132MB -> buf_apart (page_switch p k) buf n.
Proof.
  intros Hp Hli Hwf Hb Hn.
  assert (forall i, 0 <= i < n -> loc (vspace (page_switch p k)) (buf + i) =
            SIZE_8MB + p * SIZE_4MB + (buf + i - SIZE_128MB)) as Hloc.
  { intros i Hi. change (xlate (mmu (page_switch p k)) (buf + i) = SIZE_8MB + p * SIZE_4MB + (buf + i - SIZE_128MB)).
    unfold xlate. rewrite page_switch_user; [done|apply Hli|done|lia]. }
  pose proof (page_switch_kernel_map p k Hp (li_map _ Hli)) as Hm'.
  destruct (same_image_file k _ ino (page_switch_image p k Hp Hli) Hwf) as (Ei & Ed & En & _).
  split.
  - intros i j Hi Hj. rewrite !Hloc by done. lia.
  - intros o Ho i Hi. rewrite Hloc by done. destruct Hli as [Hm Hl Hh]. rewrite En, Ed in Ho. rewrite Ei.
    change (SIZE_8MB + p * SIZE_4MB + (buf + i - SIZE_128MB) <> xlate (mmu (page_switch p k)) (img k + o)).
    unfold xlate. rewrite kernel_map_walk by (done || lia).
    unfold SIZE_8MB, SIZE_4MB, SIZE_128MB in *. lia.
Qed.

(** The memory of the page of process [p]. *)
Definition page_of (p pa : Z) : Prop := SIZE_8MB + p * SIZE_4MB <= pa < SIZE_8MB + (p + 1) * SIZE_4MB.

(** The text of the program is in the user page, to the last byte of its file. *)
Lemma load_program_loads p k ino : 0 <= p < 8 -> low_image k -> file_wf k ino ->
  file_length k ino < 0x3B8000 ->
  let k' := load_program ino (page_switch p k) in
  only_mem (page_switch p k) k' /\
  (forall j, 0 <= j < file_length k ino -> ld8 k' (0x8048000 + j) = file_byte k ino j) /\
  (forall va, 0 <= va < SIZE_8MB -> ld8 k' va = ld8 k va) /\
  forall pa, ~ page_of p pa -> mem_get (pmem k') pa = mem_get (pmem k) pa.
Proof.
  intros Hp Hli Hwf Hlen. cbv zeta. split; [apply read_data_only_mem|].
  pose proof (page_switch_image p k Hp Hli) as Hsi. pose proof (same_image_wf _ _ _ Hsi Hwf) as Hwf'.
  destruct (same_image_file _ _ ino Hsi Hwf) as (_ & _ & _ & El & _). pose proof (wf_length _ _ Hwf).
  assert (buf_apart (page_switch p k) 0x8048000 (file_length k ino + 1)) as Hba
    by (apply (user_buf_apart p k ino); unfold SIZE_128MB, SIZE_132MB; (done || lia)).
  pose proof (fun j => same_image_byte _ _ ino j Hsi Hwf) as Hb.
  assert (forall va n, 0 <= va < SIZE_8MB -> n <= file_length k ino + 1 ->
    outside (vspace (page_switch p k)) 0x8048000 n va) as Hlow.
  { intros va n Hva Hn i Hi.
    change (xlate (mmu (page_switch p k)) (0x8048000 + i) <> xlate (mmu (page_switch p k)) va). unfold xlate.
    rewrite page_switch_user by (apply Hli || unfold SIZE_128MB, SIZE_132MB; lia).
    rewrite kernel_map_walk; [|apply page_switch_kernel_map; [done|apply Hli]|done].
    unfold SIZE_8MB, SIZE_4MB, SIZE_128MB in *. lia. }
  assert (forall va, 0 <= va < SIZE_8MB -> ld8 (page_switch p k) va = ld8 k va) as Hsw
    by (intros; by apply page_switch_low; [|apply Hli|]).
  assert (forall pa n, ~ page_of p pa -> n <= file_length k ino + 1 -> away (vspace (page_switch p k)) 0x8048000 n pa) as Haway.
  { intros pa n Hpa Hn i Hi. change (xlate (mmu (page_switch p k)) (0x8048000 + i) <> pa). unfold xlate.
    rewrite page_switch_user by (apply Hli || unfold SIZE_128MB, SIZE_132MB; lia).
    unfold page_of, SIZE_8MB, SIZE_4MB, SIZE_128MB in *. lia. }
  assert (pmem (page_switch p k) = pmem k) as Epm by (by destruct (page_switch_entry p k Hp) as [-> _]).
  unfold load_program. change (SIZE_128MB + 0x48000) with 0x8048000. change (1023 * 4096) with 4190208.
  revert Hwf' Hba El Hb Hlow Hsw Haway Epm. clear Hli Hsi. generalize (page_switch p k) as k1.
  intros k1 Hwf' Hba El Hb Hlow Hsw Haway Epm.
  pose proof (read_data_post_holds k1 ino 0 0x8048000 4190208 Hwf') as Hp1. rewrite El in Hp1.
  assert (buf_apart k1 0x8048000 (Z.min 4190208 (file_length k ino - 0 + 1))) as Hba'
    by (eapply buf_apart_le; [|done]; lia).
  specialize (Hp1 ltac:(lia) ltac:(lia) ltac:(lia) Hba').
  destruct (read_data ino 0 0x8048000 4190208 k1) as [r k2]. destruct Hp1 as (_ & H2 & H3).
  assert (exists n, file_length k ino <= n <= file_length k ino + 1 /\ copied k1 k2 ino 0 0x8048000 n) as (n & Hn & Hc).
  { rewrite El in H2, H3. destruct (Z.le_gt_cases (data_count (fs k1)) (u32 (block_of k1 ino (file_length k ino / 4096)))) as [Hbad|Hok].
    - exists (file_length k ino - 0). split; [lia|]. apply H3; [lia|]. unfold block_ok. lia.
    - exists (file_length k ino - 0 + 1). split; [lia|]. apply H2; [lia|done]. }
  split; [|split].
  - intros j Hj. rewrite <- Hb by done. destruct Hc as [_ (Hin & _)]. apply (Hin j). lia.
  - intros va Hva. rewrite <- Hsw by done. apply (wrote_ld8 _ _ _ _ _ _ Hc). apply Hlow; [done|lia].
  - intros pa Hpa. rewrite <- Epm. apply (wrote_away _ _ _ _ _ _ Hc). apply Haway; [done|lia].
Qed.
End setup.

(** ** [execute] of a valid command *)

Section start.
Context `{Platform}.

(** [k'] differs from [k] by the globals of syscall.c only. *)
Definition only_procs (k k' : kstate) : Prop := k' = k <| procs := procs k' |>.

(** The keyboard, the devices and the pending interrupts are the same. *)
Record same_input (k k' : kstate) : Prop := {
  in_io : io k' = io k;
  in_irqs : irqs k' = irqs k;
  in_kbd : kbd k' = kbd k;
  in_pic : pic k' = pic k;
  in_keys : forall d, keyboard_buf (term_at k' d) = keyboard_buf (term_at k d)
}.

(** The descriptors, arguments and parent of a process are the same. *)
Record same_files (q q' : pcb_t) : Prop := {
  sf_fds : fds q' = fds q;
  sf_args : args q' = args q;
  sf_parent : parent q' = parent q
}.

(** What [setup_pcb] has done before it switches to the page of the process. *)
Record pcb_ready (p m : Z) (arg_dat : mem) (k k' : kstate) : Prop := {
  pr_only : only_procs k k';
  pr_slots : pcb_state (procs k') = pcb_state (procs k);
  pr_active : active k' = active k /\ tables (procs k') = tables (procs k);
  pr_args : forall j, 0 <= j <= m -> get8 (args (pcb_at k' (pcb_addr p))) j = get8 arg_dat j;
  pr_stale : let s := parent (pcb_at k (pcb_addr p)) in
    pid (pcb_at k' s) = u32 (processes_at k' (active k') 0) /\
    (s <> pcb_addr p -> pid (pcb_at k' (pcb_addr p)) = p);
  pr_terminal : entered p (term_at k (active k)) (term_at k' (active k));
  pr_others : forall a, a <> pcb_addr p -> a <> parent (pcb_at k (pcb_addr p)) -> pcb_at k' a = pcb_at k a;
  pr_files : forall a, a <> pcb_addr p -> same_files (pcb_at k a) (pcb_at k' a);
  pr_keys : forall d, keyboard_buf (term_at k' d) = keyboard_buf (term_at k d)
}.

Lemma setup_pcb_spec p m arg_dat k : is_cstr (fun i => get8 arg_dat i) m -> m < 2147483647 ->
  exists k', setup_pcb p arg_dat k = Some (page_switch p k') /\ pcb_ready p m arg_dat k k'.
Proof.
  intros Hs Hm. unfold setup_pcb. cbv zeta. set (t := pcb_addr p).
  set (k1 := upd_pcb t _ k). pose proof (enter_terminal_only p k1) as Ho.
  pose proof (enter_terminal_entered p k1) as Hent. pose proof (enter_terminal_keys p k1) as Hkeys.
  revert Ho Hent Hkeys. generalize (enter_terminal p k1) as k2. intros k2 Ho Hent Hkeys.
  assert (forall a, pcb_at k2 a = pcb_at k1 a) as Ek by (intros a; by rewrite Ho).
  assert (parent (pcb_at k2 t) = parent (pcb_at k t)) as Es
    by (rewrite Ek; unfold k1; by rewrite pcb_at_upd, Z.eqb_refl).
  rewrite Es. set (s := parent (pcb_at k t)). set (v := u32 _).
  set (k3 := upd_pcb s _ k2).
  destruct (strcpy_args arg_dat m (args (pcb_at k3 t)) Hs Hm) as (a & -> & Ha).
  set (k4 := upd_pcb t _ k3). exists k4. split; [done|].
  assert (forall b, pcb_at k4 b =
    let q := if t =? b then (pcb_at k t) <| pid := p |> else pcb_at k b in
    let q := if s =? b then q <| pid := v |> else q in
    if t =? b then q <| args := a |> else q) as E4.
  { intros b. cbv zeta. unfold k4, k3. rewrite !pcb_at_upd, !Ek. unfold k1. rewrite !pcb_at_upd.
    rewrite !Z.eqb_refl. destruct (Z.eqb_spec t b) as [Eb|Eb].
    - rewrite <- Eb. destruct (Z.eqb_spec s t) as [Est|]; [by test_true (t =? s)|done].
    - destruct (Z.eqb_spec s b) as [<-|]; [|done]. by test_false (t =? s). }
  split.
  - unfold only_procs, k4, k3. rewrite Ho. done.
  - change (pcb_state (procs k4)) with (pcb_state (procs k2)). by rewrite Ho.
  - split; [change (active k4) with (active k2)|change (tables (procs k4)) with (tables (procs k2))]; by rewrite Ho.
  - intros j Hj. fold t. rewrite E4, Z.eqb_refl. cbv zeta. by apply Ha.
  - cbv zeta. fold t. change (processes_at k4 (active k4) 0) with (processes_at k2 (active k2) 0).
    fold s v. rewrite !E4, !Z.eqb_refl. split.
    + cbv zeta. by destruct (t =? s).
    + intros Hst. by test_false (s =? t).
  - exact Hent.
  - intros b Hb1 Hb2. fold t in Hb1, Hb2. fold s in Hb2. rewrite E4.
    test_false (t =? b). by test_false (s =? b).
  - intros b Hb. fold t in Hb. rewrite E4. cbv zeta. test_false (t =? b). by destruct (s =? b).
  - intros d. exact (Hkeys d).
Qed.

(** What [execute] leaves for the process it starts in slot [p]. *)
Record started (p ino m : Z) (arg_dat : mem) (k k' : kstate) : Prop := {
  st_slots : proc_used k' p = 1 /\ forall q, q <> p -> proc_used k' q = proc_used k q;
  st_identity : parent (pcb_at k (pcb_addr p)) <> pcb_addr p -> pid (pcb_at k' (pcb_addr p)) = p;
  st_parent : parent (pcb_at k' (pcb_addr p)) = get_pcb k /\
    kbp (pcb_at k' (get_pcb k)) = ebp (cpu k) /\ ksp (pcb_at k' (get_pcb k)) = esp (cpu k) /\
    ss0 (pcb_at k' (get_pcb k)) = tss_ss0 (cpu k) /\ esp0 (pcb_at k' (get_pcb k)) = tss_esp0 (cpu k);
  st_args : forall j, 0 <= j <= m -> get8 (args (pcb_at k' (pcb_addr p))) j = get8 arg_dat j;
  st_fds : fresh_fds (pcb_at k' (pcb_addr p));
  st_stack : tss_ss0 (cpu k') = 0x18 /\ Z.land (tss_esp0 (cpu k')) 0xffffe000 = pcb_addr p;
  st_map : kernel_map (mmu k') /\ forall user va, SIZE_128MB <= va < SIZE_132MB ->
    walk user (mmu k') va = Some (SIZE_8MB + p * SIZE_4MB + (va - SIZE_128MB));
  st_text : forall j, 0 <= j < file_length k ino -> ld8 k' (0x8048000 + j) = file_byte k ino j;
  st_stale : let s := parent (pcb_at k (pcb_addr p)) in
    s <> pcb_addr p -> pid (pcb_at k' s) = u32 (processes_at k' (active k') 0);
  st_caller : get_pcb k <> pcb_addr p -> get_pcb k <> parent (pcb_at k (pcb_addr p)) ->
    pid (pcb_at k' (get_pcb k)) = pid (cur_pcb k);
  st_terminal : entered p (term_at k (active k)) (term_at k' (active k));
  st_active : active k' = active k /\ tables_ready k';
  st_esp0 : tss_esp0 (cpu k') = SIZE_8MB - p * page8KB - 4;
  st_fs : fs k' = fs k;
  st_con : con k' = con k;
  st_low : forall va, 0 <= va < SIZE_8MB -> outside (vspace k) (exe_data k) 40 va -> ld8 k' va = ld8 k va;
  st_memory : forall pa, ~ page_of p pa -> away (vspace k) (exe_data k) 40 pa -> mem_get (pmem k') pa = mem_get (pmem k) pa;
  st_others : forall a, a <> pcb_addr p -> same_files (pcb_at k a) (pcb_at k' a);
  st_input : same_input k k'
}.

(** The entry of the new process in the TSS is within its kernel stack. *)
Lemma esp0_pcb p : 0 <= p < 6 -> Z.land (SIZE_8MB - p * page8KB - 4) 0xffffe000 = pcb_addr p.
Proof. intros Hp. apply pcb_addr_of_esp; [done|]. unfold SIZE_8MB, page8KB. lia. Qed.

Lemma setup_return_pcb p t k b :
  pcb_at (setup_return p t k) b =
    let q := if t =? b then (pcb_at k t) <| parent := get_pcb k |> else pcb_at k b in
    if get_pcb k =? b
    then q <| kbp := ebp (cpu k) |> <| ksp := esp (cpu k) |> <| ss0 := tss_ss0 (cpu k) |> <| esp0 := tss_esp0 (cpu k) |>
    else q.
Proof.
  unfold setup_return. cbv zeta. set (k1 := upd_pcb t _ k).
  change (pcb_at (upd2 cpu tss_esp0 _ _) b) with
    (pcb_at (upd_pcb (get_pcb k) (fun p => p <| esp0 := tss_esp0 (cpu k) |>)
      (upd_pcb (get_pcb k) (fun p => p <| ss0 := tss_ss0 (cpu k) |>)
        (upd_pcb (get_pcb k) (fun p => p <| ksp := esp (cpu k) |>)
          (upd_pcb (get_pcb k) (fun p => p <| kbp := ebp (cpu k) |>) k1)))) b).
  rewrite !upd_pcb_compose, pcb_at_upd. unfold k1. rewrite !pcb_at_upd.
  destruct (Z.eqb_spec (get_pcb k) b) as [->|]; done.
Qed.

Lemma only_procs_low_image k k' : only_procs k k' -> low_image k -> low_image k'.
Proof. unfold only_procs. intros E [Hm Hl Hh]. rewrite E. by split. Qed.
Lemma only_procs_file k k' ino : only_procs k k' -> file_wf k ino ->
  file_wf k' ino /\ file_length k' ino = file_length k ino /\ forall j, file_byte k' ino j = file_byte k ino j.
Proof. unfold only_procs. intros E [H1 H2 H3 H4]. rewrite E. by split. Qed.

(** The components of the state the last steps of [execute] leave alone. *)
Lemma setup_return_frame p t k :
  let k' := setup_return p t k in
  pmem k' = pmem k /\ mmu k' = mmu k /\ pcb_state (procs k') = pcb_state (procs k) /\
  tables (procs k') = tables (procs k) /\ active k' = active k /\
  terminals (procs k') = terminals (procs k) /\
  tss_ss0 (cpu k') = 0x18 /\ tss_esp0 (cpu k') = SIZE_8MB - p * page8KB - 4.
Proof. done. Qed.

(** The last steps of [execute], from the state [setup_pcb] prepared: the PCBs
    they leave, and the components they do not change. *)
Lemma finish_process p ino k : 0 <= p < 6 -> low_image k -> file_wf k ino -> file_length k ino < 0x3B8000 ->
  let t := pcb_addr p in
  exists k' g, setup_return p t (setup_fds t (load_program ino (page_switch p k))) = k' /\
    (forall q, fresh_fds (g q) /\ pid (g q) = pid q /\ args (g q) = args q) /\
    (forall b, pcb_at k' b =
       let q := if t =? b then (g (pcb_at k t)) <| parent := get_pcb k |> else pcb_at k b in
       if get_pcb k =? b
       then q <| kbp := ebp (cpu k) |> <| ksp := esp (cpu k) |> <| ss0 := tss_ss0 (cpu k) |> <| esp0 := tss_esp0 (cpu k) |>
       else q) /\
    pcb_state (procs k') = pcb_state (procs k) /\ tables (procs k') = tables (procs k) /\
    active k' = active k /\ terminals (procs k') = terminals (procs k) /\
    tss_ss0 (cpu k') = 0x18 /\ tss_esp0 (cpu k') = SIZE_8MB - p * page8KB - 4 /\
    mmu k' = mmu (page_switch p k) /\ fs k' = fs k /\ con k' = con k /\
    io k' = io k /\ irqs k' = irqs k /\ kbd k' = kbd k /\ pic k' = pic k /\
    (forall va, 0 <= va < SIZE_8MB -> ld8 k' va = ld8 k va) /\
    (forall pa, ~ page_of p pa -> mem_get (pmem k') pa = mem_get (pmem k) pa) /\
    forall j, 0 <= j < file_length k ino -> ld8 k' (0x8048000 + j) = file_byte k ino j.
Proof.
  intros Hp Hli Hwf Hlen t.
  destruct (load_program_loads p k ino ltac:(lia) Hli Hwf ltac:(lia)) as (Hmem & Htext & Hlow & Hrest).
  destruct (page_switch_entry p k ltac:(lia)) as [Hmmu _].
  revert Hmem Htext Hmmu Hlow Hrest. generalize (load_program ino (page_switch p k)) as k3.
  generalize (page_switch p k) as k2. intros k2 k3 Hmem Htext Hmmu Hlow Hrest.
  destruct (setup_fds_spec t k3) as (g & -> & Hg & Hfresh). eexists _, g. split; [reflexivity|].
  assert (procs k3 = procs k /\ cpu k3 = cpu k /\ mmu k3 = mmu k2 /\ fs k3 = fs k /\ con k3 = con k /\
    io k3 = io k /\ irqs k3 = irqs k /\ kbd k3 = kbd k /\ pic k3 = pic k) as (E3 & C3 & M3 & Fs3 & Co3 & Io3 & Ir3 & Kb3 & Pi3)
    by (by rewrite Hmem, Hmmu).
  set (k4 := upd_pcb t g k3).
  destruct (setup_return_frame p t k4) as (F1 & F2 & F3 & F4 & F5 & F6 & F7 & F8).
  assert (get_pcb k4 = get_pcb k) as G4.
  { unfold get_pcb. change (cpu k4) with (cpu k3). by rewrite C3. }
  assert (forall b, pcb_at k4 b = if t =? b then g (pcb_at k t) else pcb_at k b) as P4.
  { intros b. unfold k4. rewrite pcb_at_upd. unfold pcb_at. by rewrite E3. }
  split; [intros q; split; [apply Hfresh|by rewrite (Hg q)]|].
  split; [|rewrite <- E3; split_and!; try done].
  - intros b. rewrite (setup_return_pcb p t k4). change (cpu k4) with (cpu k3). rewrite G4, C3.
    rewrite !P4, Z.eqb_refl. by destruct (t =? b).
  - unfold active. rewrite <- E3. exact F5.
Qed.

(** The process is set up in the lowest free slot. *)
Lemma start_process_started p ino entry m arg_dat k :
  lowest_free k p -> is_cstr (fun i => get8 arg_dat i) m -> m < 2147483647 ->
  low_image k -> file_wf k ino -> file_length k ino < 0x3B8000 -> tables_ready k ->
  exists k', start_process ino entry arg_dat k = Jmp (IretUser (u32 entry) 0x083FFFFC 0x23 0x2B) k' /\
    started p ino m arg_dat k k'.
Proof.
  intros Hfree Hs Hm Hli Hwf Hlen Hready. destruct (Hfree) as (Hp & _).
  unfold start_process. rewrite bind_get, (all_used_false _ _ Hfree).
  unfold bind at 1, run. rewrite (alloc_process_lowest _ _ Hfree), bind_get.
  destruct (setup_pcb_spec p m arg_dat (set_proc_used p 1 k) Hs Hm)
    as (k1 & -> & [Ho Eslots [Eact Etab] Eargs [Estale Epid] Hent Eoth Efil Ekeys]).
  rewrite !bind_modify. unfold jump_to. eexists. split; [done|].
  assert (only_procs k k1) as Ho1 by (unfold only_procs in *; by rewrite Ho).
  pose proof (only_procs_low_image _ _ Ho1 Hli) as Hli1.
  destruct (only_procs_file _ _ _ Ho1 Hwf) as (Hwf1 & El1 & Eb1).
  pose proof (page_switch_kernel_map p k1 ltac:(lia) (li_map _ Hli1)) as Hkm.
  pose proof (fun user va => page_switch_user user p k1 va (km_on _ (li_map _ Hli1)) ltac:(lia)) as Hwalk.
  destruct (finish_process p ino k1 Hp Hli1 Hwf1 ltac:(lia))
    as (k5 & g & -> & Hg & Fp & F3 & F4 & F5 & F6 & F7 & F8 & F2 & F9 & F10 & I1 & I2 & I3 & I4 & F11 & F12 & Htext).
  assert (get_pcb k1 = get_pcb k /\ cpu k1 = cpu k) as [G1 C1] by (rewrite Ho1; done).
  rewrite G1, C1 in Fp. cbv zeta in Fp. set (t := pcb_addr p) in *.
  destruct (Hg (pcb_at k1 t)) as (Hfresh & Gp & Ga). clear Hg.
  change (pcb_at (set_proc_used p 1 k)) with (pcb_at k) in *. change (active (set_proc_used p 1 k)) with (active k) in *.
  split; fold t; change (pcb_at (sti k5)) with (pcb_at k5); rewrite ?Fp, ?Z.eqb_refl.
  - unfold proc_used. change (procs (sti k5)) with (procs k5). rewrite F3, Eslots. simpl.
    split; [by rewrite elem_same|]. intros q Hq. by rewrite elem_other by done.
  - intros Hst. destruct (get_pcb k =? t); simpl; rewrite Gp; by apply Epid.
  - split; [by destruct (get_pcb k =? t)|done].
  - intros j Hj. destruct (get_pcb k =? t); simpl; rewrite Ga; by apply Eargs.
  - destruct (get_pcb k =? t); destruct Hfresh; by split.
  - simpl. rewrite F7, F8. split; [done|by apply esp0_pcb].
  - change (mmu (sti k5)) with (mmu k5). by rewrite F2.
  - intros j Hj. rewrite <- Eb1, <- Htext by lia. done.
  - cbv zeta. intros Hst. rewrite Fp. test_false (t =? parent (pcb_at k t)). cbv iota.
    change (active (sti k5)) with (active k5). unfold processes_at, term_at.
    change (procs (sti k5)) with (procs k5). rewrite F5, F6.
    destruct (get_pcb k =? parent (pcb_at k t)); exact Estale.
  - intros Hg1 Hg2. test_false (t =? get_pcb k). cbv iota. simpl.
    by rewrite Eoth by done.
  - unfold term_at at 2. change (procs (sti k5)) with (procs k5). rewrite F6. exact Hent.
  - change (active (sti k5)) with (active k5). unfold tables_ready. change (tables (procs (sti k5))) with (tables (procs k5)).
    rewrite F4, F5, Eact, Etab. done.
  - exact F8.
  - change (fs (sti k5)) with (fs k5). by rewrite F9, Ho1.
  - change (con (sti k5)) with (con k5). by rewrite F10, Ho1.
  - intros va Hva _. change (ld8 (sti k5) va) with (ld8 k5 va). rewrite F11 by done. by rewrite Ho1.
  - intros pa Hpa _. change (pmem (sti k5)) with (pmem k5). rewrite F12 by done. by rewrite Ho1.
  - intros a Ha. change (pcb_at (sti k5)) with (pcb_at k5). rewrite Fp. test_false (t =? a). cbv iota.
    destruct (Efil a Ha) as [E1 E2 E3]. by destruct (get_pcb k =? a); split.
  - split; [change (io k5 = io k)|change (irqs k5 = irqs k)|change (kbd k5 = kbd k)|change (pic k5 = pic k)|];
      [by rewrite I1, Ho1|by rewrite I2, Ho1|by rewrite I3, Ho1|by rewrite I4, Ho1|].
    intros d. change (term_at (sti k5) d) with (term_at k5 d). unfold term_at at 1. rewrite F6. apply Ekeys.
Qed.
End start.

(** ** [execute], from the command line on *)

Section execute.
Context `{Platform}.

Lemma started_transfer p ino m arg_dat k k1 k' :
  pcbs (procs k1) = pcbs (procs k) -> pcb_state (procs k1) = pcb_state (procs k) -> cpu k1 = cpu k ->
  active k1 = active k -> term_at k1 (active k) = term_at k (active k) -> file_length k1 ino = file_length k ino ->
  (forall j, 0 <= j < file_length k ino -> file_byte k1 ino j = file_byte k ino j) ->
  fs k1 = fs k -> con k1 = con k -> mmu k1 = mmu k ->
  (forall va, outside (vspace k) (exe_data k) 40 va -> ld8 k1 va = ld8 k va) ->
  (forall pa, away (vspace k) (exe_data k) 40 pa -> mem_get (pmem k1) pa = mem_get (pmem k) pa) -> same_input k k1 ->
  started p ino m arg_dat k1 k' -> started p ino m arg_dat k k'.
Proof.
  intros Ep Es Ec Ea Et El Eb Ef Eco Em Elow Emem [I1 I2 I3 I4 I5]
    [S1 S2 S3 S4 S5 S6 S7 S8 S9 S10 S11 S12 S13 S14 S15 S16 S17 S18 [J1 J2 J3 J4 J5]].
  assert (get_pcb k1 = get_pcb k) as Eg by (unfold get_pcb; by rewrite Ec).
  assert (forall a, pcb_at k1 a = pcb_at k a) as Epa by (intros a; unfold pcb_at; by rewrite Ep).
  rewrite !Epa in *. unfold cur_pcb in S10. rewrite Eg, ?Epa in S10. rewrite Eg, Ec in S3. split; try done.
  - destruct S1 as [? S1]. split; [done|]. intros q Hq. rewrite S1 by done. unfold proc_used. by rewrite Es.
  - rewrite El in S8. intros j Hj. by rewrite S8, Eb.
  - by rewrite Ea, Et in S11.
  - by rewrite <- Ea.
  - by rewrite S14.
  - by rewrite S15.
  - intros va Hva Ho. rewrite S16; [by apply Elow|done|]. unfold exe_data. rewrite Ec.
    intros i Hi. unfold vspace. rewrite Em. exact (Ho i Hi).
  - intros pa Hpa Ho. rewrite S17; [by apply Emem|done|]. unfold exe_data. rewrite Ec.
    intros i Hi. unfold vspace. rewrite Em. exact (Ho i Hi).
  - intros a Ha. rewrite <- Epa. by apply S18.
  - split; [congruence..|]. intros d. by rewrite J5, I5.
Qed.

(** A command the kernel can run: a file in its format, small enough for the
    user page, and a free slot. *)
Record runnable (k : kstate) (cmds : mem) (p ino entry : Z) : Prop := {
  ru_exec : executable k cmds ino entry;
  ru_image : low_image k;
  ru_size : file_length k ino < 0x3B8000;
  ru_free : lowest_free k p
}.

Lemma runnable_tables k cmds p ino entry : runnable k cmds p ino entry -> runnable (tables_init k) cmds p ino entry.
Proof.
  intros [[He [] ? ? ? []] [] ? ?]. split; [|by split|done|done]. split; [done|by split|done..|by split].
Qed.

(** The bytes of the file system, from its first to the one past its last. *)
Definition img_end (k : kstate) : Z := img k + 4096 * (n_inodes k + 1 + data_count (fs k)).

(** The pages of video memory and of the three terminals' screens. *)
Definition SCREENS_END := 0xBC000.

(** Where the boot loader and the kernel's stack leave things: the image apart
    from the pages of the screens, and from the local array of [execute]. *)
Record placed (k : kstate) : Prop := {
  pl_screens : img_end k <= VIDEO_MEMORY \/ SCREENS_END <= img k;
  pl_local : 0 <= exe_data k /\ exe_data k + 40 <= SIZE_8MB;
  pl_apart : exe_data k + 40 <= img k \/ img_end k <= exe_data k
}.

(** Of the memory below 8 MB only the screens differ, and no slot does. *)
Record screens_only (k k' : kstate) : Prop := {
  so_map : kernel_map (mmu k');
  so_fs : fs k' = fs k;
  so_esp : esp (cpu k') = esp (cpu k);
  so_slots : pcb_state (procs k') = pcb_state (procs k);
  so_bytes va : 0 <= va < SIZE_8MB -> va < VIDEO_MEMORY \/ SCREENS_END <= va -> ld8 k' va = ld8 k va
}.

Lemma screens_only_image k k' : low_image k -> placed k -> screens_only k k' -> same_image k k'.
Proof.
  intros [_ Hl Hh] [Hs _ _] [_ Ef _ _ Eb]. split; [done|]. unfold img_end in Hs.
  intros o Ho. apply Eb; lia.
Qed.

(** The kernel's own memory, below 8 MB and apart from the image. *)
Lemma low_buf_apart k buf n : low_image k -> 0 <= buf -> buf + n <= SIZE_8MB ->
  buf + n <= img k \/ img_end k <= buf -> buf_apart k buf n.
Proof.
  unfold img_end. intros [Hm Hl Hh] Hb Hn Hd.
  assert (forall va, 0 <= va < SIZE_8MB -> loc (vspace k) va = va) as Hloc.
  { intros va Hva. change (xlate (mmu k) va = va). unfold xlate. by rewrite kernel_map_walk. }
  split.
  - intros i j Hi Hj. rewrite !Hloc by lia. lia.
  - intros o Ho i Hi. rewrite !Hloc by lia. lia.
Qed.

(** A command that can be run can be run whatever the image's state is in. *)
Lemma executable_same_image k k' cmds ino entry : executable k cmds ino entry -> same_image k k' ->
  buf_apart k' (exe_data k') 40 -> executable k' cmds ino entry.
Proof.
  intros [(d & El & Et & Ei) Hwf Hlen Hmag Hent _] Hsi Hba.
  destruct (same_image_file _ _ _ Hsi Hwf) as (_ & _ & _ & Elen & _).
  pose proof (fun j => same_image_byte _ _ _ j Hsi Hwf) as Eb.
  destruct (wf_ino _ _ Hwf), (wf_size _ _ Hwf).
  destruct (same_image_lookup k k' _ d _ Hsi ltac:(lia) ltac:(lia) (fun j => get8_range cmds j) El)
    as (d' & El' & Et' & Ei').
  split; [|by eapply same_image_wf|by rewrite Elen|by rewrite !Eb by lia|by rewrite !Eb by lia|done].
  exists d'. by rewrite Et', Ei'.
Qed.

Lemma same_image_low k k' ino : file_wf k ino -> same_image k k' -> low_image k -> kernel_map (mmu k') -> low_image k'.
Proof.
  intros Hwf Hsi [_ Hl Hh] Hm. destruct (same_image_file _ _ _ Hsi Hwf) as (Ei & Ed & En & _).
  split; [done|by rewrite Ei|by rewrite Ei, En, Ed].
Qed.

Lemma runnable_screens k k' cmds p ino entry : runnable k cmds p ino entry -> placed k -> screens_only k k' ->
  runnable k' cmds p ino entry.
Proof.
  intros [Hex Hli Hsz Hfree] Hpl Hso. pose proof (screens_only_image _ _ Hli Hpl Hso) as Hsi.
  pose proof (ex_wf _ _ _ _ Hex) as Hwf. destruct (same_image_file _ _ _ Hsi Hwf) as (Ei & Ed & En & Elen & _).
  pose proof (same_image_low _ _ _ Hwf Hsi Hli (so_map _ _ Hso)) as Hli'.
  split; [|done|by rewrite Elen|].
  - apply (executable_same_image k); [done|done|]. destruct Hpl as [_ Hloc Hap].
    unfold exe_data in *. rewrite (so_esp _ _ Hso).
    apply low_buf_apart; [done|lia|lia|]. unfold img_end in *. by rewrite Ei, En, Ed.
  - destruct Hfree as (Hp & Hf & Hl). unfold lowest_free, proc_used in *. by rewrite (so_slots _ _ Hso).
Qed.

Lemma execute_from_lookup cmds arg_dat m p ino entry k :
  runnable k cmds p ino entry -> is_cstr (fun i => get8 arg_dat i) m -> m < 2147483647 -> tables_ready k ->
  exists k1 k', find_executable cmds k = LookupOk ino entry k1 /\
    start_process ino entry arg_dat k1 = Jmp (IretUser (u32 entry) 0x083FFFFC 0x23 0x2B) k' /\
    started p ino m arg_dat k k'.
Proof.
  intros [He [Hm Hl Hh] Hsize Hfree] Hs Hlt Hready. pose proof (ex_wf _ _ _ _ He) as Hwf.
  destruct (find_executable_ok _ _ _ _ He) as (k1 & -> & Hc). exists k1.
  pose proof (same_image_wrote _ _ _ _ _ _ (ex_apart _ _ _ _ He) (Z.le_refl _) Hc) as Hsi.
  destruct (same_image_file _ _ ino Hsi Hwf) as (Ei & Ed & En & El & _).
  pose proof Hc as Hc0. destruct Hc as [Ho _].
  destruct (start_process_started p ino entry m arg_dat k1) as (k' & E & Hst).
  - rewrite Ho. exact Hfree.
  - done.
  - done.
  - split; [rewrite Ho; exact Hm|by rewrite Ei|by rewrite Ei, En, Ed].
  - by apply (same_image_wf k).
  - by rewrite El.
  - rewrite Ho. exact Hready.
  - exists k'. split; [done|]. split; [done|]. apply (started_transfer _ _ _ _ _ k1); try (by rewrite Ho); try done.
    + intros j Hj. by apply same_image_byte.
    + intros va Hva. apply (wrote_ld8 _ _ _ _ _ _ Hc0 Hva).
    + intros pa Hpa. apply (wrote_away _ _ _ _ _ _ Hc0 Hpa).
Qed.

Lemma execute_gen_starts h command cmds arg_dat m p ino entry k :
  parse_command (Some command) = Parsed cmds arg_dat -> is_quit cmds = false ->
  is_cstr (fun i => get8 arg_dat i) m -> m < 2147483647 -> runnable k cmds p ino entry ->
  exists k', execute_gen h (Some command) k = Jmp (IretUser (u32 entry) 0x083FFFFC 0x23 0x2B) k' /\
    started p ino m arg_dat k k'.
Proof.
  intros Hp Hq Hs Hm Hr. apply runnable_tables in Hr.
  destruct (execute_from_lookup cmds arg_dat m p ino entry (tables_init k) Hr Hs Hm) as (k1 & k' & E1 & E2 & Hst);
    [done|].
  exists k'. split; [|by apply (started_transfer _ _ _ _ _ (tables_init k))].
  unfold execute_gen. rewrite bind_modify, Hp, Hq. unfold bind at 1, ret at 1. rewrite bind_get, E1.
  by rewrite bind_modify.
Qed.

(** C5: [execute] of a command whose file is an ELF executable that fits the user
    page and whose name does not start with "quit", with a slot free, never returns: it jumps to the entry address in
    user mode, with the stack at the top of the user page. It has taken the
    lowest free slot and no other; set up its PCB with its number, arguments,
    and only standard input and output open (the number, unless the PCB names
    itself as the parent of its last program); saved the frame of the caller in
    the caller's PCB, the parent of the new one; given the process its kernel
    stack, from which its PCB is found; mapped its page, and loaded the file. *)
Theorem execute_starts_process command cmds arg_dat m p ino entry k :
  parse_command (Some command) = Parsed cmds arg_dat -> is_quit cmds = false ->
  is_cstr (fun i => get8 arg_dat i) m -> m < 2147483647 -> runnable k cmds p ino entry ->
  exists k', execute (Some command) k = Jmp (IretUser (u32 entry) 0x083FFFFC 0x23 0x2B) k' /\
    started p ino m arg_dat k k'.
Proof. apply execute_gen_starts. Qed.

(** C35: [execute] fails on the null pointer, on a command without a name, and, when
    the name does not start with "quit" (which is [halt], before any look at the
    disk), on a file that does not exist, is not regular, or has 40 bytes or more
    and does not start with the ELF magic, and when all six slots are in use (the
    file is well-formed, and the image apart from the local array). It then has
    filled in the (constant) jump tables and changed nothing else but bytes of its
    local array of 40: every other byte of the physical memory, and all the rest
    of the state, is as it was. *)
Theorem execute_failures command k :
  command = None \/ (exists f, command = Some f /\ is_bytes f /\ is_name f 0) \/
  (exists f cmds arg_dat, command = Some f /\ parse_command command = Parsed cmds arg_dat /\
     is_quit cmds = false /\
     (not_executable k cmds \/
      exists ino entry, executable k cmds ino entry /\ forall q, 0 <= q < 6 -> proc_used k q = 1)) ->
  exists k', execute command k = Ret FAILURE k' /\ array_only (tables_init k) k'.
Proof.
  unfold execute, execute_gen. rewrite bind_modify.
  intros [->|[(f & -> & Hb & Hn)|(f & cmds & arg_dat & -> & -> & -> & Hcase)]].
  - eexists. split; [done|apply array_only_refl].
  - unfold parse_command. destruct (parse_name_spec f 0 Hb ltac:(lia) Hn) as (cmds & -> & _).
    eexists. split; [done|apply array_only_refl].
  - unfold bind at 1, ret at 1. rewrite bind_get. destruct Hcase as [Hne|(ino & entry & He & Hall)].
    + assert (not_executable (tables_init k) cmds) as Hne'.
      { destruct Hne as (r & d & El & Hc). exists r, d. split; [done|].
        destruct Hc as [?|[?|(? & ? & [] & ? & [] & ?)]]; [by left|by right; left|].
        right. right. by split_and!. }
      destruct (find_executable_fails _ _ Hne') as (k1 & -> & Ho). rewrite bind_modify. by exists k1.
    + assert (executable (tables_init k) cmds ino entry) as He'.
      { destruct He as [He [] ? ? ? []]. split; [done|by split|done..|by split]. }
      destruct (find_executable_ok _ _ _ _ He') as (k1 & -> & Hc). rewrite bind_modify.
      exists k1. unfold start_process. rewrite bind_get, all_used_true; [split; [done|by eapply copied_array_only]|].
      intros q Hq. destruct Hc as [Ho _]. rewrite Ho. by apply Hall.
Qed.
End execute.
