(* ===== verification/Halt.v ===== *)
(** Properties of [halt] (defined in Process.v) and of [execute] and [halt]
    together: return to the parent, the slots over a program's life, the first
    shell of a terminal. *)

From Stdlib Require Import Ascii String.
From S2P Require Import Prelude Bytes CString CMem State Filesys Paging Keyboard Descriptors Process.
#[local] Open Scope Z_scope.
#[local] Open Scope kernel_scope.

(** ** [halt] *)

Section halting.
Context `{Platform}.

(** [k'] differs from [k] by the descriptors of the current process only. *)
Record fds_change (k k' : kstate) : Prop := {
  fc_only : k' = k <| procs; pcbs := pcbs (procs k') |>;
  fc_cur : cur_pcb k' = (cur_pcb k) <| fds := fds (cur_pcb k') |>;
  fc_other : forall b, b <> get_pcb k -> pcb_at k' b = pcb_at k b
}.
Lemma fds_change_refl k : fds_change k k.
Proof. split; [by destruct k as [? ? ? ? ? ? ? ? [] ? ?]|by destruct (cur_pcb k)|done]. Qed.
Lemma fds_change_get_pcb k k' : fds_change k k' -> get_pcb k' = get_pcb k.
Proof. intros [E _ _]. by rewrite E. Qed.
Lemma fds_change_trans k1 k2 k3 : fds_change k1 k2 -> fds_change k2 k3 -> fds_change k1 k3.
Proof.
  intros H1 H2. pose proof (fds_change_get_pcb _ _ H1) as Eg.
  destruct H1 as [O1 C1 B1], H2 as [O2 C2 B2]. split.
  - rewrite O2, O1 at 1. done.
  - rewrite C2 at 1. rewrite C1. done.
  - intros b Hb. rewrite B2, B1; congruence.
Qed.
Lemma fds_change_close i k : fds_change k (upd_fd (get_pcb k) i closed k).
Proof.
  split; [done| |].
  - unfold cur_pcb. change (get_pcb (upd_fd (get_pcb k) i closed k)) with (get_pcb k). unfold upd_fd.
    by rewrite pcb_at_upd, Z.eqb_refl.
  - intros b Hb. unfold upd_fd. rewrite pcb_at_upd. by test_false (get_pcb k =? b).
Qed.

Lemma close_all_spec n i k : fds_ok k -> 0 <= i ->
  exists k', close_all n i k = Ret tt k' /\ fds_change k k' /\ fds_ok k' /\
    forall j, 2 <= j < 8 -> (i <= j < i + Z.of_nat n \/ flags (cur_fd j k) = 0) -> flags (cur_fd j k') = 0.
Proof.
  revert i k. induction n as [|n IH]; intros i k Hok Hi; cbn [close_all].
  { exists k. split; [done|]. split; [apply fds_change_refl|]. split; [done|]. intros j _ [Hj|Hj]; [lia|done]. }
  rewrite bind_get. fold (cur_fd i k).
  assert (exists k1, (if flags (cur_fd i k) =? 1 then close i ;; ret tt else ret tt) k = Ret tt k1 /\
    fds_change k k1 /\ fds_ok k1 /\ (2 <= i < 8 -> flags (cur_fd i k1) = 0) /\
    forall j, j <> i -> cur_fd j k1 = cur_fd j k) as (k1 & E1 & Hc1 & Hok1 & Hi1 & Hj1).
  { destruct (Hok) as [Hwf Hr]. destruct (Z.eqb_spec (flags (cur_fd i k)) 1) as [E|E].
    2: { exists k. split; [done|]. split; [apply fds_change_refl|]. split; [done|]. split; [|done].
         intros Hi'. destruct (fw_rest _ Hwf i Hi') as [?|[? _]]; [done|congruence]. }
    destruct (decide (2 <= i < 8)) as [Hi'|Hi'].
    - destruct (fw_rest _ Hwf i Hi') as [?|[_ Hops]]; [congruence|].
      unfold bind. rewrite close_open_fd by (done || congruence). eexists. split; [done|].
      split; [apply fds_change_close|]. split; [by apply fds_ok_upd; [..|left]|].
      rewrite cur_fd_upd, Z.eqb_refl. split; [done|]. intros j Hj. rewrite cur_fd_upd. by test_false (i =? j).
    - unfold bind. rewrite close_fails by (by left). exists k. split; [done|]. split; [apply fds_change_refl|].
      split; [done|]. split; [done|done]. }
  rewrite (bind_ret _ _ _ _ _ E1). destruct (IH (i + 1) k1 Hok1 ltac:(lia)) as (k' & -> & Hc & Hok' & Hj).
  exists k'. split; [done|]. split; [by apply (fds_change_trans _ k1)|]. split; [done|].
  intros j Hj' Hcase. apply Hj; [done|]. destruct (Z.eq_dec j i) as [->|Hne]; [right; by apply Hi1|].
  destruct Hcase as [?|?]; [left; lia|right; by rewrite Hj1].
Qed.

(** The state in which [halt] has left the terminal and closed the files. *)
Definition leave_shell (p : Z) (k : kstate) : kstate :=
  if u32 (terminal_shell (procs k)).[active k] =? p
  then set_terminal_shell (active k) (pid (pcb_at k (parent (cur_pcb k)))) k else k.

Lemma leave_shell_only p k : only_terminals k (leave_shell p k).
Proof. unfold leave_shell. case_match; by destruct k as [? ? ? ? ? ? ? ? [] ? ?]. Qed.
Lemma only_terminals_trans k1 k2 k3 : only_terminals k1 k2 -> only_terminals k2 k3 -> only_terminals k1 k3.
Proof. unfold only_terminals. intros E1 E2. rewrite E2, E1. done. Qed.

Lemma halt_steps status k : let p := pid (cur_pcb k) in proc_used k p <> 0 ->
  halt status k =
    (close_all 8 0 ;;
     (if u32 (processes_at k (active k) 0) =? p then execute_shell ;; ret tt else ret tt) ;;
     return_to_parent (u8 status)) (leave_shell p (leave_terminal p k)).
Proof.
  intros p Hp. unfold halt. rewrite bind_get. fold (cur_pcb k). cbv zeta. fold p.
  test_false (proc_used k p =? 0). cbv iota. rewrite bind_modify, bind_get.
  pose proof (leave_terminal_only p k) as Ho. set (k1 := leave_terminal p k) in *. clearbody k1.
  assert (get_pcb k1 = get_pcb k) as Eg by (by rewrite Ho). rewrite <- Eg. fold (cur_pcb k1). unfold leave_shell.
  case_match; [by rewrite bind_modify|done].
Qed.

(** What [halt] has done when it reaches [close_all]'s end: [k'] is [k] but for
    the terminals and the descriptors of the current process. *)
Lemma halt_closes p k : fds_ok k ->
  let k0 := leave_shell p (leave_terminal p k) in
  exists k', close_all 8 0 k0 = Ret tt k' /\ only_procs k k' /\ pcb_state (procs k') = pcb_state (procs k) /\
    get_pcb k' = get_pcb k /\ active k' = active k /\ tables_ready k' /\
    (cur_pcb k' = (cur_pcb k) <| fds := fds (cur_pcb k') |>) /\
    (forall b, b <> get_pcb k -> pcb_at k' b = pcb_at k b) /\
    (forall j, 2 <= j < 8 -> flags (cur_fd j k') = 0) /\
    terminals (procs k') = terminals (procs (leave_terminal p k)).
Proof.
  intros Hok k0.
  assert (only_terminals k k0) as Ho
    by (apply (only_terminals_trans _ (leave_terminal p k)); [apply leave_terminal_only|apply leave_shell_only]).
  assert (terminals (procs k0) = terminals (procs (leave_terminal p k))) as Et
    by (unfold k0, leave_shell; by case_match).
  assert (fds_ok k0) as Hok0.
  { destruct Hok as [[]]. rewrite Ho. by split. }
  destruct (close_all_spec 8 0 k0 Hok0 ltac:(lia)) as (k' & E & [Fo Fc Fb] & [_ Hr] & Hj).
  assert (active k0 = active k /\ get_pcb k0 = get_pcb k /\ pcb_state (procs k0) = pcb_state (procs k) /\
    (forall b, pcb_at k0 b = pcb_at k b)) as (A0 & G0 & S0 & P0) by (by rewrite Ho).
  exists k'. split; [done|]. split_and!.
  - unfold only_procs. rewrite Fo, Ho. done.
  - by rewrite Fo.
  - by rewrite Fo.
  - by rewrite Fo.
  - done.
  - assert (cur_pcb k0 = cur_pcb k) as Ec by (unfold cur_pcb; by rewrite P0, G0). by rewrite Fc, Ec at 1.
  - intros b Hb. by rewrite Fb, P0 by (by rewrite G0).
  - intros j Hj'. apply Hj; [done|lia].
  - by rewrite Fo.
Qed.
End halting.

(** ** Properties of [halt] *)

Section halt_properties.
Context `{Platform}.

(** What a halted process leaves: its slot free, and the machine set for the
    parent, process [q]. *)
Record halted (p q : Z) (k k' : kstate) : Prop := {
  ha_slots : proc_used k' p = 0 /\ forall r, r <> p -> proc_used k' r = proc_used k r;
  ha_closed : forall j, 2 <= j < 8 -> flags (cur_fd j k') = 0;
  ha_terminal : removed p (term_at k (active k)) (term_at k' (active k));
  ha_page : kernel_map (mmu k') /\ forall user va, SIZE_128MB <= va < SIZE_132MB ->
    walk user (mmu k') va = Some (SIZE_8MB + q * SIZE_4MB + (va - SIZE_128MB));
  ha_stack : Z.land (tss_esp0 (cpu k')) 0xffffe000 = pcb_addr q;
  ha_memory : pmem k' = pmem k;
  ha_files : fs k' = fs k;
  ha_console : con k' = con k;
  ha_tables : active k' = active k /\ tables_ready k';
  ha_input : same_input k k';
  ha_flag : terminal_flag (term_at k' (active k)) = terminal_flag (term_at k (active k));
  ha_esp0 : tss_esp0 (cpu k') = SIZE_8MB - q * page8KB - 4;
  ha_others : forall b, b <> get_pcb k -> pcb_at k' b = pcb_at k b;
  ha_self : parent (pcb_at k' (get_pcb k)) = parent (cur_pcb k)
}.

Lemma halt_returns status k : fds_ok k -> kernel_map (mmu k) ->
  let p := pid (cur_pcb k) in let par := pcb_at k (parent (cur_pcb k)) in
  proc_used k p <> 0 -> u32 (processes_at k (active k) 0) <> p -> parent (cur_pcb k) <> get_pcb k ->
  0 <= pid par < 6 ->
  exists k', halt status k = Jmp (LeaveRet (kbp par) (u8 status)) k' /\ halted p (pid par) k k'.
Proof.
  intros Hok Hm p par Hp Hfirst Hpar Hq. rewrite halt_steps by done. fold p.
  destruct (halt_closes p k Hok) as (k1 & E & Ho & Es & Eg & Ea & Htab & Ec & Eb & Hfd & Hter).
  rewrite (bind_ret _ _ _ _ _ E).
  test_false (u32 (processes_at k (active k) 0) =? p).
  unfold bind at 1, ret at 1. unfold return_to_parent. rewrite bind_get. cbv zeta.
  assert (pid (cur_pcb k1) = p /\ parent (cur_pcb k1) = parent (cur_pcb k)) as [Ep Epar] by (by rewrite Ec).
  rewrite Ep, Epar, Eb by done. fold par. rewrite !bind_modify. unfold jump_to.
  eexists. split; [done|]. rewrite s32_small by lia.
  set (k2 := set_proc_used p 0 k1).
  assert (kernel_map (mmu k2) /\ pmem k2 = pmem k) as [Hm2 Em2] by (change (kernel_map (mmu k1) /\ pmem k1 = pmem k); by rewrite Ho).
  destruct (page_switch_entry (pid par) k2 ltac:(lia)) as [Hmmu _].
  pose proof (page_switch_kernel_map (pid par) k2 ltac:(lia) Hm2) as Hkm.
  pose proof (fun user va => page_switch_user user (pid par) k2 va (km_on _ Hm2) ltac:(lia)) as Hwalk.
  revert Hmmu Hkm Hwalk. generalize (page_switch (pid par) k2) as k3. intros k3 Hmmu Hkm Hwalk.
  set (k4 := k3 <| cpu; tss_esp0 := _ |>).
  assert (procs k4 = procs k2 /\ pmem k4 = pmem k2 /\ get_pcb k4 = get_pcb k1) as (E4 & M4 & G4)
    by (change (procs k3 = procs k2 /\ pmem k3 = pmem k2 /\ get_pcb k3 = get_pcb k1); by rewrite Hmmu).
  assert (forall d, term_at k4 d = term_at (leave_terminal p k) d) as T4 by (intros d; unfold term_at; by rewrite E4, <- Hter).
  assert (forall b, pcb_at k4 b = pcb_at k1 b) as P4 by (intros b; unfold pcb_at; by rewrite E4).
  assert (fs k4 = fs k /\ con k4 = con k /\ active k4 = active k /\ tables (procs k4) = tables (procs k1) /\ io k4 = io k /\
    irqs k4 = irqs k /\ kbd k4 = kbd k /\ pic k4 = pic k) as (N1 & N2 & N3 & N4 & N5 & N6 & N7 & N8).
  { unfold active. rewrite E4. change (fs k3 = fs k /\ con k3 = con k /\ active k1 = active k /\ tables (procs k1) = tables (procs k1) /\
      io k3 = io k /\ irqs k3 = irqs k /\ kbd k3 = kbd k /\ pic k3 = pic k). rewrite Ea, Hmmu. unfold k2. by rewrite Ho. }
  split.
  - unfold proc_used. rewrite E4. simpl. rewrite elem_same, Es. split; [done|].
    intros r Hr. by rewrite elem_other by done.
  - intros j Hj. rewrite <- (Hfd j Hj). unfold cur_fd, pcb_at. by rewrite G4, E4.
  - rewrite T4. apply leave_terminal_removed.
  - done.
  - simpl. rewrite u32_small by (unfold SIZE_8MB, page8KB; lia). apply esp0_pcb. lia.
  - by rewrite M4.
  - done.
  - done.
  - split; [done|]. unfold tables_ready. rewrite N4. exact Htab.
  - split; [done..|]. intros d. rewrite T4. apply leave_terminal_keys.
  - rewrite T4. apply leave_terminal_keys.
  - simpl. rewrite u32_small by (unfold SIZE_8MB, page8KB; lia). done.
  - intros b Hb. rewrite P4. by apply Eb.
  - rewrite P4, <- Eg. fold (cur_pcb k1). exact Epar.
Qed.

(** C10: [halt] of a process that is not the first shell of the terminal shown, which
    the code takes for its own, returns its status, one byte, into the frame [execute] saved for the parent: the
    process's slot is free and no other changes, its descriptors from 2 on are
    closed, it is off the list of that terminal, the page and the kernel stack
    are those of the parent again, and no byte of memory is changed. *)
Theorem halt_returns_to_parent status k : fds_ok k -> kernel_map (mmu k) ->
  let p := pid (cur_pcb k) in let par := pcb_at k (parent (cur_pcb k)) in
  proc_used k p <> 0 -> u32 (processes_at k (active k) 0) <> p -> parent (cur_pcb k) <> get_pcb k ->
  0 <= pid par < 6 ->
  exists k', halt status k = Jmp (LeaveRet (kbp par) (u8 status)) k' /\ halted p (pid par) k k'.
Proof. apply halt_returns. Qed.

(** [halt] of a process whose slot is not marked used fails and changes
    nothing. *)
Theorem halt_unused_slot status k : proc_used k (pid (cur_pcb k)) = 0 -> halt status k = Ret FAILURE k.
Proof. intros E. unfold halt. rewrite bind_get. fold (cur_pcb k). cbv zeta. by rewrite E. Qed.

(** C9: a process started by [execute] that halts at once, from the top of its
    kernel stack, gives its slot back: all six slots are as before, and
    [execute] of the caller returns in the caller's own frame and address
    space, with the byte the program gave. The conditions the code does not see
    to: the caller is the first shell of the shown terminal, or is not the
    process that the PCB of the slot still names as the parent of its last
    program (else its number is overwritten, [execute_overwrites_caller_pid], and
    another's page comes back); that parent is not the PCB of the slot itself;
    and the shown terminal has a first shell, not the new process, and is not
    marked for a new one ([terminal_flag] 1). *)
Theorem execute_then_halt command cmds arg_dat m p ino entry status k :
  parse_command (Some command) = Parsed cmds arg_dat -> is_quit cmds = false ->
  is_cstr (fun i => get8 arg_dat i) m -> m < 2147483647 -> runnable k cmds p ino entry ->
  terminal_flag (term_at k (active k)) <> 1 -> 0 <= processes_at k (active k) 0 < 6 ->
  processes_at k (active k) 0 <> p -> 0 <= pid (cur_pcb k) < 6 -> get_pcb k <> pcb_addr p ->
  parent (pcb_at k (pcb_addr p)) <> pcb_addr p ->
  (parent (pcb_at k (pcb_addr p)) = get_pcb k -> pid (cur_pcb k) = processes_at k (active k) 0) ->
  exists k1 k2, execute (Some command) k = Jmp (IretUser (u32 entry) 0x083FFFFC 0x23 0x2B) k1 /\
    halt status (k1 <| cpu; esp := tss_esp0 (cpu k1) |>) = Jmp (LeaveRet (ebp (cpu k)) (u8 status)) k2 /\
    (forall q, proc_used k2 q = proc_used k q) /\
    forall user va, SIZE_128MB <= va < SIZE_132MB ->
      walk user (mmu k2) va = Some (SIZE_8MB + pid (cur_pcb k) * SIZE_4MB + (va - SIZE_128MB)).
Proof.
  intros Hp Hquit Hs Hm Hr Hflag Hfirst Hne Hpid Hcur Hst1 Hst2.
  destruct (execute_gen_starts halt command cmds arg_dat m p ino entry k Hp Hquit Hs Hm Hr)
    as (k1 & E & [[S1 S2] S3 (S4 & S5 & _) _ [F0 F1 F2] [_ S8] [S9 _] _ S15 S10 S11 [S12 S13]]).
  specialize (S3 Hst1). pose proof (ru_free _ _ _ _ _ Hr) as (Hp6 & Hp0 & _).
  set (k2 := k1 <| cpu; esp := tss_esp0 (cpu k1) |>).
  assert (get_pcb k2 = pcb_addr p) as G2 by exact S8.
  assert (cur_pcb k2 = pcb_at k1 (pcb_addr p)) as C2 by (unfold cur_pcb; by rewrite G2).
  assert (processes_at k2 (active k2) 0 = processes_at k (active k) 0) as P2.
  { change (processes_at k1 (active k1) 0 = processes_at k (active k) 0). rewrite S12. unfold entered in S11.
    revert S11. test_false (terminal_flag (term_at k (active k)) =? 1). intros S11. unfold processes_at in *.
    destruct S11 as [_ [(j & Hj & Ej & _ & _ & Eo)|[_ ->]]]; [|done]. apply Eo. intros <-. lia. }
  assert (pid (pcb_at k1 (get_pcb k)) = pid (cur_pcb k)) as S16.
  { destruct (decide (parent (pcb_at k (pcb_addr p)) = get_pcb k)) as [Es|Es]; [|by apply S10].
    cbv zeta in S15. rewrite Es in S15. rewrite S15, (Hst2 Es) by done.
    change (processes_at k1 (active k1) 0) with (processes_at k2 (active k2) 0). by rewrite P2, u32_small by lia. }
  destruct (halt_returns status k2) as (k3 & Eh & [[A1 A2] _ _ [_ A3] _ _]).
  - split; [|exact S13].
    split; [unfold cur_fd; rewrite G2; split; apply F0|unfold cur_fd; rewrite G2; split; apply F1|].
    intros i Hi. left. unfold cur_fd. rewrite G2. by apply F2.
  - exact S9.
  - rewrite C2, S3. change (proc_used k1 p <> 0). by rewrite S1.
  - rewrite P2, C2, S3, u32_small by lia. done.
  - by rewrite C2, S4, G2.
  - rewrite C2, S4. change (0 <= pid (pcb_at k1 (get_pcb k)) < 6). by rewrite S16.
  - rewrite C2, S4, S3 in *. change (pcb_at k2 (get_pcb k)) with (pcb_at k1 (get_pcb k)) in *.
    rewrite S5 in Eh. rewrite S16 in A3. exists k1, k3. split_and!; [exact E|exact Eh| |exact A3].
    intros q. destruct (Z.eq_dec q p) as [->|Hq]; [by rewrite A1, Hp0|].
    rewrite A2 by done. by apply S2.
Qed.
End halt_properties.

(** ** Shells *)

Section shells.
Context `{Platform}.

Lemma literal_byte s i : 0 <= literal s i < 256.
Proof.
  unfold literal, chars. rewrite list_lookup_fmap. destruct (list_ascii_of_string s !! _) as [c|]; simpl; [|lia].
  pose proof (nat_ascii_bounded c). lia.
Qed.

(** The words of the command "shell". *)
Definition shell_words : mem * mem :=
  match parse_command (Some (literal "shell")) with Parsed cmds arg_dat => (cmds, arg_dat) | _ => (∅, ∅) end.

Lemma parse_shell : parse_command (Some (literal "shell")) = Parsed shell_words.1 shell_words.2.
Proof. by vm_compute. Qed.
Lemma shell_no_args : is_cstr (fun i => get8 shell_words.2 i) 0.
Proof. split; [done|]. split; [by vm_compute|lia]. Qed.

Lemma execute_shell_starts p ino entry k : runnable k shell_words.1 p ino entry ->
  exists k', execute_shell k = Jmp (IretUser (u32 entry) 0x083FFFFC 0x23 0x2B) k' /\
    started p ino 0 shell_words.2 k k'.
Proof. intros Hr. by apply (execute_gen_starts _ _ _ _ _ _ _ _ _ parse_shell); [by vm_compute|apply shell_no_args|..]. Qed.

(** What makes a command runnable is in memory, the page tables, the file system
    and the slots. *)
Lemma runnable_same r k cmds p ino entry :
  pmem k = pmem r -> mmu k = mmu r -> fs k = fs r -> exe_data k = exe_data r -> lowest_free k p ->
  runnable r cmds p ino entry -> runnable k cmds p ino entry.
Proof.
  intros E1 E2 E3 E4 Hfree [[He [W1 W2 W3 W4] Hl Hmag Hen [B1 B2]] [L1 L2 L3] Hsz _].
  assert (vspace k = vspace r) as Ev by (unfold vspace; by rewrite E1, E2).
  assert (img k = img r) as Ei by (unfold img; by rewrite E3).
  assert (ld8 k = ld8 r) as E8 by (unfold ld8; by rewrite Ev).
  assert (ld32 k = ld32 r) as E32 by (unfold ld32; by rewrite Ev).
  assert (n_inodes k = n_inodes r) as En by (unfold n_inodes; by rewrite E32, Ei).
  assert (inode_addr k = inode_addr r) as Ea by (unfold inode_addr; by rewrite Ei).
  assert (forall i, file_length k i = file_length r i) as El by (intros; unfold file_length; by rewrite E32, Ea).
  assert (forall i b, block_of k i b = block_of r i b) as Eb by (intros; unfold block_of; by rewrite E32, Ea).
  assert (forall i j, file_byte k i j = file_byte r i j) as Ey
    by (intros; unfold file_byte; by rewrite E8, Ei, En, Eb).
  split; [split|split|..]; rewrite ?El, ?Ey, ?E2, ?Ei, ?En, ?E3; try done.
  - unfold read_dentry_by_name, read_dentry, direntry in *. rewrite E8, E32, E3. exact He.
  - split; rewrite ?En, ?E3, ?El; try done. intros b Hb Hb'. unfold block_ok. rewrite Eb, E3. by apply W4.
  - split; rewrite E4, Ev; [done|]. intros o. rewrite En, E3, Ei. apply B2.
Qed.

(** C40: [halt] of the first shell of a terminal does not return: with the shell
    in the directory and a slot free it starts a new shell, and the slot of
    the old one stays in use. *)
Theorem halt_first_shell_keeps_slot status q ino entry k :
  fds_ok k -> let p := pid (cur_pcb k) in
  proc_used k p <> 0 -> u32 (processes_at k (active k) 0) = p ->
  runnable k shell_words.1 q ino entry ->
  exists k', halt status k = Jmp (IretUser (u32 entry) 0x083FFFFC 0x23 0x2B) k' /\
    q <> p /\ proc_used k' q = 1 /\ proc_used k' p = proc_used k p.
Proof.
  intros Hok p Hp Hfirst Hr. rewrite halt_steps by done. fold p.
  destruct (halt_closes p k Hok) as (k1 & E & Ho & Es & _). rewrite (bind_ret _ _ _ _ _ E).
  test_true (u32 (processes_at k (active k) 0) =? p).
  assert (runnable k1 shell_words.1 q ino entry) as Hr1.
  { apply (runnable_same k); try done; unfold only_procs in Ho; try (by rewrite Ho).
    unfold lowest_free, proc_used. rewrite Es. apply Hr. }
  destruct (execute_shell_starts _ _ _ _ Hr1) as (k' & E' & [[S1 S2] _ _ _ _ _ _ _ _ _ _ _]).
  exists k'. unfold bind. rewrite E'. split; [done|].
  destruct (ru_free _ _ _ _ _ Hr) as (_ & H0 & _).
  assert (q <> p) as Hqp by congruence. split; [done|]. split; [done|]. rewrite S2 by done.
  unfold proc_used. by rewrite Es.
Qed.

(** [execute] writes through the parent pointer the slot's last process left.
    When that is the caller, and the caller is not the first shell of its
    terminal, its process number is overwritten with the first shell's: the
    caller will get the first shell's page when the program halts. *)
Theorem execute_overwrites_caller_pid command cmds arg_dat m p ino entry k :
  parse_command (Some command) = Parsed cmds arg_dat -> is_quit cmds = false ->
  is_cstr (fun i => get8 arg_dat i) m -> m < 2147483647 -> runnable k cmds p ino entry ->
  terminal_flag (term_at k (active k)) <> 1 -> 0 <= processes_at k (active k) 0 < 6 ->
  parent (pcb_at k (pcb_addr p)) = get_pcb k -> get_pcb k <> pcb_addr p ->
  exists k', execute (Some command) k = Jmp (IretUser (u32 entry) 0x083FFFFC 0x23 0x2B) k' /\
    pid (pcb_at k' (get_pcb k)) = processes_at k (active k) 0.
Proof.
  intros Hp Hquit Hs Hm Hr Hflag Hfirst Hst Hcur.
  destruct (execute_gen_starts halt command cmds arg_dat m p ino entry k Hp Hquit Hs Hm Hr)
    as (k1 & E & [_ _ _ _ _ _ _ _ S9 _ S11 [S12 S13]]).
  exists k1. split; [exact E|]. cbv zeta in S9. rewrite Hst in S9. rewrite S9, S12 by done.
  revert S11. unfold entered. test_false (terminal_flag (term_at k (active k)) =? 1). unfold processes_at in *.
  intros [_ [(j & Hj & Ej & _ & _ & Eo)|[_ ->]]]; [rewrite Eo|]; [apply u32_small; lia|intros <-; lia|apply u32_small; lia].
Qed.

(** [execute] of any command that starts with the four letters of "quit"
    halts the current process, as [halt 0] does. *)
Theorem execute_quit_prefix command n m k k1 j :
  is_bytes command -> 0 < n < 32 -> is_name command n -> 0 <= m -> is_args command (n + 1) m ->
  args_len command n m < 128 -> (forall i, 0 <= i < 4 -> command i = literal "quit" i) ->
  halt 0 (tables_init k) = Jmp j k1 -> execute (Some command) k = Jmp j k1.
Proof.
  intros Hb Hn Hname Hm Hargs Hlen Hq Hh.
  pose proof (parse_command_spec command n m Hb Hn Hname Hm (fun _ => Hargs)) as Hp. revert Hp.
  test_true (args_len command n m <? 128). intros (cmds & arg_dat & Hp & Hc & _).
  unfold execute, execute_gen. rewrite bind_modify, Hp.
  assert (4 <= n) as Hn4.
  { destruct (Z.le_gt_cases 4 n); [done|]. exfalso. destruct Hname as [_ He].
    rewrite Hq in He by lia. assert (n = 1 \/ n = 2 \/ n = 3) as [-> | [-> | ->]] by lia;
    vm_compute in He; by destruct He as [?|[?|?]]. }
  assert (is_quit cmds = true) as ->.
  { unfold is_quit. apply Z.eqb_eq. apply strncmp_eq.
    - lia.
    - intros i. apply get8_range.
    - intros i. apply literal_byte.
    - intros i Hi _. rewrite Hc by lia. test_true (i <? n). apply Hq. lia. }
  unfold bind. by rewrite Hh.
Qed.
End shells.

(** ** Concrete runs

    A file system whose only file is the ELF executable "shell" of 48 bytes,
    with entry address 0x08048018; the first shell, process 0, is running. *)

Definition put_bytes (p : Z) (bs : list Z) (m : mem) : mem :=
  (fold_left (fun '(i, m) b => (i + 1, put8 i b m)) bs (p, m)).2.
Definition elf_header : list Z :=
  [0x7F; 0x45; 0x4C; 0x46; 1; 1; 1; 0; 0; 0; 0; 0; 0; 0; 0; 0; 2; 0; 3; 0; 1; 0; 0; 0; 0x18; 0x80; 0x04; 0x08].
Definition shell_image : mem :=
  put_bytes 0x12000 elf_header (put32 0x11004 0 (put32 0x11000 48
    (put32 0x10064 0 (put32 0x10060 2 (put_bytes 0x10040 (chars "shell")
      (put32 0x10008 1 (put32 0x10004 1 (put32 0x10000 1 (∅ : mem))))))))).

Definition shell_process : pcb_t :=
  put_fd 1 (FileDescriptor FopsStdout 0 0 1) (put_fd 0 (FileDescriptor FopsStdin 0 0 1) pcb_zero).
Definition first_terminal : terminal_t := Terminal (<[0 := 0]> (<[1 := -1]> (<[2 := -1]> (<[3 := -1]> ∅)))) 0 0 0 ∅ 0 0.

(** The machine after [init_paging], in the address space of process 0. *)
Definition booted : kstate :=
  page_switch 0 (@init_paging quiet_platform (@init_filesys quiet_platform 0x10000 (zero_state <| pmem := shell_image |>))).
Definition running_shell : kstate :=
  put_term 0 first_terminal (set_proc_used 0 1 (put_pcb 0x7fe000 shell_process (tables_init
    (booted <| cpu; esp := 0x7fffe0 |> <| cpu; ebp := 0x7ffff0 |>)))).

Section samples.
#[local] Existing Instance quiet_platform.

Lemma running_mmu : mmu running_shell = mmu booted.
Proof. unfold running_shell. by generalize booted. Qed.

Lemma running_low_image : low_image running_shell.
Proof.
  split.
  - rewrite running_mmu. apply page_switch_kernel_map; [done|]. apply init_paging_map.
  - by vm_compute.
  - by vm_compute.
Qed.

Lemma running_file : file_wf running_shell 0.
Proof.
  split; [by vm_compute..|]. intros b Hb.
  assert (file_length running_shell 0 = 48) as -> by (by vm_compute). intros ?.
  assert (b = 0) as -> by lia. by vm_compute.
Qed.

Lemma running_runnable : runnable running_shell shell_words.1 1 0 0x08048018.
Proof.
  split; [split| | |].
  - eexists. split; [by vm_compute|]. by split.
  - apply running_file.
  - by vm_compute.
  - by vm_compute.
  - by vm_compute.
  - apply low_buf_apart; [apply running_low_image|by vm_compute..|right; by vm_compute].
  - apply running_low_image.
  - by vm_compute.
  - split; [lia|]. split; [by vm_compute|]. intros q Hq. assert (q = 0) as -> by lia. by vm_compute.
Qed.

Lemma running_fds : fds_ok running_shell.
Proof. fds_by_computation. Qed.
End samples.

(** The process the shell starts: process 1, about to make a system call. *)
Definition child_process : pcb_t := shell_process <| pid := 1 |> <| parent := 0x7fe000 |>.
Definition running_child : kstate :=
  set_proc_used 1 1 (put_pcb 0x7fc000 child_process (running_shell <| cpu; esp := 0x7fdff0 |>)).

Lemma child_fds : fds_ok running_child.
Proof. fds_by_computation. Qed.
Lemma child_fds_ready : fds_ok (tables_init running_child).
Proof. fds_by_computation. Qed.

Lemma execute_starts_process_witness :
  exists k', @execute quiet_platform (Some (literal "shell")) running_shell =
    Jmp (IretUser 0x08048018 0x083FFFFC 0x23 0x2B) k' /\ pid (pcb_at k' 0x7fc000) = 1.
Proof.
  destruct (@execute_starts_process quiet_platform _ _ _ 0 1 0 0x08048018 running_shell parse_shell)
    as (k' & E & Hst).
  - by vm_compute.
  - apply shell_no_args.
  - done.
  - apply running_runnable.
  - exists k'. split; [exact E|]. apply Hst. by vm_compute.
Defined.

Lemma execute_failures_witness :
  exists k', @execute quiet_platform (Some (literal "nofile")) running_shell = Ret FAILURE k' /\
    @array_only quiet_platform (tables_init running_shell) k'.
Proof.
  apply (@execute_failures quiet_platform (Some (literal "nofile")) running_shell). right. right.
  eexists _, (match parse_command (Some (literal "nofile")) with Parsed cmds _ => cmds | _ => ∅ end),
    (match parse_command (Some (literal "nofile")) with Parsed _ args => args | _ => ∅ end).
  split; [done|]. split; [by vm_compute|]. split; [by vm_compute|]. left.
  exists FAILURE, (Dentry ∅ 0 0). split; [by vm_compute|by left].
Defined.

Lemma halt_returns_to_parent_witness :
  exists k', @halt quiet_platform 256 running_child = Jmp (LeaveRet 0 0) k' /\ proc_used k' 1 = 0.
Proof.
  destruct (@halt_returns_to_parent quiet_platform 256 running_child) as (k' & E & Hh).
  - apply child_fds.
  - unfold running_child. change (mmu _) with (mmu running_shell). apply running_low_image.
  - by vm_compute.
  - by vm_compute.
  - by vm_compute.
  - by vm_compute.
  - exists k'. split; [rewrite E; by vm_compute|]. apply (ha_slots _ _ _ _ Hh).
Defined.

Lemma halt_unused_slot_witness : @halt quiet_platform 0 zero_state = Ret FAILURE zero_state.
Proof. by apply @halt_unused_slot. Defined.

Lemma execute_then_halt_witness :
  exists k1 k2, @execute quiet_platform (Some (literal "shell")) running_shell =
      Jmp (IretUser 0x08048018 0x083FFFFC 0x23 0x2B) k1 /\
    @halt quiet_platform 7 (k1 <| cpu; esp := tss_esp0 (cpu k1) |>) = Jmp (LeaveRet 0x7ffff0 7) k2.
Proof.
  destruct (@execute_then_halt quiet_platform _ _ _ 0 1 0 0x08048018 7 running_shell parse_shell)
    as (k1 & k2 & E1 & E2 & _).
  - by vm_compute.
  - apply shell_no_args.
  - done.
  - apply running_runnable.
  - by vm_compute.
  - by vm_compute.
  - by vm_compute.
  - by vm_compute.
  - by vm_compute.
  - by vm_compute.
  - by vm_compute.
  - exists k1, k2. split; [exact E1|exact E2].
Defined.

Lemma halt_first_shell_keeps_slot_witness :
  exists k', @halt quiet_platform 0 running_shell = Jmp (IretUser 0x08048018 0x083FFFFC 0x23 0x2B) k' /\
    proc_used k' 0 = 1.
Proof.
  destruct (@halt_first_shell_keeps_slot quiet_platform 0 1 0 0x08048018 running_shell)
    as (k' & E & _ & _ & Hu).
  - apply running_fds.
  - by vm_compute.
  - by vm_compute.
  - apply running_runnable.
  - exists k'. split; [exact E|]. etransitivity; [exact Hu|by vm_compute].
Defined.

(** A shell run from the shell, process 2, whose last program used slot 1. *)
Definition nested_shell : kstate :=
  set_proc_used 2 1 (put_pcb 0x7fa000 (shell_process <| pid := 2 |>)
    (put_pcb 0x7fc000 (shell_process <| parent := 0x7fa000 |>) (running_shell <| cpu; esp := 0x7fbff0 |>))).

Lemma nested_runnable : @runnable quiet_platform nested_shell shell_words.1 1 0 0x08048018.
Proof.
  apply (@runnable_same quiet_platform running_shell).
  - unfold nested_shell. by generalize running_shell.
  - unfold nested_shell. by generalize running_shell.
  - unfold nested_shell. by generalize running_shell.
  - done.
  - split; [lia|]. split; [by vm_compute|]. intros q Hq. assert (q = 0) as -> by lia. by vm_compute.
  - apply running_runnable.
Qed.

Lemma execute_overwrites_caller_pid_witness :
  exists k', @execute quiet_platform (Some (literal "shell")) nested_shell =
      Jmp (IretUser 0x08048018 0x083FFFFC 0x23 0x2B) k' /\
    pid (pcb_at nested_shell (get_pcb nested_shell)) = 2 /\ pid (pcb_at k' (get_pcb nested_shell)) = 0.
Proof.
  destruct (@execute_overwrites_caller_pid quiet_platform _ _ _ 0 1 0 0x08048018 nested_shell parse_shell)
    as (k' & E & Hpid).
  - by vm_compute.
  - apply shell_no_args.
  - done.
  - apply nested_runnable.
  - by vm_compute.
  - by vm_compute.
  - by vm_compute.
  - by vm_compute.
  - exists k'. split; [exact E|]. split; [by vm_compute|]. etransitivity; [exact Hpid|by vm_compute].
Defined.

(** The command "ls -a", and a word of 40 letters. *)
Lemma parse_command_splits_witness :
  exists cmds arg_dat, parse_command (Some (literal "ls -a")) = Parsed cmds arg_dat /\
    holds cmds 2 (literal "ls -a") /\ holds arg_dat 2 (fun i => literal "ls -a" (3 + i)).
Proof.
  apply (parse_command_splits (literal "ls -a") 2 2).
  - intros i. apply literal_byte.
  - lia.
  - split; [|by right; left]. intros i Hi. assert (i = 0 \/ i = 1) as [-> | ->] by lia;
      vm_compute; intros [?|[?|?]]; discriminate.
  - lia.
  - split; [|by left]. intros i Hi. assert (i = 0 \/ i = 1) as [-> | ->] by lia;
      vm_compute; intros [?|?]; discriminate.
  - by vm_compute.
Defined.

Definition long_word (i : Z) : Z := if i <? 40 then 97 else 0.
Lemma parse_command_overflows_witness : parse_command (Some long_word) = ParseSmash.
Proof.
  apply (parse_command_overflows long_word 40 0).
  - intros i. unfold long_word. case_match; lia.
  - split; [|by left]. intros i Hi. unfold long_word. test_true (i <? 40). intros [?|[?|?]]; discriminate.
  - lia.
  - split; [lia|by left].
  - left. lia.
Defined.

(** The command "quitter". *)
Lemma quitter_name : is_name (literal "quitter") 7.
Proof.
  split; [|by left]. intros i Hi.
  assert (i = 0 \/ i = 1 \/ i = 2 \/ i = 3 \/ i = 4 \/ i = 5 \/ i = 6) as Hc by lia.
  unfold ends_name. by destruct Hc as [-> | [-> | [-> | [-> | [-> | [-> | ->]]]]]]; vm_compute; intros [?|[?|?]].
Qed.
Lemma quitter_args : is_args (literal "quitter") (7 + 1) 0.
Proof. split; [lia|by left]. Qed.
Lemma quitter_prefix i : 0 <= i < 4 -> literal "quitter" i = literal "quit" i.
Proof.
  intros Hi. assert (i = 0 \/ i = 1 \/ i = 2 \/ i = 3) as Hc by lia.
  by destruct Hc as [-> | [-> | [-> | ->]]].
Qed.

Lemma execute_quit_prefix_witness :
  exists j k1, @execute quiet_platform (Some (literal "quitter")) running_child = Jmp j k1.
Proof.
  destruct (@halt_returns quiet_platform 0 (tables_init running_child)) as (k1 & E & _).
  - apply child_fds_ready.
  - change (mmu _) with (mmu running_shell). apply running_low_image.
  - by vm_compute.
  - by vm_compute.
  - by vm_compute.
  - by vm_compute.
  - eexists _, k1.
    exact (@execute_quit_prefix quiet_platform (literal "quitter") 7 0 running_child k1 _
      (literal_byte "quitter") (conj eq_refl eq_refl) quitter_name (Z.le_refl 0) quitter_args eq_refl
      quitter_prefix E).
Defined.
