(* ===== verification/Terminals.v ===== *)
(** Terminals (syscall.c): [process_init] and [display_switch]. *)

From S2P Require Import Prelude Bytes CString CMem State Console Filesys Paging Keyboard Descriptors Process Halt.
#[local] Open Scope Z_scope.
#[local] Open Scope kernel_scope.

Definition TERMINAL_SIZE := 0x1000.

Section terminals.
Context `{Platform}.

(** syscall.c [process_init]; line 688 stores past the array. *)
Definition process_init (k : kstate) : kstate :=
  let k := for_loop 0 3
    (fun i k =>
       let k := upd_term i (fun t => t <| terminal_flag := 1 |> <| term_screen_x := 0 |>
                                       <| term_screen_y := 0 |> <| buffer_enable := 0 |>) k in
       for_loop 0 4 (fun j => set_processes i j (-1)) k) k in
  let k := terminals_store8 (152 * 3 + 144) 0 k in
  k <| procs; active_terminal := 0 |>.

(** Where the contents of the screen of terminal [d] are kept. *)
Definition backing (d : Z) : Z := VIDEO_MEMORY + Z.shiftl (d + 1) 12.
Definition copy_page (dest src : Z) (k : kstate) : kstate :=
  set_vspace (memcpy dest src TERMINAL_SIZE (vspace k)) k.

(** syscall.c [display_switch], lines 746-785. *)
Definition switch_screen (term_id : Z) (k : kstate) : kstate :=
  let curr_pcb := get_pcb k in
  let k := upd_pcb curr_pcb (fun p => p <| ksp := esp (cpu k) |> <| kbp := ebp (cpu k) |>) k in
  let k := upd_term (active k) (fun t => t <| term_screen_x := get_screenx k |>) k in
  let k := upd_term (active k) (fun t => t <| term_screen_y := get_screeny k |>) k in
  let k := copy_page (backing (active k)) VIDEO_MEMORY k in
  let k := k <| procs; active_terminal := term_id |> in
  let k := page_switch (s32 (pid (cur_pcb k))) k in
  let k := copy_page VIDEO_MEMORY (backing (active k)) k in
  let k := set_screenx (term_screen_x (term_at k (active k))) k in
  let k := set_screeny (term_screen_y (term_at k (active k))) k in
  place_cursor (get_screenx k) (get_screeny k) k.

(** syscall.c [display_switch]. *)
Definition display_switch (term_id : Z) : M unit :=
  modify (switch_screen term_id) ;;
  k <- get ;
  if negb (terminal_flag (term_at k (active k)) =? 0) then execute_shell ;; ret tt else ret tt.
End terminals.

(** ** Screens

    The contents and the cursor of the screen of terminal [f]: video memory
    for the active terminal, a page of its own for another. *)

Section screens.
Context `{Platform}.

Definition screen_of (k : kstate) (f o : Z) : Z :=
  if f =? active k then ld8 k (VIDEO_MEMORY + o) else ld8 k (backing f + o).
Definition cursor_of (k : kstate) (f : Z) : Z * Z :=
  if f =? active k then (get_screenx k, get_screeny k)
  else (u8 (term_screen_x (term_at k f)), u8 (term_screen_y (term_at k f))).

Lemma backing_page f : backing f = 0xB9000 + 4096 * f.
Proof. unfold backing, VIDEO_MEMORY. rewrite Z.shiftl_mul_pow2 by lia. lia. Qed.

(** In the first 8 MB the kernel's addresses are physical addresses. *)
Lemma loc_low k va : kernel_map (mmu k) -> 0 <= va < SIZE_8MB -> loc (vspace k) va = va.
Proof.
  intros Hm Hva. change (xlate (mmu k) va = va). unfold xlate. by rewrite kernel_map_walk.
Qed.

Lemma ld8_copy_page k dest src va : kernel_map (mmu k) ->
  0 <= dest -> dest + 4096 <= SIZE_8MB -> 0 <= src -> src + 4096 <= SIZE_8MB ->
  dest + 4096 <= src \/ src + 4096 <= dest -> 0 <= va < SIZE_8MB ->
  ld8 (copy_page dest src k) va = if (dest <=? va) && (va <? dest + 4096) then ld8 k (src + (va - dest)) else ld8 k va.
Proof.
  intros Hm Hd Hd' Hs Hs' Hdis Hva.
  assert (filled (vspace k) (vspace (copy_page dest src k)) dest 4096 (fun i => ld8 k (src + i))) as (Hin & Hout & _).
  { apply wrote_set_vspace, memcpy_filled; [done| |].
    - intros i j Hi Hj. rewrite !loc_low by (done || lia). lia.
    - intros i j Hi Hj. rewrite !loc_low by (done || lia). lia. }
  destruct (Z.leb_spec dest va); [destruct (Z.ltb_spec va (dest + 4096))|].
  - unfold ld8 at 1. rewrite <- (Hin (va - dest)) by lia. by replace (dest + (va - dest)) with va by lia.
  - apply Hout. intros i Hi. rewrite !loc_low by (done || lia). lia.
  - apply Hout. intros i Hi. rewrite !loc_low by (done || lia). lia.
Qed.

Lemma kernel_map_video m : kernel_map m -> video_ident m.
Proof. intros Hm va Hva. unfold xlate. rewrite kernel_map_walk; [done|done|]. unfold VIDEO, SIZE_8MB in *. lia. Qed.

Lemma page_switch_any p k : kernel_map (mmu k) ->
  kernel_map (mmu (page_switch p k)) /\ only_mmu k (page_switch p k) /\
  forall va, 0 <= va < SIZE_8MB -> ld8 (page_switch p k) va = ld8 k va.
Proof.
  intros Hm. destruct (decide (0 <= p < 8)) as [Hp|Hp].
  - split; [by apply page_switch_kernel_map|]. split; [apply (page_switch_entry p k Hp)|].
    intros va Hva. by apply page_switch_low.
  - rewrite page_switch_invalid by lia. split; [done|]. split; [apply only_mmu_refl|done].
Qed.

(** The screen is saved, the other terminal's restored. *)
Record switched_to (e : Z) (k k' : kstate) : Prop := {
  sw_map : kernel_map (mmu k');
  sw_active : active k' = e;
  sw_bytes : forall va, 0 <= va < SIZE_8MB -> ld8 k' va =
    let saved va := if (backing (active k) <=? va) && (va <? backing (active k) + 4096)
                    then ld8 k (VIDEO_MEMORY + (va - backing (active k))) else ld8 k va in
    if (VIDEO_MEMORY <=? va) && (va <? VIDEO_MEMORY + 4096)
    then saved (backing e + (va - VIDEO_MEMORY)) else saved va;
  sw_terms : forall f, term_at k' f = if active k =? f
    then (term_at k f) <| term_screen_x := get_screenx k |> <| term_screen_y := get_screeny k |>
    else term_at k f;
  sw_kbd : kbd k' = kbd k;
  sw_rest : fs k' = fs k /\ esp (cpu k') = esp (cpu k) /\ pcb_state (procs k') = pcb_state (procs k);
  sw_cursor : get_screenx k' = u8 (term_screen_x (term_at k' e)) /\ get_screeny k' = u8 (term_screen_y (term_at k' e))
}.

Lemma switch_screen_spec e k : kernel_map (mmu k) -> 0 <= active k < 3 -> 0 <= e < 3 ->
  switched_to e k (switch_screen e k).
Proof.
  intros Hm Hd He. unfold switch_screen. cbv zeta. set (d := active k).
  set (k1 := upd_term _ _ (upd_term _ _ (upd_pcb _ _ _))).
  assert (kernel_map (mmu k1) /\ (forall va, ld8 k1 va = ld8 k va) /\ active k1 = d /\ kbd k1 = kbd k) as (Hm1 & Hb1 & Ha1 & Hk1) by done.
  assert (fs k1 = fs k /\ esp (cpu k1) = esp (cpu k) /\ pcb_state (procs k1) = pcb_state (procs k)) as Hr1 by done.
  assert (forall f, term_at k1 f = if d =? f
    then (term_at k f) <| term_screen_x := get_screenx k |> <| term_screen_y := get_screeny k |>
    else term_at k f) as Ht1.
  { intros f. unfold k1. rewrite !term_at_upd.
    change (active (upd_term _ _ _)) with d. change (active (upd_pcb _ _ _)) with d.
    rewrite !Z.eqb_refl. destruct (Z.eqb_spec d f) as [<-|]; done. }
  revert Hm1 Hb1 Ha1 Hk1 Hr1 Ht1. generalize k1. clear k1. intros k1 Hm1 Hb1 Ha1 Hk1 Hr1 Ht1. rewrite Ha1.
  set (k2 := copy_page (backing d) VIDEO_MEMORY k1).
  pose proof (ld8_copy_page k1 (backing d) VIDEO_MEMORY) as Hb2. fold k2 in Hb2.
  set (k3 := k2 <| procs; active_terminal := e |>). 
  destruct (page_switch_any (s32 (pid (cur_pcb k3))) k3) as (Hm4 & Ho4 & Hb4); [exact Hm1|].
  revert Hm4 Ho4 Hb4. generalize (page_switch (s32 (pid (cur_pcb k3))) k3) as k4. intros k4 Hm4 Ho4 Hb4.
  assert (active k4 = e /\ kbd k4 = kbd k1 /\ forall f, term_at k4 f = term_at k1 f) as (Ha4 & Hk4 & Ht4) by (by rewrite Ho4).
  assert (fs k4 = fs k1 /\ esp (cpu k4) = esp (cpu k1) /\ pcb_state (procs k4) = pcb_state (procs k1)) as Hr4 by (by rewrite Ho4).
  rewrite Ha4. pose proof (ld8_copy_page k4 VIDEO_MEMORY (backing e)) as Hb5.
  set (k5 := copy_page VIDEO_MEMORY (backing e) k4) in *.
  assert (active k5 = e /\ kernel_map (mmu k5) /\ kbd k5 = kbd k4 /\ forall f, term_at k5 f = term_at k1 f) as (Ha5 & Hm5 & Hk5 & Ht5) by done.
  assert (fs k5 = fs k4 /\ esp (cpu k5) = esp (cpu k4) /\ pcb_state (procs k5) = pcb_state (procs k4)) as Hr5 by done.
  clearbody k5. rewrite backing_page in *. 
  split.
  - exact Hm5.
  - exact Ha5.
  - intros va Hva. cbv zeta. rewrite !backing_page.
    match goal with |- ld8 ?k6 va = _ => change (ld8 k6 va) with (ld8 k5 va) end.
    unfold VIDEO_MEMORY, SIZE_8MB in *. rewrite Hb5 by (done || lia).
    destruct ((0xB8000 <=? va) && (va <? 0xB8000 + 4096)) eqn:Ev.
    + rewrite Hb4 by lia. change (ld8 k3) with (ld8 k2). rewrite Hb2 by (done || lia). by rewrite !Hb1.
    + rewrite Hb4 by lia. change (ld8 k3) with (ld8 k2). rewrite Hb2 by (done || lia). by rewrite !Hb1.
  - intros f. exact (eq_trans (Ht5 f) (Ht1 f)).
  - exact (eq_trans Hk5 (eq_trans Hk4 Hk1)).
  - destruct Hr1 as (R1 & R2 & R3), Hr4 as (S1 & S2 & S3), Hr5 as (T1 & T2 & T3).
    exact (conj (eq_trans T1 (eq_trans S1 R1)) (conj (eq_trans T2 (eq_trans S2 R2)) (eq_trans T3 (eq_trans S3 R3)))).
  - split.
    + match goal with |- get_screenx ?k6 = _ => change (get_screenx k6) with (u8 (u8 (term_screen_x (term_at k5 (active k5))))) end. rewrite Ha5.
      apply u8_u8.
    + match goal with |- get_screeny ?k6 = _ => change (get_screeny k6) with (u8 (u8 (term_screen_y (term_at k5 (active k5))))) end. rewrite Ha5.
      apply u8_u8.
Qed.

Lemma switch_screens_only e k : kernel_map (mmu k) -> 0 <= active k < 3 -> 0 <= e < 3 ->
  screens_only k (switch_screen e k).
Proof.
  intros Hm Hd He. destruct (switch_screen_spec e k Hm Hd He) as [Hm' _ Hb _ _ (Rf & Re & Rs) _].
  revert Hm' Hb Rf Re Rs. generalize (switch_screen e k) as k'. intros k' Hm' Hb Rf Re Rs.
  split; [done..|]. intros va Hva Hout. unfold VIDEO_MEMORY, SCREENS_END in *. rewrite Hb, !backing_page by done. cbv zeta.
  test_false ((0xB8000 <=? va) && (va <? 0xB8000 + 4096)).
  by test_false ((0xB9000 + 4096 * active k <=? va) && (va <? 0xB9000 + 4096 * active k + 4096)).
Qed.

Lemma switch_keeps_screens e k : kernel_map (mmu k) -> 0 <= active k < 3 -> 0 <= e < 3 ->
  let k' := switch_screen e k in
  forall f, 0 <= f < 3 ->
    (forall o, 0 <= o < 4096 -> screen_of k' f o = screen_of k f o) /\ cursor_of k' f = cursor_of k f.
Proof.
  intros Hm Hd He. destruct (switch_screen_spec e k Hm Hd He) as [_ Ha Hb Ht _ _ [Hx Hy]]. cbv zeta.
  revert Ha Hb Ht Hx Hy. generalize (switch_screen e k) as k'. intros k' Ha Hb Ht Hx Hy f Hf.
  unfold screen_of, cursor_of, VIDEO_MEMORY, SIZE_8MB in *. rewrite Ha. split.
  - intros o Ho. rewrite !backing_page in *. cbv zeta in Hb.
    destruct (Z.eqb_spec f e) as [->|Hfe]; rewrite Hb, ?backing_page by lia.
    + test_true ((0xB8000 <=? 0xB8000 + o) && (0xB8000 + o <? 0xB8000 + 4096)). cbv iota.
      replace (0xB9000 + 4096 * e + (0xB8000 + o - 0xB8000)) with (0xB9000 + 4096 * e + o) by lia.
      destruct (Z.eqb_spec e (active k)) as [->|Hne].
      * test_true ((0xB9000 + 4096 * active k <=? 0xB9000 + 4096 * active k + o) &&
          (0xB9000 + 4096 * active k + o <? 0xB9000 + 4096 * active k + 4096)). cbv iota. f_equal. lia.
      * by test_false ((0xB9000 + 4096 * active k <=? 0xB9000 + 4096 * e + o) &&
          (0xB9000 + 4096 * e + o <? 0xB9000 + 4096 * active k + 4096)).
    + test_false ((0xB8000 <=? 0xB9000 + 4096 * f + o) && (0xB9000 + 4096 * f + o <? 0xB8000 + 4096)). cbv iota.
      destruct (Z.eqb_spec f (active k)) as [->|Hne].
      * test_true ((0xB9000 + 4096 * active k <=? 0xB9000 + 4096 * active k + o) &&
          (0xB9000 + 4096 * active k + o <? 0xB9000 + 4096 * active k + 4096)). cbv iota. f_equal. lia.
      * by test_false ((0xB9000 + 4096 * active k <=? 0xB9000 + 4096 * f + o) &&
          (0xB9000 + 4096 * f + o <? 0xB9000 + 4096 * active k + 4096)).
  - assert (forall v, u8 (get_screenx v) = get_screenx v /\ u8 (get_screeny v) = get_screeny v) as Hu
      by (intros; split; apply u8_u8).
    destruct (Z.eqb_spec f e) as [->|Hfe].
    + rewrite Hx, Hy, Ht. destruct (Z.eqb_spec (active k) e) as [->|Hne].
      * rewrite Z.eqb_refl. simpl. by destruct (Hu k) as [-> ->].
      * by test_false (e =? active k).
    + rewrite Ht. destruct (Z.eqb_spec (active k) f) as [->|Hne].
      * rewrite Z.eqb_refl. simpl. by destruct (Hu k) as [-> ->].
      * by test_false (f =? active k).
Qed.

(** Switches to the terminals of [es], one after the other. *)
Definition switches (es : list Z) (k : kstate) : kstate := fold_left (fun k e => switch_screen e k) es k.

(** C17: whatever sequence of terminal switches is made, the screen of every
    terminal keeps its contents and its cursor, and the last one chosen is
    shown: each terminal behaves as a screen of its own. *)
Theorem switches_keep_screens es k : kernel_map (mmu k) -> 0 <= active k < 3 ->
  Forall (fun e => 0 <= e < 3) es ->
  let k' := switches es k in
  active k' = List.last es (active k) /\
  forall f, 0 <= f < 3 ->
    (forall o, 0 <= o < 4096 -> screen_of k' f o = screen_of k f o) /\ cursor_of k' f = cursor_of k f.
Proof.
  intros Hm Hd Hes. cbv zeta. unfold switches. revert k Hm Hd.
  induction es as [|e es IH]; intros k Hm Hd; [done|]. apply Forall_cons_1 in Hes as [He Hes].
  cbn [fold_left]. destruct (switch_screen_spec e k Hm Hd He) as [Hm' Ha _ _ _ _ _].
  pose proof (switch_keeps_screens e k Hm Hd He) as Hk. cbv zeta in Hk. revert Hm' Ha Hk.
  generalize (switch_screen e k) as k1. intros k1 Hm' Ha Hk.
  destruct (IH Hes k1 Hm' ltac:(lia)) as [Hl Hf]. split.
  - rewrite Hl, Ha. destruct es as [|e' es']; [done|].
    clear. revert e'. induction es' as [|x l IH]; intros e'; [done|]. exact (IH x).
  - intros f Hf'. destruct (Hf f Hf') as [S1 C1]. destruct (Hk f Hf') as [S2 C2].
    split; [|by rewrite C1]. intros o Ho. by rewrite S1, S2.
Qed.

(** Switching to a terminal that has no shell yet, when the image has a shell
    the kernel can run, starts it, in the lowest free slot, as the first process of that terminal. *)
Theorem display_switch_starts_shell e p ino entry k :
  kernel_map (mmu k) -> 0 <= active k < 3 -> 0 <= e < 3 -> e <> active k ->
  terminal_flag (term_at k e) = 1 -> runnable k shell_words.1 p ino entry -> placed k ->
  exists k', display_switch e k = Jmp (IretUser (u32 entry) 0x083FFFFC 0x23 0x2B) k' /\
    proc_used k' p = 1 /\ active k' = e /\
    processes_at k' e 0 = p /\ terminal_flag (term_at k' e) = 0.
Proof.
  intros Hm Hd He Hne Hflag Hr0 Hpl. destruct (switch_screen_spec e k Hm Hd He) as [_ Ha _ Ht _ _ _].
  pose proof (runnable_screens _ _ _ _ _ _ Hr0 Hpl (switch_screens_only e k Hm Hd He)) as Hr. clear Hr0 Hpl.
  assert (terminal_flag (term_at (switch_screen e k) e) = 1) as Hf
    by (rewrite Ht; by test_false (active k =? e)).
  unfold display_switch. rewrite bind_modify, bind_get. clear Ht.
  revert Hr Ha Hf. generalize (switch_screen e k) as k1. intros k1 Hr Ha Hf.
  destruct (execute_shell_starts _ _ _ _ Hr) as (k' & E & [[S1 _] _ _ _ _ _ _ _ _ _ Hent [S12 _]]).
  pose proof (ru_free _ _ _ _ _ Hr) as (Hp & _). exists k'. rewrite Ha, Hf.
  change (negb (1 =? 0)) with true. cbv iota. rewrite (bind_jmp _ _ _ _ _ E).
  split; [reflexivity|]. split; [exact S1|]. split; [by rewrite S12|].
  unfold entered in Hent. rewrite Ha, Hf in Hent.
  destruct Hent as (E0 & _ & Ef). split; [|exact Ef]. unfold processes_at. rewrite E0. apply s8_small. lia.
Qed.

Lemma clear_processes d k :
  let k' := for_loop 0 4 (fun j => set_processes d j (-1)) k in
  only_terminals k k' /\ (forall e, e <> d -> term_at k' e = term_at k e) /\
  exists ps, term_at k' d = (term_at k d) <| processes := ps |> /\ forall j, 0 <= j < 4 -> ps.[j] = -1.
Proof.
  apply (for_loop_rule (fun n k' => only_terminals k k' /\ (forall e, e <> d -> term_at k' e = term_at k e) /\
    exists ps, term_at k' d = (term_at k d) <| processes := ps |> /\ forall j, 0 <= j < n -> ps.[j] = -1)); [done| |].
  - split; [apply only_terminals_refl|]. split; [done|]. exists (processes (term_at k d)). split; [by destruct (term_at k d)|lia].
  - intros n k' Hn (Hot & Ho & ps & E & Hps). split; [|split].
    + apply (only_terminals_trans _ k'); [done|]. by destruct k' as [? ? ? ? ? ? ? ? [] ? ?].
    + intros e He. unfold set_processes. rewrite term_at_upd. test_false (d =? e). by apply Ho.
    + exists (<[n := s8 (-1)]> ps). unfold set_processes. rewrite term_at_upd, Z.eqb_refl, E. split; [done|].
      intros j Hj. rewrite elem_insert. destruct (Z.eqb_spec n j); [done|]. apply Hps. lia.
Qed.

(** A terminal without a shell. *)
Definition fresh_terminal (t : terminal_t) : Prop :=
  terminal_flag t = 1 /\ term_screen_x t = 0 /\ term_screen_y t = 0 /\ buffer_enable t = 0 /\
  forall j, 0 <= j < 4 -> (processes t).[j] = -1.

Lemma process_init_spec k :
  exists k1, process_init k = (past_terminals 600 0 k1) <| procs; active_terminal := 0 |> /\
    only_terminals k k1 /\ forall i, 0 <= i < 3 -> fresh_terminal (term_at k1 i).
Proof.
  unfold process_init. cbv zeta.
  match goal with |- context [for_loop 0 3 ?f k] => set (body := f) end.
  exists (for_loop 0 3 body k). split; [done|].
  apply (for_loop_rule (fun n k' => only_terminals k k' /\ forall i, 0 <= i < n -> fresh_terminal (term_at k' i)));
    [done|split; [apply only_terminals_refl|lia]|].
  intros n k1 Hn [Hot IH]. unfold body. set (k2 := upd_term n _ k1).
  destruct (clear_processes n k2) as (Hoc & Ho & ps & E & Hps). cbv zeta in Hoc, Ho, E. split.
  { apply (only_terminals_trans _ k1); [done|]. apply (only_terminals_trans _ k2); [|done].
    unfold k2. by destruct k1 as [? ? ? ? ? ? ? ? [] ? ?]. }
  intros i Hi. destruct (Z.eq_dec i n) as [->|Hne].
  - rewrite E. unfold k2. rewrite term_at_upd, Z.eqb_refl. done.
  - rewrite Ho by done. unfold k2. rewrite term_at_upd. test_false (n =? i). apply IH. lia.
Qed.

(** [process_init] leaves each of the three terminals without a shell, with
    an empty process list and the cursor at the origin, and terminal 0 active;
    but it also stores a byte past the array of terminals. *)
Theorem process_init_terminals k :
  exists k1, process_init k = (past_terminals 600 0 k1) <| procs; active_terminal := 0 |> /\
    forall i, 0 <= i < 3 -> fresh_terminal (term_at k1 i).
Proof.
  destruct (process_init_spec k) as (k1 & E & _ & Hf). by exists k1.
Qed.
End screens.

(** ** Concrete runs *)

Section samples.
#[local] Existing Instance quiet_platform.

(** The first shell runs; terminal 1 has none yet. *)
Definition two_terminals : kstate := put_term 1 (Terminal ∅ 0 0 0 ∅ 1 0) running_shell.

Lemma mmu_put_term d t k : mmu (put_term d t k) = mmu k.
Proof. done. Qed.
Lemma two_terminals_map : kernel_map (mmu two_terminals).
Proof. unfold two_terminals. rewrite mmu_put_term. apply running_low_image. Qed.

Lemma switches_keep_screens_witness :
  active (switches [1; 2; 0] two_terminals) = 0 /\
  screen_of (switches [1; 2; 0] two_terminals) 0 5 = screen_of two_terminals 0 5.
Proof.
  destruct (switches_keep_screens [1; 2; 0] two_terminals two_terminals_map) as [Ha Hs].
  - by vm_compute.
  - repeat constructor; lia.
  - split; [exact Ha|]. apply (Hs 0); lia.
Defined.

Lemma two_terminals_runnable : runnable two_terminals shell_words.1 1 0 0x08048018.
Proof.
  unfold two_terminals. generalize running_runnable, (Terminal ∅ 0 0 0 ∅ 1 0).
  generalize running_shell as r. intros r [[He [] ? ? ? []] [] ? ?] tm.
  split; [split; [exact He|by split|done|done|done|by split]|by split|done|done].
Qed.
Lemma two_terminals_placed : placed two_terminals.
Proof. split; [left; by vm_compute|by vm_compute|right; by vm_compute]. Qed.

Lemma display_switch_starts_shell_witness :
  exists k', display_switch 1 two_terminals = Jmp (IretUser 0x08048018 0x083FFFFC 0x23 0x2B) k' /\
    processes_at k' 1 0 = 1.
Proof.
  destruct (display_switch_starts_shell 1 1 0 0x08048018 two_terminals two_terminals_map)
    as (k' & E & _ & _ & Hp & _).
  - by vm_compute.
  - lia.
  - by vm_compute.
  - by vm_compute.
  - apply two_terminals_runnable.
  - apply two_terminals_placed.
  - exists k'. split; [exact E|exact Hp].
Defined.
End samples.
