(* ===== verification/Sched.v ===== *)
(** The timer and the scheduler (sched.c). [entry] leaves [pit_init] out, so the
    timer interrupt is never enabled; the code is modelled as it stands.

    The assembly of [context_switch] names no clobbered register and leaves its
    outputs unwritten: what it stores in the PCBs, and the stack pointers it
    loads, are what the compiler's choice of registers makes them
    ([asm_output]). *)

From S2P Require Import Prelude Bytes CMem State Console Pic Filesys Paging Keyboard Descriptors Process Halt Terminals.
#[local] Open Scope Z_scope.
#[local] Open Scope kernel_scope.

Definition FREQ := 1193182.
Definition CHANNEL_0 := 0x40.
Definition MASK := 0xFF.
Definition COMMAND_REG := 0x43.
Definition PIT_IRQ := 0.
Definition PIT_PORT := 0x36.

Section sched.
Context `{Platform}.

(** sched.c [pit_init]. *)
Definition pit_init (k : kstate) : kstate :=
  let freq := Z.quot FREQ 50 in
  let k := outb PIT_PORT COMMAND_REG k in
  let k := outb (Z.land freq MASK) CHANNEL_0 k in
  let k := outb (Z.shiftr freq 8) CHANNEL_0 k in
  enable_irq PIT_IRQ k.

(** sched.c [context_switch]. *)
Definition context_switch (k : kstate) : kstate :=
  let curr_pcb := get_pcb k in
  let k := k <| procs; running_terminal := next_term (procs k) |> in
  let next_pcb := get_pcb k in
  let k := page_switch (s32 (pid (pcb_at k next_pcb))) k in
  let k := k <| cpu; tss_ss0 := KERNEL_DS_ |> in
  let k := k <| cpu; tss_esp0 := u32 (SIZE_8MB - pid (pcb_at k next_pcb) * page8KB - 4) |> in
  let k := upd_pcb curr_pcb (fun p => p <| ksp := asm_output 0 k |> <| kbp := asm_output 1 k |>) k in
  let esp_ebp := (asm_output 2 k, asm_output 3 k) in
  let k := k <| cpu; esp := esp_ebp.1 |> <| cpu; ebp := esp_ebp.2 |> in
  upd_pcb next_pcb (fun p => p <| ksp := asm_output 4 k |> <| kbp := asm_output 5 k |>) k.

(** sched.c [scheduler], lines 48-53: the screen of the active terminal is kept. *)
Definition save_screen (k : kstate) : kstate :=
  let k := upd_term (active k) (fun t => t <| term_screen_x := get_screenx k |>) k in
  let k := upd_term (active k) (fun t => t <| term_screen_y := get_screeny k |>) k in
  copy_page (backing (active k)) VIDEO_MEMORY k.

(** Lines 59-65: cursor and contents of the terminal that became active. *)
Definition restore_cleared (k : kstate) : kstate :=
  let k := set_screenx (u8 (term_screen_x (term_at k (active k)))) k in
  let k := set_screeny (u8 (term_screen_y (term_at k (active k)))) k in
  let k := place_cursor (u8 (term_screen_x (term_at k (active k)))) (u8 (term_screen_y (term_at k (active k)))) k in
  copy_page VIDEO_MEMORY (backing (active k)) k.

(** Lines 58-65. *)
Definition restore_screen (k : kstate) : kstate := restore_cleared (clear k).

(** Lines 55-72. *)
Definition show_saved (k : kstate) : kstate :=
  let prev_pcb := get_pcb k in
  let k := k <| procs; active_terminal := next_term (procs k) |> in
  let k := restore_screen k in
  upd_pcb prev_pcb (fun p => p <| ksp := esp (cpu k) |> <| kbp := ebp (cpu k) |>) k.

(** Lines 48-72: what precedes [execute]. *)
Definition show_next (k : kstate) : kstate := show_saved (save_screen k).

(** sched.c [scheduler]. *)
Definition scheduler : M unit :=
  modify (fun k => k <| procs; next_term := Z.rem (running_terminal (procs k) + 1) 3 |>) ;;
  k <- get ;
  let next := next_term (procs k) in
  if negb (next =? running_terminal (procs k)) && (terminal_flag (term_at k next) =? 0)
  then modify context_switch
  else modify show_next ;; execute_shell ;; ret tt.

(** sched.c [pit_handler]. *)
Definition pit_handler : M unit :=
  modify (send_eoi PIT_IRQ) ;;
  k <- get ;
  if (terminal_flag (term_at k 0) =? 0) || (terminal_flag (term_at k 1) =? 0) || (terminal_flag (term_at k 2) =? 0)
  then scheduler else ret tt.
End sched.

(** ** Properties *)

Section properties.
Context `{Platform}.

(** [pit_init] programs the timer's channel 0, low byte first, with the
    divisor that makes it fire 50 times a second, and unmasks its line. *)
Theorem pit_init_50hz k : exists lo hi mask,
  io (pit_init k) = io k ++ [POut 0x43 0x36; POut 0x40 lo; POut 0x40 hi; POut 0x21 mask] /\
  0 <= lo < 256 /\ 0 <= hi < 256 /\ FREQ / (lo + 256 * hi) = 50 /\ line_enabled (pit_init k) 0 = true.
Proof.
  eexists _, _, _. split; [unfold pit_init, outb; simpl; by rewrite <- !app_assoc|].
  split; [done|]. split; [done|]. split; [done|].
  unfold pit_init. cbv zeta. set (k1 := outb _ _ _). unfold line_enabled. change (0 <? 8) with true. cbv iota.
  destruct (get_enable_irq k1 PIT_IRQ) as [-> _]; [done|]. change (8 <=? PIT_IRQ) with false. cbv iota.
  rewrite clear_bit_testbit by done. by rewrite andb_false_r.
Qed.

Definition next_of (k : kstate) : Z := Z.rem (running_terminal (procs k) + 1) 3.

Lemma next_of_range k : 0 <= running_terminal (procs k) < 3 ->
  0 <= next_of k < 3 /\ next_of k <> running_terminal (procs k) /\
  next_of k = (running_terminal (procs k) + 1) mod 3.
Proof.
  intros Hr. unfold next_of. rewrite Z.rem_mod_nonneg by lia. Z.div_mod_to_equations. lia.
Qed.

(** Time passes to the next terminal: what [context_switch] leaves. *)
Lemma context_switch_spec k : kernel_map (mmu k) -> 0 <= pid (cur_pcb k) < 6 ->
  let k' := context_switch k in
  running_terminal (procs k') = next_term (procs k) /\ next_term (procs k') = next_term (procs k) /\
  active k' = active k /\ pcb_state (procs k') = pcb_state (procs k) /\ kernel_map (mmu k') /\
  (forall user va, SIZE_128MB <= va < SIZE_132MB -> walk user (mmu k') va =
     Some (SIZE_8MB + pid (cur_pcb k) * SIZE_4MB + (va - SIZE_128MB))) /\
  Z.land (tss_esp0 (cpu k')) 0xffffe000 = pcb_addr (pid (cur_pcb k)).
Proof.
  intros Hm Hp. cbv zeta. unfold context_switch. cbv zeta.
  set (k1 := k <| procs; running_terminal := next_term (procs k) |>).
  change (pcb_at k1 (get_pcb k1)) with (cur_pcb k). set (p := pid (cur_pcb k)) in *.
  rewrite s32_small by lia.
  assert (kernel_map (mmu k1)) as Hm1 by exact Hm.
  destruct (page_switch_entry p k1 ltac:(lia)) as [Ho _].
  pose proof (page_switch_kernel_map p k1 ltac:(lia) Hm1) as Hkm.
  pose proof (fun user va => page_switch_user user p k1 va (km_on _ Hm1) ltac:(lia)) as Hwalk.
  revert Ho Hkm Hwalk. generalize (page_switch p k1) as k2. intros k2 Ho Hkm Hwalk.
  assert (procs k2 = procs k1) as Ep by (by rewrite Ho).
  assert (pid (pcb_at (k2 <| cpu; tss_ss0 := KERNEL_DS_ |>) (get_pcb k1)) = p) as Epid
    by (change (pid (pcb_at k2 (get_pcb k)) = p); unfold pcb_at; by rewrite Ep).
  rewrite Epid. split_and!.
  - change (running_terminal (procs k2) = running_terminal (procs k1)). by rewrite Ep.
  - change (next_term (procs k2) = next_term (procs k1)). by rewrite Ep.
  - change (active_terminal (procs k2) = active_terminal (procs k1)). by rewrite Ep.
  - change (pcb_state (procs k2) = pcb_state (procs k1)). by rewrite Ep.
  - exact Hkm.
  - exact Hwalk.
  - change (Z.land (u32 (SIZE_8MB - p * page8KB - 4)) 0xffffe000 = pcb_addr p).
    rewrite u32_small by (unfold SIZE_8MB, page8KB; lia). apply esp0_pcb. lia.
Qed.

(** The state in which [scheduler] chooses what to do. *)
Definition chosen (k : kstate) : kstate := (send_eoi PIT_IRQ k) <| procs; next_term := next_of k |>.

Lemma send_eoi_only n k : exists l, send_eoi n k = k <| io := io k ++ l |>.
Proof.
  unfold send_eoi, outb. destruct k as [pm io0 ir co pc rt f kb pr mm cp]. simpl. repeat case_match; simpl.
  all: try (by eexists). all: try (exists []; by rewrite app_nil_r). all: eexists; by rewrite <- app_assoc.
Qed.

Lemma chosen_frame k : let k' := chosen k in
  mmu k' = mmu k /\ cur_pcb k' = cur_pcb k /\ active k' = active k /\ pcb_state (procs k') = pcb_state (procs k) /\
  next_term (procs k') = next_of k /\ running_terminal (procs k') = running_terminal (procs k) /\
  forall d, term_at k' d = term_at k d.
Proof. cbv zeta. unfold chosen. by destruct (send_eoi_only PIT_IRQ k) as [l ->]. Qed.

Lemma pit_handler_choice k : 0 <= running_terminal (procs k) < 3 ->
  Exists (fun d => terminal_flag (term_at k d) = 0) [0; 1; 2] ->
  pit_handler k =
    if terminal_flag (term_at k (next_of k)) =? 0 then Ret tt (context_switch (chosen k))
    else (execute_shell ;; ret tt) (show_next (chosen k)).
Proof.
  intros Hr Hs. destruct (next_of_range k Hr) as (_ & Hne & _).
  unfold pit_handler. rewrite bind_modify, bind_get.
  assert (forall d, term_at (send_eoi PIT_IRQ k) d = term_at k d) as Ht
    by (by destruct (send_eoi_only PIT_IRQ k) as [l ->]).
  rewrite !Ht. replace ((terminal_flag (term_at k 0) =? 0) || (terminal_flag (term_at k 1) =? 0) || _) with true.
  2: { symmetry. rewrite !Exists_cons, Exists_nil in Hs. rewrite !orb_true_iff, !Z.eqb_eq. tauto. }
  unfold scheduler. rewrite bind_modify, bind_get. cbv zeta.
  assert (running_terminal (procs (send_eoi PIT_IRQ k)) = running_terminal (procs k)) as Er
    by (by destruct (send_eoi_only PIT_IRQ k) as [l ->]).
  rewrite Er. fold (next_of k). fold (chosen k). destruct (chosen_frame k) as (_ & _ & _ & _ & En & Er' & Ht').
  rewrite En, Er', Ht'. rewrite (proj2 (Z.eqb_neq _ _) Hne). change (negb false) with true. rewrite andb_true_l.
  destruct (_ =? 0); [reflexivity|apply bind_modify].
Qed.

(** C33: a timer interrupt, when the next terminal in turn has a shell, passes the
    turn to that terminal and returns, but does not switch processes: the user
    page and the kernel stack of the next entry are still those of the process
    that was running. *)
Theorem timer_keeps_process k : 0 <= running_terminal (procs k) < 3 ->
  terminal_flag (term_at k (next_of k)) = 0 -> kernel_map (mmu k) -> 0 <= pid (cur_pcb k) < 6 ->
  exists k', pit_handler k = Ret tt k' /\
    running_terminal (procs k') = (running_terminal (procs k) + 1) mod 3 /\
    active k' = active k /\ pcb_state (procs k') = pcb_state (procs k) /\ kernel_map (mmu k') /\
    (forall user va, SIZE_128MB <= va < SIZE_132MB -> walk user (mmu k') va =
       Some (SIZE_8MB + pid (cur_pcb k) * SIZE_4MB + (va - SIZE_128MB))) /\
    Z.land (tss_esp0 (cpu k')) 0xffffe000 = pcb_addr (pid (cur_pcb k)).
Proof.
  intros Hr Hf Hm Hp. destruct (next_of_range k Hr) as (Hn & _ & En).
  exists (context_switch (chosen k)). split.
  { rewrite pit_handler_choice; [by rewrite Hf|done|]. rewrite !Exists_cons, Exists_nil.
    assert (next_of k = 0 \/ next_of k = 1 \/ next_of k = 2) as [E|[E|E]] by lia; rewrite E in Hf; tauto. }
  destruct (chosen_frame k) as (Cm & Cp & Ca & Cs & Cn & _ & _).
  destruct (context_switch_spec (chosen k)) as (R1 & _ & R3 & R4 & R5 & R6 & R7); [by rewrite Cm|by rewrite Cp|].
  revert R1 R3 R4 R5 R6 R7. generalize (context_switch (chosen k)) as k'. rewrite Ca, Cs, Cn, Cp, <- En.
  intros k' ??????. by split_and!.
Qed.

Lemma blank_cells_frame k : procs (blank_cells k) = procs k /\ mmu (blank_cells k) = mmu k.
Proof. unfold blank_cells. by apply (for_loop_rule (fun _ k' => procs k' = procs k /\ mmu k' = mmu k)). Qed.
Lemma home_frame k : let k' := place_cursor (scr_x (set_y 0 (set_x 0 k))) (scr_y (set_y 0 (set_x 0 k)))
  (set_y 0 (set_x 0 k)) in procs k' = procs k /\ mmu k' = mmu k.
Proof. by split. Qed.
Lemma clear_frame k : procs (clear k) = procs k /\ mmu (clear k) = mmu k.
Proof.
  destruct (blank_cells_frame k) as [<- <-]. exact (home_frame (blank_cells k)).
Qed.
Lemma restore_cleared_frame k : procs (restore_cleared k) = procs k /\ mmu (restore_cleared k) = mmu k.
Proof. by split. Qed.
Lemma restore_screen_frame k : procs (restore_screen k) = procs k /\ mmu (restore_screen k) = mmu k.
Proof. destruct (clear_frame k) as [<- <-]. exact (restore_cleared_frame (clear k)). Qed.
Lemma save_screen_terminals k : next_term (procs (save_screen k)) = next_term (procs k) /\
  forall d, terminal_flag (term_at (save_screen k) d) = terminal_flag (term_at k d).
Proof.
  split; [done|]. intros d. change (term_at (save_screen k) d) with
    (term_at (upd_term (active k) (fun t => t <| term_screen_y := get_screeny k |>)
      (upd_term (active k) (fun t => t <| term_screen_x := get_screenx k |>) k)) d).
  rewrite !term_at_upd. repeat case_match; [..|done];
    by repeat match goal with E : (_ =? _) = true |- _ => apply Z.eqb_eq in E as <- end.
Qed.

Lemma show_saved_frame k : active (show_saved k) = next_term (procs k) /\ mmu (show_saved k) = mmu k /\
  forall d, term_at (show_saved k) d = term_at k d.
Proof.
  unfold show_saved. cbv zeta. set (k2 := k <| procs; active_terminal := next_term (procs k) |>).
  destruct (restore_screen_frame k2) as [E Em]. revert E Em. generalize (restore_screen k2) as k3. intros k3 E Em.
  split; [|split; [exact Em|intros d]]; unfold active, term_at; simpl; by rewrite E.
Qed.
Lemma save_screen_mmu k : mmu (save_screen k) = mmu k.
Proof. done. Qed.

Lemma show_next_frame k : active (show_next k) = next_term (procs k) /\ mmu (show_next k) = mmu k /\
  forall d, terminal_flag (term_at (show_next k) d) = terminal_flag (term_at k d).
Proof.
  destruct (show_saved_frame (save_screen k)) as (Ea & Em & Et). destruct (save_screen_terminals k) as [En Ef].
  split; [exact (eq_trans Ea En)|]. split; [exact (eq_trans Em (save_screen_mmu k))|].
  intros d. exact (eq_trans (f_equal terminal_flag (Et d)) (Ef d)).
Qed.

Lemma chosen_screens_only k : kernel_map (mmu k) -> screens_only k (chosen k).
Proof. intros Hm. unfold chosen. by destruct (send_eoi_only PIT_IRQ k) as [l ->]. Qed.

Lemma copy_page_screens dest src k : kernel_map (mmu k) -> VIDEO_MEMORY <= dest -> dest + 4096 <= SCREENS_END ->
  0 <= src -> src + 4096 <= SIZE_8MB -> dest + 4096 <= src \/ src + 4096 <= dest ->
  screens_only k (copy_page dest src k).
Proof.
  intros Hm Hd He Hs Hs' Hdis. unfold VIDEO_MEMORY, SCREENS_END, SIZE_8MB in *. split; [exact Hm|done..|].
  intros va Hva Ho. unfold VIDEO_MEMORY, SCREENS_END in *.
  rewrite ld8_copy_page by (unfold SIZE_8MB; (done || lia)).
  by test_false ((dest <=? va) && (va <? dest + 4096)).
Qed.

Lemma screens_only_trans k1 k2 k3 : screens_only k1 k2 -> screens_only k2 k3 -> screens_only k1 k3.
Proof.
  intros [M1 F1 E1 S1 B1] [M2 F2 E2 S2 B2]. split; [done|congruence..|]. intros va Hva Ho. by rewrite B2, B1.
Qed.

Lemma console_screens_only k k' : kernel_map (mmu k) -> console_frame k k' -> screens_only k k'.
Proof.
  intros Hm [E Hmem]. assert (mmu k' = mmu k) as Em by (by rewrite E).
  split; [by rewrite Em|by rewrite E..|]. intros va Hva Ho.
  unfold ld8. change (mem_get (pmem k') (loc (vspace k') va) = mem_get (pmem k) (loc (vspace k) va)).
  rewrite !loc_low by (rewrite ?Em; done). apply Hmem. unfold VIDEO_MEMORY, SCREENS_END, VIDEO in *. lia.
Qed.

Lemma restore_screen_only k : kernel_map (mmu k) -> 0 <= active k < 3 -> screens_only k (restore_screen k).
Proof.
  intros Hm Ha. unfold restore_screen. destruct (clear_spec k (kernel_map_video _ Hm)) as [Hf _].
  pose proof (console_screens_only _ _ Hm Hf) as Hs. destruct (clear_frame k) as [Ep _].
  apply (screens_only_trans _ _ _ Hs). destruct Hs as [Hm1 _ _ _ _].
  assert (active (clear k) = active k) as Ea by (unfold active; by rewrite Ep).
  revert Hm1 Ea. generalize (clear k) as k1. intros k1 Hm1 Ea. unfold restore_cleared. cbv zeta.
  set (k2 := place_cursor _ _ _). assert (screens_only k1 k2 /\ active k2 = active k1) as [H2 Ea2]
    by (split; [split; [exact Hm1|reflexivity|reflexivity|reflexivity|intros; reflexivity]|reflexivity]).
  clearbody k2. apply (screens_only_trans _ _ _ H2). apply copy_page_screens;
    rewrite ?backing_page, ?Ea2, ?Ea; unfold VIDEO_MEMORY, SCREENS_END, SIZE_8MB; [apply H2|lia..].
Qed.

Lemma show_next_screens_only k : kernel_map (mmu k) -> 0 <= active k < 3 -> 0 <= next_term (procs k) < 3 ->
  screens_only k (show_next k).
Proof.
  intros Hm Ha Hn. unfold show_next, save_screen. cbv zeta. set (k1 := upd_term _ _ (upd_term _ _ k)).
  assert (screens_only k k1 /\ active k1 = active k /\ next_term (procs k1) = next_term (procs k)) as (H1 & A1 & N1)
    by (split; [split; [exact Hm|reflexivity|reflexivity|reflexivity|intros; reflexivity]|split; reflexivity]).
  clearbody k1. apply (screens_only_trans _ _ _ H1). 
  assert (screens_only k1 (copy_page (backing (active k1)) VIDEO_MEMORY k1)) as H2.
  { rewrite backing_page, A1. apply copy_page_screens; unfold VIDEO_MEMORY, SCREENS_END, SIZE_8MB; [apply H1|lia..]. }
  apply (screens_only_trans _ _ _ H2). 
  assert (next_term (procs (copy_page (backing (active k1)) VIDEO_MEMORY k1)) = next_term (procs k)) as N2 by exact N1.
  revert H2 N2. generalize (copy_page (backing (active k1)) VIDEO_MEMORY k1) as k2. intros k2 H2 N2.
  unfold show_saved. cbv zeta. set (k3 := k2 <| procs; active_terminal := next_term (procs k2) |>).
  assert (screens_only k2 k3) as H3 by (split; [apply H2|done..]).
  assert (screens_only k3 (restore_screen k3)) as H4
    by (apply restore_screen_only; [apply H3|change (active k3) with (next_term (procs k2)); lia]).
  apply (screens_only_trans _ _ _ H3), (screens_only_trans _ _ _ H4). clear -H4.
  revert H4. generalize (restore_screen k3) as k4. intros k4 H4. split; [apply H4|done..].
Qed.

(** A timer interrupt, when the next terminal in turn has no shell yet (and
    another has), shows that terminal and starts its shell there, in the lowest
    free slot. *)
Theorem timer_starts_shell p ino entry k : 0 <= running_terminal (procs k) < 3 ->
  Exists (fun d => terminal_flag (term_at k d) = 0) [0; 1; 2] ->
  terminal_flag (term_at k (next_of k)) = 1 ->
  kernel_map (mmu k) -> 0 <= active k < 3 -> runnable k shell_words.1 p ino entry -> placed k ->
  exists k', pit_handler k = Jmp (IretUser (u32 entry) 0x083FFFFC 0x23 0x2B) k' /\
    proc_used k' p = 1 /\ active k' = next_of k /\
    processes_at k' (next_of k) 0 = p /\ terminal_flag (term_at k' (next_of k)) = 0.
Proof.
  intros Hr Hs Hf Hm Ha Hrun0 Hpl. assert (runnable (show_next (chosen k)) shell_words.1 p ino entry) as Hrun.
  { apply (runnable_screens k); [done|done|]. pose proof (chosen_screens_only k Hm) as Hc.
    destruct (chosen_frame k) as (_ & _ & Ea & _ & En & _).
    apply (screens_only_trans _ _ _ Hc), show_next_screens_only; [apply Hc|by rewrite Ea|].
    rewrite En. by apply next_of_range. }
  clear Hrun0 Hpl Ha. rewrite pit_handler_choice, Hf by done. change (1 =? 0) with false. cbv iota.
  destruct (show_next_frame (chosen k)) as (Ea & _ & Ef).
  destruct (chosen_frame k) as (_ & _ & _ & _ & En & _ & Et). rewrite En in Ea.
  specialize (Ef (next_of k)). rewrite Et, Hf in Ef. clear Et En Hf.
  revert Hrun Ea Ef. generalize (show_next (chosen k)) as k1. intros k1 Hrun Ea Ef.
  destruct (execute_shell_starts _ _ _ _ Hrun) as (k' & E & [[S1 _] _ _ _ _ _ _ _ _ _ Hent [S12 _]]).
  pose proof (ru_free _ _ _ _ _ Hrun) as (Hp & _). exists k'. rewrite (bind_jmp _ _ _ _ _ E).
  split; [reflexivity|]. split; [exact S1|]. split; [by rewrite S12|].
  unfold entered in Hent. rewrite Ea, Ef in Hent.
  destruct Hent as (E0 & _ & E1). split; [|exact E1]. unfold processes_at. rewrite E0. apply s8_small. lia.
Qed.

(** Before any terminal has a shell, a timer interrupt is acknowledged and
    changes nothing else. *)
Theorem timer_idle k : (forall d, 0 <= d < 3 -> terminal_flag (term_at k d) <> 0) ->
  exists l, pit_handler k = Ret tt (k <| io := io k ++ l |>).
Proof.
  intros Hf. destruct (send_eoi_only PIT_IRQ k) as [l E]. exists l.
  unfold pit_handler. rewrite bind_modify, bind_get, E.
  change (term_at (k <| io := io k ++ l |>)) with (term_at k).
  rewrite !(fun d Hd => proj2 (Z.eqb_neq _ _) (Hf d Hd)) by lia. done.
Qed.
End properties.

(** ** Concrete runs *)

Section samples.
#[local] Existing Instance quiet_platform.

(** Terminals 0 and 1 have shells; process 0 runs. *)
Definition two_shells : kstate := put_term 1 (Terminal ∅ 0 0 0 ∅ 0 0) running_shell.

Lemma timer_keeps_process_witness :
  exists k', pit_handler two_shells = Ret tt k' /\ running_terminal (procs k') = 1 /\
    Z.land (tss_esp0 (cpu k')) 0xffffe000 = 0x7fe000.
Proof.
  destruct (timer_keeps_process two_shells) as (k' & E & Hr & _ & _ & _ & _ & Ht).
  - by vm_compute.
  - by vm_compute.
  - unfold two_shells. rewrite mmu_put_term. apply running_low_image.
  - by vm_compute.
  - exists k'. split; [exact E|]. split; [exact Hr|]. etransitivity; [exact Ht|by vm_compute].
Defined.

Lemma timer_starts_shell_witness :
  exists k', pit_handler two_terminals = Jmp (IretUser 0x08048018 0x083FFFFC 0x23 0x2B) k' /\
    processes_at k' 1 0 = 1.
Proof.
  destruct (timer_starts_shell 1 0 0x08048018 two_terminals) as (k' & E & _ & _ & Hp & _).
  - by vm_compute.
  - apply Exists_cons_hd. by vm_compute.
  - by vm_compute.
  - apply two_terminals_map.
  - by vm_compute.
  - apply two_terminals_runnable.
  - apply two_terminals_placed.
  - exists k'. split; [exact E|exact Hp].
Defined.

Lemma timer_idle_witness :
  exists l, pit_handler (process_init zero_state) =
    Ret tt ((process_init zero_state) <| io := l |>).
Proof.
  destruct (timer_idle (process_init zero_state)) as [l E].
  - intros d Hd. assert (d = 0 \/ d = 1 \/ d = 2) as [-> | [-> | ->]] by lia; by vm_compute.
  - exists l. exact E.
Defined.
End samples.
