(* ===== verification/Interrupts.v ===== *)
(** Interrupts and system calls: [keyboard_handler] (keyboard.c) with its
    terminal switches, the delivery of a pending interrupt (interrupt.S), the
    waits of [read_terminal] and [read_rtc], the calls [read] and [write], and
    the dispatch of system calls.

    A wait tests its condition, then takes one pending interrupt, and so on:
    an interrupt is followed by a test before the next one. A wait that no
    pending interrupt ends, or that starts with interrupts off, is [Hang]. A
    masked interrupt stays pending for the whole of the wait, since no handler
    changes a mask. *)

From S2P Require Import Prelude Bytes CString CMem State Console Pic Rtc Filesys Paging Keyboard Descriptors Process Halt Terminals Sched.
#[local] Open Scope Z_scope.
#[local] Open Scope kernel_scope.

Section interrupts.
Context `{Platform}.

Definition set_disp (d : Z) (k : kstate) : kstate := k <| kbd; disp_term_k := d |>.

(** keyboard.c [keyboard_handler]. *)
Definition keyboard_handler : M unit :=
  modify handler_entry ;;
  data <- run (inb KEYBOARD_ENCODER) ;
  print <- run (handler_front data) ;
  k <- get ;
  if (control_status (kbd k) =? 1) && ((print =? 108) || (print =? 76)) then modify (send_eoi 1)
  else if alt_status (kbd k) =? 1 then
    modify (send_eoi 1) ;;
    (if data =? F1_scancode then modify (set_disp 0) ;; display_switch 0 else ret tt) ;;
    (if data =? F2_scancode then modify (set_disp 1) ;; display_switch 1 else ret tt) ;;
    (if data =? F3_scancode then modify (set_disp 2) ;; display_switch 2 else ret tt)
  else
    modify (key_typed print) ;;
    modify (send_eoi 1).

(** ** Delivery (interrupt.S)

    The gates of the devices are interrupt gates: the handler runs with
    interrupts off, and they are on again after it. *)
Definition handle_SIG_RTC : M unit := modify cli ;; modify rtc_handler ;; modify sti.
Definition handle_SIG_KBD : M unit := modify cli ;; keyboard_handler ;; modify sti.
Definition handle_SIG_PIT : M unit := modify cli ;; pit_handler ;; modify sti.

Definition irq_line (i : irq) : Z := match i with IRQ_PIT => 0 | IRQ_KBD => 1 | IRQ_RTC => 8 end.
(** The line is unmasked, and so is the cascade line for one of the slave. *)
Definition unmasked (i : irq) (k : kstate) : bool :=
  line_enabled k (irq_line i) && ((irq_line i <? 8) || line_enabled k 2).

Definition deliver (i : irq) : M unit :=
  k <- get ;
  if unmasked i k then
    match i with IRQ_PIT => handle_SIG_PIT | IRQ_KBD => handle_SIG_KBD | IRQ_RTC => handle_SIG_RTC end
  else ret tt.

(** [while (!cond);] with the interrupts [pending]. *)
Fixpoint spin_until (cond : kstate -> bool) (pending : list irq) : M unit :=
  k <- get ;
  if cond k then ret tt
  else if negb (if_flag (cpu k)) then hang
  else match pending with
       | [] => hang
       | i :: rest => modify (fun k => k <| irqs := rest |>) ;; deliver i ;; spin_until cond rest
       end.
Definition spin (cond : kstate -> bool) : M unit := k <- get ; spin_until cond (irqs k).

(** keyboard.c [read_terminal]. *)
Definition line_entered (k : kstate) : bool := negb ((enter_read (kbd k)).[disp k] =? 0).
Definition read_terminal (fd buf num : Z) : M Z :=
  if buf =? 0 then ret (-1)
  else
    modify (fun k => upd_term (disp k) (fun t => t <| buffer_enable := 1 |>) k) ;;
    spin line_entered ;;
    run (take_line buf num).

(** rtc.c [read_rtc]. *)
Definition ticked (k : kstate) : bool := interrupt_rtc (State.rtc k) =? 1.
Definition read_rtc (fd buffer num : Z) : M Z :=
  modify (set_interrupt_rtc 0) ;;
  modify sti ;;
  spin ticked ;;
  modify cli ;;
  ret 0.

(** ** The system calls [read] and [write] *)

(** Calls through a table's [read] and [write]. *)
Definition call_read (f : fn) (fd buf nbytes : Z) : M Z :=
  match f with
  | Fn_file_read => run (file_read fd buf nbytes)
  | Fn_directory_read => fun k =>
      match directory_read fd buf nbytes k with Some (r, k) => Ret r k | None => Hang k end
  | Fn_read_rtc => read_rtc fd buf nbytes
  | Fn_read_terminal => read_terminal fd buf nbytes
  | Fn_read_failure => run (read_failure fd buf nbytes)
  | Fn_write_failure => run (write_failure fd buf nbytes)
  | _ => undef StrayCall
  end.
Definition call_write (f : fn) (fd buf nbytes : Z) : M Z :=
  match f with
  | Fn_file_write => run (file_write fd buf nbytes)
  | Fn_directory_write => run (directory_write fd buf nbytes)
  | Fn_write_rtc => run (write_rtc fd buf nbytes)
  | Fn_write_terminal => run (write_terminal fd buf nbytes)
  | Fn_read_failure => run (read_failure fd buf nbytes)
  | Fn_write_failure => run (write_failure fd buf nbytes)
  | _ => undef StrayCall
  end.

(** syscall.c [read]. *)
Definition read (fd buf nbytes : Z) : M Z :=
  modify sti ;;
  k <- get ;
  let curr_pcb := get_pcb k in
  if (fd <? 0) || (7 <? fd) || (buf =? 0) || (fd =? 1) then ret FAILURE
  else if flags (fd_at (pcb_at k curr_pcb) fd) =? 0 then ret FAILURE
  else call_read (op_read (ops_at k (fops_ptr (fd_at (pcb_at k curr_pcb) fd)))) fd buf nbytes.

(** syscall.c [write]. *)
Definition write (fd buf nbytes : Z) : M Z :=
  k <- get ;
  let curr_pcb := get_pcb k in
  if (fd <? 0) || (7 <? fd) || (buf =? 0) then ret FAILURE
  else if flags (fd_at (pcb_at k curr_pcb) fd) =? 0 then ret FAILURE
  else
    modify (fun k => k <| procs; temp_fd := fd |>) ;;
    k <- get ;
    call_write (op_write (ops_at k (fops_ptr (fd_at (pcb_at k curr_pcb) fd)))) fd buf nbytes.

(** ** The dispatch (interrupt.S)

    [sys_call_table] has the entries 0 to 8; the numbers 9 and 10, which the
    bound lets through, take what lies behind it. *)
Definition sys_call (n arg1 arg2 arg3 : Z) : M Z :=
  match n with
  | 1 => halt (u8 arg1)
  | 2 => execute_at arg1
  | 3 => read (s32 arg1) arg2 (s32 arg3)
  | 4 => write (s32 arg1) arg2 (s32 arg3)
  | 5 => open arg1
  | 6 => close (s32 arg1)
  | 7 => getargs arg1 (s32 arg2)
  | 8 => run (vidmap arg1)
  | _ => undef StrayCall
  end.
Definition handle_SIG_SYSCALL (eax ebx ecx edx : Z) : M Z :=
  if s32 eax <=? 0 then ret (-1)
  else if 10 <? s32 eax then ret (-1)
  else sys_call (s32 eax) ebx ecx edx.
End interrupts.

(** ** Input from the ports *)

(** The number of reads of a port in a trace. *)
Definition is_read (p : Z) (e : port_event) : bool := match e with PIn q _ => q =? p | POut _ _ => false end.
Definition reads (p : Z) (t : list port_event) : nat := length (List.filter (is_read p) t).

Lemma reads_app p t u : reads p (t ++ u) = (reads p t + reads p u)%nat.
Proof. unfold reads. by rewrite List.filter_app, length_app. Qed.

(** The keyboard controller: each read of its port takes the next scan code. *)
Definition keyboard_sends `{Platform} (stream : nat -> Z) : Prop :=
  forall t, dev_read t KEYBOARD_ENCODER = stream (reads KEYBOARD_ENCODER t).

Section frames.
Context `{Platform}.

Lemma reads_outb p v port k : reads p (io (outb v port k)) = reads p (io k).
Proof. unfold outb. simpl. rewrite reads_app. apply Nat.add_0_r. Qed.
Lemma reads_place_cursor p x y k : reads p (io (place_cursor x y k)) = reads p (io k).
Proof. unfold place_cursor. cbv zeta. by rewrite !reads_outb. Qed.
Lemma reads_send_eoi p n k : reads p (io (send_eoi n k)) = reads p (io k).
Proof. unfold send_eoi. case_match; by rewrite !reads_outb. Qed.

Lemma io_set_x x k : io (set_x x k) = io k.
Proof. done. Qed.
Lemma io_set_y y k : io (set_y y k) = io k.
Proof. done. Qed.
Lemma io_put_cell i c k : io (put_cell i c k) = io k.
Proof. done. Qed.
Lemma io_clear_top_row r k : io (clear_top_row r k) = io k.
Proof.
  unfold clear_top_row. destruct (Z.le_gt_cases (u8 r * NUM_COLS) (NUM_ROWS * NUM_COLS)).
  - by apply (for_loop_rule (fun _ k' => io k' = io k)).
  - by rewrite for_loop_empty by lia.
Qed.
Lemma io_scroll_rows k : io (scroll_rows k) = io k.
Proof. unfold scroll_rows. by apply (for_loop_rule (fun _ k' => io k' = io k)). Qed.
Lemma io_scroll k : io (scroll k) = io k.
Proof. unfold scroll. cbv zeta. by rewrite io_clear_top_row, io_set_y, io_set_x, io_scroll_rows. Qed.
Lemma io_scroll_if k : io (if NUM_ROWS <=? scr_y k then scroll k else k) = io k.
Proof. case_match; [apply io_scroll|done]. Qed.

Lemma reads_putc p c k : reads p (io (putc c k)) = reads p (io k).
Proof.
  unfold putc. cbv zeta. rewrite reads_place_cursor. f_equal.
  destruct ((c =? 10) || (c =? 13)); [|destruct (c =? BACKSPACE); [|destruct (c =? 0)]].
  - by rewrite io_set_x, io_scroll_if, io_set_y.
  - rewrite io_put_cell. case_match; [done|]. case_match; [|done].
    by rewrite io_set_x, io_set_y, io_clear_top_row, io_set_x.
  - apply io_put_cell.
  - case_match; [|by rewrite io_set_x, io_put_cell].
    by rewrite io_clear_top_row, io_scroll_if, io_set_y, !io_set_x, io_put_cell.
Qed.

(** The processes of every terminal are the same. *)
Definition same_lists (k k' : kstate) : Prop := forall d,
  processes (term_at k' d) = processes (term_at k d) /\ terminal_flag (term_at k' d) = terminal_flag (term_at k d).
Lemma same_lists_trans k1 k2 k3 : same_lists k1 k2 -> same_lists k2 k3 -> same_lists k1 k3.
Proof. intros E1 E2 d. destruct (E1 d), (E2 d). by split; etransitivity. Qed.
Lemma same_lists_put d f k : (forall t, processes (f t) = processes t /\ terminal_flag (f t) = terminal_flag t) ->
  same_lists k (put_term d (f (term_at k d)) k).
Proof. intros Hf e. change (put_term d _ k) with (upd_term d f k). rewrite term_at_upd. destruct (Z.eqb_spec d e) as [<-|]; [apply Hf|done]. Qed.

(** What a key that changes no modifier leaves alone. *)
Record key_frame (k k' : kstate) : Prop := {
  kf_state : k' = k <| pmem := pmem k' |> <| io := io k' |> <| con := con k' |> <| kbd := kbd k' |>
                    <| procs; terminals := terminals (procs k') |>;
  kf_alt : alt_status (kbd k') = alt_status (kbd k);
  kf_control : control_status (kbd k') = control_status (kbd k);
  kf_pointer : pointer (kbd k') = pointer (kbd k);
  kf_reads : forall p, reads p (io k') = reads p (io k);
  kf_lists : same_lists k k'
}.
#[export] Instance key_frame_preorder : PreOrder key_frame.
Proof.
  split.
  - intros k. split; [by destruct k as [? ? ? ? ? ? ? ? [] ? ?]|done..].
  - intros k1 k2 k3 [E1 A1 C1 P1 R1 L1] [E2 A2 C2 P2 R2 L2].
    split; [|congruence..|intros p; by rewrite R2|by apply (same_lists_trans _ k2)]. rewrite E2, E1. done.
Qed.

Lemma key_frame_con k k' : con_only k k' -> (forall p, reads p (io k') = reads p (io k)) -> key_frame k k'.
Proof.
  intros E R. split; [|by rewrite E..|done|intros d; by rewrite E]. rewrite E. by destruct k as [? ? ? ? ? ? ? ? [] ? ?].
Qed.
Lemma key_frame_putc c k : key_frame k (putc c k).
Proof. apply key_frame_con; [apply putc_con_only|intros; apply reads_putc]. Qed.
Lemma key_frame_eoi n k : key_frame k (send_eoi n k).
Proof.
  apply key_frame_con; [|intros; apply reads_send_eoi].
  destruct (send_eoi_only n k) as [l ->]. by destruct k.
Qed.
Lemma key_frame_append d c k : 0 <= d < 3 -> 0 <= index_at k d < 128 -> key_frame k (append_key d c k).
Proof.
  intros Hd Hi. unfold append_key. rewrite store_key_in by done. split; try done.
  exact (same_lists_put d (fun t => t <| keyboard_buf := put8 (index_at k d) c (keyboard_buf t) |>) k ltac:(done)).
Qed.

Lemma settled_same s : pointer (settled s) = pointer s /\ alt_status (settled s) = alt_status s /\
  control_status (settled s) = control_status s /\ index (settled s) = index s /\ disp_term_k (settled s) = disp_term_k s.
Proof. unfold settled. by case_match. Qed.

(** A key that has a character, not the backspace, with control not held. *)
Lemma key_plain_frame data k : 0 <= data < 256 -> key_char k data <> 0 -> key_char k data <> 8 ->
  control_status (kbd k) = 0 -> 0 <= disp k < 3 -> 0 <= index_at k (disp k) < 127 ->
  (handler_front data k).1 = key_char k data /\ key_frame k (handler_front data k).2 /\
  key_frame k (key_plain data k).
Proof.
  intros Hd H0 H8 Hct Hdi Hix. unfold key_plain, handler_front.
  rewrite (printable_no_modifier (pointer (kbd k))) by done. fold (settled (kbd k)).
  destruct (settled_same (kbd k)) as (Ep & Ea & Ec & Ei & Ed). set (k1 := k <| kbd := settled (kbd k) |>).
  unfold cntl_l_check. change (control_status (kbd k1)) with (control_status (settled (kbd k))). rewrite Ec, Hct.
  change (negb (0 =? 0)) with false. cbv iota zeta.
  assert (forall k', pointer (kbd k') = pointer (kbd k) -> key_char k' data = key_char k data) as Ek
    by (intros k' E; unfold key_char; by rewrite E).
  rewrite (Ek k1 Ep). set (c := key_char k data) in *.
  assert (key_frame k k1) as F1 by (split; [by destruct k as [? ? ? ? ? ? ? ? [] ? ?]|done..]).
  assert (disp k1 = disp k /\ index_at k1 (disp k) = index_at k (disp k)) as [Ed1 Ei1]
    by (unfold index_at, disp; simpl; by rewrite Ei, Ed).
  assert (key_frame k (key_noprint c k1) /\ disp (key_noprint c k1) = disp k /\
    0 <= index_at (key_noprint c k1) (disp k) < 128) as (F2 & Ed2 & Ei2).
  { unfold key_noprint. cbv zeta. test_false (c =? 8). destruct (Z.eqb_spec c 10) as [->|]; [|by rewrite Ed1, Ei1; split_and!; (done || lia)].
    rewrite Ed1, Ei1, store_key_in by lia. set (k2 := put_term _ _ k1).
    set (k3 := if negb _ then _ else k2).
    assert (same_lists k1 k2) as L2
      by exact (same_lists_put (disp k) (fun t => t <| keyboard_buf := put8 (index_at k (disp k)) 10 (keyboard_buf t) |>) k1 ltac:(done)).
    assert (key_frame k1 k3 /\ disp k3 = disp k /\ index (kbd k3) = index (kbd k1)) as (F3 & Ed3 & Ei3)
      by (unfold k3; case_match; split_and!; try done; by split).
    clearbody k3. set (k4 := set_printed 0 _).
    assert (key_frame k3 k4 /\ disp k4 = disp k3 /\ index_at k4 (disp k) = index_at k3 (disp k) + 1) as (F4 & Ed4 & Ei4).
    { split; [split; [by destruct k3 as [? ? ? ? ? ? ? ? [] ? ?]|done..]|]. split; [done|]. unfold index_at at 1, k4, set_printed, set_index. simpl. by rewrite elem_same. }
    clearbody k4. split_and!.
    - transitivity k1; [done|]. transitivity k3; [done|]. transitivity k4; [done|]. apply key_frame_eoi.
    - destruct (send_eoi_only 1 k4) as [l ->]. change (disp (k4 <| io := io k4 ++ l |>)) with (disp k4). congruence.
    - destruct (send_eoi_only 1 k4) as [l ->]. change (index_at (k4 <| io := io k4 ++ l |>) (disp k)) with (index_at k4 (disp k)).
      unfold index_at in *. rewrite Ei3, Ei1 in Ei4. lia.
    - destruct (send_eoi_only 1 k4) as [l ->]. change (index_at (k4 <| io := io k4 ++ l |>) (disp k)) with (index_at k4 (disp k)).
      unfold index_at in *. rewrite Ei3, Ei1 in Ei4. lia. }
  set (k2 := key_noprint c k1) in *. clearbody k2. rewrite (Ek k2 (kf_pointer _ _ F2)).
  split; [done|]. split; [done|]. unfold key_typed. fold c. test_true (negb (c =? 0) && negb (c =? 8)). cbv iota zeta.
  rewrite Ed2. fold (append_key (disp k) c k2).
  transitivity k2; [done|]. transitivity (append_key (disp k) c k2); [by apply key_frame_append|].
  transitivity (putc c (append_key (disp k) c k2)); [apply key_frame_putc|apply key_frame_eoi].
Qed.
End frames.

(** ** Typing while a reader waits *)

Section waiting.
Context `{Platform}.

Lemma bind_run {A B} (f : kstate -> A * kstate) (g : A -> M B) k : bind (run f) g k = g (f k).1 (f k).2.
Proof. unfold bind, run. by destruct (f k). Qed.

(** The state in which the handler looks at a scan code. *)
Definition scanned (k : kstate) : kstate := (inb KEYBOARD_ENCODER (handler_entry k)).2.
Definition scan_code (k : kstate) : Z := (inb KEYBOARD_ENCODER (handler_entry k)).1.

Lemma keyboard_handler_plain k : control_status (kbd k) = 0 -> alt_status (kbd k) = 0 ->
  key_char k (scan_code k) <> 0 -> key_char k (scan_code k) <> 8 ->
  0 <= active k < 3 -> 0 <= index_at k (active k) < 127 ->
  keyboard_handler k = Ret tt (key_plain (scan_code k) (scanned k)).
Proof.
  intros Hct Hal H0 H8 Ha Hi. unfold keyboard_handler. rewrite bind_modify, bind_run.
  fold (scanned k). fold (scan_code k).
  assert (0 <= scan_code k < 256) as Hsc by apply u8_range.
  destruct (key_plain_frame (scan_code k) (scanned k) Hsc H0 H8 Hct Ha Hi) as (E & F & _).
  unfold key_plain. rewrite bind_run. revert E F. destruct (handler_front (scan_code k) (scanned k)) as [c k2]. simpl.
  intros -> F. rewrite bind_get, (kf_control _ _ F), (kf_alt _ _ F).
  change (control_status (kbd (scanned k))) with (control_status (kbd k)).
  change (alt_status (kbd (scanned k))) with (alt_status (kbd k)). rewrite Hct, Hal.
  change (0 =? 1) with false. rewrite andb_false_l. cbv iota. by rewrite bind_modify.
Qed.

(** A reader waits at the active terminal [d], the characters [l] have been
    typed, and the next ones are looked up in the table [t]. *)
Record waiting (k : kstate) (d : Z) (l : list Z) (t : key_table) : Prop := {
  wa_typing : typing k d l;
  wa_active : active k = d;
  wa_enabled : buffer_enable (term_at k d) <> 0;
  wa_entered : (enter_read (kbd k)).[d] = 0;
  wa_alt : alt_status (kbd k) = 0;
  wa_table : pointer (kbd k) = t;
  wa_if : if_flag (cpu k) = true;
  wa_line : unmasked IRQ_KBD k = true;
  wa_video : video_ident (mmu k);
  wa_cursor : cursor_ok k
}.

Lemma scanned_typing k d l t : waiting k d l t -> let k1 := scanned (cli k) in
  typing k1 d l /\ buffer_enable (term_at k1 d) <> 0 /\ (enter_read (kbd k1)).[d] = 0 /\
  pointer (kbd k1) = t /\ echoes [] k k1 /\ reads KEYBOARD_ENCODER (io k1) = S (reads KEYBOARD_ENCODER (io k)).
Proof.
  intros [[Td Tr Ti Tb Tc] Ha He Hent Hal Ht Hif Hl Hv Hc]. cbv zeta. split_and!; try done.
  - simpl. change (active_terminal (procs k)) with (active k). by rewrite Ha, elem_same.
  - change (reads KEYBOARD_ENCODER (io k ++ [PIn KEYBOARD_ENCODER (scan_code (cli k))]) = S (reads KEYBOARD_ENCODER (io k))).
    rewrite reads_app. apply Nat.add_1_r.
Qed.

Lemma deliver_key k d l t : waiting k d l t -> (length l <= 126)%nat ->
  key_at t (scan_code (cli k)) <> 0 -> key_at t (scan_code (cli k)) <> 8 ->
  deliver IRQ_KBD k = Ret tt (sti (key_plain (scan_code (cli k)) (scanned (cli k)))) /\
  key_frame (scanned (cli k)) (key_plain (scan_code (cli k)) (scanned (cli k))).
Proof.
  intros [[Td Tr Ti Tb Tc] Ha He Hent Hal Ht Hif Hl Hv Hc] Hlen H0 H8.
  assert (key_char (cli k) (scan_code (cli k)) = key_at t (scan_code (cli k))) as Ek
    by (unfold key_char; change (pointer (kbd (cli k))) with (pointer (kbd k)); by rewrite Ht).
  split.
  - unfold deliver. rewrite bind_get, Hl. unfold handle_SIG_KBD. rewrite bind_modify.
    unfold bind. rewrite keyboard_handler_plain; [done|done|done|by rewrite Ek..| |].
    + change (active (cli k)) with (active k). by rewrite Ha.
    + change (active (cli k)) with (active k). change (index_at (cli k)) with (index_at k). rewrite Ha, Ti. lia.
  - apply key_plain_frame; [apply u8_range|change (key_char (scanned (cli k))) with (key_char (cli k)); by rewrite Ek..|done| |].
    + change (disp (scanned (cli k))) with (active k). by rewrite Ha.
    + change (disp (scanned (cli k))) with (active k). change (index_at (scanned (cli k))) with (index_at k).
      rewrite Ha, Ti. lia.
Qed.

Lemma deliver_keeps k d l t k' : waiting k d l t -> key_frame (scanned (cli k)) k' ->
  active (sti k') = d /\ alt_status (kbd (sti k')) = 0 /\ pointer (kbd (sti k')) = t /\ if_flag (cpu (sti k')) = true /\
  unmasked IRQ_KBD (sti k') = true /\ irqs (sti k') = irqs k.
Proof.
  intros Hw [E A C P R _]. destruct (scanned_typing k d l t Hw) as (_ & _ & _ & Hp & _ & _).
  split_and!; try done.
  - rewrite E. apply Hw.
  - change (alt_status (kbd k') = 0). rewrite A. apply Hw.
  - change (pointer (kbd k') = t). by rewrite P.
  - rewrite E. apply Hw.
  - by rewrite E.
Qed.

(** What [n] keys, typed while a reader waits, leave alone. *)
Record typed_frame (n : nat) (k k' : kstate) : Prop := {
  tf_state : k' = k <| pmem := pmem k' |> <| io := io k' |> <| irqs := irqs k' |> <| con := con k' |> <| kbd := kbd k' |>
                    <| procs; terminals := terminals (procs k') |> <| cpu; if_flag := if_flag (cpu k') |>;
  tf_alt : alt_status (kbd k') = alt_status (kbd k);
  tf_pointer : pointer (kbd k') = pointer (kbd k);
  tf_reads : reads KEYBOARD_ENCODER (io k') = (n + reads KEYBOARD_ENCODER (io k))%nat;
  tf_lists : same_lists k k'
}.
Lemma typed_frame_trans m n k1 k2 k3 : typed_frame m k1 k2 -> typed_frame n k2 k3 -> typed_frame (m + n) k1 k3.
Proof.
  intros [E1 A1 P1 R1 L1] [E2 A2 P2 R2 L2]. split; [|congruence|congruence|rewrite R2, R1; lia|by apply (same_lists_trans _ k2)].
  rewrite E2, E1. done.
Qed.
Lemma key_typed_frame k k' d l t : waiting k d l t -> key_frame (scanned (cli k)) k' -> typed_frame 1 k (sti k').
Proof.
  intros Hw [E A C P R L]. destruct (scanned_typing k d l t Hw) as (_ & _ & _ & _ & _ & Hr). split; [..|exact L].
  - rewrite E. done.
  - exact A.
  - exact P.
  - change (reads KEYBOARD_ENCODER (io k') = S (reads KEYBOARD_ENCODER (io k))). by rewrite R.
Qed.

Lemma deliver_printable k d l t : waiting k d l t -> (length l <= 126)%nat ->
  printable (key_at t (scan_code (cli k))) ->
  exists k', deliver IRQ_KBD k = Ret tt k' /\ waiting k' d (l ++ [key_at t (scan_code (cli k))]) t /\
    echoes [key_at t (scan_code (cli k))] k k' /\ irqs k' = irqs k /\
    typed_frame 1 k k'.
Proof.
  intros Hw Hl Hp. unfold printable in Hp. set (sc := scan_code (cli k)) in *.
  destruct (deliver_key k d l t Hw Hl) as [E F]; [fold sc; lia..|]. fold sc in E, F.
  destruct (scanned_typing k d l t Hw) as (Ty & Be & En & Po & Ec & Rd). set (k1 := scanned (cli k)) in *.
  assert (key_char k1 sc = key_at t sc) as Ek by (unfold key_char; by rewrite Po).
  assert (mmu k1 = mmu k /\ cursor_ok k1) as [Em Hc1] by (split; apply Ec).
  destruct (key_plain_printable sc k1 d l) as (Ty' & Ec' & _ & Be' & En');
    [apply u8_range|done|by rewrite Ek|lia|rewrite Em; apply Hw|done|].
  rewrite Ek in *. destruct (deliver_keeps k d l t _ Hw F) as (K1 & K2 & K3 & K4 & K5 & K6).
  pose proof (key_typed_frame k _ d l t Hw F) as K7.
  revert E F Ty' Ec' Be' En' K1 K2 K3 K4 K5 K6 K7. generalize (key_plain sc k1) as k2. intros k2 E F Ty' Ec' Be' En' K1 K2 K3 K4 K5 K6 K7.
  exists (sti k2). split; [done|].
  assert (echoes [key_at t sc] k (sti k2)) as Ec2 by exact (echoes_app [] _ k k1 k2 Ec Ec').
  split; [|by split_and!]. destruct Ec2 as (M2 & C2 & _).
  split; try done.
  - by destruct Ty'.
  - change (buffer_enable (term_at k2 d) <> 0). by rewrite Be'.
  - change ((enter_read (kbd k2)).[d] = 0). by rewrite En'.
  - rewrite M2. apply Hw.
Qed.

Lemma deliver_enter k d l t : waiting k d l t -> (length l <= 126)%nat -> scan_code (cli k) = 0x1C ->
  exists k', deliver IRQ_KBD k = Ret tt k' /\ typing k' d (l ++ [10; 10]) /\ echoes [10] k k' /\
    (enter_read (kbd k')).[d] = 1 /\ irqs k' = irqs k /\ typed_frame 1 k k'.
Proof.
  intros Hw Hl Hsc.
  destruct (deliver_key k d l t Hw Hl) as [E F]; [rewrite Hsc; by destruct t..|]. rewrite Hsc in E, F.
  destruct (scanned_typing k d l t Hw) as (Ty & Be & En & Po & Ec & Rd). set (k1 := scanned (cli k)) in *.
  assert (mmu k1 = mmu k /\ cursor_ok k1) as [Em Hc1] by (split; apply Ec).
  destruct (key_plain_enter k1 d l Ty Hl) as (Ty' & Ec' & En' & _); [rewrite Em; apply Hw|done|done|].
  destruct (deliver_keeps k d l t _ Hw F) as (_ & _ & _ & _ & _ & K6). pose proof (key_typed_frame k _ d l t Hw F) as K7.
  revert E Ty' Ec' En' K6 K7. generalize (key_plain 0x1C k1) as k2. intros k2 E Ty' Ec' En' K6 K7.
  exists (sti k2). split; [done|]. split; [by destruct Ty'|].
  split; [exact (echoes_app [] _ k k1 k2 Ec Ec')|]. by split_and!.
Qed.

(** The scan codes the controller gives next. *)
Definition sends_next (stream : nat -> Z) (k : kstate) (scs : list Z) : Prop :=
  forall i sc, scs !! i = Some sc -> stream (reads KEYBOARD_ENCODER (io k) + i)%nat = sc.

Lemma scan_code_stream stream k : keyboard_sends stream ->
  scan_code (cli k) = u8 (stream (reads KEYBOARD_ENCODER (io k))).
Proof. intros Hs. unfold scan_code, inb. simpl. f_equal. apply Hs. Qed.

Lemma spin_typing stream scs d t rest k l : keyboard_sends stream -> waiting k d l t ->
  sends_next stream k (scs ++ [0x1C]) ->
  Forall (fun sc => 0 <= sc < 256 /\ printable (key_at t sc)) scs -> (length l + length scs <= 126)%nat ->
  exists k', spin_until line_entered (replicate (length scs + 1) IRQ_KBD ++ rest) k = Ret tt k' /\
    typing k' d (l ++ (key_at t <$> scs) ++ [10; 10]) /\ echoes ((key_at t <$> scs) ++ [10]) k k' /\ irqs k' = rest /\
    typed_frame (length scs + 1) k k'.
Proof.
  intros Hk. revert k l. induction scs as [|sc scs IH]; intros k l Hw Hnext Hscs Hlen.
  - cbn [length Nat.add replicate app spin_until fmap list_fmap].
    assert (forall k, waiting k d l t -> line_entered k = false) as Hle.
    { intros k0 Hw0. unfold line_entered. by rewrite (ty_disp _ _ _ (wa_typing _ _ _ _ Hw0)), (wa_entered _ _ _ _ Hw0). }
    rewrite bind_get, (Hle _ Hw), (wa_if _ _ _ _ Hw). change (negb true) with false. cbv iota.
    rewrite bind_modify. set (k1 := k <| irqs := rest |>).
    assert (waiting k1 d l t) as Hw1 by (destruct Hw as [[] ? ? ? ? ? ? ? ? ?]; split; [split|..]; done).
    assert (typed_frame 0 k k1) as F1 by (split; [by destruct k as [? ? ? ? ? ? ? ? [] ? []]|done..]).
    destruct (deliver_enter k1 d l t Hw1) as (k2 & E & Ty & Ec & En & Ei & F2); [lia| |].
    { rewrite (scan_code_stream stream) by done. change (io k1) with (io k). rewrite <- (Nat.add_0_r (reads _ _)). by rewrite (Hnext 0%nat 0x1C). }
    rewrite (bind_ret _ _ _ _ _ E). exists k2. split; [|split; [done|split; [done|split; [done|exact (typed_frame_trans 0 1 _ _ _ F1 F2)]]]].
    assert (line_entered k2 = true) as El by (unfold line_entered; by rewrite (ty_disp _ _ _ Ty), En).
    destruct rest; cbn [spin_until]; by rewrite bind_get, El.
  - apply Forall_cons_1 in Hscs as [[Hsc Hp] Hscs]. cbn [length Nat.add replicate app spin_until].
    rewrite bind_get. assert (line_entered k = false) as ->.
    { unfold line_entered. by rewrite (ty_disp _ _ _ (wa_typing _ _ _ _ Hw)), (wa_entered _ _ _ _ Hw). }
    rewrite (wa_if _ _ _ _ Hw). change (negb true) with false. cbv iota. rewrite bind_modify.
    set (pend := replicate (length scs + 1) IRQ_KBD ++ rest) in *. set (k1 := k <| irqs := pend |>).
    assert (waiting k1 d l t) as Hw1 by (destruct Hw as [[] ? ? ? ? ? ? ? ? ?]; split; [split|..]; done).
    assert (scan_code (cli k1) = sc) as Esc.
    { rewrite (scan_code_stream stream) by done. change (io k1) with (io k). rewrite <- (Nat.add_0_r (reads _ _)).
      rewrite (Hnext 0%nat sc) by done. by apply u8_small. }
    assert (typed_frame 0 k k1) as F1 by (split; [by destruct k as [? ? ? ? ? ? ? ? [] ? []]|done..]).
    destruct (deliver_printable k1 d l t Hw1) as (k2 & E & Hw2 & Ec & Ei & F2); [simpl in Hlen; lia|by rewrite Esc|].
    pose proof (tf_reads _ _ _ F2) as Er.
    rewrite Esc in *. rewrite (bind_ret _ _ _ _ _ E).
    destruct (IH k2 (l ++ [key_at t sc])) as (k3 & E3 & Ty3 & Ec3 & Ei3 & F3); [done| |done|rewrite length_app; simpl in *; lia|].
    { intros i sc' Hi. rewrite Er. change (io k1) with (io k). rewrite (Nat.add_comm 1), Nat.add_1_r, Nat.add_succ_comm. by apply Hnext. }
    exists k3. split; [exact E3|]. rewrite <- app_assoc in Ty3. split; [exact Ty3|].
    split; [|split; [done|exact (typed_frame_trans 0 _ _ _ _ F1 (typed_frame_trans 1 _ _ _ _ F2 F3))]].
    exact (echoes_app [key_at t sc] ((key_at t <$> scs) ++ [10]) k k2 k3 Ec Ec3).
Qed.
End waiting.

(** ** Properties *)

Section properties.
Context `{Platform}.

(** Terminal [d] is shown, its input line is empty, no modifier key is held,
    and nobody waits for a line. *)
Record at_prompt (k : kstate) (d : Z) : Prop := {
  ap_typing : typing k d [];
  ap_active : active k = d;
  ap_entered : (enter_read (kbd k)).[d] = 0;
  ap_alt : alt_status (kbd k) = 0;
  ap_line : unmasked IRQ_KBD k = true;
  ap_video : video_ident (mmu k);
  ap_cursor : cursor_ok k
}.

Lemma prompt_waiting k d : at_prompt k d ->
  waiting (upd_term (disp k) (fun t => t <| buffer_enable := 1 |>) (sti k)) d [] (pointer (kbd k)).
Proof.
  intros [[Td Tr Ti Tb Tc] Ha Hent Hal Hl Hv Hc]. split; try done.
  change (buffer_enable (term_at (upd_term (disp k) (fun t => t <| buffer_enable := 1 |>) (sti k)) d) <> 0).
  rewrite term_at_upd, Td, Z.eqb_refl. done.
Qed.

Lemma reset_line_lists k : same_lists k (reset_line k).
Proof.
  set (f := fun t : terminal_t => t <| keyboard_buf := memset 0 0 128 (keyboard_buf t) |>).
  set (g := fun t : terminal_t => t <| buffer_enable := 0 |>).
  set (k1 := put_term (disp k) (f (term_at k (disp k))) k).
  apply (same_lists_trans _ k1); [by apply same_lists_put|]. exact (same_lists_put (disp k1) g (set_enter_read (disp k) 0 (set_index (disp k) 0 k1)) ltac:(done)).
Qed.

(** A line read from the keyboard, step by step. *)
Lemma read_line_steps stream scs rest d buf num k :
  keyboard_sends stream -> at_prompt k d -> sends_next stream k (scs ++ [0x1C]) ->
  irqs k = replicate (length scs + 1) IRQ_KBD ++ rest ->
  Forall (fun sc => 0 <= sc < 256 /\ printable (key_char k sc)) scs -> (length scs <= 126)%nat ->
  tables_ready k -> flags (cur_fd 0 k) <> 0 -> fops_ptr (cur_fd 0 k) = FopsStdin ->
  buf <> 0 -> Z.of_nat (length scs) < num -> sep_range (vspace k) buf (Z.of_nat (length scs) + 1) ->
  let cs := key_char k <$> scs in
  exists k1 k2, read 0 buf num k = Ret (Z.of_nat (length scs) + 1) (reset_line k2) /\
    echoes (cs ++ [10]) k k1 /\ typed_frame (length scs + 1) k k1 /\
    wrote k1 k2 buf (Z.of_nat (length scs) + 1) (fun i => default 10 (cs !! Z.to_nat i)) /\
    at_prompt (reset_line k2) d /\ irqs k1 = rest.
Proof.
  intros Hk Hp Hnext Hirq Hscs Hlen Htab Hfl Hops Hbuf Hnum Hsep. cbv zeta.
  set (k0 := upd_term (disp k) (fun t => t <| buffer_enable := 1 |>) (sti k)).
  pose proof (prompt_waiting k d Hp) as Hw. fold k0 in Hw.
  destruct (spin_typing stream scs d _ rest k0 [] Hk Hw) as (k1 & E & Ty & Ec & Ei & F); [done|done|simpl; lia|].
  cbn [app] in Ty. assert (length (key_at (pointer (kbd k)) <$> scs) = length scs) as Hcs by apply length_fmap.
  destruct (take_typed_line k1 d _ buf num Ty) as (k2 & E2 & Hf & Ty2 & Hen); rewrite ?Hcs; try done.
  { rewrite Forall_fmap. eapply Forall_impl; [exact Hscs|]. by intros ? []. }
  { unfold vspace. destruct Ec as (-> & _). exact Hsep. }
  rewrite Hcs in E2, Hf.
  assert (same_lists k k0) as L0 by exact (same_lists_put (disp k) (fun t => t <| buffer_enable := 1 |>) (sti k) ltac:(done)).
  assert (typed_frame 0 k k0) as F0 by (split; [by destruct k as [? ? ? ? ? ? ? ? [] ? []]|done..]).
  pose proof (typed_frame_trans 0 _ _ _ _ F0 F) as F1. destruct Hf as [Ho Hf].
  exists k1, k2. split; [|split; [exact Ec|split; [exact F1|split; [by split|split; [|done]]]]].
  - unfold read. rewrite bind_modify, bind_get. cbv zeta.
    change ((0 <? 0) || (7 <? 0) || (buf =? 0) || (0 =? 1)) with (orb (buf =? 0) false).
    rewrite (proj2 (Z.eqb_neq _ _) Hbuf). change (false || false) with false. cbv iota.
    change (fd_at (pcb_at (sti k) (get_pcb (sti k))) 0) with (cur_fd 0 k).
    rewrite (proj2 (Z.eqb_neq _ _) Hfl), Hops.
    change (ops_at (sti k) FopsStdin) with (stdin_table (tables (procs k))). rewrite Htab.
    change (read_terminal 0 buf num (sti k) = Ret (Z.of_nat (length scs) + 1) (reset_line k2)).
    unfold read_terminal. rewrite (proj2 (Z.eqb_neq _ _) Hbuf), bind_modify. change (disp (sti k)) with (disp k). fold k0.
    unfold spin. unfold bind at 1. rewrite bind_get. change (irqs k0) with (irqs k). rewrite Hirq, E.
    unfold run. by rewrite E2.
  - destruct Hp as [_ Pa _ Pal Pl Pv _]. destruct F1 as [Es Ea _ _ _]. destruct Ec as (Em & Hc & _ & _).
    assert (active (reset_line k2) = active k /\ pic (reset_line k2) = pic k) as [G1 G2]
      by (split; change (active (reset_line k2)) with (active k2); [rewrite Ho|change (pic (reset_line k2)) with (pic k2); rewrite Ho]; by rewrite Es).
    split; [done|by rewrite G1|done| | | |].
    + change (alt_status (kbd k2) = 0). rewrite Ho. exact (eq_trans Ea Pal).
    + change (unmasked IRQ_KBD (reset_line k2)) with (unmasked IRQ_KBD (k <| pic := pic (reset_line k2) |>)). rewrite G2. exact Pl.
    + change (video_ident (mmu k2)). rewrite Ho. change (video_ident (mmu k1)). rewrite Em. exact Pv.
    + change (cursor_ok k2). rewrite Ho. exact Hc.
Qed.

(** C11: the [read] system call on the keyboard: while it waits, the keys of a line
    arrive as interrupts, one after the other, and then Enter. The call returns
    with the line in the buffer, the characters and one newline, and their
    number as result; the line has been echoed on the screen, interrupts that
    come later are still pending, and the terminal is at its prompt again. *)
Theorem read_returns_typed_line stream scs rest d buf num k :
  keyboard_sends stream -> at_prompt k d -> sends_next stream k (scs ++ [0x1C]) ->
  irqs k = replicate (length scs + 1) IRQ_KBD ++ rest ->
  Forall (fun sc => 0 <= sc < 256 /\ printable (key_char k sc)) scs -> (length scs <= 126)%nat ->
  tables_ready k -> flags (cur_fd 0 k) <> 0 -> fops_ptr (cur_fd 0 k) = FopsStdin ->
  buf <> 0 -> Z.of_nat (length scs) < num -> sep_range (vspace k) buf (Z.of_nat (length scs) + 1) ->
  let cs := key_char k <$> scs in
  exists k1 k2, read 0 buf num k = Ret (Z.of_nat (length scs) + 1) k2 /\
    echoes (cs ++ [10]) k k1 /\
    filled (vspace k1) (vspace k2) buf (Z.of_nat (length scs) + 1) (fun i => default 10 (cs !! Z.to_nat i)) /\
    typing k2 d [] /\ (enter_read (kbd k2)).[d] = 0 /\ irqs k2 = rest.
Proof.
  intros Hk Hp Hnext Hirq Hscs Hlen Htab Hfl Hops Hbuf Hnum Hsep. cbv zeta.
  destruct (read_line_steps stream scs rest d buf num k) as (k1 & k2 & E & Ec & _ & [Ho Hf] & [Ty _ En _ _ _ _] & Ei); [done..|].
  exists k1, (reset_line k2). split; [exact E|]. split; [exact Ec|]. split; [exact Hf|]. split; [exact Ty|]. split; [exact En|].
  change (irqs k2 = rest). by rewrite Ho.
Qed.

(** Interrupts other than the clock's, masked. *)
Definition only_ticks (k : kstate) : Prop :=
  Forall (fun i => i = IRQ_RTC \/ unmasked i k = false) (irqs k).

Lemma deliver_masked i k : unmasked i k = false -> deliver i k = Ret tt k.
Proof. intros E. unfold deliver. by rewrite bind_get, E. Qed.

Lemma deliver_tick k : unmasked IRQ_RTC k = true ->
  exists k', deliver IRQ_RTC k = Ret tt k' /\ ticked k' = true /\ irqs k' = irqs k.
Proof.
  intros E. unfold deliver. rewrite bind_get, E. unfold handle_SIG_RTC.
  exists (sti (rtc_handler (cli k))). split; [done|]. unfold rtc_handler. cbv zeta.
  destruct (inb RTC_PORT (outb 0x0C COMMAND_PORT (cli k))) as [v k1] eqn:E1.
  assert (irqs k1 = irqs k) as Ei by (by injection E1 as _ <-).
  destruct (send_eoi_only 8 (set_interrupt_rtc 1 k1)) as [l ->]. by split.
Qed.

Lemma spin_ticks k : unmasked IRQ_RTC k = true -> if_flag (cpu k) = true -> ticked k = false ->
  forall pend, Forall (fun i => i = IRQ_RTC \/ unmasked i k = false) pend ->
  if bool_decide (IRQ_RTC ∈ pend) then
    exists k' before, spin_until ticked pend k = Ret tt k' /\ pend = before ++ IRQ_RTC :: irqs k' /\ IRQ_RTC ∉ before
  else exists k', spin_until ticked pend k = Hang k'.
Proof.
  intros Hu Hif Ht pend. revert k Hu Hif Ht. induction pend as [|i pend IH]; intros k Hu Hif Ht Hall.
  - rewrite bool_decide_eq_false_2 by (apply not_elem_of_nil). cbn [spin_until]. rewrite bind_get, Ht, Hif. by exists k.
  - apply Forall_cons_1 in Hall as [Hi Hall]. cbn [spin_until]. rewrite bind_get, Ht, Hif.
    change (negb true) with false. cbv iota. rewrite bind_modify. set (k1 := k <| irqs := pend |>).
    destruct (decide (i = IRQ_RTC)) as [->|Hne].
    + rewrite bool_decide_eq_true_2 by apply list_elem_of_here.
      destruct (deliver_tick k1 Hu) as (k2 & E & Ht2 & Ei). rewrite (bind_ret _ _ _ _ _ E).
      exists k2, []. assert (spin_until ticked pend k2 = Ret tt k2) as ->
        by (destruct pend; cbn [spin_until]; by rewrite bind_get, Ht2).
      rewrite Ei. split; [done|]. split; [done|apply not_elem_of_nil].
    + destruct Hi as [?|Hm]; [done|]. rewrite (bind_ret _ _ _ _ _ (deliver_masked i k1 Hm)).
      specialize (IH k1 Hu Hif Ht Hall). destruct (bool_decide (IRQ_RTC ∈ pend)) eqn:Eb.
      * apply bool_decide_eq_true in Eb. rewrite bool_decide_eq_true_2 by (by apply list_elem_of_further).
        destruct IH as (k' & before & E & Ep & Hb). exists k', (i :: before). split; [done|]. split; [by rewrite Ep at 1|].
        intros [?|?]%elem_of_cons; congruence.
      * apply bool_decide_eq_false in Eb. rewrite bool_decide_eq_false_2; [done|].
        intros [?|?]%elem_of_cons; congruence.
Qed.

(** C30: [read_rtc] waits for a tick of the clock that comes after the call: with a
    tick among the pending interrupts (the others being masked) it returns 0,
    with the interrupts up to that tick taken and interrupts off; with none it
    never returns, even when the clock had ticked before the call. *)
Theorem read_rtc_waits_for_tick fd buffer num k :
  unmasked IRQ_RTC k = true -> only_ticks k ->
  if bool_decide (IRQ_RTC ∈ irqs k) then
    exists k' before, read_rtc fd buffer num k = Ret 0 k' /\ if_flag (cpu k') = false /\
      irqs k = before ++ IRQ_RTC :: irqs k' /\ IRQ_RTC ∉ before
  else exists k', read_rtc fd buffer num k = Hang k'.
Proof.
  intros Hu Hall. unfold read_rtc. rewrite !bind_modify. set (k1 := sti (set_interrupt_rtc 0 k)).
  pose proof (spin_ticks k1 Hu eq_refl eq_refl (irqs k) Hall) as Hs.
  assert (spin ticked k1 = spin_until ticked (irqs k) k1) as Es by done. rewrite <- Es in Hs.
  destruct (bool_decide (IRQ_RTC ∈ irqs k)).
  - destruct Hs as (k' & before & E & Ei & Hb). rewrite (bind_ret _ _ _ _ _ E). exists (cli k'), before. by split_and!.
  - destruct Hs as (k' & E). exists k'. unfold bind at 1. by rewrite E.
Qed.

(** Descriptors that cannot be used. *)
Lemma bad_arguments_fail fd buf nbytes k :
  (fd < 0 \/ 7 < fd \/ buf = 0 \/ flags (cur_fd fd k) = 0 ->
     read fd buf nbytes k = Ret FAILURE (sti k) /\ write fd buf nbytes k = Ret FAILURE k) /\
  read 1 buf nbytes k = Ret FAILURE (sti k).
Proof.
  unfold read, write. rewrite !bind_modify, !bind_get. cbv zeta.
  change (fd_at (pcb_at (sti k) (get_pcb (sti k)))) with (fun i => cur_fd i k).
  change (fd_at (pcb_at k (get_pcb k)) fd) with (cur_fd fd k). cbv beta. split.
  - intros Hbad. destruct ((fd <? 0) || (7 <? fd) || (buf =? 0)) eqn:Eb; [done|].
    destruct (Z.eqb_spec (flags (cur_fd fd k)) 0) as [E|Hne].
    + by destruct (fd =? 1).
    + exfalso. destruct Hbad as [?|[?|[->|?]]]; [..|done]; lia.
  - by destruct (buf =? 0).
Qed.

(** A descriptor out of range or not open, and a null buffer, make [read] and
    [write] fail; so does reading the screen's descriptor. [write] changes
    nothing then, [read] leaves interrupts on. *)
Theorem read_write_bad_arguments fd buf nbytes k :
  (fd < 0 \/ 7 < fd \/ buf = 0 \/ flags (cur_fd fd k) = 0 ->
     read fd buf nbytes k = Ret FAILURE (sti k) /\ write fd buf nbytes k = Ret FAILURE k) /\
  read 1 buf nbytes k = Ret FAILURE (sti k).
Proof. apply bad_arguments_fail. Qed.

(** Writing to the screen. *)
Lemma write_screen_shows buf n k :
  tables_ready k -> flags (cur_fd 1 k) <> 0 -> fops_ptr (cur_fd 1 k) = FopsStdout -> buf <> 0 -> 0 <= n ->
  video_ident (mmu k) -> cursor_ok k ->
  (forall i, 0 <= i < n -> ld8 k (buf + i) <> 8 /\
     (loc (vspace k) (buf + i) < VIDEO \/ VIDEO + 4000 <= loc (vspace k) (buf + i))) ->
  exists k', write 1 buf n k = Ret n k' /\
    shows ((fun i => ld8 k (buf + i)) <$> seqZ 0 n) (k <| procs; temp_fd := 1 |>) k' /\
    forall p, reads p (io k') = reads p (io k).
Proof.
  intros Htab Hfl Hops Hbuf Hn Hv Hc Hb. unfold write. rewrite bind_get. cbv zeta.
  change ((1 <? 0) || (7 <? 1) || (buf =? 0)) with (buf =? 0). rewrite (proj2 (Z.eqb_neq _ _) Hbuf).
  change (fd_at (pcb_at k (get_pcb k)) 1) with (cur_fd 1 k). rewrite (proj2 (Z.eqb_neq _ _) Hfl), bind_modify, bind_get.
  set (k0 := k <| procs; temp_fd := 1 |>). change (fd_at (pcb_at k0 (get_pcb k)) 1) with (cur_fd 1 k). rewrite Hops.
  change (ops_at k0 FopsStdout) with (stdout_table (tables (procs k))). rewrite Htab.
  change (op_write _) with Fn_write_terminal. cbn [call_write].
  unfold run, write_terminal, write_chars. rewrite Z.max_r by done.
  set (f := fun i => ld8 k (buf + i)).
  assert (shows (f <$> seqZ 0 n) k0 (for_loop 0 n (fun i k => putc (ld8 k (buf + i)) k) k0) /\
    forall p, reads p (io (for_loop 0 n (fun i k => putc (ld8 k (buf + i)) k) k0)) = reads p (io k)) as Hs.
  { apply (for_loop_rule (fun m k' => shows (f <$> seqZ 0 m) k0 k' /\ forall p, reads p (io k') = reads p (io k)));
      [done|by split; [apply shows_nil|]|].
    intros m k' Hm [Hk' Hrd]. split; [|intros p; by rewrite reads_putc]. rewrite seqZ_app, fmap_app by lia. apply (shows_app _ _ _ k'); [done|].
    destruct (Hb m Hm) as [H8 Hl]. pose proof (shows_mmu _ _ _ Hk') as Em. change (mmu k0) with (mmu k) in Em.
    assert (ld8 k' (buf + m) = f m) as E.
    { unfold f, ld8, get8. simpl. unfold vspace. rewrite Em. destruct Hk' as [[_ Hmem] _]. by rewrite Hmem. }
    rewrite E. change (f <$> seqZ (0 + m) 1) with [f (0 + m)]. apply putc_shows; [by rewrite Em|apply Hk'|apply get8_range|done]. }
  eexists. split; [reflexivity|exact Hs].
Qed.

(** [write] to the screen: it returns the number of bytes and shows them, one
    after the other, as on the abstract console. The bytes are outside video
    memory, and no backspace is among them. *)
Theorem write_shows_text buf n k :
  tables_ready k -> flags (cur_fd 1 k) <> 0 -> fops_ptr (cur_fd 1 k) = FopsStdout -> buf <> 0 -> 0 <= n ->
  video_ident (mmu k) -> cursor_ok k ->
  (forall i, 0 <= i < n -> ld8 k (buf + i) <> 8 /\
     (loc (vspace k) (buf + i) < VIDEO \/ VIDEO + 4000 <= loc (vspace k) (buf + i))) ->
  exists k', write 1 buf n k = Ret n k' /\ temp_fd (procs k') = 1 /\ cursor_ok k' /\
    abs k' = fold_left (fun st c => Spec.write c st) ((fun i => ld8 k (buf + i)) <$> seqZ 0 n) (abs k).
Proof.
  intros Htab Hfl Hops Hbuf Hn Hv Hc Hb.
  destruct (write_screen_shows buf n k Htab Hfl Hops Hbuf Hn Hv Hc Hb) as (k' & E & ([Ef _] & Hc' & Ha) & _).
  exists k'. split; [exact E|]. split; [by rewrite Ef|by split].
Qed.

(** The dispatch of system calls: a number that is not positive or above 10
    gives -1 and changes nothing, 1 to 8 run the eight calls, and 9 and 10
    take an entry past the end of the table. *)
Theorem system_call_numbers eax ebx ecx edx k :
  (s32 eax <= 0 \/ 10 < s32 eax -> handle_SIG_SYSCALL eax ebx ecx edx k = Ret (-1) k) /\
  (s32 eax = 9 \/ s32 eax = 10 -> handle_SIG_SYSCALL eax ebx ecx edx k = Undef StrayCall k) /\
  (1 <= s32 eax <= 8 -> Some (handle_SIG_SYSCALL eax ebx ecx edx k) =
     (fun f => f k) <$> ([halt (u8 ebx); execute_at ebx; read (s32 ebx) ecx (s32 edx); write (s32 ebx) ecx (s32 edx);
        open ebx; close (s32 ebx); getargs ebx (s32 ecx); run (vidmap ebx)] !! Z.to_nat (s32 eax - 1))).
Proof.
  unfold handle_SIG_SYSCALL. split; [|split].
  - intros Hn. destruct (Z.leb_spec (s32 eax) 0); [done|]. by test_true (10 <? s32 eax).
  - by intros [-> | ->].
  - intros Hn. assert (s32 eax = 1 \/ s32 eax = 2 \/ s32 eax = 3 \/ s32 eax = 4 \/ s32 eax = 5 \/ s32 eax = 6 \/
      s32 eax = 7 \/ s32 eax = 8) as Hc by lia.
    by destruct Hc as [-> | [-> | [-> | [-> | [-> | [-> | [-> | ->]]]]]]].
Qed.
End properties.

(** ** The keys of the driver itself *)

Section hotkeys.
Context `{Platform}.

(** The function keys change no modifier and print nothing special. *)
Lemma handler_front_function e k : 0 <= e < 3 -> control_status (kbd k) = 0 ->
  exists c, handler_front (F1_scancode + e) k = (c, k <| kbd := settled (kbd k) |>).
Proof.
  intros He Hct.
  assert (key_status (F1_scancode + e) (kbd k) = settled (kbd k)) as Es
    by (assert (e = 0 \/ e = 1 \/ e = 2) as [-> | [-> | ->]] by lia; reflexivity).
  assert (forall t, key_at t (F1_scancode + e) = 0 \/ key_at t (F1_scancode + e) = 32) as Ec
    by (intros t; assert (e = 0 \/ e = 1 \/ e = 2) as [-> | [-> | ->]] by lia; destruct t; by (left + right)).
  unfold handler_front. rewrite Es. set (k1 := k <| kbd := settled (kbd k) |>).
  destruct (settled_same (kbd k)) as (_ & _ & Ect & _). unfold cntl_l_check.
  change (control_status (kbd k1)) with (control_status (settled (kbd k))). rewrite Ect, Hct.
  change (negb (0 =? 0)) with false. cbv iota zeta. exists (key_char k1 (F1_scancode + e)).
  assert (key_noprint (key_char k1 (F1_scancode + e)) k1 = k1) as ->; [|done].
  unfold key_noprint, key_char. by destruct (Ec (pointer (kbd k1))) as [-> | ->].
Qed.

Lemma display_switch_returns e k : kernel_map (mmu k) -> 0 <= active k < 3 -> 0 <= e < 3 ->
  terminal_flag (term_at k e) = 0 -> display_switch e k = Ret tt (switch_screen e k).
Proof.
  intros Hm Ha He Hf. destruct (switch_screen_spec e k Hm Ha He) as [_ Ea _ Et _ _].
  assert (terminal_flag (term_at (switch_screen e k) e) = 0) as Ef by (rewrite Et; by case_match).
  unfold display_switch. rewrite bind_modify, bind_get. revert Ea Ef. generalize (switch_screen e k). intros k1 -> ->.
  reflexivity.
Qed.

(** C31: alt and a function key, F1 to F3, pressed without control: when the
    terminal of the key has a shell, it is the one shown afterwards, keys go to it, and the
    contents and the cursor of every terminal's screen are kept. *)
Theorem alt_key_switches e k : 0 <= e < 3 -> scan_code k = F1_scancode + e ->
  control_status (kbd k) = 0 -> alt_status (kbd k) = 1 -> kernel_map (mmu k) -> 0 <= active k < 3 ->
  terminal_flag (term_at k e) = 0 ->
  exists k', keyboard_handler k = Ret tt k' /\ active k' = e /\ disp k' = e /\
    forall f, 0 <= f < 3 ->
      (forall o, 0 <= o < 4096 -> screen_of k' f o = screen_of k f o) /\ cursor_of k' f = cursor_of k f.
Proof.
  intros He Hsc Hct Hal Hm Ha Hf.
  destruct (handler_front_function e (scanned k) He Hct) as (c & Efr).
  set (k1 := (scanned k) <| kbd := settled (kbd (scanned k)) |>) in *.
  assert (alt_status (kbd k1) = 1 /\ control_status (kbd k1) = 0) as [Hal1 Hct1].
  { destruct (settled_same (kbd (scanned k))) as (_ & Ea & Ec & _). split; [exact (eq_trans Ea Hal)|exact (eq_trans Ec Hct)]. }
  set (k2 := set_disp e (send_eoi 1 k1)).
  assert (mmu k2 = mmu k /\ active k2 = active k /\ term_at k2 e = term_at k e /\
    (forall f o, screen_of k2 f o = screen_of k f o) /\ (forall f, cursor_of k2 f = cursor_of k f) /\ disp k2 = e)
    as (Em2 & Ea2 & Et2 & Es2 & Ec2 & Ed2).
  { unfold k2. destruct (send_eoi_only 1 k1) as [l ->]. by split_and!. }
  exists (switch_screen e k2). split.
  - unfold keyboard_handler. rewrite bind_modify, bind_run. fold (scanned k). fold (scan_code k). rewrite Hsc.
    rewrite bind_run, Efr. cbn [fst snd]. rewrite bind_get, Hct1, Hal1. change (0 =? 1) with false. rewrite andb_false_l.
    change (1 =? 1) with true. cbv iota. rewrite bind_modify.
    assert ((modify (set_disp e) ;; display_switch e) (send_eoi 1 k1) = Ret tt (switch_screen e k2)) as Esw.
    { rewrite bind_modify. apply display_switch_returns; [by rewrite Em2|by rewrite Ea2|done|by rewrite Et2]. }
    clearbody k2. revert Esw. generalize (switch_screen e k2) as k3. intros k3 Esw.
    assert (e = 0 \/ e = 1 \/ e = 2) as [-> | [-> | ->]] by lia.
    + change (F1_scancode + 0 =? F1_scancode) with true. cbv iota. by rewrite (bind_ret _ _ _ _ _ Esw).
    + change (F1_scancode + 1 =? F1_scancode) with false. change (F1_scancode + 1 =? F2_scancode) with true. cbv iota.
      rewrite (bind_ret (ret tt) _ _ tt (send_eoi 1 k1)) by done. by rewrite (bind_ret _ _ _ _ _ Esw).
    + change (F1_scancode + 2 =? F1_scancode) with false. change (F1_scancode + 2 =? F2_scancode) with false.
      change (F1_scancode + 2 =? F3_scancode) with true. cbv iota.
      rewrite !(bind_ret (ret tt) _ _ tt (send_eoi 1 k1)) by done. exact Esw.
  - assert (kernel_map (mmu k2)) as Hm2 by (by rewrite Em2). assert (0 <= active k2 < 3) as Ha2 by (by rewrite Ea2).
    pose proof (switch_keeps_screens e k2 Hm2 Ha2 He) as Hk. cbv zeta in Hk.
    destruct (switch_screen_spec e k2 Hm2 Ha2 He) as [_ Ea _ _ Ek _].
    assert (disp (switch_screen e k2) = e) as Ed.
    { etransitivity; [|exact Ed2]. unfold disp. by rewrite Ek. }
    split; [exact Ea|]. split; [exact Ed|]. intros f Hf'. destruct (Hk f Hf') as [S C].
    split; [|by rewrite C]. intros o Ho. by rewrite S.
Qed.

Lemma key_status_l s : key_status 0x26 s = settled s.
Proof. by apply (printable_no_modifier Lower). Qed.

(** Control and L pressed: the screen is blanked with the cursor at the top
    left, nothing is typed, and the terminals are unchanged. *)
Theorem control_l_clears k : scan_code k = 0x26 -> control_status (kbd k) = 1 -> video_ident (mmu k) ->
  exists k', keyboard_handler k = Ret tt k' /\ abs k' = Spec.T (replicate 2000 32) 0 0 /\
    (forall d, term_at k' d = term_at k d) /\ index (kbd k') = index (kbd k).
Proof.
  intros Hsc Hct Hv. set (k1 := (scanned k) <| kbd := settled (kbd (scanned k)) |>).
  destruct (settled_same (kbd (scanned k))) as (Ep & _ & Ec & Ei & _).
  destruct (clear_spec k1 Hv) as [Hf Ha].
  assert (control_status (kbd k1) = 1) as Hct1 by exact (eq_trans Ec Hct).
  assert (kbd (clear k1) = kbd k1) as Ek by (by rewrite (cf_state _ _ Hf)).
  assert (forall d, term_at (clear k1) d = term_at k d) as Et by (intros d; by rewrite (cf_state _ _ Hf)).
  exists (send_eoi 1 (clear k1)). split.
  - unfold keyboard_handler. rewrite bind_modify, bind_run. fold (scanned k). fold (scan_code k). rewrite Hsc.
    assert (handler_front 0x26 (scanned k) = (key_at (pointer (kbd k)) 0x26, clear k1)) as E.
    { unfold handler_front. rewrite key_status_l. fold k1. unfold cntl_l_check. rewrite Hct1. change (ascii_at 0x26) with 108.
      assert (key_char (clear k1) 0x26 = key_at (pointer (kbd k)) 0x26) as Ekc
        by (unfold key_char; rewrite Ek; by rewrite (Ep : pointer (kbd k1) = pointer (kbd k))).
      revert Ekc. generalize (clear k1) as k2. intros k2 Ekc.
      change (negb (1 =? 0)) with true. change ((108 =? 108) || (108 =? 76)) with true. cbv iota zeta. rewrite Ekc.
      assert (key_noprint (key_at (pointer (kbd k)) 0x26) k2 = k2) as ->
        by (unfold key_noprint; by destruct (pointer (kbd k))).
      by rewrite Ekc. }
    rewrite bind_run, E. cbn [fst snd]. rewrite bind_get, Ek, Hct1. by destruct (pointer (kbd k)).
  - destruct (send_eoi_only 1 (clear k1)) as [l ->]. revert Ha Ek Et. generalize (clear k1) as k2. intros k2 Ha Ek Et.
    split; [exact Ha|]. split; [exact Et|]. exact (eq_trans (f_equal index Ek) Ei).
Qed.
End hotkeys.

(** ** Concrete runs *)

(** A keyboard whose controller sends the scan codes of "hi" and Enter. *)
Definition hi_keys (n : nat) : Z := default 0 ([0x23; 0x17; 0x1C] !! n).
Definition answering (f : list port_event -> Z -> Z) : Platform :=
  let P := quiet_platform in
  {| dev_read := f;
     addr_page_directory := addr_page_directory; addr_page_table := addr_page_table;
     addr_vidmap_pt := addr_vidmap_pt; addr_ldt := addr_ldt; addr_tss := addr_tss; isr_addr := isr_addr;
     past_ascii_code := past_ascii_code; past_terminals := past_terminals; asm_output := asm_output;
     exe_data_addr := exe_data_addr; page_directory_aligned := page_directory_aligned;
     page_table_aligned := page_table_aligned; vidmap_pt_aligned := vidmap_pt_aligned;
     tables_distinct := tables_distinct |}.
Definition hi_platform : Platform := answering (fun t p => hi_keys (reads p t)).

(** A process with the standard descriptors, at terminal 0; the keys and a tick
    are pending. *)
Definition prompt_state : kstate :=
  (tables_init (put_pcb 0 shell_process zero_state)) <| irqs := [IRQ_KBD; IRQ_KBD; IRQ_KBD; IRQ_RTC] |>.

Lemma prompt_at : @at_prompt hi_platform prompt_state 0.
Proof. by split. Qed.

Lemma read_returns_typed_line_witness :
  exists k2, @read hi_platform 0 0x1000 10 prompt_state = Ret 3 k2 /\ irqs k2 = [IRQ_RTC].
Proof.
  destruct (@read_returns_typed_line hi_platform hi_keys [0x23; 0x17] [IRQ_RTC] 0 0x1000 10 prompt_state)
    as (k1 & k2 & E & _ & _ & _ & _ & Ei); [done|apply prompt_at|..].
  - intros i sc. by destruct i as [|[|[|?]]]; intros [= <-].
  - done.
  - repeat constructor; done.
  - simpl. lia.
  - done.
  - done.
  - done.
  - done.
  - done.
  - by apply @sep_unpaged.
  - exists k2. split; [exact E|exact Ei].
Defined.

Lemma read_rtc_waits_for_tick_witness :
  exists k' before, @read_rtc quiet_platform 2 0x1000 4 (prompt_state <| irqs := [IRQ_RTC; IRQ_RTC] |>) = Ret 0 k' /\
    if_flag (cpu k') = false /\ [IRQ_RTC; IRQ_RTC] = before ++ IRQ_RTC :: irqs k' /\ IRQ_RTC ∉ before.
Proof.
  assert (IRQ_RTC ∈ irqs (prompt_state <| irqs := [IRQ_RTC; IRQ_RTC] |>)) as Hin by apply list_elem_of_here.
  pose proof (@read_rtc_waits_for_tick quiet_platform 2 0x1000 4 (prompt_state <| irqs := [IRQ_RTC; IRQ_RTC] |>)
    eq_refl ltac:(repeat constructor)) as Hw.
  rewrite (bool_decide_eq_true_2 _ Hin) in Hw. exact Hw.
Defined.

(** "hi" in memory, outside video memory. *)
Definition text_state : kstate :=
  (tables_init (put_pcb 0 shell_process zero_state)) <| pmem := put8 0x1001 105 (put8 0x1000 104 ∅) |>.

Lemma write_shows_text_witness :
  exists k', @write quiet_platform 1 0x1000 2 text_state = Ret 2 k' /\
    abs k' = fold_left (fun st c => Spec.write c st) [104; 105] (abs text_state).
Proof.
  destruct (@write_shows_text quiet_platform 0x1000 2 text_state) as (k' & E & _ & _ & Ha); [done|done|done|done|done|..].
  - by apply @video_ident_unpaged.
  - done.
  - intros i Hi. rewrite loc_unpaged by done. unfold VIDEO.
    assert (i = 0 \/ i = 1) as [-> | ->] by lia; (split; [by vm_compute|lia]).
  - exists k'. split; [exact E|]. exact Ha.
Defined.

Lemma read_write_bad_arguments_witness :
  @read quiet_platform 8 0x1000 4 prompt_state = Ret FAILURE (sti prompt_state).
Proof.
  destruct (@read_write_bad_arguments quiet_platform 8 0x1000 4 prompt_state) as [Hb _].
  by destruct (Hb (or_intror (or_introl eq_refl))).
Defined.

Lemma system_call_numbers_witness :
  @handle_SIG_SYSCALL quiet_platform 0 0 0 0 prompt_state = Ret (-1) prompt_state.
Proof.
  destruct (@system_call_numbers quiet_platform 0 0 0 0 prompt_state) as [He _]. apply He. by left.
Defined.

(** F2 comes while alt is held; terminals 0 and 1 have shells. *)
Definition f2_platform : Platform := answering (fun _ _ => 0x3C).
Definition alt_state : kstate := two_shells <| kbd; alt_status := 1 |>.

Lemma alt_held_mmu k : mmu (k <| kbd; alt_status := 1 |>) = mmu k.
Proof. done. Qed.
Lemma answering_map f m : @kernel_map quiet_platform m -> @kernel_map (answering f) m.
Proof. intros [[? ? ?] ? ? ?]. by split; [split|..]. Qed.
Lemma alt_state_map : @kernel_map f2_platform (mmu alt_state).
Proof.
  apply answering_map. unfold alt_state. rewrite alt_held_mmu. unfold two_shells. rewrite mmu_put_term.
  apply running_low_image.
Qed.

Lemma alt_key_switches_witness :
  exists k', @keyboard_handler f2_platform alt_state = Ret tt k' /\ active k' = 1 /\
    @screen_of f2_platform k' 0 5 = @screen_of f2_platform alt_state 0 5.
Proof.
  destruct (@alt_key_switches f2_platform 1 alt_state) as (k' & E & Ha & _ & Hs).
  - lia.
  - by vm_compute.
  - by vm_compute.
  - by vm_compute.
  - apply alt_state_map.
  - by vm_compute.
  - by vm_compute.
  - exists k'. split; [exact E|]. split; [exact Ha|]. apply (Hs 0); lia.
Defined.

(** L comes while control is held. *)
Definition l_platform : Platform := answering (fun _ _ => 0x26).
Lemma control_l_clears_witness :
  exists k', @keyboard_handler l_platform (zero_state <| kbd; control_status := 1 |>) = Ret tt k' /\
    abs k' = Spec.T (replicate 2000 32) 0 0.
Proof.
  destruct (@control_l_clears l_platform (zero_state <| kbd; control_status := 1 |>)) as (k' & E & Ha & _).
  - done.
  - done.
  - by apply @video_ident_unpaged.
  - exists k'. split; [exact E|exact Ha].
Defined.
