(* ===== verification/Entry.v ===== *)
(** The assembly of interrupt.S, and the assembly blocks of [execute] and [halt].

    The routines are lists of instructions, run on the registers, the words of
    the kernel's stack and the state of the kernel. A [call] runs the function of
    this development; what a compiled function leaves open (the scratch
    registers, the words of its arguments, those below the stack pointer) is a
    parameter, [Cdecl]. The words of the stack are apart from the memory of the
    kernel's state, as the locals of the C functions are in the other files.

    [handle_SIG_SYSCALL] here is the routine; Interrupts.v has the dispatch as
    C code sees it, and the routine is shown to implement it. *)

From Stdlib Require Import String.
From S2P Require Import Prelude Bytes State Console Printf Rtc Paging Idt Keyboard Descriptors Process Sched Interrupts.
#[local] Open Scope Z_scope.
#[local] Open Scope kernel_scope.

(** ** Registers, flags and the stack *)

Inductive reg := EAX | ECX | EDX | EBX | ESP | EBP | ESI | EDI.
Definition reg_eqb (r q : reg) : bool :=
  match r, q with
  | EAX, EAX | ECX, ECX | EDX, EDX | EBX, EBX | ESP, ESP | EBP, EBP | ESI, ESI | EDI, EDI => true
  | _, _ => false
  end.

(** [eflags] holds every flag but the interrupt flag, which the kernel's state
    has; [word_at] the words of the stack, by address. *)
Record mc := Mc {
  reg_of : reg -> Z;
  eflags : Z;
  word_at : Z -> Z;
  kern : kstate
}.

Definition upd_reg (r : reg) (v : Z) (R : reg -> Z) : reg -> Z := fun q => if reg_eqb q r then v else R q.
Definition set_reg (r : reg) (v : Z) (m : mc) : mc := Mc (upd_reg r v (reg_of m)) (eflags m) (word_at m) (kern m).
Definition set_word (a v : Z) (m : mc) : mc :=
  Mc (reg_of m) (eflags m) (fun b => if b =? a then v else word_at m b) (kern m).
Definition set_kern (k : kstate) (m : mc) : mc := Mc (reg_of m) (eflags m) (word_at m) k.
Definition set_if (b : bool) (k : kstate) : kstate := k <| cpu; if_flag := b |>.

(** The register EFLAGS: the interrupt flag is bit 9. *)
Definition get_flags (m : mc) : Z := set_bits (eflags m) 9 1 (Z.b2z (if_flag (cpu (kern m)))).
Definition put_flags (w : Z) (m : mc) : mc :=
  Mc (reg_of m) w (word_at m) (set_if (Z.testbit w 9) (kern m)).

Definition push (v : Z) (m : mc) : mc :=
  let a := u32 (reg_of m ESP - 4) in set_word a v (set_reg ESP a m).
(** Word [i] from the top of the stack. *)
Definition stack_word (m : mc) (i : Z) : Z := word_at m (u32 (reg_of m ESP + 4 * i)).
Definition drop_words (n : Z) (m : mc) : mc := set_reg ESP (u32 (reg_of m ESP + 4 * n)) m.

(** ** Instructions *)

(** The C functions the routines call. *)
Inductive cfun :=
  | C_handle_exception | C_rtc_handler | C_keyboard_handler | C_pit_handler
  | C_halt | C_execute | C_read | C_write | C_open | C_close | C_getargs | C_vidmap.

Inductive operand := Imm (n : Z) | Reg (r : reg) | Mem (disp : Z) (r : reg).

Inductive instr :=
  | pushal | popal | pushfl | popfl
  | pushl (o : operand) | popl (r : reg) | movl (o : operand) (r : reg)
  | addl (n : Z) (r : reg) | orl (n : Z) (r : reg)
  | cli_ | sti_
  | call_ (f : cfun) | call_table (r : reg)
  | cmpl (n : Z) (r : reg) | jle (l : string) | jg (l : string) | jmp (l : string) | label (l : string)
  | leave | ret_ | iret.

(** Addition, comparison and [orl] set the zero, sign and overflow flags. *)
Definition set_zso (z s o : bool) (m : mc) : mc :=
  Mc (reg_of m) (set_bits (set_bits (set_bits (eflags m) 6 1 (Z.b2z z)) 7 1 (Z.b2z s)) 11 1 (Z.b2z o))
    (word_at m) (kern m).
Definition ZF (m : mc) : bool := Z.testbit (eflags m) 6.
Definition SF (m : mc) : bool := Z.testbit (eflags m) 7.
Definition OF (m : mc) : bool := Z.testbit (eflags m) 11.
(** The condition of [jle]; that of [jg] is its negation. *)
Definition less_or_equal (m : mc) : bool := ZF m || negb (Bool.eqb (SF m) (OF m)).
Definition value (o : operand) (m : mc) : Z :=
  match o with Imm n => n | Reg r => reg_of m r | Mem d r => word_at m (u32 (reg_of m r + d)) end.
Definition compare_flags (n : Z) (r : reg) (m : mc) : mc :=
  let a := reg_of m r in let d := u32 (a - n) in
  set_zso (d =? 0) (Z.testbit d 31) (negb (s32 d =? s32 a - s32 n)) m.
Definition sum_flags (n a : Z) (m : mc) : mc :=
  let d := u32 (a + n) in set_zso (d =? 0) (Z.testbit d 31) (negb (s32 d =? s32 a + s32 n)) m.

(** The instructions without control flow. [pushal] pushes the stack pointer it
    started with, and [popal] skips it. *)
Definition step (i : instr) (m : mc) : mc :=
  match i with
  | pushal =>
      let sp := reg_of m ESP in
      fold_left (fun m v => push v m)
        [reg_of m EAX; reg_of m ECX; reg_of m EDX; reg_of m EBX; sp; reg_of m EBP; reg_of m ESI; reg_of m EDI] m
  | popal =>
      let w := stack_word m in
      drop_words 8 (set_reg EAX (w 7) (set_reg ECX (w 6) (set_reg EDX (w 5) (set_reg EBX (w 4)
        (set_reg EBP (w 2) (set_reg ESI (w 1) (set_reg EDI (w 0) m)))))))
  | pushfl => push (get_flags m) m
  | popfl => drop_words 1 (put_flags (stack_word m 0) m)
  | pushl o => push (value o m) m
  | popl r => set_reg r (stack_word m 0) (drop_words 1 m)
  | movl o r => set_reg r (value o m) m
  | addl n r => sum_flags n (reg_of m r) (set_reg r (u32 (reg_of m r + n)) m)
  | orl n r =>
      let d := Z.lor (reg_of m r) n in set_zso (d =? 0) (Z.testbit d 31) false (set_reg r d m)
  | cli_ => set_kern (cli (kern m)) m
  | sti_ => set_kern (sti (kern m)) m
  | cmpl n r => compare_flags n r m
  | leave => let m := set_reg ESP (reg_of m EBP) m in set_reg EBP (stack_word m 0) (drop_words 1 m)
  | _ => m
  end.

(** interrupt.S [sys_call_table]: the entry 0 is the null pointer. *)
Definition sys_call_table : list (option cfun) :=
  [None; Some C_halt; Some C_execute; Some C_read; Some C_write; Some C_open; Some C_close; Some C_getargs; Some C_vidmap].

(** What ends a routine: [iret], with the selector and the stack segment it
    pops; [ret]; or a function that does not come back. *)
Inductive ending :=
  | Resume (eip cs : Z) (ss : option Z) (m : mc)
  | Return (eip : Z) (m : mc)
  | Leaves (j : jump) (k : kstate)
  | Spins (k : kstate)
  | Strays (u : stray) (k : kstate)
  | Unfinished.

(** [iret] to a less privileged level pops the stack pointer and segment too. *)
Definition do_iret (m : mc) : ending :=
  let w := stack_word m in
  let m1 := put_flags (w 2) (drop_words 3 m) in
  if Z.land (w 1) 3 =? 0 then Resume (w 0) (w 1) None m1
  else Resume (w 0) (w 1) (Some (w 4)) (set_reg ESP (w 3) m1).

(** What a compiled function leaves behind: the scratch registers, the flags,
    and the words up to the end of its arguments. *)
Class Cdecl := {
  scratch : reg -> mc -> Z;
  flags_left : mc -> Z;
  used_words : mc -> Z -> Z
}.
Definition arity (f : cfun) : Z :=
  match f with
  | C_handle_exception | C_halt | C_execute | C_open | C_close | C_vidmap => 1
  | C_getargs => 2
  | C_read | C_write => 3
  | _ => 0
  end.
Definition returns (f : cfun) : bool :=
  match f with C_handle_exception | C_rtc_handler | C_keyboard_handler | C_pit_handler => false | _ => true end.

Section run.
Context `{Cdecl}.
(** The function, on the words of the stack from its first argument on. *)
Variable functions : cfun -> (Z -> Z) -> M Z.

(** The state after a call: [f] returned [r], the kernel's state is [k]. *)
Definition after_call (f : cfun) (r : Z) (k : kstate) (m : mc) : mc :=
  Mc (fun q => match q with
               | EAX => if returns f then u32 r else scratch EAX m
               | ECX | EDX => scratch q m
               | _ => reg_of m q
               end)
    (flags_left m)
    (fun a => if a <? reg_of m ESP + 4 * arity f then used_words m a else word_at m a) k.

Definition do_call (f : cfun) (m : mc) (continue : mc -> ending) : ending :=
  match functions f (stack_word m) (kern m) with
  | Ret r k => continue (after_call f r k m)
  | Jmp j k => Leaves j k
  | Hang k => Spins k
  | Undef u k => Strays u k
  end.

Fixpoint after_label (l : string) (code : list instr) : list instr :=
  match code with
  | [] => []
  | label l' :: code => if String.eqb l l' then code else after_label l code
  | _ :: code => after_label l code
  end.

(** [code] is what is left of the routine [whole]. *)
Fixpoint exec (fuel : nat) (whole code : list instr) (m : mc) : ending :=
  match fuel, code with
  | S fuel, i :: code =>
      match i with
      | call_ f => do_call f m (exec fuel whole code)
      | call_table r =>
          match mjoin (sys_call_table !! Z.to_nat (reg_of m r)) with
          | Some f => do_call f m (exec fuel whole code)
          | None => Strays StrayCall (kern m)
          end
      | jle l => exec fuel whole (if less_or_equal m then after_label l whole else code) m
      | jg l => exec fuel whole (if less_or_equal m then code else after_label l whole) m
      | jmp l => exec fuel whole (after_label l whole) m
      | ret_ => Return (stack_word m 0) (drop_words 1 m)
      | iret => do_iret m
      | i => exec fuel whole code (step i m)
      end
  | _, _ => Unfinished
  end.

(** No routine jumps backwards: as many turns as it has instructions are enough. *)
Definition run_code (code : list instr) : mc -> ending := exec (length code) code code.
End run.

(** ** The routines of interrupt.S *)

Definition SIG_DE := 0.
Definition SIG_DB := 1.
Definition SIG_NMI := 2.
Definition SIG_BP := 3.
Definition SIG_OF := 4.
Definition SIG_BR := 5.
Definition SIG_UD := 6.
Definition SIG_NM := 7.
Definition SIG_DF := 8.
Definition SIG_SO := 9.
Definition SIG_TS := 10.
Definition SIG_NP := 11.
Definition SIG_SS := 12.
Definition SIG_GP := 13.
Definition SIG_PF := 14.
Definition SIG_MF := 16.
Definition SIG_AC := 17.
Definition SIG_MC := 18.
Definition SIG_XF := 19.

Definition handle_SIG_DE := [pushal; pushl (Imm SIG_DE); call_ C_handle_exception; addl 4 ESP; popal; iret].
Definition handle_SIG_DB := [pushal; pushl (Imm SIG_DB); call_ C_handle_exception; addl 4 ESP; popal; iret].
Definition handle_SIG_NMI := [pushal; pushl (Imm SIG_NMI); call_ C_handle_exception; addl 4 ESP; popal; iret].
Definition handle_SIG_BP := [pushal; pushl (Imm SIG_BP); call_ C_handle_exception; addl 4 ESP; popal; iret].
Definition handle_SIG_OF := [pushal; pushl (Imm SIG_OF); call_ C_handle_exception; addl 4 ESP; popal; iret].
Definition handle_SIG_BR := [pushal; pushl (Imm SIG_BR); call_ C_handle_exception; addl 4 ESP; popal; iret].
Definition handle_SIG_UD := [pushal; pushl (Imm SIG_UD); call_ C_handle_exception; addl 4 ESP; popal; iret].
Definition handle_SIG_NM := [pushal; pushl (Imm SIG_NM); call_ C_handle_exception; addl 4 ESP; popal; iret].
Definition handle_SIG_DF := [pushal; pushl (Imm SIG_DF); call_ C_handle_exception; addl 4 ESP; popal; iret].
Definition handle_SIG_SO := [pushal; pushl (Imm SIG_SO); call_ C_handle_exception; addl 4 ESP; popal; iret].
Definition handle_SIG_TS := [pushal; pushl (Imm SIG_TS); call_ C_handle_exception; addl 4 ESP; popal; iret].
Definition handle_SIG_NP := [pushal; pushl (Imm SIG_NP); call_ C_handle_exception; addl 4 ESP; popal; iret].
Definition handle_SIG_SS := [pushal; pushl (Imm SIG_SS); call_ C_handle_exception; addl 4 ESP; popal; iret].
Definition handle_SIG_GP :=
  [pushal; pushfl; pushl (Imm SIG_GP); call_ C_handle_exception; addl 4 ESP; popfl; popal; iret].
Definition handle_SIG_PF := [pushal; pushl (Imm SIG_PF); call_ C_handle_exception; addl 4 ESP; popal; popl EAX; iret].
Definition handle_SIG_MF := [pushal; pushl (Imm SIG_MF); call_ C_handle_exception; addl 4 ESP; popal; iret].
Definition handle_SIG_AC := [pushal; pushl (Imm SIG_AC); call_ C_handle_exception; addl 4 ESP; popal; iret].
Definition handle_SIG_MC := [pushal; pushl (Imm SIG_MC); call_ C_handle_exception; addl 4 ESP; popal; iret].
Definition handle_SIG_XF := [pushal; pushl (Imm SIG_XF); call_ C_handle_exception; addl 4 ESP; popal; iret].
Definition handle_SIG_RTC := [pushal; call_ C_rtc_handler; popal; iret].
Definition handle_SIG_KBD := [cli_; pushal; call_ C_keyboard_handler; popal; sti_; iret].
Definition handle_SIG_PIT := [cli_; pushal; call_ C_pit_handler; popal; sti_; iret].
Definition handle_SIG_IDK :=
  [pushfl; pushal; pushl (Imm SIG_IDK); call_ C_handle_exception; addl 4 ESP; popal; popfl; iret].

Definition handle_SIG_SYSCALL : list instr :=
  [pushfl; pushl (Reg EBP); pushl (Reg EDI); pushl (Reg ESI); pushl (Reg EDX); pushl (Reg ECX); pushl (Reg EBX);
   cmpl 0 EAX; jle "syscall_error";
   cmpl 10 EAX; jg "syscall_error";
   call_table EAX; jmp "syscall_return";
   label "syscall_error";
   movl (Imm 0xFFFFFFFF) EAX;
   label "syscall_return";
   popl EBX; popl ECX; popl EDX; popl ESI; popl EDI; popl EBP; popfl;
   iret]%string.

(** The routines no C code calls any more: [execute] and [halt] have their own. *)
Definition run_user_program : list instr :=
  [movl (Mem 4 ESP) EAX; movl (Mem 8 ESP) EBX;
   pushl (Imm 0x2B); pushl (Reg EBX); pushfl; pushl (Imm 0x23); pushl (Reg EAX); iret].
Definition return_from_user_program : list instr :=
  [popl EAX; popl EAX; popl EBP; popl ESP; leave; ret_].

(** syscall.c [execute] and [halt]: the assembly at their ends, with the registers
    the compiler chooses for the operands. *)
Definition execute_linkage (entry : reg) : list instr :=
  [pushl (Imm 0x2B); pushl (Imm 0x083FFFFC); pushfl; popl EAX; orl 0x200 EAX; pushl (Reg EAX); pushl (Imm 0x23);
   movl (Reg entry) EAX; pushl (Reg EAX); sti_; iret].
Definition halt_linkage (kbp curr_status : reg) : list instr :=
  [movl (Reg curr_status) EAX; movl (Reg kbp) EBP; leave; ret_].

(** lib.h [cli_and_save] and [restore_flags], with the register of the variable. *)
Definition cli_and_save (flags : reg) : list instr := [pushfl; popl flags; cli_].
Definition restore_flags (flags : reg) : list instr := [pushl (Reg flags); popfl].

(** The routine at the address of each vector. *)
Definition stub (v : Z) : list instr :=
  match v with
  | 0 => handle_SIG_DE | 1 => handle_SIG_DB | 2 => handle_SIG_NMI | 3 => handle_SIG_BP | 4 => handle_SIG_OF
  | 5 => handle_SIG_BR | 6 => handle_SIG_UD | 7 => handle_SIG_NM | 8 => handle_SIG_DF | 9 => handle_SIG_SO
  | 10 => handle_SIG_TS | 11 => handle_SIG_NP | 12 => handle_SIG_SS | 13 => handle_SIG_GP | 14 => handle_SIG_PF
  | 16 => handle_SIG_MF | 17 => handle_SIG_AC | 18 => handle_SIG_MC | 19 => handle_SIG_XF
  | 32 => handle_SIG_PIT | 33 => handle_SIG_KBD | 40 => handle_SIG_RTC | 128 => handle_SIG_SYSCALL
  | _ => handle_SIG_IDK
  end.

(** The C functions of this development. *)
Definition kernel_functions `{Platform} (f : cfun) (arg : Z -> Z) : M Z :=
  match f with
  | C_handle_exception => handle_exception (arg 0) ;; ret 0
  | C_rtc_handler => modify rtc_handler ;; ret 0
  | C_keyboard_handler => keyboard_handler ;; ret 0
  | C_pit_handler => pit_handler ;; ret 0
  | C_halt => halt (u8 (arg 0))
  | C_execute => execute_at (arg 0)
  | C_read => read (s32 (arg 0)) (arg 1) (s32 (arg 2))
  | C_write => write (s32 (arg 0)) (arg 1) (s32 (arg 2))
  | C_open => open (arg 0)
  | C_close => close (s32 (arg 0))
  | C_getargs => getargs (arg 0) (s32 (arg 1))
  | C_vidmap => run (vidmap (arg 0))
  end.

(** ** Symbolic execution *)

(** The stack pointer is [sp], the other registers are [R], the stack has room
    for [n] words more and holds [l], the flags are [e], the kernel's state is
    [k]. *)
Record holds (n : nat) (sp : Z) (R : reg -> Z) (l : list Z) (e : Z) (k : kstate) (m : mc) : Prop := {
  h_sp : reg_of m ESP = sp;
  h_regs : forall r, r <> ESP -> reg_of m r = R r;
  h_words : forall i v, l !! i = Some v -> word_at m (sp + 4 * Z.of_nat i) = v;
  h_room : 4 * Z.of_nat n <= sp /\ sp + 4 * Z.of_nat (length l) < 4294967296;
  h_flags : eflags m = e;
  h_kern : kern m = k
}.

Section symbolic.
Context `{Cdecl}.
Implicit Types (n : nat) (sp : Z) (R : reg -> Z) (l : list Z) (m : mc).

Lemma reg_eqb_spec r q : reflect (r = q) (reg_eqb r q).
Proof. destruct r, q; by constructor. Qed.

Lemma holds_reg r v n sp R l e k m : r <> ESP -> holds n sp R l e k m ->
  holds n sp (upd_reg r v R) l e k (set_reg r v m).
Proof.
  intros Hr [H1 H2 H3 H4 H5 H6]. split; try done.
  - cbn. unfold upd_reg. by destruct r.
  - intros q Hq. cbn. unfold upd_reg. case_match; auto.
Qed.
Lemma holds_push v n sp R l e k m : holds (S n) sp R l e k m -> holds n (sp - 4) R (v :: l) e k (push v m).
Proof.
  intros [H1 H2 H3 H4 H5 H6]. assert (u32 (reg_of m ESP - 4) = sp - 4) as E by (rewrite H1; warith).
  split; try done.
  - intros q Hq. cbn. rewrite E. unfold upd_reg. destruct (reg_eqb_spec q ESP); auto. done.
  - intros i w Hi. cbn -[Z.of_nat]. rewrite E. destruct i as [|i].
    + injection Hi as <-. rewrite Z.add_0_r. by rewrite Z.eqb_refl.
    + destruct (Z.eqb_spec (sp - 4 + 4 * Z.of_nat (S i)) (sp - 4)); [lia|]. rewrite <- (H3 i w Hi). f_equal. lia.
  - cbn [length]. lia.
Qed.
Lemma holds_pushes vs n sp R l e k m : holds (length vs + n) sp R l e k m ->
  holds n (sp - 4 * Z.of_nat (length vs)) R (rev vs ++ l) e k (fold_left (fun m v => push v m) vs m).
Proof.
  revert n sp l m. induction vs as [|v vs IH]; intros n sp l m Hm.
  - cbn. by rewrite Z.sub_0_r.
  - cbn [length fold_left rev] in *. rewrite <- app_assoc.
    replace (sp - 4 * Z.of_nat (S (length vs))) with (sp - 4 - 4 * Z.of_nat (length vs)) by lia.
    apply IH. apply holds_push. exact Hm.
Qed.
Lemma holds_word n sp R l e k m i v : holds n sp R l e k m -> l !! Z.to_nat i = Some v -> 0 <= i -> stack_word m i = v.
Proof.
  intros [H1 H2 H3 H4 H5 H6] Hv Hi. unfold stack_word. rewrite H1. apply H3 in Hv as Hw. rewrite <- Hw.
  apply lookup_lt_Some in Hv. f_equal. warith.
Qed.
Lemma holds_drop i n sp R l e k m : holds n sp R l e k m -> 0 <= i -> i <= Z.of_nat (length l) ->
  holds (n + Z.to_nat i) (sp + 4 * i) R (drop (Z.to_nat i) l) e k (drop_words i m).
Proof.
  intros [H1 H2 H3 H4 H5 H6] Hi Hl. assert (u32 (reg_of m ESP + 4 * i) = sp + 4 * i) as E by (rewrite H1; warith).
  split; try done.
  - intros q Hq. cbn. rewrite E. unfold upd_reg. destruct (reg_eqb_spec q ESP); auto. done.
  - intros j v Hv. rewrite lookup_drop in Hv. apply H3 in Hv. cbn.
    rewrite <- Hv. f_equal. lia.
  - rewrite length_drop. lia.
Qed.
Lemma holds_pop n sp R v l e k m : holds n sp R (v :: l) e k m ->
  stack_word m 0 = v /\ holds (S n) (sp + 4) R l e k (drop_words 1 m).
Proof.
  intros Hm. split; [by apply (holds_word _ _ _ _ _ _ _ 0 v Hm)|]. rewrite <- Nat.add_1_r.
  pose proof (holds_drop 1 _ _ _ _ _ _ _ Hm) as Hd. apply Hd; cbn [length]; lia.
Qed.
Lemma holds_zso z s o n sp R l e k m : holds n sp R l e k m -> exists e', holds n sp R l e' k (set_zso z s o m).
Proof. intros [H1 H2 H3 H4 H5 H6]. by eexists. Qed.
Lemma holds_set_kern k' n sp R l e k m : holds n sp R l e k m -> holds n sp R l e k' (set_kern k' m).
Proof. intros [H1 H2 H3 H4 H5 H6]. by split. Qed.
Lemma holds_put_flags w n sp R l e k m : holds n sp R l e k m ->
  holds n sp R l w (set_if (Z.testbit w 9) k) (put_flags w m).
Proof. intros [H1 H2 H3 H4 H5 <-]. by split. Qed.

Lemma holds_pushl o n sp R l e k m : holds (S n) sp R l e k m ->
  holds n (sp - 4) R (value o m :: l) e k (step (pushl o) m).
Proof. apply holds_push. Qed.
Lemma holds_popl r v n sp R l e k m : r <> ESP -> holds n sp R (v :: l) e k m ->
  holds (S n) (sp + 4) (upd_reg r v R) l e k (step (popl r) m).
Proof. intros Hr Hm. cbn [step]. destruct (holds_pop _ _ _ _ _ _ _ _ Hm) as [-> Hm']. by apply holds_reg. Qed.
Lemma holds_pushfl n sp R l e k m : holds (S n) sp R l e k m ->
  holds n (sp - 4) R (set_bits e 9 1 (Z.b2z (if_flag (cpu k))) :: l) e k (step pushfl m).
Proof.
  intros Hm. cbn [step]. unfold get_flags. rewrite (h_flags _ _ _ _ _ _ _ Hm), (h_kern _ _ _ _ _ _ _ Hm).
  by apply holds_push.
Qed.
Lemma holds_popfl n sp R w l e k m : holds n sp R (w :: l) e k m ->
  holds (S n) (sp + 4) R l w (set_if (Z.testbit w 9) k) (step popfl m).
Proof.
  intros Hm. cbn [step]. destruct (holds_pop _ _ _ _ _ _ _ _ Hm) as [-> _].
  pose proof (holds_put_flags w _ _ _ _ _ _ _ Hm) as Hm'. apply (holds_pop _ _ _ _ _ _ _ _ Hm').
Qed.
Lemma holds_pushal n sp R l e k m : holds (8 + n) sp R l e k m ->
  holds n (sp - 32) R (R EDI :: R ESI :: R EBP :: sp :: R EBX :: R EDX :: R ECX :: R EAX :: l) e k (step pushal m).
Proof.
  intros Hm. cbn [step]. rewrite (h_sp _ _ _ _ _ _ _ Hm), !(h_regs _ _ _ _ _ _ _ Hm) by done.
  exact (holds_pushes [_; _; _; _; _; _; _; _] _ _ _ _ _ _ _ Hm).
Qed.
Lemma holds_popal n sp R di si bp s bx dx cx ax l e k m :
  holds n sp R (di :: si :: bp :: s :: bx :: dx :: cx :: ax :: l) e k m ->
  let R' := upd_reg EAX ax (upd_reg ECX cx (upd_reg EDX dx (upd_reg EBX bx (upd_reg EBP bp (upd_reg ESI si (upd_reg EDI di R)))))) in
  holds (8 + n) (sp + 32) R' l e k (step popal m).
Proof.
  intros Hm R'. cbn [step].
  rewrite (holds_word _ _ _ _ _ _ _ 7 ax Hm), (holds_word _ _ _ _ _ _ _ 6 cx Hm), (holds_word _ _ _ _ _ _ _ 5 dx Hm),
    (holds_word _ _ _ _ _ _ _ 4 bx Hm), (holds_word _ _ _ _ _ _ _ 2 bp Hm), (holds_word _ _ _ _ _ _ _ 1 si Hm),
    (holds_word _ _ _ _ _ _ _ 0 di Hm) by done.
  assert (holds n sp R' (di :: si :: bp :: s :: bx :: dx :: cx :: ax :: l) e k
    (set_reg EAX ax (set_reg ECX cx (set_reg EDX dx (set_reg EBX bx (set_reg EBP bp (set_reg ESI si (set_reg EDI di m)))))))) as Hm'
    by (unfold R'; repeat (apply holds_reg; [done|]); done).
  pose proof (holds_drop 8 _ _ _ _ _ _ _ Hm') as Hd. rewrite Nat.add_comm in Hd. apply Hd; cbn [length]; lia.
Qed.
Lemma holds_addl n sp R v l e k m : holds n sp R (v :: l) e k m ->
  exists e', holds (S n) (sp + 4) R l e' k (step (addl 4 ESP) m).
Proof. intros Hm. cbn [step]. eapply holds_zso, (holds_pop _ _ _ _ _ _ _ _ Hm). Qed.
Lemma holds_movl o r n sp R l e k m : r <> ESP -> holds n sp R l e k m ->
  holds n sp (upd_reg r (value o m) R) l e k (step (movl o r) m).
Proof. intros Hr Hm. by apply holds_reg. Qed.
Lemma holds_cli n sp R l e k m : holds n sp R l e k m -> holds n sp R l e (cli k) (step cli_ m).
Proof. intros Hm. cbn [step]. rewrite (h_kern _ _ _ _ _ _ _ Hm). by apply (holds_set_kern _ _ _ _ _ _ k). Qed.
Lemma holds_sti n sp R l e k m : holds n sp R l e k m -> holds n sp R l e (sti k) (step sti_ m).
Proof. intros Hm. cbn [step]. rewrite (h_kern _ _ _ _ _ _ _ Hm). by apply (holds_set_kern _ _ _ _ _ _ k). Qed.

(** The registers after a call; the words of the arguments are the function's. *)
Definition call_regs (f : cfun) (r : Z) (m : mc) (R : reg -> Z) : reg -> Z := fun q =>
  match q with
  | EAX => if returns f then u32 r else scratch EAX m
  | ECX | EDX => scratch q m
  | _ => R q
  end.
Definition keeps_arguments : Prop := forall m a, reg_of m ESP <= a -> used_words m a = word_at m a.
Lemma holds_call f r k' n sp R args l e k m : holds n sp R (args ++ l) e k m -> Z.of_nat (length args) = arity f ->
  exists args', length args' = length args /\ (keeps_arguments -> args' = args) /\
    holds n sp (call_regs f r m R) (args' ++ l) (flags_left m) k' (after_call f r k' m).
Proof.
  intros [H1 H2 H3 H4 H5 H6] Ha.
  exists ((fun i => word_at (after_call f r k' m) (sp + 4 * i)) <$> seqZ 0 (arity f)).
  rewrite length_fmap, length_seqZ, <- Ha, Nat2Z.id. split; [done|]. rewrite length_app in H4. split.
  - intros Hk. apply list_eq_same_length with (length args); [done|by rewrite length_fmap, length_seqZ, Nat2Z.id|].
    intros i x y Hi Hx Hy. rewrite list_lookup_fmap, lookup_seqZ_lt in Hx by lia. injection Hx as <-.
    rewrite <- (H3 i y) by (by rewrite lookup_app_l by lia). cbn. case_match; [|done].
    apply Hk. rewrite H1. lia.
  - split; try done.
    + intros q Hq. destruct q; cbn; by rewrite ?H2.
    + intros i v Hi. apply lookup_app_Some in Hi as [Hi|[Hi Hv]].
      * apply list_lookup_fmap_Some in Hi as (j & -> & Hj). apply lookup_seqZ in Hj as [-> Hj]. f_equal.
      * rewrite length_fmap, length_seqZ, Nat2Z.id in Hi, Hv. cbn. rewrite H1.
        destruct (Z.ltb_spec (sp + 4 * Z.of_nat i) (sp + 4 * arity f)); [lia|].
        rewrite <- (H3 i v); [done|]. by rewrite lookup_app_r by lia.
    + rewrite length_app, length_fmap, length_seqZ. lia.
Qed.
End symbolic.

(** ** Interrupt frames *)

(** What the processor pushes: the return address, the code segment, the flags;
    from user mode the stack pointer and segment above them. *)
Record iframe := IFrame { f_eip : Z; f_cs : Z; f_flags : Z; f_user : option (Z * Z) }.
Definition frame_words (fr : iframe) : list Z :=
  [f_eip fr; f_cs fr; f_flags fr] ++ match f_user fr with Some (sp, ss) => [sp; ss] | None => [] end.
(** The segment's privilege level says which of the two it is. *)
Definition frame_ok (fr : iframe) : Prop := (Z.land (f_cs fr) 3 = 0) <-> f_user fr = None.

(** The processor has just taken an interrupt, and the stack has room. *)
Definition interrupted (fr : iframe) (m : mc) : Prop :=
  holds 32 (reg_of m ESP) (reg_of m) (frame_words fr) (eflags m) (kern m) m.

(** The interrupted code goes on, at stack pointer [sp] if in the kernel, with
    the registers [R] and the flags of the frame. *)
Definition resumed (fr : iframe) (sp : Z) (R : reg -> Z) (k : kstate) (x : ending) : Prop :=
  exists m', x = Resume (f_eip fr) (f_cs fr) (snd <$> f_user fr) m' /\
    reg_of m' ESP = match f_user fr with Some (usp, _) => usp | None => sp + 12 end /\
    (forall r, r <> ESP -> reg_of m' r = R r) /\ eflags m' = f_flags fr /\
    kern m' = set_if (Z.testbit (f_flags fr) 9) k.

(** The ending that goes with what a function did. *)
Definition ends {A} (o : outcome A) (P : A -> kstate -> ending -> Prop) (x : ending) : Prop :=
  match o with
  | Ret a k => P a k x
  | Jmp j k => x = Leaves j k
  | Hang k => x = Spins k
  | Undef u k => x = Strays u k
  end.
Lemma ends_impl {A} (o : outcome A) (P Q : A -> kstate -> ending -> Prop) x :
  ends o P x -> (forall a k, P a k x -> Q a k x) -> ends o Q x.
Proof. intros Hx Hpq. destruct o; simpl in *; auto. Qed.
Lemma ends_bind {A B} (o : M A) (g : A -> M B) (P : B -> kstate -> ending -> Prop) k x :
  ends (o k) (fun a k' x => ends (g a k') P x) x -> ends (bind o g k) P x.
Proof. unfold bind. by destruct (o k). Qed.

Section routines.
Context `{Cdecl}.
Variable functions : cfun -> (Z -> Z) -> M Z.

Definition plain_instr (i : instr) : bool :=
  match i with call_ _ | call_table _ | jle _ | jg _ | jmp _ | ret_ | iret => false | _ => true end.
Lemma exec_plain n whole i code m : plain_instr i = true ->
  exec functions (S n) whole (i :: code) m = exec functions n whole code (step i m).
Proof. by destruct i. Qed.

Lemma holds_pushi v n sp R l e k m : holds (S n) sp R l e k m -> holds n (sp - 4) R (v :: l) e k (step (pushl (Imm v)) m).
Proof. apply holds_push. Qed.
Lemma holds_pushr r n sp R l e k m : r <> ESP -> holds (S n) sp R l e k m ->
  holds n (sp - 4) R (R r :: l) e k (step (pushl (Reg r)) m).
Proof. intros Hr Hm. rewrite <- (h_regs _ _ _ _ _ _ _ Hm r Hr). by apply holds_push. Qed.

Lemma iret_resumes fr n sp R e k m : frame_ok fr -> holds n sp R (frame_words fr) e k m ->
  resumed fr sp R k (do_iret m).
Proof.
  intros Hok Hm. unfold do_iret.
  assert (forall i v, frame_words fr !! Z.to_nat i = Some v -> 0 <= i -> stack_word m i = v) as Hw
    by (intros; by eapply holds_word).
  rewrite (Hw 0 (f_eip fr)), (Hw 1 (f_cs fr)), (Hw 2 (f_flags fr)) by done.
  pose proof (holds_drop 3 _ _ _ _ _ _ _ Hm ltac:(done)) as Hd. unfold frame_words in Hd at 1. rewrite length_app in Hd.
  specialize (Hd ltac:(simpl length; lia)). apply (holds_put_flags (f_flags fr)) in Hd. destruct Hd as [H1 H2 _ _ H5 H6].
  unfold frame_ok in Hok. destruct fr as [eip cs fl [[usp ss]|]]; cbn [f_cs f_user f_flags f_eip] in *.
  - destruct (Z.eqb_spec (Z.land cs 3) 0) as [E|]; [by discriminate (proj1 Hok E)|].
    rewrite (Hw 3 usp), (Hw 4 ss) by done. eexists. split; [done|]. split; [done|]. split; [|done].
    intros q Hq. rewrite <- H2 by done. cbn. unfold upd_reg at 1. by destruct (reg_eqb_spec q ESP).
  - rewrite (proj2 Hok) by done. eexists. split; [done|]. split; [exact H1|]. by split.
Qed.

(** Comparison and the two jumps. *)
Lemma compare_jumps n r m : -2147483648 <= n < 2147483648 ->
  less_or_equal (compare_flags n r m) = (s32 (reg_of m r) <=? n).
Proof.
  intros Hn. unfold less_or_equal, ZF, SF, OF, compare_flags, set_zso. cbv zeta. cbn [eflags].
  rewrite !set_bits_testbit by lia. simpl Z.leb. simpl Z.ltb. simpl andb. cbv iota.
  assert (forall b : bool, Z.testbit (Z.b2z b) 0 = b) as Hb by (by intros []). simpl Z.sub. rewrite !Hb. clear Hb.
  assert (Z.testbit (u32 (reg_of m r - n)) 31 = (2147483648 <=? u32 (reg_of m r - n))) as ->.
  { pose proof (u32_range (reg_of m r - n)). rewrite testbit_bits by lia. bits_arith. }
  assert (u32 (reg_of m r - n) = u32 (s32 (reg_of m r) - n)) as -> by (unfold s32, u32; Z.div_mod_to_equations; lia).
  pose proof (s32_range (reg_of m r)) as Hr. revert Hr. generalize (s32 (reg_of m r)) as a. intros a Hr.
  assert (s32 n = n) as -> by warith.
  assert (u32 (a - n) = if a - n <? 0 then a - n + 4294967296 else a - n) as -> by (case_test; warith).
  assert (s32 (if a - n <? 0 then a - n + 4294967296 else a - n) =
    if a - n <? -2147483648 then a - n + 4294967296 else if 2147483647 <? a - n then a - n - 4294967296 else a - n) as ->
    by (case_tests; warith).
  case_tests.
Qed.

(** A call in the middle of a routine. *)
Lemma do_call_ends f args m (continue : mc -> ending) n sp R l e k : holds n sp R (args ++ l) e k m ->
  Z.of_nat (length args) = arity f ->
  ends (functions f (stack_word m) k)
    (fun r k' x => exists args', length args' = length args /\ (keeps_arguments -> args' = args) /\
       let m' := after_call f r k' m in
       holds n sp (call_regs f r m R) (args' ++ l) (flags_left m) k' m' /\ x = continue m') (do_call functions f m continue).
Proof.
  intros Hm Ha. unfold do_call. rewrite (h_kern _ _ _ _ _ _ _ Hm). destruct (functions f _ k) as [r k'|j k'|k'|u k']; try done.
  destruct (holds_call f r k' _ _ _ _ _ _ _ _ Hm Ha) as (args' & Hl & Hk & Hh). by exists args'.
Qed.
Lemma holds_ext R' n sp R l e k m : (forall r, r <> ESP -> R r = R' r) -> holds n sp R l e k m -> holds n sp R' l e k m.
Proof. intros HR [H1 H2 H3 H4 H5 H6]. split; try done. intros r Hr. by rewrite <- HR, H2. Qed.

(** [pushal; call f; popal]: the registers are kept whatever the function does. *)
Lemma saved_call f n whole c sp R l e k m : arity f = 0 -> (forall a a', functions f a k = functions f a' k) ->
  holds 32 sp R l e k m ->
  ends (functions f (fun _ => 0) k)
    (fun _ k' x => exists e' m', holds 32 sp R l e' k' m' /\ x = exec functions n whole c m')
    (exec functions (S (S (S n))) whole (pushal :: call_ f :: popal :: c) m).
Proof.
  intros Ha Hf Hm. rewrite exec_plain by done. apply (holds_pushal 24) in Hm. rewrite (Hf _ (stack_word (step pushal m))).
  pose proof (do_call_ends f [] _ (exec functions (S n) whole (popal :: c)) _ _ _ _ _ _ Hm ltac:(done)) as Hx.
  eapply ends_impl; [exact Hx|]. intros r k' ([|] & Hl & _ & Hh & ->); [|done]. rewrite exec_plain by done.
  apply holds_popal in Hh. replace (sp - 32 + 32) with sp in Hh by lia. do 2 eexists. split; [|reflexivity].
  eapply holds_ext; [|exact Hh]. intros q Hq. by destruct q.
Qed.

(** The stubs of the devices. *)
Lemma device_stub_runs f code k0 fr m : arity f = 0 -> (forall k a a', functions f a k = functions f a' k) ->
  (code = [pushal; call_ f; popal; iret] \/ code = [cli_; pushal; call_ f; popal; sti_; iret]) ->
  interrupted fr m -> frame_ok fr -> Z.testbit (f_flags fr) 9 = true -> kern m = cli k0 ->
  ends (functions f (fun _ => 0) (cli k0)) (fun _ k' => resumed fr (reg_of m ESP) (reg_of m) (sti k')) (run_code functions code m).
Proof.
  intros Ha Hf Hc Hm Hok Hif Hk. unfold interrupted in Hm. rewrite Hk in Hm.
  assert (forall k', resumed fr (reg_of m ESP) (reg_of m) k' = resumed fr (reg_of m ESP) (reg_of m) (sti k')) as Hs.
  { intros k'. unfold resumed. by rewrite Hif. }
  destruct Hc as [-> | ->]; unfold run_code; cbn [length].
  - eapply ends_impl; [by apply (saved_call _ _ _ _ _ _ _ _ _ _ Ha (Hf _) Hm)|]. intros r k' (e' & m' & Hh & ->). rewrite <- Hs. by eapply iret_resumes.
  - rewrite exec_plain by done. apply holds_cli in Hm. eapply ends_impl; [by apply (saved_call _ _ _ _ _ _ _ _ _ _ Ha (Hf _) Hm)|].
    intros r k' (e' & m' & Hh & ->). rewrite exec_plain by done. apply holds_sti in Hh. by eapply iret_resumes.
Qed.

(** [pushl $v; call handle_exception; addl $4, %esp]. *)
Definition reads_first : Prop :=
  forall a a' k, a 0 = a' 0 -> functions C_handle_exception a k = functions C_handle_exception a' k.
Lemma vector_call v N whole post n sp R l e k m : reads_first -> holds (S n) sp R l e k m ->
  ends (functions C_handle_exception (fun _ => v) k)
    (fun _ k' x => exists e' m' R', holds (S n) sp R' l e' k' m' /\
       (forall r, r <> EAX -> r <> ECX -> r <> EDX -> R' r = R r) /\ x = exec functions N whole post m')
    (exec functions (S (S (S N))) whole (pushl (Imm v) :: call_ C_handle_exception :: addl 4 ESP :: post) m).
Proof.
  intros Hf Hm. rewrite exec_plain by done. apply (holds_pushi v) in Hm.
  rewrite (Hf _ (stack_word (step (pushl (Imm v)) m))) by (symmetry; by apply (holds_word _ _ _ _ _ _ _ 0 v Hm)).
  pose proof (do_call_ends C_handle_exception [v] _ (exec functions (S N) whole (addl 4 ESP :: post)) _ _ _ _ _ _ Hm eq_refl) as Hx.
  eapply ends_impl; [exact Hx|]. intros r k' (args' & Hl & _ & Hh & ->). rewrite exec_plain by done.
  destruct args' as [|w [|]]; [done| |done]. apply holds_addl in Hh as (e' & Hh). replace (sp - 4 + 4) with sp in Hh by lia.
  do 3 eexists. split; [exact Hh|]. split; [|reflexivity]. intros q ? ? ?. by destruct q.
Qed.

(** The stubs of the exceptions call the function with their vector. *)
Lemma exception_call pre v post l m : pre = [pushal] \/ pre = [pushal; pushfl] \/ pre = [pushfl; pushal] -> reads_first ->
  holds 32 (reg_of m ESP) (reg_of m) l (eflags m) (kern m) m ->
  ends (functions C_handle_exception (fun _ => v) (kern m)) (fun _ _ _ => True)
    (run_code functions (pre ++ pushl (Imm v) :: call_ C_handle_exception :: addl 4 ESP :: post) m).
Proof.
  intros Hpre Hf Hm. unfold run_code. rewrite length_app. generalize (pre ++ pushl (Imm v) :: call_ C_handle_exception :: addl 4 ESP :: post) at 1.
  intros whole. destruct Hpre as [-> | [-> | ->]]; cbn [length app plus]; rewrite exec_plain by done.
  - apply (holds_pushal 24) in Hm. by eapply ends_impl; [eapply vector_call|].
  - rewrite exec_plain by done. apply (holds_pushal 24), (holds_pushfl 23) in Hm. by eapply ends_impl; [eapply vector_call|].
  - rewrite exec_plain by done. apply holds_pushfl, (holds_pushal 23) in Hm. by eapply ends_impl; [eapply vector_call|].
Qed.

(** Where the processor pushes an error code above the frame: if the function
    came back, the stub would return to the error code; the stub of the page
    fault to the right address, with the error code in eax. *)
Lemma error_code_stub v code fr k' m :
  reads_first -> functions C_handle_exception (fun _ => v) (kern m) = Ret 0 k' ->
  holds 32 (reg_of m ESP) (reg_of m) (code :: frame_words fr) (eflags m) (kern m) m ->
  let stub post := pushal :: pushl (Imm v) :: call_ C_handle_exception :: addl 4 ESP :: popal :: post in
  (exists ss m', run_code functions (stub [iret]) m = Resume code (f_eip fr) ss m') /\
  (frame_ok fr -> resumed fr (reg_of m ESP + 4) (upd_reg EAX code (reg_of m)) k' (run_code functions (stub [popl EAX; iret]) m)).
Proof.
  intros Hf He Hm stub.
  assert (forall N whole post, exists e' m', holds 32 (reg_of m ESP) (reg_of m) (code :: frame_words fr) e' k' m' /\
    exec functions (5 + N) whole (stub post) m = exec functions N whole post m') as Hgo.
  { intros N whole post. unfold stub. cbn [plus]. rewrite exec_plain by done. pose proof (holds_pushal 24 _ _ _ _ _ _ Hm) as Hp.
    pose proof (vector_call v (S N) whole (popal :: post) _ _ _ _ _ _ _ Hf Hp) as Hx. rewrite He in Hx.
    destruct Hx as (e1 & m1 & R1 & Hh & HR & ->). rewrite exec_plain by done.
    apply holds_popal in Hh. replace (reg_of m ESP - 32 + 32) with (reg_of m ESP) in Hh by lia. do 2 eexists. split; [|reflexivity].
    eapply holds_ext; [|exact Hh]. intros q Hq. by destruct q. }
  unfold run_code. split.
  - change (length (stub [iret])) with (5 + 1)%nat. destruct (Hgo 1%nat (stub [iret]) [iret]) as (e' & m' & Hh & ->). cbn [exec]. unfold do_iret.
    rewrite (holds_word _ _ _ _ _ _ _ 0 code Hh), (holds_word _ _ _ _ _ _ _ 1 (f_eip fr) Hh) by done.
    case_match; by do 2 eexists.
  - intros Hok. change (length (stub [popl EAX; iret])) with (5 + 2)%nat. destruct (Hgo 2%nat (stub [popl EAX; iret]) [popl EAX; iret]) as (e' & m' & Hh & ->).
    rewrite exec_plain by done. apply (holds_popl EAX) in Hh; [|done]. by eapply iret_resumes.
Qed.

(** ** The system-call routine *)

Definition saves : list instr :=
  [pushfl; pushl (Reg EBP); pushl (Reg EDI); pushl (Reg ESI); pushl (Reg EDX); pushl (Reg ECX); pushl (Reg EBX)].
Definition restores : list instr := [popl EBX; popl ECX; popl EDX; popl ESI; popl EDI; popl EBP; popfl; iret].

(** The words of the stack while a system call runs: the arguments first. *)
Definition saved_words (fr : iframe) (m : mc) : list Z :=
  [reg_of m EBX; reg_of m ECX; reg_of m EDX; reg_of m ESI; reg_of m EDI; reg_of m EBP; get_flags m] ++ frame_words fr.

Lemma saves_run n whole code fr m : interrupted fr m ->
  exists m', exec functions (7 + n) whole (saves ++ code) m = exec functions n whole code m' /\
    holds 25 (reg_of m ESP - 28) (reg_of m) (saved_words fr m) (eflags m) (kern m) m'.
Proof.
  intros Hm. unfold saves. cbn [app plus]. rewrite !exec_plain by done. eexists. split; [reflexivity|].
  apply (holds_pushfl 31) in Hm. 
  apply (holds_pushr EBP) in Hm; [|done]. apply (holds_pushr EDI) in Hm; [|done]. apply (holds_pushr ESI) in Hm; [|done].
  apply (holds_pushr EDX) in Hm; [|done]. apply (holds_pushr ECX) in Hm; [|done]. apply (holds_pushr EBX) in Hm; [|done].
  match type of Hm with holds _ ?sp _ _ _ _ _ => replace sp with (reg_of m ESP - 28) in Hm by lia end. exact Hm.
Qed.

(** From the return of the function on: the results are in eax, and the words of
    the arguments, as the function left them, in ebx, ecx and edx. *)
Lemma restores_run n' whole bx cx dx si di bp fl fr n sp R e k m : frame_ok fr ->
  holds n sp R ([bx; cx; dx; si; di; bp; fl] ++ frame_words fr) e k m ->
  resumed fr (sp + 28) (upd_reg EBP bp (upd_reg EDI di (upd_reg ESI si (upd_reg EDX dx (upd_reg ECX cx (upd_reg EBX bx R)))))) k
    (exec functions (8 + n') whole restores m).
Proof.
  intros Hok Hm. unfold restores. cbn [plus]. rewrite !exec_plain by done. cbn [app] in Hm.
  apply (holds_popl EBX) in Hm; [|done]. apply (holds_popl ECX) in Hm; [|done]. apply (holds_popl EDX) in Hm; [|done].
  apply (holds_popl ESI) in Hm; [|done]. apply (holds_popl EDI) in Hm; [|done]. apply (holds_popl EBP) in Hm; [|done]. apply holds_popfl in Hm.
  match type of Hm with holds _ ?s _ _ _ _ _ => replace s with (sp + 28) in Hm by lia end.
  pose proof (iret_resumes fr _ _ _ _ _ _ Hok Hm) as Hr. exact Hr.
Qed.

(** A function of at most three arguments, called with the three words on top. *)
Lemma call_saved f bx cx dx m (continue : mc -> ending) n sp R l e k : 1 <= arity f <= 3 ->
  holds n sp R ([bx; cx; dx] ++ l) e k m ->
  ends (functions f (stack_word m) k)
    (fun r k' x => exists bx' cx' dx', (keeps_arguments -> bx' = bx /\ cx' = cx /\ dx' = dx) /\
       let m' := after_call f r k' m in
       holds n sp (call_regs f r m R) ([bx'; cx'; dx'] ++ l) (flags_left m) k' m' /\ x = continue m') (do_call functions f m continue).
Proof.
  intros Ha Hm. assert (arity f = 1 \/ arity f = 2 \/ arity f = 3) as [E | [E | E]] by lia.
  - eapply ends_impl; [apply (do_call_ends f [bx] m continue _ _ _ (cx :: dx :: l) _ _ Hm); by rewrite E|].
    intros r k' (args' & Hl & Hk & Hh & ->). destruct args' as [|bx' [|]]; [done| |done].
    exists bx', cx, dx. split; [|by split]. intros K. by injection (Hk K) as ->.
  - eapply ends_impl; [apply (do_call_ends f [bx; cx] m continue _ _ _ (dx :: l) _ _ Hm); by rewrite E|].
    intros r k' (args' & Hl & Hk & Hh & ->). destruct args' as [|bx' [|cx' [|]]]; [done|done| |done].
    exists bx', cx', dx. split; [|by split]. intros K. by injection (Hk K) as -> ->.
  - eapply ends_impl; [apply (do_call_ends f [bx; cx; dx] m continue _ _ _ l _ _ Hm); by rewrite E|].
    intros r k' (args' & Hl & Hk & Hh & ->). destruct args' as [|bx' [|cx' [|dx' [|]]]]; [done|done|done| |done].
    exists bx', cx', dx'. split; [|by split]. intros K. by injection (Hk K) as -> -> ->.
Qed.

(** The program goes on after a call with result [r]. *)
Definition call_returns (fr : iframe) (m : mc) (r : Z) (k : kstate) (x : ending) : Prop :=
  exists R, resumed fr (reg_of m ESP) R k x /\ R EAX = u32 r /\
    (forall q, q = ESI \/ q = EDI \/ q = EBP -> R q = reg_of m q) /\
    (keeps_arguments -> forall q, q = EBX \/ q = ECX \/ q = EDX -> R q = reg_of m q).

Lemma exec_jle n w l c m : exec functions (S n) w (jle l :: c) m =
  exec functions n w (if less_or_equal m then after_label l w else c) m.
Proof. done. Qed.
Lemma exec_jg n w l c m : exec functions (S n) w (jg l :: c) m =
  exec functions n w (if less_or_equal m then c else after_label l w) m.
Proof. done. Qed.
Lemma exec_table n w r c m : exec functions (S n) w (call_table r :: c) m =
  match mjoin (sys_call_table !! Z.to_nat (reg_of m r)) with
  | Some f => do_call functions f m (exec functions n w c)
  | None => Strays StrayCall (kern m)
  end.
Proof. done. Qed.
Lemma exec_jmp n w l c m : exec functions (S n) w (jmp l :: c) m = exec functions n w (after_label l w) m.
Proof. done. Qed.

(** ** The blocks of [execute] and [halt] *)

Lemma holds_orl w r n sp R l e k m : r <> ESP -> holds n sp R l e k m ->
  exists e', holds n sp (upd_reg r (Z.lor (R r) w) R) l e' k (step (orl w r) m).
Proof. intros Hr Hm. cbn [step]. rewrite (h_regs _ _ _ _ _ _ _ Hm r Hr). by eapply holds_zso, holds_reg. Qed.
Lemma holds_movr q r n sp R l e k m : q <> ESP -> r <> ESP -> holds n sp R l e k m ->
  holds n sp (upd_reg r (R q) R) l e k (step (movl (Reg q) r) m).
Proof. intros Hq Hr Hm. rewrite <- (h_regs _ _ _ _ _ _ _ Hm q Hq). by apply holds_reg. Qed.

Lemma to_user eip usp fl n sp R l e k m : Z.testbit fl 9 = true ->
  holds n sp R (eip :: 0x23 :: fl :: usp :: 0x2B :: l) e k m ->
  exists m', do_iret m = Resume eip 0x23 (Some 0x2B) m' /\ reg_of m' ESP = usp /\ kern m' = set_if true k.
Proof.
  intros Hfl Hm. unfold do_iret. assert (kern m = k) as Ek by apply Hm.
  rewrite (holds_word _ _ _ _ _ _ _ 0 _ Hm eq_refl), (holds_word _ _ _ _ _ _ _ 1 _ Hm eq_refl),
    (holds_word _ _ _ _ _ _ _ 2 _ Hm eq_refl), (holds_word _ _ _ _ _ _ _ 3 _ Hm eq_refl),
    (holds_word _ _ _ _ _ _ _ 4 _ Hm eq_refl) by done.
  change (Z.land 0x23 3 =? 0) with false. eexists. split; [done|]. split; [done|].
  change (set_if (Z.testbit fl 9) (kern m) = set_if true k). by rewrite Hfl, Ek.
Qed.

(** The end of [execute]: user mode at the entry point, with interrupts on. *)
Lemma execute_linkage_runs entry n sp R l e k m : entry <> EAX -> entry <> ESP -> holds (8 + n) sp R l e k m ->
  exists m', run_code functions (execute_linkage entry) m = Resume (R entry) 0x23 (Some 0x2B) m' /\
    reg_of m' ESP = 0x083FFFFC /\ kern m' = set_if true k.
Proof.
  intros He1 He2 Hm. unfold run_code, execute_linkage. cbn [length plus] in *. rewrite !exec_plain by done.
  apply (holds_pushi 0x2B), (holds_pushi 0x083FFFFC), holds_pushfl in Hm.
  apply (holds_popl EAX) in Hm; [|done]. apply (holds_orl 0x200 EAX) in Hm as (e1 & Hm); [|done].
  apply (holds_pushr EAX) in Hm; [|done]. apply (holds_pushi 0x23) in Hm.
  apply (holds_movr entry EAX) in Hm; [|done..]. apply (holds_pushr EAX) in Hm; [|done]. apply holds_sti in Hm.
  apply to_user in Hm as (m' & E & Es & Ek).
  - exists m'. split; [|by split]. assert (forall R', upd_reg EAX (R' entry) R' EAX = R' entry) as Eu by done.
    rewrite Eu in E. rewrite <- E || (destruct entry; done).
  - unfold upd_reg. cbn [reg_eqb]. by rewrite Z.lor_spec, orb_true_r.
Qed.

(** The two routines of interrupt.S that are not used any more. *)
Lemma run_user_program_runs n sp R back eip usp l e k m : if_flag (cpu k) = true -> holds (8 + n) sp R (back :: eip :: usp :: l) e k m ->
  exists m', run_code functions run_user_program m = Resume eip 0x23 (Some 0x2B) m' /\ reg_of m' ESP = usp /\ kern m' = k.
Proof.
  intros Hif Hm. unfold run_code, run_user_program. cbn [length plus] in *. rewrite !exec_plain by done.
  assert (value (Mem 4 ESP) m = eip) as E1 by (exact (holds_word _ _ _ _ _ _ _ 1 eip Hm eq_refl ltac:(done))).
  apply (holds_movl (Mem 4 ESP) EAX) in Hm; [|done].
  assert (value (Mem 8 ESP) (step (movl (Mem 4 ESP) EAX) m) = usp) as E2
    by (exact (holds_word _ _ _ _ _ _ _ 2 usp Hm eq_refl ltac:(done))).
  apply (holds_movl (Mem 8 ESP) EBX) in Hm; [|done]. rewrite E1, E2 in Hm.
  apply (holds_pushi 0x2B) in Hm. apply (holds_pushr EBX) in Hm; [|done]. apply holds_pushfl, (holds_pushi 0x23) in Hm.
  apply (holds_pushr EAX) in Hm; [|done]. apply to_user in Hm as (m' & E & Es & Ek).
  - exists m'. split; [exact E|]. split; [exact Es|]. rewrite Ek. destruct k as [? ? ? ? ? ? ? ? ? ? []]. cbn in Hif. by subst.
  - rewrite Hif, set_bits_testbit by lia. done.
Qed.

(** [leave; ret] with the frame pointer at [kbp]. *)
Lemma halt_linkage_runs r0 r2 kbp status ebp0 back n R l e k m :
  r0 <> EAX -> r0 <> ESP -> r2 <> ESP -> reg_of m r0 = kbp -> reg_of m r2 = status ->
  holds n kbp R (ebp0 :: back :: l) e k (set_reg ESP kbp m) ->
  exists m', run_code functions (halt_linkage r0 r2) m = Return back m' /\
    holds (2 + n) (kbp + 8) (upd_reg EBP ebp0 (upd_reg EAX status R)) l e k m'.
Proof.
  intros H0 H0' H2 E0 E2 Hm. unfold run_code, halt_linkage. cbn [length]. rewrite !exec_plain by done.
  set (m1 := step (movl (Reg r0) EBP) (step (movl (Reg r2) EAX) m)).
  assert (reg_of m1 EBP = kbp) as Eb by (rewrite <- E0; by destruct r0).
  assert (holds n kbp (upd_reg EBP kbp (upd_reg EAX status R)) (ebp0 :: back :: l) e k (set_reg ESP (reg_of m1 EBP) m1)) as Hm1.
  { rewrite Eb. destruct Hm as [K1 K2 K3 K4 K5 K6]. split; try done. intros q Hq. specialize (K2 q Hq). revert K2.
    unfold m1, upd_reg. rewrite <- E0, <- E2. destruct q, r0; done. }
  change (step leave m1) with (step (popl EBP) (set_reg ESP (reg_of m1 EBP) m1)).
  apply (holds_popl EBP) in Hm1; [|done]. cbn [exec].
  destruct (holds_pop _ _ _ _ _ _ _ _ Hm1) as [-> Hm2]. eexists. split; [reflexivity|].
  replace (kbp + 8) with (kbp + 4 + 4) by lia. eapply holds_ext; [|exact Hm2]. intros q Hq. by destruct q.
Qed.

(** A section between [cli_and_save] and [restore_flags] that keeps the variable
    runs with interrupts off, and the flags are as they were after it. *)
Lemma critical_section flags n sp R l e k m : flags <> ESP -> holds (S n) sp R l e k m ->
  let m1 := fold_left (fun m i => step i m) (cli_and_save flags) m in
  let saved := get_flags m in
  if_flag (cpu (kern m1)) = false /\ holds (S n) sp (upd_reg flags saved R) l e (cli k) m1 /\
  forall R' e' k' m2, R' flags = saved -> holds (S n) sp R' l e' k' m2 ->
    holds (S n) sp R' l saved (set_if (if_flag (cpu k)) k') (fold_left (fun m i => step i m) (restore_flags flags) m2).
Proof.
  intros Hf Hm m1 saved. assert (saved = set_bits e 9 1 (Z.b2z (if_flag (cpu k)))) as Es
    by (unfold saved, get_flags; by rewrite (h_flags _ _ _ _ _ _ _ Hm), (h_kern _ _ _ _ _ _ _ Hm)).
  split; [done|]. split.
  - apply holds_pushfl, (holds_popl flags), holds_cli in Hm; [|done]. rewrite Z.sub_add, <- Es in Hm. exact Hm.
  - intros R' e' k' m2 Er Hm2. apply (holds_pushr flags) in Hm2; [|done]. apply holds_popfl in Hm2.
    rewrite Z.sub_add, Er in Hm2. replace (if_flag (cpu k)) with (Z.testbit saved 9); [exact Hm2|].
    rewrite Es, set_bits_testbit by lia. by destruct (if_flag (cpu k)).
Qed.

Lemma return_from_user_program_runs n sp R a ret_val kbp ksp ebp0 back l e k m :
  holds n sp R (a :: ret_val :: kbp :: ksp :: l) e k m -> 0 <= kbp < 4294967288 ->
  word_at m kbp = ebp0 -> word_at m (kbp + 4) = back ->
  exists m', run_code functions return_from_user_program m = Return back m' /\
    reg_of m' EAX = ret_val /\ reg_of m' EBP = ebp0 /\ reg_of m' ESP = kbp + 8 /\ kern m' = k.
Proof.
  intros Hm Hk E0 E1. unfold run_code, return_from_user_program. cbn [length]. rewrite !exec_plain by done.
  apply (holds_popl EAX), (holds_popl EAX), (holds_popl EBP) in Hm; [|done..].
  set (m1 := step (popl EBP) _) in *. assert (word_at m1 = word_at m) as Ew by done. clearbody m1.
  pose proof (h_regs _ _ _ _ _ _ _ Hm EBP ltac:(done)) as Eb. change (upd_reg _ _ _ EBP) with kbp in Eb.
  pose proof (h_regs _ _ _ _ _ _ _ Hm EAX ltac:(done)) as Ea. change (upd_reg _ _ _ EAX) with ret_val in Ea.
  cbn [exec step]. change (reg_of (set_reg ESP _ _) EBP) with (reg_of m1 EBP). rewrite Eb.
  unfold stack_word, drop_words. cbn. rewrite Ew, !Z.add_0_r. replace (u32 kbp) with kbp by warith.
  replace (u32 (kbp + 4 * 1)) with (kbp + 4) by warith.
  replace (u32 (kbp + 4)) with (kbp + 4) by warith. rewrite E0, E1. eexists. split; [done|]. cbn.
  split; [done|]. split; [done|]. split; [warith|apply Hm].
Qed.
End routines.

Section syscall.
Context `{Platform} `{Cdecl}.

Lemma syscall_function n arg1 arg2 arg3 k : 1 <= n <= 8 -> exists f, sys_call_table !! Z.to_nat n = Some (Some f) /\
  1 <= arity f <= 3 /\ returns f = true /\
  forall arg, arg 0 = arg1 -> arg 1 = arg2 -> arg 2 = arg3 -> kernel_functions f arg k = sys_call n arg1 arg2 arg3 k.
Proof.
  intros Hn. assert (n = 1 \/ n = 2 \/ n = 3 \/ n = 4 \/ n = 5 \/ n = 6 \/ n = 7 \/ n = 8) as Hc by lia.
  destruct Hc as [-> | [-> | [-> | [-> | [-> | [-> | [-> | ->]]]]]]]; eexists; (split; [reflexivity|]);
    (split; [by vm_compute|]); (split; [done|]); by intros arg <- <- <-.
Qed.

(** From the error label on. *)
Lemma error_run n whole fr m m1 k e n0 : frame_ok fr -> holds n0 (reg_of m ESP - 28) (reg_of m) (saved_words fr m) e k m1 ->
  call_returns fr m (-1) k
    (exec kernel_functions (10 + n) whole (movl (Imm 0xFFFFFFFF) EAX :: label "syscall_return" :: restores) m1).
Proof.
  intros Hok Hm. cbn [plus]. rewrite !exec_plain by done. cbn [step value]. apply (holds_reg EAX 0xFFFFFFFF) in Hm; [|done].
  pose proof (restores_run kernel_functions n whole _ _ _ _ _ _ _ _ _ _ _ _ _ _ Hok Hm) as Hr. cbn [plus] in Hr.
  rewrite Z.sub_add in Hr. eexists. split; [exact Hr|]. split; [done|].
  split; [by intros q [-> | [-> | ->]]|by intros _ q [-> | [-> | ->]]].
Qed.

Lemma syscall_routine fr m : interrupted fr m -> frame_ok fr -> 0 <= reg_of m EAX < 4294967296 ->
  ends (Interrupts.handle_SIG_SYSCALL (reg_of m EAX) (reg_of m EBX) (reg_of m ECX) (reg_of m EDX) (kern m))
    (call_returns fr m) (run_code kernel_functions handle_SIG_SYSCALL m).
Proof.
  intros Hm Hok Ha. unfold run_code. set (w := handle_SIG_SYSCALL) at 2.
  assert (after_label "syscall_error" w = movl (Imm 0xFFFFFFFF) EAX :: label "syscall_return" :: restores) as Herr by done.
  assert (after_label "syscall_return" w = restores) as Hret by done. clearbody w.
  change (length handle_SIG_SYSCALL) with (7 + 17)%nat.
  change handle_SIG_SYSCALL with (saves ++ [cmpl 0 EAX; jle "syscall_error"; cmpl 10 EAX; jg "syscall_error"; call_table EAX;
    jmp "syscall_return"] ++ label "syscall_error" :: movl (Imm 0xFFFFFFFF) EAX :: label "syscall_return" :: restores).
  destruct (saves_run kernel_functions 17 w ([cmpl 0 EAX; jle "syscall_error"; cmpl 10 EAX; jg "syscall_error"; call_table EAX;
    jmp "syscall_return"] ++ label "syscall_error" :: movl (Imm 0xFFFFFFFF) EAX :: label "syscall_return" :: restores) fr m Hm)
    as (m1 & -> & Hm1). cbn [app]. unfold Interrupts.handle_SIG_SYSCALL.
  rewrite exec_plain, exec_jle by done. cbn [step]. rewrite compare_jumps by done.
  pose proof (h_regs _ _ _ _ _ _ _ Hm1 EAX ltac:(done)) as Ea. rewrite Ea.
  assert (forall n r, exists e', holds 25 (reg_of m ESP - 28) (reg_of m) (saved_words fr m) e' (kern m) (compare_flags n r m1)) as Hcmp
    by (intros; by eapply holds_zso).
  destruct (Z.leb_spec (s32 (reg_of m EAX)) 0).
  { rewrite Herr. destruct (Hcmp 0 EAX) as (e' & Hh). exact (error_run 5 w fr m _ _ _ _ Hok Hh). }
  rewrite exec_plain, exec_jg by done. cbn [step]. rewrite compare_jumps by done.
  change (reg_of (compare_flags 0 EAX m1) EAX) with (reg_of m1 EAX). rewrite Ea.
  assert (exists e', holds 25 (reg_of m ESP - 28) (reg_of m) (saved_words fr m) e' (kern m)
    (compare_flags 10 EAX (compare_flags 0 EAX m1))) as (e' & Hh).
  { destruct (Hcmp 0 EAX) as (e0 & Hh0). by eapply holds_zso. }
  set (m2 := compare_flags 10 EAX _) in *. clearbody m2.
  destruct (Z.leb_spec (s32 (reg_of m EAX)) 10); [test_false (10 <? s32 (reg_of m EAX))|test_true (10 <? s32 (reg_of m EAX))].
  2: { rewrite Herr. exact (error_run 3 w fr m _ _ _ _ Hok Hh). }
  assert (s32 (reg_of m EAX) = reg_of m EAX) as En by warith. rewrite En in *.
  rewrite exec_table, (h_regs _ _ _ _ _ _ _ Hh EAX) by done.
  destruct (Z.le_gt_cases (reg_of m EAX) 8).
  - destruct (syscall_function (reg_of m EAX) (reg_of m EBX) (reg_of m ECX) (reg_of m EDX) (kern m)) as (f & -> & Hf & Hr & Hcall); [lia|].
    cbn [mjoin]. rewrite <- (Hcall (stack_word m2)); [|by eapply (holds_word _ _ _ _ _ _ _ _ _ Hh)..].
    pose proof (call_saved kernel_functions f _ _ _ m2 (exec kernel_functions 12 w (jmp "syscall_return" :: label "syscall_error"
      :: movl (Imm 0xFFFFFFFF) EAX :: label "syscall_return" :: restores)) _ _ _ _ _ _ Hf Hh) as Hx.
    eapply ends_impl; [exact Hx|]. intros r k' (bx & cx & dx & Hk & Hh' & ->). rewrite exec_jmp, Hret.
    pose proof (restores_run kernel_functions 3 w _ _ _ _ _ _ _ _ _ _ _ _ _ _ Hok Hh') as Hres.
    rewrite Z.sub_add in Hres. eexists. split; [exact Hres|]. cbn. rewrite Hr. split; [done|].
    split; [by intros q [-> | [-> | ->]]|]. intros K. destruct (Hk K) as (-> & -> & ->). by intros q [-> | [-> | ->]].
  - assert (reg_of m EAX = 9 \/ reg_of m EAX = 10) as [-> | ->] by lia; (simpl; by rewrite (h_kern _ _ _ _ _ _ _ Hh)).
Qed.
End syscall.

(** ** Properties *)

Section properties.
Context `{Platform} `{Cdecl}.

(** C6: the system-call routine of interrupt.S implements the dispatch: with the
    number in eax and the arguments in ebx, ecx and edx, it runs what
    [handle_SIG_SYSCALL] of Interrupts.v does on the kernel's state, for every
    value of eax; when that returns, the program goes on after its [int 0x80]
    with the result in eax, its esi, edi, ebp, stack and flags, and with its
    ebx, ecx and edx if the function left the words of its arguments alone. *)
Theorem syscall_entry_refines fr m : interrupted fr m -> frame_ok fr -> 0 <= reg_of m EAX < 4294967296 ->
  ends (Interrupts.handle_SIG_SYSCALL (reg_of m EAX) (reg_of m EBX) (reg_of m ECX) (reg_of m EDX) (kern m))
    (fun r k x => exists R, resumed fr (reg_of m ESP) R k x /\ R EAX = u32 r /\
       (forall q, q = ESI \/ q = EDI \/ q = EBP -> R q = reg_of m q) /\
       (keeps_arguments -> forall q, q = EBX \/ q = ECX \/ q = EDX -> R q = reg_of m q))
    (run_code kernel_functions handle_SIG_SYSCALL m).
Proof. exact (syscall_routine fr m). Qed.

Lemma handler_ends {A} (h : M unit) k (P : kstate -> ending -> Prop) (a : A) x :
  ends ((h ;; ret a) (cli k)) (fun _ k' => P (sti k')) x -> ends ((modify cli ;; h ;; modify sti) k) (fun _ => P) x.
Proof. unfold bind, modify, ret. by destruct (h (cli k)). Qed.

(** C8: the routines of the three devices are what Interrupts.v says a delivered
    interrupt does, and the interrupted code does not notice: it goes on with
    all its registers, its stack and its flags, whatever the handler did. *)
Theorem device_entry_refines (i : irq) fr k m : interrupted fr m -> frame_ok fr ->
  Z.testbit (f_flags fr) 9 = true -> kern m = cli k ->
  ends (match i with IRQ_PIT => Interrupts.handle_SIG_PIT | IRQ_KBD => Interrupts.handle_SIG_KBD
                   | IRQ_RTC => Interrupts.handle_SIG_RTC end k)
    (fun _ => resumed fr (reg_of m ESP) (reg_of m))
    (run_code kernel_functions (stub (match i with IRQ_PIT => 32 | IRQ_KBD => 33 | IRQ_RTC => 40 end)) m).
Proof.
  intros Hm Hok Hif Hk. destruct i.
  - exact (handler_ends pit_handler k _ 0 _ (device_stub_runs kernel_functions C_pit_handler _ k fr m eq_refl (fun _ _ _ => eq_refl) (or_intror eq_refl) Hm Hok Hif Hk)).
  - exact (handler_ends keyboard_handler k _ 0 _ (device_stub_runs kernel_functions C_keyboard_handler _ k fr m eq_refl (fun _ _ _ => eq_refl) (or_intror eq_refl) Hm Hok Hif Hk)).
  - exact (handler_ends (modify rtc_handler) k _ 0 _ (device_stub_runs kernel_functions C_rtc_handler _ k fr m eq_refl (fun _ _ _ => eq_refl) (or_introl eq_refl) Hm Hok Hif Hk)).
Qed.

Lemma reads_first_kernel : reads_first kernel_functions.
Proof. intros a a' k E. simpl. by rewrite E. Qed.

(** The vectors whose routine is not that of an exception. *)
Definition device_vectors : list Z := [32; 33; 40; 128].
Lemma stub_exception v : 0 <= v < 256 -> existsb (Z.eqb v) device_vectors = false ->
  let w := if existsb (Z.eqb v) intr_vectors then v else SIG_IDK in
  exists pre post, (pre = [pushal] \/ pre = [pushal; pushfl] \/ pre = [pushfl; pushal]) /\
    stub w = pre ++ pushl (Imm w) :: call_ C_handle_exception :: addl 4 ESP :: post.
Proof.
  intros Hv Hd. cbv zeta. destruct (existsb (Z.eqb v) intr_vectors) eqn:E; [|exists [pushfl; pushal]; eexists; split; [tauto|reflexivity]].
  apply existsb_exists in E as (w & Hin & Ew). apply Z.eqb_eq in Ew. subst w. revert Hd. apply list_elem_of_In in Hin. clear Hv. revert v Hin.
  assert (Forall (fun v => existsb (Z.eqb v) device_vectors = false -> exists pre post,
    (pre = [pushal] \/ pre = [pushal; pushfl] \/ pre = [pushfl; pushal]) /\
    stub v = pre ++ pushl (Imm v) :: call_ C_handle_exception :: addl 4 ESP :: post) intr_vectors) as Hall; [unfold intr_vectors|by rewrite Forall_forall in Hall].
  repeat (constructor; [intros Hd; first
    [by vm_compute in Hd
    |exists [pushal]; eexists; split; [tauto|reflexivity]
    |exists [pushal; pushfl]; eexists; split; [tauto|reflexivity]]|]). constructor.
Qed.

(** C28: from the vector to the message: for every vector that is not a device's or
    the system call's, the gate [init_idt] sets leads to a routine that never
    comes back: the message of the vector is shown and the kernel spins. The
    vectors the kernel does not know all show that of 255. *)
Theorem exception_entry v k0 m : 0 <= v < 256 -> existsb (Z.eqb v) device_vectors = false ->
  128 <= reg_of m ESP < 4294967296 -> video_ident (mmu (kern m)) -> cursor_ok (kern m) ->
  0 <= cr2 (mmu (kern m)) < 4294967296 ->
  let w := if existsb (Z.eqb v) intr_vectors then v else SIG_IDK in
  is_gate (idt_at (init_idt k0) v) (isr_addr w) KERNEL_PL (negb (existsb (Z.eqb v) intr_vectors)) /\
  exists k', run_code kernel_functions (stub w) m = Spins k' /\
    shows (exception_text w (cr2 (mmu (kern m)))) (kern m) k'.
Proof.
  intros Hv Hd Hs Hvi Hc Hcr w. split.
  - pose proof (init_idt_is k0 v Hv) as Hg. cbv zeta in Hg. unfold w.
    destruct (Z.eqb_spec v SIG_SYSCALL) as [->|]; [done|]. by destruct (existsb _ intr_vectors).
  - destruct (stub_exception v Hv Hd) as (pre & post & Hpre & E). fold w in E. rewrite E. clear E.
    assert (holds 32 (reg_of m ESP) (reg_of m) [] (eflags m) (kern m) m) as Hm by (split; try done; simpl; lia).
    pose proof (exception_call kernel_functions pre w post [] m Hpre reads_first_kernel Hm) as Hx.
    destruct (handle_exception_shows w (kern m) Hvi Hc) as (k' & E & Hsh);
      [unfold w, SIG_IDK; by case_match; lia|done|]. exists k'. split; [|done].
    simpl in Hx. unfold bind in Hx. by rewrite E in Hx.
Qed.

(** The rest of [handle_SIG_SYSCALL] after its call. *)
Definition after_the_call : list instr := drop 12 handle_SIG_SYSCALL.

(** C7: how [halt] comes back to the program that called [execute]: when the jump
    of [halt], [LeaveRet frame eax], is taken, with the frame of the parent's
    [execute] on the parent's kernel stack, the return address is that of the
    call in the system-call routine, and from there the parent goes on after its
    [int 0x80] with the status in eax, and with its other registers, its stack
    and its flags as the routine saved them when the call was made. *)
Theorem halt_resumes_caller r0 r2 kbp status ebp0 back bx cx dx si di bp fl fr n R e k m :
  r0 <> EAX -> r0 <> ESP -> r2 <> ESP -> reg_of m r0 = kbp -> reg_of m r2 = status -> frame_ok fr ->
  holds n kbp R ([ebp0; back; bx; cx; dx; si; di; bp; fl] ++ frame_words fr) e k (set_reg ESP kbp m) ->
  exists m1, run_code kernel_functions (halt_linkage r0 r2) m = Return back m1 /\
    exists R', resumed fr (kbp + 36) R' k (exec kernel_functions 12 handle_SIG_SYSCALL after_the_call m1) /\
      R' EAX = status /\ R' EBX = bx /\ R' ECX = cx /\ R' EDX = dx /\ R' ESI = si /\ R' EDI = di /\ R' EBP = bp.
Proof.
  intros H1 H2 H3 H4 H5 Hok Hm.
  destruct (halt_linkage_runs kernel_functions r0 r2 kbp status _ _ _ _ _ _ _ _ H1 H2 H3 H4 H5 Hm) as (m1 & E & Hm1).
  exists m1. split; [exact E|].
  change after_the_call with (jmp "syscall_return" :: drop 13 handle_SIG_SYSCALL). rewrite exec_jmp.
  change (after_label "syscall_return" handle_SIG_SYSCALL) with restores.
  pose proof (restores_run kernel_functions 3 handle_SIG_SYSCALL _ _ _ _ _ _ _ _ _ _ _ _ _ _ Hok Hm1) as Hres.
  replace (kbp + 8 + 28) with (kbp + 36) in Hres by lia. eexists. split; [exact Hres|]. done.
Qed.
End properties.

(** ** Concrete runs *)

(** A stack with the words [l] from [sp] on. *)
Definition stack_of (sp : Z) (l : list Z) : Z -> Z := fun a => default 0 (l !! Z.to_nat ((a - sp) / 4)).
Lemma holds_stack_of n sp R l e k : R ESP = sp -> 4 * Z.of_nat n <= sp -> sp + 4 * Z.of_nat (length l) < 4294967296 ->
  holds n sp R l e k (Mc R e (stack_of sp l) k).
Proof.
  intros Hsp Hn Hl. split; try done. intros i v Hi. cbn. unfold stack_of.
  replace ((sp + 4 * Z.of_nat i - sp) / 4) with (Z.of_nat i) by (Z.div_mod_to_equations; lia). by rewrite Nat2Z.id, Hi.
Qed.

(** A compiler whose functions keep what they may. *)
Definition tidy : Cdecl := {| scratch := fun _ _ => 0; flags_left := eflags; used_words := word_at |}.

(** A program in user mode at 0x8048100, interrupts on, after [int 0x80] with
    [eax]. *)
Definition user_iframe : iframe := IFrame 0x8048100 0x23 0x202 (Some (0x83FFF00, 0x2B)).
Definition trapped (eax ebx : Z) (k : kstate) : mc :=
  Mc (fun r => match r with EAX => eax | EBX => ebx | ESP => 0x7FFFE8 | _ => 7 end) 2
    (stack_of 0x7FFFE8 (frame_words user_iframe)) k.
Lemma trapped_interrupted eax ebx k : interrupted user_iframe (trapped eax ebx k).
Proof. by apply holds_stack_of. Qed.
Lemma user_iframe_ok : frame_ok user_iframe.
Proof. by split. Qed.

(** [close] of a bad descriptor: -1 in eax, ebx as it was. *)
Lemma syscall_entry_refines_witness :
  exists m', @run_code tidy (@kernel_functions quiet_platform) handle_SIG_SYSCALL (trapped 6 9 zero_state) =
      Resume 0x8048100 0x23 (Some 0x2B) m' /\ reg_of m' EAX = 0xFFFFFFFF /\ reg_of m' EBX = 9 /\ reg_of m' ESP = 0x83FFF00.
Proof.
  pose proof (@syscall_entry_refines quiet_platform tidy user_iframe (trapped 6 9 zero_state)
    (trapped_interrupted 6 9 zero_state) user_iframe_ok ltac:(done)) as Hx.
  assert (@Interrupts.handle_SIG_SYSCALL quiet_platform 6 9 7 7 zero_state = Ret (-1) zero_state) as E by (by vm_compute).
  change (reg_of (trapped 6 9 zero_state)) with (fun r => match r with EAX => 6 | EBX => 9 | ESP => 0x7FFFE8 | _ => 7 end) in Hx.
  cbv beta iota in Hx. change (kern (trapped 6 9 zero_state)) with zero_state in Hx. rewrite E in Hx.
  destruct Hx as (R & (m' & Ex & Es & Er & _) & Ea & _ & Hk). exists m'. split; [exact Ex|]. clear Ex E.
  split; [exact (eq_trans (Er EAX ltac:(discriminate)) Ea)|]. split; [|exact Es].
  exact (eq_trans (Er EBX ltac:(discriminate)) (Hk (fun _ _ _ => eq_refl) EBX (or_introl eq_refl))).
Defined.

(** The clock ticks while the kernel waits, at level 0. *)
Definition kernel_iframe : iframe := IFrame 0x401000 0x10 0x202 None.
Definition ticking : mc :=
  Mc (fun r => match r with ESP => 0x7FFE00 | EAX => 5 | _ => 7 end) 2 (stack_of 0x7FFE00 (frame_words kernel_iframe)) (cli zero_state).
Lemma device_entry_refines_witness :
  exists m', @run_code tidy (@kernel_functions quiet_platform) (stub 40) ticking = Resume 0x401000 0x10 None m' /\
    reg_of m' EAX = 5 /\ interrupt_rtc (State.rtc (kern m')) = 1.
Proof.
  pose proof (@device_entry_refines quiet_platform tidy IRQ_RTC kernel_iframe zero_state ticking
    ltac:(by apply holds_stack_of) ltac:(by split) eq_refl eq_refl) as Hx.
  change (@Interrupts.handle_SIG_RTC quiet_platform zero_state) with
    (Ret tt (sti (@rtc_handler quiet_platform (cli zero_state)))) in Hx.
  destruct Hx as (m' & Ex & Es & Er & _ & Ek). exists m'. split; [exact Ex|]. rewrite Ek. split; [exact (Er EAX ltac:(discriminate))|].
  by vm_compute.
Defined.

(** A page fault, and a vector the kernel does not know. *)
Lemma exception_entry_witness :
  (exists k', @run_code tidy (@kernel_functions quiet_platform) handle_SIG_PF (trapped 0 0 zero_state) = Spins k') /\
  (exists k', @run_code tidy (@kernel_functions quiet_platform) handle_SIG_IDK (trapped 0 0 zero_state) = Spins k').
Proof.
  split.
  - destruct (@exception_entry quiet_platform tidy 14 zero_state (trapped 0 0 zero_state)) as (_ & k' & E & _);
      [done|done|done|by apply @video_ident_unpaged|done|done|]. exists k'. exact E.
  - destruct (@exception_entry quiet_platform tidy 20 zero_state (trapped 0 0 zero_state)) as (_ & k' & E & _);
      [done|done|done|by apply @video_ident_unpaged|done|done|]. exists k'. exact E.
Defined.

(** The child ends with status 3; the frame of the shell's [execute] is at
    0x7FFF80. *)
Definition halting : mc :=
  Mc (fun r => match r with ESP => 0x7FDE00 | EBX => 0x7FFF80 | ECX => 3 | _ => 7 end) 2
    (stack_of 0x7FFF80 ([0x7FFFF0; 0x400123; 0x8048500; 11; 12; 13; 14; 15; 2] ++ frame_words user_iframe)) zero_state.
Lemma halt_resumes_caller_witness :
  exists m1 m', @run_code tidy (@kernel_functions quiet_platform) (halt_linkage EBX ECX) halting = Return 0x400123 m1 /\
    @exec tidy (@kernel_functions quiet_platform) 12 handle_SIG_SYSCALL after_the_call m1 = Resume 0x8048100 0x23 (Some 0x2B) m' /\
    reg_of m' EAX = 3 /\ reg_of m' EBP = 15.
Proof.
  destruct (@halt_resumes_caller quiet_platform tidy EBX ECX 0x7FFF80 3 0x7FFFF0 0x400123 0x8048500 11 12 13 14 15 2
    user_iframe 32 (upd_reg ESP 0x7FFF80 (reg_of halting)) 2 zero_state halting) as (m1 & E1 & R & (m' & Ex & _ & Er & _) & Hr);
    [done|done|done|done|done|apply user_iframe_ok|by apply holds_stack_of|].
  exists m1, m'. split; [exact E1|]. split; [exact Ex|]. rewrite !Er by done. split; [apply Hr|apply Hr].
Defined.
