(* ===== verification/Boot.v ===== *)
(** Boot: [start] (boot.S) and [entry] (kernel.c), with the segment descriptors
    and the task state segment of x86_desc.h and the structures of multiboot.h.

    The locals the code leaves uninitialised are arguments: the bootblock
    pointer, set only when a module is present, and the bits of the two segment
    descriptors before their fields are assigned. *)

From Stdlib Require Import String.
From S2P Require Import Prelude Bytes CString CMem State Console Printf Pic Rtc Filesys Paging Idt Keyboard Descriptors Process Halt Terminals Sched Interrupts.
#[local] Open Scope Z_scope.
#[local] Open Scope kernel_scope.

Definition MULTIBOOT_BOOTLOADER_MAGIC := 0x2BADB002.
Definition KERNEL_TSS := 0x0030.
Definition KERNEL_LDT := 0x0038.
Definition TSS_SIZE := 104.
(** x86_desc.S *)
Definition tss_size := 104 - 1.
Definition ldt_size := 4 * 8 - 1.

(** ** Structures: the names of the fields and their widths in bits *)

Definition layout : Type := list (string * Z).
Fixpoint offset_of (s : layout) (f : string) : Z :=
  match s with [] => 0 | (g, n) :: s => if String.eqb g f then 0 else n + offset_of s f end.
Definition size_of (s : layout) : Z := fold_right (fun '(_, n) m => n + m) 0 s.

Definition elf_section_header_table_t : layout :=
  [("num", 32); ("size", 32); ("addr", 32); ("shndx", 32)]%string.
Definition multiboot_info_t : layout :=
  [("flags", 32); ("mem_lower", 32); ("mem_upper", 32); ("boot_device", 32); ("cmdline", 32);
   ("mods_count", 32); ("mods_addr", 32); ("elf_sec", size_of elf_section_header_table_t);
   ("mmap_length", 32); ("mmap_addr", 32)]%string.
Definition module_t : layout := [("mod_start", 32); ("mod_end", 32); ("string", 32); ("reserved", 32)]%string.
Definition memory_map_t : layout :=
  [("size", 32); ("base_addr_low", 32); ("base_addr_high", 32); ("length_low", 32); ("length_high", 32);
   ("type", 32)]%string.

(** x86_desc.h [tss_t]. *)
Definition tss_t : layout :=
  [("prev_task_link", 16); ("prev_task_link_pad", 16); ("esp0", 32); ("ss0", 16); ("ss0_pad", 16);
   ("esp1", 32); ("ss1", 16); ("ss1_pad", 16); ("esp2", 32); ("ss2", 16); ("ss2_pad", 16); ("cr3", 32);
   ("eip", 32); ("eflags", 32); ("eax", 32); ("ecx", 32); ("edx", 32); ("ebx", 32); ("esp", 32); ("ebp", 32);
   ("esi", 32); ("edi", 32); ("es", 16); ("es_pad", 16); ("cs", 16); ("cs_pad", 16); ("ss", 16); ("ss_pad", 16);
   ("ds", 16); ("ds_pad", 16); ("fs", 16); ("fs_pad", 16); ("gs", 16); ("gs_pad", 16);
   ("ldt_segment_selector", 16); ("ldt_pad", 16); ("debug_trap", 1); ("io_pad", 15); ("io_base_addr", 16)]%string.

(** ** Segment descriptors: 64 bits *)

Module Seg.
Definition seg_lim_15_00 : field := (0, 16).
Definition base_15_00 : field := (16, 16).
Definition base_23_16 : field := (32, 8).
Definition type : field := (40, 4).
Definition sys : field := (44, 1).
Definition dpl : field := (45, 2).
Definition present : field := (47, 1).
Definition seg_lim_19_16 : field := (48, 4).
Definition avail : field := (52, 1).
Definition reserved : field := (53, 1).
Definition opsize : field := (54, 1).
Definition granularity : field := (55, 1).
Definition base_31_24 : field := (56, 8).

(** x86_desc.h [seg_desc_t]. *)
Definition seg_desc_t : list field :=
  [seg_lim_15_00; base_15_00; base_23_16; type; sys; dpl; present; seg_lim_19_16; avail; reserved; opsize;
   granularity; base_31_24].

(** x86_desc.h [SET_LDT_PARAMS] and [SET_TSS_PARAMS], which are the same. *)
Definition SET_LDT_PARAMS (addr lim : Z) : list (field * Z) :=
  [(base_31_24, Z.shiftr (Z.land (u32 addr) 0xFF000000) 24);
   (base_23_16, Z.shiftr (Z.land (u32 addr) 0x00FF0000) 16);
   (base_15_00, Z.land (u32 addr) 0x0000FFFF);
   (seg_lim_19_16, Z.shiftr (Z.land lim 0x000F0000) 16);
   (seg_lim_15_00, Z.land lim 0x0000FFFF)].
Definition SET_TSS_PARAMS (addr lim : Z) : list (field * Z) :=
  [(base_31_24, Z.shiftr (Z.land (u32 addr) 0xFF000000) 24);
   (base_23_16, Z.shiftr (Z.land (u32 addr) 0x00FF0000) 16);
   (base_15_00, Z.land (u32 addr) 0x0000FFFF);
   (seg_lim_19_16, Z.shiftr (Z.land lim 0x000F0000) 16);
   (seg_lim_15_00, Z.land lim 0x0000FFFF)].

(** What a descriptor denotes: base, limit, and the other fields. *)
Definition base (d : Z) : Z := bits d 16 16 + 65536 * bits d 32 8 + 16777216 * bits d 56 8.
Definition limit (d : Z) : Z := bits d 0 16 + 65536 * bits d 48 4.
End Seg.

Section boot.
Context `{Platform}.

(** ** What the boot loader left (kernel.c lines 44-105) *)

Definition member (s : layout) (f : string) (p : Z) (k : kstate) : Z := ld32 k (p + offset_of s f / 8).
Definition CHECK_FLAG (flags bit : Z) : bool := negb (Z.land flags (Z.shiftl 1 bit) =? 0).

Fixpoint for_M (n : nat) (i : Z) (f : Z -> M unit) : M unit :=
  match n with O => ret tt | S m => f i ;; for_M m (i + 1) f end.
(** A [while] whose body is a command; more than [2 ^ 32] rounds are a [Hang]. *)
Definition while_M {S} (cond : S -> kstate -> bool) (body : S -> M S) (s : S) : M unit := fun k =>
  match loop 4294967296
          (fun '(s, k) => if cond s k then match body s k with
                                           | Ret s k => inl (s, k)
                                           | Jmp j k => inr (Jmp j k)
                                           | Hang k => inr (Hang k)
                                           | Undef u k => inr (Undef u k)
                                           end
                          else inr (Ret tt k)) (s, k) with
  | inr o => o
  | inl (_, k) => Hang k
  end.

Definition print_module (mod_count mod_ : Z) : M unit :=
  k <- get ;
  print (line "Module %d loaded at address: 0x%#x") [mod_count; member module_t "mod_start" mod_ k] ;;
  k <- get ;
  print (line "Module %d ends at address: 0x%#x") [mod_count; member module_t "mod_end" mod_ k] ;;
  print (line "First few bytes of module:") [] ;;
  for_M 16 0 (fun i => k <- get ;
                       print (chars "0x%x ") [u32 (s8 (ld8 k (member module_t "mod_start" mod_ k + i)))]) ;;
  print [10] [].
Definition print_modules (mbi : Z) : M unit :=
  k <- get ;
  while_M (fun '(mod_count, mod_) k => mod_count <? member multiboot_info_t "mods_count" mbi k)
    (fun '(mod_count, mod_) => print_module mod_count mod_ ;; ret (mod_count + 1, mod_ + size_of module_t / 8))
    (0, member multiboot_info_t "mods_addr" mbi k).

Definition print_region (mmap : Z) : M unit :=
  k <- get ;
  print (line "    size = 0x%x, base_addr = 0x%#x%#x" ++ line "    type = 0x%x,  length    = 0x%#x%#x")
    [member memory_map_t "size" mmap k; member memory_map_t "base_addr_high" mmap k;
     member memory_map_t "base_addr_low" mmap k; member memory_map_t "type" mmap k;
     member memory_map_t "length_high" mmap k; member memory_map_t "length_low" mmap k].
Definition print_memory_map (mbi : Z) : M unit :=
  k <- get ;
  print (line "mmap_addr = 0x%#x, mmap_length = 0x%x")
    [member multiboot_info_t "mmap_addr" mbi k; member multiboot_info_t "mmap_length" mbi k] ;;
  k <- get ;
  while_M (fun mmap k => mmap <? u32 (member multiboot_info_t "mmap_addr" mbi k + member multiboot_info_t "mmap_length" mbi k))
    (fun mmap => print_region mmap ;; k <- get ; ret (u32 (mmap + member memory_map_t "size" mmap k + 4)))
    (member multiboot_info_t "mmap_addr" mbi k).

Definition when (b : bool) (m : M unit) : M unit := if b then m else ret tt.

(** Lines 44-105; [None] is the [return] of line 79. The result is the value of
    [bootblock]. *)
Definition report (bootblock mbi : Z) : M (option Z) :=
  let flags k := member multiboot_info_t "flags" mbi k in
  k <- get ;
  print (line "flags = 0x%#x") [flags k] ;;
  k <- get ;
  when (CHECK_FLAG (flags k) 0)
    (print (line "mem_lower = %uKB, mem_upper = %uKB")
       [member multiboot_info_t "mem_lower" mbi k; member multiboot_info_t "mem_upper" mbi k]) ;;
  k <- get ;
  when (CHECK_FLAG (flags k) 1)
    (print (line "boot_device = 0x%#x") [member multiboot_info_t "boot_device" mbi k]) ;;
  k <- get ;
  when (CHECK_FLAG (flags k) 2) (print (line "cmdline = %s") [member multiboot_info_t "cmdline" mbi k]) ;;
  k <- get ;
  let bootblock := if CHECK_FLAG (flags k) 3
                   then member module_t "mod_start" (member multiboot_info_t "mods_addr" mbi k) k else bootblock in
  when (CHECK_FLAG (flags k) 3) (print_modules mbi) ;;
  k <- get ;
  if CHECK_FLAG (flags k) 4 && CHECK_FLAG (flags k) 5
  then print (line "Both bits 4 and 5 are set.") [] ;; ret None
  else
    let elf f := ld32 k (mbi + (offset_of multiboot_info_t "elf_sec" + offset_of elf_section_header_table_t f) / 8) in
    when (CHECK_FLAG (flags k) 5)
      (print (line "elf_sec: num = %u, size = 0x%#x, addr = 0x%#x, shndx = 0x%#x")
         [elf "num"; elf "size"; elf "addr"; elf "shndx"]%string) ;;
    k <- get ;
    when (CHECK_FLAG (flags k) 6) (print_memory_map mbi) ;;
    ret (Some bootblock).

(** ** The kernel's own structures (lines 107-162) *)

Definition the_ldt_desc (d : Z) : Z :=
  assign ([(Seg.granularity, 0); (Seg.opsize, 1); (Seg.reserved, 0); (Seg.avail, 0); (Seg.present, 1); (Seg.dpl, 0);
           (Seg.sys, 0); (Seg.type, 2)] ++ Seg.SET_LDT_PARAMS addr_ldt ldt_size) d.
Definition the_tss_desc (d : Z) : Z :=
  assign ([(Seg.granularity, 0); (Seg.opsize, 0); (Seg.reserved, 0); (Seg.avail, 0);
           (Seg.seg_lim_19_16, Z.land TSS_SIZE 0x000F0000); (Seg.present, 1); (Seg.dpl, 0); (Seg.sys, 0); (Seg.type, 9);
           (Seg.seg_lim_15_00, Z.land TSS_SIZE 0x0000FFFF)] ++ Seg.SET_TSS_PARAMS addr_tss tss_size) d.

Definition load_descriptors (ldt0 tss0 : Z) (k : kstate) : kstate :=
  let k := k <| cpu; ldt_desc_ptr := the_ldt_desc ldt0 |> in
  let k := k <| cpu; ldtr := KERNEL_LDT |> in
  let k := k <| cpu; tss_desc_ptr := the_tss_desc tss0 |> in
  let k := k <| cpu; tss_ldt := KERNEL_LDT |> in
  let k := k <| cpu; tss_ss0 := KERNEL_DS_ |> in
  let k := k <| cpu; tss_esp0 := 0x800000 |> in
  k <| cpu; tr := KERNEL_TSS |>.

Definition init_devices (bootblock : Z) (k : kstate) : kstate :=
  let k := i8259_init k in
  let k := init_idt k in
  let k := init_keyboard k in
  let k := init_rtc k in
  let k := init_paging k in
  let k := process_init k in
  init_filesys bootblock k.

(** Lines 107-169. *)
Definition prepare_kernel (ldt0 tss0 bootblock : Z) : M unit :=
  modify (load_descriptors ldt0 tss0) ;;
  modify (init_devices bootblock) ;;
  print (line "Enabling Interrupts") [] ;;
  modify clear ;;
  modify sti.

(** kernel.c [entry]; the loop at its end takes every interrupt. *)
Definition idle : M unit := spin (fun _ => false).
Definition entry (bootblock ldt0 tss0 magic addr : Z) : M unit :=
  modify clear ;;
  if negb (u32 magic =? MULTIBOOT_BOOTLOADER_MAGIC)
  then print (line "Invalid magic number: 0x%#x") [u32 magic]
  else
    r <- report bootblock (u32 addr) ;
    match r with
    | None => ret tt
    | Some bootblock =>
        prepare_kernel ldt0 tss0 bootblock ;;
        execute (Some (literal "shell")) ;;
        idle
    end.

(** boot.S [start]: interrupts off, the stack at the top of the kernel's page,
    and the two parameters and the return address on it. *)
Definition start (bootblock ldt0 tss0 eax ebx : Z) : M unit :=
  modify cli ;;
  modify (fun k => k <| cpu; esp := 0x800000 - 12 |>) ;;
  entry bootblock ldt0 tss0 eax ebx ;;
  hang.
End boot.

(** ** Layouts and descriptors *)

(** The structures match the hardware and the boot loader: the task state
    segment is 104 bytes with the ring-0 stack at bytes 4 and 8 and the LDT
    selector at byte 96; the fields of a segment descriptor fill 64 bits; the
    members of the Multiboot structures are where the specification puts them. *)
Lemma boot_layouts :
  size_of tss_t = 8 * TSS_SIZE /\ offset_of tss_t "esp0" = 8 * 4 /\ offset_of tss_t "ss0" = 8 * 8 /\
  offset_of tss_t "ldt_segment_selector" = 8 * 96 /\ packed 0 Seg.seg_desc_t = Some 64 /\
  offset_of multiboot_info_t "mods_count" = 8 * 20 /\ offset_of multiboot_info_t "mods_addr" = 8 * 24 /\
  offset_of multiboot_info_t "elf_sec" = 8 * 28 /\ offset_of multiboot_info_t "mmap_length" = 8 * 44 /\
  offset_of multiboot_info_t "mmap_addr" = 8 * 48 /\ size_of module_t = 8 * 16.
Proof. by split_and!. Qed.

Ltac seg_field :=
  cbv beta iota zeta delta [assign fold_left app Seg.seg_lim_15_00 Seg.base_15_00 Seg.base_23_16 Seg.type Seg.sys
    Seg.dpl Seg.present Seg.seg_lim_19_16 Seg.avail Seg.reserved Seg.opsize Seg.granularity Seg.base_31_24
    Seg.SET_LDT_PARAMS Seg.SET_TSS_PARAMS];
  repeat first [rewrite bits_set_low by lia | rewrite bits_set_other by lia].

Lemma seg_base_split a : 0 <= a < 4294967296 ->
  bits (Z.land a 0x0000FFFF) 0 16 + 65536 * bits (Z.shiftr (Z.land a 0x00FF0000) 16) 0 8 +
    16777216 * bits (Z.shiftr (Z.land a 0xFF000000) 24) 0 8 = a.
Proof.
  intros Ha.
  assert (forall o n, 0 <= o -> 0 <= n -> bits (Z.shiftr (Z.land a (Z.shiftl (Z.ones n) o)) o) 0 n = bits a o n) as Hb.
  { intros o n Ho Hn. apply Z.bits_inj'. intros i Hi. rewrite !bits_testbit, Z.shiftr_spec, Z.land_spec, Z.shiftl_spec by lia.
    rewrite Z.add_0_r. destruct (Z.ltb_spec i n); [|by rewrite !andb_false_r].
    replace (i + o - o) with i by lia. rewrite Z.ones_spec_low by lia. by rewrite !andb_true_r. }
  pose proof (Hb 0 16 ltac:(lia) ltac:(lia)) as B0. pose proof (Hb 16 8 ltac:(lia) ltac:(lia)) as B1.
  pose proof (Hb 24 8 ltac:(lia) ltac:(lia)) as B2.
  change (Z.shiftl (Z.ones 16) 0) with 0x0000FFFF in B0. change (Z.shiftl (Z.ones 8) 16) with 0x00FF0000 in B1.
  change (Z.shiftl (Z.ones 8) 24) with 0xFF000000 in B2. rewrite Z.shiftr_0_r in B0. rewrite B0, B1, B2.
  bits_arith.
Qed.

Section descriptors.
Context `{Platform}.

(** The two descriptors [entry] puts in the GDT, whatever was in the
    uninitialised locals they are built in: an LDT at [ldt] of 32 bytes, and
    an available 32-bit task state segment at [tss] of 104 bytes, both present
    and for ring 0; the TSS has the kernel's data segment and the top of its
    page as ring-0 stack. *)
Theorem boot_descriptors ldt0 tss0 k :
  let c := cpu (load_descriptors ldt0 tss0 k) in
  let l := ldt_desc_ptr c in let t := tss_desc_ptr c in
  Seg.base l = u32 addr_ldt /\ Seg.limit l + 1 = 32 /\ bits l 40 4 = 2 /\ bits l 44 1 = 0 /\ bits l 45 2 = 0 /\
  bits l 47 1 = 1 /\ bits l 55 1 = 0 /\
  Seg.base t = u32 addr_tss /\ Seg.limit t + 1 = TSS_SIZE /\ bits t 40 4 = 9 /\ bits t 44 1 = 0 /\ bits t 45 2 = 0 /\
  bits t 47 1 = 1 /\ bits t 55 1 = 0 /\
  ldtr c = KERNEL_LDT /\ tr c = KERNEL_TSS /\ tss_ss0 c = KERNEL_DS_ /\ tss_esp0 c = SIZE_8MB.
Proof.
  cbv zeta. change (ldt_desc_ptr _) with (the_ldt_desc ldt0). change (tss_desc_ptr _) with (the_tss_desc tss0).
  unfold Seg.base, Seg.limit, the_ldt_desc, the_tss_desc. split_and!; try done; seg_field; try done.
  - apply seg_base_split, u32_range.
  - apply seg_base_split, u32_range.
Qed.
End descriptors.

(** ** Printing changes the console only *)

Section printing.
Context `{Platform}.

(** The console is changed, and no port is read. *)
Definition screen_work (k k' : kstate) : Prop := con_only k k' /\ forall p, reads p (io k') = reads p (io k).
Lemma screen_work_refl k : screen_work k k.
Proof. split; [apply con_only_refl|done]. Qed.
Lemma screen_work_trans k1 k2 k3 : screen_work k1 k2 -> screen_work k2 k3 -> screen_work k1 k3.
Proof. intros [O1 R1] [O2 R2]. split; [by apply (con_only_trans _ k2)|]. intros p. by rewrite R2. Qed.
Lemma putc_screen_work c k : screen_work k (putc c k).
Proof. split; [apply putc_con_only|]. intros p. apply reads_putc. Qed.

Lemma puts_screen_work s k r k' : puts s k = Some (r, k') -> screen_work k k'.
Proof.
  unfold puts.
  pose proof (loop_inv (fun '(_, k') => screen_work k k') (fun r => screen_work k r.2) 2147483648
    (fun '(i, k) => if negb (s k i =? 0) then inl (i + 1, putc (s k i) k) else inr (i, k)) (0, k)) as Hl.
  cbv beta iota in Hl. revert Hl. destruct (loop _ _ _) as [?|[r1 k1]]; [by intros _ [=]|]. intros Hl [= <- <-].
  apply Hl; [|apply screen_work_refl]. intros [i k0] Hk. destruct (negb _); [|exact Hk].
  exact (screen_work_trans _ _ _ Hk (putc_screen_work _ _)).
Qed.

Lemma show_buf_screen_work b i k k' : show_buf b i k = Some k' -> screen_work k k'.
Proof. unfold show_buf. destruct (puts _ k) as [[r k1]|] eqn:E; [|done]. intros [= <-]. by eapply puts_screen_work. Qed.

Lemma printf_conv_screen_work c alt args k args' k' : printf_conv c alt args k = Some (args', k') -> screen_work k k'.
Proof.
  unfold printf_conv.
  assert (forall (o : option kstate), (forall k', o = Some k' -> screen_work k k') ->
    pair (tl args) <$> o = Some (args', k') -> screen_work k k') as Hm.
  { intros [k1|] Ho; [|done]. intros [= _ <-]. by apply Ho. }
  assert (forall (o : option mem) i, match o with Some b => show_buf b i k | None => None end = Some k' -> screen_work k k') as Hb.
  { intros [b|] i; [apply show_buf_screen_work|done]. }
  repeat case_match; try discriminate;
    try (intros [= _ <-]; first [apply screen_work_refl|apply putc_screen_work]).
  all: try (apply Hm; clear Hm; intros k1; unfold printf_x, printf_u, printf_d; repeat case_match; try discriminate;
    apply show_buf_screen_work).
  all: intros E; destruct (puts _ k) as [[r k1]|] eqn:Ep; [|done]; injection E as _ <-; by eapply puts_screen_work.
Qed.

Lemma print_screen_work fmt args k k' : print fmt args k = Ret tt k' -> screen_work k k'.
Proof.
  unfold print, printf.
  pose proof (loop_or_inv (fun '(_, _, k') => screen_work k k')
    (fun r => match r with Some (_, k') => screen_work k k' | None => True end) None 2147483648
    (printf_step (bytes_of fmt)) (0, args, k)) as Hl. cbv beta iota in Hl. revert Hl.
  destruct (loop_or _ _ _ _) as [[r k1]|]; [|by intros _ [=]]. intros Hl [= <-]. apply Hl; [|apply screen_work_refl|done].
  intros [[i l] k0] Hk. unfold printf_step. destruct (_ =? 0); [exact Hk|]. destruct (_ =? 37).
  - destruct (conv_spec _ i) as [[j alt]|]; [|done].
    destruct (printf_conv _ alt l k0) as [[l' k2]|] eqn:Ep; [|done].
    exact (screen_work_trans _ _ _ Hk (printf_conv_screen_work _ _ _ _ _ _ Ep)).
  - exact (screen_work_trans _ _ _ Hk (putc_screen_work _ _)).
Qed.
Lemma print_outcome fmt args k : (exists k', print fmt args k = Ret tt k' /\ screen_work k k') \/ exists k', print fmt args k = Hang k'.
Proof.
  destruct (print fmt args k) as [[] k'|j k'|k'|u k'] eqn:E.
  - left. exists k'. split; [done|]. by eapply print_screen_work.
  - unfold print in E. by destruct (printf _ _ _) as [[]|].
  - right. by exists k'.
  - unfold print in E. by destruct (printf _ _ _) as [[]|].
Qed.
End printing.

(** ** The report changes the console only *)

Section reporting.
Context `{Platform}.

(** [m] returns with only the console changed, or waits for ever. *)
Definition prints {A} (m : M A) : Prop := forall k,
  match m k with Ret _ k' => screen_work k k' | Hang _ => True | _ => False end.

Lemma prints_ret {A} (a : A) : prints (ret a).
Proof. intros k. apply screen_work_refl. Qed.
Lemma prints_get : prints get.
Proof. intros k. apply screen_work_refl. Qed.
Lemma prints_bind {A B} (m : M A) (f : A -> M B) : prints m -> (forall a, prints (f a)) -> prints (bind m f).
Proof.
  intros Hm Hf k. unfold bind. specialize (Hm k). destruct (m k) as [a k1| | |]; try done.
  specialize (Hf a k1). destruct (f a k1); try done. by apply (screen_work_trans _ k1).
Qed.
Lemma prints_print fmt args : prints (print fmt args).
Proof. intros k. by destruct (print_outcome fmt args k) as [(k' & -> & ?)|(k' & ->)]. Qed.
Lemma prints_for n i f : (forall i, prints (f i)) -> prints (for_M n i f).
Proof. intros Hf. revert i. induction n as [|n IH]; intros i; [apply prints_ret|]. by apply prints_bind. Qed.
Lemma prints_when b m : prints m -> prints (when b m).
Proof. intros Hm. destruct b; [done|apply prints_ret]. Qed.
Lemma prints_while {S} (cond : S -> kstate -> bool) body s : (forall s, prints (body s)) -> prints (while_M cond body s).
Proof.
  intros Hb k. unfold while_M.
  match goal with |- context [loop ?p ?f ?x] => pose proof (loop_inv (fun '(_, k') => screen_work k k')
    (fun o : outcome unit => match o with Ret _ k' => screen_work k k' | Hang _ => True | _ => False end) p f x) as Hl;
    destruct (loop p f x) as [[s1 k1]|o] end; [done|].
  apply Hl; [|apply screen_work_refl]. intros [s2 k2] Hk. destruct (cond s2 k2); [|exact Hk].
  specialize (Hb s2 k2). destruct (body s2 k2); try done. exact (screen_work_trans _ _ _ Hk Hb).
Qed.
Create HintDb printing.
#[local] Hint Resolve prints_ret prints_get prints_bind prints_print prints_for prints_when prints_while : printing.

Lemma prints_modules mbi : prints (print_modules mbi).
Proof.
  unfold print_modules, print_module. apply prints_bind; [auto with printing|]. intros k.
  apply prints_while. intros []. auto 20 with printing.
Qed.
Lemma prints_memory_map mbi : prints (print_memory_map mbi).
Proof. unfold print_memory_map, print_region. auto 20 with printing. Qed.
#[local] Hint Resolve prints_modules prints_memory_map : printing.

Lemma prints_report bootblock mbi : prints (report bootblock mbi).
Proof.
  unfold report. repeat (apply prints_bind; [auto with printing|intros ?]).
  case_match; auto 20 with printing.
Qed.
End reporting.

(** ** The state the kernel boots into *)

Section preparing.
Context `{Platform}.

Definition only_pic (k k' : kstate) : Prop := k' = k <| pic := pic k' |> <| io := io k' |>.

Lemma only_pic_trans k1 k2 k3 : only_pic k1 k2 -> only_pic k2 k3 -> only_pic k1 k3.
Proof. unfold only_pic. intros E1 E2. rewrite E2, E1. reflexivity. Qed.
Lemma only_pic_outb v p k : only_pic k (outb v p k).
Proof. by destruct k. Qed.
Lemma only_pic_inb p k v k' : inb p k = (v, k') -> only_pic k k'.
Proof. intros [= _ <-]. by destruct k. Qed.
Lemma enable_irq_only n k : only_pic k (enable_irq n k).
Proof. unfold enable_irq. repeat case_match; by destruct k. Qed.
Lemma i8259_init_only k : only_pic k (i8259_init k).
Proof.
  unfold i8259_init. cbv zeta. eapply only_pic_trans; [|apply enable_irq_only].
  repeat (eapply only_pic_trans; [|apply only_pic_outb]). by destruct k.
Qed.
Lemma init_rtc_only k : only_pic k (init_rtc k).
Proof.
  unfold init_rtc. set (k1 := outb REG_B COMMAND_PORT k). assert (only_pic k k1) as O1 by apply only_pic_outb.
  clearbody k1. destruct (inb RTC_PORT k1) as [v k2] eqn:E2. apply only_pic_inb in E2.
  set (k3 := outb RTC_PORT REG_A (outb _ RTC_PORT (outb REG_B COMMAND_PORT k2))).
  assert (only_pic k2 k3) as O3 by (by destruct k2). clearbody k3.
  destruct (inb RTC_PORT k3) as [w k4] eqn:E4. apply only_pic_inb in E4.
  apply (only_pic_trans _ k4); [|eapply only_pic_trans; [|apply enable_irq_only]; by destruct k4].
  eapply only_pic_trans, E4. eapply only_pic_trans, O3. by eapply only_pic_trans, E2.
Qed.

Lemma lines_outb v p k i : line_enabled (outb v p k) i = line_enabled k i.
Proof. reflexivity. Qed.
Lemma lines_inb p k v k' i : inb p k = (v, k') -> line_enabled k' i = line_enabled k i.
Proof. intros [= _ <-]. reflexivity. Qed.
Lemma init_rtc_lines k i : 0 <= i < 16 -> line_enabled (init_rtc k) i = line_enabled k i || (i =? 8) || (i =? 2).
Proof.
  intros Hi. unfold init_rtc. set (k1 := outb REG_B COMMAND_PORT k).
  assert (line_enabled k1 i = line_enabled k i) as <- by apply lines_outb. clearbody k1.
  destruct (inb RTC_PORT k1) as [v k2] eqn:E2. rewrite <- (lines_inb _ _ _ _ i E2).
  set (k3 := outb REG_B COMMAND_PORT k2). set (k4 := outb (Z.lor (s8 v) 0x40) RTC_PORT k3).
  set (k5 := outb RTC_PORT REG_A k4). assert (line_enabled k5 i = line_enabled k2 i) as <- by reflexivity.
  clearbody k5. destruct (inb RTC_PORT k5) as [w k6] eqn:E6. rewrite <- (lines_inb _ _ _ _ i E6).
  rewrite enable_irq_line, !lines_outb by lia. change (8 <=? 8) with true. by rewrite andb_true_l.
Qed.

(** The keyboard's port is not read. *)
Lemma reads_enable_irq p n k : reads p (io (enable_irq n k)) = reads p (io k).
Proof.
  unfold enable_irq. cbv zeta. repeat case_match; [done| |by etransitivity; [apply reads_outb|]].
  set (k1 := outb _ _ (set_master _ k)). transitivity (reads p (io k1)); [exact (reads_outb p _ _ k1)|].
  by etransitivity; [apply reads_outb|].
Qed.
Lemma reads_i8259_init p k : reads p (io (i8259_init k)) = reads p (io k).
Proof. unfold i8259_init. cbv zeta. by rewrite reads_enable_irq, !reads_outb. Qed.
Lemma reads_inb p q k v k' : inb q k = (v, k') -> u16 q <> p -> reads p (io k') = reads p (io k).
Proof.
  intros [= _ <-] Hq. simpl. rewrite reads_app. unfold reads at 2. simpl. rewrite (proj2 (Z.eqb_neq _ _) Hq). simpl. lia.
Qed.
Lemma reads_init_rtc k : reads KEYBOARD_ENCODER (io (init_rtc k)) = reads KEYBOARD_ENCODER (io k).
Proof.
  unfold init_rtc. destruct (inb RTC_PORT (outb REG_B COMMAND_PORT k)) as [v k1] eqn:E1.
  destruct (inb RTC_PORT (outb RTC_PORT REG_A _)) as [w k2] eqn:E2. apply (reads_inb KEYBOARD_ENCODER) in E1; [|done].
  apply (reads_inb KEYBOARD_ENCODER) in E2; [|done]. rewrite !reads_outb in E1. rewrite !reads_outb in E2.
  rewrite reads_enable_irq, !reads_outb. congruence.
Qed.

Lemma set_intr_gate_only v a k : set_intr_gate v a k = k <| cpu; idt := idt (cpu (set_intr_gate v a k)) |>.
Proof. reflexivity. Qed.
Lemma init_idt_only k : init_idt k = k <| cpu; idt := idt (cpu (init_idt k)) |>.
Proof.
  unfold init_idt. assert (forall k', k' = k <| cpu; idt := idt (cpu k') |> ->
    set_system_gate SIG_SYSCALL (isr_addr SIG_SYSCALL) k' =
      k <| cpu; idt := idt (cpu (set_system_gate SIG_SYSCALL (isr_addr SIG_SYSCALL) k')) |>) as Hs.
  { intros k' E. rewrite E at 1. reflexivity. }
  apply Hs. assert (trap_gates k = k <| cpu; idt := idt (cpu (trap_gates k)) |>) as Ht.
  { unfold trap_gates. apply (for_loop_rule (fun _ k' => k' = k <| cpu; idt := idt (cpu k') |>)); [done| |].
    - by destruct k as [? ? ? ? ? ? ? ? ? ? []].
    - intros i k' _ E. rewrite E at 1. reflexivity. }
  revert Ht. generalize (trap_gates k) as k1. generalize intr_vectors as vs.
  induction vs as [|v vs IH]; intros k1 E; [done|]. cbn [fold_left]. apply IH. rewrite E at 1. reflexivity.
Qed.

(** [init_keyboard] changes the driver's globals, the terminals' buffers, and the
    masks. *)
Lemma init_keyboard_frame k : let k' := init_keyboard k in
  k' = k <| kbd := kbd k' |> <| pic := pic k' |> <| io := io k' |> <| procs; terminals := terminals (procs k') |> /\
  (forall i, 0 <= i < 16 -> line_enabled k' i = line_enabled k i || (i =? 1)) /\
  (alt_status (kbd k) = 0 -> modifiers_ok (kbd k') Modifiers.start) /\
  (forall p, reads p (io k') = reads p (io k)) /\
  enter_read (kbd k') = enter_read (kbd k) /\ index (kbd k') = index (kbd k) /\ disp k' = disp k.
Proof.
  cbv zeta. unfold init_keyboard. cbv zeta. set (k0 := _ <| kbd; is_alphabet := 0 |>).
  match goal with |- context [for_loop 0 3 ?f k0] => set (body := f) end.
  assert (for_loop 0 3 body k0 = k0 <| procs; terminals := terminals (procs (for_loop 0 3 body k0)) |>) as E.
  { apply (for_loop_rule (fun _ k' => k' = k0 <| procs; terminals := terminals (procs k') |>)); [done| |].
    - by destruct k0 as [? ? ? ? ? ? ? ? [] ? ?].
    - intros i k' _ E. rewrite E at 1. reflexivity. }
  revert E. generalize (for_loop 0 3 body k0) as k1. intros k1 E. split; [|split; [|split; [|split]]].
  - rewrite E. reflexivity.
  - intros i Hi. rewrite enable_irq_line by lia. change (8 <=? 1) with false. rewrite orb_false_r.
    f_equal. rewrite E. reflexivity.
  - intros Ha. rewrite E. repeat split; try done.
  - intros p. rewrite reads_enable_irq. by rewrite E.
  - rewrite E. by split_and!.
Qed.

Lemma init_filesys_only b k : init_filesys b k = k <| fs := fs (init_filesys b k) |>.
Proof. reflexivity. Qed.

(** The kernel before its first process. *)
Record prepared (bootblock : Z) (k k' : kstate) : Prop := {
  pr_lines : forall i, 0 <= i < 16 -> line_enabled k' i = (i =? 1) || (i =? 2) || (i =? 8);
  pr_gates : forall v, 0 <= v < 256 -> let d := idt_at k' v in
    if v =? SIG_SYSCALL then is_gate d (isr_addr v) USER_PL false
    else if existsb (Z.eqb v) intr_vectors then is_gate d (isr_addr v) KERNEL_PL false
    else is_gate d (isr_addr SIG_IDK) KERNEL_PL true;
  pr_map : kernel_map (mmu k');
  pr_terminals : active k' = 0 /\ forall i, 0 <= i < 3 -> fresh_terminal (term_at k' i);
  pr_keyboard : modifiers_ok (kbd k') Modifiers.start;
  pr_stack : tss_ss0 (cpu k') = KERNEL_DS_ /\ tss_esp0 (cpu k') = SIZE_8MB /\ esp (cpu k') = esp (cpu k);
  pr_slots : pcb_state (procs k') = pcb_state (procs k);
  pr_memory pa : pa < VIDEO \/ VIDEO + 4000 <= pa -> mem_get (pmem k') pa = mem_get (pmem k) pa;
  pr_image : Z.testbit (cr0 (mmu k)) 31 = false -> 0 <= bootblock -> bootblock + 12 <= SIZE_8MB ->
    fs k' = fs (init_filesys bootblock k);
  pr_pcbs : pcbs (procs k') = pcbs (procs k);
  pr_irqs : irqs k' = irqs k;
  pr_reads : reads KEYBOARD_ENCODER (io k') = reads KEYBOARD_ENCODER (io k);
  pr_line : enter_read (kbd k') = enter_read (kbd k) /\ index (kbd k') = index (kbd k) /\ disp k' = disp k
}.

Lemma prepared_con b k k1 k2 : prepared b k k1 -> console_frame k1 k2 -> (forall p, reads p (io k2) = reads p (io k1)) ->
  prepared b k k2.
Proof.
  intros [? ? ? ? ? ? ? Hm ? ? ? Hr ?] [E Hc] Hrd. split; [rewrite E; done..| |by rewrite E|by rewrite E|by rewrite E|by rewrite Hrd|by rewrite E].
  intros pa Hpa. by rewrite Hc, Hm.
Qed.
Lemma prepared_sti b k k1 : prepared b k k1 -> prepared b k (sti k1).
Proof. intros []. by split. Qed.

(** Reading the counts of the image before paging is on or after. *)
Lemma init_filesys_same b k k' : kernel_map (mmu k') -> Z.testbit (cr0 (mmu k)) 31 = false ->
  0 <= b -> b + 12 <= SIZE_8MB -> pmem k' = pmem k -> fs k' = fs k ->
  fs (init_filesys b k') = fs (init_filesys b k).
Proof.
  intros Hm Hoff Hb Hb' Ep Ef.
  assert (forall o, 0 <= o <= 8 -> ld32 k' (b + o) = ld32 k (b + o)) as Hl.
  { intros o Ho.
    assert (forall va, 0 <= va < SIZE_8MB -> get8 (vspace k') va = get8 (vspace k) va) as Hg.
    { intros va Hva. change (mem_get (pmem k') (loc (vspace k') va) = mem_get (pmem k) (loc (vspace k) va)).
      rewrite loc_low, loc_unpaged by done. by rewrite Ep. }
    unfold ld32, get32. by rewrite !Hg by lia. }
  pose proof (Hl 0 ltac:(lia)) as H0. rewrite Z.add_0_r in H0.
  change (fs (init_filesys b k')) with (Fs b (ld32 k' b) (ld32 k' (b + 4)) (ld32 k' (b + 8)) (b + 4096) (num_files_read (fs k'))).
  change (fs (init_filesys b k)) with (Fs b (ld32 k b) (ld32 k (b + 4)) (ld32 k (b + 8)) (b + 4096) (num_files_read (fs k))).
  by rewrite H0, !Hl, Ef by lia.
Qed.

(** The byte [process_init] stores past the terminals is none of the state. *)
Definition slack_after_terminals : Prop := forall k, past_terminals 600 0 k = k.

(** The states between the initialisations, and what each does. *)
Lemma stages_prepared b k k0 k1 k2 k3 k4 k5 k6 k7 :
  k0 = k <| cpu := cpu k0 |> -> esp (cpu k0) = esp (cpu k) -> tss_ss0 (cpu k0) = KERNEL_DS_ -> tss_esp0 (cpu k0) = SIZE_8MB ->
  only_pic k0 k1 -> (forall i, 0 <= i < 16 -> line_enabled k1 i = (i =? 2)) ->
  k2 = k1 <| cpu; idt := idt (cpu k2) |> ->
  (forall v, 0 <= v < 256 -> let d := idt_at k2 v in
    if v =? SIG_SYSCALL then is_gate d (isr_addr v) USER_PL false
    else if existsb (Z.eqb v) intr_vectors then is_gate d (isr_addr v) KERNEL_PL false
    else is_gate d (isr_addr SIG_IDK) KERNEL_PL true) ->
  k3 = k2 <| kbd := kbd k3 |> <| pic := pic k3 |> <| io := io k3 |> <| procs; terminals := terminals (procs k3) |> ->
  (forall i, 0 <= i < 16 -> line_enabled k3 i = line_enabled k2 i || (i =? 1)) ->
  modifiers_ok (kbd k3) Modifiers.start ->
  only_pic k3 k4 -> (forall i, 0 <= i < 16 -> line_enabled k4 i = line_enabled k3 i || (i =? 8) || (i =? 2)) ->
  only_mmu k4 k5 -> kernel_map (mmu k5) ->
  only_terminals k5 k6 -> (forall i, 0 <= i < 3 -> fresh_terminal (term_at k6 i)) ->
  k7 = init_filesys b (k6 <| procs; active_terminal := 0 |>) ->
  (forall k k', (k, k') ∈ [(k0, k1); (k2, k3); (k3, k4)] -> reads KEYBOARD_ENCODER (io k') = reads KEYBOARD_ENCODER (io k)) ->
  enter_read (kbd k3) = enter_read (kbd k2) /\ index (kbd k3) = index (kbd k2) /\ disp k3 = disp k2 ->
  prepared b k k7 /\ con k7 = con k.
Proof.
  intros O0 P0 S0 T0 O1 L1 O2 G2 O3 L3 M3 O4 L4 O5 M5 O6 F6 I7 Hrd Hkb. pose proof (init_filesys_only b (k6 <| procs; active_terminal := 0 |>)) as O7.
  rewrite <- I7 in O7. unfold only_pic, only_mmu, only_terminals in *.
  assert (pic k7 = pic k4) as Epic by (by rewrite O7, O6, O5).
  assert (cpu k7 = cpu k2) as Ecpu by (by rewrite O7, O6, O5, O4, O3).
  assert (mmu k7 = mmu k5) as Emmu by (by rewrite O7, O6).
  assert (kbd k7 = kbd k3) as Ekbd by (by rewrite O7, O6, O5, O4).
  assert (pcb_state (procs k7) = pcb_state (procs k)) as Eslots.
  { transitivity (pcb_state (procs k4)); [by rewrite O7, O6, O5|]. transitivity (pcb_state (procs k2)); [by rewrite O4, O3|].
    by rewrite O2, O1, O0. }
  assert (con k7 = con k) as Econ.
  { transitivity (con k4); [by rewrite O7, O6, O5|]. transitivity (con k2); [by rewrite O4, O3|]. by rewrite O2, O1, O0. }
  split; [split|exact Econ].
  - intros i Hi. transitivity (line_enabled k4 i); [unfold line_enabled, get_master, get_slave; by rewrite Epic|].
    rewrite L4, L3 by done. replace (line_enabled k2 i) with (line_enabled k1 i) by (by rewrite O2).
    rewrite L1 by done. by destruct (i =? 2), (i =? 1), (i =? 8).
  - intros v Hv. cbv zeta. replace (idt_at k7 v) with (idt_at k2 v) by (unfold idt_at; by rewrite Ecpu). by apply G2.
  - by rewrite Emmu.
  - assert (active k7 = 0 /\ forall d, term_at k7 d = term_at k6 d) as [A7 T7] by (by rewrite O7).
    split; [done|]. intros i Hi. rewrite T7. by apply F6.
  - by rewrite Ekbd.
  - rewrite Ecpu, O2, O1. by split_and!.
  - exact Eslots.
  - intros pa _. f_equal. transitivity (pmem k4); [by rewrite O7, O6, O5|]. transitivity (pmem k2); [by rewrite O4, O3|].
    by rewrite O2, O1, O0.
  - intros Hoff Hb Hb'. rewrite I7. apply init_filesys_same; [by rewrite O6|done..| |].
    + transitivity (pmem k4); [by rewrite O6, O5|]. transitivity (pmem k2); [by rewrite O4, O3|]. by rewrite O2, O1, O0.
    + transitivity (fs k4); [by rewrite O6, O5|]. transitivity (fs k2); [by rewrite O4, O3|]. by rewrite O2, O1, O0.
  - transitivity (pcbs (procs k4)); [by rewrite O7, O6, O5|]. transitivity (pcbs (procs k2)); [by rewrite O4, O3|]. by rewrite O2, O1, O0.
  - transitivity (irqs k4); [by rewrite O7, O6, O5|]. transitivity (irqs k2); [by rewrite O4, O3|]. by rewrite O2, O1, O0.
  - transitivity (reads KEYBOARD_ENCODER (io k4)); [by rewrite O7, O6, O5|].
    rewrite (Hrd k3 k4), (Hrd k2 k3) by (rewrite !elem_of_cons; tauto). transitivity (reads KEYBOARD_ENCODER (io k1)); [by rewrite O2|].
    rewrite (Hrd k0 k1) by (rewrite !elem_of_cons; tauto). by rewrite O0.
  - assert (kbd k2 = kbd k) as Ekb by (by rewrite O2, O1, O0). unfold disp in *. rewrite Ekbd, <- Ekb. exact Hkb.
Qed.

Lemma kbd_init_idt k : kbd (init_idt k) = kbd k.
Proof. rewrite init_idt_only. reflexivity. Qed.
Lemma kbd_i8259_init k : kbd (i8259_init k) = kbd k.
Proof. rewrite i8259_init_only. reflexivity. Qed.
Lemma kbd_load_descriptors ldt0 tss0 k : kbd (load_descriptors ldt0 tss0 k) = kbd k.
Proof. reflexivity. Qed.
Lemma load_descriptors_frame ldt0 tss0 k : let k0 := load_descriptors ldt0 tss0 k in
  k0 = k <| cpu := cpu k0 |> /\ esp (cpu k0) = esp (cpu k) /\ tss_ss0 (cpu k0) = KERNEL_DS_ /\ tss_esp0 (cpu k0) = SIZE_8MB.
Proof. by destruct k. Qed.

Lemma init_devices_prepared b ldt0 tss0 k : slack_after_terminals -> alt_status (kbd k) = 0 ->
  let k' := init_devices b (load_descriptors ldt0 tss0 k) in prepared b k k' /\ con k' = con k.
Proof.
  intros Hpast Hal. destruct (load_descriptors_frame ldt0 tss0 k) as (O0 & P0 & S0 & T0).
  pose proof (kbd_load_descriptors ldt0 tss0 k) as K0. revert O0 P0 S0 T0 K0.
  generalize (load_descriptors ldt0 tss0 k) as k0. intros k0 O0 P0 S0 T0 K0.
  assert (alt_status (kbd (init_idt (i8259_init k0))) = 0) as Hal2 by (rewrite kbd_init_idt, kbd_i8259_init, K0; exact Hal).
  pose proof (i8259_init_only k0) as O1. pose proof (fun i => i8259_init_line k0 i) as L1.
  pose proof (init_idt_only (i8259_init k0)) as O2. pose proof (init_idt_is (i8259_init k0)) as G2.
  destruct (init_keyboard_frame (init_idt (i8259_init k0))) as (O3 & L3 & M3 & R3 & Hkb). specialize (M3 Hal2).
  pose proof (reads_i8259_init KEYBOARD_ENCODER k0) as R1. specialize (R3 KEYBOARD_ENCODER).
  unfold init_devices. cbv zeta. revert O3 L3 M3 R3 Hkb O2 G2 O1 L1 R1. clear Hal2.
  generalize (init_keyboard (init_idt (i8259_init k0))) as k3. generalize (init_idt (i8259_init k0)) as k2.
  generalize (i8259_init k0) as k1. intros k1 k2 k3 O3 L3 M3 R3 Hkb O2 G2 O1 L1 R1.
  pose proof (init_rtc_only k3) as O4. pose proof (init_rtc_lines k3) as L4. pose proof (reads_init_rtc k3) as R4. revert O4 L4 R4.
  generalize (init_rtc k3) as k4. intros k4 O4 L4 R4.
  destruct (init_paging_map k4) as (O5 & M5 & _). revert O5 M5. generalize (init_paging k4) as k5. intros k5 O5 M5.
  destruct (process_init_spec k5) as (k6 & E6 & O6 & F6). rewrite E6, Hpast.
  apply (stages_prepared b k k0 k1 k2 k3 k4 k5 k6 _ O0 P0 S0 T0 O1 L1 O2 G2 O3 L3 M3 O4 L4 O5 M5 O6 F6 eq_refl); [|exact Hkb].
  intros a a' Ha. rewrite !elem_of_cons, elem_of_nil in Ha. by destruct Ha as [[= -> ->]|[[= -> ->]|[[= -> ->]|[]]]].
Qed.

Lemma clear_con_only k : con_only k (clear k).
Proof.
  assert (con_only k (blank_cells k)) as Hb
    by (unfold blank_cells; apply con_only_loop; [done|]; intros; apply put_cell_con_only).
  unfold clear. revert Hb. generalize (blank_cells k) as k1. intros k1 Hb.
  apply (con_only_trans _ k1); [done|]. by destruct k1.
Qed.

Lemma clear_screen_work k : screen_work k (clear k).
Proof.
  split; [apply clear_con_only|]. intros p.
  assert (io (blank_cells k) = io k) as E.
  { unfold blank_cells. apply (for_loop_rule (fun _ k' => io k' = io k)); [done|done|]. intros i k' _ <-. reflexivity. }
  revert E. unfold clear. generalize (blank_cells k) as k1. intros k1 <-. cbv zeta. by rewrite reads_place_cursor.
Qed.

Lemma shows_con_only l k k' : shows l k k' -> con_only k k'.
Proof. intros [[E _] _]. exact E. Qed.

Lemma prepare_kernel_spec ldt0 tss0 b k : slack_after_terminals -> alt_status (kbd k) = 0 -> cursor_ok k ->
  exists k2, prepare_kernel ldt0 tss0 b k = Ret tt k2 /\ prepared b k k2 /\ if_flag (cpu k2) = true /\
    abs k2 = Spec.T (replicate 2000 32) 0 0.
Proof.
  intros Hpast Hal Hc. unfold prepare_kernel. rewrite !bind_modify.
  destruct (init_devices_prepared b ldt0 tss0 k Hpast Hal) as [Hr Ec].
  revert Hr Ec. generalize (init_devices b (load_descriptors ldt0 tss0 k)) as k2. intros k2 Hr Ec.
  pose proof (kernel_map_video _ (pr_map _ _ _ Hr)) as Hv.
  destruct (print_shows (line "Enabling Interrupts") [] k2) as (k3 & E3 & Hs3);
    [exact Hv|unfold cursor_ok, scr_x, scr_y; rewrite Ec; exact Hc|reflexivity|reflexivity|constructor|].
  rewrite (bind_ret _ _ _ _ _ E3). rewrite bind_modify.
  pose proof (proj1 Hs3) as O3. pose proof (shows_mmu _ _ _ Hs3) as M3.
  destruct (clear_spec k3) as [O4 Ha]; [by rewrite M3|]. pose proof (clear_screen_work k3) as [_ R4].
  pose proof (print_screen_work _ _ _ _ E3) as [_ R3].
  revert Ha O4 R4. generalize (clear k3) as k4. intros k4 Ha O4 R4. exists (sti k4). split; [reflexivity|].
  split; [|split; [reflexivity|exact Ha]].
  apply prepared_sti, (prepared_con _ _ k2); [exact Hr|exact (transitivity O3 O4)|]. intros p. by rewrite R4.
Qed.

(** What the loader left at [b]: a file system below 8 MB with the executable
    "shell", file [ino] with entry address [en], that fits the user page. *)
Record bootable (b ino en : Z) (k : kstate) : Prop := {
  bo_unpaged : Z.testbit (cr0 (mmu k)) 31 = false;
  bo_image : 0 <= b /\ img_end (init_filesys b k) <= SIZE_8MB;
  bo_placed : placed (init_filesys b k);
  bo_shell : executable (init_filesys b k) shell_words.1 ino en;
  bo_size : file_length (init_filesys b k) ino < 0x3B8000
}.

Lemma prepared_image b ino en k k' : bootable b ino en k -> prepared b k k' -> same_image (init_filesys b k) k'.
Proof.
  intros [Hoff [Hb He] Hpl Hex Hsz] Hr. set (k0 := init_filesys b k) in *.
  assert (img k0 = b /\ pmem k0 = pmem k) as (Ei & Ep) by done.
  pose proof (ex_wf _ _ _ _ Hex) as Hwf. destruct (wf_ino _ _ Hwf), (wf_size _ _ Hwf).
  assert (fs k' = fs k0) as Ef.
  { apply (pr_image _ _ _ Hr); [done|done|]. unfold img_end in He. lia. }
  split; [done|]. rewrite Ei. intros o Ho. destruct Hpl as [Hs _ _]. unfold img_end, VIDEO_MEMORY, SCREENS_END in *.
  change (mem_get (pmem k') (loc (vspace k') (b + o)) = mem_get (pmem k0) (loc (vspace k0) (b + o))).
  rewrite loc_low, loc_unpaged by (first [done|apply (pr_map _ _ _ Hr)|lia]). rewrite Ep.
  apply (pr_memory _ _ _ Hr). unfold VIDEO. lia.
Qed.
Lemma prepared_runnable b ino en k k' : bootable b ino en k -> prepared b k k' ->
  (forall q, proc_used k q = 0) -> runnable k' shell_words.1 0 ino en.
Proof.
  intros Hbo Hr Hfree. pose proof (prepared_image _ _ _ _ _ Hbo Hr) as Hsi. destruct Hbo as [Hoff [Hb He] Hpl Hex Hsz].
  set (k0 := init_filesys b k) in *. assert (img k0 = b /\ esp (cpu k0) = esp (cpu k)) as (Ei & Esp) by done.
  pose proof (ex_wf _ _ _ _ Hex) as Hwf. destruct (same_image_file _ _ _ Hsi Hwf) as (Ei' & Ed & En & El & _).
  assert (low_image k') as Hli.
  { split; [apply (pr_map _ _ _ Hr)|lia|]. unfold img_end in He. rewrite Ei', En, Ed. lia. }
  split; [|done|by rewrite El|].
  - apply (executable_same_image k0); [done|done|]. destruct Hpl as [_ Hloc Hap].
    destruct (pr_stack _ _ _ Hr) as (_ & _ & Es). unfold exe_data in *. rewrite Es, <- Esp.
    apply low_buf_apart; [done|lia|lia|]. unfold img_end in *. by rewrite Ei', En, Ed.
  - split; [lia|]. split; [|lia]. unfold proc_used in *. rewrite (pr_slots _ _ _ Hr). apply Hfree.
Qed.

(** C29: the kernel's initialisation, from the descriptors to the enabling of
    interrupts, ends; after it the three interrupt lines the kernel uses are
    unmasked and no other, all 256 gates are set, paging is on with the
    kernel's map, terminal 0 is active and the three terminals are without a
    shell, the keyboard driver is in its start state, the TSS has the kernel's
    stack, the screen is blank, and interrupts are on. It is run with the globals
    of the keyboard driver as they are loaded (alt not held) and the cursor on the
    screen, and the byte stored past the terminals is none the kernel uses. *)
Theorem boot_prepares_kernel ldt0 tss0 b k : slack_after_terminals -> alt_status (kbd k) = 0 -> cursor_ok k ->
  exists k2, prepare_kernel ldt0 tss0 b k = Ret tt k2 /\ prepared b k k2 /\ if_flag (cpu k2) = true /\
    abs k2 = Spec.T (replicate 2000 32) 0 0.
Proof. apply prepare_kernel_spec. Qed.

(** The boot, step by step. *)
Lemma boot_steps b0 ldt0 tss0 magic addr b k k1 ino en : slack_after_terminals -> alt_status (kbd k) = 0 ->
  u32 magic = MULTIBOOT_BOOTLOADER_MAGIC -> report b0 (u32 addr) (clear k) = Ret (Some b) k1 -> cursor_ok k1 ->
  (forall q, proc_used k q = 0) -> bootable b ino en k1 ->
  exists k2 k3, entry b0 ldt0 tss0 magic addr k = Jmp (IretUser (u32 en) 0x083FFFFC 0x23 0x2B) k3 /\
    screen_work k k1 /\ prepared b k1 k2 /\ abs k2 = Spec.T (replicate 2000 32) 0 0 /\
    runnable k2 shell_words.1 0 ino en /\ started 0 ino 0 shell_words.2 k2 k3.
Proof.
  intros Hpast Hal Hmag Er Hc Hslots Hboot.
  pose proof (prints_report b0 (u32 addr) (clear k)) as Hp. rewrite Er in Hp.
  pose proof (screen_work_trans _ _ _ (clear_screen_work k) Hp) as Hw. destruct (Hw) as [Ho _].
  assert (alt_status (kbd k1) = 0 /\ pcb_state (procs k1) = pcb_state (procs k)) as (Hal1 & S1)
    by (clear -Ho Hal; by rewrite Ho).
  destruct (prepare_kernel_spec ldt0 tss0 b k1 Hpast Hal1 Hc) as (k2 & E2 & Hr & _ & Ha).
  assert (runnable k2 shell_words.1 0 ino en) as Hrun.
  { apply (prepared_runnable b _ _ k1); [done|done|]. intros q. unfold proc_used. rewrite S1. apply Hslots. }
  destruct (execute_gen_starts halt _ _ _ _ _ _ _ _ parse_shell ltac:(by vm_compute) shell_no_args ltac:(lia) Hrun)
    as (k3 & E3 & Hst).
  exists k2, k3. split.
  { unfold entry. rewrite bind_modify, Hmag, Z.eqb_refl. cbv [negb]. rewrite (bind_ret _ _ _ _ _ Er).
    rewrite (bind_ret _ _ _ _ _ E2). exact (bind_jmp _ _ _ _ _ E3). }
  by split_and!.
Qed.

Lemma abs_cursor k l x y : abs k = Spec.T l x y -> scr_x k = x /\ scr_y k = y.
Proof. unfold abs. by intros [= _ -> ->]. Qed.

End preparing.

(** ** A boot

    The Multiboot information at 0x9000 names one module, the file system at
    0x10000 whose only file is "shell". *)

Section samples.
#[local] Existing Instance quiet_platform.

Definition boot_memory : mem :=
  put32 0x9104 0x13000 (put32 0x9100 0x10000 (put32 0x9018 0x9100 (put32 0x9014 1 (put32 0x9000 8 shell_image)))).
Definition at_boot : kstate := zero_state <| pmem := boot_memory |> <| cpu; esp := 0x7ffff4 |>.

Definition state_of {A} (o : outcome A) : kstate :=
  match o with Ret _ k | Jmp _ k | Hang k | Undef _ k => k end.
Definition reported : kstate := state_of (report 0 0x9000 (clear at_boot)).
Lemma reported_is : report 0 0x9000 (clear at_boot) = Ret (Some 0x10000) reported.
Proof.
  assert (match report 0 0x9000 (clear at_boot) with Ret (Some b) _ => b =? 0x10000 | _ => false end = true) as E
    by (by vm_compute).
  unfold reported. revert E. generalize (report 0 0x9000 (clear at_boot)) as o.
  intros [[b|] k| | |] E; try discriminate. simpl. f_equal. f_equal. lia.
Qed.
Lemma reported_cursor : cursor_ok reported.
Proof. split; by vm_compute. Qed.
Lemma reported_alt : alt_status (kbd reported) = 0.
Proof. by vm_compute. Qed.
Lemma slack : slack_after_terminals.
Proof. by intros k. Qed.

Lemma boot_prepares_kernel_witness : exists k2, prepare_kernel 0 0 0x10000 reported = Ret tt k2 /\
  if_flag (cpu k2) = true.
Proof.
  destruct (boot_prepares_kernel 0 0 0x10000 reported slack reported_alt reported_cursor) as (k2 & E & _ & Hif & _).
  exists k2. split; [exact E|exact Hif].
Defined.

End samples.
