(* ===== verification/Loader.v ===== *)
(** The hand-over from the loader: what [entry] prints of the Multiboot
    information (kernel.c lines 44-105) reads the structures the loader left and
    writes to the screen only, and with a file system among them the kernel gets
    from the loader's jump to its first shell. *)

From Stdlib Require Import String.
From S2P Require Import Prelude Bytes CString State Console Printf Filesys Paging Idt Keyboard Descriptors Process Halt Terminals Boot.
#[local] Open Scope Z_scope.
#[local] Open Scope kernel_scope.

(** ** What the loader leaves *)

(** The [n] bytes from [p] on are not video memory. *)
Definition off_screen (p n : Z) : Prop := 0 <= p /\ (p + n <= VIDEO \/ VIDEO + 4000 <= p).

Section information.
Context `{Platform}.

Definition info (f : string) (mbi : Z) (k : kstate) : Z := member multiboot_info_t f mbi k.

(** The memory map: the regions from [p] on reach [stop], each with the offset of
    the next but for 4; addresses do not wrap. *)
Inductive regions (k : kstate) (stop : Z) : Z -> Prop :=
  | rg_end p : stop <= p -> regions k stop p
  | rg_next p : 0 <= p < stop -> off_screen p 24 -> p + member memory_map_t "size" p k + 4 < 4294967296 ->
      regions k stop (p + member memory_map_t "size" p k + 4) -> regions k stop p.

(** The Multiboot information at [mbi], as the specification of the loader has
    it: paging is off; the structures are not in video memory; the command line,
    if there is one, is a string without a backspace; there are modules, and the
    first starts at [b]; of the two kinds of symbol tables there is at most one;
    and the memory map, if there is one, is well-formed. *)
Record loader_left (mbi b : Z) (k : kstate) : Prop := {
  ll_unpaged : Z.testbit (cr0 (mmu k)) 31 = false;
  ll_info : off_screen mbi 52;
  ll_cmdline : CHECK_FLAG (info "flags" mbi k) 2 = true -> exists n, n < 2147483647 /\
    off_screen (info "cmdline" mbi k) (n + 1) /\ is_cstr (fun i => ld8 k (info "cmdline" mbi k + i)) n /\
    forall i, 0 <= i < n -> ld8 k (info "cmdline" mbi k + i) <> 8;
  ll_modules : CHECK_FLAG (info "flags" mbi k) 3 = true /\ 0 < info "mods_count" mbi k /\
    off_screen (info "mods_addr" mbi k) (16 * info "mods_count" mbi k) /\
    member module_t "mod_start" (info "mods_addr" mbi k) k = b;
  ll_symbols : CHECK_FLAG (info "flags" mbi k) 4 && CHECK_FLAG (info "flags" mbi k) 5 = false;
  ll_regions : CHECK_FLAG (info "flags" mbi k) 6 = true ->
    regions k (u32 (info "mmap_addr" mbi k + info "mmap_length" mbi k)) (info "mmap_addr" mbi k)
}.
End information.

(** ** Printing *)

Section printing.
Context `{Platform} (k0 : kstate).
Hypothesis Hoff : Z.testbit (cr0 (mmu k0)) 31 = false.

(** Only the screen differs from [k0], and the cursor is on it. *)
Definition kept (k : kstate) : Prop := console_frame k0 k /\ cursor_ok k.

Lemma kept_unpaged k : kept k -> Z.testbit (cr0 (mmu k)) 31 = false.
Proof. intros [Hf _]. by rewrite (console_frame_mmu _ _ Hf). Qed.
Lemma kept_video k : kept k -> video_ident (mmu k).
Proof. intros Hk. by apply video_ident_unpaged, kept_unpaged. Qed.
Lemma kept_shows l k k' : kept k -> shows l k k' -> kept k'.
Proof. intros [Hf _] (Hf' & Hc & _). split; [by transitivity k|done]. Qed.
Lemma kept_ld8 k p : kept k -> p < VIDEO \/ VIDEO + 4000 <= p -> ld8 k p = ld8 k0 p.
Proof.
  intros Hk Hp. change (mem_get (pmem k) (loc (vspace k) p) = mem_get (pmem k0) (loc (vspace k0) p)).
  rewrite !loc_unpaged by (done || by apply kept_unpaged). by apply (cf_mem _ _ (proj1 Hk)).
Qed.
Lemma kept_ld32 k p n o : kept k -> off_screen p n -> 0 <= o -> o + 4 <= n -> ld32 k (p + o) = ld32 k0 (p + o).
Proof.
  intros Hk Hp Ho Hn. unfold off_screen in Hp. pose proof (fun q => kept_ld8 k q Hk) as Hg. unfold ld8 in Hg.
  unfold ld32, get32. by rewrite !Hg by lia.
Qed.
Lemma member_range s f p k : 0 <= member s f p k < 4294967296.
Proof. apply get32_range. Qed.

(** [m] ends, keeps what is not the screen, and returns an [a] with [P a]. *)
Definition keeps {A} (m : M A) (P : A -> Prop) : Prop := forall k, kept k -> exists a k', m k = Ret a k' /\ kept k' /\ P a.

Lemma keeps_ret {A} (a : A) (P : A -> Prop) : P a -> keeps (ret a) P.
Proof. intros Ha k Hk. by exists a, k. Qed.
Lemma keeps_get : keeps get kept.
Proof. intros k Hk. by exists k, k. Qed.
Lemma keeps_bind {A B} (m : M A) (f : A -> M B) P Q : keeps m P -> (forall a, P a -> keeps (f a) Q) -> keeps (bind m f) Q.
Proof.
  intros Hm Hf k Hk. destruct (Hm k Hk) as (a & k1 & E & Hk1 & Ha). destruct (Hf a Ha k1 Hk1) as (b & k2 & E2 & Hk2).
  exists b, k2. split; [|exact Hk2]. unfold bind. by rewrite E.
Qed.
Lemma keeps_look {B} (f : kstate -> M B) Q : (forall k, kept k -> keeps (f k) Q) -> keeps (bind get f) Q.
Proof. apply keeps_bind, keeps_get. Qed.
Lemma keeps_then {A B} (m : M A) (n : M B) Q : keeps m (fun _ => True) -> keeps n Q -> keeps (bind m (fun _ => n)) Q.
Proof. intros Hm Hn. by eapply keeps_bind. Qed.
Lemma keeps_when b m : (b = true -> keeps m (fun _ => True)) -> keeps (when b m) (fun _ => True).
Proof. intros Hm. destruct b; [by apply Hm|by apply keeps_ret]. Qed.
Lemma keeps_print fmt args : plain fmt false = true -> Z.of_nat (length fmt) < 2147483647 ->
  Forall (fun v => 0 <= v < 4294967296) args -> keeps (print fmt args) (fun _ => True).
Proof.
  intros Hp Hl Ha k Hk. destruct (print_shows fmt args k (kept_video k Hk) (proj2 Hk) Hp Hl Ha) as (k' & E & Hs).
  exists tt, k'. split; [done|]. split; [by eapply kept_shows|done].
Qed.
Lemma keeps_for n f : (forall i, keeps (f i) (fun _ => True)) -> forall i, keeps (for_M n i f) (fun _ => True).
Proof. intros Hf. induction n as [|n IH]; intros i; [by apply keeps_ret|]. apply keeps_then; [done|apply IH]. Qed.
Lemma keeps_while {S} (cond : S -> kstate -> bool) (c : S -> bool) body (Inv : S -> Prop) (m : S -> Z) s :
  (forall s k, kept k -> cond s k = c s) ->
  (forall s, Inv s -> c s = true -> keeps (body s) (fun s' => Inv s' /\ 0 <= m s' < m s)) ->
  Inv s -> 0 <= m s < 4294967296 -> keeps (while_M cond body s) (fun _ => True).
Proof.
  intros Hc Hb Hs Hm k Hk. unfold while_M.
  match goal with |- context [loop ?p ?f ?x] => destruct (loop_rule (fun '(s, k) => Inv s /\ kept k) (fun '((s, _) : S * kstate) => m s)
    (fun o : outcome unit => exists k', o = Ret tt k' /\ kept k') p f x) as (o & E & k' & -> & Hk') end.
  - intros [s1 k1] [Hs1 Hk1]. rewrite (Hc s1 k1 Hk1). destruct (c s1) eqn:Ec; [|by exists k1].
    destruct (Hb s1 Hs1 Ec k1 Hk1) as (s2 & k2 & -> & Hk2 & Hs2 & Hlt). by split.
  - by split.
  - exact Hm.
  - exists tt, k'. by rewrite E.
Qed.

(** A string of the memory, printed. *)
Lemma puts_kept p n k : kept k -> n < 2147483647 -> off_screen p (n + 1) -> is_cstr (fun i => ld8 k0 (p + i)) n ->
  (forall i, 0 <= i < n -> ld8 k0 (p + i) <> 8) -> exists r k', puts (fun k i => ld8 k (p + i)) k = Some (r, k') /\ kept k'.
Proof.
  intros Hk Hn Hp (Hn0 & Hz & Hnz) H8. unfold puts. unfold off_screen in Hp.
  loop_with (fun '(i, k') => 0 <= i <= n /\ kept k') (fun '((i, _) : Z * kstate) => n - i)
    (fun r : Z * kstate => kept r.2) r Hr; [..|destruct r as [r k']; by exists r, k'].
  - intros [i k1] [Hi Hk1]. rewrite (kept_ld8 k1 (p + i) Hk1) by lia. destruct (Z.eqb_spec (ld8 k0 (p + i)) 0) as [E|E]; cbn [negb]; [done|].
    assert (i <> n) as Hne by (by intros ->). split; [|lia]. split; [lia|]. eapply kept_shows; [exact Hk1|].
    apply putc_shows; [by apply kept_video|apply Hk1|apply get8_range|]. intros E8. destruct (H8 i); [lia|done].
  - split; [lia|done].
  - lia.
Qed.
End printing.

(** ** The report *)

Section report.
Context `{Platform} (k0 : kstate) (mbi b : Z).
Hypothesis Hleft : loader_left mbi b k0.

#[local] Abbreviation keeps' := (keeps k0).

Lemma info_kept f k : kept k0 k -> 0 <= offset_of multiboot_info_t f / 8 <= 48 -> info f mbi k = info f mbi k0.
Proof. intros Hk Ho. apply (kept_ld32 k0 (ll_unpaged _ _ _ Hleft) k mbi 52 _ Hk (ll_info _ _ _ Hleft)); lia. Qed.

Ltac numbers := repeat first [apply Forall_nil_2 | apply Forall_cons_2]; first [apply get32_range | apply u32_range | done].
Ltac printed := apply keeps_print; [by apply Hleft|by vm_compute|by vm_compute|numbers].

Lemma module_printed mod_count mod_ : 0 <= mod_count < 4294967296 -> keeps' (print_module mod_count mod_) (fun _ => True).
Proof.
  intros Hc. unfold print_module. apply keeps_look. intros k1 _. apply keeps_then; [printed|].
  apply keeps_look. intros k2 _. apply keeps_then; [printed|]. apply keeps_then; [printed|]. apply keeps_then; [|printed].
  apply keeps_for. intros i. apply keeps_look. intros k3 _. printed.
Qed.
Lemma modules_printed : keeps' (print_modules mbi) (fun _ => True).
Proof.
  unfold print_modules. apply keeps_look. intros k1 Hk1. change (member multiboot_info_t "mods_addr" mbi k1) with (info "mods_addr" mbi k1).
  rewrite info_kept by done. set (n := info "mods_count" mbi k0). assert (0 <= n < 4294967296) as Hn by apply member_range.
  apply (keeps_while _ _ (fun '(i, _) => i <? n) _ (fun '(i, _) => 0 <= i <= n) (fun '(i, _) => n - i)); [|intros [i p] Hi Hlt|lia|lia].
  - intros [i p] k Hk. change (member multiboot_info_t "mods_count" mbi k) with (info "mods_count" mbi k). by rewrite info_kept.
  - apply keeps_then; [apply module_printed; lia|]. apply keeps_ret. lia.
Qed.

Lemma region_printed p : keeps' (print_region p) (fun _ => True).
Proof. unfold print_region. apply keeps_look. intros k1 _. printed. Qed.
Lemma memory_map_printed : CHECK_FLAG (info "flags" mbi k0) 6 = true -> keeps' (print_memory_map mbi) (fun _ => True).
Proof.
  intros Hf. unfold print_memory_map. apply keeps_look. intros k1 _. apply keeps_then; [printed|]. apply keeps_look. intros k2 Hk2.
  change (member multiboot_info_t "mmap_addr" mbi k2) with (info "mmap_addr" mbi k2). rewrite info_kept by done.
  pose proof (ll_regions _ _ _ Hleft Hf) as Hr. set (stop := u32 _) in Hr. assert (0 <= stop < 4294967296) as Hs by apply u32_range.
  apply (keeps_while _ _ (fun p => p <? stop) _ (regions k0 stop) (fun p => Z.max 0 (stop - p))); [| |exact Hr|].
  - intros p k Hk. unfold stop. by rewrite <- (info_kept "mmap_addr" k), <- (info_kept "mmap_length" k).
  - intros p Hr' Hlt. destruct Hr' as [p Hge|p Hp Ho Hw Hnext]; [lia|]. apply keeps_then; [apply region_printed|].
    apply keeps_look. intros k Hk. pose proof (member_range memory_map_t "size" p k0) as Hsz.
    assert (member memory_map_t "size" p k = member memory_map_t "size" p k0) as ->
      by (apply (kept_ld32 k0 (ll_unpaged _ _ _ Hleft) k p 24 _ Hk Ho); done).
    apply keeps_ret. rewrite u32_small by lia. split; [done|lia].
  - assert (0 <= info "mmap_addr" mbi k0) by apply member_range. lia.
Qed.

Lemma cmdline_format p k1 : kept k0 k1 -> (exists n, n < 2147483647 /\ off_screen p (n + 1) /\ is_cstr (fun i => ld8 k0 (p + i)) n /\
    forall i, 0 <= i < n -> ld8 k0 (p + i) <> 8) ->
  exists k', print (line "cmdline = %s") [p] k1 = Ret tt k' /\ kept k0 k'.
Proof.
  intros Hk (n & Hn & Ho & Hc & H8). set (fmt := line "cmdline = %s"). pose proof (ll_unpaged _ _ _ Hleft) as Hoff.
  assert (forall i, 0 <= i < 10 \/ i = 12 -> 0 < bytes_of fmt i < 256 /\ bytes_of fmt i <> 37 /\ bytes_of fmt i <> 8) as Hb.
  { intros i Hi. assert (forallb (fun i => (0 <? bytes_of fmt i) && (bytes_of fmt i <? 256) && negb (bytes_of fmt i =? 37) && negb (bytes_of fmt i =? 8))
      (seqZ 0 10 ++ [12]) = true) as E by (by vm_compute). rewrite forallb_forall in E. specialize (E i).
    assert (In i (seqZ 0 10 ++ [12])) as Hin.
    { apply list_elem_of_In, elem_of_app. rewrite elem_of_seqZ, list_elem_of_singleton. lia. }
    specialize (E Hin). lia. }
  destruct (loop_or_rule
    (fun '(i, args, k) => kept k0 k /\ (0 <= i <= 10 /\ args = [p] \/ 12 <= i <= 13))
    (fun '((i, _, _) : Z * list Z * kstate) => 13 - i)
    (fun r : option (Z * kstate) => exists j k', r = Some (j, k') /\ kept k0 k') None 2147483648 (printf_step (bytes_of fmt)) (0, [p], k1)).
  - intros [[i args] k] [Hk1 Hi]. unfold printf_step.
    destruct (decide (i = 13)) as [->|H13]; [change (bytes_of fmt 13 =? 0) with true; by exists 13, k|].
    destruct (decide (i = 10)) as [->|H10].
    + change (bytes_of fmt 10 =? 0) with false. change (bytes_of fmt 10 =? 37) with true. cbv iota.
      assert (conv_spec (bytes_of fmt) 10 = Some (11, false)) as -> by (by vm_compute). change (bytes_of fmt 11) with 115.
      destruct Hi as [[_ ->]|]; [|lia]. cbn [printf_conv hd tl].
      destruct (puts_kept k0 Hoff p n k Hk1 Hn Ho Hc H8) as (r & k2 & -> & Hk2). cbn [fmap option_fmap option_map]. split; [|lia].
      split; [done|]. right. lia.
    + assert (0 <= i < 10 /\ args = [p] \/ i = 12) as Hi' by (destruct Hi as [[Hi ->]|Hi]; [left; split; [lia|done]|right; lia]).
      destruct (Hb i ltac:(destruct Hi' as [[]|]; lia)) as (Hr & H37 & H8'). rewrite (proj2 (Z.eqb_neq (bytes_of fmt i) 0)), (proj2 (Z.eqb_neq (bytes_of fmt i) 37)) by lia.
      split; [|destruct Hi' as [[]|]; lia]. split; [|destruct Hi' as [[Hi' ->]|Hi']; [left; split; [lia|done]|right; lia]].
      eapply kept_shows; [exact Hk1|]. apply putc_shows; [by eapply kept_video|apply Hk1|lia|lia].
  - split; [done|]. left. split; [lia|done].
  - lia.
  - destruct H0 as (k' & E & Hk'). exists k'. unfold print, printf. by rewrite E.
Qed.

(** The report of what a Multiboot loader left ends, finds the file system, and
    changes the screen only. *)
Lemma report_keeps b0 : keeps' (report b0 mbi) (fun r => r = Some b).
Proof.
  destruct (ll_modules _ _ _ Hleft) as (H3 & Hn & Hm & Hb). pose proof (ll_symbols _ _ _ Hleft) as H45.
  assert (forall k, kept k0 k -> member multiboot_info_t "flags" mbi k = info "flags" mbi k0) as Hfl by (intros k Hk; by apply info_kept).
  unfold report. apply keeps_look. intros k1 Hk1. apply keeps_then; [printed|].
  apply keeps_look. intros k2 Hk2. apply keeps_then; [apply keeps_when; intros _; printed|].
  apply keeps_look. intros k3 Hk3. apply keeps_then; [apply keeps_when; intros _; printed|].
  apply keeps_look. intros k4 Hk4. apply keeps_then.
  { apply keeps_when. intros Hf. rewrite Hfl in Hf by done. change (member multiboot_info_t "cmdline" mbi k4) with (info "cmdline" mbi k4).
    rewrite info_kept by done. intros k Hk. destruct (cmdline_format _ k Hk (ll_cmdline _ _ _ Hleft Hf)) as (k' & E & Hk'). by exists tt, k'. }
  apply keeps_look. intros k5 Hk5. rewrite (Hfl k5 Hk5), H3.
  assert (member module_t "mod_start" (member multiboot_info_t "mods_addr" mbi k5) k5 = b) as ->.
  { change (member multiboot_info_t "mods_addr" mbi k5) with (info "mods_addr" mbi k5). rewrite info_kept, <- Hb by done.
    apply (kept_ld32 k0 (ll_unpaged _ _ _ Hleft) k5 _ _ _ Hk5 Hm); [done|]. change (offset_of module_t "mod_start" / 8) with 0. lia. }
  apply keeps_then; [apply modules_printed|]. apply keeps_look. intros k6 Hk6. rewrite (Hfl k6 Hk6), H45.
  apply keeps_then; [apply keeps_when; intros _; printed|].
  apply keeps_look. intros k7 Hk7. rewrite (Hfl k7 Hk7). apply keeps_then; [|by apply keeps_ret].
  apply keeps_when. apply memory_map_printed.
Qed.
End report.

(** ** From the loader to the first shell *)

Section booting.
Context `{Platform}.

(** The file system is as the loader left it. *)
Lemma kept_image b ino en k k1 : bootable b ino en k -> console_frame k k1 -> same_image (init_filesys b k) (init_filesys b k1).
Proof.
  intros [Hoff [Hb He] Hpl Hex _] Hf. pose proof (console_frame_mmu _ _ Hf) as Em.
  pose proof (ex_wf _ _ _ _ Hex) as Hwf. destruct (wf_ino _ _ Hwf), (wf_size _ _ Hwf). destruct Hpl as [Hs _ _].
  set (i0 := init_filesys b k) in *. assert (img i0 = b) as Ei by done. unfold img_end in *. rewrite Ei in *.
  assert (forall o, 0 <= o < 4096 * (n_inodes i0 + 1 + data_count (fs i0)) -> ld8 k1 (b + o) = ld8 k (b + o)) as Hg.
  { intros o Ho. change (mem_get (pmem k1) (loc (vspace k1) (b + o)) = mem_get (pmem k) (loc (vspace k) (b + o))).
    rewrite !loc_unpaged by (rewrite ?Em; done). apply (cf_mem _ _ Hf). unfold VIDEO, VIDEO_MEMORY, SCREENS_END in *. lia. }
  assert (forall o, 0 <= o <= 8 -> ld32 k1 (b + o) = ld32 k (b + o)) as Hl.
  { intros o Ho. unfold ld8 in Hg. unfold ld32, get32. rewrite <- !Z.add_assoc. by rewrite !Hg by lia. }
  split; [|exact Hg].
  change (fs (init_filesys b k1)) with (Fs b (ld32 k1 b) (ld32 k1 (b + 4)) (ld32 k1 (b + 8)) (b + 4096) (num_files_read (fs k1))).
  change (fs i0) with (Fs b (ld32 k b) (ld32 k (b + 4)) (ld32 k (b + 8)) (b + 4096) (num_files_read (fs k))).
  pose proof (Hl 0 ltac:(lia)) as Hl0. rewrite Z.add_0_r in Hl0. rewrite Hl0, !Hl by lia. by rewrite (cf_state _ _ Hf).
Qed.
Lemma bootable_kept b ino en k k1 : bootable b ino en k -> console_frame k k1 -> bootable b ino en k1.
Proof.
  intros Hbo Hf. pose proof (kept_image _ _ _ _ _ Hbo Hf) as Hsi. destruct Hbo as [Hoff [Hb He] Hpl Hex Hsz].
  assert (Z.testbit (cr0 (mmu k1)) 31 = false) as Hoff1 by (by rewrite (console_frame_mmu _ _ Hf)).
  assert (exe_data (init_filesys b k1) = exe_data (init_filesys b k)) as Ee.
  { change (exe_data k1 = exe_data k). destruct Hf as [E _]. unfold exe_data. by rewrite E. }
  destruct (same_image_file _ _ _ Hsi (ex_wf _ _ _ _ Hex)) as (Ei & Ed & En & El & _).
  assert (img_end (init_filesys b k1) = img_end (init_filesys b k)) as Eend by (unfold img_end; by rewrite Ei, En, Ed).
  split; [done|by rewrite Eend| | |by rewrite El].
  - destruct Hpl as [Hs Hl Ha]. split; [by rewrite Ei, Eend|by rewrite Ee|by rewrite Ee, Ei, Eend].
  - apply (executable_same_image _ _ _ _ _ Hex Hsi). split; [by apply sep_unpaged|].
    intros o Ho. rewrite Ee, Ei. apply outside_unpaged; [done|]. destruct Hpl as [_ _ Ha].
    rewrite En, Ed in Ho. unfold img_end in Ha. lia.
Qed.

(** C4: from the loader to the first shell: when a Multiboot loader jumps to [entry]
    with its magic number, and has left the information the specification
    describes (outside video memory, with a command line that has no backspace, if
    any), with a file system as first module, below 8 MB and apart from the
    screens and the kernel's stack, whose program "shell" is an executable that
    fits the user page, the report of that information ends, having changed no
    byte but video memory's, and the kernel initialises itself and runs the
    program in user mode, as process 0 and first process of terminal 0. The
    globals are as they are loaded: no process slot is used and alt is not held;
    and the byte [process_init] stores past the terminals is none the kernel
    uses. *)
Theorem boot_starts_shell b0 ldt0 tss0 magic addr b k ino en : slack_after_terminals -> alt_status (kbd k) = 0 ->
  (forall q, proc_used k q = 0) -> u32 magic = MULTIBOOT_BOOTLOADER_MAGIC -> loader_left (u32 addr) b k -> bootable b ino en k ->
  exists k1 k2 k3, report b0 (u32 addr) (clear k) = Ret (Some b) k1 /\ console_frame k k1 /\
    entry b0 ldt0 tss0 magic addr k = Jmp (IretUser (u32 en) 0x083FFFFC 0x23 0x2B) k3 /\
    prepared b k1 k2 /\ started 0 ino 0 shell_words.2 k2 k3 /\ active k3 = 0 /\
    processes_at k3 0 0 = 0 /\ terminal_flag (term_at k3 0) = 0.
Proof.
  intros Hpast Hal Hslots Hmag Hleft Hboot. pose proof (video_ident_unpaged _ (ll_unpaged _ _ _ Hleft)) as Hv.
  destruct (clear_spec k Hv) as [Hf Ha]. assert (kept k (clear k)) as Hk.
  { split; [done|]. destruct (abs_cursor _ _ _ _ Ha) as [Ex Ey]. unfold cursor_ok. rewrite Ex, Ey. lia. }
  destruct (report_keeps k (u32 addr) b Hleft b0 (clear k) Hk) as (r & k1 & Er & [Hf1 Hc1] & ->).
  destruct (boot_steps b0 ldt0 tss0 magic addr b k k1 ino en Hpast Hal Hmag Er Hc1 Hslots (bootable_kept _ _ _ _ _ Hboot Hf1))
    as (k2 & k3 & E & _ & Hr & _ & _ & Hst).
  exists k1, k2, k3. split; [exact Er|]. split; [exact Hf1|]. split; [exact E|]. split; [exact Hr|]. split; [exact Hst|].
  destruct Hst as [_ _ _ _ _ _ _ _ _ _ Hent [Hact _]]. destruct (pr_terminals _ _ _ Hr) as [Ha0 Hfr].
  destruct (Hfr 0 ltac:(lia)) as (Hflag & _). unfold entered in Hent. rewrite Ha0, Hflag in Hent.
  destruct Hent as (E0 & _ & E1). split; [congruence|]. split; [|exact E1]. unfold processes_at. by rewrite E0.
Qed.
End booting.

(** ** A boot

    The memory of Boot.v, with a command line and a memory map of one region. *)

Section samples.
#[local] Existing Instance quiet_platform.

Definition loader_memory : mem :=
  put32 0x9300 20 (put32 0x9030 0x9300 (put32 0x902C 24 (put_bytes 0x9200 (chars "kernel") (put32 0x9010 0x9200
    (put32 0x9000 0x4C boot_memory))))).
Definition at_loader : kstate := at_boot <| pmem := loader_memory |>.

Lemma at_loader_left : loader_left 0x9000 0x10000 at_loader.
Proof.
  split.
  - by vm_compute.
  - split; [done|by left].
  - intros _. exists 6. split; [done|]. assert (info "cmdline" 0x9000 at_loader = 0x9200) as -> by (by vm_compute).
    split; [split; [done|by left]|]. assert (forallb (fun i => negb (ld8 at_loader (0x9200 + i) =? 0) && negb (ld8 at_loader (0x9200 + i) =? 8)) (seqZ 0 6) = true)
      as E by (by vm_compute). rewrite forallb_forall in E.
    assert (forall i, 0 <= i < 6 -> ld8 at_loader (0x9200 + i) <> 0 /\ ld8 at_loader (0x9200 + i) <> 8) as Hb.
    { intros i Hi. specialize (E i). rewrite <- list_elem_of_In, elem_of_seqZ in E. specialize (E ltac:(lia)). lia. }
    split; [split; [done|split; [by vm_compute|]]|]; intros i Hi; by apply Hb.
  - split; [by vm_compute|]. assert (info "mods_count" 0x9000 at_loader = 1) as -> by (by vm_compute).
    assert (info "mods_addr" 0x9000 at_loader = 0x9100) as -> by (by vm_compute).
    split; [done|]. split; [split; [done|by left]|by vm_compute].
  - by vm_compute.
  - intros _. assert (info "mmap_addr" 0x9000 at_loader = 0x9300) as -> by (by vm_compute).
    assert (info "mmap_length" 0x9000 at_loader = 24) as -> by (by vm_compute).
    assert (member memory_map_t "size" 0x9300 at_loader = 20) as Es by (by vm_compute).
    apply rg_next; [done|split; [done|by left]|by rewrite Es|]. rewrite Es. by apply rg_end.
Qed.
Lemma at_loader_bootable : bootable 0x10000 0 0x08048018 at_loader.
Proof.
  split; [by vm_compute|split; [done|by vm_compute]|split; [left; by vm_compute|by vm_compute|right; by vm_compute]| |by vm_compute].
  split; [eexists; split; [by vm_compute|by split]| |by vm_compute..|].
  - split; [by vm_compute..|]. intros b Hb.
    assert (file_length (init_filesys 0x10000 at_loader) 0 = 48) as -> by (by vm_compute). intros ?.
    assert (b = 0) as -> by lia. by vm_compute.
  - assert (Z.testbit (cr0 (mmu (init_filesys 0x10000 at_loader))) 31 = false) as Hoff by (by vm_compute).
    split; [by apply sep_unpaged|]. intros o Ho. apply outside_unpaged; [done|].
    assert (img (init_filesys 0x10000 at_loader) = 0x10000 /\ exe_data (init_filesys 0x10000 at_loader) = 0x7f0000 /\
      4096 * (n_inodes (init_filesys 0x10000 at_loader) + 1 + data_count (fs (init_filesys 0x10000 at_loader))) <= 0x10000)
      as (-> & -> & Hs) by (split; [|split]; by vm_compute). lia.
Qed.


Lemma boot_starts_shell_witness :
  exists k1 k3, report 0 0x9000 (clear at_loader) = Ret (Some 0x10000) k1 /\ console_frame at_loader k1 /\
    entry 0 0 0 0x2BADB002 0x9000 at_loader = Jmp (IretUser 0x08048018 0x083FFFFC 0x23 0x2B) k3 /\
    processes_at k3 0 0 = 0.
Proof.
  destruct (boot_starts_shell 0 0 0 0x2BADB002 0x9000 0x10000 at_loader 0 0x08048018 slack) as (k1 & k2 & k3 & Er & Hf & E & _ & _ & _ & Hp & _).
  - by vm_compute.
  - intros q. by vm_compute.
  - by vm_compute.
  - exact at_loader_left.
  - exact at_loader_bootable.
  - exists k1, k3. split; [exact Er|]. split; [exact Hf|]. split; [exact E|exact Hp].
Defined.
End samples.
