(* ===== verification/Gdt.v ===== *)
(** The global descriptor table (x86_desc.S), the selectors of the kernel, and
    what an access through a segment means.

    The entries are the 64-bit words of the file; the last two are those the
    kernel fills ([load_descriptors] of Boot.v), which the file leaves 0. *)

From S2P Require Import Prelude Bytes State Idt Boot.
#[local] Open Scope Z_scope.
#[local] Open Scope kernel_scope.

Definition KERNEL_DS := 0x0018.
Definition USER_CS := 0x0023.
Definition USER_DS := 0x002B.

Section gdt.
Context `{Platform}.

(** x86_desc.S [gdt], and the limit in [gdt_desc]. *)
Definition gdt (k : kstate) : list Z :=
  [0; 0; 0x00CF9A000000FFFF; 0x00CF92000000FFFF; 0x00CFFA000000FFFF; 0x00CFF2000000FFFF;
   tss_desc_ptr (cpu k); ldt_desc_ptr (cpu k)].
Definition gdt_limit (k : kstate) : Z := 8 * Z.of_nat (length (gdt k)) - 1.

(** The descriptor of a selector: its index is from bit 3 on, bit 2 is 0 for
    this table, and the descriptor must lie within the limit. *)
Definition descriptor (k : kstate) (sel : Z) : option Z :=
  if Z.testbit sel 2 || (gdt_limit k <? 8 * Z.shiftr sel 3 + 7) then None else gdt k !! Z.to_nat (Z.shiftr sel 3).

(** The last byte of a segment, whose limit counts pages if [granularity] is set,
    and the linear address of a byte in it. *)
Definition last_byte (d : Z) : Z :=
  if bits d 55 1 =? 1 then Seg.limit d * 4096 + 4095 else Seg.limit d.
Definition linear (d off : Z) : option Z :=
  if last_byte d <? off then None else Some (u32 (Seg.base d + off)).

(** x86_desc.S [idt_desc_ptr]: the limit of the interrupt table. *)
Definition idt_limit : Z := NUM_VEC * 8 - 1.

(** A present segment of code (executable, readable) or data (writable), for
    32-bit code. *)
Record is_segment (d level : Z) (code : bool) : Prop := {
  seg_present : bits d 47 1 = 1;
  seg_sys : bits d 44 1 = 1;
  seg_type : bits d 40 4 = if code then 10 else 2;
  seg_dpl : bits d 45 2 = level;
  seg_opsize : bits d 54 1 = 1
}.
(** A present system descriptor of type [t]. *)
Record is_system (d t base limit : Z) : Prop := {
  sys_present : bits d 47 1 = 1;
  sys_sys : bits d 44 1 = 0;
  sys_type : bits d 40 4 = t;
  sys_base : Seg.base d = base;
  sys_last : last_byte d = limit
}.


Lemma flat_linear d off : Seg.base d = 0 -> last_byte d = 4294967295 -> 0 <= off < 4294967296 -> linear d off = Some off.
Proof. intros Hb Hl Ho. unfold linear. rewrite Hb, Hl. test_false (4294967295 <? off). f_equal. warith. Qed.

Lemma load_descriptors_idt ldt0 tss0 k v : idt_at (load_descriptors ldt0 tss0 k) v = idt_at k v.
Proof. done. Qed.

(** C26: segmentation as the kernel sets it up: each of the four selectors has a
    present segment of its privilege level, code or data as its name says, whose
    linear addresses are the offsets for the whole 4 GB, so that segments
    translate nothing; the task register selects the task state segment, and the
    LDT register the LDT, with their addresses and sizes; and every gate of the
    interrupt table, which lies within the table's limit, enters ring-0 code. *)
Theorem segments_are_flat ldt0 tss0 k0 : let k := load_descriptors ldt0 tss0 (init_idt k0) in
  (forall sel code, (sel, code) ∈ [(KERNEL_CS, true); (KERNEL_DS, false); (USER_CS, true); (USER_DS, false)] ->
     exists d, descriptor k sel = Some d /\ is_segment d (Z.land sel 3) code /\
       forall off, 0 <= off < 4294967296 -> linear d off = Some off) /\
  (exists d, descriptor k (tr (cpu k)) = Some d /\ is_system d 9 (u32 addr_tss) (TSS_SIZE - 1)) /\
  (exists d, descriptor k (ldtr (cpu k)) = Some d /\ is_system d 2 (u32 addr_ldt) 31) /\
  (forall v, 0 <= v < 256 -> 8 * v + 7 <= idt_limit /\
     exists d, descriptor k (bits (idt_at k v).1 16 16) = Some d /\ is_segment d KERNEL_PL true).
Proof.
  intros k. split; [|split; [|split]].
  - intros sel code Hin. apply list_elem_of_In in Hin. simpl in Hin.
    destruct Hin as [[= <- <-] | [[= <- <-] | [[= <- <-] | [[= <- <-] | []]]]]; eexists; (split; [reflexivity|]);
      (split; [by split|]); intros off Ho; by apply flat_linear.
  - pose proof (boot_descriptors ldt0 tss0 (init_idt k0)) as Hd. cbv zeta in Hd. fold k in Hd.
    destruct Hd as (_ & _ & _ & _ & _ & _ & _ & Hb & Hl & Ht & Hs & _ & Hp & Hg & _ & -> & _).
    eexists. split; [reflexivity|]. split; try done. unfold last_byte. rewrite Hg. change (0 =? 1) with false. unfold TSS_SIZE in *. lia.
  - pose proof (boot_descriptors ldt0 tss0 (init_idt k0)) as Hd. cbv zeta in Hd. fold k in Hd.
    destruct Hd as (Hb & Hl & Ht & Hs & _ & Hp & Hg & _ & _ & _ & _ & _ & _ & _ & -> & _).
    eexists. split; [reflexivity|]. split; try done. unfold last_byte. rewrite Hg. change (0 =? 1) with false. unfold TSS_SIZE in *. lia.
  - intros v Hv. split; [unfold idt_limit, NUM_VEC; lia|].
    unfold k. rewrite load_descriptors_idt. assert (bits (idt_at (init_idt k0) v).1 16 16 = KERNEL_CS) as ->.
    { pose proof (init_idt_is k0 v Hv) as Hg. cbv zeta in Hg. repeat case_match; apply Hg. }
    eexists. split; [reflexivity|]. by split.
Qed.
End gdt.

(** ** A concrete run *)

Lemma segments_are_flat_witness :
  exists d, descriptor (@load_descriptors quiet_platform 0 0 (@init_idt quiet_platform zero_state)) USER_DS = Some d /\
    linear d 0xFFFFFFFF = Some 0xFFFFFFFF.
Proof.
  destruct (@segments_are_flat quiet_platform 0 0 zero_state) as [Hs _].
  destruct (Hs USER_DS false) as (d & E & _ & Hl); [apply list_elem_of_In; simpl; tauto|].
  exists d. split; [exact E|]. by apply Hl.
Defined.
