(* ===== verification/SysSpec.v ===== *)
(** What the system calls promise to user programs.

    [os] is what a program can observe of the kernel: the files, its arguments,
    its descriptors, the lines typed at its terminal, how many more programs can
    be started, the screen, and who waits for the program to end. The [spec_*]
    functions say, call by call, the result, the bytes stored in the program's
    buffer and the new [os]; [None] where nothing is promised (a wait that
    nothing ends, the clock). The class [Machine] is the interface a program
    runs on, its memory and the instruction [int 0x80]; the class [Kernel]
    states that the calls that come back behave as specified, and [Commands] that
    [execute] starts programs and [halt] ends them. The programs are proved against
    these; KernelOs.v and Spawn.v prove that the kernel of this development is
    one. *)

From Stdlib Require Import String.
From S2P Require Import Prelude Bytes State Console.
#[local] Open Scope Z_scope.
#[local] Open Scope kernel_scope.

(** ** The abstract state *)

Inductive node := Regular (contents : list Z) | Folder | Clock.

(** What a descriptor stands for. *)
Inductive handle := Free | Keyboard | Screen | Reading (contents : list Z) (pos : Z) | Listing | Ticks.

(** A program that waits for another to end: its arguments, its descriptors, the
    bytes of its page. *)
Record caller := Caller {
  its_arguments : list Z;
  its_descriptors : gmap Z handle;
  its_page : Z -> Z
}.
(** Where a program stands: the first shell of its terminal, under it as the
    program it started, or elsewhere, where no promise is made about its end. *)
Inductive place := Home | Under (c : caller) | Elsewhere.

Record os := Os {
  disk : list (list Z * node);
  arguments : list Z;
  descriptors : gmap Z handle;
  listed : Z;
  typed : list (list Z);
  spare : nat;
  screen : Spec.t;
  stands : place
}.

Definition handles (o : os) (fd : Z) : handle := default Free (descriptors o !! fd).
Definition put_handle (fd : Z) (h : handle) (m : gmap Z handle) : gmap Z handle :=
  match h with Free => delete fd m | _ => <[fd := h]> m end.
Definition set_handle (fd : Z) (h : handle) (o : os) : os :=
  Os (disk o) (arguments o) (put_handle fd h (descriptors o)) (listed o) (typed o) (spare o) (screen o) (stands o).
Definition set_listed (n : Z) (o : os) : os :=
  Os (disk o) (arguments o) (descriptors o) n (typed o) (spare o) (screen o) (stands o).
Definition set_typed (ls : list (list Z)) (o : os) : os :=
  Os (disk o) (arguments o) (descriptors o) (listed o) ls (spare o) (screen o) (stands o).
Definition show (l : list Z) (o : os) : os :=
  Os (disk o) (arguments o) (descriptors o) (listed o) (typed o) (spare o) (fold_left (fun s c => Spec.write c s) l (screen o))
    (stands o).

Lemma put_handle_lookup fd h m i : put_handle fd h m !! i =
  if fd =? i then match h with Free => None | _ => Some h end else m !! i.
Proof.
  unfold put_handle. destruct (Z.eqb_spec fd i) as [->|].
  - destruct h; [by rewrite lookup_delete_eq|by rewrite lookup_insert_eq..].
  - destruct h; [by rewrite lookup_delete_ne|by rewrite lookup_insert_ne..].
Qed.
Lemma handles_set fd h o i : handles (set_handle fd h o) i = if fd =? i then h else handles o i.
Proof.
  unfold handles, set_handle. cbn [descriptors]. rewrite put_handle_lookup. destruct (fd =? i); [by destruct h|done].
Qed.
Lemma set_handle_twice fd h1 h2 o : set_handle fd h1 (set_handle fd h2 o) = set_handle fd h1 o.
Proof.
  unfold set_handle. cbn [disk arguments descriptors listed typed screen]. f_equal.
  apply map_eq. intros i. rewrite !put_handle_lookup. by destruct (fd =? i).
Qed.

#[export] Instance handle_free_dec h : Decision (h = Free).
Proof. destruct h; (left; done) || (right; done). Defined.

Lemma show_app l1 l2 o : show (l1 ++ l2) o = show l2 (show l1 o).
Proof. unfold show. simpl. by rewrite fold_left_app. Qed.
Lemma show_nil o : show [] o = o.
Proof. by destruct o. Qed.

Lemma show_listed l n o : show l (set_listed n o) = set_listed n (show l o).
Proof. done. Qed.

Lemma show_typed l ls o : show l (set_typed ls o) = set_typed ls (show l o).
Proof. done. Qed.

Lemma show_retyped l1 l2 ls ls' o : set_typed ls (show l2 (set_typed ls' (show l1 o))) = set_typed ls (show (l1 ++ l2) o).
Proof. by rewrite show_typed, show_app. Qed.

(** The first file of a name, and the lowest free descriptor from 2 on. *)
Definition find_file (name : list Z) (o : os) : option node :=
  snd <$> head (filter (fun e => e.1 = name) (disk o)).
Definition free_handle (o : os) : option Z := find (fun i => bool_decide (handles o i = Free)) [2; 3; 4; 5; 6; 7].

Lemma free_handle_first o i : 2 <= i <= 7 -> handles o i = Free -> (forall j, 2 <= j < i -> handles o j <> Free) ->
  free_handle o = Some i.
Proof.
  intros Hi Hf Hno.
  assert (forall j, 2 <= j < i -> bool_decide (handles o j = Free) = false) as Hb by (intros; by apply bool_decide_eq_false, Hno).
  apply (bool_decide_eq_true_2 (handles o i = Free)) in Hf. unfold free_handle.
  assert (i = 2 \/ i = 3 \/ i = 4 \/ i = 5 \/ i = 6 \/ i = 7) as Hc by lia.
  destruct Hc as [-> | [-> | [-> | [-> | [-> | ->]]]]]; cbn [find]; rewrite ?Hb by lia; by rewrite Hf.
Qed.
Lemma free_handle_none o : (forall j, 2 <= j <= 7 -> handles o j <> Free) -> free_handle o = None.
Proof.
  intros Hno. unfold free_handle.
  assert (forall j, 2 <= j <= 7 -> bool_decide (handles o j = Free) = false) as Hb by (intros; by apply bool_decide_eq_false, Hno).
  cbn [find]. by rewrite !Hb by lia.
Qed.

(** ** The calls *)

(** The result, the bytes stored from the start of the buffer, the new state. *)
Record effect := Effect { result : Z; given : list Z; next : os }.
Definition fails (o : os) : option effect := Some (Effect (-1) [] o).

Definition in_table (fd : Z) : bool := (0 <=? fd) && (fd <=? 7).

(** The bytes a [read] of [n] bytes gives from position [pos]. *)
Definition chunk (contents : list Z) (pos n : Z) : list Z :=
  take (Z.to_nat n) (drop (Z.to_nat pos) contents).
(** A name in the 33 bytes [directory_read] stores. *)
Definition padded (name : list Z) : list Z := name ++ replicate (33 - length name) 0.

Definition spec_read (fd n : Z) (o : os) : option effect :=
  if negb (in_table fd) then fails o
  else
    match handles o fd with
    | Free | Screen => fails o
    | Reading c pos =>
        let l := chunk c pos n in
        let r := Z.of_nat (length l) in
        Some (Effect r l (set_handle fd (Reading c (pos + r)) o))
    | Listing =>
        let name := default [] (fst <$> disk o !! Z.to_nat (listed o)) in
        if listed o <? 63
        then Some (Effect (Z.of_nat (length name)) (padded name) (set_listed (listed o + 1) o))
        else None
    | Keyboard =>
        match typed o with
        | l :: ls =>
            if Z.of_nat (length l) <? n
            then Some (Effect (Z.of_nat (length l) + 1) (l ++ [10]) (set_typed ls (show (l ++ [10]) o)))
            else None
        | [] => None
        end
    | Ticks => None
    end.

(** The bytes of its buffer a [read] may change. *)
Definition room (fd n : Z) (o : os) : Z :=
  if negb (in_table fd) then n else match handles o fd with Listing => Z.max n 33 | _ => n end.

Definition spec_write (fd : Z) (l : list Z) (o : os) : option effect :=
  if negb (in_table fd) then fails o
  else
    match handles o fd with
    | Screen => if existsb (Z.eqb 8) l then None else Some (Effect (Z.of_nat (length l)) [] (show l o))
    | Ticks => None
    | _ => fails o
    end.

Definition handle_of (f : node) : handle :=
  match f with Regular c => Reading c 0 | Folder => Listing | Clock => Ticks end.
Definition spec_open (name : list Z) (o : os) : option effect :=
  match find_file name o, free_handle o with
  | Some f, Some i =>
      let o := set_handle i (handle_of f) o in
      Some (Effect i [] (match f with Folder => set_listed 0 o | _ => o end))
  | _, _ => fails o
  end.

Definition spec_close (fd : Z) (o : os) : option effect :=
  if (2 <=? fd) && (fd <=? 7) && negb (bool_decide (handles o fd = Free))
  then Some (Effect 0 [] (set_handle fd Free o)) else fails o.

Definition spec_getargs (n : Z) (o : os) : option effect :=
  if Z.of_nat (length (arguments o)) + 1 <=? n then Some (Effect 0 (arguments o ++ [0]) o) else fails o.

(** A command line: the name up to the first blank, the arguments after it. *)
Fixpoint until (ends : Z -> bool) (l : list Z) : list Z :=
  match l with [] => [] | c :: l => if ends c then [] else c :: until ends l end.
Definition first_word (l : list Z) : list Z := until (fun c => (c =? 32) || (c =? 10)) l.
Definition after_word (l : list Z) : list Z :=
  match drop (length (first_word l)) l with
  | c :: l => if c =? 32 then until (Z.eqb 10) l else []
  | [] => []
  end.
(** The words fit the kernel's arrays, and do not start with "quit". *)
Definition command_fits (l : list Z) : bool :=
  (Z.of_nat (length (first_word l)) <? 32) && (Z.of_nat (length (after_word l)) <? 128) &&
  negb (bool_decide (take 4 (first_word l) = chars "quit")).
(** A command that fails: no name, or not the name of a regular file. *)
Definition spec_execute (l : list Z) (o : os) : option effect :=
  match first_word l with
  | [] => fails o
  | name =>
      if command_fits l then
        match find_file name o with
        | Some (Regular _) => None
        | _ => fails o
        end
      else None
  end.

Definition is_elf (c : list Z) : bool := bool_decide (take 4 c = [0x7F; 0x45; 0x4C; 0x46]) && (40 <=? Z.of_nat (length c)).
(** What a program that was started finds: the standard descriptors, its
    arguments, the rest as it was; [page] is that of the program that started
    it. *)
Definition below (page : Z -> Z) (o : os) : place :=
  match stands o with Home => Under (Caller (arguments o) (descriptors o) page) | _ => Elsewhere end.
Definition child (args : list Z) (page : Z -> Z) (o : os) : os :=
  Os (disk o) args (<[0 := Keyboard]> (<[1 := Screen]> ∅)) (listed o) (typed o) (pred (spare o)) (screen o) (below page o).
(** A command that starts a program: the file is an executable that fits the
    program's page, and another program can be started. The result is the
    file. *)
Definition spec_starts (l : list Z) (o : os) : option (list Z) :=
  match first_word l with
  | [] => None
  | name =>
      match find_file name o with
      | Some (Regular c) =>
          if command_fits l && is_elf c && (Z.of_nat (length c) <? 0x3B8000) && negb (spare o =? 0)%nat
          then Some c else None
      | _ => None
      end
  end.
(** What the program that waited finds. *)
Definition resumed (c : caller) (o : os) : os :=
  Os (disk o) (its_arguments c) (its_descriptors c) (listed o) (typed o) (S (spare o)) (screen o) Home.

(** ** The machine a program runs on *)

(** The program's page. *)
Definition user (p : Z) : Prop := 0x8000000 <= p < 0x8400000.
Definition user_range (p n : Z) : Prop := 0x8000000 <= p /\ p + n <= 0x8400000.

(** A computation of a program comes back; or another program has been started,
    and then runs; or the program has ended, with the status that the one that
    waits for it gets in eax; or it does not end: not within the turns allowed to
    its loops, or in a call that does not. *)
Inductive reply (W A : Type) := Back (a : A) (w : W) | Gone (w : W) | Ended (status : Z) (w : W) | Late.
Arguments Back {W A} _ _.
Arguments Gone {W A} _.
Arguments Ended {W A} _ _.
Arguments Late {W A}.

(** Memory, the system call with [eax], [ebx], [ecx] and [edx], and what a call
    passes where the program does not say: the words a stub finds above its
    arguments on the stack, the registers [call_sys] leaves alone. *)
Class Machine (W : Type) := {
  machine_bytes :: ByteArr W;
  int80 : Z -> Z -> Z -> Z -> W -> reply W Z;
  above : Z -> W -> Z
}.

(** ** Programs *)

Declare Scope user_scope.
Delimit Scope user_scope with U.

Definition U (W A : Type) := W -> reply W A.
Definition done_with {W A} (a : A) : U W A := fun w => Back a w.
Definition and_then {W A B} (m : U W A) (f : A -> U W B) : U W B := fun w =>
  match m w with Back a w => f a w | Gone w => Gone w | Ended s w => Ended s w | Late => Late end.
Notation "x <- m ; f" := (and_then m (fun x => f))
  (at level 100, m at level 99, f at level 200, right associativity) : user_scope.
Notation "m ;; f" := (and_then m (fun _ => f))
  (at level 100, f at level 200, right associativity) : user_scope.

Section programs.
Context {W : Type}.
#[local] Open Scope user_scope.

Lemma and_then_back {A B} (m : U W A) (f : A -> U W B) w a w' : m w = Back a w' -> and_then m f w = f a w'.
Proof. intros E. unfold and_then. by rewrite E. Qed.

(** A loop, with the number of turns allowed to it. *)
Fixpoint turns {S A} (n : nat) (body : S -> U W (S + A)) (s : S) : U W A :=
  match n with
  | O => fun _ => Late
  | Datatypes.S m => r <- body s ; match r with inl s => turns m body s | inr a => done_with a end
  end.

(** Total correctness: an invariant under a ghost state [g], with a measure of
    it that decreases; as many turns as the measure are enough. *)
Lemma turns_rule {G S A} (Inv : G -> S -> W -> Prop) (m : G -> nat) (Post : A -> W -> Prop) (body : S -> U W (S + A)) :
  (forall g s w, Inv g s w -> exists r w', body s w = Back r w' /\
     match r with inl s' => exists g', Inv g' s' w' /\ (m g' < m g)%nat | inr a => Post a w' end) ->
  forall n g s w, Inv g s w -> (m g < n)%nat -> exists a w', turns n body s w = Back a w' /\ Post a w'.
Proof.
  intros Hbody n. induction n as [|n IH]; intros g s w Hi Hm; [lia|].
  destruct (Hbody g s w Hi) as (r & w' & E & Hr). cbn [turns]. rewrite (and_then_back _ _ _ _ _ E).
  destruct r as [s'|a].
  - destruct Hr as (g' & Hi' & Hlt). apply (IH g'); [done|lia].
  - by exists a, w'.
Qed.
End programs.

Section memory.
Context `{ByteArr W}.

Definition bytes_at (w : W) (p : Z) (l : list Z) : Prop := forall i c, l !! i = Some c -> get8 w (p + Z.of_nat i) = c.
(** A string in the program's page. *)
Record string_at (w : W) (p : Z) (l : list Z) : Prop := {
  sa_range : user_range p (Z.of_nat (length l) + 1);
  sa_bytes : bytes_at w p (l ++ [0]);
  sa_chars : Forall (fun c => 0 < c < 256) l
}.
(** Of the page only the bytes [p .. p + n) may differ. *)
Definition changes (w w' : W) (p n : Z) : Prop :=
  forall j, user j -> j < p \/ p + n <= j -> get8 w' j = get8 w j.
End memory.

(** ** The promise *)

Section kernel.
Context `{Machine W}.

(** The call has effect [e] in state [w], its buffer being [n] bytes at [p]. *)
Definition does (serves : os -> W -> Prop) (r : reply W Z) (w : W) (p n : Z) (e : effect) : Prop :=
  exists w', r = Back (result e) w' /\ serves (next e) w' /\ bytes_at w' p (given e) /\ changes w w' p n.
End kernel.

Class Kernel (W : Type) `{Machine W} := {
  serves : os -> W -> Prop;
  serves_sep o w p q : serves o w -> user p -> user q -> loc w p = loc w q -> p = q;
  serves_store o w p v : serves o w -> user p -> serves o (put8 p v w);
  serves_disk o w : serves o w -> Z.of_nat (length (disk o)) <= 62 /\
    Forall (fun e => 0 < Z.of_nat (length e.1) <= 32 /\ Forall (fun c => 0 < c < 256) e.1) (disk o);
  kernel_execute o w name l c d e : serves o w -> spec_execute l o = Some e -> string_at w name l ->
    does serves (int80 2 name c d w) w name 0 e;
  kernel_read o w fd buf n e : serves o w -> spec_read (s32 fd) n o = Some e -> 0 <= n < 2147483648 ->
    user_range buf (room (s32 fd) n o) -> does serves (int80 3 fd buf n w) w buf (room (s32 fd) n o) e;
  kernel_write o w fd buf l e : serves o w -> spec_write (s32 fd) l o = Some e ->
    user_range buf (Z.of_nat (length l)) -> bytes_at w buf l ->
    does serves (int80 4 fd buf (Z.of_nat (length l)) w) w buf 0 e;
  kernel_open o w name l c d e : serves o w -> l <> [] -> spec_open l o = Some e -> string_at w name l ->
    does serves (int80 5 name c d w) w name 0 e;
  kernel_open_empty o w name c d : serves o w -> string_at w name [] ->
    does serves (int80 5 name c d w) w name 0 (Effect (-1) [] o);
  kernel_close o w fd c d e : serves o w -> spec_close (s32 fd) o = Some e ->
    does serves (int80 6 fd c d w) w 0 0 e;
  kernel_getargs o w buf n d e : serves o w -> spec_getargs n o = Some e -> 0 <= n < 2147483648 ->
    user_range buf n -> does serves (int80 7 buf n d w) w buf n e;
  kernel_vidmap o w p c d : serves o w -> 0 <= p < 4294967296 -> ~ user p ->
    does serves (int80 8 p c d w) w 0 0 (Effect (-1) [] o);
  kernel_unknown o w n b c d : serves o w -> s32 n <= 0 \/ 10 < s32 n ->
    does serves (int80 n b c d w) w 0 0 (Effect (-1) [] o)
}.

(** Where the kernel loads a program. *)
Definition TEXT : Z := 0x08048000.

Class Commands (W : Type) `{Kernel W} := {
  kernel_starts o w name l c d f : serves o w -> spec_starts l o = Some f -> string_at w name l ->
    exists w', int80 2 name c d w = Gone w' /\ serves (child (after_word l) (get8 w) o) w' /\ bytes_at w' TEXT f;
  kernel_halts o w c s x y : serves o w -> stands o = Under c ->
    exists w', int80 1 s x y w = Ended (u8 s) w' /\ serves (resumed c o) w' /\
      forall p, user p -> get8 w' p = its_page c p
}.
