(* ===== verification/Support.v ===== *)
(** The library of the user programs (src/syscalls: ece391support.c and
    ece391syscall.S): string routines over the program's memory, and the
    system-call stubs.

    The string routines are compared with those of the kernel's lib.c: [strlen]
    and [itoa] are the same functions. *)

From Stdlib Require Import String.
From S2P Require Import Prelude Bytes CString Console Printf SysSpec.
#[local] Open Scope Z_scope.

(** ** The string routines *)

Section strings.
Context `{ByteArr A}.

(** ece391support.c [ece391_strlen]; [None] when no NUL ends the string. *)
Definition ece391_strlen (s : Z) (a : A) : option Z :=
  match loop 4294967296 (fun '(s, len) => if get8 a s =? 0 then inr len else inl (s + 1, u32 (len + 1))) (s, 0) with
  | inr len => Some len
  | inl _ => None
  end.

(** [ece391_strcpy]. *)
Definition ece391_strcpy (dst src : Z) (a : A) : option A :=
  match loop 4294967296
          (fun '(dst, src, a) => let c := get8 a src in
             let a := put8 dst c a in
             if c =? 0 then inr a else inl (dst + 1, src + 1, a)) (dst, src, a) with
  | inr a => Some a
  | inl _ => None
  end.

(** [ece391_strcmp]. *)
Definition ece391_strcmp (s1 s2 : Z) (a : A) : option Z :=
  match loop 4294967296
          (fun '(s1, s2) => if get8 a s1 =? get8 a s2
             then if get8 a s1 =? 0 then inr 0 else inl (s1 + 1, s2 + 1)
             else inr (get8 a s1 - get8 a s2)) (s1, s2) with
  | inr r => Some r
  | inl _ => None
  end.

(** [ece391_strncmp]. *)
Definition ece391_strncmp (s1 s2 n : Z) (a : A) : Z :=
  if n =? 0 then 0
  else loop_or 0 4294967296
         (fun '(s1, s2, n) => if get8 a s1 =? get8 a s2
            then if (get8 a s1 =? 0) || (n - 1 =? 0) then inr 0 else inl (s1 + 1, s2 + 1, n - 1)
            else inr (get8 a s1 - get8 a s2)) (s1, s2, n).

(** [ece391_strrev]. *)
Definition ece391_strrev (s : Z) (a : A) : option A :=
  match ece391_strlen s a with
  | None => None
  | Some len =>
      let fin := s32 (len - 1) in
      if fin <=? 0 then Some a
      else
        match loop (Z.to_pos (len + 1))
                (fun '(beg, fin, a) =>
                   if beg <? fin then
                     let tmp := get8 a (s + fin) in
                     let a := put8 (s + fin) (get8 a (s + beg)) a in
                     let a := put8 (s + beg) tmp a in
                     inl (beg + 1, fin - 1, a)
                   else inr a) (0, fin, a) with
        | inr a => Some a
        | inl _ => None
        end
  end.

(** [ece391_itoa], less its result, the buffer. *)
Definition ece391_itoa (value buf radix : Z) (a : A) : option A :=
  if value =? 0 then Some (put8 (buf + 1) 0 (put8 buf 48 a))
  else if u32 radix =? 0 then None
  else
    match loop 33
            (fun '(newbuf, newval, a) =>
               if 0 <? newval then
                 let i := newval mod u32 radix in
                 inl (newbuf + 1, newval / u32 radix, put8 newbuf (itoa_lookup i) a)
               else inr (put8 newbuf 0 a)) (buf, value, a) with
    | inr a => ece391_strrev buf a
    | inl _ => None
    end.

Implicit Types (a : A).

(** [ece391_strlen] is [strlen]. *)
Lemma ece391_strlen_is s a : ece391_strlen s a = strlen (fun i => get8 a (s + i)).
Proof.
  unfold ece391_strlen, strlen. rewrite !loop_nloop.
  assert (forall n i, 0 <= i -> i + Z.of_nat n <= 4294967296 ->
    match nloop n (fun '(s, len) => if get8 a s =? 0 then inr len else inl (s + 1, u32 (len + 1))) (s + i, i) with
    | inr len => Some len | inl _ => None end =
    match nloop n (fun len => if get8 a (s + len) =? 0 then inr len else inl (len + 1)) i with
    | inr len => Some len | inl _ => None end) as H1.
  { induction n as [|n IH]; intros i Hi Hn; cbn [nloop]; [done|]. destruct (get8 a (s + i) =? 0); [done|].
    destruct n as [|n]; [done|]. rewrite u32_small by lia. rewrite <- Z.add_assoc. apply IH; lia. }
  specialize (H1 (Pos.to_nat 4294967296) 0). rewrite Z.add_0_r in H1. apply H1; lia.
Qed.

(** [ece391_strrev] and [ece391_itoa] are [strrev] and [itoa]. *)
Lemma ece391_strrev_is s a : ece391_strrev s a = strrev s a.
Proof.
  unfold ece391_strrev, strrev. rewrite ece391_strlen_is. destruct (strlen _) as [len|]; [|done].
  destruct (Z.leb_spec (s32 (len - 1)) 0) as [Hle|]; [|done].
  rewrite loop_nloop.
  destruct (Pos2Nat.is_succ (Z.to_pos (len + 1))) as [m ->]. cbn [nloop]. by test_false (0 <? s32 (len - 1)).
Qed.
Lemma ece391_itoa_is v buf r a : ece391_itoa v buf r a = itoa v buf r a.
Proof.
  unfold ece391_itoa, itoa. case_match; [done|]. case_match; [done|].
  destruct (loop _ _ _); [done|]. apply ece391_strrev_is.
Qed.

Lemma ece391_strlen_some s a n : is_cstr (fun i => get8 a (s + i)) n -> n < 4294967296 -> ece391_strlen s a = Some n.
Proof. rewrite ece391_strlen_is. apply strlen_some. Qed.

(** A string copied down over itself; what every store keeps is kept. *)
Lemma ece391_strcpy_down (P : A -> Prop) dst src n a : is_cstr (fun i => get8 a (src + i)) n -> n < 4294967296 ->
  sep_range a dst (n + 1) -> (forall i j, 0 <= j < i -> i <= n -> loc a (dst + j) <> loc a (src + i)) ->
  P a -> (forall b i x, P b -> 0 <= i <= n -> P (put8 (dst + i) x b)) ->
  exists a', ece391_strcpy dst src a = Some a' /\ filled a a' dst (n + 1) (fun i => get8 a (src + i)) /\ P a'.
Proof.
  intros (Hn & Hz & Hnz) Hlt Hs Ho HP Hput. unfold ece391_strcpy.
  loop_with
    (fun '(d, s, b) => exists i, d = dst + i /\ s = src + i /\ 0 <= i <= n /\ filled a b dst i (fun i => get8 a (src + i)) /\ P b)
    (fun '((d, _, _) : Z * Z * A) => dst + n - d)
    (fun b => filled a b dst (n + 1) (fun i => get8 a (src + i)) /\ P b) r Hr; [..|by eauto].
  - intros [[d s] b] (i & -> & -> & Hi & Hf & HPb). cbv zeta.
    assert (get8 b (src + i) = get8 a (src + i)) as ->.
    { apply (filled_outside _ _ _ _ _ _ Hf). intros j Hj. apply Ho; lia. }
    pose proof (Hput b i (get8 a (src + i)) HPb Hi) as HP'.
    assert (filled a (put8 (dst + i) (get8 a (src + i)) b) dst (i + 1) (fun i => get8 a (src + i))) as Hf'
      by (apply (filled_snoc _ _ _ (n + 1)); [done|lia|apply u8_small, get8_range|done]).
    destruct (Z.eqb_spec (get8 a (src + i)) 0) as [E|E].
    + destruct (Z.eq_dec i n) as [->|]; [done|]. destruct (Hnz i); [lia|done].
    + destruct (Z.eq_dec i n) as [->|]; [done|]. split; [|lia]. exists (i + 1). split_and!; [lia..|done|done].
  - exists 0. split_and!; [lia..|apply filled_nil|done].
  - lia.
Qed.
(** A copy of a string apart from it. *)
Lemma ece391_strcpy_filled dst src n a : is_cstr (fun i => get8 a (src + i)) n -> n < 4294967296 ->
  sep_range a dst (n + 1) -> (forall i, 0 <= i <= n -> outside a dst (n + 1) (src + i)) ->
  exists a', ece391_strcpy dst src a = Some a' /\ filled a a' dst (n + 1) (fun i => get8 a (src + i)).
Proof.
  intros Hc Hlt Hs Ho. destruct (ece391_strcpy_down (fun _ => True) dst src n a Hc Hlt Hs) as (a' & E & Hf & _); [|done..|by exists a'].
  intros i j Hj Hi. apply Ho; lia.
Qed.

(** The first difference of two strings. *)
Lemma ece391_strcmp_spec s1 s2 n1 n2 a :
  is_cstr (fun i => get8 a (s1 + i)) n1 -> is_cstr (fun i => get8 a (s2 + i)) n2 -> n1 < 4294967295 ->
  exists r, ece391_strcmp s1 s2 a = Some r /\
    (r = 0 <-> n1 = n2 /\ forall i, 0 <= i < n1 -> get8 a (s1 + i) = get8 a (s2 + i)).
Proof.
  intros (Hn1 & Hz1 & Hnz1) (Hn2 & Hz2 & Hnz2) Hlt. unfold ece391_strcmp.
  loop_with (fun '(p, q) => exists i, p = s1 + i /\ q = s2 + i /\ 0 <= i <= n1 /\ i <= n2 /\
       forall j, 0 <= j < i -> get8 a (s1 + j) = get8 a (s2 + j))
    (fun '((p, _) : Z * Z) => s1 + n1 - p)
    (fun r => r = 0 <-> n1 = n2 /\ forall i, 0 <= i < n1 -> get8 a (s1 + i) = get8 a (s2 + i)) r Hr; [..|by eauto].
  - intros [p q] (i & -> & -> & Hi & Hi2 & Heq). destruct (Z.eqb_spec (get8 a (s1 + i)) (get8 a (s2 + i))) as [E|E].
    + destruct (Z.eqb_spec (get8 a (s1 + i)) 0) as [E0|E0].
      * assert (i = n1) as -> by (destruct (Z.eq_dec i n1); [done|]; destruct (Hnz1 i); [lia|done]).
        assert (n1 = n2) by (destruct (Z.eq_dec n1 n2); [done|]; destruct (Hnz2 n1); [lia|congruence]).
        done.
      * destruct (Z.eq_dec i n1) as [->|]; [done|]. destruct (Z.eq_dec i n2) as [->|]; [congruence|].
        split; [|lia]. exists (i + 1). split_and!; [lia..|]. intros j Hj. destruct (Z.eq_dec j i) as [->|]; [done|apply Heq; lia].
    + split; [lia|]. intros [<- Hall]. destruct (Z.eq_dec i n1) as [->|]; [congruence|]. destruct E. apply Hall. lia.
  - exists 0. split_and!; [lia..|]. intros j Hj. lia.
  - lia.
Qed.
End strings.

(** ** The system-call stubs (ece391syscall.S) *)

Section stubs.
Context `{Machine W}.
#[local] Open Scope user_scope.

Definition ece391_halt (status : Z) : U W Z := fun w => int80 1 (u32 status) (above 0 w) (above 1 w) w.
Definition ece391_execute (command : Z) : U W Z := fun w => int80 2 command (above 0 w) (above 1 w) w.
Definition ece391_read (fd buf nbytes : Z) : U W Z := int80 3 (u32 fd) buf (u32 nbytes).
Definition ece391_write (fd buf nbytes : Z) : U W Z := int80 4 (u32 fd) buf (u32 nbytes).
Definition ece391_open (filename : Z) : U W Z := fun w => int80 5 filename (above 0 w) (above 1 w) w.
Definition ece391_close (fd : Z) : U W Z := fun w => int80 6 (u32 fd) (above 0 w) (above 1 w) w.
Definition ece391_getargs (buf nbytes : Z) : U W Z := fun w => int80 7 buf (u32 nbytes) (above 0 w) w.
Definition ece391_vidmap (screen_start : Z) : U W Z := fun w => int80 8 screen_start (above 0 w) (above 1 w) w.

(** [_start]: [main], then [halt] with its result and two zero words above it. *)
Definition start (main : U W Z) : U W Z := eax <- main ; int80 1 (u32 eax) 0 0.

(** A load, a store, and a routine of the library. *)
Definition load (p : Z) : U W Z := fun w => Back (get8 w p) w.
Definition store (p v : Z) : U W unit := fun w => Back tt (put8 p v w).
Definition pure {A} (f : W -> option A) : U W A := fun w => match f w with Some a => Back a w | None => Late end.
Definition change (f : W -> option W) : U W unit := fun w => match f w with Some w => Back tt w | None => Late end.

(** ece391support.c [ece391_fdputs]. *)
Definition ece391_fdputs (fd s : Z) : U W unit :=
  n <- pure (ece391_strlen s) ; ece391_write fd s n ;; done_with tt.
End stubs.

(** ** The stubs on a kernel that keeps its promise *)

Section served.
Context `{Kernel W}.
Implicit Types (w : W) (o : os).
#[local] Open Scope user_scope.

Lemma changes_le w w' p n p' n' : changes w w' p n -> n <= 0 \/ p' <= p /\ p + n <= p' + n' -> changes w w' p' n'.
Proof. intros Hc Hr j Hu Hj. apply Hc; [done|]. lia. Qed.
Lemma changes_trans w1 w2 w3 p n : changes w1 w2 p n -> changes w2 w3 p n -> changes w1 w3 p n.
Proof. intros H1 H2 j Hu Hj. by rewrite H2, H1. Qed.
Lemma changes_refl w p n : changes w w p n.
Proof. done. Qed.

Lemma bytes_at_app w p l1 l2 : bytes_at w p (l1 ++ l2) <-> bytes_at w p l1 /\ bytes_at w (p + Z.of_nat (length l1)) l2.
Proof.
  unfold bytes_at. split.
  - intros Hl. split; intros i c Hi.
    + apply Hl. by apply lookup_app_l_Some.
    + rewrite <- Z.add_assoc, <- Nat2Z.inj_add. apply Hl. rewrite lookup_app_r by lia. by rewrite Nat.add_comm, Nat.add_sub.
  - intros [H1 H2] i c [Hi|[Hi Hc]]%lookup_app_Some; [by apply H1|].
    specialize (H2 _ _ Hc). rewrite <- Z.add_assoc, <- Nat2Z.inj_add in H2. by replace (length l1 + (i - length l1))%nat with i in H2 by lia.
Qed.
Lemma bytes_at_changes w w' p l q n : bytes_at w p l -> user_range p (Z.of_nat (length l)) -> changes w w' q n ->
  n <= 0 \/ p + Z.of_nat (length l) <= q \/ q + n <= p -> bytes_at w' p l.
Proof.
  intros Hb [Hp Hp'] Hc Hd i c Hi. pose proof (lookup_lt_Some _ _ _ Hi) as Hlt.
  rewrite Hc; [by apply Hb|unfold user; lia|lia].
Qed.
Lemma string_at_changes w w' s l q n : string_at w s l -> changes w w' q n ->
  n <= 0 \/ s + Z.of_nat (length l) + 1 <= q \/ q + n <= s -> string_at w' s l.
Proof.
  intros [Hr Hb Hl] Hc Hd. assert (Z.of_nat (length (l ++ [0])) = Z.of_nat (length l) + 1) as E by (rewrite length_app; simpl; lia).
  split; [done| |done]. apply (bytes_at_changes w _ _ _ q n); rewrite ?E; [done..|lia].
Qed.

(** A byte of the page after a store. *)
Lemma get8_store o w p v q : serves o w -> user p -> user q ->
  get8 (put8 p v w) q = if p =? q then u8 v else get8 w q.
Proof.
  intros Hs Hp Hq. rewrite get8_put8. destruct (Z.eqb_spec p q) as [->|Hne]; [by rewrite Z.eqb_refl|].
  destruct (Z.eqb_spec (loc w p) (loc w q)) as [E|]; [|done]. by destruct Hne; apply (serves_sep o w).
Qed.
Lemma changes_store o w p v : serves o w -> user p -> changes w (put8 p v w) p 1.
Proof. intros Hs Hp j Hj Ho. rewrite (get8_store o) by done. by test_false (p =? j). Qed.
Lemma serves_sep_range o w p n : serves o w -> user_range p n -> sep_range w p n.
Proof. intros Hs [H1 H2] i j Hi Hj E. apply (serves_sep o) in E; [lia|done|unfold user; lia..]. Qed.
Lemma serves_outside o w p n q : serves o w -> user_range p n -> user q -> q < p \/ p + n <= q -> outside w p n q.
Proof. intros Hs [H1 H2] Hq Hd i Hi E. apply (serves_sep o) in E; [lia|done|unfold user; lia|done]. Qed.

Lemma string_cstr w s l : string_at w s l -> is_cstr (fun i => get8 w (s + i)) (Z.of_nat (length l)).
Proof.
  intros [_ Hb Hl]. split_and!; [lia| |].
  - apply Hb. by rewrite lookup_app_r, Nat.sub_diag by lia.
  - intros i Hi. destruct (lookup_lt_is_Some_2 l (Z.to_nat i)) as [c Hc]; [lia|].
    rewrite <- (Z2Nat.id i) at 1 by lia. rewrite (Hb _ c) by (by apply lookup_app_l_Some).
    apply (Forall_lookup_1 _ _ _ _ Hl) in Hc. lia.
Qed.
Lemma string_length w s l : string_at w s l -> Z.of_nat (length l) < 4194304.
Proof. intros [[? ?] _ _]. lia. Qed.
Lemma string_body w s l : string_at w s l -> bytes_at w s l /\ user_range s (Z.of_nat (length l)).
Proof. intros [[? ?] Hb _]. apply bytes_at_app in Hb as [? _]. split; [done|]. unfold user_range. lia. Qed.

Lemma existsb_no8 l : Forall (fun c => c <> 8) l -> existsb (Z.eqb 8) l = false.
Proof. induction 1 as [|c l Hc _ IH]; [done|]. cbn [existsb]. rewrite IH. by test_false (8 =? c). Qed.

(** Writing bytes of the page to the screen. *)
Lemma write_screen o w buf l n : serves o w -> handles o 1 = Screen -> n = Z.of_nat (length l) ->
  user_range buf n -> bytes_at w buf l -> Forall (fun c => c <> 8) l ->
  exists w', ece391_write 1 buf n w = Back n w' /\ serves (show l o) w' /\ changes w w' 0 0.
Proof.
  intros Hs Hh -> Hu Hb H8. destruct Hu as [Hu1 Hu2].
  assert (spec_write (s32 (u32 1)) l o = Some (Effect (Z.of_nat (length l)) [] (show l o))) as He.
  { change (s32 (u32 1)) with 1. unfold spec_write. simpl. by rewrite Hh, existsb_no8. }
  destruct (kernel_write o w (u32 1) buf l _ Hs He) as (w' & E & Hs' & _ & Hc); [done|done|].
  exists w'. unfold ece391_write. rewrite (u32_small (Z.of_nat _)) by lia. split; [exact E|]. split; [done|].
  apply (changes_le _ _ buf 0); [done|lia].
Qed.
Lemma fdputs_screen o w s l : serves o w -> handles o 1 = Screen -> string_at w s l -> Forall (fun c => c <> 8) l ->
  exists w', ece391_fdputs 1 s w = Back tt w' /\ serves (show l o) w' /\ changes w w' 0 0.
Proof.
  intros Hs Hh Hl H8. destruct (string_body _ _ _ Hl) as [Hb Hu]. pose proof (string_length _ _ _ Hl).
  destruct (write_screen o w s l _ Hs Hh eq_refl Hu Hb H8) as (w' & E & Hs' & Hc). exists w'. split; [|done].
  unfold ece391_fdputs. rewrite (and_then_back _ _ _ (Z.of_nat (length l)) w).
  2: { unfold pure. by rewrite (ece391_strlen_some _ _ _ (string_cstr _ _ _ Hl)) by lia. }
  by rewrite (and_then_back _ _ _ _ _ E).
Qed.
Lemma chunk_length c pos n : 0 <= pos <= Z.of_nat (length c) -> 0 <= n ->
  Z.of_nat (length (chunk c pos n)) = Z.min n (Z.of_nat (length c) - pos).
Proof. intros Hp Hn. unfold chunk. rewrite length_take, length_drop. lia. Qed.
Lemma chunk_next c pos n : 0 <= pos -> 0 <= n ->
  take (Z.to_nat pos) c ++ chunk c pos n = take (Z.to_nat (pos + n)) c.
Proof. intros Hp Hn. unfold chunk. rewrite Z2Nat.inj_add by done. by rewrite take_take_drop. Qed.

(** Reading an open file. *)
Lemma read_file o w fd c pos buf n : serves o w -> 0 <= fd <= 7 -> handles o fd = Reading c pos ->
  0 <= pos <= Z.of_nat (length c) -> 0 <= n -> user_range buf n ->
  let r := Z.min n (Z.of_nat (length c) - pos) in
  exists w', ece391_read fd buf n w = Back r w' /\ serves (set_handle fd (Reading c (pos + r)) o) w' /\
    bytes_at w' buf (chunk c pos n) /\ changes w w' buf n.
Proof.
  intros Hs Hfd Hh Hp Hn Hu. cbv zeta. pose proof (chunk_length c pos n Hp Hn) as Hl.
  assert (s32 (u32 fd) = fd) as Efd by (rewrite u32_small, s32_small by lia; done).
  assert (spec_read (s32 (u32 fd)) n o = Some (Effect (Z.of_nat (length (chunk c pos n))) (chunk c pos n)
    (set_handle fd (Reading c (pos + Z.of_nat (length (chunk c pos n)))) o))) as He.
  { rewrite Efd. unfold spec_read, in_table. test_true ((0 <=? fd) && (fd <=? 7)). by rewrite Hh. }
  assert (room (s32 (u32 fd)) n o = n) as Er by (rewrite Efd; unfold room, in_table; test_true ((0 <=? fd) && (fd <=? 7)); simpl; by rewrite Hh).
  destruct Hu as [Hu1 Hu2].
  destruct (kernel_read o w (u32 fd) buf n _ Hs He) as (w' & E & Hs' & Hb & Hc); [lia|by rewrite Er|].
  cbn [result given next] in *. rewrite Er in Hc. rewrite Hl in E, Hs'.
  exists w'. unfold ece391_read. by rewrite (u32_small n) by lia.
Qed.

(** Opening a file that exists, with a descriptor left. *)
Lemma free_handle_range o i : free_handle o = Some i -> 2 <= i <= 7.
Proof. unfold free_handle. intros [Hi _]%find_some. simpl in Hi. lia. Qed.
Lemma open_file o w name l f i : serves o w -> l <> [] -> string_at w name l ->
  find_file l o = Some f -> free_handle o = Some i ->
  let o' := set_handle i (handle_of f) o in
  exists w', ece391_open name w = Back i w' /\
    serves (match f with Folder => set_listed 0 o' | _ => o' end) w' /\ 2 <= i <= 7 /\ changes w w' name 0.
Proof.
  intros Hs Hl Hstr Hf Hi. cbv zeta. pose proof (free_handle_range _ _ Hi) as Hir.
  pose (o' := set_handle i (handle_of f) o).
  assert (spec_open l o = Some (Effect i [] (match f with Folder => set_listed 0 o' | _ => o' end))) as He
    by (unfold spec_open; by rewrite Hf, Hi).
  destruct (kernel_open o w name l (above 0 w) (above 1 w) _ Hs Hl He Hstr) as (w' & E & Hs' & _ & Hc).
  by exists w'.
Qed.

(** Opening fails without a file of the name, or without a descriptor. *)
Lemma open_missing o w name l : serves o w -> l <> [] -> string_at w name l ->
  find_file l o = None \/ free_handle o = None ->
  exists w', ece391_open name w = Back (-1) w' /\ serves o w' /\ changes w w' name 0.
Proof.
  intros Hs Hl Hstr Hcase.
  assert (spec_open l o = Some (Effect (-1) [] o)) as He.
  { unfold spec_open. destruct Hcase as [-> | ->]; [done|]. by case_match. }
  destruct (kernel_open o w name l (above 0 w) (above 1 w) _ Hs Hl He Hstr) as (w' & E & Hs' & _ & Hc). by exists w'.
Qed.

(** The arguments, as a string in the buffer. *)
Lemma getargs_string o w buf : serves o w -> user_range buf 1024 -> Z.of_nat (length (arguments o)) <= 1022 ->
  Forall (fun x => 0 < x < 256) (arguments o) ->
  exists w', ece391_getargs buf 1024 w = Back 0 w' /\ serves o w' /\ string_at w' buf (arguments o) /\ changes w w' buf 1024.
Proof.
  intros Hs Hu Hl Ha. assert (spec_getargs 1024 o = Some (Effect 0 (arguments o ++ [0]) o)) as He
    by (unfold spec_getargs; by test_true (Z.of_nat (length (arguments o)) + 1 <=? 1024)).
  destruct (kernel_getargs o w buf 1024 (above 0 w) _ Hs He) as (w' & E & Hs' & Hb & Hc); [done|done|].
  exists w'. split; [exact E|]. split; [done|]. split; [|done].
  split; [|done|done]. unfold user_range in *. lia.
Qed.

End served.

(** ** String literals *)

(** The address of a string literal in the program's image. *)
Class Linked := lit : list Z -> Z.

Section literals.
Context `{Kernel W} `{Linked}.

(** The literal [l] is in place, apart from the [n] bytes at [buf]. *)
Record literal (l : list Z) (buf n : Z) (w : W) : Prop := {
  li_string : string_at w (lit l) l;
  li_apart : lit l + Z.of_nat (length l) + 1 <= buf \/ buf + n <= lit l
}.

Lemma literal_changes l buf n w w' p m : literal l buf n w -> changes w w' p m ->
  m <= 0 \/ buf <= p /\ p + m <= buf + n -> literal l buf n w'.
Proof. intros [Hs Ha] Hc Hr. split; [|done]. apply (string_at_changes w _ _ _ p m); [done|done|lia]. Qed.

(** Printing a literal. *)
Lemma print_literal o w l buf n : serves o w -> handles o 1 = Screen -> literal l buf n w -> Forall (fun c => c <> 8) l ->
  exists w', ece391_fdputs 1 (lit l) w = Back tt w' /\ serves (show l o) w' /\ changes w w' 0 0.
Proof. intros Hs Hh [Hl _] H8. by apply fdputs_screen. Qed.
End literals.

(** ** Loops with a bound *)

Section bounded.
Context {W : Type}.
#[local] Open Scope user_scope.

(** [for (i = lo; i < hi; i++) body]. *)
Fixpoint for_from {S} (n : nat) (i : Z) (body : Z -> S -> U W S) (s : S) : U W S :=
  match n with
  | O => done_with s
  | Datatypes.S m => s <- body i s ; for_from m (i + 1) body s
  end.
Definition for_up {S} (lo hi : Z) (body : Z -> S -> U W S) (s : S) : U W S := for_from (Z.to_nat (hi - lo)) lo body s.
End bounded.

(** ** What a program does, from one state of the kernel to another

    [gives m a o o']: with the literals [lits] in place, apart from the [n] bytes
    at [buf] where the local arrays are, and the kernel at [o], [m] returns [a]
    and leaves the kernel at [o']. *)

Section gives.
Context `{Kernel W} `{Linked} (buf n : Z) (lits : list (list Z)).
#[local] Open Scope user_scope.

Definition here (o : os) (w : W) : Prop := serves o w /\ forall l, l ∈ lits -> literal l buf n w.
Definition gives {A} (m : U W A) (a : A) (o o' : os) : Prop :=
  forall w, here o w -> exists w', m w = Back a w' /\ here o' w'.

Lemma here_changes o w o' w' p m : here o w -> serves o' w' -> changes w w' p m ->
  m <= 0 \/ buf <= p /\ p + m <= buf + n -> here o' w'.
Proof. intros [_ Hl] Hs Hc Hr. split; [done|]. intros l Hin. by apply (literal_changes l buf n w w' p m); [apply Hl|..]. Qed.

Lemma gives_done {A} (a : A) o : gives (done_with a) a o o.
Proof. intros w Hw. by exists w. Qed.
Lemma gives_then {A B} (m : U W A) (f : A -> U W B) a b o o1 o2 :
  gives m a o o1 -> gives (f a) b o1 o2 -> gives (and_then m f) b o o2.
Proof.
  intros Hm Hf w Hw. destruct (Hm w Hw) as (w1 & E & Hw1). destruct (Hf w1 Hw1) as (w2 & E2 & Hw2).
  exists w2. by rewrite (and_then_back _ _ _ _ _ E).
Qed.
Lemma gives_for {S} (body : Z -> S -> U W S) (s : Z -> S) (o : Z -> os) lo hi : lo <= hi ->
  (forall i, lo <= i < hi -> gives (body i (s i)) (s (i + 1)) (o i) (o (i + 1))) ->
  gives (for_up lo hi body (s lo)) (s hi) (o lo) (o hi).
Proof.
  intros Hle. unfold for_up. remember (Z.to_nat (hi - lo)) as k eqn:Ek. revert lo Hle Ek.
  induction k as [|k IH]; intros lo Hle Ek Hb; cbn [for_from].
  - assert (lo = hi) as -> by lia. apply gives_done.
  - apply (gives_then _ _ (s (lo + 1)) _ _ (o (lo + 1))); [apply Hb; lia|]. apply IH; [lia|lia|]. intros i Hi. apply Hb. lia.
Qed.

Lemma gives_for_inv {S} (body : Z -> S -> U W S) (s : Z -> S) (Inv : Z -> os -> Prop) lo hi o : lo <= hi -> Inv lo o ->
  (forall i o, lo <= i < hi -> Inv i o -> exists o', gives (body i (s i)) (s (i + 1)) o o' /\ Inv (i + 1) o') ->
  exists o', gives (for_up lo hi body (s lo)) (s hi) o o' /\ Inv hi o'.
Proof.
  intros Hle. unfold for_up. remember (Z.to_nat (hi - lo)) as k eqn:Ek. revert lo o Hle Ek.
  induction k as [|k IH]; intros lo o Hle Ek Hi Hb; cbn [for_from].
  - assert (lo = hi) as -> by lia. exists o. split; [apply gives_done|done].
  - destruct (Hb lo o ltac:(lia) Hi) as (o1 & Hg & Hi1).
    destruct (IH (lo + 1) o1) as (o2 & Hg2 & Hi2); [lia|lia|done|intros; apply Hb; [lia|done]|].
    exists o2. split; [|done]. by apply (gives_then _ _ (s (lo + 1)) _ _ o1).
Qed.

(** A call that fails. *)
Lemma gives_fail (m : U W Z) o p k : k <= 0 \/ buf <= p /\ p + k <= buf + n ->
  (forall w, here o w -> does serves (m w) w p k (Effect (-1) [] o)) -> gives m (-1) o o.
Proof.
  intros Hr Hm w Hw. destruct (Hm w Hw) as (w' & E & Hs & _ & Hc). exists w'. split; [done|].
  by apply (here_changes o w o w' p k).
Qed.
Lemma gives_print l o : l ∈ lits -> handles o 1 = Screen -> Forall (fun c => c <> 8) l ->
  gives (ece391_fdputs 1 (lit l)) tt o (show l o).
Proof.
  intros Hl Hh H8 w Hw. pose proof Hw as [Hs Hlit]. destruct (print_literal o w l buf n Hs Hh (Hlit l Hl) H8) as (w' & E & Hs' & Hc).
  exists w'. split; [done|]. apply (here_changes o w _ _ 0 0); [done|done|done|by left].
Qed.
Lemma gives_bad_read o fd q m : spec_read (s32 (u32 fd)) m o = Some (Effect (-1) [] o) -> room (s32 (u32 fd)) m o = m ->
  0 <= m < 2147483648 -> buf <= q -> q + m <= buf + n -> user_range q m -> gives (ece391_read fd q m) (-1) o o.
Proof.
  intros He Hr Hm Hq1 Hq2 Hu. apply (gives_fail _ o q m); [lia|]. intros w [Hs _]. unfold ece391_read. rewrite (u32_small m) by lia.
  rewrite <- Hr at 2. apply (kernel_read o); [done|done|lia|by rewrite Hr].
Qed.
Lemma gives_bad_write o fd q m : (forall l, spec_write (s32 (u32 fd)) l o = Some (Effect (-1) [] o)) ->
  0 <= m < 2147483648 -> user_range q m -> gives (ece391_write fd q m) (-1) o o.
Proof.
  intros He Hm Hu. apply (gives_fail _ o q 0); [by left|]. intros w [Hs _]. unfold ece391_write. rewrite (u32_small m) by lia.
  set (l := (fun i => get8 w (q + i)) <$> seqZ 0 m).
  assert (m = Z.of_nat (length l)) as Em by (unfold l; rewrite length_fmap, length_seqZ; lia).
  rewrite Em. apply (kernel_write o); [done|apply He|by rewrite <- Em|].
  intros i c Hi. unfold l in Hi. rewrite list_lookup_fmap in Hi. destruct (seqZ 0 m !! i) as [j|] eqn:Ej; [|done].
  apply lookup_seqZ in Ej as [-> _]. by injection Hi as <-.
Qed.
(** A line from the keyboard, and the state of the terminal after it. *)
Definition heard (ls : list (list Z)) (l : list Z) (o : os) : os := set_typed ls (show (l ++ [10]) o).
Lemma hear_line o w l ls q m : here o w -> handles o 0 = Keyboard -> typed o = l :: ls ->
  Z.of_nat (length l) < m < 2147483648 -> buf <= q -> q + m <= buf + n -> user_range q m ->
  exists w', ece391_read 0 q m w = Back (Z.of_nat (length l) + 1) w' /\ here (heard ls l o) w' /\ bytes_at w' q (l ++ [10]).
Proof.
  intros Hw Hk Ht Hm Hq1 Hq2 Hu. pose proof Hw as [Hs _].
  assert (spec_read 0 m o = Some (Effect (Z.of_nat (length l) + 1) (l ++ [10]) (heard ls l o))) as He.
  { unfold spec_read. change (in_table 0) with true. cbv [negb]. rewrite Hk, Ht. by test_true (Z.of_nat (length l) <? m). }
  assert (room 0 m o = m) as Er by (unfold room; change (in_table 0) with true; cbv [negb]; by rewrite Hk).
  destruct (kernel_read o w (u32 0) q m _ Hs He) as (w1 & E & Hs1 & Hb & Hc).
  { lia. }
  { change (s32 (u32 0)) with 0. by rewrite Er. }
  change (s32 (u32 0)) with 0 in Hc. rewrite Er in Hc. exists w1. split; [|split; [|exact Hb]].
  - unfold ece391_read. rewrite (u32_small m) by lia. exact E.
  - apply (here_changes o w _ _ q m); [done..|lia].
Qed.
Lemma gives_line {A} o l ls q m (f : Z -> U W A) a o' : handles o 0 = Keyboard -> typed o = l :: ls ->
  Z.of_nat (length l) < m < 2147483648 -> buf <= q -> q + m <= buf + n -> user_range q m ->
  (forall w, here (heard ls l o) w -> bytes_at w q (l ++ [10]) ->
     exists w', f (Z.of_nat (length l) + 1) w = Back a w' /\ here o' w') ->
  gives (and_then (ece391_read 0 q m) f) a o o'.
Proof.
  intros Hk Ht Hm Hq1 Hq2 Hu Hf w Hw. destruct (hear_line o w l ls q m Hw Hk Ht Hm Hq1 Hq2 Hu) as (w1 & E & Hw1 & Hb).
  destruct (Hf w1 Hw1 Hb) as (w2 & E2 & Hw2). exists w2. split; [|done]. by rewrite (and_then_back _ _ _ _ _ E).
Qed.
Lemma gives_close o fd e : spec_close (s32 (u32 fd)) o = Some e -> gives (ece391_close fd) (result e) o (next e).
Proof.
  intros He w Hw. pose proof Hw as [Hs _].
  destruct (kernel_close o w (u32 fd) (above 0 w) (above 1 w) e Hs He) as (w' & E & Hs' & _ & Hc).
  exists w'. split; [done|]. apply (here_changes o w _ _ 0 0); [done|done|done|by left].
Qed.
Lemma gives_open l o e : l ∈ lits -> l <> [] -> spec_open l o = Some e -> gives (ece391_open (lit l)) (result e) o (next e).
Proof.
  intros Hl Hne He w Hw. pose proof Hw as [Hs Hlit].
  destruct (kernel_open o w (lit l) l (above 0 w) (above 1 w) e Hs Hne He (li_string _ _ _ _ (Hlit l Hl))) as (w' & E & Hs' & _ & Hc).
  exists w'. split; [done|]. apply (here_changes o w _ _ (lit l) 0); [done|done|done|by left].
Qed.
Lemma gives_open_empty o : [] ∈ lits -> gives (ece391_open (lit [])) (-1) o o.
Proof.
  intros Hl. apply (gives_fail _ o (lit []) 0); [by left|]. intros w [Hs Hlit].
  apply (kernel_open_empty o); [done|]. apply (Hlit [] Hl).
Qed.
End gives.

(** ** The words of a command *)

Lemma until_spec ends l : exists r, l = until ends l ++ r /\
  Forall (fun c => ends c = false) (until ends l) /\ match r with [] => True | c :: _ => ends c = true end.
Proof.
  induction l as [|c l (r & E & Ha & Hr)]; [by exists []|]. cbn [until]. destruct (ends c) eqn:Ec.
  - by exists (c :: l).
  - exists r. split; [by rewrite E at 1|]. split; [by constructor|done].
Qed.
Lemma until_chars ends l : Forall (fun c => 0 < c < 256) l -> Forall (fun c => 0 < c < 256) (until ends l).
Proof. intros Hl. destruct (until_spec ends l) as (r & E & _). rewrite E in Hl. by apply Forall_app in Hl as [? _]. Qed.
Lemma after_word_chars l : Forall (fun c => 0 < c < 256) l -> Forall (fun c => 0 < c < 256) (after_word l).
Proof.
  intros Hl. unfold after_word. pose proof (Forall_drop _ (length (first_word l)) _ Hl) as Hd.
  destruct (drop _ l) as [|c r]; [constructor|]. case_match; [|constructor]. apply until_chars. by apply Forall_cons in Hd as [_ ?].
Qed.
