(* ===== verification/Cat.v ===== *)
(** User programs that show files: [cat] (ece391cat.c) and [ls] (ece391ls.c),
    on any kernel that keeps its promise.

    Local arrays and string literals are where the compiler puts them; the
    number of turns allowed to the loops is an argument. *)

From Stdlib Require Import String.
From S2P Require Import Prelude Bytes CString Console SysSpec Support.
#[local] Open Scope Z_scope.

Section programs.
Context `{Machine W} `{Linked}.
#[local] Open Scope user_scope.

(** ece391cat.c [main]; [buf] is its local array. *)
Definition cat_step (fd buf : Z) : U W (unit + Z) :=
  cnt <- ece391_read fd buf 1024 ;
  if cnt =? 0 then done_with (inr 0)
  else if cnt =? -1 then
    ece391_fdputs 1 (lit (line "file read failed")) ;; done_with (inr 3)
  else
    r <- ece391_write 1 buf cnt ;
    if r =? -1 then done_with (inr 3) else done_with (inl tt).
Definition cat (buf : Z) (n : nat) : U W Z :=
  r <- ece391_getargs buf 1024 ;
  if negb (r =? 0) then
    ece391_fdputs 1 (lit (line "could not read arguments")) ;; done_with 3
  else
    fd <- ece391_open buf ;
    if fd =? -1 then
      ece391_fdputs 1 (lit (line "file not found")) ;; done_with 2
    else turns n (fun _ => cat_step fd buf) tt.

(** ece391ls.c [main]. *)
Definition SBUFSIZE := 33.
Definition ls_step (fd buf : Z) : U W (unit + Z) :=
  cnt <- ece391_read fd buf (SBUFSIZE - 1) ;
  if cnt =? 0 then done_with (inr 0)
  else if cnt =? -1 then
    ece391_fdputs 1 (lit (line "directory entry read failed")) ;; done_with (inr 3)
  else
    store (buf + cnt) 10 ;;
    r <- ece391_write 1 buf (cnt + 1) ;
    if r =? -1 then done_with (inr 3) else done_with (inl tt).
Definition ls (buf : Z) (n : nat) : U W Z :=
  fd <- ece391_open (lit (chars ".")) ;
  if fd =? -1 then
    ece391_fdputs 1 (lit (line "directory open failed")) ;; done_with 2
  else turns n (fun _ => ls_step fd buf) tt.
End programs.

(** ** Properties *)

Section properties.
Context `{Kernel W} `{Linked}.
Implicit Types (w : W) (o : os).
#[local] Open Scope user_scope.

(** One turn of [cat] at position [pos]. *)
Lemma cat_turn o w fd c pos buf : serves o w -> 2 <= fd <= 7 -> handles o fd = Reading c pos -> handles o 1 = Screen ->
  0 <= pos <= Z.of_nat (length c) -> user_range buf 1024 -> Forall (fun x => x <> 8) c ->
  let pos' := Z.min (pos + 1024) (Z.of_nat (length c)) in
  exists w', cat_step fd buf w = Back (if pos =? Z.of_nat (length c) then inr 0 else inl tt) w' /\
    serves (show (chunk c pos 1024) (set_handle fd (Reading c pos') o)) w'.
Proof.
  intros Hs Hfd Hh Hh1 Hp Hu H8. cbv zeta.
  destruct (read_file o w fd c pos buf 1024 Hs ltac:(lia) Hh Hp ltac:(lia) Hu) as (w1 & E1 & Hs1 & Hb1 & _).
  set (r := Z.min 1024 (Z.of_nat (length c) - pos)) in *.
  replace (Z.min (pos + 1024) (Z.of_nat (length c))) with (pos + r) by lia.
  unfold cat_step. rewrite (and_then_back _ _ _ _ _ E1).
  destruct (Z.eqb_spec pos (Z.of_nat (length c))) as [->|Hne].
  - test_true (r =? 0). exists w1. split; [done|].
    assert (chunk c (Z.of_nat (length c)) 1024 = []) as ->
      by (unfold chunk; by rewrite Nat2Z.id, drop_all, take_nil).
    by rewrite show_nil.
  - test_false (r =? 0). test_false (r =? -1).
    destruct (write_screen (set_handle fd (Reading c (pos + r)) o) w1 buf (chunk c pos 1024) r) as (w2 & E2 & Hs2 & _);
      [done| |by rewrite chunk_length by lia|unfold user_range in *; lia|done| |].
    { rewrite handles_set. by test_false (fd =? 1). }
    { unfold chunk. by apply Forall_take, Forall_drop. }
    exists w2. rewrite (and_then_back _ _ _ _ _ E2). test_false (r =? -1). done.
Qed.

(** The loop of [cat], from the start of the file. *)
Lemma cat_loop o fd c buf n w : serves (set_handle fd (Reading c 0) o) w -> 2 <= fd <= 7 -> handles o 1 = Screen ->
  user_range buf 1024 -> Forall (fun x => x <> 8) c -> (length c < n)%nat ->
  exists w', turns n (fun _ => cat_step fd buf) tt w = Back 0 w' /\
    serves (show c (set_handle fd (Reading c (Z.of_nat (length c))) o)) w'.
Proof.
  intros Hs Hfd Hh1 Hu H8 Hn. set (len := Z.of_nat (length c)).
  destruct (turns_rule
    (fun pos (_ : unit) w => 0 <= pos <= len /\ serves (show (take (Z.to_nat pos) c) (set_handle fd (Reading c pos) o)) w)
    (fun pos => Z.to_nat (len - pos))
    (fun r w => r = 0 /\ serves (show c (set_handle fd (Reading c len) o)) w)
    (fun _ => cat_step fd buf)) with (n := n) (g := 0) (s := tt) (w := w) as (r & w' & E & -> & Hs').
  - intros pos _ w1 [Hp Hs1]. set (o1 := show _ _) in Hs1.
    destruct (cat_turn o1 w1 fd c pos buf Hs1 Hfd) as (w2 & E & Hs2); [..|done|done|done|].
    { change (handles (set_handle fd (Reading c pos) o) fd = Reading c pos). by rewrite handles_set, Z.eqb_refl. }
    { change (handles (set_handle fd (Reading c pos) o) 1 = Screen). rewrite handles_set. by test_false (fd =? 1). }
    fold len in E, Hs2. set (pos' := Z.min (pos + 1024) len) in *.
    assert (show (chunk c pos 1024) (set_handle fd (Reading c pos') o1) =
            show (take (Z.to_nat (pos + 1024)) c) (set_handle fd (Reading c pos') o)) as Eo.
    { rewrite <- chunk_next by lia. rewrite show_app.
      change (set_handle fd (Reading c pos') o1) with
        (show (take (Z.to_nat pos) c) (set_handle fd (Reading c pos') (set_handle fd (Reading c pos) o))).
      by rewrite set_handle_twice. }
    rewrite Eo in Hs2. eexists _, w2. split; [exact E|].
    destruct (Z.eqb_spec pos len) as [->|Hne].
    + split; [done|]. replace pos' with len in Hs2 by lia. rewrite take_ge in Hs2 by lia. exact Hs2.
    + exists pos'. split; [|lia]. split; [lia|].
      assert (take (Z.to_nat (pos + 1024)) c = take (Z.to_nat pos') c) as <-; [|done].
      unfold pos'. destruct (Z.min_spec (pos + 1024) len) as [[? ->]|[? ->]]; [done|]. by rewrite !take_ge by lia.
  - split; [lia|]. by rewrite take_0, show_nil.
  - lia.
  - by exists w'.
Qed.

(** [cat] with the name of a file as argument shows the file, byte for byte, and
    ends with status 0, its descriptor at the end of the file: whatever the
    length of the file, one turn more than its bytes is enough for the loop. *)
Lemma cat_shows_file o w buf c i n : serves o w -> user_range buf 1024 ->
  arguments o <> [] -> Z.of_nat (length (arguments o)) <= 1022 -> Forall (fun x => 0 < x < 256) (arguments o) ->
  find_file (arguments o) o = Some (Regular c) -> free_handle o = Some i -> handles o 1 = Screen ->
  Forall (fun x => x <> 8) c -> (length c < n)%nat ->
  exists w', cat buf n w = Back 0 w' /\ serves (show c (set_handle i (Reading c (Z.of_nat (length c))) o)) w'.
Proof.
  intros Hs Hu Hne Hl Ha Hf Hi Hh1 H8 Hn.
  destruct (getargs_string o w buf Hs Hu Hl Ha) as (w1 & E1 & Hs1 & Hstr & _).
  destruct (open_file o w1 buf (arguments o) (Regular c) i Hs1 Hne Hstr Hf Hi) as (w2 & E2 & Hs2 & Hir & _).
  destruct (cat_loop o i c buf n w2 Hs2 Hir Hh1 Hu H8 Hn) as (w3 & E3 & Hs3). exists w3. split; [|done].
  unfold cat. rewrite (and_then_back _ _ _ _ _ E1). change (negb (0 =? 0)) with false. cbv iota.
  rewrite (and_then_back _ _ _ _ _ E2). by test_false (i =? -1).
Qed.

(** [cat] of a name that is not on the disk says so and ends with status 2. *)
Theorem cat_missing_file o w buf n : serves o w -> user_range buf 1024 ->
  arguments o <> [] -> Z.of_nat (length (arguments o)) <= 1022 -> Forall (fun x => 0 < x < 256) (arguments o) ->
  find_file (arguments o) o = None -> handles o 1 = Screen ->
  literal (line "file not found") buf 1024 w ->
  exists w', cat buf n w = Back 2 w' /\ serves (show (line "file not found") o) w'.
Proof.
  intros Hs Hu Hne Hl Ha Hf Hh1 Hlit.
  destruct (getargs_string o w buf Hs Hu Hl Ha) as (w1 & E1 & Hs1 & Hstr & Hc1).
  destruct (open_missing o w1 buf _ Hs1 Hne Hstr (or_introl Hf)) as (w2 & E2 & Hs2 & Hc2).
  destruct (print_literal o w2 (line "file not found") buf 1024 Hs2 Hh1) as (w3 & E3 & Hs3 & _).
  - apply (literal_changes _ _ _ w1 _ buf 0); [|done|by left].
    apply (literal_changes _ _ _ w _ buf 1024); [done|done|lia].
  - by repeat constructor.
  - exists w3. split; [|done]. unfold cat. rewrite (and_then_back _ _ _ _ _ E1). change (negb (0 =? 0)) with false. cbv iota.
    rewrite (and_then_back _ _ _ _ _ E2). change (-1 =? -1) with true. cbv iota. by rewrite (and_then_back _ _ _ _ _ E3).
Qed.

(** Storing a byte after a list of bytes. *)
Lemma store_byte o w p l v : serves o w -> user_range p (Z.of_nat (length l) + 1) -> bytes_at w p l -> 0 <= v < 256 ->
  let w' := put8 (p + Z.of_nat (length l)) v w in serves o w' /\ bytes_at w' p (l ++ [v]).
Proof.
  intros Hs [Hu Hu'] Hb Hv. cbv zeta. assert (user (p + Z.of_nat (length l))) as Hp by (unfold user; lia).
  split; [by apply serves_store|]. intros j c Hj. pose proof (lookup_lt_Some _ _ _ Hj) as Hlt. rewrite length_app in Hlt. simpl in Hlt.
  rewrite (get8_store o) by (done || (unfold user; lia)).
  destruct (Z.eqb_spec (p + Z.of_nat (length l)) (p + Z.of_nat j)) as [E|E].
  - assert (j = length l) as -> by lia. rewrite lookup_app_r, Nat.sub_diag in Hj by lia. injection Hj as <-. by apply u8_small.
  - rewrite lookup_app_l in Hj by lia. by apply Hb.
Qed.

Definition names_shown (o : os) : list Z := concat ((fun e => e.1 ++ [10]) <$> disk o).

(** Reading the next entry of the directory. *)
Lemma read_entry o w fd buf : serves o w -> 2 <= fd <= 7 -> handles o fd = Listing -> user_range buf 33 -> listed o < 63 ->
  let name := default [] (fst <$> disk o !! Z.to_nat (listed o)) in
  exists w', ece391_read fd buf (SBUFSIZE - 1) w = Back (Z.of_nat (length name)) w' /\
    serves (set_listed (listed o + 1) o) w' /\ bytes_at w' buf name /\ changes w w' buf 33.
Proof.
  intros Hs Hfd Hh Hu Hj. cbv zeta. set (name := default [] _).
  assert (s32 (u32 fd) = fd) as Efd by (rewrite u32_small, s32_small by lia; done).
  assert (spec_read (s32 (u32 fd)) 32 o = Some (Effect (Z.of_nat (length name)) (padded name) (set_listed (listed o + 1) o))) as He.
  { rewrite Efd. unfold spec_read, in_table. test_true ((0 <=? fd) && (fd <=? 7)). cbv [negb]. rewrite Hh.
    by test_true (listed o <? 63). }
  assert (room (s32 (u32 fd)) 32 o = 33) as Er by (rewrite Efd; unfold room, in_table; test_true ((0 <=? fd) && (fd <=? 7)); simpl; by rewrite Hh).
  destruct (kernel_read o w (u32 fd) buf 32 _ Hs He) as (w1 & E1 & Hs1 & Hb1 & C1); [lia|by rewrite Er|].
  cbn [result given next] in *. rewrite Er in C1. apply bytes_at_app in Hb1 as [Hb1 _]. by exists w1.
Qed.

(** One turn of [ls], when [j] entries have been read. *)
Lemma ls_turn o w fd buf : serves o w -> 2 <= fd <= 7 -> handles o fd = Listing -> handles o 1 = Screen ->
  user_range buf 33 -> 0 <= listed o <= Z.of_nat (length (disk o)) -> Forall (fun e => Forall (fun x => x <> 8) e.1) (disk o) ->
  exists w', match disk o !! Z.to_nat (listed o) with
    | Some e => ls_step fd buf w = Back (inl tt) w' /\ serves (show (e.1 ++ [10]) (set_listed (listed o + 1) o)) w'
    | None => ls_step fd buf w = Back (inr 0) w' /\ serves (set_listed (listed o + 1) o) w'
    end.
Proof.
  intros Hs Hfd Hh Hh1 Hu Hj H8. destruct (serves_disk o w Hs) as [H62 Hnames].
  destruct (read_entry o w fd buf Hs Hfd Hh Hu ltac:(lia)) as (w1 & E1 & Hs1 & Hb1 & _). cbv zeta in *.
  unfold ls_step. rewrite (and_then_back _ _ _ _ _ E1). clear E1.
  destruct (disk o !! Z.to_nat (listed o)) as [e|] eqn:Ee; cbn [fmap option_fmap option_map from_option id] in *; [|by exists w1].
  pose proof (Forall_lookup_1 _ _ _ _ H8 Ee) as He8. apply (Forall_lookup_1 _ _ _ _ Hnames) in Ee as [Hl _]. destruct Hu as [Hu Hu'].
  test_false (Z.of_nat (length e.1) =? 0). test_false (Z.of_nat (length e.1) =? -1).
  destruct (store_byte _ w1 buf e.1 10 Hs1) as [Hs2 Hb2]; [unfold user_range; lia|done|lia|].
  rewrite (and_then_back (store _ _) _ _ tt _ eq_refl).
  edestruct (write_screen _ _ buf (e.1 ++ [10]) (Z.of_nat (length e.1) + 1) Hs2) as (w3 & E3 & Hs3 & _);
    [exact Hh1|rewrite length_app; simpl; lia|unfold user_range; lia|done| |].
  { apply Forall_app. split; [exact He8|by repeat constructor]. }
  exists w3. rewrite (and_then_back _ _ _ _ _ E3). by test_false (Z.of_nat (length e.1) + 1 =? -1).
Qed.

Lemma ls_shows_names o w buf i n : serves o w -> user_range buf 33 -> literal (chars ".") buf 33 w ->
  find_file (chars ".") o = Some Folder -> free_handle o = Some i -> handles o 1 = Screen ->
  Forall (fun e => Forall (fun x => x <> 8) e.1) (disk o) -> (length (disk o) < n)%nat ->
  exists w', ls buf n w = Back 0 w' /\
    serves (set_listed (Z.of_nat (length (disk o)) + 1) (show (names_shown o) (set_handle i Listing o))) w'.
Proof.
  intros Hs Hu [Hdot Hap] Hf Hi Hh1 H8 Hn.
  destruct (open_file o w _ (chars ".") Folder i Hs ltac:(done) Hdot Hf Hi) as (w1 & E1 & Hs1 & Hir & _).
  set (o1 := set_handle i Listing o). set (o2 := fun j => set_listed (Z.of_nat j) (show (concat ((fun e => e.1 ++ [10]) <$> take j (disk o))) o1)).
  destruct (turns_rule (fun j (_ : unit) w => (j <= length (disk o))%nat /\ serves (o2 j) w) (fun j => (length (disk o) - j)%nat)
    (fun r w => r = 0 /\ serves (set_listed (Z.of_nat (length (disk o)) + 1) (show (names_shown o) o1)) w)
    (fun _ => ls_step i buf)) with (n := n) (g := 0%nat) (s := tt) (w := w1) as (r & w2 & E2 & -> & Hs2).
  - intros j _ w3 [Hj Hs3].
    destruct (ls_turn (o2 j) w3 i buf Hs3 Hir) as (w4 & Ht); [..|exact Hu| |exact H8|].
    { change (handles o1 i = Listing). unfold o1. by rewrite handles_set, Z.eqb_refl. }
    { change (handles o1 1 = Screen). unfold o1. rewrite handles_set. by test_false (i =? 1). }
    { change (listed (o2 j)) with (Z.of_nat j). change (disk (o2 j)) with (disk o). lia. }
    change (listed (o2 j)) with (Z.of_nat j) in Ht. change (disk (o2 j)) with (disk o) in Ht. rewrite Nat2Z.id in Ht.
    destruct (disk o !! j) as [e|] eqn:Ee; destruct Ht as [E4 Hs4]; eexists _, w4; (split; [exact E4|]).
    + exists (S j). pose proof (lookup_lt_Some _ _ _ Ee). split; [|lia]. split; [lia|].
      assert (o2 (S j) = show (e.1 ++ [10]) (set_listed (Z.of_nat j + 1) (o2 j))) as ->; [|done].
      unfold o2. rewrite (take_S_r _ _ _ Ee), fmap_app, concat_app. simpl. rewrite app_nil_r, show_app.
      unfold show, set_listed. simpl. f_equal. lia.
    + split; [done|]. assert (j = length (disk o)) as -> by (apply lookup_ge_None in Ee; lia).
      unfold o2 in Hs4. rewrite firstn_all in Hs4. exact Hs4.
  - split; [lia|exact Hs1].
  - lia.
  - exists w2. split; [|exact Hs2]. unfold ls. rewrite (and_then_back _ _ _ _ _ E1). by test_false (i =? -1).
Qed.

(** C13: [ls] shows the name of every file of the directory, in order, one to a line,
    and ends with status 0; one turn more than the files is enough. *)
Theorem ls_lists_files o w buf i n : serves o w -> user_range buf 33 -> literal (chars ".") buf 33 w ->
  find_file (chars ".") o = Some Folder -> free_handle o = Some i -> handles o 1 = Screen ->
  Forall (fun e => Forall (fun x => x <> 8) e.1) (disk o) -> (length (disk o) < n)%nat ->
  exists w', ls buf n w = Back 0 w' /\
    serves (set_listed (Z.of_nat (length (disk o)) + 1) (show (names_shown o) (set_handle i Listing o))) w'.
Proof. apply ls_shows_names. Qed.
End properties.
