(* ===== verification/Syserr.v ===== *)
(** The system-call error tests of the repository, [syserr] (ece391syserr.c): on
    a kernel that keeps its promise every test passes.

    Local arrays and string literals are where the compiler puts them. *)

From Stdlib Require Import String.
From S2P Require Import Prelude Bytes CString Console SysSpec Support.
#[local] Open Scope Z_scope.

Definition NEG_FD := -1073741823.
Definition BIG_FD := 1073741823.
Definition BIG_NUM := 1073741823.
Definition NEG_NUM := -1073741823.

(** ** The program *)

Section program.
Context `{Machine W} `{Linked}.
#[local] Open Scope user_scope.

(** [call_sys]: the other registers are as they happen to be. *)
Definition call_sys (num : Z) : U W Z := fun w => int80 (u32 num) (above 0 w) (above 1 w) (above 2 w) w.

(** [if (-1 != call) { fail = 2; ece391_fdputs (1, msg); }] *)
Definition unless_failed (r : Z) (msg : list Z) (fail : Z) : U W Z :=
  if negb (-1 =? r) then ece391_fdputs 1 (lit msg) ;; done_with 2 else done_with fail.
(** The end of a test: [if (fail)], the line printed, [return fail]. *)
Definition verdict (bad good : list Z) (fail : Z) : U W Z :=
  (if negb (fail =? 0) then ece391_fdputs 1 (lit bad) else ece391_fdputs 1 (lit good)) ;; done_with fail.

Definition err_neg_fd (buf : Z) : U W Z :=
  r <- ece391_read NEG_FD buf 31 ; fail <- unless_failed r (line "read fail") 0 ;
  r <- ece391_write NEG_FD buf 31 ; fail <- unless_failed r (line "write fail") fail ;
  r <- ece391_close NEG_FD ; fail <- unless_failed r (line "close fail") fail ;
  verdict (line "err_neg_fd: FAIL") (line "err_neg_fd: PASS") fail.

Definition err_big_fd (buf : Z) : U W Z :=
  r <- ece391_read BIG_FD buf 31 ; fail <- unless_failed r (line "read fail") 0 ;
  r <- ece391_write BIG_FD buf 31 ; fail <- unless_failed r (line "write fail") fail ;
  r <- ece391_close BIG_FD ; fail <- unless_failed r (line "close fail") fail ;
  verdict (line "err_big_fd: FAIL") (line "err_big_fd: PASS") fail.

Definition err_open_lots : U W Z :=
  cnt <- for_up 0 7 (fun _ cnt => r <- ece391_open (lit (chars ".")) ;
                                  done_with (if -1 =? r then cnt + 1 else cnt)) 0 ;
  for_up 2 8 (fun i (_ : unit) => ece391_close i ;; done_with tt) tt ;;
  if cnt =? 1 then ece391_fdputs 1 (lit (line "err_open_lots: PASS")) ;; done_with 0
  else ece391_fdputs 1 (lit (line "err_open_lots: FAIL")) ;; done_with 2.

Definition err_open : U W Z :=
  r <- ece391_open (lit (chars "helloo")) ; fail <- unless_failed r (line "'helloo' fail") 0 ;
  r <- ece391_open (lit (chars "shel")) ; fail <- unless_failed r (line "'shel' fail") fail ;
  r <- ece391_open (lit []) ; fail <- unless_failed r (line "empty string fail") fail ;
  verdict (line "err_open: FAIL") (line "err_open: PASS") fail.

Definition err_unopened (buf : Z) : U W Z :=
  fail <- for_up 0 8 (fun i fail => r <- ece391_close i ; unless_failed r (line "close unopened or invalid fd fail") fail) 0 ;
  fail <- for_up 2 8 (fun i fail => r <- ece391_read i buf 31 ; unless_failed r (line "read from unopened fd fail") fail) fail ;
  fail <- for_up 2 8 (fun i fail => r <- ece391_write i buf 31 ; unless_failed r (line "write to unopened fd fail") fail) fail ;
  verdict (line "err_unopened: FAIL") (line "err_unopened: PASS") fail.

Definition err_vidmap : U W Z :=
  r <- ece391_vidmap 0 ; fail <- unless_failed r (line "Null pointer fail") 0 ;
  r <- ece391_vidmap 0x400000 ; fail <- unless_failed r (line "Kernel pointer fail fail") fail ;
  verdict (line "err_vidmap: FAIL") (line "err_vidmap: PASS") fail.

Definition err_stdin_out (buf : Z) : U W Z :=
  r <- ece391_write 0 buf 31 ; fail <- unless_failed r (line "write to stdin fail") 0 ;
  r <- ece391_read 1 buf 31 ; fail <- unless_failed r (line "read from stdout fail") fail ;
  verdict (line "err_stdin_out: FAIL") (line "err_stdin_out: PASS") fail.

Definition err_syscall_num : U W Z :=
  r <- call_sys BIG_NUM ; fail <- unless_failed r (line "syscall 0 fail") 0 ;
  r <- call_sys NEG_NUM ; fail <- unless_failed r (line "big num syscall fail") fail ;
  r <- call_sys 0 ; fail <- unless_failed r (line "neg num syscall fail") fail ;
  verdict (line "err_syscall_num: FAIL") (line "err_syscall_num: PASS") fail.

(** [case 0] of [main]: all of them. *)
Definition all_tests (buf : Z) : U W Z :=
  f1 <- err_neg_fd buf ; f2 <- err_big_fd buf ; f3 <- err_open_lots ; f4 <- err_open ;
  f5 <- err_unopened buf ; f6 <- err_vidmap ; f7 <- err_stdin_out buf ; f8 <- err_syscall_num ;
  let fail := f1 + f2 + f3 + f4 + f5 + f6 + f7 + f8 in
  (if negb (fail =? 0) then ece391_fdputs 1 (lit (10 :: line "Overall Tests: FAIL"))
   else ece391_fdputs 1 (lit (10 :: line "Overall Tests: PASS"))) ;; done_with fail.

(** [main]; [buf] is its own array, [tbuf] that of the test it calls. *)
Definition syserr (buf tbuf : Z) : U W Z :=
  ece391_fdputs 1 (lit (chars "Choose from tests 1-8. 0 to run all: ")) ;;
  cnt <- ece391_read 0 buf 127 ;
  if -1 =? cnt then ece391_fdputs 1 (lit (line "Can't read test #")) ;; done_with 2
  else
    c <- load buf ;
    match c - 48 with
    | 0 => all_tests tbuf
    | 1 => err_neg_fd tbuf
    | 2 => err_big_fd tbuf
    | 3 => err_open_lots
    | 4 => err_open
    | 5 => err_unopened tbuf
    | 6 => err_vidmap
    | 7 => err_stdin_out tbuf
    | 8 => err_syscall_num
    | _ => ece391_fdputs 1 (lit (chars "Invalid test number. Choose from tests 1-8 or 0")) ;; done_with 0
    end.
End program.

(** ** Every test passes *)

Section tests.
(** The local arrays are among the [n] bytes at [base]. *)
Context `{Kernel W} `{Linked} (base n buf : Z) (lits : list (list Z)).
Hypothesis Hbuf : user_range buf 32 /\ base <= buf /\ buf + 32 <= base + n.
Implicit Types (o : os).
#[local] Open Scope user_scope.
#[local] Abbreviation gives := (gives base n lits).

Lemma array_range : user_range buf 31.
Proof. destruct Hbuf as [[? ?] _]. unfold user_range. lia. Qed.

Lemma gives_unless_failed msg o : gives (unless_failed (-1) msg 0) 0 o o.
Proof. apply gives_done. Qed.
(** A call that fails, and the check after it. *)
Lemma gives_expected {B} (m : U W Z) msg (f : Z -> U W B) b o o' : gives m (-1) o o ->
  gives (f 0) b o o' -> gives (r <- m ; fail <- unless_failed r msg 0 ; f fail) b o o'.
Proof. intros Hm Hf. apply (gives_then _ _ _ _ _ (-1) _ _ o); [done|]. by apply (gives_then _ _ _ _ _ 0 _ _ o); [apply gives_unless_failed|]. Qed.
Lemma gives_verdict bad good o : good ∈ lits -> handles o 1 = Screen -> Forall (fun c => c <> 8) good ->
  gives (verdict bad good 0) 0 o (show good o).
Proof.
  intros Hg Hh H8. unfold verdict. apply (gives_then _ _ _ _ _ tt _ _ (show good o)); [by apply gives_print|apply gives_done].
Qed.

Lemma bad_fd_fails o fd : ~ 0 <= s32 (u32 fd) <= 7 ->
  gives (ece391_read fd buf 31) (-1) o o /\ gives (ece391_write fd buf 31) (-1) o o /\ gives (ece391_close fd) (-1) o o.
Proof.
  intros Hfd. assert (in_table (s32 (u32 fd)) = false) as Et by (unfold in_table; lia). split_and!.
  - apply gives_bad_read; [unfold spec_read; by rewrite Et|unfold room; by rewrite Et|lia|lia|lia|apply array_range].
  - apply gives_bad_write; [intros l; unfold spec_write; by rewrite Et|lia|apply array_range].
  - apply (gives_close _ _ _ o fd (Effect (-1) [] o)). unfold spec_close.
    destruct ((2 <=? s32 (u32 fd)) && (s32 (u32 fd) <=? 7)) eqn:E; [lia|done].
Qed.
(** What a run in which nothing fails uses of the program's image. *)
Definition used : list (list Z) :=
  [chars "."; chars "helloo"; chars "shel"; []; chars "Choose from tests 1-8. 0 to run all: ";
   line "err_neg_fd: PASS"; line "err_big_fd: PASS"; line "err_open_lots: PASS"; line "err_open: PASS";
   line "err_unopened: PASS"; line "err_vidmap: PASS"; line "err_stdin_out: PASS"; line "err_syscall_num: PASS";
   10 :: line "Overall Tests: PASS"].
Hypothesis Hlits : forall l, l ∈ used -> l ∈ lits.

(** The program as it is started: the standard descriptors, and no others. *)
Record standard o : Prop := {
  so_keyboard : handles o 0 = Keyboard;
  so_screen : handles o 1 = Screen;
  so_free : forall i, 2 <= i <= 7 -> descriptors o !! i = None
}.
Lemma standard_free o i : standard o -> 2 <= i <= 7 -> handles o i = Free.
Proof. intros [_ _ Hf] Hi. unfold handles. by rewrite Hf. Qed.
Lemma standard_show l o : standard o -> standard (show l o).
Proof. intros [S0 S1 S2]. split; [exact S0|exact S1|exact S2]. Qed.

Ltac in_used := apply Hlits; unfold used; rewrite !elem_of_cons; tauto.
Ltac verdict_passes := apply gives_verdict; [in_used|by apply so_screen|by repeat constructor].
Ltac small_fd i := rewrite (u32_small i), (s32_small i) by lia.

Lemma neg_fd_passes o : standard o -> gives (err_neg_fd buf) 0 o (show (line "err_neg_fd: PASS") o).
Proof.
  intros Ho. destruct (bad_fd_fails o NEG_FD) as (B1 & B2 & B3); [change (s32 (u32 NEG_FD)) with (-1073741823); lia|]. unfold err_neg_fd.
  do 3 (apply gives_expected; [done|]). verdict_passes.
Qed.
Lemma big_fd_passes o : standard o -> gives (err_big_fd buf) 0 o (show (line "err_big_fd: PASS") o).
Proof.
  intros Ho. destruct (bad_fd_fails o BIG_FD) as (B1 & B2 & B3); [change (s32 (u32 BIG_FD)) with 1073741823; lia|]. unfold err_big_fd.
  do 3 (apply gives_expected; [done|]). verdict_passes.
Qed.

Lemma open_passes o : standard o -> find_file (chars "helloo") o = None -> find_file (chars "shel") o = None ->
  gives err_open 0 o (show (line "err_open: PASS") o).
Proof.
  intros Ho Hf1 Hf2. unfold err_open. apply gives_expected; [|apply gives_expected; [|apply gives_expected]].
  - apply (gives_open _ _ _ _ o (Effect (-1) [] o)); [in_used|done|]. unfold spec_open. by rewrite Hf1.
  - apply (gives_open _ _ _ _ o (Effect (-1) [] o)); [in_used|done|]. unfold spec_open. by rewrite Hf2.
  - apply gives_open_empty. in_used.
  - verdict_passes.
Qed.

Lemma unopened_passes o : standard o -> gives (err_unopened buf) 0 o (show (line "err_unopened: PASS") o).
Proof.
  intros Ho. unfold err_unopened.
  apply (gives_then _ _ _ _ _ 0 _ _ o); [|apply (gives_then _ _ _ _ _ 0 _ _ o); [|apply (gives_then _ _ _ _ _ 0 _ _ o)]].
  - apply (gives_for _ _ _ _ (fun _ => 0) (fun _ => o)); [lia|]. intros i Hi.
    apply (gives_then _ _ _ _ _ (-1) _ _ o); [|apply gives_unless_failed].
    apply (gives_close _ _ _ o i (Effect (-1) [] o)). small_fd i. unfold spec_close.
    destruct ((2 <=? i) && (i <=? 7)) eqn:E; [|done]. by rewrite (standard_free o i Ho) by lia.
  - apply (gives_for _ _ _ _ (fun _ => 0) (fun _ => o)); [lia|]. intros i Hi.
    apply (gives_then _ _ _ _ _ (-1) _ _ o); [|apply gives_unless_failed].
    assert (in_table i = true) as Et by (unfold in_table; lia).
    apply gives_bad_read; [| |lia|lia|lia|apply array_range]; small_fd i; [unfold spec_read|unfold room];
      by rewrite Et, (standard_free o i Ho) by lia.
  - apply (gives_for _ _ _ _ (fun _ => 0) (fun _ => o)); [lia|]. intros i Hi.
    apply (gives_then _ _ _ _ _ (-1) _ _ o); [|apply gives_unless_failed].
    assert (in_table i = true) as Et by (unfold in_table; lia).
    apply gives_bad_write; [|lia|apply array_range]. intros l. small_fd i. unfold spec_write. by rewrite Et, (standard_free o i Ho) by lia.
  - verdict_passes.
Qed.

Lemma vidmap_passes o : standard o -> gives err_vidmap 0 o (show (line "err_vidmap: PASS") o).
Proof.
  intros Ho. unfold err_vidmap. apply gives_expected; [|apply gives_expected].
  - apply (gives_fail _ _ _ _ o 0 0); [by left|]. intros w [Hs _]. apply (kernel_vidmap o); [done|lia|unfold user; lia].
  - apply (gives_fail _ _ _ _ o 0 0); [by left|]. intros w [Hs _]. apply (kernel_vidmap o); [done|lia|unfold user; lia].
  - verdict_passes.
Qed.

Lemma stdin_out_passes o : standard o -> gives (err_stdin_out buf) 0 o (show (line "err_stdin_out: PASS") o).
Proof.
  intros Ho. unfold err_stdin_out. apply gives_expected; [|apply gives_expected].
  - apply gives_bad_write; [|lia|apply array_range]. intros l. change (s32 (u32 0)) with 0. unfold spec_write, in_table. simpl. by rewrite (so_keyboard _ Ho).
  - apply gives_bad_read; [| |lia|lia|lia|apply array_range].
    + change (s32 (u32 1)) with 1. unfold spec_read, in_table. simpl. by rewrite (so_screen _ Ho).
    + change (s32 (u32 1)) with 1. unfold room, in_table. simpl. by rewrite (so_screen _ Ho).
  - verdict_passes.
Qed.

Lemma syscall_num_passes o : standard o -> gives err_syscall_num 0 o (show (line "err_syscall_num: PASS") o).
Proof.
  intros Ho. unfold err_syscall_num.
  assert (forall num, s32 (u32 num) <= 0 \/ 10 < s32 (u32 num) -> gives (call_sys num) (-1) o o) as Hc.
  { intros num Hn. apply (gives_fail _ _ _ _ o 0 0); [by left|]. intros w [Hs _]. by apply (kernel_unknown o). }
  apply gives_expected; [apply Hc; right; done|]. do 2 (apply gives_expected; [apply Hc; left; done|]). verdict_passes.
Qed.
(** [o] with the directory open at the descriptors from [a] to [b - 1]. *)
Record lots a b m o oi : Prop := {
  lo_rest : oi = Os (disk o) (arguments o) (descriptors oi) m (typed o) (spare o) (screen o) (stands o);
  lo_open : forall j, descriptors oi !! j = if (a <=? j) && (j <? b) then Some Listing else descriptors o !! j
}.
Lemma lots_handle a b m o oi j : standard o -> lots a b m o oi -> 2 <= j <= 7 ->
  handles oi j = if (a <=? j) && (j <? b) then Listing else Free.
Proof. intros [_ _ Hf] [_ Ho] Hj. unfold handles. rewrite Ho. case_match; [done|]. by rewrite Hf. Qed.

Lemma open_lots_passes o : standard o -> find_file (chars ".") o = Some Folder ->
  gives err_open_lots 0 o (set_listed 0 (show (line "err_open_lots: PASS") o)).
Proof.
  intros Ho Hdot. unfold err_open_lots.
  destruct (gives_for_inv base n lits (fun _ cnt => r <- ece391_open (lit (chars ".")) ; done_with (if -1 =? r then cnt + 1 else cnt))
    (fun i => if i <=? 6 then 0 else 1) (fun i => lots 2 (2 + Z.min i 6) (if i =? 0 then listed o else 0) o) 0 7 o) as (o1 & Hg1 & Hi1).
  { lia. }
  { split; [by destruct o|]. intros j. by test_false ((2 <=? j) && (j <? 2 + Z.min 0 6)). }
  { intros i oi Hi Hinv. pose proof (fun j => lots_handle _ _ _ _ _ j Ho Hinv) as Hh.
    assert (find_file (chars ".") oi = Some Folder) as Hd by (rewrite (lo_rest _ _ _ _ _ Hinv); exact Hdot).
    destruct (Z.eq_dec i 6) as [->|Hne].
    - exists oi. split; [|destruct Hinv as [H1' H2']; by split].
      apply (gives_then _ _ _ _ _ (-1) _ _ oi); [|apply gives_done].
      apply (gives_open _ _ _ _ oi (Effect (-1) [] oi)); [in_used|done|]. unfold spec_open. rewrite Hd, free_handle_none; [done|].
      intros j Hj. rewrite Hh by lia. by test_true ((2 <=? j) && (j <? 2 + Z.min 6 6)).
    - exists (set_listed 0 (set_handle (2 + i) Listing oi)). split.
      + apply (gives_then _ _ _ _ _ (2 + i) _ _ (set_listed 0 (set_handle (2 + i) Listing oi))).
        * apply (gives_open _ _ _ _ oi (Effect (2 + i) [] (set_listed 0 (set_handle (2 + i) Listing oi)))); [in_used|done|].
          unfold spec_open. rewrite Hd, (free_handle_first oi (2 + i)); [done|lia| |].
          -- rewrite Hh by lia. by test_false ((2 <=? 2 + i) && (2 + i <? 2 + Z.min i 6)).
          -- intros j Hj. rewrite Hh by lia. by test_true ((2 <=? j) && (j <? 2 + Z.min i 6)).
        * test_true (i <=? 6). test_true (i + 1 <=? 6). test_false (-1 =? 2 + i). apply gives_done.
      + test_false (i + 1 =? 0). destruct Hinv as [Hr Hop]. split; [by rewrite Hr|].
        intros j. change (descriptors (set_listed 0 (set_handle (2 + i) Listing oi))) with (put_handle (2 + i) Listing (descriptors oi)).
        rewrite put_handle_lookup, Hop. destruct (Z.eqb_spec (2 + i) j) as [<-|].
        * by test_true ((2 <=? 2 + i) && (2 + i <? 2 + Z.min (i + 1) 6)).
        * destruct (Z.leb_spec 2 j); [|done]. destruct (Z.ltb_spec j (2 + Z.min i 6)), (Z.ltb_spec j (2 + Z.min (i + 1) 6)); (done || lia). }
  destruct (gives_for_inv base n lits (fun i (_ : unit) => ece391_close i ;; done_with tt)
    (fun _ => tt) (fun i => lots i 8 0 o) 2 8 o1) as (o2 & Hg2 & Hi2).
  { lia. }
  { exact Hi1. }
  { intros i oi Hi Hinv. pose proof (fun j => lots_handle _ _ _ _ _ j Ho Hinv) as Hh. exists (set_handle i Free oi). split.
    - apply (gives_then _ _ _ _ _ 0 _ _ (set_handle i Free oi)); [|apply gives_done].
      apply (gives_close _ _ _ oi i (Effect 0 [] (set_handle i Free oi))). small_fd i. unfold spec_close. rewrite Hh by lia.
      test_true ((2 <=? i) && (i <=? 7)). by test_true ((i <=? i) && (i <? 8)).
    - destruct Hinv as [Hr Hop]. split; [by rewrite Hr|]. intros j.
      change (descriptors (set_handle i Free oi)) with (put_handle i Free (descriptors oi)). rewrite put_handle_lookup, Hop.
      destruct (Z.eqb_spec i j) as [<-|].
      + test_false ((i + 1 <=? i) && (i <? 8)). by rewrite (so_free _ Ho) by lia.
      + destruct (Z.leb_spec i j), (Z.leb_spec (i + 1) j); (done || lia). }
  assert (o2 = set_listed 0 o) as E2.
  { destruct Hi2 as [-> Hop]. unfold set_listed. f_equal. apply map_eq. intros j. rewrite Hop.
    by destruct (Z.leb_spec 8 j), (Z.ltb_spec j 8); try lia. }
  change (0 <=? 6) with true in Hg1. change (7 <=? 6) with false in Hg1. cbv iota beta in Hg1, Hg2.
  apply (gives_then _ _ _ _ _ 1 _ _ o1); [exact Hg1|]. apply (gives_then _ _ _ _ _ tt _ _ o2); [exact Hg2|].
  change (1 =? 1) with true. cbv iota. rewrite E2.
  rewrite <- show_listed. eapply gives_then; [|apply gives_done].
  apply gives_print; [in_used|exact (so_screen _ Ho)|by repeat constructor].
Qed.

(** The lines of a run in which every test passes. *)
Definition all_passed : list Z :=
  line "err_neg_fd: PASS" ++ line "err_big_fd: PASS" ++ line "err_open_lots: PASS" ++ line "err_open: PASS" ++
  line "err_unopened: PASS" ++ line "err_vidmap: PASS" ++ line "err_stdin_out: PASS" ++ line "err_syscall_num: PASS" ++
  10 :: line "Overall Tests: PASS".

Lemma all_tests_pass o : standard o -> find_file (chars ".") o = Some Folder ->
  find_file (chars "helloo") o = None -> find_file (chars "shel") o = None ->
  gives (all_tests buf) 0 o (set_listed 0 (show all_passed o)).
Proof.
  intros Ho Hd Hf1 Hf2. unfold all_tests.
  assert (forall l o, standard o -> standard (set_listed 0 (show l o))) as Hst by (intros l o' [S0 S1 S2]; split; [exact S0|exact S1|exact S2]).
  eapply gives_then; [by apply neg_fd_passes|]. eapply gives_then; [apply big_fd_passes; by apply standard_show|].
  eapply gives_then; [apply open_lots_passes; [by apply standard_show, standard_show|exact Hd]|].
  eapply gives_then; [apply open_passes; [by apply Hst, standard_show, standard_show|exact Hf1|exact Hf2]|].
  eapply gives_then; [apply unopened_passes; by apply standard_show, Hst, standard_show, standard_show|].
  eapply gives_then; [apply vidmap_passes; by apply standard_show, standard_show, Hst, standard_show, standard_show|].
  eapply gives_then; [apply stdin_out_passes; by apply standard_show, standard_show, standard_show, Hst, standard_show, standard_show|].
  eapply gives_then; [apply syscall_num_passes; by apply standard_show, standard_show, standard_show, standard_show, Hst, standard_show, standard_show|].
  cbv zeta. change (0 + 0 + 0 + 0 + 0 + 0 + 0 + 0) with 0. change (negb (0 =? 0)) with false. cbv iota.
  assert (set_listed 0 (show all_passed o) = show (10 :: line "Overall Tests: PASS") (show (line "err_syscall_num: PASS")
    (show (line "err_stdin_out: PASS") (show (line "err_vidmap: PASS") (show (line "err_unopened: PASS") (show (line "err_open: PASS")
    (set_listed 0 (show (line "err_open_lots: PASS") (show (line "err_big_fd: PASS") (show (line "err_neg_fd: PASS") o)))))))))) as ->.
  { unfold all_passed. by rewrite !show_app, !show_listed. }
  eapply gives_then; [apply gives_print; [in_used|exact (so_screen _ Ho)|by repeat constructor]|apply gives_done].
Qed.
End tests.

(** ** Properties *)

Section properties.
Context `{Kernel W} `{Linked}.
Implicit Types (w : W) (o : os).
#[local] Open Scope user_scope.

(** C16: [syserr], asked for all its tests, reports that every one passes and ends
    with status 0: negative, large and unopened descriptors, names that are
    almost those of files, more files opened than there are descriptors, bad
    pointers for the video page, the wrong direction of the standard
    descriptors and unknown system calls all fail as the tests expect. *)
Theorem syserr_passes o w buf tbuf ls : serves o w -> standard o ->
  user_range buf 128 -> user_range tbuf 32 ->
  (forall l, l ∈ used -> literal l (Z.min buf tbuf) (Z.max (buf + 128) (tbuf + 32) - Z.min buf tbuf) w) ->
  find_file (chars ".") o = Some Folder -> find_file (chars "helloo") o = None -> find_file (chars "shel") o = None ->
  typed o = chars "0" :: ls ->
  exists w', syserr buf tbuf w = Back 0 w' /\
    serves (set_listed 0 (set_typed ls
      (show (chars "Choose from tests 1-8. 0 to run all: " ++ line "0" ++ all_passed) o))) w'.
Proof.
  intros Hs Ho Hu Hut Hlit Hd Hf1 Hf2 Ht. set (base := Z.min buf tbuf) in *. set (n := Z.max (buf + 128) (tbuf + 32) - base) in *.
  pose proof (fun l (Hl : l ∈ used) => Hl) as Hlits.
  set (prompt := chars "Choose from tests 1-8. 0 to run all: ") in *.
  assert (here base n used o w) as Hw by (split; [done|exact Hlit]).
  assert (Support.gives base n used (syserr buf tbuf) 0 o
    (set_listed 0 (set_typed ls (show (prompt ++ line "0" ++ all_passed) o)))) as Hg.
  2: { destruct (Hg w Hw) as (w' & E & Hs' & _). by exists w'. }
  unfold syserr. fold prompt. eapply gives_then; [apply gives_print; [unfold used; rewrite !elem_of_cons; tauto|exact (so_screen _ Ho)|by repeat constructor]|].
  apply (gives_line _ _ _ _ (chars "0") ls); [exact (so_keyboard _ Ho)|exact Ht|simpl; lia|lia|lia|destruct Hu; unfold user_range; lia|].
  intros w1 Hw1 Hb. set (o1 := heard ls (chars "0") (show prompt o)) in *. change (-1 =? Z.of_nat (length (chars "0")) + 1) with false. cbv iota.
  rewrite (and_then_back (load buf) _ _ (get8 w1 buf) w1) by done.
  assert (get8 w1 buf = 48) as -> by (rewrite <- (Z.add_0_r buf); by apply (Hb 0%nat)).
  change (48 - 48) with 0. cbv iota.
  destruct (all_tests_pass base n tbuf used ltac:(split; [done|lia]) Hlits o1) with (w := w1) as (w2 & E & Hw2); [|exact Hd|exact Hf1|exact Hf2|exact Hw1|].
  - destruct Ho as [S0 S1 S2]. split; [exact S0|exact S1|exact S2].
  - exists w2. split; [exact E|].
    assert (set_listed 0 (set_typed ls (show (prompt ++ line "0" ++ all_passed) o)) = set_listed 0 (show all_passed o1)) as ->; [|done].
    unfold o1, heard. rewrite show_typed. apply (f_equal (set_listed 0)), (f_equal (set_typed ls)).
    by rewrite (show_app prompt), (show_app (line "0")).
Qed.
End properties.
