(* ===== verification/Shell.v ===== *)
(** User programs that talk to whoever is at the terminal: the shell
    (ece391shell.c), [hello] (ece391hello.c) and [testprint]
    (ece391testprint.c), on any kernel that keeps its promise.

    Local arrays and string literals are where the compiler puts them; the
    number of turns allowed to the loop of the shell is an argument. *)

From Stdlib Require Import String.
From S2P Require Import Prelude Bytes CString Console SysSpec Support.
#[local] Open Scope Z_scope.

Section programs.
Context `{Machine W} `{Linked}.
#[local] Open Scope user_scope.

(** ece391testprint.c [main]. *)
Definition testprint : U W Z :=
  ece391_fdputs 1 (lit (line "Hello, if this ran, the program was correct. Yay!")) ;; done_with 0.

(** ece391hello.c [main]; [buf] is its local array. *)
Definition hello (buf : Z) : U W Z :=
  ece391_fdputs 1 (lit (chars "Hi, what's your name? ")) ;;
  cnt <- ece391_read 0 buf (1024 - 1) ;
  if -1 =? cnt then
    ece391_fdputs 1 (lit (line "Can't read name from keyboard.")) ;; done_with 3
  else
    store (buf + cnt) 0 ;;
    ece391_fdputs 1 (lit (chars "Hello, ")) ;;
    ece391_fdputs 1 buf ;;
    done_with 0.

(** ece391shell.c [main]. *)
Definition shell_step (buf : Z) : U W (unit + Z) :=
  ece391_fdputs 1 (lit (chars "391OS> ")) ;;
  cnt <- ece391_read 0 buf (1024 - 1) ;
  if -1 =? cnt then
    ece391_fdputs 1 (lit (line "read from keyboard failed")) ;; done_with (inr 3)
  else
    cnt <- (if 0 <? cnt then c <- load (buf + (cnt - 1)) ; done_with (if 10 =? c then cnt - 1 else cnt)
            else done_with cnt) ;
    store (buf + cnt) 0 ;;
    r <- pure (ece391_strcmp buf (lit (chars "exit"))) ;
    if 0 =? r then done_with (inr 0)
    else
      c <- load buf ;
      if 0 =? c then done_with (inl tt)
      else
        rval <- ece391_execute buf ;
        (if -1 =? rval then ece391_fdputs 1 (lit (line "no such command"))
         else if 256 =? rval then ece391_fdputs 1 (lit (line "program terminated by exception"))
         else if negb (0 =? rval) then ece391_fdputs 1 (lit (line "program terminated abnormally"))
         else done_with tt) ;;
        done_with (inl tt).
Definition shell (buf : Z) (n : nat) : U W Z :=
  ece391_fdputs 1 (lit (line "Starting 391 Shell")) ;; turns n (fun _ => shell_step buf) tt.
End programs.

(** ** A line, and what is done with it *)

Section runs.
Context `{Kernel W} `{Linked} (buf : Z) (lits : list (list Z)).
Hypothesis Hbuf : user_range buf 1024.
Implicit Types (w : W) (o : os).
#[local] Open Scope user_scope.
#[local] Abbreviation here := (here buf 1024 lits).

(** A byte of the array. *)
Lemma here_store o w i v : here o w -> 0 <= i < 1024 -> here o (put8 (buf + i) v w).
Proof.
  intros Hw Hi. pose proof Hw as [Hs _]. destruct Hbuf as [H1' H2']. assert (user (buf + i)) as Hu by (unfold user; lia).
  apply (here_changes buf 1024 lits o w _ _ (buf + i) 1); [done|by apply serves_store|by apply (changes_store o)|lia].
Qed.

(** The line in the array, once a NUL has been stored after its first bytes. *)
Lemma ends_line o w l i : here o w -> bytes_at w buf l -> Forall (fun c => 0 < c < 256) (take i l) -> (i <= length l)%nat ->
  (i < 1024)%nat -> let w' := put8 (buf + Z.of_nat i) 0 w in here o w' /\ string_at w' buf (take i l).
Proof.
  intros Hw Hb Hc Hi Hlt. cbv zeta. split; [by apply here_store; [|lia]|].
  pose proof Hw as [Hs _]. destruct Hbuf as [H1' H2'].
  assert (length (take i l) = i) as El by (rewrite length_take; lia).
  split; [unfold user_range; lia| |done]. intros j c Hj. pose proof (lookup_lt_Some _ _ _ Hj) as Hjl.
  rewrite length_app, El in Hjl. simpl in Hjl. rewrite (get8_store o) by (done || (unfold user; lia)).
  destruct (Z.eqb_spec (buf + Z.of_nat i) (buf + Z.of_nat j)) as [E|E].
  - assert (j = i) as -> by lia. rewrite lookup_app_r, El, Nat.sub_diag in Hj by lia. by injection Hj as <-.
  - rewrite lookup_app_l in Hj by lia. apply Hb. rewrite lookup_take_lt in Hj by lia. done.
Qed.

Lemma print_here o w l : here o w -> l ∈ lits -> handles o 1 = Screen -> Forall (fun c => c <> 8) l ->
  exists w', ece391_fdputs 1 (lit l) w = Back tt w' /\ here (show l o) w' /\ changes w w' 0 0.
Proof.
  intros Hw Hl Hh H8. pose proof Hw as [Hs Hlit].
  destruct (print_literal o w l buf 1024 Hs Hh (Hlit l Hl) H8) as (w' & E & Hs' & Hc).
  exists w'. split; [done|]. split; [|done]. apply (here_changes buf 1024 lits o w _ _ 0 0); [done..|by left].
Qed.
Lemma line_here o w l ls : here o w -> handles o 0 = Keyboard -> typed o = l :: ls -> Z.of_nat (length l) < 1023 ->
  exists w', ece391_read 0 buf (1024 - 1) w = Back (Z.of_nat (length l) + 1) w' /\ here (heard ls l o) w' /\
    bytes_at w' buf (l ++ [10]).
Proof.
  intros Hw Hk Ht Hl. destruct Hbuf as [? ?].
  apply (hear_line buf 1024 lits); [done|done|done|lia|lia|lia|]. unfold user_range. lia.
Qed.

(** ** [hello] *)

Lemma hello_runs o w l ls : here o w -> handles o 0 = Keyboard -> handles o 1 = Screen -> typed o = l :: ls ->
  Z.of_nat (length l) < 1023 -> Forall (fun c => 0 < c < 256 /\ c <> 8) l ->
  chars "Hi, what's your name? " ∈ lits -> chars "Hello, " ∈ lits ->
  exists w', hello buf w = Back 0 w' /\
    here (set_typed ls (show (chars "Hi, what's your name? " ++ l ++ [10] ++ chars "Hello, " ++ l ++ [10]) o)) w'.
Proof.
  intros Hw Hk Hsc Ht Hl Hc Hl1 Hl2.
  assert (Forall (fun c => 0 < c < 256) (l ++ [10])) as Hc1.
  { apply Forall_app. split; [by eapply Forall_impl; [exact Hc|simpl; tauto]|by repeat constructor]. }
  assert (Forall (fun c => c <> 8) (l ++ [10])) as Hc8.
  { apply Forall_app. split; [by eapply Forall_impl; [exact Hc|simpl; tauto]|by repeat constructor]. }
  assert (length (l ++ [10]) = S (length l)) as El by (rewrite length_app; simpl; lia).
  unfold hello. set (hi := chars "Hi, what's your name? ") in *. set (he := chars "Hello, ") in *.
  destruct (print_here o w hi Hw Hl1 Hsc) as (w1 & E1 & Hw1 & _); [by repeat constructor|]. rewrite (and_then_back _ _ _ _ _ E1).
  destruct (line_here (show hi o) w1 l ls Hw1 Hk Ht Hl) as (w2 & E2 & Hw2 & Hb). rewrite (and_then_back _ _ _ _ _ E2).
  test_false (-1 =? Z.of_nat (length l) + 1).
  destruct (ends_line _ w2 (l ++ [10]) (S (length l)) Hw2 Hb) as [Hw3 Hstr]; [by rewrite take_ge by lia|lia|lia|].
  rewrite take_ge in Hstr by lia. rewrite Nat2Z.inj_succ, <- Z.add_1_r in Hw3, Hstr.
  rewrite (and_then_back (store _ _) _ _ tt _ eq_refl). set (w3 := put8 _ 0 w2) in *.
  destruct (print_here (heard ls l (show hi o)) w3 he Hw3 Hl2 Hsc) as (w4 & E4 & Hw4 & Hch); [by repeat constructor|].
  rewrite (and_then_back _ _ _ _ _ E4).
  pose proof (string_at_changes w3 w4 buf _ 0 0 Hstr Hch ltac:(by left)) as Hstr4. pose proof Hw4 as [Hs4 _].
  destruct (fdputs_screen _ w4 buf (l ++ [10]) Hs4 Hsc Hstr4 Hc8) as (w5 & E5 & Hs5 & Hch5).
  exists w5. rewrite (and_then_back _ _ _ _ _ E5). split; [done|].
  assert (set_typed ls (show (hi ++ l ++ [10] ++ he ++ l ++ [10]) o) = show (l ++ [10]) (show he (heard ls l (show hi o)))) as ->.
  { unfold heard. rewrite !show_typed. apply (f_equal (set_typed ls)). rewrite <- !show_app. by rewrite <- !app_assoc. }
  apply (here_changes buf 1024 lits (show he (heard ls l (show hi o))) w4 _ _ 0 0); [done..|by left].
Qed.

(** ** The shell *)

(** What the shell puts on the screen for the line [l] of a command that
    fails. *)
Definition answer (l : list Z) : list Z :=
  chars "391OS> " ++ l ++ [10] ++ (if decide (l = []) then [] else line "no such command").

Hypothesis Hprompt : chars "391OS> " ∈ lits.
Hypothesis Hexit : chars "exit" ∈ lits.
Hypothesis Hmissing : line "no such command" ∈ lits.
Hypothesis Hexception : line "program terminated by exception" ∈ lits.
Hypothesis Habnormal : line "program terminated abnormally" ∈ lits.

(** A line the shell can take. *)
Definition plain (l : list Z) : Prop := Z.of_nat (length l) < 1023 /\ Forall (fun c => 0 < c < 256) l.

(** Two strings of the page are equal when [strcmp] finds no difference. *)
Lemma strings_equal w p q l1 l2 : string_at w p l1 -> string_at w q l2 ->
  (Z.of_nat (length l1) = Z.of_nat (length l2) /\ forall i, 0 <= i < Z.of_nat (length l1) -> get8 w (p + i) = get8 w (q + i)) <-> l1 = l2.
Proof.
  intros H1' H2'. destruct (string_body _ _ _ H1') as [B1 _], (string_body _ _ _ H2') as [B2 _]. split.
  - intros [El Hb]. apply list_eq. intros i. destruct (decide (i < length l1)%nat) as [Hi|Hi].
    + destruct (lookup_lt_is_Some_2 l1 i Hi) as [c Hc]. destruct (lookup_lt_is_Some_2 l2 i) as [d Hd]; [lia|].
      rewrite Hc, Hd. f_equal. rewrite <- (B1 _ _ Hc), <- (B2 _ _ Hd). apply Hb. lia.
    + by rewrite !lookup_ge_None_2 by lia.
  - intros <-. split; [done|]. intros i Hi. destruct (lookup_lt_is_Some_2 l1 (Z.to_nat i)) as [c Hc]; [lia|].
    rewrite <- (Z2Nat.id i) by lia. by rewrite (B1 _ _ Hc), (B2 _ _ Hc).
Qed.

(** Up to the comparison with "exit". *)
Lemma shell_hears o w l ls : here o w -> handles o 0 = Keyboard -> handles o 1 = Screen -> typed o = l :: ls -> plain l ->
  exists w', string_at w' buf l /\ here (heard ls l (show (chars "391OS> ") o)) w' /\
    shell_step buf w = (if decide (l = chars "exit") then Back (inr 0) w'
      else (c <- load buf ;
            if 0 =? c then done_with (inl tt)
            else
              rval <- ece391_execute buf ;
              (if -1 =? rval then ece391_fdputs 1 (lit (line "no such command"))
               else if 256 =? rval then ece391_fdputs 1 (lit (line "program terminated by exception"))
               else if negb (0 =? rval) then ece391_fdputs 1 (lit (line "program terminated abnormally"))
               else done_with tt) ;;
              done_with (inl tt)) w').
Proof.
  intros Hw Hk Hsc Ht [Hl Hc]. set (pr := chars "391OS> ") in *.
  destruct (print_here o w pr Hw Hprompt Hsc) as (w1 & E1 & Hw1 & _); [by repeat constructor|].
  destruct (line_here (show pr o) w1 l ls Hw1 Hk Ht Hl) as (w2 & E2 & Hw2 & Hb).
  destruct (ends_line _ w2 (l ++ [10]) (length l) Hw2 Hb) as [Hw3 Hstr];
    [by rewrite take_app_length|rewrite length_app; lia|lia|]. rewrite take_app_length in Hstr.
  exists (put8 (buf + Z.of_nat (length l)) 0 w2). set (w3 := put8 _ 0 w2) in *. split; [done|]. split; [done|].
  unfold shell_step. fold pr. rewrite (and_then_back _ _ _ _ _ E1), (and_then_back _ _ _ _ _ E2).
  test_false (-1 =? Z.of_nat (length l) + 1). test_true (0 <? Z.of_nat (length l) + 1).
  assert (get8 w2 (buf + (Z.of_nat (length l) + 1 - 1)) = 10) as E10.
  { rewrite Z.add_simpl_r. apply Hb. by rewrite lookup_app_r, Nat.sub_diag by lia. }
  rewrite (and_then_back (and_then (load _) _) _ w2 (Z.of_nat (length l)) w2).
  2: { rewrite (and_then_back (load _) _ _ _ _ eq_refl), E10. change (10 =? 10) with true. cbv iota.
       unfold done_with. f_equal. lia. }
  rewrite (and_then_back (store _ _) _ _ tt w3 eq_refl).
  pose proof (li_string _ _ _ _ (proj2 Hw3 _ Hexit)) as Hex.
  destruct (ece391_strcmp_spec buf (lit (chars "exit")) _ _ w3 (string_cstr _ _ _ Hstr) (string_cstr _ _ _ Hex)) as (r & Er & Hr); [lia|].
  rewrite (and_then_back (pure _) _ _ r w3) by (unfold pure; by rewrite Er).
  rewrite (strings_equal w3 buf (lit (chars "exit")) l (chars "exit") Hstr Hex) in Hr.
  destruct (decide (l = chars "exit")) as [->|Hne].
  - by rewrite (proj2 (Z.eqb_eq 0 r) (eq_sym (proj2 Hr eq_refl))).
  - destruct (Z.eqb_spec 0 r) as [<-|_]; [by destruct Hne; apply Hr|done].
Qed.

Lemma spec_execute_same l o o' : disk o' = disk o -> spec_execute l o = fails o -> spec_execute l o' = fails o'.
Proof.
  intros Ed He. unfold spec_execute, find_file in *. rewrite Ed. destruct (first_word l); [done|].
  destruct (command_fits l); [|done]. by repeat case_match.
Qed.
Lemma spec_starts_same l o o' : disk o' = disk o -> spare o' = spare o -> spec_starts l o' = spec_starts l o.
Proof. intros Ed Es. unfold spec_starts, find_file. by rewrite Ed, Es. Qed.

(** The line is a command that comes back, with result [r]: of the page nothing
    has changed. *)
Definition comes_back (l : list Z) (r : Z) (o o' : os) : Prop := forall w name c d, serves o w -> string_at w name l ->
  exists w', int80 2 name c d w = Back r w' /\ serves o' w' /\ changes w w' name 0.
Lemma fails_comes_back l o : spec_execute l o = fails o -> comes_back l (-1) o o.
Proof.
  intros He w name c d Hs Hstr. destruct (kernel_execute o w name l c d _ Hs He Hstr) as (w' & E & Hs' & _ & Hc).
  by exists w'.
Qed.

(** What the shell says of the result of a command. *)
Definition message (r : Z) : list Z :=
  if -1 =? r then line "no such command"
  else if 256 =? r then line "program terminated by exception"
  else if negb (0 =? r) then line "program terminated abnormally" else [].

(** The shell deals with a line: it is empty, or a command that comes back. *)
Definition dealt (l : list Z) (o o' : os) : Prop :=
  (l = [] /\ o' = o) \/
  (l <> [] /\ exists r o1, comes_back l r o o1 /\ handles o1 1 = Screen /\ o' = show (message r) o1).

(** The lines of a session, and what they lead to. *)
Inductive session : os -> list (list Z) -> os -> Prop :=
  | session_ends o : session o [] o
  | session_line o l rest ls o1 o2 : handles o 0 = Keyboard -> handles o 1 = Screen -> typed o = l :: rest -> plain l ->
      l <> chars "exit" -> dealt l (heard rest l (show (chars "391OS> ") o)) o1 -> session o1 ls o2 -> session o (l :: ls) o2.

Lemma says_message o w r : here o w -> handles o 1 = Screen ->
  exists w', (if -1 =? r then ece391_fdputs 1 (lit (line "no such command"))
     else if 256 =? r then ece391_fdputs 1 (lit (line "program terminated by exception"))
     else if negb (0 =? r) then ece391_fdputs 1 (lit (line "program terminated abnormally"))
     else done_with tt) w = Back tt w' /\ here (show (message r) o) w'.
Proof.
  intros Hw Hsc. unfold message.
  assert (forall s, s ∈ lits -> Forall (fun c => c <> 8) s -> exists w', ece391_fdputs 1 (lit s) w = Back tt w' /\ here (show s o) w') as Hp.
  { intros s Hl H8. destruct (print_here o w s Hw Hl Hsc H8) as (w' & E & Hw' & _). by exists w'. }
  destruct (-1 =? r); [apply Hp; [done|by repeat constructor]|]. destruct (256 =? r); [apply Hp; [done|by repeat constructor]|].
  destruct (0 =? r); [exists w; by rewrite show_nil|apply Hp; [done|by repeat constructor]].
Qed.

(** A turn for a line that is dealt with. *)
Lemma shell_turn o w l rest o1 : here o w -> handles o 0 = Keyboard -> handles o 1 = Screen -> typed o = l :: rest -> plain l ->
  l <> chars "exit" -> dealt l (heard rest l (show (chars "391OS> ") o)) o1 ->
  exists w', shell_step buf w = Back (inl tt) w' /\ here o1 w'.
Proof.
  intros Hw Hk Hsc Ht Hl Hne Hd. destruct (shell_hears o w l rest Hw Hk Hsc Ht Hl) as (w1 & Hstr & Hw1 & ->).
  rewrite decide_False by done. rewrite (and_then_back (load _) _ _ _ _ eq_refl).
  destruct (string_body _ _ _ Hstr) as [Hb _]. destruct Hd as [[-> ->]|(Hnil & r & o2 & Hcb & Hsc2 & ->)].
  - assert (get8 w1 buf = 0) as ->.
    { rewrite <- (Z.add_0_r buf). by apply (sa_bytes _ _ _ Hstr 0%nat). }
    by exists w1.
  - assert (get8 w1 buf <> 0) as Hnz.
    { destruct l as [|c l]; [done|]. assert (get8 w1 buf = c) as -> by (rewrite <- (Z.add_0_r buf); by apply (Hb 0%nat)).
      destruct Hl as [_ Hc]. apply Forall_cons in Hc as [Hc _]. lia. }
    test_false (0 =? get8 w1 buf). set (oh := heard _ _ _) in *.
    destruct (Hcb w1 buf (above 0 w1) (above 1 w1) (proj1 Hw1) Hstr) as (w2 & E2 & Hs2 & Hc2).
    assert (here o2 w2) as Hw2 by (apply (here_changes buf 1024 lits oh w1 _ _ buf 0); [done..|by left]).
    rewrite (and_then_back (ece391_execute buf) _ _ _ w2 E2).
    destruct (says_message o2 w2 r Hw2 Hsc2) as (w3 & E3 & Hw3). rewrite (and_then_back _ _ _ _ _ E3). by exists w3.
Qed.
Lemma session_turns o ls o' w : session o ls o' -> here o w ->
  exists w', here o' w' /\ forall n, turns (length ls + n) (fun _ => shell_step buf) tt w = turns n (fun _ => shell_step buf) tt w'.
Proof.
  intros Hs. revert w. induction Hs as [o|o l rest ls o1 o2 Hk Hsc Ht Hl Hne Hd Hs IH]; intros w Hw; [by exists w|].
  destruct (shell_turn o w l rest o1 Hw Hk Hsc Ht Hl Hne Hd) as (w1 & E1 & Hw1). destruct (IH w1 Hw1) as (w2 & Hw2 & E2).
  exists w2. split; [done|]. intros n. cbn [length Nat.add turns]. rewrite (and_then_back _ _ _ _ _ E1). apply E2.
Qed.
(** A turn for "exit". *)
Lemma shell_turn_exit o w ls : here o w -> handles o 0 = Keyboard -> handles o 1 = Screen -> typed o = chars "exit" :: ls ->
  exists w', shell_step buf w = Back (inr 0) w' /\ here (set_typed ls (show (chars "391OS> " ++ line "exit") o)) w'.
Proof.
  intros Hw Hk Hsc Ht.
  destruct (shell_hears o w _ ls Hw Hk Hsc Ht) as (w1 & _ & Hw1 & ->); [split; [done|by repeat constructor]|].
  rewrite decide_True by done. exists w1. split; [done|].
  rewrite show_app. exact Hw1.
Qed.

(** A line for which the shell stays. *)
Definition stays (o : os) (l : list Z) : Prop := plain l /\ l <> chars "exit" /\ (l = [] \/ spec_execute l o = fails o).

Lemma stays_same o o' l : disk o' = disk o -> stays o l -> stays o' l.
Proof.
  intros Ed (? & ? & Hx). split; [done|]. split; [done|]. destruct Hx as [?|Hx]; [by left|right]. by apply (spec_execute_same l o).
Qed.
Lemma stays_dealt o l rest : stays o l -> handles o 1 = Screen ->
  dealt l (heard rest l (show (chars "391OS> ") o)) (set_typed rest (show (answer l) o)).
Proof.
  intros (_ & _ & Hcase) Hsc. set (oh := heard rest l (show (chars "391OS> ") o)).
  assert (set_typed rest (show (answer l) o) = show (if decide (l = []) then [] else line "no such command") oh) as ->.
  { unfold answer, oh, heard. rewrite show_typed. apply (f_equal (set_typed rest)). by rewrite !show_app. }
  destruct (decide (l = [])) as [->|Hnil]; [left; by rewrite show_nil|right]. split; [done|].
  destruct Hcase as [?|He]; [done|]. exists (-1), oh. split; [|done]. apply fails_comes_back. by apply (spec_execute_same _ o).
Qed.

Lemma stays_session rest ls : forall o, handles o 0 = Keyboard -> handles o 1 = Screen -> typed o = ls ++ rest ->
  Forall (stays o) ls -> session o ls (set_typed rest (show (concat (answer <$> ls)) o)).
Proof.
  induction ls as [|l ls IH]; intros o Hk Hsc Ht Hok.
  - assert (set_typed rest (show (concat (answer <$> [])) o) = o) as ->; [|constructor].
    simpl in Ht. rewrite show_nil, <- Ht. by destruct o.
  - apply Forall_cons in Hok as [Hst Hok]. destruct (Hst) as (Hl & Hne & _). set (o1 := set_typed (ls ++ rest) (show (answer l) o)).
    assert (set_typed rest (show (concat (answer <$> l :: ls)) o) = set_typed rest (show (concat (answer <$> ls)) o1)) as ->.
    { rewrite fmap_cons. cbn [concat]. rewrite show_app. unfold o1. by rewrite show_typed. }
    apply (session_line _ _ (ls ++ rest) _ o1); [done..|by apply stays_dealt|].
    apply IH; [done..|]. eapply Forall_impl; [exact Hok|]. intros x. by apply stays_same.
Qed.
End runs.

(** ** Properties *)

Section properties.
Context `{Kernel W} `{Linked}.
Implicit Types (w : W) (o : os).
#[local] Open Scope user_scope.

(** [hello] asks for a name, takes the line that is typed, and greets with it. *)
Theorem hello_greets o w buf l ls : serves o w -> user_range buf 1024 ->
  literal (chars "Hi, what's your name? ") buf 1024 w -> literal (chars "Hello, ") buf 1024 w ->
  handles o 0 = Keyboard -> handles o 1 = Screen -> typed o = l :: ls ->
  Z.of_nat (length l) < 1023 -> Forall (fun c => 0 < c < 256 /\ c <> 8) l ->
  exists w', hello buf w = Back 0 w' /\
    serves (set_typed ls (show (chars "Hi, what's your name? " ++ l ++ [10] ++ chars "Hello, " ++ l ++ [10]) o)) w'.
Proof.
  intros Hs Hu Hl1 Hl2 Hk Hsc Ht Hl Hc.
  destruct (hello_runs buf [chars "Hi, what's your name? "; chars "Hello, "] Hu o w l ls) as (w' & E & Hs' & _); try done.
  - split; [done|]. intros x Hx. repeat apply elem_of_cons in Hx as [->|Hx]; [done..|by apply not_elem_of_nil in Hx].
  - by left.
  - by right; left.
  - by exists w'.
Qed.

Definition shell_literals : list (list Z) :=
  [line "Starting 391 Shell"; chars "391OS> "; chars "exit"; line "no such command";
   line "program terminated by exception"; line "program terminated abnormally"].

Lemma shell_begins o w buf ls o1 : serves o w -> user_range buf 1024 ->
  (forall l, l ∈ shell_literals -> literal l buf 1024 w) -> handles o 1 = Screen ->
  session (show (line "Starting 391 Shell") o) ls o1 ->
  exists w', here buf 1024 shell_literals o1 w' /\
    forall n, shell buf (length ls + n) w = turns n (fun _ => shell_step buf) tt w'.
Proof.
  intros Hs Hu Hlit Hsc Hse.
  destruct (print_here buf shell_literals o w (line "Starting 391 Shell")) as (w1 & E1 & Hw1 & _); [by split|by left|done|by repeat constructor|].
  destruct (session_turns buf shell_literals Hu ltac:(by right; left) ltac:(by right; right; left) ltac:(by right; right; right; left)
    ltac:(by do 4 right; left) ltac:(by do 5 right; left) _ ls o1 w1 Hse Hw1) as (w2 & Hw2 & E2).
  exists w2. split; [exact Hw2|]. intros n. unfold shell. by rewrite (and_then_back _ _ _ _ _ E1).
Qed.
Lemma shell_until_exit o w buf ls o1 rest n : serves o w -> user_range buf 1024 ->
  (forall l, l ∈ shell_literals -> literal l buf 1024 w) -> handles o 1 = Screen ->
  session (show (line "Starting 391 Shell") o) ls o1 ->
  handles o1 0 = Keyboard -> handles o1 1 = Screen -> typed o1 = chars "exit" :: rest -> (length ls < n)%nat ->
  exists w', shell buf n w = Back 0 w' /\ serves (set_typed rest (show (chars "391OS> " ++ line "exit") o1)) w'.
Proof.
  intros Hs Hu Hlit Hsc Hse Hk1 Hsc1 Ht1 Hn.
  destruct (shell_begins o w buf ls o1 Hs Hu Hlit Hsc Hse) as (w1 & Hw1 & E1).
  destruct (shell_turn_exit buf shell_literals Hu ltac:(by right; left) ltac:(by right; right; left) o1 w1 rest Hw1 Hk1 Hsc1 Ht1)
    as (w2 & E2 & Hs2 & _).
  exists w2. replace n with (length ls + S (n - length ls - 1))%nat by lia. rewrite E1. cbn [turns].
  by rewrite (and_then_back _ _ _ _ _ E2).
Qed.
Lemma stays_begins o ls rest : handles o 0 = Keyboard -> handles o 1 = Screen -> typed o = ls ++ rest -> Forall (stays o) ls ->
  session (show (line "Starting 391 Shell") o) ls
    (set_typed rest (show (line "Starting 391 Shell" ++ concat (answer <$> ls)) o)).
Proof.
  intros Hk Hsc Ht Hok. rewrite show_app. apply stays_session; [done..|].
  eapply Forall_impl; [exact Hok|]. intros x. by apply stays_same.
Qed.

(** A session of the shell: the lines typed are dealt with one after the other,
    each after the prompt, empty or a command that comes back, and the shell says
    what its result means; then "exit" ends it with status 0, the lines after
    "exit" not read. A turn of the loop for each line is enough. *)
Theorem shell_runs_session o w buf ls o1 rest n : serves o w -> user_range buf 1024 ->
  (forall l, l ∈ shell_literals -> literal l buf 1024 w) -> handles o 1 = Screen ->
  session (show (line "Starting 391 Shell") o) ls o1 ->
  handles o1 0 = Keyboard -> handles o1 1 = Screen -> typed o1 = chars "exit" :: rest -> (length ls < n)%nat ->
  exists w', shell buf n w = Back 0 w' /\ serves (set_typed rest (show (chars "391OS> " ++ line "exit") o1)) w'.
Proof. apply shell_until_exit. Qed.

(** A session of the shell: given lines that are empty, have no name, or name no
    regular file, and then "exit", the shell answers each with its prompt and,
    for a line with bytes, that there is no such command, and ends with status
    0, the lines after "exit" not read; a turn of the loop for each line is
    enough. *)
Theorem shell_session o w buf ls rest n : serves o w -> user_range buf 1024 ->
  (forall l, l ∈ shell_literals -> literal l buf 1024 w) -> handles o 0 = Keyboard -> handles o 1 = Screen ->
  typed o = ls ++ chars "exit" :: rest -> Forall (stays o) ls -> (length ls < n)%nat ->
  exists w', shell buf n w = Back 0 w' /\
    serves (set_typed rest (show ((line "Starting 391 Shell" ++ concat (answer <$> ls)) ++ chars "391OS> " ++ line "exit") o)) w'.
Proof.
  intros Hs Hu Hlit Hk Hsc Ht Hok Hn.
  destruct (shell_until_exit o w buf ls _ rest n Hs Hu Hlit Hsc (stays_begins o ls _ Hk Hsc Ht Hok) Hk Hsc eq_refl Hn) as (w' & E & Hs').
  exists w'. split; [done|]. rewrite show_retyped in Hs'. exact Hs'.
Qed.
End properties.

(** ** Programs the shell starts *)

Section commands.
Context `{Commands W} `{Linked}.
Implicit Types (w : W) (o : os).

(** A turn for a program. *)
Lemma shell_turn_starts buf lits o w l ls f : user_range buf 1024 -> chars "391OS> " ∈ lits -> chars "exit" ∈ lits ->
  here buf 1024 lits o w -> handles o 0 = Keyboard -> handles o 1 = Screen -> typed o = l :: ls -> plain l ->
  l <> chars "exit" -> l <> [] -> spec_starts l o = Some f ->
  exists page w', shell_step buf w = Gone w' /\
    serves (child (after_word l) page (set_typed ls (show (chars "391OS> " ++ l ++ [10]) o))) w'.
Proof.
  intros Hu Hpr Hex Hw Hk Hsc Ht Hl Hne Hnil He.
  destruct (shell_hears buf lits Hu Hpr Hex o w l ls Hw Hk Hsc Ht Hl) as (w1 & Hstr & Hw1 & ->).
  rewrite decide_False by done. rewrite (and_then_back (load _) _ _ _ _ eq_refl).
  assert (set_typed ls (show (chars "391OS> " ++ l ++ [10]) o) = heard ls l (show (chars "391OS> ") o)) as ->.
  { unfold heard. apply (f_equal (set_typed ls)). by rewrite show_app. }
  set (o1 := heard ls l (show (chars "391OS> ") o)) in *. destruct (string_body _ _ _ Hstr) as [Hb _].
  assert (get8 w1 buf <> 0) as Hnz.
  { destruct l as [|c l]; [done|]. assert (get8 w1 buf = c) as -> by (rewrite <- (Z.add_0_r buf); by apply (Hb 0%nat)).
    destruct Hl as [_ Hc]. apply Forall_cons in Hc as [Hc _]. lia. }
  test_false (0 =? get8 w1 buf). rewrite <- (spec_starts_same _ _ o1) in He by done.
  destruct (kernel_starts o1 w1 buf l (above 0 w1) (above 1 w1) _ (proj1 Hw1) He Hstr) as (w2 & E2 & Hs2 & _).
  exists (get8 w1), w2. split; [|done]. unfold and_then, ece391_execute. by rewrite E2.
Qed.

(** The shell, given lines for which it stays and then the command of a program,
    starts it: the call does not come back, and the program finds its
    arguments. *)
Lemma shell_starts_program o w buf ls l rest n f : serves o w -> user_range buf 1024 ->
  (forall l, l ∈ shell_literals -> literal l buf 1024 w) -> handles o 0 = Keyboard -> handles o 1 = Screen ->
  typed o = ls ++ l :: rest -> Forall (stays o) ls -> plain l -> l <> chars "exit" -> l <> [] ->
  spec_starts l o = Some f -> (length ls < n)%nat ->
  exists page w', shell buf n w = Gone w' /\
    serves (child (after_word l) page (set_typed rest
      (show ((line "Starting 391 Shell" ++ concat (answer <$> ls)) ++ chars "391OS> " ++ l ++ [10]) o))) w'.
Proof.
  intros Hs Hu Hlit Hk Hsc Ht Hok Hl Hne Hnil He Hn.
  destruct (shell_begins o w buf ls _ Hs Hu Hlit Hsc (stays_begins o ls _ Hk Hsc Ht Hok)) as (w1 & Hw1 & E1).
  set (o1 := set_typed _ _) in Hw1. rewrite <- (spec_starts_same _ _ o1) in He by done.
  destruct (shell_turn_starts buf shell_literals o1 w1 l rest f Hu ltac:(by right; left) ltac:(by right; right; left) Hw1 Hk Hsc eq_refl
    Hl Hne Hnil He) as (page & w2 & E2 & Hs2).
  exists page, w2. replace n with (length ls + S (n - length ls - 1))%nat by lia. rewrite E1. cbn [turns].
  split; [unfold and_then; by rewrite E2|]. unfold o1 in Hs2. rewrite show_retyped in Hs2. exact Hs2.
Qed.
End commands.
