(* ===== verification/Counter.v ===== *)
(** The counting program (ece391counter.c), on any kernel that keeps its
    promise. *)

From Stdlib Require Import String.
From S2P Require Import Prelude Bytes CString Console Printf SysSpec Support Shell.
#[local] Open Scope Z_scope.

Section programs.
Context `{Machine W} `{Linked}.
#[local] Open Scope user_scope.

(** ece391counter.c [main]; [buf] is its local array. *)
Definition wrong_choice (buf : Z) : U W bool :=
  n <- pure (ece391_strlen buf) ;
  if 2 <? n then done_with true
  else
    n <- pure (ece391_strlen buf) ;
    if n =? 2 then
      c <- load buf ;
      if c <? 48 then done_with true else c <- load buf ; done_with (50 <? c)
    else done_with false.
Definition count_line (buf i : Z) : U W unit :=
  change (ece391_itoa (u32 (i + 1)) buf 10) ;;
  ece391_fdputs 1 buf ;;
  ece391_fdputs 1 (lit [10]).
Definition counter (buf : Z) : U W Z :=
  ece391_fdputs 1 (lit (line "Enter the Test Number: (0): 100, (1): 10000, (2): 100000")) ;;
  cnt <- ece391_read 0 buf (1024 - 1) ;
  if u32 (-1) =? u32 cnt then
    ece391_fdputs 1 (lit (line "Can't read the number from keyboard.")) ;; done_with 3
  else
    store (buf + u32 cnt) 0 ;;
    wrong <- wrong_choice buf ;
    if wrong : bool then ece391_fdputs 1 (lit (line "Wrong Choice!")) ;; done_with 0
    else
      c <- load buf ;
      let max := if c =? 48 then 100 else if c =? 49 then 10000 else if c =? 50 then 100000 else 0 in
      for_up 0 max (fun i _ => count_line buf i) tt ;;
      done_with 0.
End programs.

(** ** Numerals in the program's memory *)

Section numerals.
Context `{Kernel W}.

Lemma digits_text r v i c : 0 <= v < 4294967296 -> 2 <= r <= 36 -> digits r v !! i = Some c ->
  c = itoa_lookup (digit r v (count_digits 32 r v - 1 - Z.of_nat i)) /\ 8 < c < 256.
Proof.
  intros Hv Hr Hc. pose proof (lookup_lt_Some _ _ _ Hc) as Hi. rewrite digits_length in Hi.
  unfold digits in Hc. rewrite list_lookup_fmap, lookup_seqZ_lt in Hc by lia.
  cbn [fmap option_fmap option_map] in Hc. apply (inj Some) in Hc. rewrite Z.add_0_l in Hc. subst c. split; [done|].
  pose proof (digit_range r v (count_digits 32 r v - 1 - Z.of_nat i) ltac:(lia)).
  pose proof (itoa_lookup_range (digit r v (count_digits 32 r v - 1 - Z.of_nat i)) ltac:(lia)). lia.
Qed.
Lemma digits_plain r v : 0 <= v < 4294967296 -> 2 <= r <= 36 -> Forall (fun c => 0 < c < 256 /\ c <> 8) (digits r v).
Proof. intros Hv Hr. apply Forall_lookup_2. intros i c Hc. apply digits_text in Hc as [_ ?]; [|done..]. lia. Qed.

Lemma itoa_string o w v buf : serves o w -> 0 <= v < 4294967296 -> user_range buf 33 ->
  exists w', ece391_itoa v buf 10 w = Some w' /\ serves o w' /\ string_at w' buf (digits 10 v) /\ changes w w' buf 33.
Proof.
  intros Hs Hv Hu.
  destruct (itoa_filled v buf 10 w Hv) as (w' & d & E & Hd & Hnd & Hf); [lia|by apply (serves_sep_range o)|].
  pose proof (fun j => filled_outside _ _ _ _ _ j Hf) as Hout. destruct Hf as [Hin _].
  assert (d = count_digits 32 10 v) as ->.
  { eapply ndigits_unique; [|exact (proj1 Hv)|exact Hnd|]; [lia|]. apply count_ndigits; [lia|]. lia. }
  exists w'. rewrite ece391_itoa_is. split; [done|]. split.
  - eapply (itoa_keeps (serves o) v buf 10 w); [|done|done]. intros a i x Ha Hi. apply serves_store; [done|].
    destruct Hu. unfold user. lia.
  - assert (Z.of_nat (length (digits 10 v)) = count_digits 32 10 v) as El by (rewrite digits_length; lia).
    split; [split|].
    + destruct Hu. unfold user_range. lia.
    + intros i c [Hc|[Hi Hc]]%lookup_app_Some.
      * pose proof (lookup_lt_Some _ _ _ Hc). apply digits_text in Hc as [-> _]; [|lia..]. rewrite Hin by lia.
        by test_true (Z.of_nat i <? count_digits 32 10 v).
      * apply list_lookup_singleton_Some in Hc as [Hi0 <-]. rewrite Hin by lia.
        by test_false (Z.of_nat i <? count_digits 32 10 v).
    + eapply Forall_impl; [by apply digits_plain|]. simpl. tauto.
    + intros j Hj Ho. apply Hout. apply (outside_le _ _ _ 33); [lia|]. by apply (serves_outside o).
Qed.
End numerals.

(** ** What the program shows *)

(** The numbers from 1 to [n], one to a line. *)
Definition counted (n : Z) : list Z := concat ((fun i => digits 10 (i + 1) ++ [10]) <$> seqZ 0 n).
Lemma counted_next n : 0 <= n -> counted (n + 1) = counted n ++ digits 10 (n + 1) ++ [10].
Proof.
  intros Hn. unfold counted. rewrite seqZ_app, fmap_app, concat_app by lia. change (seqZ (0 + n) 1) with [0 + n]. cbn [fmap list_fmap concat]. by rewrite app_nil_r.
Qed.

(** How far a line has the program count; [None] for a line it does not take. *)
Definition choice (l : list Z) : option Z :=
  match l with
  | [] => Some 0
  | [c] => if c =? 48 then Some 100 else if c =? 49 then Some 10000 else if c =? 50 then Some 100000 else None
  | _ => None
  end.

Definition counter_prompt : list Z := line "Enter the Test Number: (0): 100, (1): 10000, (2): 100000".
Definition counter_literals : list (list Z) := [counter_prompt; line "Wrong Choice!"; [10]].

Section runs.
Context `{Kernel W} `{Linked} (buf : Z) (lits : list (list Z)).
Hypothesis Hbuf : user_range buf 1024.
Hypothesis Hlits : forall l, l ∈ counter_literals -> l ∈ lits.
Implicit Types (w : W) (o : os).
#[local] Open Scope user_scope.

(** One number. *)
Lemma count_line_gives i o : 0 <= i < 4294967295 -> handles o 1 = Screen ->
  gives buf 1024 lits (count_line buf i) tt o (show (digits 10 (i + 1) ++ [10]) o).
Proof.
  intros Hi Hsc w Hw. pose proof Hw as [Hs _].
  assert (user_range buf 33) as Hu by (destruct Hbuf; unfold user_range; lia).
  destruct (itoa_string o w (i + 1) buf Hs) as (w1 & E1 & Hs1 & Hstr & Hc); [lia|done|].
  assert (here buf 1024 lits o w1) as Hw1 by (apply (here_changes buf 1024 lits o w _ _ buf 33); [done..|lia]).
  assert (Forall (fun c => c <> 8) (digits 10 (i + 1))) as H8
    by (eapply Forall_impl; [apply (digits_plain 10 (i + 1)); lia|simpl; tauto]).
  destruct (fdputs_screen o w1 buf _ Hs1 Hsc Hstr H8) as (w2 & E2 & Hs2 & Hc2).
  assert (here buf 1024 lits (show (digits 10 (i + 1)) o) w2) as Hw2
    by (apply (here_changes buf 1024 lits o w1 _ _ 0 0); [done..|by left]).
  destruct (print_here buf lits _ w2 [10] Hw2) as (w3 & E3 & Hw3 & _); [apply Hlits; by right; right; left|done|by repeat constructor|].
  exists w3. rewrite show_app. split; [|exact Hw3]. unfold count_line. rewrite u32_small by lia.
  rewrite (and_then_back (change _) _ _ tt w1) by (unfold change; by rewrite E1).
  by rewrite (and_then_back _ _ _ _ _ E2).
Qed.
Lemma count_lines_gives n o : 0 <= n < 4294967295 -> handles o 1 = Screen ->
  gives buf 1024 lits (for_up 0 n (fun i _ => count_line buf i) tt) tt o (show (counted n) o).
Proof.
  intros Hn Hsc. rewrite <- (show_nil o) at 1.
  apply (gives_for buf 1024 lits (fun i _ => count_line buf i) (fun _ => tt) (fun i => show (counted i) o)); [lia|].
  intros i Hi. rewrite counted_next, show_app by lia. by apply count_line_gives; [lia|].
Qed.

(** The test of the line. *)
Lemma wrong_choice_is w l : string_at w buf (l ++ [10]) ->
  wrong_choice buf w = Back (bool_decide (choice l = None)) w /\
  forall m, choice l = Some m -> m = if get8 w buf =? 48 then 100 else if get8 w buf =? 49 then 10000 else if get8 w buf =? 50 then 100000 else 0.
Proof.
  intros Hs. pose proof (string_length _ _ _ Hs) as Hl. pose proof (sa_bytes _ _ _ Hs) as Hb.
  assert (forall A (f : Z -> U W A), and_then (pure (ece391_strlen buf)) f w = f (Z.of_nat (length l) + 1) w) as E.
  { intros A f. rewrite (and_then_back _ _ _ (Z.of_nat (length (l ++ [10]))) w).
    - f_equal. rewrite length_app. simpl. lia.
    - unfold pure. by rewrite (ece391_strlen_some _ _ _ (string_cstr _ _ _ Hs)) by lia. }
  unfold wrong_choice. rewrite E. destruct l as [|c [|c2 l]].
  - assert (get8 w buf = 10) as Ec by (rewrite <- (Z.add_0_r buf); by apply (Hb 0%nat)).
    change (2 <? Z.of_nat (length (@nil Z)) + 1) with false. cbv iota. rewrite E. split; [done|]. intros m [= <-]. by rewrite Ec.
  - assert (get8 w buf = c) as Ec by (rewrite <- (Z.add_0_r buf); by apply (Hb 0%nat)).
    change (2 <? Z.of_nat (length [c]) + 1) with false. cbv iota. rewrite E. change (Z.of_nat (length [c]) + 1 =? 2) with true. cbv iota.
    rewrite (and_then_back (load _) _ _ _ _ eq_refl), Ec. unfold choice. split.
    + destruct (Z.ltb_spec c 48).
      { unfold done_with. f_equal. symmetry. apply bool_decide_eq_true. case_tests. }
      rewrite (and_then_back (load _) _ _ _ _ eq_refl), Ec. unfold done_with. f_equal.
      destruct (Z.ltb_spec 50 c); symmetry; [apply bool_decide_eq_true; case_tests|apply bool_decide_eq_false; case_tests].
    + intros m. case_tests; by intros [= <-].
  - destruct (Z.ltb_spec 2 (Z.of_nat (length (c :: c2 :: l)) + 1)); [done|simpl length in *; lia].
Qed.

Lemma counter_runs o w l ls : here buf 1024 lits o w -> handles o 0 = Keyboard -> handles o 1 = Screen -> typed o = l :: ls ->
  Z.of_nat (length l) < 1023 -> Forall (fun c => 0 < c < 256) l ->
  exists w', counter buf w = Back 0 w' /\
    here buf 1024 lits (set_typed ls (show (counter_prompt ++ l ++ [10] ++
      match choice l with Some n => counted n | None => line "Wrong Choice!" end) o)) w'.
Proof.
  intros Hw Hk Hsc Ht Hl Hc.
  assert (Forall (fun c => 0 < c < 256) (l ++ [10])) as Hc1 by (apply Forall_app; split; [done|by repeat constructor]).
  assert (length (l ++ [10]) = S (length l)) as El by (rewrite length_app; simpl; lia).
  unfold counter. fold counter_prompt. set (pr := counter_prompt) in *.
  destruct (print_here buf lits o w pr Hw) as (w1 & E1 & Hw1 & _); [apply Hlits; by left|done|by repeat constructor|].
  rewrite (and_then_back _ _ _ _ _ E1).
  destruct (line_here buf lits Hbuf (show pr o) w1 l ls Hw1 Hk Ht Hl) as (w2 & E2 & Hw2 & Hb). rewrite (and_then_back _ _ _ _ _ E2).
  rewrite (u32_small (Z.of_nat (length l) + 1)) by lia. change (u32 (-1)) with 4294967295. test_false (4294967295 =? Z.of_nat (length l) + 1).
  destruct (ends_line buf lits Hbuf _ w2 (l ++ [10]) (S (length l)) Hw2 Hb) as [Hw3 Hstr]; [by rewrite take_ge by lia|lia|lia|].
  rewrite take_ge in Hstr by lia. rewrite Nat2Z.inj_succ, <- Z.add_1_r in Hw3, Hstr.
  rewrite (and_then_back (store _ _) _ _ tt _ eq_refl). set (w3 := put8 _ 0 w2) in *.
  destruct (wrong_choice_is w3 l Hstr) as [Ew Hm]. rewrite (and_then_back _ _ _ _ _ Ew).
  assert (forall t, set_typed ls (show (pr ++ l ++ [10] ++ t) o) = show t (heard ls l (show pr o))) as Eo.
  { intros t. unfold heard. rewrite !show_typed. apply (f_equal (set_typed ls)). rewrite <- !show_app. by rewrite <- !app_assoc. }
  rewrite Eo. destruct (choice l) as [n|] eqn:En.
  - rewrite bool_decide_false by done. rewrite (and_then_back (load _) _ _ _ _ eq_refl), <- (Hm n eq_refl).
    assert (0 <= n < 4294967295) as Hn by (clear -Hm; pose proof (Hm n eq_refl) as E; revert E; repeat case_match; lia).
    destruct (count_lines_gives n (heard ls l (show pr o)) Hn Hsc w3 Hw3) as (w4 & E4 & Hw4). rewrite (and_then_back _ _ _ _ _ E4).
    exists w4. split; [done|]. exact Hw4.
  - rewrite bool_decide_true by done.
    destruct (print_here buf lits _ w3 (line "Wrong Choice!") Hw3) as (w4 & E4 & Hw4 & _);
      [apply Hlits; by right; left|done|by repeat constructor|].
    rewrite (and_then_back _ _ _ _ _ E4). exists w4. split; [done|]. exact Hw4.
Qed.
End runs.

Section properties.
Context `{Kernel W} `{Linked}.

(** C15: [counter] on a line from the keyboard: after its question and the line
    typed, "0", "1" and "2" make it show the numbers from 1 to 100, 10000 and
    100000, in decimal and one to a line; an empty line makes it end, and any
    other line is refused; its status is 0. *)
Theorem counter_counts o (w : W) buf l ls : serves o w -> user_range buf 1024 ->
  (forall s, s ∈ counter_literals -> literal s buf 1024 w) -> handles o 0 = Keyboard -> handles o 1 = Screen ->
  typed o = l :: ls -> plain l ->
  exists w', counter buf w = Back 0 w' /\
    serves (set_typed ls (show (counter_prompt ++ l ++ [10] ++
      match choice l with Some n => counted n | None => line "Wrong Choice!" end) o)) w'.
Proof.
  intros Hs Hu Hlit Hk Hsc Ht [Hl Hc].
  destruct (counter_runs buf counter_literals Hu ltac:(done) o w l ls) as (w' & E & Hw'); [by split|done..|].
  exists w'. split; [exact E|]. apply Hw'.
Qed.
End properties.
