(* ===== verification/Grep.v ===== *)
(** The program that searches files for a string: [grep] (ece391grep.c), on any
    kernel that keeps its promise. *)

From Stdlib Require Import String.
From S2P Require Import Prelude Bytes CString Console SysSpec Support Cat.
#[local] Open Scope Z_scope.

(** ** The program *)

Section programs.
Context `{Machine W} `{Linked}.
#[local] Open Scope user_scope.

Definition BUFSIZE := 1024.

(** ece391grep.c [do_one_file]: the end of the line from [line_end] on. *)
Definition line_end_from (data last : Z) (n : nat) (line_start : Z) : U W Z :=
  turns n (fun line_end =>
    if line_end <? last then
      c <- load (data + line_end) ;
      if c =? 10 then done_with (inr line_end) else done_with (inl (line_end + 1))
    else done_with (inr line_end)) line_start.
(** The search of a line. [s] is a [char *], so that its bytes are signed. *)
Definition search_line (s fname data s_len line_start line_end : Z) (n : nat) : U W unit :=
  turns n (fun check =>
    if check <? line_end then
      c0 <- load s ;
      c <- load (data + check) ;
      same <- (if s8 c0 =? c
               then r <- pure (fun w => Some (ece391_strncmp (data + check) s (u32 s_len) w)) ; done_with (r =? 0)
               else done_with false) ;
      if same : bool then
        ece391_fdputs 1 fname ;;
        ece391_fdputs 1 (lit (chars ":")) ;;
        ece391_fdputs 1 (data + line_start) ;;
        ece391_fdputs 1 (lit [10]) ;;
        done_with (inr tt)
      else done_with (inl (check + 1))
    else done_with (inr tt)) line_start.
(** A line of [data]; the last is kept for the next read when it may not be
    complete, and the result is then the new [last]. *)
Definition do_line (s fname data s_len cnt last : Z) (n : nat) (line_start : Z) : U W (Z + Z) :=
  line_end <- line_end_from data last n line_start ;
  c <- load (data + line_end) ;
  if negb (c =? 10) && negb (cnt =? 0) && negb (line_start =? 0) then
    store (data + line_end) 0 ;;
    change (ece391_strcpy data (data + line_start)) ;;
    done_with (inr (last - line_start))
  else
    store (data + line_end) 0 ;;
    search_line s fname data s_len line_start line_end n ;;
    let line_start := line_end + 1 in
    if last <=? line_start then done_with (inr 0) else done_with (inl line_start).
Definition do_lines (s fname data s_len cnt last : Z) (n : nat) : U W Z := turns n (do_line s fname data s_len cnt last n) 0.
Definition do_one_file (data s fname : Z) (n : nat) : U W Z :=
  s_len <- pure (ece391_strlen s) ;
  fd <- ece391_open fname ;
  if fd =? -1 then ece391_fdputs 1 (lit (line "file open failed")) ;; done_with (-1)
  else
    ok <- turns n (fun last =>
      cnt <- ece391_read fd (data + last) (BUFSIZE - last) ;
      if cnt =? -1 then ece391_fdputs 1 (lit (line "file read failed")) ;; done_with (inr false)
      else
        last <- do_lines s fname data (s32 s_len) cnt (last + cnt) n ;
        if cnt =? 0 then done_with (inr true) else done_with (inl last)) 0 ;
    if negb ok then done_with (-1)
    else
      r <- ece391_close fd ;
      if r =? -1 then ece391_fdputs 1 (lit (line "file close failed")) ;; done_with (-1)
      else done_with 0.
(** [main]; its arrays are [buf] and [search], that of [do_one_file] is [data]. *)
Definition grep (buf search data : Z) (n : nat) : U W Z :=
  r <- ece391_getargs search BUFSIZE ;
  if negb (r =? 0) then ece391_fdputs 1 (lit (line "could not read argument")) ;; done_with 3
  else
    fd <- ece391_open (lit (chars ".")) ;
    if fd =? -1 then ece391_fdputs 1 (lit (line "directory open failed")) ;; done_with 2
    else
      turns n (fun _ =>
        cnt <- ece391_read fd buf (SBUFSIZE - 1) ;
        if cnt =? 0 then done_with (inr 0)
        else if cnt =? -1 then ece391_fdputs 1 (lit (line "directory entry read failed")) ;; done_with (inr 3)
        else
          c <- load buf ;
          if c =? 46 then done_with (inl tt)
          else
            store (buf + cnt) 0 ;;
            r <- do_one_file data search buf n ;
            if negb (r =? 0) then done_with (inr 3) else done_with (inl tt)) tt.
End programs.

(** ** What it finds *)

(** The lines of a text; the last is what follows the last newline. *)
Fixpoint lines_of (c : list Z) : list (list Z) :=
  match c with
  | [] => [[]]
  | x :: c =>
      if x =? 10 then [] :: lines_of c
      else match lines_of c with l :: ls => (x :: l) :: ls | [] => [[x]] end
  end.
(** The string [s] is somewhere in [l]. *)
Definition occurs (s l : list Z) : bool := existsb (fun i => bool_decide (take (length s) (drop i l) = s)) (seq 0 (length l)).
(** The lines with [s], each after the name of the file and a colon. *)
Definition found (s name c : list Z) : list Z :=
  concat ((fun l => if occurs s l then name ++ [58] ++ l ++ [10] else []) <$> lines_of c).

Lemma lines_of_line l c : 10 ∉ l -> lines_of (l ++ 10 :: c) = l :: lines_of c.
Proof.
  induction l as [|x l IH]; intros Hl; [done|]. apply not_elem_of_cons in Hl as [Hx Hl]. cbn [lines_of app].
  test_false (x =? 10). by rewrite IH.
Qed.
Lemma lines_of_last l : 10 ∉ l -> lines_of l = [l].
Proof.
  induction l as [|x l IH]; intros Hl; [done|]. apply not_elem_of_cons in Hl as [Hx Hl]. cbn [lines_of].
  test_false (x =? 10). by rewrite IH.
Qed.
Lemma lines_of_first l c : 10 ∉ l -> exists l' ls, lines_of (l ++ c) = (l ++ l') :: ls.
Proof.
  induction l as [|x l IH]; intros Hl.
  - destruct c as [|x c]; [by exists [], []|]. cbn [app lines_of]. destruct (x =? 10); [by eexists [], _|].
    destruct (lines_of c) as [|l ls]; by eexists _, _.
  - apply not_elem_of_cons in Hl as [Hx Hl]. destruct (IH Hl) as (l' & ls & E). cbn [lines_of app].
    test_false (x =? 10). rewrite E. by exists l', ls.
Qed.
Lemma found_line s name l c : 10 ∉ l -> found s name (l ++ 10 :: c) = (if occurs s l then name ++ [58] ++ l ++ [10] else []) ++ found s name c.
Proof. intros Hl. unfold found. by rewrite lines_of_line. Qed.
Lemma found_last s name l : 10 ∉ l -> found s name l = (if occurs s l then name ++ [58] ++ l ++ [10] else []).
Proof. intros Hl. unfold found. rewrite lines_of_last by done. cbn [fmap list_fmap concat]. by rewrite app_nil_r. Qed.

(** ** Strings *)

(** A string compared with a prefix. *)
Lemma ece391_strncmp_spec `{ByteArr A} s1 s2 n1 n2 (a : A) :
  is_cstr (fun i => get8 a (s1 + i)) n1 -> is_cstr (fun i => get8 a (s2 + i)) n2 -> 0 < n2 < 4294967296 ->
  ece391_strncmp s1 s2 n2 a = 0 <-> n2 <= n1 /\ forall i, 0 <= i < n2 -> get8 a (s1 + i) = get8 a (s2 + i).
Proof.
  intros (Hn1 & Hz1 & Hnz1) (Hn2 & Hz2 & Hnz2) Hlt. unfold ece391_strncmp. test_false (n2 =? 0).
  apply (loop_or_rule
    (fun '(p, q, n) => exists i, p = s1 + i /\ q = s2 + i /\ n = n2 - i /\ 0 <= i < n2 /\ i <= n1 /\
       forall j, 0 <= j < i -> get8 a (s1 + j) = get8 a (s2 + j))
    (fun '((_, _, n) : Z * Z * Z) => n)
    (fun r => r = 0 <-> n2 <= n1 /\ forall i, 0 <= i < n2 -> get8 a (s1 + i) = get8 a (s2 + i))); [|exists 0; split_and!; [lia..|intros; lia]|lia].
  intros [[p q] n] (i & -> & -> & -> & Hi & Hi1 & Heq). destruct (Z.eqb_spec (get8 a (s1 + i)) (get8 a (s2 + i))) as [E|E].
  - assert (get8 a (s1 + i) <> 0) as E0 by (rewrite E; by apply Hnz2).
    assert (i <> n1) as Hin by (by intros ->).
    test_false (get8 a (s1 + i) =? 0). cbn [orb].
    assert (forall j, 0 <= j < i + 1 -> get8 a (s1 + j) = get8 a (s2 + j)) as Heq'
      by (intros j Hj; destruct (Z.eq_dec j i) as [->|]; [done|apply Heq; lia]).
    destruct (Z.eqb_spec (n2 - i - 1) 0).
    + split; [|done]. intros _. split; [lia|]. intros j Hj. apply Heq'. lia.
    + split; [|lia]. exists (i + 1). split_and!; [lia..|done].
  - split; [lia|]. intros [_ Hall]. destruct E. by apply Hall.
Qed.

(** ** One file *)

Section files.
Context `{Kernel W} `{Linked} (fb fn : Z) (lits : list (list Z)) (data s fname : Z) (sl fl : list Z).
Implicit Types (w : W) (o : os).
#[local] Open Scope user_scope.

(** The arrays of the program are [fn] bytes at [fb], [data] among them, apart
    from the strings; the string searched for starts with a byte that is not
    negative as a [char]. *)
Hypothesis Hdata : user_range data 1025 /\ fb <= data /\ data + 1025 <= fb + fn.
Hypothesis Hs_apart : s + Z.of_nat (length sl) + 1 <= data \/ data + 1025 <= s.
Hypothesis Hname_apart : fname + Z.of_nat (length fl) + 1 <= data \/ data + 1025 <= fname.
Hypothesis Hsl : exists c l, sl = c :: l /\ c < 128.
Hypothesis Hname : Forall (fun c => c <> 8) fl.
Hypothesis Hlits : chars ":" ∈ lits /\ [10] ∈ lits.

Record ready (o : os) (w : W) : Prop := {
  rd_here : here fb fn lits o w;
  rd_string : string_at w s sl;
  rd_name : string_at w fname fl
}.
Lemma ready_changes o w o' w' p m : ready o w -> serves o' w' -> changes w w' p m ->
  m <= 0 \/ data <= p /\ p + m <= data + 1025 -> ready o' w'.
Proof.
  intros [Hh Hs Hf] Hs' Hc Hr. split.
  - apply (here_changes _ _ _ o w _ _ p m); [done..|lia].
  - apply (string_at_changes w _ _ _ p m); [done..|lia].
  - apply (string_at_changes w _ _ _ p m); [done..|lia].
Qed.
Lemma ready_serves o w : ready o w -> serves o w.
Proof. intros [[? _] _ _]. done. Qed.

(** A string of the program, printed. *)
Lemma ready_puts o w p l : ready o w -> handles o 1 = Screen -> string_at w p l -> Forall (fun c => c <> 8) l ->
  exists w', ece391_fdputs 1 p w = Back tt w' /\ ready (show l o) w' /\ changes w w' 0 0.
Proof.
  intros Hw Hh Hl H8. destruct (fdputs_screen o w p l (ready_serves _ _ Hw) Hh Hl H8) as (w' & E & Hs' & Hc).
  exists w'. split; [done|]. split; [|done]. apply (ready_changes o w _ _ 0 0); [done..|by left].
Qed.
Lemma ready_literal o w l : ready o w -> l ∈ lits -> string_at w (lit l) l.
Proof. intros [[_ Hl] _ _] Hin. apply (Hl l Hin). Qed.

Definition matched (l : list Z) : list Z := if occurs sl l then fl ++ [58] ++ l ++ [10] else [].
Lemma ready_match o w p l : ready o w -> handles o 1 = Screen -> string_at w p l -> Forall (fun c => c <> 8) l ->
  exists w', (ece391_fdputs 1 fname ;; ece391_fdputs 1 (lit (chars ":")) ;; ece391_fdputs 1 p ;; ece391_fdputs 1 (lit [10]) ;;
              done_with (inr tt : Z + unit)) w = Back (inr tt) w' /\
    ready (show (fl ++ [58] ++ l ++ [10]) o) w' /\ changes w w' 0 0.
Proof.
  intros Hw Hh Hl H8. destruct Hlits as [Hcolon Hnl].
  destruct (ready_puts o w fname fl Hw Hh (rd_name _ _ Hw) Hname) as (w1 & E1 & Hw1 & C1).
  destruct (ready_puts _ w1 (lit (chars ":")) (chars ":") Hw1 Hh (ready_literal _ _ _ Hw1 Hcolon)) as (w2 & E2 & Hw2 & C2);
    [by repeat constructor|].
  assert (changes w w2 0 0) as C by by eapply changes_trans.
  destruct (ready_puts _ w2 p l Hw2 Hh) as (w3 & E3 & Hw3 & C3); [by apply (string_at_changes w _ _ _ 0 0); [..|left]|done|].
  destruct (ready_puts _ w3 (lit [10]) [10] Hw3 Hh (ready_literal _ _ _ Hw3 Hnl)) as (w4 & E4 & Hw4 & C4); [by repeat constructor|].
  exists w4. rewrite (and_then_back _ _ _ _ _ E1), (and_then_back _ _ _ _ _ E2), (and_then_back _ _ _ _ _ E3), (and_then_back _ _ _ _ _ E4).
  split; [done|]. split; [by rewrite !show_app|]. by repeat (eapply changes_trans; [done|]).
Qed.

(** The end of a line. *)
Lemma line_end_is w n : forall v p, bytes_at w (data + p) v -> (length v < n)%nat ->
  line_end_from data (p + Z.of_nat (length v)) n p w = Back (p + Z.of_nat (length (until (Z.eqb 10) v))) w.
Proof.
  unfold line_end_from. induction n as [|n IH]; intros v p Hb Hn; [lia|]. cbn [turns]. unfold and_then at 1.
  destruct v as [|c v].
  - simpl. rewrite Z.add_0_r. by rewrite Z.ltb_irrefl.
  - cbn [length]. rewrite (proj2 (Z.ltb_lt _ _)) by lia.
    assert (get8 w (data + p) = c) as Ec by (rewrite <- (Z.add_0_r (data + p)); by apply (Hb 0%nat)).
    unfold and_then at 1, load. rewrite Ec, (Z.eqb_sym c 10). cbn [until]. destruct (10 =? c) eqn:E10.
    + simpl. f_equal. lia.
    + specialize (IH v (p + 1)). rewrite Z.add_assoc in IH. change (c :: v) with ([c] ++ v) in Hb. apply bytes_at_app in Hb as [_ Hb].
      specialize (IH Hb ltac:(simpl in Hn; lia)). replace (p + 1 + Z.of_nat (length v)) with (p + Z.of_nat (S (length v))) in IH by lia.
      refine (eq_trans IH _). cbn [length]. f_equal. lia.
Qed.

(** The search of a line. *)
Lemma matches_at w p l i : string_at w s sl -> string_at w p l -> (i <= length l)%nat ->
  ece391_strncmp (p + Z.of_nat i) s (Z.of_nat (length sl)) w = 0 <-> take (length sl) (drop i l) = sl.
Proof.
  intros Hs Hl Hi. pose proof (string_cstr _ _ _ Hs) as Cs. pose proof (string_length _ _ _ Hs) as Ls.
  destruct (string_body _ _ _ Hs) as [Bs _]. destruct (string_body _ _ _ Hl) as [Bl _].
  assert (is_cstr (fun j => get8 w (p + Z.of_nat i + j)) (Z.of_nat (length (drop i l)))) as Cl.
  { destruct (string_cstr _ _ _ Hl) as (_ & Z0 & Zn). rewrite length_drop. split; [lia|]. split.
    - rewrite <- Z0. f_equal. lia.
    - intros j Hj. rewrite <- Z.add_assoc. apply Zn. lia. }
  rewrite (ece391_strncmp_spec _ _ _ _ _ Cl Cs) by (destruct Hsl as (c & l0 & -> & _); simpl in *; lia).
  assert (forall j c, drop i l !! j = Some c -> get8 w (p + Z.of_nat i + Z.of_nat j) = c) as Gl.
  { intros j c Hj. rewrite lookup_drop in Hj. rewrite <- Z.add_assoc, <- Nat2Z.inj_add. by apply Bl. }
  split.
  - intros [Hle Heq]. apply list_eq_same_length with (length sl); [done|rewrite length_take; lia|].
    intros j x y Hj Hx Hy. rewrite lookup_take_lt in Hx by done. apply Gl in Hx. apply Bs in Hy. rewrite <- Hx, <- Hy. apply Heq. lia.
  - intros E. assert (length sl <= length (drop i l))%nat as Hle by (rewrite <- E at 1; rewrite length_take; lia).
    split; [lia|]. intros j Hj. destruct (lookup_lt_is_Some_2 sl (Z.to_nat j)) as [c Hc]; [lia|].
    rewrite <- (Z2Nat.id j) by lia. rewrite (Bs _ _ Hc). apply Gl. rewrite <- E in Hc. by apply lookup_take_Some in Hc as [Hc _].
Qed.
Lemma occurs_at l : occurs sl l = true <-> exists i, (i < length l)%nat /\ take (length sl) (drop i l) = sl.
Proof.
  unfold occurs. rewrite existsb_exists. split.
  - intros (i & Hi%in_seq & Hb%bool_decide_eq_true). exists i. split; [lia|done].
  - intros (i & Hi & Hb). exists i. split; [apply in_seq; lia|by apply bool_decide_eq_true].
Qed.
Lemma search_line_shows o w q l ls le n : ready o w -> handles o 1 = Screen -> string_at w q l -> q = data + ls ->
  (occurs sl l = true -> Forall (fun c => c <> 8) l) -> le = ls + Z.of_nat (length l) -> (length l < n)%nat ->
  exists w', search_line s fname data (Z.of_nat (length sl)) ls le n w = Back tt w' /\
    ready (show (matched l) o) w' /\ changes w w' 0 0.
Proof.
  intros Hw Hh Hl Eq H8 -> Hn. unfold search_line. rewrite <- Eq. pose proof (rd_string _ _ Hw) as Hs.
  pose proof (string_length _ _ _ Hs) as Ls.
  destruct (turns_rule
    (fun (i : nat) (check : Z) w1 => check = ls + Z.of_nat i /\ w1 = w /\ (i <= length l)%nat /\
       forall j, (j < i)%nat -> take (length sl) (drop j l) <> sl)
    (fun i => (length l - i)%nat)
    (fun (_ : unit) w1 => ready (show (matched l) o) w1 /\ changes w w1 0 0)
    (fun check => if check <? ls + Z.of_nat (length l) then
      c0 <- load s ; c <- load (data + check) ;
      same <- (if s8 c0 =? c
               then r <- pure (fun w => Some (ece391_strncmp (data + check) s (u32 (Z.of_nat (length sl))) w)) ; done_with (r =? 0)
               else done_with false) ;
      if same : bool then
        ece391_fdputs 1 fname ;; ece391_fdputs 1 (lit (chars ":")) ;; ece391_fdputs 1 q ;; ece391_fdputs 1 (lit [10]) ;;
        done_with (inr tt)
      else done_with (inl (check + 1))
    else done_with (inr tt))) with (n := n) (g := 0%nat) (s := ls) (w := w) as ([] & w' & E & Hpost); [|split_and!; [lia|done|lia|lia]|lia|by exists w'].
  intros i check w1 (-> & -> & Hi & Hno). destruct (Z.ltb_spec (ls + Z.of_nat i) (ls + Z.of_nat (length l))) as [Hlt|Hge].
  - replace (data + (ls + Z.of_nat i)) with (q + Z.of_nat i) by lia.
    unfold and_then at 1, load at 1. unfold and_then at 1, load at 1. rewrite u32_small by lia.
    pose proof (matches_at w q l i Hs Hl Hi) as Hm.
    assert (same_first : take (length sl) (drop i l) = sl -> s8 (get8 w s) = get8 w (q + Z.of_nat i)).
    { intros E. destruct Hsl as (c & l0 & El & Hc). destruct (string_body _ _ _ Hs) as [Bs _].
      assert (get8 w s = c) as Es by (rewrite <- (Z.add_0_r s); apply (Bs 0%nat); by rewrite El).
      pose proof (get8_range w s). rewrite Es, s8_small by lia. symmetry. apply (proj1 (string_body _ _ _ Hl)).
      rewrite El in E. destruct (drop i l) as [|y r] eqn:Ed; [done|]. simpl in E. injection E as -> _.
      assert (drop i l !! 0%nat = Some c) as E0 by (by rewrite Ed). rewrite lookup_drop, Nat.add_0_r in E0. done. }
    destruct (decide (take (length sl) (drop i l) = sl)) as [E|E].
    + rewrite (same_first E), Z.eqb_refl. unfold and_then at 1, and_then at 1, pure. rewrite (proj2 Hm E).
      assert (occurs sl l = true) as Eo by (apply occurs_at; exists i; split; [lia|done]).
      destruct (ready_match o w q l Hw Hh Hl (H8 Eo)) as (w1 & E1 & Hw1 & C1).
      exists (inr tt), w1. split; [exact E1|]. split; [|done]. unfold matched. by rewrite Eo.
    + exists (inl (ls + Z.of_nat i + 1)), w. split.
      * destruct (s8 (get8 w s) =? get8 w (q + Z.of_nat i)); [|done]. unfold and_then at 1, and_then at 1, pure.
        destruct (Z.eqb_spec (ece391_strncmp (q + Z.of_nat i) s (Z.of_nat (length sl)) w) 0) as [E0|]; [by destruct E; apply Hm|done].
      * exists (S i). split; [|lia]. split; [lia|]. split; [done|]. split; [lia|]. intros j Hj.
        destruct (decide (j = i)) as [->|]; [done|apply Hno; lia].
  - exists (inr tt), w. split; [done|]. split; [|done]. assert (matched l = []) as ->; [|by rewrite show_nil].
    unfold matched. destruct (occurs sl l) eqn:Eo; [|done]. apply occurs_at in Eo as (j & Hj & E). destruct (Hno j); [lia|done].
Qed.

(** A NUL after a line. *)
Definition text (c : Z) : Prop := 0 < c < 256.
Lemma line_closed o w p l : ready o w -> bytes_at w (data + p) l -> 0 <= p -> p + Z.of_nat (length l) <= 1024 -> Forall text l ->
  let le := p + Z.of_nat (length l) in let w' := put8 (data + le) 0 w in
  string_at w' (data + p) l /\ ready o w' /\ changes w w' (data + le) 1 /\ (get8 w (data + 1024) <> 10 -> get8 w' (data + 1024) <> 10).
Proof.
  intros Hw Hb Hp Hle Ht. cbv zeta. set (le := p + Z.of_nat (length l)). pose proof (ready_serves _ _ Hw) as Hs.
  destruct Hdata as ((Hd1 & Hd2) & _).
  destruct (store_byte o w (data + p) l 0 Hs) as [Hs1 Hb1]; [unfold user_range; lia|done|lia|].
  replace (data + p + Z.of_nat (length l)) with (data + le) in Hs1, Hb1 by lia.
  assert (user (data + le)) as Hu by (unfold user; lia). pose proof (changes_store o w (data + le) 0 Hs Hu) as C1.
  split; [split; [unfold user_range; lia|done|done]|]. split; [apply (ready_changes o w _ _ (data + le) 1); [done..|lia]|].
  split; [done|]. intros Hend. rewrite (get8_store o) by (done || unfold user; lia). by destruct (data + le =? data + 1024).
Qed.
(** A line closed and searched. *)
Lemma line_done o w p l n : ready o w -> handles o 1 = Screen -> bytes_at w (data + p) l -> 0 <= p -> p + Z.of_nat (length l) <= 1024 ->
  Forall text l -> (occurs sl l = true -> Forall (fun c => c <> 8) l) -> (length l < n)%nat -> get8 w (data + 1024) <> 10 ->
  let le := p + Z.of_nat (length l) in
  exists w', search_line s fname data (Z.of_nat (length sl)) p le n (put8 (data + le) 0 w) = Back tt w' /\
    ready (show (matched l) o) w' /\ changes w w' (data + le) 1 /\ get8 w' (data + 1024) <> 10.
Proof.
  intros Hw Hh Hb Hp Hle Ht H8 Hn Hend. cbv zeta. set (le := p + Z.of_nat (length l)).
  destruct (line_closed o w p l Hw Hb Hp Hle Ht) as (Hl & Hw1 & C1 & Hend1). cbv zeta in *. fold le in Hl, Hw1, C1, Hend1.
  specialize (Hend1 Hend). set (w1 := put8 (data + le) 0 w) in *. destruct Hdata as ((Hd1 & Hd2) & _).
  destruct (search_line_shows o w1 (data + p) l p le n Hw1 Hh Hl eq_refl H8 eq_refl Hn) as (w2 & E & Hw2 & C2).
  exists w2. split; [done|]. split; [done|]. split.
  - eapply changes_trans; [done|]. apply (changes_le _ _ 0 0); [done|by left].
  - rewrite C2; [done|unfold user; lia|lia].
Qed.
(** The last line, kept for the next read. *)
Lemma line_kept o w p v : ready o w -> string_at w (data + p) v -> 0 < p -> p + Z.of_nat (length v) <= 1024 ->
  get8 w (data + 1024) <> 10 ->
  exists w', change (ece391_strcpy data (data + p)) w = Back tt w' /\ ready o w' /\ bytes_at w' data v /\ get8 w' (data + 1024) <> 10.
Proof.
  intros Hw Hl Hp Hle Hend. pose proof (ready_serves _ _ Hw) as Hs. destruct Hdata as ((Hd1 & Hd2) & _).
  set (n := Z.of_nat (length v)) in *.
  assert (user_range data (n + 1)) as Hu by (unfold user_range; lia).
  destruct (ece391_strcpy_down (serves o) data (data + p) n w (string_cstr _ _ _ Hl)) as (w' & E & Hf & Hs').
  - lia.
  - by apply (serves_sep_range o).
  - intros i j Hj Hi E. apply (serves_sep o w) in E; [lia|done|unfold user; lia..].
  - done.
  - intros b i x Hb Hi. apply serves_store; [done|]. unfold user. lia.
  - exists w'. assert (changes w w' data (n + 1)) as Hc.
    { intros j Hj Ho. apply (filled_outside _ _ _ _ _ _ Hf). by apply (serves_outside o). }
    split; [unfold change; by rewrite E|]. split; [|split].
    + apply (ready_changes o w _ _ data (n + 1)); [done..|lia].
    + intros i c Hi. pose proof (lookup_lt_Some _ _ _ Hi). destruct Hf as [-> _]; [|lia].
      by apply (proj1 (string_body _ _ _ Hl)).
    + rewrite Hc; [done|unfold user; lia|lia].
Qed.

(** Lines that fit [data] with their newline; those with the string can be
    written. *)
Definition fits (c : list Z) : Prop :=
  Forall (fun l => Z.of_nat (length l) < 1024 /\ (occurs sl l = true -> Forall (fun c => c <> 8) l)) (lines_of c).
Lemma fits_line l c : fits (l ++ 10 :: c) -> 10 ∉ l -> (occurs sl l = true -> Forall (fun c => c <> 8) l) /\ fits c.
Proof. unfold fits. intros Hs Hl. rewrite lines_of_line in Hs by done. by apply Forall_cons in Hs as [[_ Hl8] Hs]. Qed.
Lemma fits_last l : fits l -> 10 ∉ l -> occurs sl l = true -> Forall (fun c => c <> 8) l.
Proof. unfold fits. intros Hs Hl. rewrite lines_of_last in Hs by done. by apply Forall_cons in Hs as [[_ Hl8] Hs]. Qed.
Lemma fits_first l c : fits (l ++ c) -> 10 ∉ l -> Z.of_nat (length l) < 1024.
Proof.
  unfold fits. intros Hs Hl. destruct (lines_of_first l c Hl) as (l' & ls & E). rewrite E in Hs.
  apply Forall_cons in Hs as [[Hs _] _]. rewrite length_app in Hs. lia.
Qed.
Lemma found_nil : found sl fl [] = [].
Proof. rewrite found_last by apply not_elem_of_nil. done. Qed.

(** What the lines of [data] leave: [u], the start of a line, with [rest] still
    in the file; [out] has been shown of what is found in [c]. *)
Record kept (o : os) (c rest : list Z) (u out : list Z) (w : W) : Prop := {
  kp_ready : ready (show out o) w;
  kp_found : found sl fl c = out ++ found sl fl (u ++ rest);
  kp_fits : fits (u ++ rest);
  kp_bytes : bytes_at w data u;
  kp_chars : Forall text u /\ 10 ∉ u;
  kp_end : get8 w (data + 1024) <> 10
}.

Lemma until_last l : 10 ∉ l -> until (Z.eqb 10) l = l.
Proof.
  induction l as [|x l IH]; intros Hl; [done|]. apply not_elem_of_cons in Hl as [Hx Hl]. cbn [until].
  test_false (10 =? x). by rewrite IH.
Qed.
Lemma until_line l r : 10 ∉ l -> until (Z.eqb 10) (l ++ 10 :: r) = l.
Proof.
  induction l as [|x l IH]; intros Hl; [done|]. apply not_elem_of_cons in Hl as [Hx Hl]. cbn [until app].
  test_false (10 =? x). by rewrite IH.
Qed.

(** Before a line of [len] bytes: what is left of them, [v], is at [ls]. *)
Record at_line (o : os) (c rest : list Z) (len : Z) (v : list Z) (ls : Z) (out : list Z) (w : W) : Prop := {
  al_ready : ready (show out o) w;
  al_start : ls + Z.of_nat (length v) = len /\ 0 <= ls /\ (ls = 0 \/ v <> []);
  al_found : found sl fl c = out ++ found sl fl (v ++ rest);
  al_fits : fits (v ++ rest);
  al_bytes : bytes_at w (data + ls) v;
  al_chars : Forall text v;
  al_end : get8 w (data + 1024) <> 10
}.

(** The last line: kept, or complete and searched. *)
Lemma do_line_last o c rest len v ls out w cnt n : at_line o c rest len v ls out w -> 10 ∉ v -> handles o 1 = Screen ->
  len <= 1024 -> (cnt = 0 -> rest = []) -> (len < 1024 -> rest = []) -> (length v < n)%nat ->
  exists w' u out', do_line s fname data (Z.of_nat (length sl)) cnt len n ls w = Back (inr (Z.of_nat (length u))) w' /\
    kept o c rest u out' w' /\ (cnt = 0 -> u = []) /\ (length u <= length v)%nat.
Proof.
  intros [Hw [El [Hls Hv]] Hf Hsh Hb Htx He] H10 Hh Hlen Hcnt Hrest Hn. unfold do_line.
  assert (ls + Z.of_nat (length v) <= 1024) as Hfit by lia.
  destruct (line_closed _ w ls v Hw Hb Hls Hfit Htx) as (Hstr & Hw2 & _ & He2). specialize (He2 He). cbv zeta in *.
  assert (until (Z.eqb 10) v = v) as Ev by (by apply until_last).
  unfold and_then at 1. rewrite <- El, line_end_is, Ev by done. unfold and_then at 1, load at 1.
  set (le := ls + Z.of_nat (length v)) in *. set (c' := get8 w (data + le)).
  destruct (negb (c' =? 10) && negb (cnt =? 0) && negb (ls =? 0)) eqn:Econd; unfold and_then at 1, store at 1.
  - destruct (line_kept _ _ ls v Hw2 Hstr) as (w4 & E4 & Hw4 & Hb4 & He4); [lia..|done|].
    rewrite (and_then_back _ _ _ _ _ E4). exists w4, v, out. split; [unfold le; do 2 f_equal; unfold done_with; do 2 f_equal; lia|].
    split; [by split|]. split; lia.
  - assert (rest = []) as ->.
    { destruct (decide (cnt = 0)) as [E0|E0]; [by apply Hcnt|]. apply Hrest. destruct (decide (ls = 0)) as [E1|E1].
      - pose proof (fits_first v rest Hsh H10). lia.
      - assert (c' = 10) as Ec by lia. destruct (decide (len = 1024)) as [E2|]; [|lia].
        destruct He. rewrite <- Ec. unfold c'. f_equal. lia. }
    rewrite app_nil_r in *. destruct (line_done _ w ls v n Hw Hh Hb Hls Hfit Htx (fits_last v Hsh H10) Hn He) as (w3 & E3 & Hw3 & _ & He3).
    cbv zeta in E3. fold le in E3. rewrite (and_then_back _ _ _ _ _ E3). exists w3, [], (out ++ matched v).
    split; [by rewrite (proj2 (Z.leb_le _ _)) by lia|]. split; [|split; [done|simpl; lia]].
    split; [by rewrite show_app| |by repeat constructor|done|by split; [|apply not_elem_of_nil]|done].
    change ([] ++ []) with (@nil Z). rewrite found_nil, app_nil_r, Hf. by rewrite found_last.
Qed.
(** A line with its newline, searched. *)
Lemma do_line_done o c rest len l r ls out w cnt n : at_line o c rest len (l ++ 10 :: r) ls out w -> 10 ∉ l -> handles o 1 = Screen ->
  len <= 1024 -> (length (l ++ 10%Z :: r) < n)%nat ->
  exists w', let out' := out ++ matched l in let ls' := ls + Z.of_nat (length l) + 1 in
    do_line s fname data (Z.of_nat (length sl)) cnt len n ls w = Back (match r with [] => inr 0 | _ => inl ls' end) w' /\
    match r with [] => kept o c rest [] out' w' | _ => at_line o c rest len r ls' out' w' end.
Proof.
  intros [Hw [El [Hls _]] Hf Hsh Hb Htx He] H10 Hh Hlen Hn. cbv zeta. unfold do_line. pose proof Hb as [Hbl Hbr]%bytes_at_app.
  apply Forall_app in Htx as [Htl [_ Htr]%Forall_cons]. rewrite length_app in El. cbn [length] in El. rewrite length_app in Hn. cbn [length] in Hn.
  rewrite <- app_assoc in Hf, Hsh. cbn [app] in Hf, Hsh. rewrite found_line in Hf by done. apply fits_line in Hsh as [H8 Hsh]; [|done].
  destruct (line_done _ w ls l n Hw Hh Hbl) as (w' & E & Hw' & C & He'); [lia..|done|done|lia|done|]. exists w'. cbv zeta in *.
  assert (found sl fl c = (out ++ matched l) ++ found sl fl (r ++ rest)) as Hf' by (by rewrite Hf, app_assoc).
  unfold and_then at 1. replace len with (ls + Z.of_nat (length (l ++ 10 :: r))) by (rewrite length_app; simpl; lia).
  rewrite line_end_is, until_line by (done || (rewrite length_app; simpl; lia)).
  set (le := ls + Z.of_nat (length l)) in *. unfold and_then at 1, load at 1.
  assert (get8 w (data + le) = 10) as -> by (rewrite <- (Hbr 0%nat 10 eq_refl); f_equal; unfold le; lia).
  change (negb (10 =? 10)) with false. cbn [andb]. unfold and_then at 1, store at 1. rewrite (and_then_back _ _ _ _ _ E).
  destruct r as [|y r].
  - split; [by rewrite (proj2 (Z.leb_le _ _)) by (unfold le; rewrite length_app; simpl; lia)|].
    split; [by rewrite show_app|done|done|done|by split; [|apply not_elem_of_nil]|done].
  - split; [by rewrite (proj2 (Z.leb_gt _ _)) by (unfold le; rewrite length_app; simpl; lia)|].
    split; [by rewrite show_app|rewrite length_app; cbn [length] in *; unfold le; split_and!; [lia..|by right]|done|done| |done|done].
    change (10 :: y :: r) with ([10] ++ y :: r) in Hbr. apply bytes_at_app in Hbr as [_ Hbr]. cbn [length] in Hbr, El.
    apply (bytes_at_changes w _ _ _ (data + le) 1); [|destruct Hdata as ((? & ?) & _); unfold user_range, le in *; simpl in *; lia|done|unfold le; lia].
    replace (data + (le + 1)) with (data + ls + Z.of_nat (length l) + Z.of_nat 1) by (unfold le; lia). exact Hbr.
Qed.

Lemma do_lines_shows o c rest t out w cnt n : ready (show out o) w -> handles o 1 = Screen -> bytes_at w data t ->
  Forall text t -> Z.of_nat (length t) <= 1024 -> get8 w (data + 1024) <> 10 -> fits (t ++ rest) ->
  found sl fl c = out ++ found sl fl (t ++ rest) ->
  (cnt = 0 -> rest = []) -> (Z.of_nat (length t) < 1024 -> rest = []) -> (length t < n)%nat ->
  exists w' u out', do_lines s fname data (Z.of_nat (length sl)) cnt (Z.of_nat (length t)) n w = Back (Z.of_nat (length u)) w' /\
    kept o c rest u out' w' /\ (cnt = 0 -> u = []) /\ (length u <= length t)%nat.
Proof.
  intros Hw Hh Hb Ht Hlen Hend Hshort Hfound Hcnt Hrest Hn. unfold do_lines.
  set (len := Z.of_nat (length t)) in *.
  destruct (turns_rule
    (fun v ls w1 => exists out1, at_line o c rest len v ls out1 w1) (fun v => length v)
    (fun last w1 => exists u out1, last = Z.of_nat (length u) /\ kept o c rest u out1 w1 /\ (cnt = 0 -> u = []) /\ (length u <= length t)%nat)
    (do_line s fname data (Z.of_nat (length sl)) cnt len n)) with (n := n) (g := t) (s := 0) (w := w)
    as (r & w' & E & u & out1 & -> & Hk & Hu); [|exists out; split; rewrite ?Z.add_0_r; auto with lia|done|by exists w', u, out1].
  intros v ls w1 (out1 & Hat). destruct (until_spec (Z.eqb 10) v) as (r & Ev & Hno & Hr). set (l := until (Z.eqb 10) v) in *.
  assert (10 ∉ l) as Hl10 by (intros Hin; rewrite Forall_forall in Hno; by specialize (Hno 10 Hin)).
  pose proof (al_start _ _ _ _ _ _ _ _ Hat) as (El & Hls & _). assert (length v <= length t)%nat as Hvt by (unfold len in *; lia).
  destruct r as [|x r].
  - rewrite app_nil_r in Ev. rewrite Ev in Hat, Hvt.
    destruct (do_line_last _ _ _ _ _ _ _ _ cnt n Hat Hl10 Hh Hlen Hcnt Hrest) as (w2 & u & out2 & E & Hk & Hu0 & Hul); [lia|].
    exists (inr (Z.of_nat (length u))), w2. split; [done|]. exists u, out2. split_and!; [done..|lia].
  - assert (x = 10) as -> by lia. rewrite Ev in Hat. assert (length v = length l + S (length r))%nat as Evl by (rewrite Ev at 1; apply length_app).
    destruct (do_line_done _ _ _ _ _ _ _ _ _ cnt n Hat Hl10 Hh Hlen) as (w2 & E & Hpost); [rewrite <- Ev; lia|]. cbv zeta in *.
    eexists _, w2. split; [exact E|]. destruct r as [|y r].
    + exists [], (out1 ++ matched l). split_and!; [done..|simpl; lia].
    + exists (y :: r). split; [by eexists|lia].
Qed.

(** One read, and the lines it completes. *)
Definition at_rest (j : Z) (c rest : list Z) (o : os) : os := set_handle j (Reading c (Z.of_nat (length c) - Z.of_nat (length rest))) o.
Lemma at_rest_screen j c rest o : 2 <= j <= 7 -> handles o 1 = Screen -> handles (at_rest j c rest o) 1 = Screen.
Proof. intros Hj Hh. unfold at_rest. rewrite handles_set. by test_false (j =? 1). Qed.

Lemma read_lines o w j c rest before u out n : 2 <= j <= 7 -> handles o 1 = Screen -> c = before ++ rest ->
  kept (at_rest j c rest o) c rest u out w -> (length u + length rest <= length c)%nat -> Forall text c -> (length c < n)%nat ->
  let room := 1024 - Z.of_nat (length u) in let cnt := Z.min room (Z.of_nat (length rest)) in let rest' := drop (Z.to_nat room) rest in
  0 < room /\ exists w1 w' u' out', ece391_read j (data + Z.of_nat (length u)) room w = Back cnt w1 /\
    do_lines s fname data (Z.of_nat (length sl)) cnt (Z.of_nat (length u) + cnt) n w1 = Back (Z.of_nat (length u')) w' /\
    kept (at_rest j c rest' o) c rest' u' out' w' /\ (cnt = 0 -> u' = []) /\ (length u' + length rest' <= length c)%nat.
Proof.
  intros Hj Hh Ec [Hw Hf Hsh Hb [Htx H10] He] Hle Htc Hn. cbv zeta. set (room := 1024 - Z.of_nat (length u)).
  pose proof (fits_first u rest Hsh H10) as Hu. split; [lia|]. destruct Hdata as ((Hd1 & Hd2) & _).
  assert (length c = length before + length rest)%nat as Elc by (rewrite Ec; apply length_app).
  set (o1 := show out (at_rest j c rest o)) in *.
  destruct (read_file o1 w j c (Z.of_nat (length c) - Z.of_nat (length rest)) (data + Z.of_nat (length u)) room (ready_serves _ _ Hw))
    as (w1 & E1 & Hs1 & Hb1 & C1); [lia|change (handles (at_rest j c rest o) j = Reading c (Z.of_nat (length c) - Z.of_nat (length rest))); unfold at_rest; by rewrite handles_set, Z.eqb_refl|lia|lia|unfold user_range; lia|].
  replace (Z.of_nat (length c) - (Z.of_nat (length c) - Z.of_nat (length rest))) with (Z.of_nat (length rest)) in E1, Hs1 by lia.
  set (cnt := Z.min room (Z.of_nat (length rest))) in *.
  assert (chunk c (Z.of_nat (length c) - Z.of_nat (length rest)) room = take (Z.to_nat room) rest) as Ech.
  { unfold chunk. replace (Z.to_nat (Z.of_nat (length c) - Z.of_nat (length rest))) with (length before) by lia.
    by rewrite Ec, drop_app_length. }
  rewrite Ech in Hb1. set (ch := take (Z.to_nat room) rest) in *. set (rest' := drop (Z.to_nat room) rest).
  assert (rest = ch ++ rest') as Er by (symmetry; apply take_drop).
  assert (Z.of_nat (length ch) = cnt /\ Z.of_nat (length rest') = Z.of_nat (length rest) - cnt) as [Lch Lrest]
    by (unfold ch, rest', cnt; rewrite length_take, length_drop; lia).
  assert (ready (show out (at_rest j c rest' o)) w1) as Hw1.
  { apply (ready_changes o1 w _ _ (data + Z.of_nat (length u)) room); [done| |done|lia].
    assert (show out (at_rest j c rest' o) = set_handle j (Reading c (Z.of_nat (length c) - Z.of_nat (length rest) + cnt)) o1) as ->; [|done].
    change (set_handle j ?h o1) with (show out (set_handle j h (at_rest j c rest o))). unfold at_rest. rewrite set_handle_twice.
    do 3 f_equal. lia. }
  assert (bytes_at w1 data (u ++ ch)) as Hb2.
  { apply bytes_at_app. split; [|exact Hb1]. apply (bytes_at_changes w _ _ _ (data + Z.of_nat (length u)) room); [done|unfold user_range; lia|done|lia]. }
  assert (Forall text rest) as Htr by (rewrite Ec in Htc; by apply Forall_app in Htc as [_ ?]).
  rewrite Er, app_assoc in Hsh, Hf. assert (length (u ++ ch) = length u + length ch)%nat as Lu by apply length_app.
  destruct (do_lines_shows (at_rest j c rest' o) c rest' (u ++ ch) out w1 cnt n Hw1) as (w' & u' & out' & E & Hk & Hu0 & Hul).
  - by apply at_rest_screen.
  - done.
  - apply Forall_app. split; [done|]. by apply Forall_take.
  - lia.
  - rewrite C1; [done|unfold user; lia|lia].
  - done.
  - done.
  - intros E0. apply length_zero_iff_nil. lia.
  - intros E0. apply length_zero_iff_nil. lia.
  - lia.
  - exists w1, w', u', out'. split; [exact E1|]. replace (Z.of_nat (length (u ++ ch))) with (Z.of_nat (length u) + cnt) in E by lia.
    split; [exact E|]. split; [done|]. split; [done|]. lia.
Qed.

Lemma file_closed o w c j out : 2 <= j <= 7 -> ready (show out (at_rest j c [] o)) w -> get8 w (data + 1024) <> 10 ->
  exists w', ece391_close j w = Back 0 w' /\ ready (show out (set_handle j Free o)) w' /\ get8 w' (data + 1024) <> 10.
Proof.
  intros Hjr Hw Hend.
  assert (spec_close (s32 (u32 j)) (show out (at_rest j c [] o)) = Some (Effect 0 [] (show out (set_handle j Free o)))) as Hc.
  { rewrite u32_small, s32_small by lia. unfold spec_close. test_true ((2 <=? j) && (j <=? 7)).
    assert (handles (show out (at_rest j c [] o)) j = Reading c (Z.of_nat (length c))) as Ehj.
    { change (handles (at_rest j c [] o) j = Reading c (Z.of_nat (length c))). unfold at_rest. rewrite handles_set, Z.eqb_refl. do 2 f_equal. simpl. lia. }
    rewrite Ehj. rewrite bool_decide_eq_false_2 by done. cbv [negb andb]. do 2 f_equal.
    change (set_handle j Free (show ?l ?o)) with (show l (set_handle j Free o)). unfold at_rest. by rewrite set_handle_twice. }
  destruct (kernel_close _ w (u32 j) (above 0 w) (above 1 w) _ (ready_serves _ _ Hw) Hc) as (w3 & E3 & Hs3 & _ & C3).
  cbn [result next] in E3, Hs3. exists w3. split; [exact E3|]. split.
  - apply (ready_changes (show out (at_rest j c [] o)) w _ _ 0 0); [done..|by left].
  - destruct Hdata as ((? & ?) & _). rewrite C3; [done|unfold user; lia|lia].
Qed.

Lemma do_one_file_shows o w c j n : ready o w -> handles o 1 = Screen -> fl <> [] -> find_file fl o = Some (Regular c) ->
  free_handle o = Some j -> Forall text c -> fits c -> (length c < n)%nat -> get8 w (data + 1024) <> 10 ->
  exists w', do_one_file data s fname n w = Back 0 w' /\ ready (show (found sl fl c) (set_handle j Free o)) w' /\
    get8 w' (data + 1024) <> 10.
Proof.
  intros Hw Hh Hne Hfile Hj Htc Hsc Hn Hend. pose proof (string_length _ _ _ (rd_string _ _ Hw)) as Ls.
  destruct (open_file o w fname fl (Regular c) j (ready_serves _ _ Hw) Hne (rd_name _ _ Hw) Hfile Hj) as (w1 & E1 & Hs1 & Hjr & C1).
  unfold do_one_file. rewrite (and_then_back _ _ _ (Z.of_nat (length sl)) w).
  2: { unfold pure. by rewrite (ece391_strlen_some _ _ _ (string_cstr _ _ _ (rd_string _ _ Hw))) by lia. }
  rewrite (and_then_back _ _ _ _ _ E1). test_false (j =? -1). rewrite s32_small by lia.
  assert (at_rest j c c o = set_handle j (handle_of (Regular c)) o) as Eo by (unfold at_rest; by rewrite Z.sub_diag).
  rewrite <- Eo in Hs1.
  match goal with |- context [turns n ?body 0] => destruct (turns_rule
    (fun '(rest, u, out, before) last w1 => last = Z.of_nat (length (u : list Z)) /\ c = before ++ rest /\
       kept (at_rest j c rest o) c rest u out w1 /\ (length u + length rest <= length c)%nat)
    (fun '((rest, _, _, _) : list Z * list Z * list Z * list Z) => length rest)
    (fun (ok : bool) w1 => ok = true /\ ready (show (found sl fl c) (at_rest j c [] o)) w1 /\ get8 w1 (data + 1024) <> 10)
    body) with (n := n) (g := (c, [], [], []) : list Z * list Z * list Z * list Z) (s := 0) (w := w1)
    as (ok & w2 & E2 & -> & Hw2 & Hend2) end; [| |done|].
  - intros [[[rest u] out] before] last w2 (-> & Ec & Hk & Hle).
    destruct (read_lines o w2 j c rest before u out n Hjr Hh Ec Hk Hle Htc Hn) as (Hroom & w3 & w4 & u' & out' & E3 & E4 & Hk' & Hu0 & Hle').
    cbv zeta in *. unfold BUFSIZE. set (room := 1024 - Z.of_nat (length u)) in *. set (cnt := Z.min room (Z.of_nat (length rest))) in *.
    rewrite (and_then_back _ _ _ _ _ E3). test_false (cnt =? -1). rewrite (and_then_back _ _ _ _ _ E4).
    destruct (Z.eqb_spec cnt 0) as [E0|E0].
    + exists (inr true), w4. split; [done|]. split; [done|]. assert (rest = []) as -> by (apply length_zero_iff_nil; lia).
      rewrite drop_nil in Hk'. rewrite (Hu0 E0) in Hk'. destruct Hk' as [Hr Hf _ _ _ He]. cbn [app] in Hf.
      rewrite found_nil, app_nil_r in Hf. by rewrite Hf.
    + exists (inl (Z.of_nat (length u'))), w4. split; [done|].
      exists (drop (Z.to_nat room) rest, u', out', before ++ take (Z.to_nat room) rest). split; [|rewrite length_drop; lia].
      split; [done|]. split; [by rewrite <- app_assoc, take_drop|]. by split.
  - split; [done|]. split; [done|]. split; [|simpl; lia].
    split; [|done|done|done|by split; [|apply not_elem_of_nil]|].
    + rewrite show_nil. apply (ready_changes o w _ _ fname 0); [done..|by left].
    + destruct Hdata as ((? & ?) & _). rewrite C1; [done|unfold user; lia|lia].
  - rewrite (and_then_back _ _ _ _ _ E2). cbv [negb].
    destruct (file_closed o w2 c j _ Hjr Hw2 Hend2) as (w3 & E3 & Hw3). exists w3. rewrite (and_then_back _ _ _ _ _ E3).
    by split.
Qed.
End files.

(** ** The program *)

Section main.
Context `{Kernel W} `{Linked} (fb fn : Z) (lits : list (list Z)) (buf search data : Z) (sl : list Z).
Implicit Types (w : W) (o : os).
#[local] Open Scope user_scope.

(** The three arrays are in the [fn] bytes at [fb], apart from each other. *)
Record arrays : Prop := {
  ay_buf : user_range buf 33 /\ fb <= buf /\ buf + 33 <= fb + fn;
  ay_search : user_range search 1024 /\ fb <= search /\ search + 1024 <= fb + fn;
  ay_data : user_range data 1025 /\ fb <= data /\ data + 1025 <= fb + fn;
  ay_apart : (buf + 33 <= search \/ search + 1024 <= buf) /\ (buf + 33 <= data \/ data + 1025 <= buf) /\
    (search + 1024 <= data \/ data + 1025 <= search)
}.
(** What is shown for a file of the directory; a name with a dot in front is
    passed over. *)
Definition shown_for (e : list Z * node) : list Z :=
  match e with
  | (46 :: _, _) => []
  | (name, Regular c) => found sl name c
  | _ => []
  end.
(** A file [grep] can search: a text with lines that fit its array. *)
Definition searchable (n : nat) (o : os) (e : list Z * node) : Prop :=
  head e.1 = Some 46 \/ exists c, e.2 = Regular c /\ find_file e.1 o = Some (Regular c) /\ Forall text c /\ fits sl c /\
    (length c < n)%nat /\ Forall (fun x => x <> 8) e.1.

Hypothesis Harr : arrays.
Hypothesis Hsl : exists c l, sl = c :: l /\ c < 128.
Hypothesis Hlen : Z.of_nat (length sl) <= 1022.
Hypothesis Hlits : chars ":" ∈ lits /\ [10] ∈ lits.

(** Between two entries of the directory, after [k] of them. *)
Record between (i : Z) (o : os) (k : nat) (o1 : os) (w : W) : Prop := {
  bt_here : here fb fn lits o1 w;
  bt_search : string_at w search sl;
  bt_disk : disk o1 = disk o /\ listed o1 = Z.of_nat k;
  bt_handles : forall x, handles o1 x = handles (set_handle i Listing o) x;
  bt_screen : screen o1 = screen (show (concat (shown_for <$> take k (disk o))) o);
  bt_end : get8 w (data + 1024) <> 10
}.

Lemma free_handle_ext o o1 : (forall x, handles o1 x = handles o x) -> free_handle o1 = free_handle o.
Proof. intros E. unfold free_handle. cbn [find]. by rewrite !E. Qed.
Lemma free_handle_free o j : free_handle o = Some j -> handles o j = Free.
Proof. unfold free_handle. intros [_ Hb]%find_some. by apply bool_decide_eq_true in Hb. Qed.

Lemma grep_entry i j o k o1 w n : 2 <= i <= 7 -> handles o 1 = Screen -> free_handle (set_handle i Listing o) = Some j ->
  between i o k o1 w -> (k <= length (disk o))%nat -> Forall (searchable n o) (disk o) ->
  exists r w', (cnt <- ece391_read i buf (SBUFSIZE - 1) ;
        if cnt =? 0 then done_with (inr 0)
        else if cnt =? -1 then ece391_fdputs 1 (lit (line "directory entry read failed")) ;; done_with (inr 3)
        else
          c <- load buf ;
          if c =? 46 then done_with (inl tt)
          else
            store (buf + cnt) 0 ;;
            r <- do_one_file data search buf n ;
            if negb (r =? 0) then done_with (inr 3) else done_with (inl tt)) w = Back r w' /\
    match disk o !! k with
    | Some e => r = inl tt /\ exists o2, between i o (S k) o2 w'
    | None => r = inr 0 /\ serves (set_listed (listed o1 + 1) o1) w'
    end.
Proof.
  intros Hi Hscr Hj [[Hs Hlit] Hstr [Hd Hl] Hh Ho He] Hk Hfiles. destruct Harr as [[Hb1 Hb2] [Hs1 Hs2] [Hd1 Hd2] (A1 & A2 & A3)].
  destruct (serves_disk o1 w Hs) as [H62 Hnames]. rewrite Hd in H62, Hnames.
  assert (handles o1 i = Listing /\ handles o1 1 = Screen) as [Hhi Hh1].
  { rewrite !Hh, !handles_set, Z.eqb_refl. by test_false (i =? 1). }
  destruct (read_entry o1 w i buf Hs Hi Hhi Hb1 ltac:(lia)) as (w1 & E1 & Hs1' & Hbn & C1). cbv zeta in *.
  rewrite (and_then_back _ _ _ _ _ E1). clear E1. rewrite Hd, Hl, Nat2Z.id in *.
  destruct (disk o !! k) as [e|] eqn:Ee; cbn [fmap option_fmap option_map from_option id] in *; [|by exists (inr 0), w1].
  pose proof (Forall_lookup_1 _ _ _ _ Hfiles Ee) as Hse. apply (Forall_lookup_1 _ _ _ _ Hnames) in Ee as Hne. destruct Hne as [Hne Hc].
  test_false (Z.of_nat (length e.1) =? 0). test_false (Z.of_nat (length e.1) =? -1).
  assert (take (S k) (disk o) = take k (disk o) ++ [e]) as Etk by (by apply take_S_r).
  destruct Hb1 as [Hb3 Hb4].
  assert (here fb fn lits (set_listed (Z.of_nat k + 1) o1) w1) as Hh1'
    by (apply (here_changes _ _ _ o1 w _ _ buf 33); [done..|lia]).
  assert (string_at w1 search sl) as Hstr1 by (apply (string_at_changes w _ _ _ buf 33); [done..|lia]).
  assert (get8 w1 (data + 1024) <> 10) as He1 by (rewrite C1; [done|destruct Hd1; unfold user; lia|lia]).
  destruct e as [[|x name] f]; [simpl in Hne; lia|]. cbn [fst] in *.
  assert (get8 w1 buf = x) as Ex by (rewrite <- (Z.add_0_r buf); by apply (Hbn 0%nat)).
  unfold and_then at 1, load at 1. rewrite Ex. destruct (Z.eqb_spec x 46) as [->|Hx].
  - exists (inl tt), w1. split; [done|]. split; [done|]. exists (set_listed (Z.of_nat k + 1) o1).
    split; [done|done|split; [done|simpl; lia]|done| |done].
    rewrite Etk, fmap_app, concat_app. cbn [fmap list_fmap concat shown_for]. rewrite app_nil_r. exact Ho.
  - destruct Hse as [Hse|(c & Ef & Hff & Htx & Hsh & Hn & H8)]; [simpl in Hse; congruence|]. cbn [fst snd] in *. subst f.
    set (nm := x :: name) in *. unfold and_then at 1, store at 1.
    destruct (store_byte _ w1 buf nm 0 Hs1') as [Hs2' Hbz]; [unfold user_range; lia|done|lia|].
    set (w2 := put8 (buf + Z.of_nat (length nm)) 0 w1) in *.
    assert (changes w1 w2 buf 33) as C2.
    { apply (changes_le _ _ (buf + Z.of_nat (length nm)) 1); [apply (changes_store _ _ _ _ Hs1'); unfold user; lia|lia]. }
    assert (string_at w2 buf nm) as Hnm by (split; [unfold user_range; lia|done|done]).
    assert (ready fb fn lits search buf sl nm (set_listed (Z.of_nat k + 1) o1) w2) as Hr.
    { split; [apply (here_changes _ _ _ (set_listed (Z.of_nat k + 1) o1) w1 _ _ buf 33); [done..|lia]| |done]. apply (string_at_changes w1 _ _ _ buf 33); [done..|lia]. }
    destruct (do_one_file_shows fb fn lits data search buf sl nm) with (o := set_listed (Z.of_nat k + 1) o1) (w := w2) (c := c) (j := j) (n := n)
      as (w3 & E3 & [Hh3 Hstr3 _] & He3); try done; [lia|lia| | |rewrite C2; [done|destruct Hd1; unfold user; lia|lia]|].
    + rewrite <- Hff. unfold find_file. simpl. by rewrite Hd.
    + rewrite <- Hj. by apply free_handle_ext.
    + rewrite (and_then_back _ _ _ _ _ E3). exists (inl tt), w3. split; [done|]. split; [done|].
      eexists. split; [exact Hh3|exact Hstr3|split; [exact Hd|simpl; lia]| | |exact He3].
      * intros y. change (handles (set_handle j Free o1) y = handles (set_handle i Listing o) y). rewrite handles_set, <- Hh.
        destruct (Z.eqb_spec j y) as [<-|]; [|done]. symmetry. apply free_handle_free. rewrite <- Hj. by apply free_handle_ext.
      * rewrite Etk, fmap_app, concat_app, show_app. cbn [fmap list_fmap concat]. rewrite app_nil_r.
        assert (shown_for (nm, Regular c) = found sl nm c) as ->.
        { unfold shown_for, nm. destruct x as [|p|p]; try done. do 6 (destruct p as [p|p|]; try done). }
        unfold show at 1 2. cbn [screen]. rewrite <- Ho. reflexivity.
Qed.

(** C14: [grep] finds what is there, on a disk of plain text. The disk is one where
    every file whose name has no dot in front is a regular file without a NUL,
    its lines shorter than 1024 bytes, those with the string, and its name,
    without a backspace; the argument is a string of 1 to 1022 bytes whose first
    is below 128; and the byte past the 1024 of the array, which is never
    initialised, is not a newline. Then [grep] shows, for every one of these files
    in the order of the directory, each line with the string, after the name of
    the file and a colon, and ends with status 0, the files closed; lines are
    found whole even where the 1024 bytes of a read end inside them. One turn more
    than the bytes of the longest file and than the files is enough for its loops.
    On a disk with programs, a device or longer lines nothing is claimed: there
    [grep] stops lines at a NUL, waits for the device, and cuts the lines. *)
Theorem grep_shows_matches o w i j n : serves o w -> here fb fn lits o w -> handles o 1 = Screen ->
  arguments o = sl -> Forall (fun c => 0 < c < 256) sl -> chars "." ∈ lits -> find_file (chars ".") o = Some Folder ->
  free_handle o = Some i -> free_handle (set_handle i Listing o) = Some j ->
  Forall (searchable n o) (disk o) -> (length (disk o) < n)%nat -> get8 w (data + 1024) <> 10 ->
  exists w' o', grep buf search data n w = Back 0 w' /\ serves o' w' /\
    screen o' = screen (show (concat (shown_for <$> disk o)) o) /\ forall x, handles o' x = handles (set_handle i Listing o) x.
Proof.
  intros Hs Hh Hscr Ha Hc Hdot Hf Hi Hj Hfiles Hn He.
  destruct Harr as [_ [Hs1 Hs2] [[Hd1 Hd2] _] (_ & _ & A3)].
  destruct (getargs_string o w search Hs Hs1) as (w1 & E1 & Hs1' & Hstr & C1); [by rewrite Ha|by rewrite Ha|].
  rewrite Ha in Hstr. assert (here fb fn lits o w1) as [_ Hlit1] by (apply (here_changes _ _ _ o w _ _ search 1024); [done..|lia]).
  destruct (Hlit1 _ Hdot) as [Hstr1 _].
  destruct (open_file o w1 (lit (chars ".")) (chars ".") Folder i Hs1' ltac:(done) Hstr1 Hf Hi) as (w2 & E2 & Hs2' & Hir & C2).
  unfold grep. change BUFSIZE with 1024. rewrite (and_then_back _ _ _ _ _ E1). change (negb (0 =? 0)) with false. cbv iota.
  rewrite (and_then_back _ _ _ _ _ E2). test_false (i =? -1).
  match goal with |- context [turns n ?body tt] => destruct (turns_rule
    (fun k (_ : unit) w => (k <= length (disk o))%nat /\ exists o1, between i o k o1 w)
    (fun k => (length (disk o) - k)%nat)
    (fun r w => r = 0 /\ exists o1, serves o1 w /\ screen o1 = screen (show (concat (shown_for <$> disk o)) o) /\ forall x, handles o1 x = handles (set_handle i Listing o) x)
    body) with (n := n) (g := 0%nat) (s := tt) (w := w2) as (r & w3 & E3 & -> & o' & Hs3 & Ho & Hh3) end.
  - intros k _ w3 [Hk [o1 Hb]].
    destruct (grep_entry i j o k o1 w3 n Hir Hscr Hj Hb Hk Hfiles) as (r & w4 & E4 & Hpost). exists r, w4. split; [exact E4|].
    destruct (disk o !! k) as [e|] eqn:Ee.
    + destruct Hpost as [-> [o2 Hb2]]. exists (S k). pose proof (lookup_lt_Some _ _ _ Ee). split; [|lia]. split; [lia|by exists o2].
    + destruct Hpost as [-> Hs4]. split; [done|]. exists (set_listed (listed o1 + 1) o1). split; [done|]. destruct Hb as [_ _ _ Hhb Hob _].
      assert (k = length (disk o)) as -> by (apply lookup_ge_None in Ee; lia). rewrite firstn_all in Hob. by split.
  - split; [lia|]. exists (set_listed 0 (set_handle i Listing o)). split; [| |done|done| |].
    + apply (here_changes _ _ _ o w1 _ _ (lit (chars ".")) 0); [by split|done..|by left].
    + by apply (string_at_changes w1 _ _ _ (lit (chars ".")) 0); [..|left].
    + by rewrite take_0, show_nil.
    + rewrite C2, C1; [done|unfold user; lia..].
  - lia.
  - exists w3, o'. by split_and!.
Qed.
End main.
