(* ===== verification/Nested.v ===== *)
(** A machine on which [execute] comes back: the program that is started runs, and
    when it has ended the one that started it goes on with its status. On a
    kernel with [Commands] it is a [Kernel] again, whose [execute] also runs
    programs: the shell can be run on it from the first line to the last. *)

From Stdlib Require Import String.
From S2P Require Import Prelude Bytes Console SysSpec Support Cat Shell Counter.
#[local] Open Scope Z_scope.

(** The program whose text is in the page: what the processor runs there is not
    part of the source, and an argument. *)
Class Loaded (W : Type) := loaded : W -> U W Z.

(** ** The machine *)

Section machine.
Context `{Machine W} `{Loaded W}.

(** A call that starts a program waits for its end. *)
Definition await (r : reply W Z) : reply W Z :=
  match r with
  | Gone w =>
      match loaded w w with
      | Ended s w => Back s w
      | Gone w => Gone w
      | Back _ _ | Late => Late
      end
  | r => r
  end.
Definition nested : Machine W :=
  {| machine_bytes := machine_bytes; int80 := fun eax ebx ecx edx w => await (int80 eax ebx ecx edx w); above := above |}.
End machine.

Section kernel.
Context `{Kernel W} `{Loaded W}.

Lemma await_back r a w : r = Back a w -> await r = Back a w.
Proof. by intros ->. Qed.
Lemma does_await r w p n e : does serves r w p n e -> @does W nested serves (await r) w p n e.
Proof. intros (w' & E & Hw). exists w'. split; [by apply await_back|exact Hw]. Qed.
Lemma string_nested w p l : @string_at W (@machine_bytes W nested) w p l -> string_at w p l.
Proof. by intros [? ? ?]. Qed.

Program Definition nested_kernel : @Kernel W nested := {| serves := serves |}.
Next Obligation. exact serves_sep. Qed.
Next Obligation. exact serves_store. Qed.
Next Obligation. exact serves_disk. Qed.
Next Obligation.
  intros o w name l c d e Hs He Hl. exact (does_await _ _ _ _ _ (kernel_execute o w name l c d e Hs He (string_nested _ _ _ Hl))).
Qed.
Next Obligation. intros o w fd buf n e Hs He Hn Hu. exact (does_await _ _ _ _ _ (kernel_read o w fd buf n e Hs He Hn Hu)). Qed.
Next Obligation. intros o w fd buf l e Hs He Hu Hb. exact (does_await _ _ _ _ _ (kernel_write o w fd buf l e Hs He Hu Hb)). Qed.
Next Obligation.
  intros o w name l c d e Hs Hne He Hl. exact (does_await _ _ _ _ _ (kernel_open o w name l c d e Hs Hne He (string_nested _ _ _ Hl))).
Qed.
Next Obligation. intros o w name c d Hs Hl. exact (does_await _ _ _ _ _ (kernel_open_empty o w name c d Hs (string_nested _ _ _ Hl))). Qed.
Next Obligation. intros o w fd c d e Hs He. exact (does_await _ _ _ _ _ (kernel_close o w fd c d e Hs He)). Qed.
Next Obligation. intros o w buf n d e Hs He Hn Hu. exact (does_await _ _ _ _ _ (kernel_getargs o w buf n d e Hs He Hn Hu)). Qed.
Next Obligation. intros o w p c d Hs Hp Hn. exact (does_await _ _ _ _ _ (kernel_vidmap o w p c d Hs Hp Hn)). Qed.
Next Obligation. intros o w n b c d Hs Hn. exact (does_await _ _ _ _ _ (kernel_unknown o w n b c d Hs Hn)). Qed.
End kernel.

(** ** Programs that end *)

(** The file [f] holds the string [s], where the program has it once loaded. *)
Definition in_text `{Linked} (f s : list Z) : Prop :=
  Forall (fun c => 0 < c < 256) s /\ exists i, lit s = TEXT + Z.of_nat i /\ forall j c, (s ++ [0]) !! j = Some c -> f !! (i + j)%nat = Some c.

Section programs.
Context `{HM : Machine W} {HK : Kernel W} {HC : Commands W} `{Loaded W}.
Implicit Types (w : W) (o : os).

(** The program in the file [f], started with the arguments [args] by one that
    stands at [o], ends with status [s] and leaves [o'] to the one that waits. *)
Definition ends_with (f args : list Z) (s : Z) (o o' : os) : Prop := forall page w,
  serves (child args page o) w -> bytes_at w TEXT f ->
  exists main w' oc, loaded w = start main /\ main w = Back s w' /\ serves oc w' /\
    stands oc = Under (Caller (arguments o) (descriptors o) page) /\
    resumed (Caller (arguments o) (descriptors o) page) oc = o'.

(** A command whose program ends comes back, on the machine that waits for it. *)
Lemma program_comes_back l f s o o' : spec_starts l o = Some f -> 0 <= s < 256 ->
  ends_with f (after_word l) s o o' -> @comes_back W nested nested_kernel l s o o'.
Proof.
  intros Hst Hr He w name c d Hs Hstr.
  destruct (@kernel_starts W HM HK HC o w name l c d f Hs Hst (string_nested _ _ _ Hstr)) as (w1 & E1 & Hs1 & Ht).
  destruct (He _ w1 Hs1 Ht) as (main & w2 & oc & El & Em & Hs2 & Hst2 & Eo).
  destruct (kernel_halts oc w2 _ (u32 s) 0 0 Hs2 Hst2) as (w3 & E3 & Hs3 & Hp). rewrite Eo in Hs3.
  exists w3. split; [|split; [exact Hs3|]].
  - change (await (int80 2 name c d w) = Back s w3). rewrite E1. cbn [await]. rewrite El.
    unfold start. rewrite (and_then_back _ _ _ _ _ Em), E3. by rewrite u32_small, u8_small by lia.
  - intros j Hj _. by apply Hp.
Qed.

Lemma spec_starts_some l o f : spec_starts l o = Some f ->
  find_file (first_word l) o = Some (Regular f) /\ spare o <> 0%nat /\
  Z.of_nat (length f) < 0x3B8000 /\ Z.of_nat (length (after_word l)) < 128.
Proof.
  unfold spec_starts, command_fits. destruct (first_word l) as [|c w]; [done|]. destruct (find_file _ o) as [[x| |]|]; [|done..].
  destruct (_ && _) eqn:E; [|done]. intros [= ->]. split; [done|]. split; [intros E0; by rewrite E0, andb_false_r in E|]. lia.
Qed.

(** A string of the program's text. *)
Lemma text_string `{Linked} w f s : bytes_at w TEXT f -> Z.of_nat (length f) < 0x3B8000 -> in_text f s -> string_at w (lit s) s.
Proof.
  intros Ht Hf (Hc & i & -> & Hi). assert (i + length (s ++ [0%Z]) <= length f)%nat as Hle.
  { destruct (s ++ [0%Z]) as [|c l] eqn:E using rev_ind; [by destruct s|]. clear IHl.
    assert ((l ++ [c]) !! length l = Some c) as Hl by (by rewrite lookup_app_r, Nat.sub_diag by lia).
    apply Hi, lookup_lt_Some in Hl. rewrite length_app. simpl. lia. }
  rewrite length_app in Hle. simpl in Hle. split; [unfold user_range, TEXT; lia| |done].
  intros j c Hj. rewrite <- Z.add_assoc, <- Nat2Z.inj_add. by apply Ht, Hi.
Qed.

(** The file [f] is the compiled program [main], its local array and its literals
    where the compiler puts them. *)
Definition is_program (f : list Z) (main : Linked -> Z -> U W Z) (n : Z) (lits : list (list Z)) : Prop :=
  exists (L : Linked) buf, user_range buf n /\
    (forall s, s ∈ lits -> in_text f s /\ (lit s + Z.of_nat (length s) + 1 <= buf \/ buf + n <= lit s)) /\
    forall w, bytes_at w TEXT f -> loaded w = start (main L buf).
Definition is_cat (n : nat) (f : list Z) : Prop := is_program f (fun L buf => cat buf n) 1024 [].
Definition is_ls (n : nat) (f : list Z) : Prop := is_program f (fun L buf => ls buf n) 33 [chars "."].
Definition is_hello (f : list Z) : Prop :=
  is_program f (fun L buf => hello buf) 1024 [chars "Hi, what's your name? "; chars "Hello, "].
Definition is_counter (f : list Z) : Prop := is_program f (fun L buf => counter buf) 1024 counter_literals.

Lemma main_ends f main n lits args s o o' : is_program f main n lits -> stands o = Home -> Z.of_nat (length f) < 0x3B8000 ->
  (forall (L : Linked) buf page w, serves (child args page o) w -> user_range buf n ->
     (forall t, t ∈ lits -> literal t buf n w) ->
     exists w' oc, main L buf w = Back s w' /\ serves oc w' /\ stands oc = stands (child args page o) /\
       resumed (Caller (arguments o) (descriptors o) page) oc = o') ->
  ends_with f args s o o'.
Proof.
  intros (L & buf & Hu & Hl & Hload) Hh Hf Hm page w Hs Ht.
  destruct (Hm L buf page w Hs Hu) as (w' & oc & E & Hs' & Hst & Er).
  { intros t Hin. destruct (Hl t Hin) as [Hi Ha]. split; [by apply (text_string w f)|done]. }
  exists (main L buf), w', oc. split; [by apply Hload|]. split; [done|]. split; [done|]. split; [|done].
  rewrite Hst. unfold child, below. cbn [stands]. by rewrite Hh.
Qed.

(** Where the standard output of a new program goes. *)
Lemma child_handles args page o i : handles (child args page o) i = if i =? 0 then Keyboard else if i =? 1 then Screen else Free.
Proof.
  unfold handles, child. cbn [descriptors]. rewrite (Z.eqb_sym i 0), (Z.eqb_sym i 1).
  destruct (Z.eqb_spec 0 i) as [<-|]; [by rewrite lookup_insert_eq|]. rewrite lookup_insert_ne by done.
  destruct (Z.eqb_spec 1 i) as [<-|]; [by rewrite lookup_insert_eq|]. by rewrite lookup_insert_ne.
Qed.

(** The one that waits finds its own state again, with what the program did to
    the screen, the lines typed and the place in the directory. *)
Lemma resumed_again page o oc : stands o = Home -> spare o <> 0%nat -> disk oc = disk o -> spare oc = pred (spare o) ->
  resumed (Caller (arguments o) (descriptors o) page) oc =
    Os (disk o) (arguments o) (descriptors o) (listed oc) (typed oc) (spare o) (screen oc) (stands o).
Proof. intros Hh Hs Ed Es. unfold resumed. cbn [its_arguments its_descriptors]. rewrite Ed, Es, Hh. f_equal. lia. Qed.

Lemma cat_ends n f args o c : is_cat n f -> stands o = Home -> spare o <> 0%nat -> Z.of_nat (length f) < 0x3B8000 ->
  args <> [] -> Z.of_nat (length args) <= 1022 -> Forall (fun x => 0 < x < 256) args ->
  find_file args o = Some (Regular c) -> Forall (fun x => x <> 8) c -> (length c < n)%nat ->
  ends_with f args 0 o (show c o).
Proof.
  intros Hf Hh Hsp Hlen Hne Hl Ha Hfile H8 Hn. apply (main_ends f _ _ _ _ _ _ _ Hf Hh Hlen). intros L buf page w Hs Hu _.
  destruct (cat_shows_file (child args page o) w buf c 2 n) as (w' & E & Hs'); try done.
  eexists w', _. split; [exact E|]. split; [exact Hs'|]. split; [done|]. by rewrite (resumed_again page o).
Qed.
Lemma ls_ends n f args o : is_ls n f -> stands o = Home -> spare o <> 0%nat -> Z.of_nat (length f) < 0x3B8000 ->
  find_file (chars ".") o = Some Folder -> Forall (fun e => Forall (fun x => x <> 8) e.1) (disk o) -> (length (disk o) < n)%nat ->
  ends_with f args 0 o (set_listed (Z.of_nat (length (disk o)) + 1) (show (names_shown o) o)).
Proof.
  intros Hf Hh Hsp Hlen Hfile H8 Hn. apply (main_ends f _ _ _ _ _ _ _ Hf Hh Hlen). intros L buf page w Hs Hu Hlit.
  destruct (ls_shows_names (child args page o) w buf 2 n Hs Hu) as (w' & E & Hs'); try done.
  { apply Hlit. by left. }
  eexists w', _. split; [exact E|]. split; [exact Hs'|]. split; [done|]. by rewrite (resumed_again page o).
Qed.
Definition greeting (name : list Z) : list Z :=
  chars "Hi, what's your name? " ++ name ++ [10] ++ chars "Hello, " ++ name ++ [10].
Definition counting (l : list Z) : list Z :=
  counter_prompt ++ l ++ [10] ++ match choice l with Some n => counted n | None => line "Wrong Choice!" end.
(** A program that takes a line and shows [out] for it, the line included. *)
Definition asks (f l out : list Z) : Prop := is_hello f /\ out = greeting l \/ is_counter f /\ out = counting l.
Lemma asks_ends f args o l later out : asks f l out -> stands o = Home -> spare o <> 0%nat -> Z.of_nat (length f) < 0x3B8000 ->
  typed o = l :: later -> Z.of_nat (length l) < 1023 -> Forall (fun c => 0 < c < 256 /\ c <> 8) l ->
  ends_with f args 0 o (set_typed later (show out o)).
Proof.
  intros [[Hf ->]|[Hf ->]] Hh Hsp Hlen Ht Hl Hc; apply (main_ends f _ _ _ _ _ _ _ Hf Hh Hlen); intros L buf page w Hs Hu Hlit.
  - destruct (hello_runs buf [chars "Hi, what's your name? "; chars "Hello, "] Hu (child args page o) w l later) as (w' & E & Hs' & _);
      try done; [by left|by right; left|].
    eexists w', _. split; [exact E|]. split; [exact Hs'|]. split; [done|]. by rewrite (resumed_again page o).
  - destruct (counter_runs buf counter_literals Hu ltac:(done) (child args page o) w l later) as (w' & E & Hs' & _);
      try done; [by eapply Forall_impl; [exact Hc|simpl; tauto]|].
    eexists w', _. split; [exact E|]. split; [exact Hs'|]. split; [done|]. by rewrite (resumed_again page o).
Qed.

(** ** Transcripts *)

(** The line starts the program of the file [f]. *)
Definition starts (o : os) (l f : list Z) : Prop := plain l /\ l <> chars "exit" /\ l <> [] /\ spec_starts l o = Some f.

(** What the shell and the programs it starts put on the screen for the lines
    typed: lines it answers itself, and the commands of [cat], [ls], and [hello] and
    [counter], which take a line themselves. *)
Inductive transcript (n : nat) (o : os) : list (list Z) -> list Z -> Prop :=
  | tr_end : transcript n o [] []
  | tr_stays l ls t : stays o l -> transcript n o ls t -> transcript n o (l :: ls) (answer l ++ t)
  | tr_cat l f c ls t : starts o l f -> is_cat n f -> after_word l <> [] -> find_file (after_word l) o = Some (Regular c) ->
      Forall (fun x => x <> 8) c -> (length c < n)%nat -> transcript n o ls t ->
      transcript n o (l :: ls) ((chars "391OS> " ++ l ++ [10]) ++ c ++ t)
  | tr_ls l f ls t : starts o l f -> is_ls n f -> find_file (chars ".") o = Some Folder ->
      Forall (fun e => Forall (fun x => x <> 8) e.1) (disk o) -> (length (disk o) < n)%nat -> transcript n o ls t ->
      transcript n o (l :: ls) ((chars "391OS> " ++ l ++ [10]) ++ names_shown o ++ t)
  | tr_asks l f l' out ls t : starts o l f -> asks f l' out -> Z.of_nat (length l') < 1023 ->
      Forall (fun c => 0 < c < 256 /\ c <> 8) l' -> transcript n o ls t ->
      transcript n o (l :: l' :: ls) ((chars "391OS> " ++ l ++ [10]) ++ out ++ t).

(** The same but for the screen, the lines typed and the place in the
    directory. *)
Record same_world (o o1 : os) : Prop := {
  sw_disk : disk o1 = disk o;
  sw_arguments : arguments o1 = arguments o;
  sw_descriptors : descriptors o1 = descriptors o;
  sw_spare : spare o1 = spare o;
  sw_stands : stands o1 = stands o
}.
Lemma same_find o o1 l : same_world o o1 -> find_file l o1 = find_file l o.
Proof. intros [Ed _ _ _ _]. unfold find_file. by rewrite Ed. Qed.
Lemma same_handles o o1 i : same_world o o1 -> handles o1 i = handles o i.
Proof. intros [_ _ Ed _ _]. unfold handles. by rewrite Ed. Qed.

Lemma screen_typed rest o : screen (set_typed rest o) = screen o.
Proof. done. Qed.
Lemma screen_listed i o : screen (set_listed i o) = screen o.
Proof. done. Qed.
Lemma heard_shows pr rest l t o : screen (show t (heard rest l (show pr o))) = screen (show ((pr ++ l ++ [10]) ++ t) o).
Proof.
  unfold heard. by rewrite show_typed, screen_typed, (show_app (pr ++ _)), (show_app pr).
Qed.

(** The command of a program that ends with status 0. *)
Lemma program_line o o1 l f rest o2 : same_world o o1 -> handles o 1 = Screen -> starts o l f ->
  (spare o <> 0%nat -> Z.of_nat (length f) < 0x3B8000 -> Z.of_nat (length (after_word l)) <= 1022 ->
     Forall (fun c => 0 < c < 256) (after_word l) ->
     ends_with f (after_word l) 0 (heard rest l (show (chars "391OS> ") o1)) o2) ->
  handles o2 1 = Screen -> @dealt W nested nested_kernel l (heard rest l (show (chars "391OS> ") o1)) o2.
Proof.
  intros Hw Hsc (Hl & _ & Hnil & Hst) He Hsc2. right. split; [done|]. exists 0, o2.
  destruct (spec_starts_some l o f Hst) as (_ & Hsp & Hlen & Harg). split; [|split; [done|by rewrite show_nil]].
  apply (program_comes_back l f); [|done|].
  - rewrite <- Hst. apply spec_starts_same; apply Hw.
  - apply He; [done|done|lia|]. apply after_word_chars, Hl.
Qed.

Lemma transcript_session n o ls t : transcript n o ls t -> stands o = Home -> handles o 0 = Keyboard -> handles o 1 = Screen ->
  forall o1 rest, same_world o o1 -> typed o1 = ls ++ rest ->
  exists cmds o2, @session W nested nested_kernel o1 cmds o2 /\ (length cmds <= length ls)%nat /\
    same_world o o2 /\ typed o2 = rest /\ screen o2 = screen (show t o1).
Proof.
  intros Ht Hh Hk Hsc. set (ends := fun (o1 : os) cmds (len : nat) (rest : list (list Z)) o2 t =>
    @session W nested nested_kernel o1 cmds o2 /\ (length cmds <= len)%nat /\
    same_world o o2 /\ typed o2 = rest /\ screen o2 = screen (show t o1)).
  (* a line, and the rest of the session *)
  assert (forall l len rest later o1 o2 t1 t, same_world o o1 -> typed o1 = l :: later -> plain l -> l <> chars "exit" ->
    @dealt W nested nested_kernel l (heard later l (show (chars "391OS> ") o1)) o2 -> screen o2 = screen (show t1 o1) ->
    (exists cmds o3, ends o2 cmds len rest o3 t) -> exists cmds o3, ends o1 cmds (S len) rest o3 (t1 ++ t)) as Hline.
  { intros l len rest later o1 o2 t1 t0 Hw Hty Hl Hne Hd Esc (cmds & o3 & Hs & Hlen & Hw3 & Hty3 & Esc3).
    exists (l :: cmds), o3. split; [|split; [simpl; lia|split; [done|split; [done|]]]].
    - apply (session_line _ _ later _ o2); [by rewrite (same_handles o)|by rewrite (same_handles o)|done..].
    - rewrite Esc3, show_app. unfold show at 1 2. cbn [screen]. by rewrite Esc. }
  induction Ht as [|l ls t Hst Ht IH|l f c ls t Hst Hf Hne Hfile H8 Hn Ht IH|l f ls t Hst Hf Hfile H8 Hn Ht IH|l f l' out ls t Hst Hf Hlen Hc Ht IH];
    intros o1 rest Hw Hty.
  - exists [], o1. split; [constructor|]. split; [simpl; lia|]. split; [done|]. split; [done|]. by rewrite show_nil.
  - apply (Hline l _ rest (ls ++ rest) o1 (set_typed (ls ++ rest) (show (answer l) o1))); [done|done|apply Hst|apply Hst| |done|].
    + apply (@stays_dealt W nested nested_kernel); [|by rewrite (same_handles o)]. apply (stays_same o); [apply Hw|done].
    + apply IH; [|done]. destruct Hw. by split.
  - rewrite app_assoc. set (oh := heard (ls ++ rest) l (show (chars "391OS> ") o1)).
    apply (Hline l _ rest (ls ++ rest) o1 (show c oh)); [done|done|apply Hst|apply Hst| | |].
    + apply (program_line o _ _ f); [done..| |exact (eq_trans (same_handles o o1 1 Hw) Hsc)]. intros Hsp Hlen Harg Hc.
      apply (cat_ends n f _ oh c); try done; destruct Hw as [Ed Ea Ede Es Est]; [exact (eq_trans Est Hh)|by rewrite <- Es in Hsp|].
      rewrite <- Hfile. unfold find_file. by rewrite <- Ed.
    + apply heard_shows.
    + apply IH; [|done]. destruct Hw. by split.
  - rewrite app_assoc. set (oh := heard (ls ++ rest) l (show (chars "391OS> ") o1)).
    assert (disk oh = disk o) as Ed by apply Hw.
    apply (Hline l _ rest (ls ++ rest) o1 (set_listed (Z.of_nat (length (disk oh)) + 1) (show (names_shown oh) oh)));
      [done|done|apply Hst|apply Hst| | |].
    + apply (program_line o _ _ f); [done..| |exact (eq_trans (same_handles o o1 1 Hw) Hsc)]. intros Hsp Hlen Harg Hc.
      apply (ls_ends n f _ oh); rewrite ?Ed; try done; destruct Hw as [_ Ea Ede Es Est]; [exact (eq_trans Est Hh)|by rewrite <- Es in Hsp|].
      rewrite <- Hfile. unfold find_file. by rewrite Ed.
    + assert (names_shown oh = names_shown o) as -> by (unfold names_shown; by rewrite Ed). rewrite screen_listed. apply heard_shows.
    + apply IH; [|done]. destruct Hw. by split.
  - rewrite app_assoc. set (oh := heard (l' :: ls ++ rest) l (show (chars "391OS> ") o1)).
    destruct (IH (set_typed (ls ++ rest) (show out oh)) rest) as (cmds & o3 & H1 & H2 & H3 & H4 & H5);
      [destruct Hw; by split|done|].
    apply (Hline l _ rest (l' :: ls ++ rest) o1 (set_typed (ls ++ rest) (show out oh))); [done|done|apply Hst|apply Hst| | |].
    + apply (program_line o _ _ f); [done..| |exact (eq_trans (same_handles o o1 1 Hw) Hsc)]. intros Hsp Hfl Harg _.
      apply (asks_ends f _ oh l' (ls ++ rest)); try done; destruct Hw as [_ Ea Ede Es Est]; [exact (eq_trans Est Hh)|by rewrite <- Es in Hsp].
    + rewrite screen_typed. apply heard_shows.
    + exists cmds, o3. split; [done|]. split; [change (length cmds <= S (length ls))%nat; lia|]. by split_and!.
Qed.

Lemma literal_nested `{Linked} l buf n w : literal l buf n w -> @literal W nested _ l buf n w.
Proof. intros [[? ? ?] ?]. split; [by split|done]. Qed.

Lemma session_transcript `{Linked} o w buf ls rest t n m : serves o w -> stands o = Home -> user_range buf 1024 ->
  (forall l, l ∈ shell_literals -> literal l buf 1024 w) -> handles o 0 = Keyboard -> handles o 1 = Screen ->
  typed o = ls ++ chars "exit" :: rest -> transcript m o ls t -> (length ls < n)%nat ->
  exists w' o', @shell W nested _ buf n w = Back 0 w' /\ serves o' w' /\ same_world o o' /\ typed o' = rest /\
    screen o' = screen (show (line "Starting 391 Shell" ++ t ++ chars "391OS> " ++ line "exit") o).
Proof.
  intros Hs Hh Hu Hlit Hk Hsc Hty Ht Hn. set (o0 := show (line "Starting 391 Shell") o).
  destruct (transcript_session m o ls t Ht Hh Hk Hsc o0 (chars "exit" :: rest)) as (cmds & o1 & Hse & Hlen & Hw & Ety & Esc);
    [by split|done|].
  destruct (@shell_until_exit W nested nested_kernel _ o w buf cmds o1 rest n Hs Hu) as (w' & E & Hs').
  - intros l Hl. by apply literal_nested, Hlit.
  - done.
  - exact Hse.
  - by rewrite (same_handles o).
  - by rewrite (same_handles o).
  - done.
  - lia.
  - set (fin := chars "391OS> " ++ line "exit") in *.
    exists w', (set_typed rest (show fin o1)). split; [exact E|]. split; [exact Hs'|]. split; [destruct Hw; by split|]. split; [done|].
    rewrite screen_typed, !show_app. unfold show at 1 2. cbn [screen]. by rewrite Esc.
Qed.

(** C12: From the first line to the last, on a kernel that keeps its promise: the first
    shell of a terminal, run on the machine where a program that is started runs
    until it ends, ends with status 0 at "exit"; the screen has the transcript of
    the lines typed, its own answers and what the programs it started have shown,
    in order, and the rest of its world is as it was. A turn for each line is
    enough. *)
Theorem shell_keeps_transcript `{Linked} o w buf ls rest t n m : serves o w -> stands o = Home -> user_range buf 1024 ->
  (forall l, l ∈ shell_literals -> literal l buf 1024 w) -> handles o 0 = Keyboard -> handles o 1 = Screen ->
  typed o = ls ++ chars "exit" :: rest -> transcript m o ls t -> (length ls < n)%nat ->
  exists w' o', @shell W nested _ buf n w = Back 0 w' /\ serves o' w' /\ same_world o o' /\ typed o' = rest /\
    screen o' = screen (show (line "Starting 391 Shell" ++ t ++ chars "391OS> " ++ line "exit") o).
Proof. apply session_transcript. Qed.
End programs.
