(* ===== verification/KernelOs.v ===== *)
(** The kernel keeps the promise of SysSpec.v: while process [p] runs, its
    system calls, taken through [handle_SIG_SYSCALL], behave as [Kernel] says.

    A program's loads and stores go through the page tables at privilege level
    3. The lines typed ahead are scan codes the controller will send, with their
    interrupts pending: a read from the keyboard takes them, one by one, while
    it waits. *)

From Stdlib Require Import String.
From S2P Require Import Prelude Bytes CString State Console Pic Rtc Filesys Paging Keyboard Descriptors Process Terminals Interrupts SysSpec.
#[local] Open Scope Z_scope.
#[local] Open Scope kernel_scope.

(** ** The machine *)

(** The words above the arguments of a call on the program's stack. *)
Class Stack := words_above : Z -> kstate -> Z.

Section machine.
Context `{Platform}.

(** Translation of a user's access. *)
Definition uxlate (m : mmu_state) (va : Z) : Z :=
  match walk true m va with Some pa => pa | None => - va - 1 end.

#[export] Program Instance kstate_bytes : ByteArr kstate :=
  {| get8 := fun k p => mem_get (pmem k) (uxlate (mmu k) p);
     put8 := fun p v k => k <| pmem := mem_put (uxlate (mmu k) p) v (pmem k) |>;
     loc := fun k => uxlate (mmu k); cell := fun k => mem_get (pmem k) |}.
Next Obligation. done. Qed.
Next Obligation. intros. apply u8_range. Qed.
Next Obligation.
  intros k i v x. exact (cell_put8 (A:=mem) (pmem k) (uxlate (mmu k) i) v x).
Qed.
Next Obligation. done. Qed.

(** [int 0x80] from level 3: the processor takes the kernel's stack from the TSS
    and pushes five words on it. A call that leaves the kernel for user mode has
    started a program, one that leaves it for a parent's frame has ended one. *)
Definition trap (k : kstate) : kstate := k <| cpu; esp := u32 (tss_esp0 (cpu k) - 20) |>.
Definition returned (r : outcome Z) : reply kstate Z :=
  match r with
  | Ret r k => Back r k
  | Jmp (IretUser _ _ _ _) k => Gone k
  | Jmp (LeaveRet _ eax) k => Ended eax k
  | Hang _ | Undef _ _ => Late
  end.
Definition system_call (eax ebx ecx edx : Z) (k : kstate) : reply kstate Z :=
  returned (handle_SIG_SYSCALL eax ebx ecx edx (trap k)).

#[export] Instance kstate_machine `{Stack} : Machine kstate :=
  {| machine_bytes := kstate_bytes; int80 := system_call; above := words_above |}.
End machine.

(** ** The state of the kernel behind an [os] *)

Section serving.
Context `{Platform}.

(** The file of inode [ino] has the bytes [c]. *)
Record file_of (k : kstate) (ino : Z) (c : list Z) : Prop := {
  fo_wf : file_wf k ino;
  fo_end : block_ok k ino (file_length k ino / 4096);
  fo_bytes : c = file_byte k ino <$> seqZ 0 (file_length k ino)
}.

Definition entry_type (k : kstate) (i : Z) : Z := s32 (ld32 k (direntry k i + 32)).
Definition entry_inode (k : kstate) (i : Z) : Z := s32 (ld32 k (direntry k i + 36)).

(** Directory entry [i] is [e]. *)
Record entry_of (k : kstate) (i : Z) (e : list Z * node) : Prop := {
  en_length : 0 < Z.of_nat (length e.1) <= 32;
  en_chars : Forall (fun c => 0 < c < 256) e.1;
  en_field : field_len (entry_name k i) 32 (Z.of_nat (length e.1));
  en_bytes : forall j c, e.1 !! j = Some c -> entry_name k i (Z.of_nat j) = c;
  en_node : match e.2 with
    | Clock => entry_type k i = 0
    | Folder => entry_type k i = 1
    | Regular c => entry_type k i = 2 /\ file_of k (entry_inode k i) c
    end
}.

(** The directory, the entries past its end without a name. *)
Record disk_of (k : kstate) (d : list (list Z * node)) : Prop := {
  dk_count : 0 <= data_count (fs k);
  dk_length : Z.of_nat (length d) <= 62;
  dk_entries : forall i e, d !! i = Some e -> entry_of k (Z.of_nat i) e;
  dk_rest : forall i, Z.of_nat (length d) <= i < 63 -> entry_name k i 0 = 0
}.

Definition handle_is (k : kstate) (h : handle) (d : file_descriptor_t) : Prop :=
  match h with
  | Free => flags d = 0
  | Keyboard => flags d = 1 /\ fops_ptr d = FopsStdin
  | Screen => flags d = 1 /\ fops_ptr d = FopsStdout
  | Reading c pos => flags d = 1 /\ fops_ptr d = FopsFiles /\ file_pos d = pos /\
      0 <= pos <= Z.of_nat (length c) /\ file_of k (inode d) c
  | Listing => flags d = 1 /\ fops_ptr d = FopsDirectory
  | Ticks => flags d = 1 /\ fops_ptr d = FopsRtc
  end.

(** The keys of a line, and lines typed ahead at the terminal that is shown. *)
Definition line_keys (t : key_table) (l scs : list Z) : Prop :=
  l = key_at t <$> scs /\ Forall (fun sc => 0 <= sc < 256 /\ printable (key_at t sc)) scs /\ (length scs <= 126)%nat.
Definition typed_ahead (ls : list (list Z)) (k : kstate) : Prop :=
  exists stream d scss rest, keyboard_sends stream /\ at_prompt k d /\ Forall2 (line_keys (pointer (kbd k))) ls scss /\
    let scs := concat ((fun scs => scs ++ [0x1C]) <$> scss) in
    sends_next stream k scs /\ irqs k = replicate (length scs) IRQ_KBD ++ rest.

(** Where a byte of the page of process [p] lies. *)
Definition upage (p va : Z) : Z := SIZE_8MB + p * SIZE_4MB + (va - SIZE_128MB).

(** The array of 40 bytes of [execute], apart from the image and the screens;
    where it is when process [q] makes the call. *)
Record array_apart (k : kstate) (a : Z) : Prop := {
  ar_low : 0 <= a /\ a + 40 <= SIZE_8MB;
  ar_image : a + 40 <= img k \/ img_end k <= a;
  ar_screens : a + 40 <= VIDEO \/ VIDEO + 4000 <= a
}.
Definition stack_array (q : Z) : Z := exe_data_addr (u32 (SIZE_8MB - q * page8KB - 4 - 20)).

(** The slots that are free. *)
Definition free_slots (k : kstate) : list Z := filter (fun q => proc_used k q = 0) [0; 1; 2; 3; 4; 5].

(** A process with the arguments [l] and the descriptors [m]. *)
Record process_is (k : kstate) (q : pcb_t) (l : list Z) (m : gmap Z handle) : Prop := {
  pi_stdin : flags (fd_at q 0) = 1 /\ fops_ptr (fd_at q 0) = FopsStdin;
  pi_stdout : flags (fd_at q 1) = 1 /\ fops_ptr (fd_at q 1) = FopsStdout;
  pi_rest : forall i, 2 <= i < 8 -> flags (fd_at q i) = 0 \/
    (flags (fd_at q i) = 1 /\ fops_ptr (fd_at q i) ∈ [FopsRtc; FopsDirectory; FopsFiles]);
  pi_handles : forall i, 0 <= i < 8 -> handle_is k (default Free (m !! i)) (fd_at q i);
  pi_args : forall j c, (l ++ [0]) !! j = Some c -> get8 (args q) (Z.of_nat j) = c;
  pi_chars : Forall (fun c => 0 < c < 256) l;
  pi_length : Z.of_nat (length l) < 1024
}.

(** Process [q] is the first shell of the terminal that is shown; no other slot
    has held a process that was its own parent, as a shell that the kernel starts
    is when it takes the slot whose kernel stack the kernel runs on. *)
Record rooted (q : Z) (k : kstate) : Prop := {
  ro_slot : 0 <= q < 6 /\ proc_used k q = 1;
  ro_first : terminal_flag (term_at k (active k)) <> 1 /\ processes_at k (active k) 0 = q;
  ro_pid : pid (pcb_at k (pcb_addr q)) = q;
  ro_parents : forall r, 0 <= r < 6 -> r <> q -> parent (pcb_at k (pcb_addr r)) <> pcb_addr r
}.
(** Process [q] is that shell, and waits for process [p]. *)
Record waits (p q : Z) (c : caller) (k : kstate) : Prop := {
  wt_other : q <> p;
  wt_rooted : rooted q k;
  wt_process : process_is k (pcb_at k (pcb_addr q)) (its_arguments c) (its_descriptors c);
  wt_page : forall va, user va -> mem_get (pmem k) (upage q va) = its_page c va;
  wt_slot : proc_used k p = 1 /\ pid (pcb_at k (pcb_addr p)) = p;
  wt_parent : parent (pcb_at k (pcb_addr p)) = pcb_addr q
}.
Definition stands_at (p : Z) (s : place) (k : kstate) : Prop :=
  match s with Home => rooted p k | Under c => exists q, waits p q c k | Elsewhere => True end.

(** Process [p] runs, and the kernel's state is [o] to it. *)
Record serving (p : Z) (o : os) (k : kstate) : Prop := {
  sv_slot : 0 <= p < 6;
  sv_image : low_image k;
  sv_screens : img_end k <= VIDEO_MEMORY \/ SCREENS_END <= img k;
  sv_arrays : forall q, 0 <= q < 6 -> array_apart k (stack_array q);
  sv_page : forall u va, user va -> walk u (mmu k) va = Some (upage p va);
  sv_fds : fds_ok k;
  sv_handles : forall i, 0 <= i < 8 -> handle_is k (handles o i) (cur_fd i k);
  sv_cursor : cursor_ok k;
  sv_screen : abs k = screen o;
  sv_args : forall j c, (arguments o ++ [0]) !! j = Some c -> get8 (args (cur_pcb k)) (Z.of_nat j) = c;
  sv_arg_chars : Forall (fun c => 0 < c < 256) (arguments o);
  sv_arg_length : Z.of_nat (length (arguments o)) < 1024;
  sv_disk : disk_of k (disk o);
  sv_listed : 0 <= listed o < 64 /\ num_files_read (fs k) = listed o;
  sv_typed : typed o = [] \/ typed_ahead (typed o) k;
  sv_stack : Z.land (u32 (tss_esp0 (cpu k) - 20)) 0xffffe000 = get_pcb k;
  sv_top : tss_esp0 (cpu k) = SIZE_8MB - p * page8KB - 4;
  sv_spare : spare o = length (free_slots k);
  sv_stands : stands_at p (stands o) k
}.

(** What the calls of process [p] leave alone. *)
Record steady (p : Z) (k k' : kstate) : Prop := {
  sd_mmu : mmu k' = mmu k;
  sd_fs : fs k' = (fs k) <| num_files_read := num_files_read (fs k') |>;
  sd_memory : forall pa, 0 <= pa -> ~ page_of p pa -> pa < VIDEO \/ VIDEO + 4000 <= pa -> mem_get (pmem k') pa = mem_get (pmem k) pa;
  sd_stack : get_pcb k' = get_pcb k /\ tss_esp0 (cpu k') = tss_esp0 (cpu k);
  sd_slots : pcb_state (procs k') = pcb_state (procs k);
  sd_others : forall b, b <> pcb_addr p -> pcb_at k' b = pcb_at k b;
  sd_self : pid (pcb_at k' (pcb_addr p)) = pid (pcb_at k (pcb_addr p)) /\
            parent (pcb_at k' (pcb_addr p)) = parent (pcb_at k (pcb_addr p));
  sd_lists : active k' = active k /\ same_lists k k'
}.
Lemma sd_low p k k' pa : 0 <= p -> steady p k k' -> 0 <= pa < SIZE_8MB -> pa < VIDEO \/ VIDEO + 4000 <= pa ->
  mem_get (pmem k') pa = mem_get (pmem k) pa.
Proof. intros Hp Hst Hpa Hv. apply (sd_memory _ _ _ Hst); [lia| |done]. unfold page_of, SIZE_8MB, SIZE_4MB in *. lia. Qed.

(** The keyboard and what is to come from it. *)
Record same_keys (k k' : kstate) : Prop := {
  sk_kbd : kbd k' = kbd k;
  sk_buf : forall d, keyboard_buf (term_at k' d) = keyboard_buf (term_at k d);
  sk_active : active k' = active k;
  sk_pic : pic k' = pic k;
  sk_irqs : irqs k' = irqs k;
  sk_reads : reads KEYBOARD_ENCODER (io k') = reads KEYBOARD_ENCODER (io k)
}.
Lemma typed_ahead_same ls k k' : same_keys k k' -> video_ident (mmu k') -> cursor_ok k' ->
  typed_ahead ls k -> typed_ahead ls k'.
Proof.
  intros [Ek Eb Ea Ep Ei Er] Hv Hc (stream & d & scss & rest & Hks & [[T1 T2 T3 T4 T5] A1 A2 A3 A4 A5 _] & Hl & Hn & Hi).
  exists stream, d, scss, rest. split; [done|]. split; [|rewrite Ek; split; [done|split; [|by rewrite Ei]]].
  - split; [split| | | | |exact Hv|done].
    + unfold disp. by rewrite Ek.
    + done.
    + unfold index_at. by rewrite Ek.
    + intros i c Hic. rewrite Eb. by apply T4.
    + by rewrite Ek.
    + by rewrite Ea.
    + by rewrite Ek.
    + by rewrite Ek.
    + change (unmasked IRQ_KBD k') with (unmasked IRQ_KBD (k <| pic := pic k' |>)). rewrite Ep. exact A4.
  - unfold sends_next. rewrite Er. exact Hn.
Qed.

(** The same state, but for the place in the directory. *)
Definition at_entry (n : Z) (k : kstate) : kstate := k <| fs; num_files_read := n |>.

Lemma low_ld8 k va : kernel_map (mmu k) -> 0 <= va < SIZE_8MB -> ld8 k va = mem_get (pmem k) va.
Proof.
  intros Hm Hva. change (mem_get (pmem k) (xlate (mmu k) va) = mem_get (pmem k) va).
  unfold xlate. by rewrite kernel_map_walk.
Qed.

Lemma steady_image p k k' : 0 <= p -> low_image k -> img_end k <= VIDEO_MEMORY \/ SCREENS_END <= img k -> steady p k k' ->
  same_image k (at_entry (num_files_read (fs k)) k').
Proof.
  intros Hp [Hm Hl Hh] Hap Hst. pose proof (fun pa => sd_low p k k' pa Hp Hst) as El. destruct Hst as [Em Ef _ _ _ _ _ _]. split.
  - change (fs (at_entry _ k')) with ((fs k') <| num_files_read := num_files_read (fs k) |>).
    rewrite Ef. by destruct (fs k).
  - intros o Ho. unfold img_end in Hap. change (ld8 (at_entry _ k')) with (ld8 k').
    rewrite !low_ld8 by (rewrite ?Em; done || lia). unfold VIDEO, VIDEO_MEMORY, SCREENS_END in *. apply El; lia.
Qed.
Lemma file_of_image k k' ino c : same_image k k' -> file_of k ino c -> file_of k' ino c.
Proof.
  intros Hsi [Hwf He ->]. destruct (same_image_file _ _ _ Hsi Hwf) as (_ & Ed & _ & El & Eb & _).
  pose proof (wf_length _ _ Hwf). split.
  - by eapply same_image_wf.
  - unfold block_ok. rewrite Ed, El, Eb by (Z.div_mod_to_equations; lia). exact He.
  - rewrite El. apply list_fmap_ext. intros i j Hj. apply lookup_seqZ in Hj as [-> Hj].
    symmetry. apply (same_image_byte _ _ _ _ Hsi Hwf). lia.
Qed.

Lemma n_inodes_range k : 0 <= n_inodes k < 4294967296.
Proof. apply get32_range. Qed.

Lemma entry_of_image k k' i e : same_image k k' -> 0 <= data_count (fs k) -> 0 <= i < 63 ->
  entry_of k i e -> entry_of k' i e.
Proof.
  intros Hsi Hd Hi [Hl Hc (Hf1 & Hf2 & Hf3) Hb Hn]. pose proof (n_inodes_range k) as Hin.
  assert (forall j, 0 <= j < 64 -> entry_name k' i j = entry_name k i j) as En
    by (intros j Hj; apply same_image_entry; (done || lia)).
  assert (forall o, 0 <= o -> o + 4 <= 64 -> ld32 k' (direntry k' i + o) = ld32 k (direntry k i + o)) as Ho.
  { intros o H1 H2. unfold direntry. rewrite (si_fs _ _ Hsi). fold (img k). rewrite <- !Z.add_assoc.
    apply same_image_ld32; [done|lia|lia]. }
  split; [done|done| | |].
  - split; [done|]. split.
    + intros j Hj. rewrite En by lia. by apply Hf2.
    + destruct Hf3 as [?|?]; [by left|right]. rewrite En by lia. done.
  - intros j c Hj. pose proof (lookup_lt_Some _ _ _ Hj). rewrite En by lia. by apply Hb.
  - unfold entry_type, entry_inode in *. rewrite !Ho by lia. destruct (e.2); [|done..].
    destruct Hn as [? Hn]. split; [done|]. by eapply file_of_image.
Qed.
Lemma disk_of_image k k' d : same_image k k' -> disk_of k d -> disk_of k' d.
Proof.
  intros Hsi [Hc Hl He Hr]. pose proof (n_inodes_range k). split.
  - by rewrite (si_fs _ _ Hsi).
  - done.
  - intros i e Hi. pose proof (lookup_lt_Some _ _ _ Hi). apply (entry_of_image k); [done|done|lia|by apply He].
  - intros i Hi. rewrite (same_image_entry k k') by (done || lia). by apply Hr.
Qed.

Lemma handle_is_image k k' h d : same_image k k' -> handle_is k h d -> handle_is k' h d.
Proof.
  intros Hsi Hh. destruct h; try exact Hh. destruct Hh as (? & ? & ? & ? & Hf). split_and!; [done..|lia|lia|].
  by eapply file_of_image.
Qed.

(** The place in the directory does not matter to them. *)
Lemma file_of_at n k ino c : file_of (at_entry n k) ino c -> file_of k ino c.
Proof. intros [[W1 W2 W3 W4] He Hb]. split; [|exact He|exact Hb]. split; [exact W1|exact W2|exact W3|exact W4]. Qed.
Lemma handle_is_at n k h d : handle_is (at_entry n k) h d -> handle_is k h d.
Proof.
  intros Hh. destruct h; try exact Hh. destruct Hh as (? & ? & ? & ? & Hf). split_and!; [done..|lia|lia|].
  by eapply file_of_at.
Qed.
Lemma disk_of_at n k d : disk_of (at_entry n k) d -> disk_of k d.
Proof.
  intros [D1 D2 D3 D4]. split; [exact D1|exact D2| |exact D4]. intros i e Hi.
  destruct (D3 i e Hi) as [E1 E2 E3 E4 E5]. split; [exact E1|exact E2|exact E3|exact E4|].
  destruct (e.2); [|exact E5..]. destruct E5 as [? Hf]. split; [done|]. exact (file_of_at _ _ _ _ Hf).
Qed.

(** ** One call after the other *)

(** The image is where it was. *)
Lemma same_image_place k k' : same_image k k' -> 0 <= data_count (fs k) ->
  img k' = img k /\ img_end k' = img_end k /\ (low_image k -> kernel_map (mmu k') -> low_image k') /\
  forall a, array_apart k a -> array_apart k' a.
Proof.
  intros Hsi Hd. pose proof (n_inodes_range k). pose proof (same_image_ld32 _ _ 4 Hsi ltac:(done)) as En.
  specialize (En ltac:(lia)). fold (n_inodes k) in En.
  assert (img k' = img k) as Ei by (unfold img; by rewrite (si_fs _ _ Hsi)).
  assert (n_inodes k' = n_inodes k) as Eni by (rewrite <- En; unfold n_inodes at 1; by rewrite Ei).
  assert (img_end k' = img_end k) as Ee by (unfold img_end; by rewrite Ei, Eni, (si_fs _ _ Hsi)).
  split_and!; [done|done| |].
  - intros [_ I2 I3] Hm. fold (img_end k) in I3. split; [done|by rewrite Ei|]. fold (img_end k'). by rewrite Ee.
  - intros a [A1 A2 A3]. split; [done| |done]. by rewrite Ei, Ee.
Qed.
Lemma process_is_image k k' q l m : same_image k k' -> process_is k q l m -> process_is k' q l m.
Proof.
  intros Hsi [P1 P2 P3 P4 P5 P6 P7]. split; try done. intros i Hi. exact (handle_is_image k _ _ _ Hsi (P4 i Hi)).
Qed.
Lemma process_is_at n k q l m : process_is (at_entry n k) q l m -> process_is k q l m.
Proof. intros [P1 P2 P3 P4 P5 P6 P7]. split; try done. intros i Hi. exact (handle_is_at _ _ _ _ (P4 i Hi)). Qed.
Lemma process_is_same k q q' l m : fds q' = fds q -> args q' = args q -> process_is k q l m -> process_is k q' l m.
Proof. intros E1 E2 [P1 P2 P3 P4 P5 P6 P7]. unfold fd_at in *. split; unfold fd_at; rewrite ?E1, ?E2; done. Qed.

Lemma pcb_addr_inj p q : pcb_addr p = pcb_addr q -> p = q.
Proof. unfold pcb_addr, page8MB, page8KB. lia. Qed.
Lemma upage_page p q va : 0 <= q -> p <> q -> user va -> 0 <= upage q va /\ ~ page_of p (upage q va) /\ VIDEO + 4000 <= upage q va.
Proof. unfold upage, page_of, user, SIZE_8MB, SIZE_4MB, SIZE_128MB, VIDEO. lia. Qed.

(** The process that runs has its PCB at the bottom of its kernel stack. *)
Lemma serving_pcb p o k : serving p o k -> get_pcb k = pcb_addr p.
Proof.
  intros Hs. rewrite <- (sv_stack _ _ _ Hs), (sv_top _ _ _ Hs). pose proof (sv_slot _ _ _ Hs) as Hp.
  unfold SIZE_8MB, page8KB. rewrite u32_small by lia. apply pcb_addr_of_esp; [done|]. unfold SIZE_8MB, page8KB. lia.
Qed.

Lemma rooted_steady p q k k' : steady p k k' -> rooted q k -> rooted q k'.
Proof.
  intros [_ _ _ _ Es Eo [Ep Epa] [Ea El]] [[R1 R2] [R3 R4] R5 R6].
  assert (forall r, pid (pcb_at k' (pcb_addr r)) = pid (pcb_at k (pcb_addr r)) /\
    parent (pcb_at k' (pcb_addr r)) = parent (pcb_at k (pcb_addr r))) as Hpp.
  { intros r. destruct (decide (pcb_addr r = pcb_addr p)) as [->|]; [done|]. by rewrite Eo. }
  split.
  - unfold proc_used. by rewrite Es.
  - unfold processes_at in *. destruct (El (active k)) as [E1 E2]. by rewrite Ea, E1, E2.
  - by rewrite (proj1 (Hpp q)).
  - intros r Hr Hrq. rewrite (proj2 (Hpp r)). by apply R6.
Qed.
Lemma stands_steady p s k k' : same_image k (at_entry (num_files_read (fs k)) k') -> steady p k k' ->
  stands_at p s k -> stands_at p s k'.
Proof.
  intros Hsi Hst. destruct s as [|c|]; [by apply (rooted_steady p)| |done].
  intros [q [W1 W2 W3 W4 [W5 W6] W7]]. pose proof (rooted_steady _ _ _ _ Hst W2) as W2'. destruct Hst as [_ _ Em _ Es Eo [Ep Epa] _].
  exists q. split; [done|done| | |split|].
  - rewrite Eo by (intros E%pcb_addr_inj; done). exact (process_is_at _ _ _ _ _ (process_is_image k _ _ _ _ Hsi W3)).
  - intros va Hva. destruct (upage_page p q va) as (? & ? & ?); [apply (ro_slot _ _ W2)|done|done|]. rewrite Em by (done || tauto). by apply W4.
  - unfold proc_used. by rewrite Es.
  - by rewrite Ep.
  - by rewrite Epa.
Qed.

(** After a call that leaves the rest alone, it is enough to look at what the
    call is about: the descriptors, the screen, the place in the directory. *)
Lemma serving_change p o o' k k' : serving p o k -> steady p k k' ->
  disk o' = disk o -> arguments o' = arguments o -> spare o' = spare o -> stands o' = stands o -> (typed o' = [] \/ typed_ahead (typed o') k') -> args (cur_pcb k') = args (cur_pcb k) ->
  fds_ok k' -> (forall i, 0 <= i < 8 -> handle_is k (handles o' i) (cur_fd i k')) ->
  cursor_ok k' -> abs k' = screen o' -> 0 <= listed o' < 64 -> num_files_read (fs k') = listed o' -> serving p o' k'.
Proof.
  intros [Hp Himg Hap Har Hpg Hf Hh Hc Hs Ha Hac Hal Hd Hl Ht Hk Htop Hfr Hsd] Hst Ed Ea Esp Esd Ety Eag Hf' Hh' Hc' Hs' Hl1 Hl2.
  pose proof (steady_image p k k' ltac:(lia) Himg Hap Hst) as Hsi. pose proof (disk_of_image _ _ _ Hsi Hd) as Hd'.
  pose proof (stands_steady _ _ _ _ Hsi Hst Hsd) as Hsd'.
  set (k1 := at_entry _ k') in *. destruct Hst as [Em Ef El [Eg Et0] Esl _ _ _].
  pose proof (same_image_ld32 _ _ 4 Hsi ltac:(done)) as En. pose proof (dk_count _ _ Hd). pose proof (n_inodes_range k).
  specialize (En ltac:(lia)). fold (n_inodes k) in En.
  assert (img k' = img k) as Ei by (unfold img; by rewrite Ef).
  assert (n_inodes k' = n_inodes k) as Eni by (rewrite <- En; unfold n_inodes at 1; by rewrite Ei).
  assert (data_count (fs k') = data_count (fs k)) as Edc by (by rewrite Ef).
  split; try done.
  - destruct Himg as [I1 I2 I3]. split; [by rewrite Em|by rewrite Ei|by rewrite Ei, Eni, Edc].
  - unfold img_end in *. by rewrite Ei, Eni, Edc.
  - intros q Hq. destruct (Har q Hq) as [A1 A2 A3]. split; [exact A1| |exact A3]. unfold img_end in *. by rewrite Ei, Eni, Edc.
  - intros u va Hva. rewrite Em. by apply Hpg.
  - intros i Hi. exact (handle_is_at _ _ _ _ (handle_is_image k k1 _ _ Hsi (Hh' i Hi))).
  - rewrite Ea. intros j c Hj. rewrite Eag. by apply Ha.
  - by rewrite Ea.
  - by rewrite Ea.
  - rewrite Ed. exact (disk_of_at _ _ _ Hd').
  - by rewrite Eg, Et0.
  - by rewrite Et0.
  - rewrite Esp. unfold free_slots, proc_used in *. rewrite Esl. exact Hfr.
  - by rewrite Esd.
Qed.
Lemma serving_step p o o' k k' : serving p o k -> steady p k k' -> same_keys k k' ->
  disk o' = disk o -> arguments o' = arguments o -> spare o' = spare o -> stands o' = stands o -> typed o' = typed o -> args (cur_pcb k') = args (cur_pcb k) ->
  fds_ok k' -> (forall i, 0 <= i < 8 -> handle_is k (handles o' i) (cur_fd i k')) ->
  cursor_ok k' -> abs k' = screen o' -> 0 <= listed o' < 64 -> num_files_read (fs k') = listed o' -> serving p o' k'.
Proof.
  intros Hs Hst Hk Ed Ea Esp Esd Ety Eag Hf' Hh' Hc'. apply (serving_change p o o' k); try done. rewrite Ety.
  destruct (sv_typed _ _ _ Hs) as [?|Ht]; [by left|right]. apply (typed_ahead_same _ k); [done| |done|done].
  rewrite (sd_mmu _ _ _ Hst). apply kernel_map_video, (sv_image _ _ _ Hs).
Qed.
(** ** The program's page *)

Section page.
Context {p : Z} {o : os} {k : kstate} (Hserving : serving p o k).

Lemma page_loc va : user va -> loc k va = upage p va /\ loc (vspace k) va = upage p va.
Proof.
  intros Hva. pose proof (sv_page _ _ _ Hserving) as Hp.
  split; [change (uxlate (mmu k) va = upage p va); unfold uxlate|change (xlate (mmu k) va = upage p va); unfold xlate];
    by rewrite Hp.
Qed.
Lemma page_kloc va : user va -> loc (vspace k) va = upage p va.
Proof. apply page_loc. Qed.
Lemma page_ld8 va : user va -> get8 k va = ld8 k va.
Proof.
  intros Hva. destruct (page_loc va Hva) as [E1 E2].
  change (mem_get (pmem k) (loc k va) = mem_get (pmem k) (loc (vspace k) va)). by rewrite E1, E2.
Qed.
Lemma upage_high va : user va -> SIZE_8MB <= upage p va.
Proof. pose proof (sv_slot _ _ _ Hserving). unfold user, upage, SIZE_8MB, SIZE_4MB, SIZE_128MB. lia. Qed.
Lemma upage_inj va vb : upage p va = upage p vb -> va = vb.
Proof. unfold upage. lia. Qed.

Lemma page_sep buf n : user_range buf n -> sep_range (vspace k) buf n.
Proof.
  intros [H1 H2] i j Hi Hj. rewrite !page_kloc by (unfold user; lia). intros ?%upage_inj. lia.
Qed.
Lemma page_outside buf n va : user_range buf n -> user va -> va < buf \/ buf + n <= va -> outside (vspace k) buf n va.
Proof.
  intros [H1 H2] Hva Ho i Hi. rewrite !page_kloc by (done || unfold user; lia). intros ?%upage_inj. lia.
Qed.
Lemma low_outside buf n pa : user_range buf n -> 0 <= pa < SIZE_8MB -> outside (vspace k) buf n pa.
Proof.
  intros [H1 H2] Hpa i Hi. rewrite page_kloc by (unfold user; lia).
  pose proof (upage_high (buf + i)) as Hh. rewrite loc_low; [|apply (sv_image _ _ _ Hserving)|done].
  specialize (Hh ltac:(unfold user; lia)). lia.
Qed.
Lemma page_apart buf n : user_range buf n -> buf_apart k buf n.
Proof.
  intros Hu. split; [by apply page_sep|]. intros j Hj. pose proof (sv_image _ _ _ Hserving) as [_ Hl Hh].
  apply low_outside; [done|lia].
Qed.

(** Bytes stored in the page by the kernel. *)
Lemma page_wrote k' buf n f : user_range buf n -> wrote k k' buf n f ->
  only_mem k k' /\ (forall pa, ~ page_of p pa -> mem_get (pmem k') pa = mem_get (pmem k) pa) /\
  changes k k' buf n /\ forall j, 0 <= j < n -> get8 k' (buf + j) = f j.
Proof.
  intros Hu Hw. pose proof (sv_image _ _ _ Hserving) as [Hm _ _]. destruct (Hw) as [Ho (Hin & _ & Hloc)].
  assert (mmu k' = mmu k) as Em by (by rewrite Ho).
  assert (forall va, user va -> get8 k' va = ld8 k' va) as Hg.
  { intros va Hva. destruct (page_loc va Hva) as [E1 E2].
    change (mem_get (pmem k') (uxlate (mmu k') va) = mem_get (pmem k') (xlate (mmu k') va)). rewrite Em.
    change (mem_get (pmem k') (loc k va) = mem_get (pmem k') (loc (vspace k) va)). by rewrite E1, E2. }
  split_and!; [done| | |].
  - intros pa Hpa. apply (wrote_away _ _ _ _ _ _ Hw). intros i Hi E. destruct Hu. apply Hpa. rewrite <- E.
    rewrite page_kloc by (unfold user; lia). unfold upage, page_of, SIZE_8MB, SIZE_4MB, SIZE_128MB. lia.
  - intros j Hj Hout. rewrite Hg, page_ld8 by done. apply (wrote_ld8 _ _ _ _ _ _ Hw). by apply page_outside.
  - intros j Hj. destruct Hu. rewrite Hg by (unfold user; lia). by apply Hin.
Qed.
End page.

(** The screen is what video memory holds. *)
Lemma abs_same k k' : con k' = con k ->
  (forall pa, 0 <= pa < SIZE_8MB -> mem_get (pmem k') pa = mem_get (pmem k) pa) -> abs k' = abs k.
Proof.
  intros Ec Hm. unfold abs, scr_x, scr_y. rewrite Ec. f_equal. apply list_fmap_ext. intros i j Hj.
  apply lookup_seqZ in Hj as [-> Hj]. unfold cell_at. cbn [fst]. apply Hm. unfold VIDEO, SIZE_8MB. lia.
Qed.

Lemma fds_ok_same k k' : tables (procs k') = tables (procs k) -> (forall i, cur_fd i k' = cur_fd i k) -> fds_ok k -> fds_ok k'.
Proof.
  intros Et E [[F0 F1 F2] Fr]. split; [split|].
  - by rewrite E.
  - by rewrite E.
  - intros i Hi. rewrite E. by apply F2.
  - exact (eq_trans Et Fr).
Qed.

Lemma serving_mem p o k k' : serving p o k -> only_mem k k' ->
  (forall pa, ~ page_of p pa -> mem_get (pmem k') pa = mem_get (pmem k) pa) -> serving p o k'.
Proof.
  intros Hs Ho Hm'.
  assert (forall pa, 0 <= pa < SIZE_8MB -> mem_get (pmem k') pa = mem_get (pmem k) pa) as Hm.
  { intros pa Hpa. apply Hm'. pose proof (sv_slot _ _ _ Hs). unfold page_of, SIZE_8MB, SIZE_4MB in *. lia. }
  assert (steady p k k') as Hst.
  { split; [by rewrite Ho| |intros; by apply Hm'|by rewrite Ho|by rewrite Ho|intros b _; by rewrite Ho|by rewrite Ho|].
    - rewrite Ho. by destruct k as [? ? ? ? ? ? [] ? ? ? ?].
    - split; [by rewrite Ho|intros d; by rewrite Ho]. }
  assert (con k' = con k /\ procs k' = procs k /\ cpu k' = cpu k /\ fs k' = fs k) as (E1 & E2 & E3 & E4) by (by rewrite Ho).
  assert (get_pcb k' = get_pcb k /\ forall a, pcb_at k' a = pcb_at k a) as [E5 E6]
    by (unfold get_pcb, pcb_at; by rewrite E2, E3).
  assert (forall i, cur_fd i k' = cur_fd i k) as E7 by (intros i; unfold cur_fd; by rewrite E5, E6).
  assert (same_keys k k') as Hk by (split; try (by rewrite Ho); intros d; by rewrite Ho).
  destruct (sv_listed _ _ _ Hs). apply (serving_step p o o k); [done|done|done|done..| | | | | |done|by rewrite E4].
  - unfold cur_pcb. by rewrite E5, E6.
  - apply (fds_ok_same k); [by rewrite E2|exact E7|apply (sv_fds _ _ _ Hs)].
  - intros i Hi. rewrite E7. by apply (sv_handles _ _ _ Hs).
  - unfold cursor_ok, scr_x, scr_y. rewrite E1. apply (sv_cursor _ _ _ Hs).
  - rewrite (abs_same k k') by done. apply (sv_screen _ _ _ Hs).
Qed.

Lemma serving_store p o k va v : serving p o k -> user va -> serving p o (put8 va v k).
Proof.
  intros Hs Hva. apply (serving_mem p o k); [done|done|]. intros pa Hpa.
  change (mem_get (mem_put (loc k va) v (pmem k)) pa = mem_get (pmem k) pa).
  rewrite mem_get_other; [done|]. rewrite (proj1 (page_loc Hs va Hva)). intros <-. apply Hpa.
  unfold upage, page_of, user, SIZE_8MB, SIZE_4MB, SIZE_128MB in *. lia.
Qed.
End serving.

(** ** The calls *)

Section calls.
Context `{Platform}.

Lemma serving_sti p o k : serving p o k -> serving p o (sti k).
Proof.
  intros Hs. destruct (sv_listed _ _ _ Hs). apply (serving_step p o o k); try done.
  - split; [done|by destruct k as [? ? ? ? ? ? [] ? ? ? ?]|done..].
  - by apply (fds_ok_same k); [..|apply (sv_fds _ _ _ Hs)].
  - intros i Hi. exact (sv_handles _ _ _ Hs i Hi).
  - exact (sv_cursor _ _ _ Hs).
  - exact (sv_screen _ _ _ Hs).
Qed.

(** A handle a program can come to hold at a descriptor from 2 on. *)
Lemma handle_opens k h d : handle_is k h d -> h <> Keyboard -> h <> Screen ->
  flags d = 0 \/ (flags d = 1 /\ fops_ptr d ∈ [FopsRtc; FopsDirectory; FopsFiles]).
Proof.
  intros Hh Hk Hsc. destruct h; try done; [by left|right..].
  - destruct Hh as (-> & -> & _). split; [done|]. repeat constructor.
  - destruct Hh as (-> & ->). split; [done|]. repeat constructor.
  - destruct Hh as (-> & ->). split; [done|]. repeat constructor.
Qed.
Lemma serving_fd p o k i h f : serving p o k -> 2 <= i < 8 -> h <> Keyboard -> h <> Screen ->
  handle_is k h (f (cur_fd i k)) -> serving p (set_handle i h o) (upd_fd (get_pcb k) i f k).
Proof.
  intros Hs Hi Hk Hsc Hh. destruct (sv_listed _ _ _ Hs). apply (serving_step p o _ k); try done.
  - pose proof (serving_pcb _ _ _ Hs) as Eg. split; try done.
    + by destruct k as [? ? ? ? ? ? [] ? ? ? ?].
    + intros b Hb. unfold upd_fd. rewrite pcb_at_upd, Eg. by test_false (pcb_addr p =? b).
    + unfold upd_fd. rewrite pcb_at_upd, Eg, Z.eqb_refl. done.
  - unfold cur_pcb. change (get_pcb (upd_fd _ _ _ _)) with (get_pcb k). unfold upd_fd. by rewrite pcb_at_upd, Z.eqb_refl.
  - apply fds_ok_upd; [apply (sv_fds _ _ _ Hs)|done|]. by eapply handle_opens.
  - intros j Hj. rewrite handles_set, cur_fd_upd. destruct (Z.eqb_spec i j) as [->|]; [done|]. by apply (sv_handles _ _ _ Hs).
  - exact (sv_cursor _ _ _ Hs).
  - exact (sv_screen _ _ _ Hs).
Qed.

(** Which descriptor a handle can be at. *)
Lemma handle_place p o k i : serving p o k -> 0 <= i < 8 ->
  match handles o i with Keyboard => i = 0 | Screen => i = 1 | _ => 2 <= i end.
Proof.
  intros Hs Hi. pose proof (sv_handles _ _ _ Hs i Hi) as Hh. destruct (sv_fds _ _ _ Hs) as [[[F0 G0] [F1 G1] F2] _].
  assert (i = 0 \/ i = 1 \/ 2 <= i < 8) as [-> | [-> | Hi2]] by lia.
  - destruct (handles o 0); simpl in Hh; intuition congruence.
  - destruct (handles o 1); simpl in Hh; intuition congruence.
  - specialize (F2 i Hi2). destruct (handles o i); simpl in Hh; try lia.
    + exfalso. destruct Hh as [Hf Hg], F2 as [?|[_ Hin]]; [congruence|]. rewrite Hg in Hin. set_unfold. by destruct Hin as [?|[?|[?|[]]]].
    + exfalso. destruct Hh as [Hf Hg], F2 as [?|[_ Hin]]; [congruence|]. rewrite Hg in Hin. set_unfold. by destruct Hin as [?|[?|[?|[]]]].
Qed.

Lemma does_fails `{Stack} p o k k' q n : serving p o k' -> (forall j, user j -> get8 k' j = get8 k j) ->
  does (W := kstate) (serving p) (Back (-1) k') k q n (Effect (-1) [] o).
Proof. intros Hs Hg. exists k'. split_and!; [done|done|intros i c Hi; by destruct i|intros j Hj _; by apply Hg]. Qed.

(** [file_read] through the call. *)
Lemma read_reading `{Stack} p o k fd c pos buf n : serving p o k -> 0 <= fd < 8 -> handles o fd = Reading c pos ->
  0 <= n < 2147483648 -> user_range buf n ->
  let l := chunk c pos n in let r := Z.of_nat (length l) in
  exists k', read fd buf n k = Ret r k' /\ serving p (set_handle fd (Reading c (pos + r)) o) k' /\
    bytes_at k' buf l /\ changes k k' buf n.
Proof.
  intros Hs Hfd Hh Hn Hu. cbv zeta. pose proof (handle_place p o k fd Hs Hfd) as Hpl. rewrite Hh in Hpl.
  apply serving_sti in Hs. set (k0 := sti k) in Hs.
  pose proof (sv_handles _ _ _ Hs fd Hfd) as Hd. rewrite Hh in Hd. destruct Hd as (Hfl & Hops & Hpos & Hin & Hfile).
  set (ino := inode (cur_fd fd k0)) in *. destruct Hfile as [Hwf Hend Hc].
  pose proof (wf_length _ _ Hwf) as Hlen.
  assert (Z.of_nat (length c) = file_length k0 ino) as Elen by (rewrite Hc, length_fmap, length_seqZ; lia).
  destruct (file_read_spec fd buf n k0 ino pos) as (k1 & Hcp & Efr).
  { split; [done|done|done|lia]. }
  { lia. }
  { destruct Hu. lia. }
  { eapply buf_apart_le; [|apply (page_apart Hs), Hu]. lia. }
  { by right. }
  assert (0 <= n) as Hn0 by lia. assert (pos <= file_length k0 ino) as Hpl0 by lia.
  pose proof (stored_le (file_length k0 ino) pos n Hn0 Hpl0) as Hst.
  assert (user_range buf (stored (file_length k0 ino) pos n)) as Hu' by (destruct Hu; unfold user_range; lia).
  destruct (page_wrote Hs k1 buf _ _ Hu' Hcp) as (Ho & Hlow & Hch & Hby).
  pose proof (serving_mem p o k0 k1 Hs Ho Hlow) as Hs1.
  assert (length (chunk c pos n) = Z.to_nat (Z.min n (file_length k0 ino - pos))) as Er
    by (unfold chunk; rewrite length_take, length_drop; lia).
  rewrite Er, Z2Nat.id by lia. set (r := Z.min n (file_length k0 ino - pos)) in *.
  assert (cur_fd fd k1 = cur_fd fd k0) as Ecf by (unfold cur_fd, get_pcb, pcb_at; by rewrite Ho).
  eexists. split; [|split; [apply (serving_fd p o k1 fd (Reading c (pos + r)) (fun d => d <| file_pos := pos + r |>) Hs1)|split]].
  - unfold read. rewrite bind_modify, bind_get. cbv zeta. fold k0. destruct Hu.
    test_false ((fd <? 0) || (7 <? fd) || (buf =? 0) || (fd =? 1)). fold (cur_fd fd k0). rewrite Hfl.
    change (1 =? 0) with false. cbv iota. rewrite Hops. unfold ops_at. rewrite (proj2 (sv_fds _ _ _ Hs)).
    change (op_read _) with Fn_file_read. cbn [call_read]. unfold run. rewrite Efr. f_equal.
    unfold set_cur_fd. fold (cur_fd fd k1). rewrite <- Ecf. done.
  - lia.
  - done.
  - done.
  - rewrite Ecf. split_and!; [done|done|done|lia|lia|]. simpl.
    pose proof (sv_handles _ _ _ Hs1 fd Hfd) as Hd1. rewrite Hh in Hd1. rewrite <- Ecf. apply Hd1.
  - intros j x Hj. pose proof (lookup_lt_Some _ _ _ Hj) as Hlt. rewrite Er in Hlt.
    unfold chunk in Hj. rewrite lookup_take_lt, lookup_drop in Hj by lia.
    change (get8 k1 (buf + Z.of_nat j) = x). rewrite Hby by (unfold stored; case_tests; lia).
    rewrite Hc, list_lookup_fmap, lookup_seqZ_lt in Hj by lia. injection Hj as <-. f_equal. lia.
  - intros j Hj Hout. change (get8 k1 j = get8 k0 j). apply Hch; [done|]. lia.
Qed.
(** A name, as [directory_read] finds it. *)
Lemma entry_at p o k i : serving p o k -> 0 <= i < 63 ->
  let name := default [] (fst <$> disk o !! Z.to_nat i) in
  field_len (entry_name k i) 32 (Z.of_nat (length name)) /\
  (forall j c, padded name !! j = Some c -> (if Z.of_nat j <? Z.of_nat (length name) then entry_name k i (Z.of_nat j) else 0) = c) /\
  length (padded name) = 33%nat.
Proof.
  intros Hs Hi. cbv zeta. destruct (sv_disk _ _ _ Hs) as [_ _ He Hr].
  set (name := default [] (fst <$> disk o !! Z.to_nat i)).
  assert (field_len (entry_name k i) 32 (Z.of_nat (length name)) /\ Z.of_nat (length name) <= 32 /\
          forall j c, name !! j = Some c -> entry_name k i (Z.of_nat j) = c) as (Hf & Hl & Hb).
  { destruct (disk o !! Z.to_nat i) as [e|] eqn:E; simpl in name; subst name.
    - destruct (He _ _ E) as [? _ Hf Hb _]. rewrite Z2Nat.id in Hf, Hb by lia. split_and!; [done|lia|done].
    - apply lookup_ge_None in E. split_and!; [|done|done]. split; [done|]. split; [simpl; lia|]. right. apply Hr. lia. }
  clearbody name. split_and!; [done| |].
  - intros j c Hj. unfold padded in Hj. destruct (Z.ltb_spec (Z.of_nat j) (Z.of_nat (length name))).
    + rewrite lookup_app_l in Hj by lia. by apply Hb.
    + rewrite lookup_app_r in Hj by lia. by apply lookup_replicate in Hj as [-> _].
  - unfold padded. rewrite length_app, length_replicate. lia.
Qed.

Lemma serving_listed p o n k : serving p o k -> 0 <= n < 64 -> serving p (set_listed n o) (at_entry n k).
Proof.
  intros Hs Hn. apply (serving_step p o _ k); try done.
  - by apply (fds_ok_same k); [..|apply (sv_fds _ _ _ Hs)].
  - intros i Hi. exact (sv_handles _ _ _ Hs i Hi).
  - exact (sv_cursor _ _ _ Hs).
  - exact (sv_screen _ _ _ Hs).
Qed.

Lemma read_listing `{Stack} p o k fd buf n : serving p o k -> 0 <= fd < 8 -> handles o fd = Listing -> listed o < 63 ->
  user_range buf 33 -> let name := default [] (fst <$> disk o !! Z.to_nat (listed o)) in
  exists k', read fd buf n k = Ret (Z.of_nat (length name)) k' /\ serving p (set_listed (listed o + 1) o) k' /\
    bytes_at k' buf (padded name) /\ changes k k' buf 33.
Proof.
  intros Hs Hfd Hh Hlt Hu. pose proof (handle_place p o k fd Hs Hfd) as Hpl. rewrite Hh in Hpl.
  apply serving_sti in Hs. set (k0 := sti k) in Hs. destruct (sv_listed _ _ _ Hs) as [Hl1 Hl2].
  destruct (entry_at p o k0 (listed o) Hs) as (Hf & Hb & H33); [lia|].
  cbv zeta. set (name := default [] _) in *. rewrite <- Hl2 in Hf.
  destruct (directory_read_spec fd buf n k0 _ ltac:(destruct Hu; lia) (page_sep Hs _ _ Hu) Hf) as (k1 & Edr & Hw).
  destruct (page_wrote Hs k1 buf _ _ Hu Hw) as (Ho & Hlow & Hch & Hby).
  pose proof (serving_mem p o k0 k1 Hs Ho Hlow) as Hs1. rewrite Hl2, u8_small in Edr by lia.
  pose proof (sv_handles _ _ _ Hs fd Hfd) as Hd. rewrite Hh in Hd. destruct Hd as (Hfl & Hops).
  eexists. split; [|split; [|split]].
  - unfold read. rewrite bind_modify, bind_get. cbv zeta. fold k0. destruct Hu.
    test_false ((fd <? 0) || (7 <? fd) || (buf =? 0) || (fd =? 1)). fold (cur_fd fd k0). rewrite Hfl.
    change (1 =? 0) with false. cbv iota. rewrite Hops. unfold ops_at. rewrite (proj2 (sv_fds _ _ _ Hs)).
    change (op_read _) with Fn_directory_read. cbn [call_read]. by rewrite Edr.
  - apply (serving_listed p o (listed o + 1) k1); [done|lia].
  - intros j x Hj. pose proof (lookup_lt_Some _ _ _ Hj) as Hjl.
    change (get8 k1 (buf + Z.of_nat j) = x). rewrite Hby by lia. rewrite Hl2. by apply Hb.
  - intros j Hj Hout. change (get8 k1 j = get8 k0 j). by apply Hch.
Qed.

(** A line from the keyboard. *)
Lemma serving_typing p o k k' l : serving p o k -> echoes l k k' -> (exists n, typed_frame n k k') ->
  serving p (set_typed [] (show l o)) k' /\ forall j, user j -> get8 k' j = get8 k j.
Proof.
  intros Hs (Em & Hc & Ha & Hmem) [n [E _ _ _ El]].
  assert (pcbs (procs k') = pcbs (procs k) /\ tables (procs k') = tables (procs k) /\ get_pcb k' = get_pcb k /\
    tss_esp0 (cpu k') = tss_esp0 (cpu k) /\ fs k' = fs k /\ pcb_state (procs k') = pcb_state (procs k))
    as (E1 & E2 & E3 & E4 & E5 & E6) by (by rewrite E).
  assert (forall i, cur_fd i k' = cur_fd i k) as Ef by (intros i; unfold cur_fd, pcb_at; by rewrite E1, E3).
  destruct (sv_listed _ _ _ Hs) as [Hl1 Hl2]. split.
  - apply (serving_change p o _ k); try done.
    + split; [done|rewrite E5; by destruct (fs k)|intros; by apply Hmem|by split|done| | |].
      * intros b _. unfold pcb_at. by rewrite E1.
      * unfold pcb_at. by rewrite E1.
      * split; [by rewrite E|done].
    + by left.
    + unfold cur_pcb, pcb_at. by rewrite E1, E3.
    + apply (fds_ok_same k); [done|done|apply (sv_fds _ _ _ Hs)].
    + intros i Hi. rewrite Ef. apply (sv_handles _ _ _ Hs i Hi).
    + rewrite Ha, (sv_screen _ _ _ Hs). done.
    + by rewrite E5.
  - intros j Hj. change (mem_get (pmem k') (uxlate (mmu k') j) = mem_get (pmem k) (loc k j)). rewrite Em.
    change (uxlate (mmu k) j) with (loc k j). apply Hmem. right.
    rewrite (proj1 (page_loc Hs j Hj)). pose proof (upage_high Hs j Hj). unfold VIDEO, SIZE_8MB in *. lia.
Qed.

Lemma sends_next_app stream k l1 l2 : sends_next stream k (l1 ++ l2) ->
  sends_next stream k l1 /\ forall k', reads KEYBOARD_ENCODER (io k') = (length l1 + reads KEYBOARD_ENCODER (io k))%nat ->
    sends_next stream k' l2.
Proof.
  intros Hn. split.
  - intros i sc Hi. apply Hn. by apply lookup_app_l_Some.
  - intros k' E i sc Hi. rewrite E. rewrite <- (Hn (length l1 + i)%nat sc); [f_equal; lia|].
    rewrite lookup_app_r by lia. by replace (length l1 + i - length l1)%nat with i by lia.
Qed.

Lemma read_keyboard `{Stack} p o k buf n l ls : serving p o k -> handles o 0 = Keyboard -> typed o = l :: ls ->
  Z.of_nat (length l) < n -> user_range buf n ->
  exists k', read 0 buf n k = Ret (Z.of_nat (length l) + 1) k' /\ serving p (set_typed ls (show (l ++ [10]) o)) k' /\
    bytes_at k' buf (l ++ [10]) /\ changes k k' buf n.
Proof.
  intros Hs Hh Ht Hn Hu. destruct (sv_typed _ _ _ Hs) as [E|Hty]; [by rewrite E in Ht|]. rewrite Ht in Hty.
  destruct Hty as (stream & d & scss & rest & Hks & Hap & Hl & Hnext & Hirq). cbv zeta in Hnext, Hirq.
  apply Forall2_cons_inv_l in Hl as (scs & scss' & (El & Hsc & Hlen) & Hl & ->).
  cbn [fmap list_fmap concat] in Hnext, Hirq. set (later := concat _) in Hnext, Hirq.
  apply sends_next_app in Hnext as [Hn1 Hn2]. rewrite length_app, length_app in Hirq. cbn [length] in Hirq.
  rewrite replicate_add, <- app_assoc in Hirq.
  pose proof (sv_handles _ _ _ Hs 0 ltac:(lia)) as Hd. rewrite Hh in Hd. destruct Hd as [Hfl Hops].
  assert (length l = length scs) as Ell by (rewrite El; apply length_fmap).
  assert (user_range buf (Z.of_nat (length scs) + 1)) as Hu1 by (destruct Hu; unfold user_range; lia).
  destruct (read_line_steps stream scs _ d buf n k Hks Hap Hn1 Hirq Hsc Hlen (proj2 (sv_fds _ _ _ Hs)))
    as (k1 & k2 & E & Ec & F & Hw & Hp & Ei); [by rewrite Hfl|done|destruct Hu; lia|lia|by apply (page_sep Hs)|].
  assert (key_char k <$> scs = l) as Ecs by done. rewrite Ecs in Ec, Hw.
  destruct (serving_typing p o k k1 (l ++ [10]) Hs Ec ltac:(by eexists)) as [Hs1 Hg].
  destruct (page_wrote Hs1 k2 buf _ _ Hu1 Hw) as (Ho & Hlow & Hch & Hby).
  pose proof (serving_mem p _ k1 k2 Hs1 Ho Hlow) as Hs2. destruct (sv_listed _ _ _ Hs2) as [Hl1 Hl2].
  exists (reset_line k2). split; [by rewrite Ell|]. split; [|split].
  - apply (serving_change p (set_typed [] (show (l ++ [10]) o)) _ k2); try done.
    + split; [done|by destruct k2 as [? ? ? ? ? ? [] ? ? ? ?]|done|done|done|done|done|split; [done|apply reset_line_lists]].
    + right. exists stream, d, scss', rest. split; [done|]. split; [done|].
      assert (pointer (kbd (reset_line k2)) = pointer (kbd k)) as ->.
      { change (pointer (kbd (reset_line k2))) with (pointer (kbd k2)). rewrite Ho. exact (tf_pointer _ _ _ F). }
      split; [done|]. fold later. split.
      * apply Hn2. change (io (reset_line k2)) with (io k2). rewrite length_app. cbn [length]. rewrite <- (tf_reads _ _ _ F), Ho. done.
      * change (irqs (reset_line k2)) with (irqs k2). rewrite Ho. exact Ei.
    + by apply (fds_ok_same k2); [..|apply (sv_fds _ _ _ Hs2)].
    + intros i Hi. exact (sv_handles _ _ _ Hs2 i Hi).
    + exact (sv_cursor _ _ _ Hs2).
    + exact (sv_screen _ _ _ Hs2).
  - intros j x Hj. change (get8 k2 (buf + Z.of_nat j) = x). pose proof (lookup_lt_Some _ _ _ Hj) as Hjl.
    rewrite length_app in Hjl. cbn [length] in Hjl. rewrite Hby, Nat2Z.id by lia.
    apply lookup_app_Some in Hj as [Hj|[Hj1 Hj2]]; [by rewrite Hj|]. apply list_lookup_singleton_Some in Hj2 as [? <-].
    by rewrite lookup_ge_None_2 by lia.
  - intros j Hj Hout. change (get8 k2 j = get8 k j). rewrite <- Hg by done. apply Hch; [done|]. lia.
Qed.

(** [read]. *)
Lemma serves_read `{Stack} p o k d buf n e : serving p o k -> spec_read d n o = Some e -> 0 <= n < 2147483648 ->
  user_range buf (room d n o) ->
  does (W := kstate) (serving p) (returned (read d buf n k)) k buf (room d n o) e.
Proof.
  intros Hs He Hn Hu. unfold spec_read, in_table, fails in He.
  assert (forall q m, read d buf n k = Ret FAILURE (sti k) ->
    does (serving p) (returned (read d buf n k)) k q m (Effect (-1) [] o)) as Hbad
    by (intros q m ->; apply (does_fails p); [by apply serving_sti|done]).
  destruct ((0 <=? d) && (d <=? 7)) eqn:Ed; cbn [negb] in He.
  2: { injection He as <-. apply Hbad. apply bad_arguments_fail. lia. }
  assert (0 <= d < 8) as Hd by lia. pose proof (sv_handles _ _ _ Hs d Hd) as Hh. pose proof (handle_place p o k d Hs Hd) as Hp.
  unfold room, in_table in *. rewrite Ed in *. cbn [negb] in *. destruct (handles o d) as [| | |c pos| |] eqn:Eh.
  - injection He as <-. apply Hbad. apply bad_arguments_fail. right. right. by right.
  - destruct (typed o) as [|l ls] eqn:Et; [done|]. destruct (Z.ltb_spec (Z.of_nat (length l)) n) as [Hlt|]; [|done].
    injection He as <-. rewrite Hp in *. destruct (read_keyboard p o k buf n l ls Hs Eh Et Hlt Hu) as (k' & -> & Q1 & Q2 & Q3).
    by exists k'.
  - injection He as <-. apply Hbad. rewrite Hp. apply (bad_arguments_fail 1).
  - injection He as <-. destruct (read_reading p o k d c pos buf n Hs Hd Eh Hn Hu) as (k' & -> & H1 & H2 & H3).
    by exists k'.
  - destruct (Z.ltb_spec (listed o) 63) as [Hlt|]; [|done]. injection He as <-.
    destruct (read_listing p o k d buf n Hs Hd Eh Hlt) as (k' & -> & H1 & H2 & H3); [destruct Hu; unfold user_range; lia|].
    exists k'. split_and!; [done|done|done|]. intros j Hj Hout. apply H3; [done|]. lia.
  - done.
Qed.
(** [write]. *)
Lemma serving_temp p o d k : serving p o k -> serving p o (k <| procs; temp_fd := d |>).
Proof.
  intros Hs. destruct (sv_listed _ _ _ Hs). apply (serving_step p o o k); try done.
  - split; [done|by destruct k as [? ? ? ? ? ? [] ? ? ? ?]|done..].
  - by apply (fds_ok_same k); [..|apply (sv_fds _ _ _ Hs)].
  - intros i Hi. exact (sv_handles _ _ _ Hs i Hi).
  - exact (sv_cursor _ _ _ Hs).
  - exact (sv_screen _ _ _ Hs).
Qed.

Lemma serving_shows p o k k' l : serving p o k -> shows l k k' ->
  reads KEYBOARD_ENCODER (io k') = reads KEYBOARD_ENCODER (io k) ->
  serving p (show l o) k' /\ forall j, user j -> get8 k' j = get8 k j.
Proof.
  intros Hs ([Ef Em] & Hc & Ha) Hrd. destruct (sv_listed _ _ _ Hs) as [Hl1 Hl2].
  assert (same_keys k k') as Hk by (split; try done; try (by rewrite Ef); intros d; by rewrite Ef).
  assert (mmu k' = mmu k /\ procs k' = procs k /\ cpu k' = cpu k /\ fs k' = fs k) as (E1 & E2 & E3 & E4) by (by rewrite Ef).
  assert (forall i, cur_fd i k' = cur_fd i k) as E5 by (intros i; unfold cur_fd, pcb_at, get_pcb; by rewrite E2, E3).
  split.
  - apply (serving_step p o _ k); try done.
    + split; [done| |intros; by apply Em|unfold get_pcb; by rewrite E3|by rewrite E2|intros b _|unfold pcb_at; by rewrite E2|].
      * rewrite E4. by destruct (fs k).
      * unfold pcb_at. by rewrite E2.
      * split; [by rewrite Ef|intros d; by rewrite Ef].
    + unfold cur_pcb, pcb_at, get_pcb. by rewrite E2, E3.
    + apply (fds_ok_same k); [by rewrite E2|done|apply (sv_fds _ _ _ Hs)].
    + intros i Hi. rewrite E5. apply (sv_handles _ _ _ Hs i Hi).
    + rewrite Ha, (sv_screen _ _ _ Hs). done.
    + by rewrite E4.
  - intros j Hj. change (mem_get (pmem k') (uxlate (mmu k') j) = mem_get (pmem k) (loc k j)). rewrite E1.
    change (uxlate (mmu k) j) with (loc k j). apply Em. right.
    rewrite (proj1 (page_loc Hs j Hj)). pose proof (upage_high Hs j Hj). unfold VIDEO, SIZE_8MB in *. lia.
Qed.

Lemma serves_write `{Stack} p o k d buf l e : serving p o k -> spec_write d l o = Some e ->
  user_range buf (Z.of_nat (length l)) -> bytes_at k buf l ->
  does (W := kstate) (serving p) (returned (write d buf (Z.of_nat (length l)) k)) k buf 0 e.
Proof.
  intros Hs He Hu Hb. remember (Z.of_nat (length l)) as n eqn:En in *. unfold spec_write, in_table, fails in He.
  assert (forall q k', write d buf n k = Ret FAILURE k' -> serving p o k' -> (forall j, user j -> get8 k' j = get8 k j) ->
    does (serving p) (returned (write d buf n k)) k q 0 (Effect (-1) [] o)) as Hbad
    by (intros q k' -> ? ?; by apply (does_fails p)).
  destruct ((0 <=? d) && (d <=? 7)) eqn:Ed; cbn [negb] in He.
  2: { injection He as <-. apply (Hbad _ k); [|done|done]. apply bad_arguments_fail. lia. }
  assert (0 <= d < 8) as Hd by lia. pose proof (sv_handles _ _ _ Hs d Hd) as Hh. pose proof (handle_place p o k d Hs Hd) as Hp.
  pose proof (proj2 (sv_fds _ _ _ Hs)) as Htab.
  assert (flags (cur_fd d k) = 1 -> write d buf n k =
    call_write (op_write (ops_at k (fops_ptr (cur_fd d k)))) d buf n (k <| procs; temp_fd := d |>)) as Hw.
  { intros E1. unfold write. rewrite bind_get. cbv zeta. destruct Hu. test_false ((d <? 0) || (7 <? d) || (buf =? 0)).
    fold (cur_fd d k). rewrite E1. change (1 =? 0) with false. cbv iota. by rewrite bind_modify, bind_get. }
  destruct (handles o d) as [| | |c pos| |] eqn:Eh.
  - injection He as <-. apply (Hbad _ k); [|done|done]. apply bad_arguments_fail. right. right. by right.
  - injection He as <-. destruct Hh as [H1 H2]. eapply Hbad; [|apply (serving_temp p o d k Hs)|done].
    rewrite (Hw H1), H2. unfold ops_at. by rewrite Htab.
  - destruct (existsb (Z.eqb 8) l) eqn:E8; [done|]. injection He as <-. destruct Hh as [H1 H2]. rewrite Hp in *.
    assert (forall i, 0 <= i < n -> ld8 k (buf + i) = default 0 (l !! Z.to_nat i) /\ user (buf + i)) as Hbi.
    { intros i Hi. destruct Hu. assert (user (buf + i)) as Hus by (unfold user; lia). split; [|done].
      rewrite <- (page_ld8 Hs) by done. destruct (lookup_lt_is_Some_2 l (Z.to_nat i)) as [c Ec]; [lia|]. rewrite Ec. simpl.
      pose proof (Hb _ _ Ec) as E. rewrite Z2Nat.id in E by lia. exact E. }
    destruct (write_screen_shows buf n k Htab) as (k' & E & Hsh & Hrd).
    { by rewrite H1. }
    { done. }
    { destruct Hu. lia. }
    { lia. }
    { apply kernel_map_video, (sv_image _ _ _ Hs). }
    { apply (sv_cursor _ _ _ Hs). }
    { intros i Hi. destruct (Hbi i Hi) as [E Hus]. rewrite (page_kloc Hs) by done. pose proof (upage_high Hs _ Hus). split.
      - rewrite E. destruct (lookup_lt_is_Some_2 l (Z.to_nat i)) as [c Ec]; [lia|]. rewrite Ec. simpl. intros ->.
        apply not_true_iff_false in E8. apply E8. apply existsb_exists. exists 8. split; [|done].
        apply list_elem_of_In. by apply list_elem_of_lookup_2 in Ec.
      - right. unfold VIDEO, SIZE_8MB in *. lia. }
    assert ((fun i => ld8 k (buf + i)) <$> seqZ 0 n = l) as El.
    { apply list_eq. intros i. rewrite list_lookup_fmap. destruct (decide (i < length l)%nat) as [Hi|Hi].
      - rewrite lookup_seqZ_lt by lia. destruct (lookup_lt_is_Some_2 l i Hi) as [c Ec]. rewrite Ec.
        destruct (Hbi (Z.of_nat i) ltac:(lia)) as [Ei _]. rewrite Nat2Z.id, Ec in Ei. exact (f_equal Some Ei).
      - rewrite lookup_seqZ_ge by lia. by rewrite lookup_ge_None_2 by lia. }
    rewrite El in Hsh. destruct (serving_shows p o _ k' l (serving_temp p o 1 k Hs) Hsh (Hrd _)) as [Hs' Hg].
    rewrite E. exists k'. split_and!; [by rewrite En|done|intros i c Hi; by destruct i|intros j Hj _; by apply Hg].
  - injection He as <-. destruct Hh as (H1 & H2 & _). eapply Hbad; [|apply (serving_temp p o d k Hs)|done].
    rewrite (Hw H1), H2. unfold ops_at. by rewrite Htab.
  - injection He as <-. destruct Hh as [H1 H2]. eapply Hbad; [|apply (serving_temp p o d k Hs)|done].
    rewrite (Hw H1), H2. unfold ops_at. by rewrite Htab.
  - done.
Qed.
(** The lowest free descriptor. *)
Lemma handle_free p o k i : serving p o k -> 0 <= i < 8 -> handles o i = Free <-> flags (cur_fd i k) = 0.
Proof.
  intros Hs Hi. pose proof (sv_handles _ _ _ Hs i Hi) as Hh. destruct (handles o i); simpl in Hh; intuition congruence.
Qed.
Lemma free_handle_fd p o k : serving p o k ->
  free_handle o = if free_fd (cur_pcb k) =? 8 then None else Some (free_fd (cur_pcb k)).
Proof.
  intros Hs. destruct (free_fd_spec (cur_pcb k)) as (Hr & Hno & H0). cbv zeta in *. set (i := free_fd (cur_pcb k)) in *.
  assert (forall j, 2 <= j < i -> bool_decide (handles o j = Free) = false) as Hf.
  { intros j Hj. apply bool_decide_eq_false. rewrite (handle_free p o k) by (done || lia). by apply Hno. }
  assert (i < 8 -> bool_decide (handles o i = Free) = true) as Ht.
  { intros Hi. apply bool_decide_eq_true. apply (handle_free p o k); [done|lia|by apply H0]. }
  clearbody i. unfold free_handle.
  assert (i = 2 \/ i = 3 \/ i = 4 \/ i = 5 \/ i = 6 \/ i = 7 \/ i = 8) as Hc by lia.
  destruct Hc as [-> | [-> | [-> | [-> | [-> | [-> | ->]]]]]]; cbn [find]; rewrite ?Hf by lia; rewrite ?Ht by lia; done.
Qed.

(** The first file of a name. *)
Lemma find_file_at o l i e : disk o !! i = Some e -> e.1 = l ->
  (forall j e', (j < i)%nat -> disk o !! j = Some e' -> e'.1 <> l) -> find_file l o = Some e.2.
Proof.
  unfold find_file. generalize (disk o) as d. intros d. revert i. induction d as [|x d IH]; intros i Hi He Hno; [done|].
  rewrite filter_cons. destruct i as [|i].
  - injection Hi as ->. by rewrite decide_True.
  - rewrite decide_False by (apply (Hno 0%nat); [lia|done]).
    apply (IH i); [done|done|]. intros j e' Hj. apply (Hno (S j)). lia.
Qed.
Lemma find_file_none o l : (forall j e, disk o !! j = Some e -> e.1 <> l) -> find_file l o = None.
Proof.
  unfold find_file. generalize (disk o) as d. induction d as [|x d IH]; intros Hno; [done|].
  rewrite filter_cons, decide_False by (by apply (Hno 0%nat)). apply IH. intros j e Hj. by apply (Hno (S j)).
Qed.

(** An entry agrees with a string when the string is its name. *)
Lemma entry_agrees k i e f l : entry_of k i e -> is_bytes f -> is_cstr f (Z.of_nat (length l)) ->
  (forall j c, l !! j = Some c -> f (Z.of_nat j) = c) -> Z.of_nat (length l) <= 32 ->
  str_agree (entry_name k i) f 32 <-> e.1 = l.
Proof.
  intros [_ _ (Hf1 & Hf2 & Hf3) Hb _] Hby Hs Hl H32. split.
  - intros Ha. destruct (field_len_agree _ _ _ Hs H32 Ha) as [(G1 & G2 & G3) Heq].
    assert (length e.1 = length l) as El.
    { destruct (Z.lt_trichotomy (Z.of_nat (length e.1)) (Z.of_nat (length l))) as [Hlt|[?|Hgt]]; [|lia|].
      - destruct Hf3 as [?|E]; [lia|]. by apply G2 in E; [|lia].
      - destruct G3 as [?|E]; [lia|]. by apply Hf2 in E; [|lia]. }
    apply list_eq. intros j. destruct (decide (j < length l)%nat) as [Hj|Hj].
    + destruct (lookup_lt_is_Some_2 l j Hj) as [c Hc]. destruct (lookup_lt_is_Some_2 e.1 j) as [c' Hc']; [lia|].
      rewrite Hc, Hc'. f_equal. rewrite <- (Hb _ _ Hc'), <- (Hl _ _ Hc). apply Heq. lia.
    + by rewrite !lookup_ge_None_2 by lia.
  - intros <-. intros x Hx Hnz. destruct (Z.lt_trichotomy x (Z.of_nat (length e.1))) as [Hlt|[->|Hgt]].
    + destruct (lookup_lt_is_Some_2 e.1 (Z.to_nat x)) as [c Hc]; [lia|].
      specialize (Hb _ _ Hc). specialize (Hl _ _ Hc). rewrite Z2Nat.id in Hb, Hl by lia. congruence.
    + destruct Hs as (_ & -> & _). destruct Hf3; [lia|done].
    + destruct Hf3 as [?|E]; [lia|]. by apply Hnz in E; [|lia].
Qed.

(** The lookup of a name. *)
Lemma lookup_name p o k f l : serving p o k -> l <> [] -> is_bytes f -> is_cstr f (Z.of_nat (length l)) ->
  (forall j c, l !! j = Some c -> f (Z.of_nat j) = c) -> Z.of_nat (length l) < 4294967296 -> let d0 := Dentry ∅ 0 0 in
  match find_file l o with
  | Some x => exists i e, disk o !! i = Some e /\ e.2 = x /\ entry_of k (Z.of_nat i) e /\
      read_dentry_by_name f d0 k = Some (SUCCESS, read_dentry (Z.of_nat i) d0 k)
  | None => read_dentry_by_name f d0 k = Some (FAILURE, d0)
  end.
Proof.
  intros Hs Hne Hby Hstr Hl Hlt. cbv zeta. destruct (sv_disk _ _ _ Hs) as [_ Hlen He Hr].
  destruct (Z.le_gt_cases (Z.of_nat (length l)) 32) as [H32|H32].
  2: { rewrite find_file_none.
       - apply (read_dentry_by_name_long f (Z.of_nat (length l))); [done|lia].
       - intros j e Hj <-. destruct (He _ _ Hj) as [? _ _ _ _]. lia. }
  assert (forall i e, disk o !! i = Some e -> str_agree (entry_name k (Z.of_nat i)) f 32 <-> e.1 = l) as Hag.
  { intros i e Hi. apply entry_agrees; [by apply He|done..]. }
  assert (forall i, Z.of_nat (length (disk o)) <= i < 63 -> ~ str_agree (entry_name k i) f 32) as Hoff.
  { intros i Hi Ha. specialize (Ha 0 ltac:(lia) ltac:(lia)). rewrite Hr in Ha by done. destruct Hstr as (_ & _ & Hnz).
    destruct l; [done|]. destruct (Hnz 0); [simpl; lia|done]. }
  destruct (read_dentry_by_name_finds f _ (Dentry ∅ 0 0) k Hstr H32 Hby) as [(i & Hi & Ha & Hno & E)|[Hno E]].
  - destruct (Z.lt_ge_cases i (Z.of_nat (length (disk o)))) as [Hid|Hid]; [|by destruct (Hoff i); [lia|]].
    destruct (lookup_lt_is_Some_2 (disk o) (Z.to_nat i)) as [e Ee]; [lia|].
    rewrite <- (Z2Nat.id i) in Ha, E by lia. rewrite (find_file_at o l (Z.to_nat i) e); [|done|by apply (Hag _ _ Ee)|].
    + exists (Z.to_nat i), e. split_and!; [done|done|by apply He|done].
    + intros j e' Hj Hje He'. apply (Hno (Z.of_nat j)); [lia|]. by apply (Hag _ _ Hje).
  - rewrite find_file_none; [done|]. intros j e Hj Hjl. pose proof (lookup_lt_Some _ _ _ Hj).
    apply (Hno (Z.of_nat j)); [lia|]. by apply (Hag _ _ Hj).
Qed.
(** [open]. *)
Lemma serving_io p o k k' : serving p o k -> k' = k <| io := io k' |> ->
  reads KEYBOARD_ENCODER (io k') = reads KEYBOARD_ENCODER (io k) -> serving p o k'.
Proof.
  intros Hs E Hrd. assert (same_keys k k') as Hk by (split; try done; try (by rewrite E); intros d; by rewrite E).
  revert Hk. rewrite E. intros Hk. destruct (sv_listed _ _ _ Hs). apply (serving_step p o o k); try done.
  - split; [done|by destruct k as [? ? ? ? ? ? [] ? ? ? ?]|done..].
  - by apply (fds_ok_same k); [..|apply (sv_fds _ _ _ Hs)].
  - intros i Hi. exact (sv_handles _ _ _ Hs i Hi).
  - exact (sv_cursor _ _ _ Hs).
  - exact (sv_screen _ _ _ Hs).
Qed.

Definition type_of (f : node) : Z := match f with Clock => 0 | Folder => 1 | Regular _ => 2 end.
Lemma serving_opened p o k i j e : serving p o k -> 2 <= i < 8 -> entry_of k j e ->
  serving p (match e.2 with Folder => set_listed 0 (set_handle i (handle_of e.2) o) | _ => set_handle i (handle_of e.2) o end)
    (open_effect (type_of e.2) (upd_fd (get_pcb k) i (opened (type_of e.2) (entry_inode k j)) k)).
Proof.
  intros Hs Hi He.
  assert (serving p (set_handle i (handle_of e.2) o) (upd_fd (get_pcb k) i (opened (type_of e.2) (entry_inode k j)) k)) as H1.
  { apply serving_fd; [done|done|by destruct (e.2)|by destruct (e.2)|]. pose proof (en_node _ _ _ He) as Hn.
    destruct (e.2) as [c| |]; [|done|done]. destruct Hn as [_ Hf]. split; [done|]. split; [done|]. split; [done|]. split; [lia|].
    change (inode (opened (type_of (Regular c)) (entry_inode k j) (cur_fd i k))) with (u32 (entry_inode k j)).
    destruct (wf_ino _ _ (fo_wf _ _ _ Hf)). pose proof (n_inodes_range k). by rewrite u32_small by lia. }
  destruct (e.2) as [c| |]; [exact H1|..].
  - apply (serving_listed p _ 0 _ H1). lia.
  - apply (serving_io p _ _ _ H1); [unfold open_effect; simpl; by destruct (upd_fd _ _ _ _)|].
    unfold open_effect. simpl. rewrite !reads_app.
    change (reads KEYBOARD_ENCODER (io k) + 0 + 0 + 0 + 0 = reads KEYBOARD_ENCODER (io k))%nat. lia.
Qed.

Lemma page_string p o k name l : serving p o k -> string_at k name l ->
  is_cstr (fun i => ld8 k (name + i)) (Z.of_nat (length l)) /\
  (forall j c, l !! j = Some c -> ld8 k (name + Z.of_nat j) = c) /\ Z.of_nat (length l) < 4194304.
Proof.
  intros Hs [[H1 H2] Hb Hc].
  assert (forall j c, (l ++ [0]) !! j = Some c -> ld8 k (name + Z.of_nat j) = c) as Hg.
  { intros j c Hj. rewrite <- (page_ld8 Hs); [by apply Hb|]. apply lookup_lt_Some in Hj. rewrite length_app in Hj.
    simpl in Hj. unfold user. lia. }
  split_and!; [|intros j c Hj; apply Hg; by apply lookup_app_l_Some|lia]. split; [lia|]. split.
  - apply Hg. by rewrite lookup_app_r, Nat.sub_diag by lia.
  - intros i Hi. destruct (lookup_lt_is_Some_2 l (Z.to_nat i)) as [c Hj]; [lia|].
    rewrite <- (Z2Nat.id i) by lia. rewrite (Hg _ c) by (by apply lookup_app_l_Some).
    apply (Forall_lookup_1 _ _ _ _ Hc) in Hj. lia.
Qed.

Lemma serves_open `{Stack} p o k name l e : serving p o k -> l <> [] -> spec_open l o = Some e -> string_at k name l ->
  does (W := kstate) (serving p) (returned (open name k)) k name 0 e.
Proof.
  intros Hs Hne He Hstr. destruct (page_string p o k name l Hs Hstr) as (Hcs & Hl & Hlt).
  assert (exists k', open name k = Ret (result e) k' /\ serving p (next e) k' /\ given e = [] /\
    pmem k' = pmem k /\ mmu k' = mmu k) as (k' & -> & Hs' & Eg & E1 & E2).
  2: { exists k'. split_and!; [done|done|by rewrite Eg|]. intros j Hj _.
       change (mem_get (pmem k') (uxlate (mmu k') j) = mem_get (pmem k) (uxlate (mmu k) j)). by rewrite E1, E2. }
  pose proof (lookup_name p o k _ l Hs Hne (fun j => get8_range (vspace k) (name + j)) Hcs Hl ltac:(lia)) as Hlk. cbv zeta in Hlk.
  pose proof (free_handle_fd p o k Hs) as Hfree. pose proof (proj2 (sv_fds _ _ _ Hs)) as Htab.
  assert (name <> 0 /\ ld8 k name <> 0) as [Hn0 Hc0].
  { destruct Hstr as [[? ?] _ _]. split; [lia|]. destruct Hcs as (_ & _ & Hnz). rewrite <- (Z.add_0_r name).
    apply (Hnz 0). destruct l; [done|]. simpl. lia. }
  assert (forall r d, read_dentry_by_name (fun i => ld8 k (name + i)) (Dentry ∅ 0 0) k = Some (r, d) -> lookup_file name (r, d) k)
    as Hlf by (intros r d' E; by split).
  unfold spec_open in He. destruct (find_file l o) as [f|].
  - destruct Hlk as (i & en & Hi & <- & Hen & E).
    assert (filetype (read_dentry (Z.of_nat i) (Dentry ∅ 0 0) k) = type_of en.2) as Et.
    { change (entry_type k (Z.of_nat i) = type_of en.2). pose proof (en_node _ _ _ Hen) as Hnd.
      destruct (en.2); [apply Hnd|done|done]. }
    destruct (free_fd_spec (cur_pcb k)) as (Hr & _ & _). cbv zeta in Hr.
    destruct (Z.eqb_spec (free_fd (cur_pcb k)) 8) as [E8|E8]; rewrite Hfree in He.
    + injection He as <-. exists k. split_and!; try done.
      eapply open_fails; [apply Hlf, E|right; split; [done|by left]].
    + injection He as <-. eexists. split; [|split; [apply (serving_opened p o k (free_fd (cur_pcb k)) (Z.of_nat i) en Hs); [lia|done]|]].
      * change (entry_inode k (Z.of_nat i)) with (inode_num (read_dentry (Z.of_nat i) (Dentry ∅ 0 0) k)). rewrite <- Et.
        apply open_found; [done|by apply Hlf| |lia]. rewrite Et. destruct (en.2); simpl; lia.
      * by destruct (en.2).
  - injection He as <-. exists k. split_and!; try done. eapply open_fails; [apply Hlf, Hlk|by left].
Qed.

Lemma serves_open_empty `{Stack} p o k name : serving p o k -> string_at k name [] ->
  does (W := kstate) (serving p) (returned (open name k)) k name 0 (Effect (-1) [] o).
Proof.
  intros Hs Hstr. destruct (page_string p o k name [] Hs Hstr) as ((_ & Hz & _) & _). simpl in Hz. rewrite Z.add_0_r in Hz.
  rewrite open_null by (by right). by apply (does_fails p).
Qed.

(** [close]. *)
Lemma serves_close `{Stack} p o k i e : serving p o k -> spec_close i o = Some e ->
  does (W := kstate) (serving p) (returned (close i k)) k 0 0 e.
Proof.
  intros Hs He.
  unfold spec_close, fails in He. pose proof (proj2 (sv_fds _ _ _ Hs)) as Htab.
  destruct ((2 <=? i) && (i <=? 7)) eqn:Ei; cbn [andb] in He.
  2: { injection He as <-. rewrite close_fails by (left; lia). by apply (does_fails p). }
  assert (2 <= i < 8) as Hi by lia. destruct (handle_free p o k i Hs ltac:(lia)) as [F1 F2].
  destruct (bool_decide (handles o i = Free)) eqn:Eb; cbn [negb] in He; injection He as <-.
  - apply bool_decide_eq_true in Eb. rewrite close_fails by (right; by apply F1). by apply (does_fails p).
  - apply bool_decide_eq_false in Eb. assert (flags (cur_fd i k) <> 0) as Hf by (intros E; by apply Eb, F2).
    destruct (fw_rest _ (proj1 (sv_fds _ _ _ Hs)) i Hi) as [?|[_ Hops]]; [done|].
    rewrite close_open_fd by done. eexists. split; [done|]. split; [|done].
    by apply serving_fd.
Qed.

(** [getargs]. *)
Lemma serves_getargs `{Stack} p o k buf n e : serving p o k -> spec_getargs n o = Some e -> 0 <= n < 2147483648 ->
  user_range buf n -> does (W := kstate) (serving p) (returned (getargs buf n k)) k buf n e.
Proof.
  intros Hs He Hn Hu. set (l := arguments o) in *.
  pose proof (sv_args _ _ _ Hs) as Ha. pose proof (sv_arg_chars _ _ _ Hs) as Hc. pose proof (sv_arg_length _ _ _ Hs) as Hl.
  fold l in Ha, Hc, Hl.
  assert (is_cstr (fun i => get8 (args (cur_pcb k)) i) (Z.of_nat (length l))) as Hcs.
  { split; [lia|]. split.
    - apply Ha. by rewrite lookup_app_r, Nat.sub_diag by lia.
    - intros i Hi. destruct (lookup_lt_is_Some_2 l (Z.to_nat i)) as [c Hj]; [lia|].
      rewrite <- (Z2Nat.id i) by lia. rewrite (Ha _ c) by (by apply lookup_app_l_Some).
      apply (Forall_lookup_1 _ _ _ _ Hc) in Hj. lia. }
  unfold spec_getargs, fails in He. fold l in He. destruct Hu as [Hu1 Hu2].
  destruct (Z.leb_spec (Z.of_nat (length l) + 1) n) as [Hle|Hgt]; injection He as <-.
  - pose proof (getargs_copies buf n (Z.of_nat (length l)) k ltac:(lia) Hcs ltac:(lia)) as Hg.
    assert (user_range buf (Z.of_nat (length l) + 1)) as Hu' by (unfold user_range; lia).
    specialize (Hg (page_sep Hs _ _ Hu')). test_true (Z.of_nat (length l) + 1 <=? n).
    rewrite (proj2 (Z.leb_le _ _) Hle) in Hg. destruct Hg as (k' & -> & Hw).
    destruct (page_wrote Hs k' buf _ _ Hu' Hw) as (Ho & Hlow & Hch & Hby).
    exists k'. split_and!; [done|by apply (serving_mem p o k)| |intros j Hj Hout; apply Hch; [done|lia]].
    intros j x Hj. cbn [given] in Hj. pose proof (lookup_lt_Some _ _ _ Hj) as Hjl. rewrite length_app in Hjl. simpl in Hjl.
    rewrite Hby by lia. by apply Ha.
  - assert (getargs buf n k = Ret FAILURE k) as ->; [|by apply (does_fails p)].
    unfold getargs. rewrite bind_get. cbv zeta. destruct ((buf =? 0) || (n <=? 0)); [done|].
    rewrite (strlen_some _ _ Hcs), u32_small by lia. by test_true (n <? Z.of_nat (length l) + 1).
Qed.

Lemma serves_vidmap `{Stack} p o k s : serving p o k -> 0 <= s < 4294967296 -> ~ user s ->
  does (W := kstate) (serving p) (returned (run (vidmap s) k)) k 0 0 (Effect (-1) [] o).
Proof.
  intros Hs Hr Hn.
  unfold run. rewrite vidmap_rejects by done. by apply (does_fails p).
Qed.

Lemma serves_unknown `{Stack} p o k n b c d : serving p o k -> s32 n <= 0 \/ 10 < s32 n ->
  does (W := kstate) (serving p) (returned (handle_SIG_SYSCALL n b c d k)) k 0 0 (Effect (-1) [] o).
Proof.
  intros Hs Hn.
  assert (handle_SIG_SYSCALL n b c d k = Ret (-1) k) as ->; [|by apply (does_fails p)].
  unfold handle_SIG_SYSCALL. destruct (Z.leb_spec (s32 n) 0); [done|]. by test_true (10 <? s32 n).
Qed.

(** ** The calls from user mode *)

Lemma serving_trap p o k : serving p o k -> serving p o (trap k).
Proof.
  intros Hs. assert (get_pcb (trap k) = get_pcb k) as Eg by apply (sv_stack _ _ _ Hs).
  assert (forall i, cur_fd i (trap k) = cur_fd i k) as Ef by (intros i; unfold cur_fd; by rewrite Eg).
  destruct (sv_listed _ _ _ Hs). apply (serving_step p o o k); try done.
  - split; [done|by destruct k as [? ? ? ? ? ? [] ? ? ? ?]|done|by split|done..].
  - unfold cur_pcb. by rewrite Eg.
  - by apply (fds_ok_same k); [..|apply (sv_fds _ _ _ Hs)].
  - intros i Hi. rewrite Ef. exact (sv_handles _ _ _ Hs i Hi).
  - exact (sv_cursor _ _ _ Hs).
  - exact (sv_screen _ _ _ Hs).
Qed.

(** A process of the kernel runs in user mode: the state is [o] to it, as soon
    as it makes a call. *)
Definition served (o : os) (k : kstate) : Prop := exists p, serving p o (trap k).

Lemma does_served `{Stack} o k q n e m : served o k ->
  (forall p, serving p o (trap k) -> does (W := kstate) (serving p) (returned (m (trap k))) (trap k) q n e) ->
  does (W := kstate) served (returned (m (trap k))) k q n e.
Proof.
  intros [p Hs] Hd. destruct (Hd p Hs) as (k' & E & Hs' & Hb & Hc).
  exists k'. split; [done|]. split; [exists p; by apply serving_trap|]. by split.
Qed.
End calls.
