(* ===== verification/Spawn.v ===== *)
(** Commands: a program that is running starts another with [execute], which finds
    what SysSpec.v says a new program is to find. With it the kernel is a
    [Kernel]. *)

From Stdlib Require Import String.
From S2P Require Import Prelude Bytes CString State Console Pic Filesys Paging Keyboard Descriptors Process Halt Terminals Interrupts.
From S2P Require Import SysSpec Support KernelOs.
#[local] Open Scope Z_scope.
#[local] Open Scope kernel_scope.

(** ** A program that was started *)

Section starting.
Context `{Platform}.

(** The kernel, before it starts a program: its image with the files [d], in
    the low memory and apart from the screens, as is the local array of
    [execute], now and in the calls of the processes; the cursor on the screen. *)
Record prepared_for (d : list (list Z * node)) (ls : list (list Z)) (k : kstate) : Prop := {
  pf_image : low_image k;
  pf_screens : img_end k <= VIDEO_MEMORY \/ SCREENS_END <= img k;
  pf_array : array_apart k (exe_data k);
  pf_arrays : forall q, 0 <= q < 6 -> array_apart k (stack_array q);
  pf_disk : disk_of k d;
  pf_listed : 0 <= num_files_read (fs k) < 64;
  pf_cursor : cursor_ok k;
  pf_typed : ls = [] \/ typed_ahead ls k
}.

(** The arguments of a command, as [execute] keeps them. *)
Record arguments_are (arg_dat : mem) (l : list Z) : Prop := {
  aa_bytes : forall j c, (l ++ [0]) !! j = Some c -> get8 arg_dat (Z.of_nat j) = c;
  aa_chars : Forall (fun c => 0 < c < 256) l;
  aa_length : Z.of_nat (length l) < 1024
}.

(** What a new program finds. *)
Definition first_files : gmap Z handle := <[0 := Keyboard]> (<[1 := Screen]> ∅).
Definition first_os (d : list (list Z * node)) (l : list Z) (ls : list (list Z)) (pl : place) (k : kstate) : os :=
  Os d l first_files (num_files_read (fs k)) ls (pred (length (free_slots k))) (abs k) pl.

Lemma first_handles i : default Free (first_files !! i) = if i =? 0 then Keyboard else if i =? 1 then Screen else Free.
Proof.
  unfold first_files. rewrite (Z.eqb_sym i 0), (Z.eqb_sym i 1).
  destruct (Z.eqb_spec 0 i) as [<-|]; [by rewrite lookup_insert_eq|]. rewrite lookup_insert_ne by done.
  destruct (Z.eqb_spec 1 i) as [<-|]; [by rewrite lookup_insert_eq|]. by rewrite lookup_insert_ne.
Qed.

(** A free slot, and one less of them. *)
Lemma free_slots_lowest k : free_slots k <> [] -> exists q, lowest_free k q.
Proof.
  unfold free_slots, lowest_free. intros Hne.
  assert (forall n, (n <= 6)%nat -> (exists q, 0 <= q < Z.of_nat n /\ proc_used k q = 0 /\ forall r, 0 <= r < q -> proc_used k r <> 0) \/
    forall r, 0 <= r < Z.of_nat n -> proc_used k r <> 0) as Hall.
  { induction n as [|n IH]; intros Hn; [right; lia|]. destruct IH as [(q & ? & ? & ?)|Hno]; [lia|left; exists q; split_and!; [lia..|done|done]|].
    destruct (decide (proc_used k (Z.of_nat n) = 0)) as [E|E]; [left; exists (Z.of_nat n); split_and!; [lia..|done|done]|].
    right. intros r Hr. destruct (decide (r = Z.of_nat n)) as [->|]; [done|]. apply Hno. lia. }
  destruct (Hall 6%nat ltac:(lia)) as [(q & ? & ? & ?)|Hno]; [by exists q|]. destruct Hne.
  rewrite !filter_cons. by rewrite !decide_False by (apply Hno; lia).
Qed.
Lemma filter_one_less (P Q : Z -> Prop) `{forall x, Decision (P x)} `{forall x, Decision (Q x)} p l : NoDup l -> p ∈ l ->
  P p -> ~ Q p -> (forall q, q <> p -> Q q <-> P q) -> length (filter P l) = S (length (filter Q l)).
Proof.
  intros Hnd Hp HP HQ Hiff.
  assert (forall l : list Z, p ∉ l -> filter Q l = filter P l) as Hout.
  { intros l0. induction l0 as [|x l0 IH0]; intros Hl; [done|]. rewrite !filter_cons. apply not_elem_of_cons in Hl as [Hx Hl].
    rewrite IH0 by done. destruct (decide (P x)), (decide (Q x)); try done; exfalso; naive_solver. }
  induction Hnd as [|x l Hx Hnd IH]; [by apply not_elem_of_nil in Hp|]. rewrite !filter_cons.
  destruct (decide (x = p)) as [->|Hne].
  - rewrite decide_True, (decide_False (P := Q p)) by done. simpl. by rewrite Hout.
  - apply elem_of_cons in Hp as [->|Hp]; [done|]. destruct (decide (P x)), (decide (Q x)); simpl; rewrite ?IH by done; try done; exfalso; naive_solver.
Qed.
Lemma started_slots p ino m arg_dat k k' : started p ino m arg_dat k k' -> lowest_free k p ->
  length (free_slots k') = pred (length (free_slots k)).
Proof.
  intros Hst (Hp & Hf & _). destruct (st_slots _ _ _ _ _ _ Hst) as [S1 S2]. unfold free_slots.
  rewrite (filter_one_less (fun q => proc_used k q = 0) (fun q => proc_used k' q = 0) p).
  - done.
  - by apply (bool_decide_unpack (NoDup [0; 1; 2; 3; 4; 5])); vm_compute.
  - rewrite !elem_of_cons. lia.
  - done.
  - by rewrite S1.
  - intros q Hq. by rewrite S2.
Qed.

(** The kernel's low memory, but for the array. *)
Lemma array_outside d ls k va : prepared_for d ls k -> 0 <= va < SIZE_8MB -> va < exe_data k \/ exe_data k + 40 <= va ->
  outside (vspace k) (exe_data k) 40 va.
Proof.
  intros [[Hm _ _] _ [Hl _ _] _ _ _ _ _] Hva Hd i Hi. rewrite !loc_low by (done || lia). lia.
Qed.

(** What [execute] and [halt] leave alone, when process [p] is to run. *)
Record switched (p : Z) (k k' : kstate) : Prop := {
  sc_image : same_image k (trap k');
  sc_map : kernel_map (mmu k') /\ forall user va, SIZE_128MB <= va < SIZE_132MB -> walk user (mmu k') va = Some (upage p va);
  sc_esp0 : tss_esp0 (cpu k') = SIZE_8MB - p * page8KB - 4;
  sc_tables : active k' = active k /\ tables_ready k';
  sc_con : con k' = con k;
  sc_screen : abs k' = abs k;
  sc_input : same_input k k'
}.
Lemma switched_pcb p k k' : 0 <= p < 6 -> switched p k k' -> get_pcb (trap k') = pcb_addr p.
Proof.
  intros Hp [_ _ Esp _ _ _ _]. unfold get_pcb. change (esp (cpu (trap k'))) with (u32 (tss_esp0 (cpu k') - 20)). rewrite Esp.
  unfold SIZE_8MB, page8KB. rewrite u32_small by lia. apply pcb_addr_of_esp; [done|]. unfold SIZE_8MB, page8KB. lia.
Qed.

(** The process finds its arguments and descriptors. *)
Lemma switched_serving p d ls l m n pl k k' : 0 <= p < 6 -> prepared_for d ls k -> switched p k k' ->
  process_is k (pcb_at k' (pcb_addr p)) l m -> length (free_slots k') = n -> stands_at p pl (trap k') ->
  serving p (Os d l m (num_files_read (fs k)) ls n (abs k) pl) (trap k').
Proof.
  intros Hp Hpf Hsw [P1 P2 P3 P4 P5 P6 P7] Hn Hst. pose proof (switched_pcb p k k' Hp Hsw) as Eg.
  destruct Hpf as [Himg Hsc _ Harr Hdk Hls Hcur Htyped]. destruct Hsw as [Hsi [Hm Hw] Esp Htab Ec Es [I1 I2 I3 I4 I5]].
  destruct (same_image_place _ _ Hsi (dk_count _ _ Hdk)) as (Ei & Ee & Hli & Har).
  assert (forall i, cur_fd i (trap k') = fd_at (pcb_at k' (pcb_addr p)) i) as Efd by (intros i; unfold cur_fd; by rewrite Eg).
  assert (cursor_ok (trap k')) as Hcur' by (unfold cursor_ok, scr_x, scr_y; change (con (trap k')) with (con k'); by rewrite Ec).
  split.
  - exact Hp.
  - by apply Hli.
  - by rewrite Ei, Ee.
  - intros q Hq. by apply Har, Harr.
  - intros u va Hva. by apply Hw.
  - split; [split|apply Htab].
    + by rewrite Efd.
    + by rewrite Efd.
    + intros i Hi. rewrite Efd. by apply P3.
  - intros i Hi. rewrite Efd. apply (handle_is_image k); [done|]. by apply P4.
  - exact Hcur'.
  - exact Es.
  - unfold cur_pcb. rewrite Eg. exact P5.
  - exact P6.
  - exact P7.
  - by apply (disk_of_image k).
  - split; [exact Hls|]. by rewrite (si_fs _ _ Hsi).
  - destruct Htyped as [?|Ht]; [by left|right]. apply (typed_ahead_same _ k); [|by apply kernel_map_video|done|done].
    split; [exact I3|exact I5|apply Htab|exact I4|exact I2|]. change (io (trap k')) with (io k'). by rewrite I1.
  - reflexivity.
  - exact Esp.
  - exact (eq_sym Hn).
  - exact Hst.
Qed.

Lemma started_switched d ls p ino m arg_dat k k' : prepared_for d ls k -> started p ino m arg_dat k k' -> switched p k k'.
Proof.
  intros Hpf Hst. pose proof (fun va => array_outside d ls k va Hpf) as Hout.
  destruct Hpf as [[Hm Hl Hh] _ [Hloc Hap Har] _ _ _ _ _]. unfold img_end in Hap.
  pose proof (st_con _ _ _ _ _ _ Hst) as Ec. pose proof (st_low _ _ _ _ _ _ Hst) as Elow.
  pose proof (st_map _ _ _ _ _ _ Hst) as [Hm' Hw]. split.
  - split; [apply Hst|]. intros o Ho. change (ld8 (trap k')) with (ld8 k'). apply Elow; [lia|]. apply Hout; lia.
  - split; [exact Hm'|exact Hw].
  - apply Hst.
  - apply Hst.
  - exact Ec.
  - unfold abs, scr_x, scr_y. rewrite Ec. f_equal. apply list_fmap_ext. intros i j Hj. apply lookup_seqZ in Hj as [-> Hj].
    unfold cell_at. cbn [fst]. rewrite <- !low_ld8 by (done || unfold VIDEO, SIZE_8MB; lia).
    apply Elow; [unfold VIDEO, SIZE_8MB; lia|]. apply Hout; unfold VIDEO, SIZE_8MB in *; lia.
  - apply Hst.
Qed.
Lemma started_serving d l ls pl p ino arg_dat k k' : prepared_for d ls k -> arguments_are arg_dat l -> lowest_free k p ->
  started p ino (Z.of_nat (length l)) arg_dat k k' -> stands_at p pl (trap k') -> serving p (first_os d l ls pl k) (trap k').
Proof.
  intros Hpf [Ab Ac Al] Hfree Hst Hpl. destruct (Hfree) as [Hp _]. destruct (st_fds _ _ _ _ _ _ Hst) as [F0 F1 F2].
  apply (switched_serving p); [done|done|by eapply started_switched| |by eapply started_slots|done]. split.
  - by destruct F0 as (? & ? & _).
  - by destruct F1 as (? & ? & _).
  - intros i Hi. left. by apply F2.
  - intros i Hi. rewrite first_handles. destruct (Z.eqb_spec i 0) as [->|]; [by destruct F0 as (? & ? & _)|].
    destruct (Z.eqb_spec i 1) as [->|]; [by destruct F1 as (? & ? & _)|]. apply F2. lia.
  - intros j c Hj. pose proof (lookup_lt_Some _ _ _ Hj) as Hjl. rewrite length_app in Hjl. simpl in Hjl.
    rewrite (st_args _ _ _ _ _ _ Hst) by lia. by apply Ab.
  - exact Ac.
  - exact Al.
Qed.

(** The first shell of the terminal starts a program, and waits for it. *)
Lemma started_parents p q ino m arg_dat k k' : started p ino m arg_dat k k' -> q = p \/ get_pcb k <> pcb_addr p ->
  (forall r, 0 <= r < 6 -> r <> q -> parent (pcb_at k (pcb_addr r)) <> pcb_addr r) ->
  forall r, 0 <= r < 6 -> r <> q -> parent (pcb_at k' (pcb_addr r)) <> pcb_addr r.
Proof.
  intros Hst Hg Hno r Hr Hrq. destruct (decide (r = p)) as [->|Hrp].
  - destruct (st_parent _ _ _ _ _ _ Hst) as [-> _]. by destruct Hg as [->|].
  - destruct (st_others _ _ _ _ _ _ Hst (pcb_addr r)) as [_ _ ->]; [by intros ?%pcb_addr_inj|]. by apply Hno.
Qed.
Lemma started_rooted p q ino m arg_dat k k' : lowest_free k p -> started p ino m arg_dat k k' ->
  rooted q k -> get_pcb k = pcb_addr q -> rooted q k'.
Proof.
  intros (Hp & Hp0 & _) Hst [[R1 R2] [R3 R4] R5 R6] Eg. assert (q <> p) as Hne by congruence.
  destruct (st_slots _ _ _ _ _ _ Hst) as [_ S2]. destruct (st_active _ _ _ _ _ _ Hst) as [Ea _].
  pose proof (st_terminal _ _ _ _ _ _ Hst) as Hent. unfold entered in Hent.
  rewrite (proj2 (Z.eqb_neq _ _) R3) in Hent. destruct Hent as [Ef Hent].
  assert (processes_at k' (active k') 0 = q) as E0.
  { unfold processes_at in *. rewrite Ea. destruct Hent as [(j & Hj & Ej & _ & _ & Eo)|[_ ->]]; [|done].
    rewrite Eo; [done|]. intros <-. lia. }
  split.
  - by rewrite S2.
  - by rewrite E0, Ea, Ef.
  - destruct (decide (pcb_addr q = parent (pcb_at k (pcb_addr p)))) as [E|E].
    + rewrite E. rewrite (st_stale _ _ _ _ _ _ Hst) by (apply R6; [lia|done]). rewrite E0. apply u32_small. lia.
    + rewrite <- Eg, (st_caller _ _ _ _ _ _ Hst); [unfold cur_pcb; by rewrite Eg|rewrite Eg; by intros ?%pcb_addr_inj|by rewrite Eg].
  - eapply started_parents; [done|right; rewrite Eg; by intros ?%pcb_addr_inj|done].
Qed.
Lemma started_waits d ls p q c ino m arg_dat k k' : prepared_for d ls k -> lowest_free k p -> started p ino m arg_dat k k' ->
  rooted q k -> get_pcb k = pcb_addr q -> process_is k (cur_pcb k) (its_arguments c) (its_descriptors c) ->
  (forall va, user va -> mem_get (pmem k) (upage q va) = its_page c va) -> waits p q c (trap k').
Proof.
  intros Hpf Hfree Hst Hr Eg Hpr Hpg. pose proof (started_rooted _ _ _ _ _ _ _ Hfree Hst Hr Eg) as Hr'.
  pose proof (ro_slot _ _ Hr) as [Hq Hq1]. destruct (Hfree) as (Hp & Hp0 & _). assert (q <> p) as Hne by congruence.
  destruct (st_others _ _ _ _ _ _ Hst (pcb_addr q)) as [Efd Earg _]; [by intros ?%pcb_addr_inj|].
  split.
  - done.
  - destruct Hr' as [R1 R2 R3 R4]. split; [exact R1|exact R2|exact R3|exact R4].
  - apply (process_is_image k); [by eapply sc_image, started_switched|]. unfold cur_pcb in Hpr. rewrite Eg in Hpr.
    exact (process_is_same _ _ _ _ _ Efd Earg Hpr).
  - intros va Hva. destruct (upage_page p q va) as (H0 & H1 & H2); [lia|done|done|].
    change (mem_get (pmem k') (upage q va) = its_page c va). rewrite (st_memory _ _ _ _ _ _ Hst); [by apply Hpg|done|].
    destruct Hpf as [[Hm _ _] _ [Hloc _ _] _ _ _ _ _]. intros i Hi. rewrite loc_low by (done || lia).
    unfold upage, user, SIZE_8MB, SIZE_4MB, SIZE_128MB in *. lia.
  - split; [apply (st_slots _ _ _ _ _ _ Hst)|]. apply (st_identity _ _ _ _ _ _ Hst). by apply (ro_parents _ _ Hr); [lia|].
  - destruct (st_parent _ _ _ _ _ _ Hst) as [E _]. change (parent (pcb_at k' (pcb_addr p)) = pcb_addr q). by rewrite E.
Qed.
(** A terminal's first shell, started by the kernel. *)
Lemma started_home p ino m arg_dat k k' : lowest_free k p -> started p ino m arg_dat k k' ->
  terminal_flag (term_at k (active k)) = 1 ->
  (forall r, 0 <= r < 6 -> parent (pcb_at k (pcb_addr r)) <> pcb_addr r) -> rooted p k'.
Proof.
  intros (Hp & _) Hst Hf Hno. destruct (st_slots _ _ _ _ _ _ Hst) as [S1 _]. destruct (st_active _ _ _ _ _ _ Hst) as [Ea _].
  pose proof (st_terminal _ _ _ _ _ _ Hst) as Hent. unfold entered in Hent. rewrite Hf in Hent.
  destruct Hent as (E0 & _ & Ef). split.
  - done.
  - unfold processes_at. rewrite Ea, E0, Ef, s8_small by lia. done.
  - apply (st_identity _ _ _ _ _ _ Hst). by apply Hno.
  - eapply started_parents; [done|by left|]. intros r Hr _. by apply Hno.
Qed.
End starting.

(** ** The words of a command *)


(** The string [l] lies at the start of [f]. *)
Definition spells (f : Z -> Z) (l : list Z) : Prop := forall i c, (l ++ [0]) !! i = Some c -> f (Z.of_nat i) = c.

Lemma spells_app f l1 l2 : spells f (l1 ++ l2) ->
  (forall i c, l1 !! i = Some c -> f (Z.of_nat i) = c) /\ spells (fun i => f (Z.of_nat (length l1) + i)) l2.
Proof.
  intros Hs. split.
  - intros i c Hi. apply Hs. rewrite <- app_assoc. by apply lookup_app_l_Some.
  - intros i c Hi. rewrite <- Nat2Z.inj_add. apply Hs. rewrite <- app_assoc, lookup_app_r by lia.
    by replace (length l1 + i - length l1)%nat with i by lia.
Qed.
(** Up to the byte that ends a word. *)
Lemma spells_until f ends l : spells f l -> let n := Z.of_nat (length (until ends l)) in
  (forall i, 0 <= i < n -> exists c, c ∈ l /\ f i = c /\ ends c = false) /\ (f n = 0 \/ ends (f n) = true).
Proof.
  intros Hs. destruct (until_spec ends l) as (r & E & Ha & Hr). cbv zeta. set (w := until ends l) in *. rewrite E in Hs.
  destruct (spells_app f w r Hs) as [Hw Hr']. split.
  - intros i Hi. destruct (lookup_lt_is_Some_2 w (Z.to_nat i)) as [c Hc]; [lia|]. exists c. split.
    + rewrite E. apply list_elem_of_lookup. exists (Z.to_nat i). by apply lookup_app_l_Some.
    + split; [rewrite <- (Z2Nat.id i) by lia; by apply Hw|]. by apply (Forall_lookup_1 _ _ _ _ Ha Hc).
  - destruct r as [|c r]; specialize (Hr' 0%nat _ eq_refl); change (Z.of_nat 0) with 0 in Hr'; cbv beta in Hr'; rewrite Z.add_0_r in Hr'; rewrite Hr'; [by left|by right].
Qed.


Lemma spells_word f ends l : spells f l -> forall i c, until ends l !! i = Some c -> f (Z.of_nat i) = c.
Proof. intros Hs. destruct (until_spec ends l) as (r & E & _). rewrite E in Hs. apply (spells_app _ _ _ Hs). Qed.

Lemma holds_arguments arg_dat args g : holds arg_dat (Z.of_nat (length args)) g ->
  (forall i c, args !! i = Some c -> g (Z.of_nat i) = c) -> Forall (fun c => 0 < c < 256) args ->
  Z.of_nat (length args) < 128 -> arguments_are arg_dat args.
Proof.
  intros Hh Hg Hc Hl. split; [|done|lia]. intros j c Hj. pose proof (lookup_lt_Some _ _ _ Hj) as Hlt.
  rewrite length_app in Hlt. simpl in Hlt. rewrite Hh by lia. destruct (Z.ltb_spec (Z.of_nat j) (Z.of_nat (length args))).
  - apply Hg. by rewrite lookup_app_l in Hj by lia.
  - rewrite lookup_app_r in Hj by lia. by replace (j - length args)%nat with 0%nat in Hj by lia; injection Hj as <-.
Qed.
(** [execute] takes a command line apart as the specification does. *)
Lemma parse_command_words f l : is_bytes f -> spells f l -> Forall (fun c => 0 < c < 256) l ->
  first_word l <> [] -> Z.of_nat (length (first_word l)) < 32 -> Z.of_nat (length (after_word l)) < 128 ->
  exists cmds arg_dat, parse_command (Some f) = Parsed cmds arg_dat /\
    holds cmds (Z.of_nat (length (first_word l))) f /\ arguments_are arg_dat (after_word l).
Proof.
  intros Hby Hs Hl Hne H32 H128.
  assert (forall c, c ∈ l -> 0 < c < 256) as Hl' by (by apply Forall_forall).
  destruct (spells_until f (fun c => (c =? 32) || (c =? 10)) l Hs) as [Hin Hend]. fold (first_word l) in Hin, Hend.
  destruct (until_spec (fun c => (c =? 32) || (c =? 10)) l) as (r & E & _ & Hr). fold (first_word l) in E.
  unfold after_word in *.
  set (n := length (first_word l)) in *. set (w := first_word l) in *.
  assert (drop n l = r) as Er by (rewrite E at 1; by apply drop_app_length). rewrite Er in *.
  assert (is_name f (Z.of_nat n)) as Hname.
  { unfold is_name, ends_name. split; [|lia]. intros i Hi. destruct (Hin i Hi) as (c & Hc & -> & He). specialize (Hl' c Hc). lia. }
  assert (0 < Z.of_nat n) as Hn by (destruct w; [done|simpl in n; lia]).
  assert (spells (fun i => f (Z.of_nat n + i)) r) as Hsr by (apply (spells_app f w r); by rewrite <- E).
  destruct (decide (f (Z.of_nat n) = 32)) as [E32|N32].
  - assert (exists a, r = 32 :: a) as [a ->].
    { destruct r as [|c a]; specialize (Hsr 0%nat _ eq_refl); change (Z.of_nat 0) with 0 in Hsr; cbv beta in Hsr;
        rewrite Z.add_0_r, E32 in Hsr; [done|]. by exists a; rewrite Hsr. }
    change (32 =? 32) with true in *. cbv iota in *. set (args := until (Z.eqb 10) a) in *.
    assert (spells (fun i => f (Z.of_nat n + 1 + i)) a) as Hsa.
    { intros i c Hi. rewrite <- Z.add_assoc, Z.add_1_l, <- Nat2Z.inj_succ. by apply (Hsr (S i)). }
    destruct (spells_until _ (Z.eqb 10) a Hsa) as [Hina Henda]. fold args in Hina, Henda. cbv beta in Hina, Henda.
    assert (forall i, 0 <= i < Z.of_nat (length args) -> exists c, 0 < c < 256 /\ f (Z.of_nat n + 1 + i) = c /\ (10 =? c) = false) as Hargs.
    { intros i Hi. destruct (Hina i Hi) as (c & Hc & ? & ?). exists c. split; [|done]. apply Hl'. rewrite E. apply elem_of_app. right. by right. }
    pose proof (parse_command_spec f (Z.of_nat n) (Z.of_nat (length args)) Hby ltac:(lia) Hname ltac:(lia)) as Hp.
    unfold args_len in Hp. rewrite E32 in Hp. change (32 =? 32) with true in Hp. cbv iota in Hp.
    test_true (Z.of_nat (length args) <? 128). rewrite (proj2 (Z.ltb_lt _ _) H128) in Hp.
    destruct Hp as (cmds & arg_dat & Hp & Hc & Hh).
    { intros _. unfold is_args, ends_args. split; [|lia]. intros i Hi. destruct (Hargs i Hi) as (c & ? & -> & ?). lia. }
    exists cmds, arg_dat. split; [done|]. split; [done|]. apply (holds_arguments _ _ _ Hh); [|apply until_chars|done].
    + exact (spells_word _ _ a Hsa).
    + rewrite E in Hl. apply Forall_app in Hl as [_ Hl]. by apply Forall_cons in Hl as [_ Hl].
  - assert (match r with c :: l => if c =? 32 then until (Z.eqb 10) l else [] | [] => [] end = []) as Ea.
    { destruct r as [|c a]; [done|]. specialize (Hsr 0%nat _ eq_refl). change (Z.of_nat 0) with 0 in Hsr. cbv beta in Hsr.
      rewrite Z.add_0_r in Hsr. by test_false (c =? 32). }
    rewrite Ea in *.
    pose proof (parse_command_spec f (Z.of_nat n) 0 Hby ltac:(lia) Hname ltac:(lia)) as Hp. unfold args_len in Hp.
    rewrite (proj2 (Z.eqb_neq _ _) N32) in Hp. destruct Hp as (cmds & arg_dat & Hp & Hc & Hh); [done|].
    exists cmds, arg_dat. split; [done|]. split; [done|].
    by apply (holds_arguments arg_dat [] (fun i => f (Z.of_nat n + 1 + i))).
Qed.

Lemma starts_fit l o o' : spec_starts l o = Some o' -> Z.of_nat (length (after_word l)) < 128.
Proof.
  unfold spec_starts, command_fits. destruct (first_word l); [done|]. destruct (find_file _ o) as [[b| |]|]; [|done..].
  destruct (Z.ltb_spec (Z.of_nat (length (after_word l))) 128); [done|]. by rewrite andb_false_r.
Qed.

(** "quit" is at the start of the name only when it is at the start of the line. *)
Lemma words_quit cmds w f : Z.of_nat (length w) < 32 -> holds cmds (Z.of_nat (length w)) f ->
  (forall i c, w !! i = Some c -> f (Z.of_nat i) = c) -> take 4 w <> chars "quit" -> is_quit cmds = false.
Proof.
  intros Hl Hh Hw Hq. unfold is_quit. apply Z.eqb_neq. intros E.
  apply strncmp_eq in E; [|lia|intros i; apply get8_range|intros i; apply literal_byte].
  assert (forall i, 0 <= i < 4 -> Process.literal "quit" i <> 0) as Hnz.
  { intros i Hi. assert (i = 0 \/ i = 1 \/ i = 2 \/ i = 3) as [-> | [-> | [-> | ->]]] by lia; by vm_compute. }
  assert (forall n i, 0 <= i < 4 -> i < Z.of_nat n -> get8 cmds i = Process.literal "quit" i) as Hall.
  { induction n as [|n IH]; intros i Hi Hn; [lia|]. apply E; [done|]. intros j Hj. rewrite IH by lia. apply Hnz. lia. }
  assert (forall i, 0 <= i < 4 -> get8 cmds i = Process.literal "quit" i) as Hg by (intros i Hi; apply (Hall 4%nat); lia).
  assert (forall i, 0 <= i < 4 -> i < Z.of_nat (length w)) as Hlt.
  { intros i Hi. destruct (Z.lt_ge_cases i (Z.of_nat (length w))); [done|]. destruct (Hnz i Hi). rewrite <- Hg by done.
    rewrite Hh by lia. by test_false (i <? Z.of_nat (length w)). }
  apply Hq. specialize (Hlt 3 ltac:(lia)) as H3.
  assert (forall i c, (i < 4)%nat -> w !! i = Some c -> c = Process.literal "quit" (Z.of_nat i)) as Hc.
  { intros i c Hi Hi'. rewrite <- (Hw i c Hi'), <- Hg by lia. rewrite Hh by lia.
    by test_true (Z.of_nat i <? Z.of_nat (length w)); specialize (Hlt (Z.of_nat i) ltac:(lia)); lia. }
  destruct w as [|a [|b [|c [|d w]]]]; try (simpl in H3; lia).
  rewrite (Hc 0%nat a), (Hc 1%nat b), (Hc 2%nat c), (Hc 3%nat d) by (done || lia). done.
Qed.

Section commands.
Context `{Platform}.

Lemma serving_tables p o k : serving p o k -> tables_init k = k.
Proof.
  intros Hs. pose proof (proj2 (sv_fds _ _ _ Hs)) as Ht. unfold tables_ready in Ht.
  assert (tables_init k = k <| procs; tables := tables (procs (tables_init k)) |>) as E by done.
  rewrite <- Ht in E. rewrite E. clear. by destruct k as [? ? ? ? ? ? ? ? [] ? ?].
Qed.

(** What [execute] sees of a command line in the program's page. *)
Lemma page_command p o k name l : serving p o k -> string_at k name l ->
  let f := fun i => ld8 k (name + i) in is_bytes f /\ spells f l /\ Forall (fun c => 0 < c < 256) l /\
  execute_at name k = execute (Some f) k /\ k = tables_init k.
Proof.
  intros Hs Hstr. cbv zeta. destruct (page_string p o k name l Hs Hstr) as (Hcs & Hl & _).
  destruct Hstr as [[H1 H2] _ Hc]. split; [intros i; apply get8_range|]. split; [|split; [done|split]].
  - intros i c [Hi|[Hi Hj]]%lookup_app_Some; [by apply Hl|]. destruct Hcs as (_ & Hz & _).
    pose proof (lookup_lt_Some _ _ _ Hj) as Hlt. simpl in Hlt. assert (i = length l) as -> by lia.
    rewrite Nat.sub_diag in Hj. by injection Hj as <-.
  - unfold execute_at. rewrite bind_get. by test_false (name =? 0).
  - symmetry. by apply (serving_tables p o).
Qed.

(** A name as the file system reads it from the local array of [execute]. *)
Lemma name_lookup p o k cmds w f : serving p o k -> w <> [] -> Z.of_nat (length w) < 32 -> Forall (fun c => 0 < c < 256) w ->
  holds cmds (Z.of_nat (length w)) f -> (forall i c, w !! i = Some c -> f (Z.of_nat i) = c) -> let d0 := Dentry ∅ 0 0 in
  match find_file w o with
  | Some x => exists i e, disk o !! i = Some e /\ e.2 = x /\ entry_of k (Z.of_nat i) e /\
      read_dentry_by_name (fun j => get8 cmds j) d0 k = Some (SUCCESS, read_dentry (Z.of_nat i) d0 k)
  | None => read_dentry_by_name (fun j => get8 cmds j) d0 k = Some (FAILURE, d0)
  end.
Proof.
  intros Hs Hne Hl Hc Hh Hw. apply (lookup_name p); [done|done| | | |lia].
  - intros i. apply get8_range.
  - apply (holds_cstr _ _ f); [lia|done|]. intros i Hi. destruct (lookup_lt_is_Some_2 w (Z.to_nat i)) as [c Hj]; [lia|].
    rewrite <- (Z2Nat.id i) by lia. rewrite (Hw _ c) by done. apply (Forall_lookup_1 _ _ _ _ Hc) in Hj. lia.
  - intros j c Hj. pose proof (lookup_lt_Some _ _ _ Hj). rewrite Hh by lia. test_true (Z.of_nat j <? Z.of_nat (length w)). by apply Hw.
Qed.

Lemma arguments_cstr arg_dat l : arguments_are arg_dat l -> is_cstr (fun i => get8 arg_dat i) (Z.of_nat (length l)).
Proof.
  intros [Hb Hc Hl]. split; [lia|]. split.
  - apply Hb. by rewrite lookup_app_r, Nat.sub_diag by lia.
  - intros i Hi. destruct (lookup_lt_is_Some_2 l (Z.to_nat i)) as [c Hj]; [lia|].
    rewrite <- (Z2Nat.id i) by lia. rewrite (Hb _ c) by (by apply lookup_app_l_Some).
    apply (Forall_lookup_1 _ _ _ _ Hc) in Hj. lia.
Qed.

(** The process that [execute] starts finds what a new program is to find. *)
Lemma execute_serving command cmds arg_dat l p ino entry d ls k :
  parse_command (Some command) = Parsed cmds arg_dat -> is_quit cmds = false -> arguments_are arg_dat l ->
  runnable k cmds p ino entry -> prepared_for d ls k ->
  exists k', execute (Some command) k = Jmp (IretUser (u32 entry) 0x083FFFFC 0x23 0x2B) k' /\
    started p ino (Z.of_nat (length l)) arg_dat k k' /\
    forall pl, stands_at p pl (trap k') -> serving p (first_os d l ls pl k) (trap k').
Proof.
  intros Hp Hq Ha Hr Hd. pose proof (aa_length _ _ Ha).
  destruct (execute_gen_starts halt command cmds arg_dat (Z.of_nat (length l)) p ino entry k Hp Hq
    (arguments_cstr _ _ Ha) ltac:(lia) Hr) as (k' & E & Hst).
  exists k'. split; [exact E|]. split; [exact Hst|]. intros pl Hpl.
  apply (started_serving d l ls pl p ino arg_dat k k' Hd Ha); [|exact Hst|exact Hpl]. apply (ru_free _ _ _ _ _ Hr).
Qed.
(** Its text is in its page. *)
Lemma started_text p o ino m arg_dat k k' f : started p ino m arg_dat k k' -> serving p o (trap k') -> file_of k ino f ->
  Z.of_nat (length f) < 0x3B8000 -> bytes_at k' TEXT f.
Proof.
  intros Hst Hs [Hwf _ Ef] Hlen j c Hj. pose proof (wf_length _ _ Hwf) as Hl. pose proof (lookup_lt_Some _ _ _ Hj) as Hlt.
  assert (Z.of_nat (length f) = file_length k ino) as El by (rewrite Ef, length_fmap, length_seqZ; lia).
  change (get8 (trap k') (TEXT + Z.of_nat j) = c). rewrite (page_ld8 Hs) by (unfold user, TEXT; lia).
  change (ld8 k' (TEXT + Z.of_nat j) = c). unfold TEXT. rewrite (st_text _ _ _ _ _ _ Hst) by lia.
  rewrite Ef, list_lookup_fmap, lookup_seqZ_lt in Hj by lia. by injection Hj as <-.
Qed.

(** What [execute] makes of a command line that fits. *)
Lemma command_parsed p o k name l : serving p o k -> string_at k name l -> first_word l <> [] -> command_fits l = true ->
  let f := fun i => ld8 k (name + i) in let d0 := Dentry ∅ 0 0 in
  exists cmds arg_dat, parse_command (Some f) = Parsed cmds arg_dat /\ is_quit cmds = false /\
    arguments_are arg_dat (after_word l) /\
    match find_file (first_word l) o with
    | Some x => exists i e, disk o !! i = Some e /\ e.2 = x /\ entry_of k (Z.of_nat i) e /\
        read_dentry_by_name (fun j => get8 cmds j) d0 k = Some (SUCCESS, read_dentry (Z.of_nat i) d0 k)
    | None => read_dentry_by_name (fun j => get8 cmds j) d0 k = Some (FAILURE, d0)
    end.
Proof.
  intros Hs Hstr Hne Hfits. cbv zeta. destruct (page_command p o k name l Hs Hstr) as (Hby & Hsp & Hc & _).
  set (f := fun i => ld8 k (name + i)) in *. unfold command_fits in Hfits.
  apply andb_true_iff in Hfits as [Hfits Hq]. apply negb_true_iff, bool_decide_eq_false in Hq.
  destruct (parse_command_words f l Hby Hsp Hc Hne) as (cmds & arg_dat & Hp & Hcm & Ha); [lia|lia|].
  pose proof (spells_word f (fun c => (c =? 32) || (c =? 10)) l Hsp) as Hw. change (until _ l) with (first_word l) in Hw.
  pose proof (until_chars (fun c => (c =? 32) || (c =? 10)) l Hc) as Hcw. change (until _ l) with (first_word l) in Hcw.
  exists cmds, arg_dat. split; [done|]. split; [apply (words_quit cmds (first_word l) f); [lia|done..]|]. split; [done|].
  by apply (name_lookup p o k cmds _ f Hs Hne ltac:(lia)).
Qed.

(** [execute] of a command that fails leaves the kernel as it was. *)
Lemma serves_execute `{Stack} p o k name l e : serving p o k -> spec_execute l o = Some e -> string_at k name l ->
  does (W := kstate) (serving p) (returned (execute_at name k)) k name 0 e.
Proof.
  intros Hs He Hstr. destruct (page_command p o k name l Hs Hstr) as (Hby & Hsp & Hc & -> & Et).
  pose proof (command_parsed p o k name l Hs Hstr) as Hcp. cbv zeta in Hcp.
  set (f := fun i => ld8 k (name + i)) in *.
  assert (e = Effect (-1) [] o /\ execute (Some f) k = Ret FAILURE k) as [-> ->]; [|by apply (does_fails p)].
  unfold execute, execute_gen. rewrite bind_modify, <- Et.
  unfold spec_execute, fails in He. destruct (first_word l) as [|c w0] eqn:Ew.
  - injection He as <-. split; [done|]. destruct (spells_until f (fun c => (c =? 32) || (c =? 10)) l Hsp) as [_ Hend].
    fold (first_word l) in Hend. rewrite Ew in Hend. change (Z.of_nat (length [])) with 0 in Hend.
    assert (is_name f 0) as Hn by (unfold is_name, ends_name; split; lia).
    unfold parse_command. by destruct (parse_name_spec f 0 Hby ltac:(lia) Hn) as (cmds & -> & _).
  - destruct (command_fits l); [|done]. destruct (Hcp ltac:(done) eq_refl) as (cmds & arg_dat & -> & -> & _ & Hlk).
    unfold bind at 1, ret at 1. rewrite bind_get. unfold find_executable. destruct (find_file _ o) as [x|].
    + destruct Hlk as (i & en & _ & <- & Hen & ->). change (SUCCESS =? FAILURE) with false. cbv iota.
      change (filetype (read_dentry (Z.of_nat i) (Dentry ∅ 0 0) k)) with (entry_type k (Z.of_nat i)).
      pose proof (en_node _ _ _ Hen) as Hnd. destruct (en.2); [done|rewrite Hnd; by injection He as <-..].
    + rewrite Hlk. by injection He as <-.
Qed.

(** A file that the loader takes. *)
Lemma elf_executable k cmds d ino c : low_image k -> img_end k <= exe_data k \/ exe_data k + 40 <= img k ->
  0 <= exe_data k /\ exe_data k + 40 <= SIZE_8MB ->
  read_dentry_by_name (fun j => get8 cmds j) (Dentry ∅ 0 0) k = Some (SUCCESS, d) -> filetype d = 2 -> inode_num d = ino ->
  file_of k ino c -> is_elf c = true -> exists entry, executable k cmds ino entry.
Proof.
  intros Hi Ha Hlow El Ht Hino [Hwf _ Ec] He. unfold is_elf in He. apply andb_true_iff in He as [Hm Hlen].
  apply bool_decide_eq_true in Hm. pose proof (wf_length _ _ Hwf).
  assert (Z.of_nat (length c) = file_length k ino) as El' by (rewrite Ec, length_fmap, length_seqZ; lia).
  assert (forall j : nat, (j < 4)%nat -> [0x7F; 0x45; 0x4C; 0x46] !! j = Some (file_byte k ino (Z.of_nat j))) as Hb.
  { intros j Hj. rewrite <- Hm, lookup_take_lt by lia. rewrite Ec, list_lookup_fmap, lookup_seqZ_lt by lia. done. }
  eexists. split; [by exists d|done|lia| |reflexivity|].
  - pose proof (Hb 0%nat ltac:(lia)) as [= M0]. pose proof (Hb 1%nat ltac:(lia)) as [= M1].
    pose proof (Hb 2%nat ltac:(lia)) as [= M2]. pose proof (Hb 3%nat ltac:(lia)) as [= M3]. by split_and!.
  - apply low_buf_apart; [done|lia..|tauto].
Qed.

(** The kernel, while a process makes a call, can start a program. *)
Lemma serving_prepared p o k : serving p o k -> esp (cpu k) = u32 (tss_esp0 (cpu k) - 20) -> prepared_for (disk o) (typed o) k.
Proof.
  intros Hs He. assert (exe_data k = stack_array p) as Ea.
  { unfold exe_data, stack_array. by rewrite He, (sv_top _ _ _ Hs). }
  destruct Hs. split; try done.
  - rewrite Ea. auto.
  - destruct sv_listed as [? ->]. done.
Qed.

(** [execute] of a program does not come back: the program runs. *)
Lemma serving_process p o k : serving p o k -> process_is k (cur_pcb k) (arguments o) (descriptors o).
Proof. intros Hs. destruct Hs. destruct sv_fds as [[F0 F1 F2] _]. by split. Qed.
Lemma below_stands p q o d ls ino m arg_dat k k' : serving q o k -> prepared_for d ls k -> lowest_free k p ->
  started p ino m arg_dat k k' -> stands_at p (below (get8 k) o) (trap k').
Proof.
  intros Hs Hpf Hfree Hst. unfold below. pose proof (sv_stands _ _ _ Hs) as Hr. destruct (stands o); [|done..].
  exists q. eapply started_waits; [done..|exact (serving_pcb _ _ _ Hs)|exact (serving_process _ _ _ Hs)|].
  intros va Hva. change (mem_get (pmem k) (upage q va) = mem_get (pmem k) (loc k va)). by rewrite (proj1 (page_loc Hs va Hva)).
Qed.

Lemma serves_starts p o k name l f : serving p o k -> esp (cpu k) = u32 (tss_esp0 (cpu k) - 20) ->
  spec_starts l o = Some f -> string_at k name l ->
  exists k', returned (execute_at name k) = Gone k' /\
    (exists q, serving q (child (after_word l) (get8 k) o) (trap k')) /\ bytes_at k' TEXT f.
Proof.
  intros Hs Hesp He Hstr. destruct (page_command p o k name l Hs Hstr) as (_ & _ & _ & -> & _).
  pose proof (command_parsed p o k name l Hs Hstr) as Hcp. cbv zeta in Hcp.
  pose proof (serving_prepared p o k Hs Hesp) as Hpf.
  unfold spec_starts in He. destruct (first_word l) as [|c w0]; [done|].
  destruct (find_file _ o) as [[b| |]|]; [|done..].
  destruct (command_fits l && is_elf b && (Z.of_nat (length b) <? 0x3B8000) && negb (spare o =? 0)%nat) eqn:Eb; [|done].
  injection He as ->. apply andb_true_iff in Eb as [Eb Hsp]. apply andb_true_iff in Eb as [Eb Hsz]. apply andb_true_iff in Eb as [Hfit Helf].
  destruct (Hcp ltac:(done) Hfit) as (cmds & arg_dat & Hp & Hq & Ha & i & en & _ & Hn & Hen & El).
  pose proof (en_node _ _ _ Hen) as Hnd. rewrite Hn in Hnd. destruct Hnd as [Ht Hf]. destruct (pf_array _ _ _ Hpf) as [A1 A2 _].
  destruct (elf_executable k cmds _ _ f (pf_image _ _ _ Hpf) ltac:(tauto) A1 El Ht eq_refl Hf Helf) as (entry & Hex).
  destruct (free_slots_lowest k) as (q & Hfree).
  { intros E. pose proof (sv_spare _ _ _ Hs) as Es. rewrite E in Es. by rewrite Es in Hsp. }
  assert (runnable k cmds q (entry_inode k (Z.of_nat i)) entry) as Hr.
  { split; [exact Hex|apply Hpf| |done]. assert (Z.of_nat (length f) = file_length k (entry_inode k (Z.of_nat i))) as <-; [|lia].
    destruct Hf as [Hwf _ ->]. pose proof (wf_length _ _ Hwf). rewrite length_fmap, length_seqZ. lia. }
  destruct (execute_serving _ _ _ (after_word l) _ _ _ _ (typed o) k Hp Hq Ha Hr Hpf) as (k' & E & Hst & Hs').
  specialize (Hs' _ (below_stands q p o _ _ _ _ _ _ _ Hs Hpf Hfree Hst)).
  exists k'. rewrite E. split; [done|]. split; [exists q|eapply started_text; [done..|lia]].
  assert (child (after_word l) (get8 k) o = first_os (disk o) (after_word l) (typed o) (below (get8 k) o) k) as ->; [|done].
  unfold child, first_os. destruct (sv_listed _ _ _ Hs) as [_ ->]. by rewrite (sv_screen _ _ _ Hs), (sv_spare _ _ _ Hs).
Qed.

(** [halt] of a program gives the one that waits for it its state back. *)
Lemma halted_switched p q o k k' : serving p o k -> 0 <= q < 6 -> halted p q k k' -> switched q k k'.
Proof.
  intros Hs Hq Hha. destruct (sv_image _ _ _ Hs) as [Hm Hl Hh]. destruct (ha_page _ _ _ _ Hha) as [Hm' Hw].
  pose proof (ha_memory _ _ _ _ Hha) as Ep. split.
  - split; [apply Hha|]. intros i Hi. change (ld8 (trap k')) with (ld8 k'). rewrite !low_ld8 by (done || lia). by rewrite Ep.
  - split; [exact Hm'|exact Hw].
  - apply Hha.
  - apply Hha.
  - apply Hha.
  - apply abs_same; [apply Hha|]. intros pa _. by rewrite Ep.
  - apply Hha.
Qed.
Lemma halted_slots p q k k' : halted p q k k' -> 0 <= p < 6 -> proc_used k p = 1 ->
  length (free_slots k') = S (length (free_slots k)).
Proof.
  intros Hha Hp H1. destruct (ha_slots _ _ _ _ Hha) as [S1 S2]. unfold free_slots.
  apply (filter_one_less (fun q => proc_used k' q = 0) (fun q => proc_used k q = 0) p).
  - by apply (bool_decide_unpack (NoDup [0; 1; 2; 3; 4; 5])); vm_compute.
  - rewrite !elem_of_cons. lia.
  - done.
  - by rewrite H1.
  - intros r Hr. by rewrite S2.
Qed.
Lemma halted_rooted p q k k' : halted p q k k' -> get_pcb k = pcb_addr p -> q <> p -> rooted q k -> rooted q k'.
Proof.
  intros Hha Eg Hne [[R1 R2] [R3 R4] R5 R6]. destruct (ha_slots _ _ _ _ Hha) as [_ S2].
  destruct (ha_tables _ _ _ _ Hha) as [Ea _]. pose proof (ha_others _ _ _ _ Hha) as Ho. pose proof (ha_self _ _ _ _ Hha) as Hself.
  rewrite Eg in Ho, Hself. unfold cur_pcb in Hself. rewrite Eg in Hself. split.
  - by rewrite S2.
  - rewrite Ea, (ha_flag _ _ _ _ Hha). split; [done|]. unfold processes_at in *.
    destruct (ha_terminal _ _ _ _ Hha) as [(j & Hj & Ej & _ & _ & Eo)|[_ ->]]; [|done]. rewrite Eo; [done|].
    intros <-. rewrite R4, u32_small in Ej by lia. done.
  - rewrite Ho; [done|by intros ?%pcb_addr_inj].
  - intros r Hr Hrq. destruct (decide (r = p)) as [->|Hrp]; [rewrite Hself; by apply R6|].
    rewrite Ho; [by apply R6|by intros ?%pcb_addr_inj].
Qed.
Lemma serves_halts p o k c s : serving p o k -> esp (cpu k) = u32 (tss_esp0 (cpu k) - 20) -> stands o = Under c ->
  exists k', returned (halt (u8 s) k) = Ended (u8 s) k' /\ (exists q, serving q (resumed c o) (trap k')) /\
    forall va, user va -> get8 k' va = its_page c va.
Proof.
  intros Hs Hesp Hu. pose proof (sv_stands _ _ _ Hs) as Hst. rewrite Hu in Hst.
  destruct Hst as [q [W1 W2 W3 W4 [W5 W6] W7]]. pose proof (serving_pcb _ _ _ Hs) as Eg. pose proof (sv_slot _ _ _ Hs) as Hp.
  destruct (W2) as [[R1 R2] [R3 R4] R5 R6].
  assert (cur_pcb k = pcb_at k (pcb_addr p)) as Ec by (unfold cur_pcb; by rewrite Eg).
  pose proof (halt_returns (u8 s) k (sv_fds _ _ _ Hs)) as Hha. cbv zeta in Hha. rewrite !Ec, W6, W7, R5 in Hha.
  destruct Hha as (k' & E & Hha); [apply (sv_image _ _ _ Hs)|by rewrite W5|rewrite R4, u32_small by lia; done| |done|].
  { rewrite Eg. by intros ?%pcb_addr_inj. }
  pose proof (halted_switched _ _ _ _ _ Hs R1 Hha) as Hsw.
  assert (pcb_at k' (pcb_addr q) = pcb_at k (pcb_addr q)) as Eq
    by (apply (ha_others _ _ _ _ Hha); rewrite Eg; by intros ?%pcb_addr_inj).
  assert (serving q (resumed c o) (trap k')) as Hs'.
  { pose proof (halted_rooted _ _ _ _ Hha Eg W1 W2) as [Q1 Q2 Q3 Q4].
    unfold resumed. rewrite <- (proj2 (sv_listed _ _ _ Hs)), <- (sv_screen _ _ _ Hs), (sv_spare _ _ _ Hs).
    apply (switched_serving q); [done|by apply (serving_prepared p)|done|by rewrite Eq|by apply (halted_slots p q)|].
    split; [exact Q1|exact Q2|exact Q3|exact Q4]. }
  exists k'. rewrite E. split; [cbn [returned]; by rewrite u8_u8|]. split; [by exists q|].
  intros va Hva. change (mem_get (pmem k') (loc (trap k') va) = its_page c va).
  rewrite (proj1 (page_loc Hs' va Hva)), (ha_memory _ _ _ _ Hha). by apply W4.
Qed.
End commands.

(** ** The kernel is one of SysSpec.v's *)

Section kernel.
Context `{Platform} `{Stack}.

Lemma string_trap k s l : string_at k s l -> string_at (trap k) s l.
Proof. intros [Hr Hb Hc]. split; [exact Hr|exact Hb|exact Hc]. Qed.

#[export] Program Instance kstate_kernel : Kernel kstate := {| serves := served |}.
Next Obligation.
  intros o k a b [p Hs] Ha Hb. change (@loc kstate kstate_bytes (trap k) a = @loc kstate kstate_bytes (trap k) b -> a = b). rewrite (proj1 (page_loc Hs a Ha)), (proj1 (page_loc Hs b Hb)). apply upage_inj.
Qed.
Next Obligation. intros o k a v [p Hs] Ha. exists p. exact (serving_store p o (trap k) a v Hs Ha). Qed.
Next Obligation.
  intros o k [p Hs]. destruct (sv_disk _ _ _ Hs) as [_ Hl He _]. split; [done|].
  apply Forall_lookup_2. intros i e Hi. destruct (He _ _ Hi) as [? ? _ _ _]. done.
Qed.
Next Obligation.
  intros o k name l c d e Hs He Hstr. change (int80 2 name c d k) with (returned (execute_at name (trap k))).
  apply (does_served o); [done|].
  intros p Hp. apply (serves_execute p o _ _ l); [done..|by apply string_trap].
Qed.
Next Obligation.
  intros o k fd buf n e Hs He Hn Hu.
  change (int80 3 fd buf n k) with (returned (read (s32 fd) buf (s32 n) (trap k))). rewrite (s32_small n) by lia.
  apply (does_served o); [done|]. intros p Hp. by apply (serves_read p o).
Qed.
Next Obligation.
  intros o k fd buf l e Hs He Hu Hb.
  change (int80 4 fd buf (Z.of_nat (length l)) k) with (returned (write (s32 fd) buf (s32 (Z.of_nat (length l))) (trap k))).
  rewrite (s32_small (Z.of_nat _)) by (destruct Hu; lia).
  apply (does_served o _ _ _ _ (write (s32 fd) buf (Z.of_nat (length l)))); [done|]. intros p Hp. by apply (serves_write p o).
Qed.
Next Obligation.
  intros o k name l c d e Hs Hne He Hstr.
  apply (does_served o _ _ _ _ (open name)); [done|]. intros p Hp. apply (serves_open p o _ _ l); [done..|by apply string_trap].
Qed.
Next Obligation.
  intros o k name c d Hs Hstr.
  apply (does_served o _ _ _ _ (open name)); [done|]. intros p Hp. apply (serves_open_empty p o); [done|by apply string_trap].
Qed.
Next Obligation.
  intros o k fd c d e Hs He. apply (does_served o _ _ _ _ (close (s32 fd))); [done|]. intros p Hp. by apply (serves_close p o).
Qed.
Next Obligation.
  intros o k buf n d e Hs He Hn Hu.
  change (int80 7 buf n d k) with (returned (getargs buf (s32 n) (trap k))). rewrite (s32_small n) by lia.
  apply (does_served o); [done|]. intros p Hp. by apply (serves_getargs p o).
Qed.
Next Obligation.
  intros o k s c d Hs Hr Hn. change (int80 8 s c d k) with (returned (run (vidmap s) (trap k))). apply (does_served o _ _ _ _ (run (vidmap s))); [done|]. intros p Hp. by apply (serves_vidmap p o).
Qed.
Next Obligation.
  intros o k n b c d Hs Hn. change (int80 n b c d k) with (returned (handle_SIG_SYSCALL n b c d (trap k))). apply (does_served o _ _ _ _ (handle_SIG_SYSCALL n b c d)); [done|]. intros p Hp. by apply (serves_unknown p o).
Qed.

#[export] Program Instance kstate_commands : Commands kstate.
Next Obligation.
  intros o k name l c d f [p Hs] He Hstr.
  change (int80 2 name c d k) with (returned (execute_at name (trap k))).
  destruct (serves_starts p o (trap k) name l f Hs eq_refl He (string_trap _ _ _ Hstr)) as (k' & E & [q Hq] & Ht).
  exists k'. split; [exact E|]. split; [by exists q|exact Ht].
Qed.
Next Obligation.
  intros o k c s x y [p Hs] Hu. change (int80 1 s x y k) with (returned (halt (u8 s) (trap k))).
  destruct (serves_halts p o (trap k) c s Hs eq_refl Hu) as (k' & E & [q Hq] & Hp).
  exists k'. split; [exact E|]. split; [by exists q|exact Hp].
Qed.
End kernel.
