(* ===== verification/Userland.v ===== *)
(** From the command to the screen: the kernel starts a program, the program
    makes its calls, the files come out on the screen.

    [system_calls_refine] puts the laws of [Kernel] together, call by call, for
    the kernel of this development. *)

From Stdlib Require Import String.
From S2P Require Import Prelude Bytes CString State Console Pic Filesys Paging Keyboard Descriptors Process Halt Terminals Interrupts.
From S2P Require Import SysSpec Support Cat Shell KernelOs Spawn.
#[local] Open Scope Z_scope.
#[local] Open Scope kernel_scope.

(** ** A call of a program *)

Inductive call :=
  | CallRead (fd buf n : Z) | CallWrite (fd buf : Z) (l : list Z) | CallOpen (name : Z) (l : list Z)
  | CallExecute (command : Z) (l : list Z) | CallClose (fd : Z) | CallGetargs (buf n : Z) | CallVidmap (p : Z) | CallOther (number : Z).

(** What the program leaves in the other registers is up to it. *)
Definition issue `{Platform} (c : call) (r1 r2 r3 : Z) : kstate -> reply kstate Z :=
  match c with
  | CallRead fd buf n => system_call 3 fd buf n
  | CallWrite fd buf l => system_call 4 fd buf (Z.of_nat (length l))
  | CallOpen name _ => system_call 5 name r1 r2
  | CallExecute command _ => system_call 2 command r1 r2
  | CallClose fd => system_call 6 fd r1 r2
  | CallGetargs buf n => system_call 7 buf n r1
  | CallVidmap p => system_call 8 p r1 r2
  | CallOther number => system_call number r1 r2 r3
  end.

Definition promised (c : call) (o : os) : option effect :=
  match c with
  | CallRead fd _ n => spec_read (s32 fd) n o
  | CallWrite fd _ l => spec_write (s32 fd) l o
  | CallOpen _ l => match l with [] => fails o | _ => spec_open l o end
  | CallExecute _ l => spec_execute l o
  | CallClose fd => spec_close (s32 fd) o
  | CallGetargs _ n => spec_getargs n o
  | CallVidmap _ | CallOther _ => fails o
  end.

(** The bytes of the program's page a call may change. *)
Definition buffer (c : call) (o : os) : Z * Z :=
  match c with
  | CallRead fd buf n => (buf, room (s32 fd) n o)
  | CallGetargs buf n => (buf, n)
  | CallWrite _ p _ | CallOpen p _ | CallExecute p _ => (p, 0)
  | _ => (0, 0)
  end.

(** Buffers and names in the program's page; pointers for [vidmap] outside it,
    and numbers that are not those of calls. *)
Definition well_placed `{Platform} (c : call) (o : os) (k : kstate) : Prop :=
  match c with
  | CallRead fd buf n => 0 <= n < 2147483648 /\ user_range buf (room (s32 fd) n o)
  | CallWrite _ buf l => user_range buf (Z.of_nat (length l)) /\ bytes_at k buf l
  | CallOpen s l | CallExecute s l => string_at k s l
  | CallClose _ => True
  | CallGetargs buf n => 0 <= n < 2147483648 /\ user_range buf n
  | CallVidmap p => 0 <= p < 4294967296 /\ ~ user p
  | CallOther number => s32 number <= 0 \/ 10 < s32 number
  end.

Section properties.
Context `{Platform}.
(** What the stack holds above the arguments of a call does not matter here. *)
#[local] Instance no_words : Stack := fun _ _ => 0.

(** C1: every call of a running program does on the kernel's state what the abstract
    specification says it does on what the program sees: with the state [o] to
    the program, and an effect promised for the call, the system call comes
    back with the result of the effect in eax, its bytes are in the program's
    buffer, no other byte of the program's page has changed, and the state is
    the effect's to the program. *)
Theorem system_calls_refine c o k e r1 r2 r3 :
  served o k -> promised c o = Some e -> well_placed c o k ->
  exists k', issue c r1 r2 r3 k = Back (result e) k' /\ served (next e) k' /\
    bytes_at k' (buffer c o).1 (given e) /\ changes k k' (buffer c o).1 (buffer c o).2.
Proof.
  intros Hs He Hw. destruct c as [fd buf n|fd buf l|name l|command l|fd|buf n|p|number]; simpl in He, Hw.
  - destruct Hw. by apply (@kernel_read kstate kstate_machine kstate_kernel o).
  - destruct Hw. by apply (@kernel_write kstate kstate_machine kstate_kernel o).
  - destruct l as [|c l]; [injection He as <-; by apply (@kernel_open_empty kstate kstate_machine kstate_kernel o)|].
    by apply (@kernel_open kstate kstate_machine kstate_kernel o k name (c :: l)).
  - exact (@kernel_execute kstate kstate_machine kstate_kernel o k command l r1 r2 e Hs He Hw).
  - by apply (@kernel_close kstate kstate_machine kstate_kernel o k fd r1 r2 e).
  - destruct Hw. by apply (@kernel_getargs kstate kstate_machine kstate_kernel o).
  - injection He as <-. destruct Hw. by apply (@kernel_vidmap kstate kstate_machine kstate_kernel o).
  - injection He as <-. by apply (@kernel_unknown kstate kstate_machine kstate_kernel o).
Qed.
End properties.

(** ** A command and its program *)

Section commands.
Context `{Platform}.

Context `{Stack} {literals : Linked}.

(** The command [cat] with the name of a file: [execute] starts the program at
    its entry in user mode, and when its [main] has returned, with status 0, the
    bytes of the file have gone to the screen after what was on it, from the
    blocks of the file system through the page of the program, whatever the
    length of the file. *)
Theorem cat_command_shows_file command cmds arg_dat l p ino entry d ls k c buf n :
  parse_command (Some command) = Parsed cmds arg_dat -> is_quit cmds = false -> arguments_are arg_dat l ->
  runnable k cmds p ino entry -> prepared_for d ls k ->
  0 < Z.of_nat (length l) <= 1022 -> find_file l (first_os d l ls Elsewhere k) = Some (Regular c) ->
  Forall (fun x => x <> 8) c -> user_range buf 1024 -> (length c < n)%nat ->
  exists k1 k2, execute (Some command) k = Jmp (IretUser (u32 entry) 0x083FFFFC 0x23 0x2B) k1 /\
    cat (W := kstate) buf n k1 = Back 0 k2 /\ abs k2 = fold_left (fun s x => Spec.write x s) c (abs k).
Proof.
  intros Hp Hq Ha Hr Hd Hl Hf H8 Hu Hn.
  destruct (execute_serving _ _ _ _ _ _ _ _ ls k Hp Hq Ha Hr Hd) as (k1 & E1 & _ & Hs1).
  pose proof (@cat_shows_file kstate kstate_machine kstate_kernel literals (first_os d l ls Elsewhere k) k1 buf c 2 n) as Hcat.
  destruct Hcat as (k2 & E2 & [q Hq2]); try done.
  - exists p. by apply Hs1.
  - intros E. change (l = []) in E. subst l. simpl in Hl. lia.
  - change (Z.of_nat (length l) <= 1022). lia.
  - apply Ha.
  - exists k1, k2. split; [exact E1|]. split; [exact E2|]. exact (sv_screen _ _ _ Hq2).
Qed.

(** From the shell to the screen and the file: a process runs the shell, lines
    are typed for which it stays, then the command of [cat] with the name of a
    file. The shell starts the program and does not come back; when the [main]
    of [cat] has returned, with status 0, the screen shows the transcript: the
    greeting, the prompts, what was typed, the answers, and the bytes of the
    file. *)
Theorem shell_runs_cat o k buf ls l f rest c n buf2 m : served o k -> user_range buf 1024 ->
  (forall s, s ∈ shell_literals -> literal (W := kstate) s buf 1024 k) -> handles o 0 = Keyboard -> handles o 1 = Screen ->
  typed o = ls ++ l :: rest -> Forall (stays o) ls -> plain l -> l <> chars "exit" ->
  spec_starts l o = Some f -> (length ls < n)%nat ->
  after_word l <> [] -> find_file (after_word l) o = Some (Regular c) -> Forall (fun x => x <> 8) c ->
  user_range buf2 1024 -> (length c < m)%nat ->
  exists k1 k2, shell (W := kstate) buf n k = Gone k1 /\ cat (W := kstate) buf2 m k1 = Back 0 k2 /\
    abs k2 = fold_left (fun s x => Spec.write x s)
      (((line "Starting 391 Shell" ++ concat (answer <$> ls)) ++ chars "391OS> " ++ l ++ [10]) ++ c) (screen o).
Proof.
  intros Hs Hu Hlit Hk Hsc Ht Hok Hl Hne He Hn Hnil Hf H8 Hu2 Hm.
  assert (l <> []) as Hl0 by (by intros ->).
  destruct (@shell_starts_program kstate kstate_machine kstate_kernel kstate_commands literals o k buf ls l rest n f
    Hs Hu Hlit Hk Hsc Ht Hok Hl Hne Hl0 He Hn) as (page & k1 & E1 & Hs1).
  set (T := _ ++ chars "391OS> " ++ l ++ [10]) in *. set (o1 := child _ _ _) in Hs1.
  pose proof (starts_fit l o _ He) as Hfit.
  destruct (@cat_shows_file kstate kstate_machine kstate_kernel literals o1 k1 buf2 c 2 m) as (k2 & E2 & [q Hq]); try done.
  - change (Z.of_nat (length (after_word l)) <= 1022). lia.
  - apply after_word_chars, Hl.
  - exists k1, k2. split; [exact E1|]. split; [exact E2|]. rewrite fold_left_app.
    pose proof (sv_screen _ _ _ Hq) as Eq. revert Eq. unfold o1. clearbody T. intros Eq. exact Eq.
Qed.
End commands.
