(* ===== verification/Session.v ===== *)
(** From the loader to "exit": the kernel is booted, starts its shell, and the
    shell and the programs it starts run until the user leaves it; what the
    screen shows then. *)

From Stdlib Require Import String.
From S2P Require Import Prelude Bytes CString State Console Pic Filesys Paging Keyboard Descriptors Process Halt Terminals Interrupts Boot.
From S2P Require Import SysSpec Support Cat Shell Nested KernelOs Spawn.
#[local] Open Scope Z_scope.
#[local] Open Scope kernel_scope.

Section booting.
Context `{Platform}.

(** ** The first shell *)

(** The lines [ls] will be typed: the controller's scan codes, and an interrupt
    for each; the driver's globals are those of a line not begun. *)
Definition to_be_typed (ls : list (list Z)) (k : kstate) : Prop :=
  (enter_read (kbd k)).[0] = 0 /\ (index (kbd k)).[0] = 0 /\ disp k = 0 /\
  exists stream scss rest, keyboard_sends stream /\ Forall2 (line_keys Lower) ls scss /\
    let scs := concat ((fun scs => scs ++ [0x1C]) <$> scss) in
    sends_next stream k scs /\ irqs k = replicate (length scs) IRQ_KBD ++ rest.

Lemma booted_typed ls b k k1 k2 : to_be_typed ls k -> screen_work k k1 -> prepared b k1 k2 -> cursor_ok k2 -> typed_ahead ls k2.
Proof.
  intros (E1 & E2 & E3 & stream & scss & rest & Hks & Hl & Hn & Hi) [Ho Hrd] Hp Hc.
  assert (kbd k1 = kbd k /\ irqs k1 = irqs k) as [Ek Ei] by (clear -Ho; by rewrite Ho).
  destruct (pr_line _ _ _ Hp) as (L1 & L2 & L3). destruct (pr_keyboard _ _ _ Hp) as (M1 & _ & _ & M2 & M3).
  exists stream, 0, scss, rest. split; [done|]. split; [|split; [by rewrite M1|split]].
  - split; [split| | | | | |].
    + unfold disp in *. by rewrite L3, Ek.
    + done.
    + unfold index_at. by rewrite L2, Ek.
    + done.
    + exact M2.
    + apply (pr_terminals _ _ _ Hp).
    + by rewrite L1, Ek.
    + exact M3.
    + unfold unmasked. rewrite (pr_lines _ _ _ Hp) by done. done.
    + apply kernel_map_video, (pr_map _ _ _ Hp).
    + done.
  - unfold sends_next. rewrite (pr_reads _ _ _ Hp), Hrd. exact Hn.
  - by rewrite (pr_irqs _ _ _ Hp), Ei.
Qed.

(** The image the loader leaves at [b], with the files [d], among them the shell
    [f]; it is apart from the local arrays of the calls of [execute]. *)
Record loaded_image (b ino en : Z) (d : list (list Z * node)) (f : list Z) (k : kstate) : Prop := {
  ld_boot : bootable b ino en k;
  ld_files : disk_of (init_filesys b k) d;
  ld_shell : file_of (init_filesys b k) ino f;
  ld_listed : 0 <= num_files_read (fs k) < 64;
  ld_array : array_apart (init_filesys b k) (exe_data k);
  ld_arrays : forall q, 0 <= q < 6 -> array_apart (init_filesys b k) (stack_array q)
}.
Lemma shell_length b ino en d f k : loaded_image b ino en d f k -> Z.of_nat (length f) < 0x3B8000.
Proof.
  intros [Hbo _ Hf _ _ _]. pose proof (wf_length _ _ (fo_wf _ _ _ Hf)). pose proof (bo_size _ _ _ _ Hbo).
  rewrite (fo_bytes _ _ _ Hf), length_fmap, length_seqZ. lia.
Qed.
Lemma booted_prepared b ino en d f ls k k1 k2 : loaded_image b ino en d f k1 -> to_be_typed ls k -> screen_work k k1 ->
  prepared b k1 k2 -> low_image k2 -> cursor_ok k2 -> prepared_for d ls k2.
Proof.
  intros Hl Ht Hw Hp Hli Hc. pose proof (prepared_image _ _ _ _ _ (ld_boot _ _ _ _ _ _ Hl) Hp) as Hsi.
  destruct Hl as [Hbo Hd _ Hls Ha Har]. destruct (same_image_place _ _ Hsi (dk_count _ _ Hd)) as (Ei & Ee & _ & Hap).
  assert (exe_data k2 = exe_data k1) as Ex by (unfold exe_data; by rewrite (proj2 (proj2 (pr_stack _ _ _ Hp)))).
  split.
  - done.
  - rewrite Ei, Ee. apply (pl_screens _ (bo_placed _ _ _ _ Hbo)).
  - rewrite Ex. by apply Hap.
  - intros q Hq. by apply Hap, Har.
  - by apply (disk_of_image (init_filesys b k1)).
  - rewrite (si_fs _ _ Hsi). exact Hls.
  - done.
  - right. by eapply booted_typed.
Qed.

(** What it finds: no arguments, the keyboard and the blank screen. *)
Definition booted_os (d : list (list Z * node)) (ls : list (list Z)) (listed : Z) : os :=
  Os d [] first_files listed ls 5 (Spec.T (replicate 2000 32) 0 0) Home.

Lemma all_free k : (forall q, proc_used k q = 0) -> length (free_slots k) = 6%nat.
Proof. intros Hf. unfold free_slots. by rewrite !filter_cons, !decide_True by apply Hf. Qed.

(** The machine as the loader hands it over. *)
Record handed_over (b0 magic addr b ino en : Z) (d : list (list Z * node)) (f : list Z) (ls : list (list Z)) (k k1 : kstate) : Prop := {
  ho_slack : slack_after_terminals;
  ho_magic : u32 magic = MULTIBOOT_BOOTLOADER_MAGIC;
  ho_report : report b0 (u32 addr) (clear k) = Ret (Some b) k1;
  ho_cursor : cursor_ok k1;
  ho_alt : alt_status (kbd k) = 0;
  ho_slots : forall q, proc_used k q = 0;
  ho_parents : forall r, 0 <= r < 6 -> parent (pcb_at k (pcb_addr r)) <> pcb_addr r;
  ho_image : loaded_image b ino en d f k1;
  ho_typed : to_be_typed ls k
}.

Lemma no_arguments : arguments_are shell_words.2 [].
Proof. split; [|done|done]. intros [|j] c; [|done]. intros [= <-]. by vm_compute. Qed.

Lemma abs_blank_cursor k : abs k = Spec.T (replicate 2000 32) 0 0 -> cursor_ok k.
Proof. intros Ha. destruct (abs_cursor _ _ _ _ Ha) as [Ex Ey]. unfold cursor_ok. rewrite Ex, Ey. lia. Qed.

Lemma boot_serves b0 ldt0 tss0 magic addr b ino en d f ls k k1 : handed_over b0 magic addr b ino en d f ls k k1 ->
  exists k3, entry b0 ldt0 tss0 magic addr k = Jmp (IretUser (u32 en) 0x083FFFFC 0x23 0x2B) k3 /\
    served (booted_os d ls (num_files_read (fs k1))) k3 /\ bytes_at k3 TEXT f.
Proof.
  intros [Hsl Hmag Hrep Hc Hal Hfree Hpar Hld Hty].
  destruct (boot_steps b0 ldt0 tss0 magic addr b k k1 ino en Hsl Hal Hmag Hrep Hc Hfree (ld_boot _ _ _ _ _ _ Hld))
    as (k2 & k3 & E & Hw & Hp & Ha & Hrun & Hst).
  pose proof (prepared_image _ _ _ _ _ (ld_boot _ _ _ _ _ _ Hld) Hp) as Hsi. pose proof (abs_blank_cursor k2 Ha) as Hc2.
  pose proof (booted_prepared _ _ _ _ _ _ _ _ _ Hld Hty Hw Hp (ru_image _ _ _ _ _ Hrun) Hc2) as Hpf.
  destruct (Hw) as [Ho _]. assert (pcbs (procs k1) = pcbs (procs k) /\ pcb_state (procs k1) = pcb_state (procs k)) as [P1 S1]
    by (clear -Ho; by rewrite Ho).
  assert (rooted 0 k3) as Hr.
  { apply (started_home 0 ino 0 shell_words.2 k2); [apply Hrun|done| |].
    - destruct (pr_terminals _ _ _ Hp) as [-> Hf]. by destruct (Hf 0 ltac:(lia)) as (Hflag & _).
    - intros r Hr. unfold pcb_at. rewrite (pr_pcbs _ _ _ Hp), P1. by apply Hpar. }
  assert (serving 0 (booted_os d ls (num_files_read (fs k1))) (trap k3)) as Hs.
  { assert (booted_os d ls (num_files_read (fs k1)) = first_os d [] ls Home k2) as ->.
    { unfold booted_os, first_os. rewrite Ha, (si_fs _ _ Hsi), all_free; [done|].
      intros q. unfold proc_used in *. rewrite (pr_slots _ _ _ Hp), S1. apply Hfree. }
    apply (started_serving d [] ls Home 0 ino shell_words.2 k2 k3 Hpf no_arguments (ru_free _ _ _ _ _ Hrun) Hst).
    destruct Hr as [R1 R2 R3 R4]. split; [exact R1|exact R2|exact R3|exact R4]. }
  exists k3. split; [exact E|]. split; [by exists 0|].
  eapply started_text; [exact Hst|exact Hs|eapply file_of_image, ld_shell; done|by eapply shell_length].
Qed.

(** ** Its session *)

Context `{Stack} `{Loaded kstate} `{Linked}.

(** C2: From the loader to the transcript: handed over by a Multiboot loader with a
    file system that has a shell, the kernel initialises itself and runs the
    shell in user mode; while the user types, the shell answers, runs [cat], [ls],
    [hello] and [counter] when their commands are typed, each in a process of its own
    that ends, and ends itself with status 0 at "exit". The screen then is a
    blank screen on which the greeting, the prompts, what was typed, the answers
    and what the programs showed have been written, in that order. *)
Theorem boot_to_transcript b0 ldt0 tss0 magic addr b ino en d f lines rest t k k1 buf n m :
  handed_over b0 magic addr b ino en d f (lines ++ chars "exit" :: rest) k k1 ->
  transcript m (booted_os d (lines ++ chars "exit" :: rest) (num_files_read (fs k1))) lines t ->
  user_range buf 1024 ->
  (forall s, s ∈ shell_literals -> in_text f s /\ (lit s + Z.of_nat (length s) + 1 <= buf \/ buf + 1024 <= lit s)) ->
  (length lines < n)%nat ->
  exists k3 k4, entry b0 ldt0 tss0 magic addr k = Jmp (IretUser (u32 en) 0x083FFFFC 0x23 0x2B) k3 /\
    @shell kstate nested _ buf n k3 = Back 0 k4 /\
    abs k4 = fold_left (fun s c => Spec.write c s) (line "Starting 391 Shell" ++ t ++ chars "391OS> " ++ line "exit")
      (Spec.T (replicate 2000 32) 0 0).
Proof.
  intros Hh Ht Hu Hlit Hn. destruct (boot_serves b0 ldt0 tss0 magic addr b ino en d f _ k k1 Hh) as (k3 & E & Hs & Htext).
  set (o := booted_os d _ _) in *. pose proof (ho_image _ _ _ _ _ _ _ _ _ _ _ Hh) as Hld.
  pose proof (shell_length _ _ _ _ _ _ Hld) as Hlen.
  assert (forall s, s ∈ shell_literals -> @literal kstate kstate_machine _ s buf 1024 k3) as Hl.
  { intros s Hin. destruct (Hlit s Hin) as [Hi Ha]. split; [|done]. by apply (@text_string kstate kstate_machine _ k3 f s). }
  destruct (@session_transcript kstate kstate_machine kstate_kernel kstate_commands _ _ o k3 buf lines rest t n m Hs eq_refl Hu Hl
    eq_refl eq_refl eq_refl Ht Hn) as (k4 & o4 & E4 & [p Hs4] & _ & _ & Esc).
  exists k3, k4. split; [exact E|]. split; [exact E4|].
  exact (eq_trans (sv_screen _ _ _ Hs4) Esc).
Qed.
End booting.
