(* ===== verification/Desk.v ===== *)
(** Concrete runs of the user programs: a kernel with three files, the directory,
    the program "cat" of 48 bytes (its header and its entry point, the other bytes
    1) and the text "x". The first shell is running,
    and lines have been typed. *)

From Stdlib Require Import String.
From S2P Require Import Prelude Bytes CString State Console Pic Filesys Paging Keyboard Descriptors Process Halt Terminals Interrupts.
From S2P Require Import SysSpec Support Cat Syserr Shell Counter Grep KernelOs Spawn Userland.
#[local] Open Scope Z_scope.
#[local] Open Scope kernel_scope.

Definition desk_program : list Z :=
  [0x7F; 0x45; 0x4C; 0x46] ++ replicate 20 1 ++ [0x18; 0x80; 0x04; 0x08] ++ replicate 20 1.
Definition desk_image : mem :=
  put_bytes 0x14000 (chars "hi") (put_bytes 0x13000 desk_program
    (put32 0x12004 1 (put32 0x12000 2 (put32 0x11004 0 (put32 0x11000 48
      (put32 0x100E4 1 (put32 0x100E0 2 (put_bytes 0x100C0 (chars "x")
        (put32 0x100A4 0 (put32 0x100A0 2 (put_bytes 0x10080 (chars "cat")
          (put32 0x10060 1 (put_bytes 0x10040 (chars ".")
            (put32 0x10008 2 (put32 0x10004 2 (put32 0x10000 3 (∅ : mem))))))))))))))))).
Definition desk_files : list (list Z * node) :=
  [(chars ".", Folder); (chars "cat", Regular desk_program); (chars "x", Regular (chars "hi"))].

(** The lines, by the scan codes of their keys. *)
Definition can_press (scs : list Z) : Prop :=
  Forall (fun sc => 0 <= sc < 256 /\ printable (key_at Lower sc)) scs /\ (length scs <= 126)%nat.
Lemma keys_of_lines l : Forall can_press l -> Forall2 (line_keys Lower) ((fun scs : list Z => key_at Lower <$> scs) <$> l) l.
Proof. induction 1 as [|scs l [Hp Hl] _ IH]; constructor; [by split|exact IH]. Qed.

Section desk.
Context (scss : list (list Z)).
Definition key_codes : list Z := concat ((fun scs : list Z => scs ++ [0x1C]) <$> scss).
Definition desk_platform : Platform := answering (fun t p => default 0 (key_codes !! reads p t)).
#[local] Existing Instance desk_platform.
Definition typed_lines : list (list Z) := (fun scs : list Z => key_at Lower <$> scs) <$> scss.
Definition can_type : Prop := Forall can_press scss.

Definition desk_boot : kstate := init_filesys 0x10000 (zero_state <| pmem := desk_image |>).
Definition desk_paged : kstate := page_switch 0 (init_paging desk_boot).
Definition settled (k : kstate) : kstate :=
  put_term 0 first_terminal (set_proc_used 0 1 (put_pcb 0x7fe000 shell_process (tables_init
    (k <| cpu; esp := 0x7fffe0 |> <| cpu; ebp := 0x7ffff0 |> <| irqs := replicate (length key_codes) IRQ_KBD |>)))).
Definition desk : kstate := settled desk_paged.

(** A directory entry, from the bytes of its name. *)
Lemma entry_of_bytes k i e : 0 < Z.of_nat (length e.1) < 32 -> Forall (fun c => 0 < c < 256) e.1 ->
  entry_name k i <$> seqZ 0 (Z.of_nat (length e.1) + 1) = e.1 ++ [0] ->
  match e.2 with
  | Clock => entry_type k i = 0
  | Folder => entry_type k i = 1
  | Regular c => entry_type k i = 2 /\ file_of k (entry_inode k i) c
  end -> entry_of k i e.
Proof.
  intros Hl Hc Hb Hn.
  assert (forall j c, (e.1 ++ [0]) !! j = Some c -> entry_name k i (Z.of_nat j) = c) as Hat.
  { intros j c. rewrite <- Hb, list_lookup_fmap. destruct (seqZ _ _ !! j) as [z|] eqn:Ez; [|done].
    apply lookup_seqZ in Ez as [-> _]. by intros [= <-]. }
  split; [lia|done| |intros j c Hj; by apply Hat, lookup_app_l_Some|done].
  split; [lia|]. split.
  - intros j Hj. destruct (lookup_lt_is_Some_2 e.1 (Z.to_nat j)) as [c Hjc]; [lia|].
    rewrite <- (Z2Nat.id j) by lia. rewrite (Hat _ c) by (by apply lookup_app_l_Some).
    apply (Forall_lookup_1 _ _ _ _ Hc) in Hjc. lia.
  - right. apply Hat. by rewrite lookup_app_r, Nat.sub_diag by lia.
Qed.

Lemma boot_small ino : 0 <= ino < 2 -> 0 <= file_length desk_boot ino < 4096 -> block_ok desk_boot ino 0 -> file_wf desk_boot ino.
Proof.
  intros Hi Hl Hb. assert (n_inodes desk_boot = 2) as En by (by vm_compute). split.
  - rewrite En. lia.
  - split; by vm_compute.
  - lia.
  - intros b Hb0 Hb1. assert (b = 0) as -> by lia. exact Hb.
Qed.

Lemma boot_files : disk_of desk_boot desk_files.
Proof.
  split.
  - by vm_compute.
  - by vm_compute.
  - intros i e Hi.
    destruct i as [|[|[|i]]]; [..|done]; injection Hi as <-; (apply entry_of_bytes; [done|by repeat constructor|by vm_compute|]).
    + by vm_compute.
    + split; [by vm_compute|]. assert (entry_inode desk_boot (Z.of_nat 1) = 0) as -> by (by vm_compute).
      split; [|by vm_compute..]. by apply boot_small; vm_compute.
    + split; [by vm_compute|]. assert (entry_inode desk_boot (Z.of_nat 2) = 1) as -> by (by vm_compute).
      split; [|by vm_compute..]. by apply boot_small; vm_compute.
  - intros i Hi. change (Z.of_nat (length desk_files)) with 3 in Hi.
    assert (forallb (fun j => entry_name desk_boot j 0 =? 0) (seqZ 3 60) = true) as Hz by (by vm_compute).
    rewrite forallb_forall in Hz. apply Z.eqb_eq, Hz, list_elem_of_In, elem_of_seqZ. lia.
Qed.

Lemma settled_keeps k : mmu (settled k) = mmu k /\ pmem (settled k) = pmem k /\ fs (settled k) = fs k /\
  io (settled k) = io k /\ con (settled k) = con k.
Proof. by split_and!. Qed.

(** Paging maps the memory below 8 MB to itself. *)
Lemma desk_map : kernel_map (mmu desk).
Proof. unfold desk. rewrite (proj1 (settled_keeps _)). apply page_switch_kernel_map; [done|]. apply init_paging_map. Qed.
Lemma desk_only : only_mmu desk_boot desk_paged.
Proof.
  apply (only_mmu_trans _ (init_paging desk_boot)); [apply init_paging_map|]. by apply page_switch_entry.
Qed.
Lemma only_mmu_keeps k k' : only_mmu k k' -> pmem k' = pmem k /\ fs k' = fs k /\ io k' = io k /\ con k' = con k.
Proof. by intros ->. Qed.
Lemma desk_keeps : pmem desk = pmem desk_boot /\ fs desk = fs desk_boot /\ io desk = io desk_boot /\ con desk = con desk_boot.
Proof.
  unfold desk. destruct (settled_keeps desk_paged) as (_ & -> & -> & -> & ->). apply (only_mmu_keeps _ _ desk_only).
Qed.
Lemma boot_numbers : img desk_boot = 0x10000 /\ n_inodes desk_boot = 2 /\ data_count (fs desk_boot) = 2.
Proof. split; [|split]; by vm_compute. Qed.
Lemma desk_same_image : same_image desk_boot desk.
Proof.
  destruct desk_keeps as (Ep & Ef & _). destruct boot_numbers as (Ei & En & Ed).
  split; [exact Ef|]. intros o Ho. rewrite En, Ed in Ho.
  rewrite low_ld8 by (apply desk_map || (rewrite Ei; unfold SIZE_8MB; lia)).
  rewrite Ep. change (mem_get (pmem desk_boot) (img desk_boot + o) = mem_get (pmem desk_boot) (xlate (mmu desk_boot) (img desk_boot + o))).
  by rewrite xlate_unpaged.
Qed.
Lemma desk_numbers : img desk = 0x10000 /\ n_inodes desk = 2 /\ data_count (fs desk) = 2.
Proof.
  destruct boot_numbers as (Ei & En & Ed). destruct desk_keeps as (_ & Ef & _).
  pose proof (same_image_ld32 _ _ 4 desk_same_image ltac:(done)) as E. rewrite En, Ed in E. specialize (E ltac:(lia)).
  assert (img desk = img desk_boot) as Eg by (unfold img; by rewrite Ef).
  split; [exact (eq_trans Eg Ei)|]. split; [|exact (eq_trans (f_equal data_count Ef) Ed)]. unfold n_inodes at 1. rewrite Eg. exact (eq_trans E En).
Qed.
Lemma desk_low_image : low_image desk.
Proof.
  destruct desk_numbers as (Ei & En & Ed). split; [apply desk_map|rewrite Ei; lia|].
  rewrite Ei, En, Ed. unfold SIZE_8MB. lia.
Qed.
Lemma desk_array : array_apart desk 0x7f0000.
Proof.
  destruct desk_numbers as (Ei & En & Ed).
  split; [unfold SIZE_8MB; lia|right; unfold img_end; rewrite Ei, En, Ed; lia|right; unfold VIDEO; lia].
Qed.

(** Somebody has typed the lines. *)
Lemma settled_prompt k : kernel_map (mmu k) -> kbd k = kbd zero_state -> cursor_ok k -> pic k = Pic 0 0 -> active k = 0 ->
  at_prompt (settled k) 0.
Proof.
  intros Hm Ek Hc Hp Ha. split; [split| | | | |apply (kernel_map_video _ Hm)|exact Hc];
    unfold disp, index_at; change (kbd (settled k)) with (kbd k); rewrite ?Ek; try done.
  assert (get_master (settled k) = 0) as Em by (unfold get_master; change (pic (settled k)) with (pic k); by rewrite Hp).
  unfold unmasked, line_enabled. by rewrite Em.
Qed.
Hypothesis Hcan : can_type.
Lemma settled_typed k : kernel_map (mmu k) -> kbd k = kbd zero_state -> cursor_ok k -> pic k = Pic 0 0 -> active k = 0 ->
  reads KEYBOARD_ENCODER (io k) = 0%nat -> typed_ahead typed_lines (settled k).
Proof.
  intros Hm Ek Hc Hp Ha Hr. exists (fun n => default 0 (key_codes !! n)), 0, scss, [].
  split; [by intros t|]. split; [by apply settled_prompt|]. split; [|split].
  - change (kbd (settled k)) with (kbd k). rewrite Ek. by apply keys_of_lines.
  - intros i sc Hi. change (io (settled k)) with (io k). rewrite Hr. change (default 0 (key_codes !! i) = sc). unfold key_codes. by rewrite Hi.
  - by rewrite app_nil_r.
Qed.
Lemma mmu_typed r k : only_mmu r k -> kernel_map (mmu k) -> kbd r = kbd zero_state -> con r = Console 0 0 ->
  pic r = Pic 0 0 -> active r = 0 -> reads KEYBOARD_ENCODER (io r) = 0%nat -> typed_ahead typed_lines (settled k).
Proof.
  intros -> Hm Ek Ec Hp Ha Hr. apply settled_typed; [done|done| |done..].
  unfold cursor_ok, scr_x, scr_y. change (con (r <| mmu := mmu k |>)) with (con r). by rewrite Ec.
Qed.
Lemma desk_typed : typed_ahead typed_lines desk.
Proof.
  pose proof desk_map as Hm. unfold desk in *. rewrite (proj1 (settled_keeps _)) in Hm.
  by apply (mmu_typed _ _ desk_only Hm).
Qed.
Lemma desk_prepared : prepared_for desk_files typed_lines desk.
Proof.
  destruct desk_keeps as (_ & Ef & _ & Ec).
  split; [apply desk_low_image| | | | | | |right; apply desk_typed].
  - left. destruct desk_numbers as (Ei & En & Edc). unfold img_end, VIDEO_MEMORY. rewrite Ei, En, Edc. lia.
  - exact desk_array.
  - intros q _. exact desk_array.
  - apply (disk_of_image desk_boot); [apply desk_same_image|apply boot_files].
  - rewrite Ef. split; by vm_compute.
  - unfold cursor_ok, scr_x, scr_y. rewrite Ec. split; split; by vm_compute.
Qed.

Lemma settled_slots r k : only_mmu r k -> pcb_state (procs r) = ∅ -> length (free_slots (settled k)) = 5%nat.
Proof.
  intros -> Ep. unfold free_slots, proc_used.
  change (pcb_state (procs (settled (r <| mmu := mmu k |>)))) with (<[0 := 1]> (pcb_state (procs r))). by rewrite Ep.
Qed.
Lemma boot_program : file_wf desk_boot 0.
Proof. by apply boot_small; vm_compute. Qed.
Lemma boot_executable cmds d : read_dentry_by_name (fun j => get8 cmds j) (Dentry ∅ 0 0) desk_boot = Some (SUCCESS, d) ->
  filetype d = 2 -> inode_num d = 0 -> executable desk_boot cmds 0 0x08048018.
Proof.
  intros El Ht Hi. destruct boot_numbers as (Ei & En & Ed). split.
  - exists d. split; [exact El|]. by split.
  - apply boot_program.
  - by vm_compute.
  - split; [|split; [|split]]; by vm_compute.
  - by vm_compute.
  - change (exe_data desk_boot) with 0x7f0000. split; [by apply sep_unpaged|].
    intros o Ho. apply outside_unpaged; [done|]. rewrite Ei, En, Ed in *. lia.
Qed.
Lemma settled_free r k : only_mmu r k -> pcb_state (procs r) = ∅ -> lowest_free (settled k) 1.
Proof.
  intros -> Ep. unfold lowest_free, proc_used.
  change (pcb_state (procs (settled (r <| mmu := mmu k |>)))) with (<[0 := 1]> (pcb_state (procs r))). rewrite Ep.
  split; [lia|]. split; [done|]. intros q Hq. by assert (q = 0) as -> by lia.
Qed.
Lemma desk_runnable cmds d : read_dentry_by_name (fun j => get8 cmds j) (Dentry ∅ 0 0) desk_boot = Some (SUCCESS, d) ->
  filetype d = 2 -> inode_num d = 0 -> runnable desk cmds 1 0 0x08048018.
Proof.
  intros El Ht Hi. pose proof (boot_executable cmds d El Ht Hi) as Hb. pose proof (ex_wf _ _ _ _ Hb) as Hwf.
  destruct (same_image_file _ _ _ desk_same_image Hwf) as (_ & _ & _ & Elen & _). destruct desk_numbers as (Eg & En & Ed).
  split.
  - apply (executable_same_image desk_boot); [done|apply desk_same_image|].
    change (exe_data desk) with 0x7f0000. apply low_buf_apart; [apply desk_low_image|lia|unfold SIZE_8MB; lia|].
    right. unfold img_end. rewrite Eg, En, Ed. lia.
  - apply desk_low_image.
  - rewrite Elen. by vm_compute.
  - by apply (settled_free _ _ desk_only).
Qed.

(** The program "cat" is started with some argument. *)
Definition cat_words (l : string) : mem * mem :=
  match parse_command (Some (Process.literal (String.append "cat " l))) with Parsed cmds arg_dat => (cmds, arg_dat) | _ => (∅, ∅) end.
Lemma desk_serves command cmds arg_dat l d : parse_command (Some command) = Parsed cmds arg_dat -> is_quit cmds = false ->
  arguments_are arg_dat l ->
  read_dentry_by_name (fun j => get8 cmds j) (Dentry ∅ 0 0) desk_boot = Some (SUCCESS, d) -> filetype d = 2 -> inode_num d = 0 ->
  exists k, execute (Some command) desk = Jmp (IretUser 0x08048018 0x083FFFFC 0x23 0x2B) k /\
    served (first_os desk_files l typed_lines Elsewhere desk) k.
Proof.
  intros Hp Hq Ha El Ht Hi.
  destruct (execute_serving command cmds arg_dat l 1 0 0x08048018 desk_files typed_lines desk Hp Hq Ha
    (desk_runnable _ _ El Ht Hi) desk_prepared) as (k & E & _ & Hs). exists k. split; [exact E|]. exists 1. by apply Hs.
Qed.
End desk.

(** The string literals of the programs, in the page of the process. *)
Section placing.
Context `{Kernel W}.
Implicit Types (w : W) (o : os).

Fixpoint store_list (p : Z) (l : list Z) (w : W) : W :=
  match l with [] => w | c :: l => store_list (p + 1) l (put8 p c w) end.
Fixpoint place (p : Z) (ls : list (list Z)) (w : W) : W :=
  match ls with [] => w | l :: ls => store_list p (l ++ [0]) (place (p + 64) ls w) end.

Lemma store_list_at o l : forall p w, serves o w -> user_range p (Z.of_nat (length l)) -> Forall (fun c => 0 <= c < 256) l ->
  let w' := store_list p l w in serves o w' /\ bytes_at w' p l /\ changes w w' p (Z.of_nat (length l)).
Proof.
  cbv zeta. induction l as [|c l IH]; intros p w Hs Hu Hl; [by split_and!|].
  cbn [length] in Hu. destruct Hu as [Hu1 Hu2]. apply Forall_cons in Hl as [Hc Hl]. assert (user p) as Hp by (unfold user; lia).
  destruct (IH (p + 1) (put8 p c w)) as (Hs' & Hb & Hch); [by apply serves_store|unfold user_range; lia|done|].
  pose proof (changes_store o w p c Hs Hp) as Hch1. cbn [store_list]. split; [done|]. split.
  - intros [|i] x Hi.
    + injection Hi as <-. rewrite Z.add_0_r, Hch by (done || lia). rewrite (get8_store o), Z.eqb_refl by done. by apply u8_small.
    + rewrite Nat2Z.inj_succ, <- Z.add_1_l, Z.add_assoc. by apply Hb.
  - intros j Hj Ho. cbn [length] in Ho. rewrite Hch by (done || lia). apply Hch1; [done|lia].
Qed.

Lemma place_strings o ls : forall p w, serves o w -> user_range p (64 * Z.of_nat (length ls)) ->
  Forall (fun l => (length l < 64)%nat /\ Forall (fun c => 0 < c < 256) l) ls ->
  let w' := place p ls w in serves o w' /\ (forall i l, ls !! i = Some l -> string_at w' (p + 64 * Z.of_nat i) l) /\
    changes w w' p (64 * Z.of_nat (length ls)).
Proof.
  cbv zeta. induction ls as [|l ls IH]; intros p w Hs Hu Hl; [by split_and!|].
  cbn [length] in Hu. destruct Hu as [Hu1 Hu2]. apply Forall_cons in Hl as [[Hlen Hc] Hl].
  destruct (IH (p + 64) w) as (Hs1 & Hat & Hch1); [done|unfold user_range; lia|done|]. cbn [place].
  assert (length (l ++ [0]) = S (length l)) as El by (rewrite length_app; simpl; lia).
  destruct (store_list_at o (l ++ [0]) p (place (p + 64) ls w) Hs1) as (Hs2 & Hb & Hch2).
  { rewrite El. unfold user_range. lia. }
  { apply Forall_app. split; [|by repeat constructor]. by eapply Forall_impl; [exact Hc|simpl; lia]. }
  rewrite El in Hch2. split; [done|]. split.
  - intros [|i] x Hi.
    + injection Hi as <-. rewrite Z.add_0_r. split; [unfold user_range; lia|done|done].
    + pose proof (lookup_lt_Some _ _ _ Hi) as Hlt. cbn [length] in Hlt.
      apply (string_at_changes (place (p + 64) ls w) _ _ _ p (Z.of_nat (S (length l)))); [|done|lia].
      replace (p + 64 * Z.of_nat (S i)) with (p + 64 + 64 * Z.of_nat i) by lia. by apply Hat.
  - intros j Hj Ho. cbn [length] in Ho. rewrite Hch2 by (done || lia). apply Hch1; [done|lia].
Qed.
Lemma here_cleared `{Linked} fb fn lits o w p : here fb fn lits o w -> user p -> fb <= p < fb + fn ->
  let w' := put8 p 0 w in here fb fn lits o w' /\ get8 w' p = 0.
Proof.
  intros Hh Hu Hp. pose proof Hh as [Hs _]. cbv zeta. split; [|by rewrite (get8_store o), Z.eqb_refl by done].
  apply (here_changes _ _ _ o w _ _ p 1); [done|by apply serves_store|by apply (changes_store o)|lia].
Qed.
End placing.
Definition in_image : list (list Z) :=
  line "file not found" :: chars "Hi, what's your name? " :: chars "Hello, " :: chars ":" :: shell_literals ++ used ++ counter_literals.
Definition desk_literal : Linked := fun l => 0x8050000 + 64 * match list_find (l =.) in_image with Some (i, _) => Z.of_nat i | None => 0 end.
Lemma in_image_short : Forall (fun l => (length l < 64)%nat /\ Forall (fun c => 0 < c < 256) l) in_image.
Proof. repeat (apply Forall_cons; split; [split; [by vm_compute; lia|by repeat constructor]|]). done. Qed.

#[local] Existing Instance desk_literal.
#[local] Instance desk_stack : Stack := fun _ _ => 0.

(** What the process with the arguments [l] finds. *)
Definition desk_os (l : list Z) (scss : list (list Z)) : os := first_os desk_files l (typed_lines scss) Elsewhere (desk scss).

Section runs.
Context (scss : list (list Z)) (Hcan : can_type scss).
#[local] Instance the_desk : Platform := desk_platform scss.
Definition desk_serves_os (o : os) (k : kstate) : Prop :=
  serves o k /\ forall l, l ∈ in_image -> forall buf n, 0x8050800 <= buf -> literal (W := kstate) l buf n k.

Lemma desk_strings o k : served o k -> desk_serves_os o (place (W := kstate) 0x8050000 in_image k).
Proof.
  intros Hs.
  destruct (@place_strings kstate kstate_machine kstate_kernel o in_image 0x8050000 k Hs ltac:(by split) in_image_short) as (Hs1 & Hat & _).
  split; [exact Hs1|]. intros l Hl buf n Hbuf.
  destruct (list_find_elem_of (l =.) in_image l Hl eq_refl) as [[i x] E].
  assert (lit l = 0x8050000 + 64 * Z.of_nat i) as El by (unfold lit, desk_literal; by rewrite E).
  apply list_find_Some in E as (Ei & <- & _). pose proof (lookup_lt_Some _ _ _ Ei) as Hlt.
  pose proof (Hat _ _ Ei) as Hstr. pose proof (Forall_lookup_1 _ _ _ _ in_image_short Ei) as [Hshort _].
  change (length in_image) with 27%nat in Hlt. split; [by rewrite El|left; lia].
Qed.

Lemma desk_runs command cmds arg_dat l d : parse_command (Some command) = Parsed cmds arg_dat -> is_quit cmds = false ->
  arguments_are arg_dat l ->
  read_dentry_by_name (fun j => get8 cmds j) (Dentry ∅ 0 0) (desk_boot scss) = Some (SUCCESS, d) -> filetype d = 2 -> inode_num d = 0 ->
  exists k, desk_serves_os (desk_os l scss) k.
Proof.
  intros Hp Hq Ha El Ht Hi. destruct (desk_serves scss Hcan _ _ _ _ _ Hp Hq Ha El Ht Hi) as (k & _ & Hs).
  eexists. apply (desk_strings _ _ Hs).
Qed.
Lemma cat_x_runs : exists k, desk_serves_os (desk_os (chars "x") scss) k.
Proof.
  eapply (desk_runs (Process.literal "cat x") (cat_words "x").1 (cat_words "x").2).
  - by vm_compute.
  - by vm_compute.
  - split; [|by repeat constructor|done]. intros [|[|j]] c; [intros [= <-]; by vm_compute..|done].
  - by vm_compute.
  - by vm_compute.
  - by vm_compute.
Qed.
Lemma cat_hi_runs : exists k, desk_serves_os (desk_os (chars "hi") scss) k.
Proof.
  eapply (desk_runs (Process.literal "cat hi") (cat_words "hi").1 (cat_words "hi").2).
  - by vm_compute.
  - by vm_compute.
  - split; [|by repeat constructor|done]. intros [|[|[|j]]] c; [intros [= <-]; by vm_compute..|done].
  - by vm_compute.
  - by vm_compute.
  - by vm_compute.
Qed.
Lemma cat_y_runs : exists k, desk_serves_os (desk_os (chars "y") scss) k.
Proof.
  eapply (desk_runs (Process.literal "cat y") (cat_words "y").1 (cat_words "y").2).
  - by vm_compute.
  - by vm_compute.
  - split; [|by repeat constructor|done]. intros [|[|j]] c; [intros [= <-]; by vm_compute..|done].
  - by vm_compute.
  - by vm_compute.
  - by vm_compute.
Qed.
End runs.

(** "0" and "exit"; "0" and "cat x". *)
Definition leaving : list (list Z) := [[0x0B]; [0x12; 0x2D; 0x17; 0x14]].
Definition running : list (list Z) := [[0x0B]; [0x2E; 0x1E; 0x14; 0x39; 0x2D]].
Lemma leaving_can : can_type leaving.
Proof. repeat constructor; by vm_compute. Qed.
Lemma running_can : can_type running.
Proof. repeat constructor; by vm_compute. Qed.

#[local] Abbreviation leaves := (@desk_serves_os leaving).
#[local] Abbreviation runs := (@desk_serves_os running).
#[local] Instance desk_leaving : Platform := desk_platform leaving.

Lemma cat_missing_file_witness : exists k k', leaves (desk_os (chars "y") leaving) k /\
  cat 0x83FF000 1 k = Back 2 k' /\ serves (show (line "file not found") (desk_os (chars "y") leaving)) k'.
Proof.
  destruct (cat_y_runs leaving leaving_can) as (k & Hs & Hlit). exists k.
  destruct (cat_missing_file _ k 0x83FF000 1 Hs) as (k' & E & Hs').
  - by split.
  - done.
  - done.
  - by repeat constructor.
  - done.
  - done.
  - apply Hlit; [apply list_elem_of_here|done].
  - exists k'. split; [by split|]. by split.
Defined.

Lemma desk_names scss : names_shown (desk_os (chars "x") scss) = line "." ++ line "cat" ++ line "x".
Proof. done. Qed.
Lemma ls_lists_files_witness : exists k k', leaves (desk_os (chars "x") leaving) k /\
  ls 0x83FF000 4 k = Back 0 k' /\
  serves (set_listed 4 (show (line "." ++ line "cat" ++ line "x") (set_handle 2 Listing (desk_os (chars "x") leaving)))) k'.
Proof.
  destruct (cat_x_runs leaving leaving_can) as (k & Hs & Hlit). exists k.
  destruct (ls_lists_files _ k 0x83FF000 2 4 Hs) as (k' & E & Hs').
  - by split.
  - apply Hlit; [|done]. by apply (bool_decide_unpack (chars "." ∈ in_image)); vm_compute.
  - done.
  - done.
  - done.
  - repeat constructor; done.
  - simpl. lia.
  - exists k'. split; [by split|]. split; [done|]. rewrite desk_names in Hs'. exact Hs'.
Defined.

Lemma used_in_image l : l ∈ used -> l ∈ in_image.
Proof. intros Hl. unfold in_image. do 4 right. apply elem_of_app. right. apply elem_of_app. by left. Qed.
Lemma counter_in_image l : l ∈ counter_literals -> l ∈ in_image.
Proof. intros Hl. unfold in_image. do 4 right. apply elem_of_app. right. apply elem_of_app. by right. Qed.
Lemma shell_in_image l : l ∈ shell_literals -> l ∈ in_image.
Proof. intros Hl. unfold in_image. do 4 right. apply elem_of_app. by left. Qed.

Lemma syserr_passes_witness : exists k k', leaves (desk_os (chars "x") leaving) k /\
  syserr 0x83FF000 0x83FE000 k = Back 0 k' /\
  serves (set_listed 0 (set_typed [chars "exit"]
    (show (chars "Choose from tests 1-8. 0 to run all: " ++ line "0" ++ all_passed) (desk_os (chars "x") leaving)))) k'.
Proof.
  destruct (cat_x_runs leaving leaving_can) as (k & Hs & Hlit). exists k.
  destruct (syserr_passes _ k 0x83FF000 0x83FE000 [chars "exit"] Hs) as (k' & E & Hs').
  - split; [done|done|]. intros i Hi. change (descriptors _) with (<[0 := Keyboard]> (<[1 := Screen]> (∅ : gmap Z handle))).
    by rewrite !lookup_insert_ne by lia.
  - by split.
  - by split.
  - intros l Hl. apply Hlit; [by apply used_in_image|done].
  - done.
  - done.
  - done.
  - done.
  - exists k'. split; [by split|]. by split.
Defined.

Lemma hello_greets_witness : exists k k', leaves (desk_os (chars "x") leaving) k /\ hello 0x83FF000 k = Back 0 k' /\
  serves (set_typed [chars "exit"] (show (chars "Hi, what's your name? " ++ chars "0" ++ [10] ++ chars "Hello, " ++ chars "0" ++ [10])
    (desk_os (chars "x") leaving))) k'.
Proof.
  destruct (cat_x_runs leaving leaving_can) as (k & Hs & Hlit). exists k.
  destruct (hello_greets _ k 0x83FF000 (chars "0") [chars "exit"] Hs) as (k' & E & Hs').
  - by split.
  - apply Hlit; [by right; left|done].
  - apply Hlit; [by right; right; left|done].
  - done.
  - done.
  - done.
  - done.
  - by repeat constructor.
  - exists k'. split; [by split|]. by split.
Defined.

Lemma counter_counts_witness : exists k k', leaves (desk_os (chars "x") leaving) k /\ counter 0x83FF000 k = Back 0 k' /\
  serves (set_typed [chars "exit"] (show (counter_prompt ++ chars "0" ++ [10] ++ counted 100) (desk_os (chars "x") leaving))) k'.
Proof.
  destruct (cat_x_runs leaving leaving_can) as (k & Hs & Hlit). exists k.
  destruct (counter_counts _ k 0x83FF000 (chars "0") [chars "exit"] Hs) as (k' & E & Hs').
  - by split.
  - intros l Hl. apply Hlit; [by apply counter_in_image|done].
  - done.
  - done.
  - done.
  - split; [done|by repeat constructor].
  - exists k'. split; [by split|]. split; [exact E|exact Hs'].
Defined.

Lemma stays_0 o : find_file (chars "0") o = None -> stays o (chars "0").
Proof.
  intros Hf. split; [split; [done|by repeat constructor]|]. split; [done|]. right. unfold spec_execute.
  change (first_word (chars "0")) with [48]. change (command_fits (chars "0")) with true. cbv iota.
  change [48] with (chars "0"). by rewrite Hf.
Qed.

Lemma desk_searchable o : disk o = desk_files -> Forall (searchable (chars "hi") 100 o) (disk o).
Proof.
  intros Hd. rewrite Hd. apply Forall_cons. split; [by left|].
  apply Forall_cons. split; [|apply Forall_singleton]; right; eexists; (split; [done|]).
  - split; [by unfold find_file; rewrite Hd|]. split; [by repeat constructor|].
    split; [|split; [simpl; lia|by repeat constructor]]. apply Forall_singleton. split; [by vm_compute|].
    assert (occurs (chars "hi") desk_program = false) as E by (by vm_compute). intros Eo. change (occurs (chars "hi") desk_program = true) in Eo. congruence.
  - split; [by unfold find_file; rewrite Hd|]. split; [by repeat constructor|].
    split; [|split; [simpl; lia|by repeat constructor]]. apply Forall_singleton. split; [by vm_compute|]. intros _. by repeat constructor.
Qed.
Lemma desk_shown o : disk o = desk_files -> concat (shown_for (chars "hi") <$> disk o) = chars "x:hi" ++ [10].
Proof. intros ->. by vm_compute. Qed.

Lemma grep_shows_matches_witness : exists k k' o', serves (desk_os (chars "hi") leaving) k /\
  grep 0x83FF000 0x83FE000 0x83FD000 100 k = Back 0 k' /\ serves o' k' /\
  screen o' = screen (show (chars "x:hi" ++ [10]) (desk_os (chars "hi") leaving)).
Proof.
  destruct (cat_hi_runs leaving leaving_can) as (k0 & Hs0 & Hlit0). set (o := desk_os (chars "hi") leaving) in *.
  destruct (@here_cleared kstate kstate_machine kstate_kernel _ 0x83FD000 0x2100 in_image o k0 0x83FD400) as [Hh Hz];
    [|by split|lia|].
  { split; [done|]. intros l Hl. by apply Hlit0. }
  revert Hh Hz. cbv zeta. match goal with |- here _ _ _ _ ?x -> _ => generalize x end. intros k Hh Hz.
  destruct (grep_shows_matches 0x83FD000 0x2100 in_image 0x83FF000 0x83FE000 0x83FD000 (chars "hi")) with (o := o) (w := k) (i := 2) (j := 3) (n := 100%nat)
    as (k' & o' & E & Hs' & Ho' & _).
  - split; unfold user_range; lia.
  - by exists 104, [105].
  - done.
  - split; by apply (bool_decide_unpack (_ ∈ in_image)); vm_compute.
  - apply Hh.
  - exact Hh.
  - done.
  - done.
  - by repeat constructor.
  - by apply (bool_decide_unpack (_ ∈ in_image)); vm_compute.
  - done.
  - done.
  - done.
  - by apply desk_searchable.
  - simpl. lia.
  - change (0x83FD000 + 1024) with 0x83FD400. by rewrite Hz.
  - exists k, k', o'. split; [apply Hh|]. split; [exact E|]. split; [exact Hs'|]. rewrite <- (desk_shown o eq_refl). exact Ho'.
Defined.

Lemma shell_session_witness : exists k k', leaves (desk_os (chars "x") leaving) k /\ shell 0x83FF000 2 k = Back 0 k' /\
  serves (set_typed [] (show ((line "Starting 391 Shell" ++ concat (answer <$> [chars "0"])) ++ chars "391OS> " ++ line "exit")
    (desk_os (chars "x") leaving))) k'.
Proof.
  destruct (cat_x_runs leaving leaving_can) as (k & Hs & Hlit). exists k.
  destruct (shell_session _ k 0x83FF000 [chars "0"] [] 2 Hs) as (k' & E & Hs').
  - by split.
  - intros l Hl. apply Hlit; [by apply shell_in_image|done].
  - done.
  - done.
  - done.
  - apply Forall_singleton. by apply stays_0.
  - simpl. lia.
  - exists k'. split; [by split|]. by split.
Defined.

Lemma starts_cat_x : spec_starts (chars "cat x") (desk_os (chars "x") running) =
  Some desk_program.
Proof.
  pose proof (settled_slots running _ _ (desk_only running) eq_refl) as Hfree.
  set (o := desk_os (chars "x") running) in *. assert (spare o = 4%nat) as Es.
  { change (pred (length (free_slots (desk running))) = 4%nat). unfold desk. by rewrite Hfree. }
  unfold spec_starts. change (first_word (chars "cat x")) with [99; 97; 116].
  change (find_file [99; 97; 116] o) with (Some (Regular desk_program)). cbv iota. by rewrite Es.
Qed.

Lemma system_calls_refine_witness : exists k k', leaves (desk_os (chars "x") leaving) k /\
  issue (CallGetargs 0x83FF000 2) 0 0 0 k = Back 0 k' /\ get8 k' 0x83FF000 = 120.
Proof.
  destruct (cat_x_runs leaving leaving_can) as (k & Hs & Hlit). exists k.
  destruct (system_calls_refine (CallGetargs 0x83FF000 2) _ k _ 0 0 0 Hs eq_refl) as (k' & E & _ & Hb & _).
  - split; [done|by split].
  - exists k'. split; [by split|]. split; [exact E|]. by apply (Hb 0%nat).
Defined.

Lemma cat_command_shows_file_witness : exists k1 k2,
  execute (Some (Process.literal "cat x")) (desk leaving) = Jmp (IretUser 0x08048018 0x083FFFFC 0x23 0x2B) k1 /\
  cat 0x83FF000 3 k1 = Back 0 k2 /\ abs k2 = fold_left (fun s c => Spec.write c s) (chars "hi") (abs (desk leaving)).
Proof.
  destruct (cat_command_shows_file (Process.literal "cat x") (cat_words "x").1 (cat_words "x").2 (chars "x") 1 0 0x08048018
    desk_files (typed_lines leaving) (desk leaving) (chars "hi") 0x83FF000 3) as (k1 & k2 & E1 & E2 & Ea).
  - by vm_compute.
  - by vm_compute.
  - split; [|by repeat constructor|done]. intros [|[|j]] c; [intros [= <-]; by vm_compute..|done].
  - eapply (desk_runnable leaving); by vm_compute.
  - apply desk_prepared, leaving_can.
  - done.
  - done.
  - by repeat constructor.
  - by split.
  - simpl. lia.
  - exists k1, k2. split; [exact E1|]. by split.
Defined.

Lemma shell_runs_cat_witness : exists k k1 k2, runs (desk_os (chars "x") running) k /\
  @shell kstate (@kstate_machine (desk_platform running) _) _ 0x83FF000 2 k = Gone k1 /\
  @cat kstate (@kstate_machine (desk_platform running) _) _ 0x83FF000 3 k1 = Back 0 k2 /\
  abs k2 = fold_left (fun s c => Spec.write c s)
    (((line "Starting 391 Shell" ++ concat (answer <$> [chars "0"])) ++ chars "391OS> " ++ chars "cat x" ++ [10]) ++ chars "hi")
    (abs (desk running)).
Proof.
  destruct (cat_x_runs running running_can) as (k & Hs & Hlit). exists k.
  destruct (@shell_runs_cat (desk_platform running) _ _ _ k 0x83FF000 [chars "0"] (chars "cat x") desk_program [] (chars "hi") 2 0x83FF000 3 Hs)
    as (k1 & k2 & E1 & E2 & Ea).
  - by split.
  - intros l Hl. apply Hlit; [by apply shell_in_image|done].
  - done.
  - done.
  - done.
  - apply Forall_singleton. by apply stays_0.
  - split; [done|by repeat constructor].
  - done.
  - apply starts_cat_x.
  - simpl. lia.
  - done.
  - done.
  - by repeat constructor.
  - by split.
  - simpl. lia.
  - exists k1, k2. split; [by split|]. split; [exact E1|]. split; [exact E2|]. exact Ea.
Defined.
