(* ===== verification/Poweron.v ===== *)
(** A concrete boot: the loader has left a file system with the shell, the program
    "cat" and the text "x"; the user types "0", "cat x" and "exit". *)

From Stdlib Require Import String.
From S2P Require Import Prelude Bytes CString State Console Pic Filesys Paging Keyboard Descriptors Process Halt Terminals Interrupts Boot.
From S2P Require Import SysSpec Support Cat Shell Nested KernelOs Spawn Session Desk.
#[local] Open Scope Z_scope.
#[local] Open Scope kernel_scope.

(** The shell's file has a header, and its strings from byte 64, 64 bytes each. *)
Definition slot (l : list Z) : list Z := l ++ replicate (64 - length l) 0.
Definition shell_file : list Z := elf_header ++ replicate 36 0 ++ concat (slot <$> shell_literals).
Definition cat_file : list Z := elf_header ++ replicate 20 0.
Definition power_files : list (list Z * node) :=
  [(chars ".", Folder); (chars "shell", Regular shell_file); (chars "cat", Regular cat_file); (chars "x", Regular (chars "hi"))].

Definition power_image : mem :=
  put_bytes 0x16000 (chars "hi") (put_bytes 0x15000 elf_header (put_bytes 0x14000 shell_file
    (put32 0x13004 2 (put32 0x13000 2 (put32 0x12004 1 (put32 0x12000 48 (put32 0x11004 0 (put32 0x11000 448
      (put32 0x10124 2 (put32 0x10120 2 (put_bytes 0x10100 (chars "x")
        (put32 0x100E4 1 (put32 0x100E0 2 (put_bytes 0x100C0 (chars "cat")
          (put32 0x100A4 0 (put32 0x100A0 2 (put_bytes 0x10080 (chars "shell")
            (put32 0x10060 1 (put_bytes 0x10040 (chars ".")
              (put32 0x10008 3 (put32 0x10004 3 (put32 0x10000 4 (∅ : mem))))))))))))))))))))))).
Definition power_memory : mem :=
  put32 0x9104 0x17000 (put32 0x9100 0x10000 (put32 0x9018 0x9100 (put32 0x9014 1 (put32 0x9000 8 power_image)))).

Definition evening : list (list Z) := [[0x0B]; [0x2E; 0x1E; 0x14; 0x39; 0x2D]; [0x12; 0x2D; 0x17; 0x14]].
#[local] Instance power_platform : Platform := desk_platform evening.
Definition power_lines : list (list Z) := [chars "0"; chars "cat x"] ++ [chars "exit"].

(** The machine when [entry] is called, and when it has reported what it found. *)
Definition power_state : kstate :=
  zero_state <| pmem := power_memory |> <| cpu; esp := 0x7ffff4 |> <| irqs := replicate (length (key_codes evening)) IRQ_KBD |>.
Definition power_reported : kstate := state_of (report 0 0x9000 (clear power_state)).
Definition power_boot : kstate := init_filesys 0x10000 power_reported.

Lemma power_report : report 0 0x9000 (clear power_state) = Ret (Some 0x10000) power_reported.
Proof.
  assert (match report 0 0x9000 (clear power_state) with Ret (Some b) _ => b =? 0x10000 | _ => false end = true) as E
    by (by vm_compute).
  unfold power_reported. revert E. generalize (report 0 0x9000 (clear power_state)) as o.
  intros [[b|] k| | |] E; try discriminate. simpl. f_equal. f_equal. lia.
Qed.

Lemma power_numbers : img power_boot = 0x10000 /\ n_inodes power_boot = 3 /\ data_count (fs power_boot) = 3.
Proof. split; [|split]; by vm_compute. Qed.
Lemma power_unpaged : Z.testbit (cr0 (mmu power_boot)) 31 = false.
Proof. by vm_compute. Qed.
Lemma power_file ino : 0 <= ino < 3 -> 0 <= file_length power_boot ino < 4096 -> block_ok power_boot ino 0 -> file_wf power_boot ino.
Proof.
  intros Hi Hl Hb. destruct power_numbers as (_ & En & Ed). split.
  - rewrite En. exact Hi.
  - rewrite En, Ed. clear. lia.
  - clear -Hl. lia.
  - intros b Hb0 Hb1. assert (b = 0) as -> by lia. exact Hb.
Qed.
Lemma power_lengths : file_length power_boot 0 = 448 /\ file_length power_boot 1 = 48 /\ file_length power_boot 2 = 2.
Proof. split; [|split]; by vm_compute. Qed.
Lemma power_wf ino : 0 <= ino < 3 -> file_wf power_boot ino.
Proof.
  intros Hi. destruct power_lengths as (L0 & L1 & L2). assert (ino = 0 \/ ino = 1 \/ ino = 2) as [-> | [-> | ->]] by lia.
  - apply power_file; [done|rewrite L0; clear; lia|by vm_compute].
  - apply power_file; [done|rewrite L1; clear; lia|by vm_compute].
  - apply power_file; [done|rewrite L2; clear; lia|by vm_compute].
Qed.
Lemma power_contents ino c : 0 <= ino < 3 -> block_ok power_boot ino (file_length power_boot ino / 4096) ->
  c = file_byte power_boot ino <$> seqZ 0 (file_length power_boot ino) -> file_of power_boot ino c.
Proof. intros Hi He Hc. split; [by apply power_wf|done|done]. Qed.
Lemma power_shell : file_of power_boot 0 shell_file.
Proof. apply power_contents; [done|by vm_compute..]. Qed.
Lemma power_disk : disk_of power_boot power_files.
Proof.
  split.
  - by vm_compute.
  - by vm_compute.
  - intros i e Hi.
    destruct i as [|[|[|[|i]]]]; [..|done]; injection Hi as <-; (apply entry_of_bytes; [done|by repeat constructor|by vm_compute|]).
    + by vm_compute.
    + split; [by vm_compute|]. exact power_shell.
    + split; [by vm_compute|]. change (file_of power_boot (entry_inode power_boot (Z.of_nat 2)) cat_file).
      assert (entry_inode power_boot (Z.of_nat 2) = 1) as -> by (by vm_compute).
      apply power_contents; [done|by vm_compute..].
    + split; [by vm_compute|]. change (file_of power_boot (entry_inode power_boot (Z.of_nat 3)) (chars "hi")).
      assert (entry_inode power_boot (Z.of_nat 3) = 2) as -> by (by vm_compute).
      apply power_contents; [done|by vm_compute..].
  - intros i Hi. change (Z.of_nat (length power_files)) with 4 in Hi.
    assert (forallb (fun j => entry_name power_boot j 0 =? 0) (seqZ 4 59) = true) as Hz by (by vm_compute).
    rewrite forallb_forall in Hz. apply Z.eqb_eq, Hz, list_elem_of_In, elem_of_seqZ. lia.
Qed.

Lemma power_array : array_apart power_boot 0x7f0000.
Proof.
  destruct power_numbers as (Ei & En & Ed).
  split; [unfold SIZE_8MB; lia|right; unfold img_end; rewrite Ei, En, Ed; lia|right; unfold VIDEO; lia].
Qed.
Lemma power_bootable : bootable 0x10000 0 0x08048018 power_reported.
Proof.
  destruct power_numbers as (Ei & En & Ed). destruct power_lengths as (L0 & _).
  split; change (init_filesys 0x10000 power_reported) with power_boot.
  - by vm_compute.
  - unfold img_end, SIZE_8MB. rewrite Ei, En, Ed. clear. lia.
  - split; unfold img_end; rewrite ?Ei, ?En, ?Ed; change (exe_data power_boot) with 0x7f0000; unfold VIDEO_MEMORY, SIZE_8MB; clear; lia.
  - split.
    + eexists. split; [by vm_compute|by split].
    + apply power_wf. clear. lia.
    + rewrite L0. clear. lia.
    + split; [|split; [|split]]; by vm_compute.
    + by vm_compute.
    + change (exe_data power_boot) with 0x7f0000. split; [by apply sep_unpaged, power_unpaged|].
      intros o Ho. apply outside_unpaged; [exact power_unpaged|]. rewrite Ei, En, Ed in *. lia.
  - rewrite L0. clear. lia.
Qed.
Lemma evening_can : can_type evening.
Proof. repeat constructor; by vm_compute. Qed.
Lemma power_typed : to_be_typed power_lines power_state.
Proof.
  split; [done|]. split; [done|]. split; [done|].
  exists (fun n => default 0 (key_codes evening !! n)), evening, []. split; [by intros t|].
  split; [exact (keys_of_lines evening evening_can)|]. split.
  - intros i sc Hi. change (default 0 (key_codes evening !! i) = sc). unfold key_codes. by rewrite Hi.
  - by vm_compute.
Qed.

Lemma power_handed : handed_over 0 0x2BADB002 0x9000 0x10000 0 0x08048018 power_files shell_file power_lines power_state power_reported.
Proof.
  split.
  - by intros k.
  - by vm_compute.
  - exact power_report.
  - split; by vm_compute.
  - by vm_compute.
  - done.
  - intros r Hr. change (0 <> pcb_addr r). unfold pcb_addr, page8MB, page8KB. lia.
  - split; [exact power_bootable|exact power_disk|exact power_shell|split; by vm_compute|exact power_array|intros q _; exact power_array].
  - exact power_typed.
Qed.

(** ** The session *)

#[local] Instance power_stack : Stack := fun _ _ => 0.
(** The strings of the shell are in its text. *)
#[local] Instance power_literals : Linked := fun l =>
  TEXT + 64 + 64 * match list_find (l =.) shell_literals with Some (i, _) => Z.of_nat i | None => 0 end.

(** The program that is loaded is [cat], its array at the end of its page. *)
#[local] Instance power_loaded : Loaded kstate := fun _ => start (cat 0x83FE000 3).

Definition power_os : os := booted_os power_files power_lines (num_files_read (fs power_reported)).
Definition power_transcript : list Z := answer (chars "0") ++ (chars "391OS> " ++ chars "cat x" ++ [10]) ++ chars "hi" ++ [].

Lemma text_at f s i : take (length s + 1) (drop i f) = s ++ [0] ->
  forall j c, (s ++ [0]) !! j = Some c -> f !! (i + j)%nat = Some c.
Proof.
  intros E j c. rewrite <- E. intros [Hj Hl]%lookup_take_Some. by rewrite lookup_drop in Hj.
Qed.
Lemma power_strings s : s ∈ shell_literals ->
  in_text shell_file s /\ (lit s + Z.of_nat (length s) + 1 <= 0x83FF000 \/ 0x83FF000 + 1024 <= lit s).
Proof.
  intros Hs. assert (Forall (fun s => in_text shell_file s /\ lit s + Z.of_nat (length s) + 1 <= 0x83FF000) shell_literals) as Hall.
  { repeat (apply Forall_cons; split; [split; [split; [by repeat constructor|]|by vm_compute]|]); [..|done].
    - exists 64%nat. split; [by vm_compute|]. apply text_at. by vm_compute.
    - exists 128%nat. split; [by vm_compute|]. apply text_at. by vm_compute.
    - exists 192%nat. split; [by vm_compute|]. apply text_at. by vm_compute.
    - exists 256%nat. split; [by vm_compute|]. apply text_at. by vm_compute.
    - exists 320%nat. split; [by vm_compute|]. apply text_at. by vm_compute.
    - exists 384%nat. split; [by vm_compute|]. apply text_at. by vm_compute. }
  rewrite Forall_forall in Hall. destruct (Hall s Hs). by split; [|left].
Qed.

Lemma power_cat : is_cat 3 cat_file.
Proof. exists power_literals, 0x83FE000. split; [by split|]. split; [by intros s Hs%elem_of_nil|done]. Qed.
Lemma power_starts : starts power_os (chars "cat x") cat_file.
Proof. split; [split; [done|by repeat constructor]|]. split; [done|]. split; [done|]. by vm_compute. Qed.
Lemma power_session : transcript 3 power_os [chars "0"; chars "cat x"] power_transcript.
Proof.
  apply tr_stays; [by apply stays_0|]. apply (tr_cat 3 power_os (chars "cat x") cat_file (chars "hi") [] []).
  - exact power_starts.
  - exact power_cat.
  - done.
  - done.
  - by repeat constructor.
  - simpl. lia.
  - constructor.
Qed.

Lemma boot_to_transcript_witness : exists k3 k4,
  entry 0 0 0 0x2BADB002 0x9000 power_state = Jmp (IretUser 0x08048018 0x083FFFFC 0x23 0x2B) k3 /\
  @shell kstate nested _ 0x83FF000 3 k3 = Back 0 k4 /\
  abs k4 = fold_left (fun s c => Spec.write c s)
    (line "Starting 391 Shell" ++ power_transcript ++ chars "391OS> " ++ line "exit") (Spec.T (replicate 2000 32) 0 0).
Proof.
  destruct (boot_to_transcript 0 0 0 0x2BADB002 0x9000 0x10000 0 0x08048018 power_files shell_file [chars "0"; chars "cat x"] []
    power_transcript power_state power_reported 0x83FF000 3 3 power_handed power_session) as (k3 & k4 & E & Es & Ea).
  - split; clear; lia.
  - exact power_strings.
  - clear. simpl. lia.
  - exists k3, k4. split; [exact E|]. split; [exact Es|exact Ea].
Defined.

(** The first shell as the boot leaves it. *)
Lemma power_serves : exists k, served power_os k /\ bytes_at k TEXT shell_file.
Proof.
  destruct (boot_serves 0 0 0 0x2BADB002 0x9000 0x10000 0 0x08048018 power_files shell_file power_lines power_state power_reported
    power_handed) as (k & _ & Hs & Ht). by exists k.
Qed.
Lemma shell_keeps_transcript_witness : exists k k' o', served power_os k /\
  @shell kstate nested _ 0x83FF000 3 k = Back 0 k' /\ served o' k' /\ same_world power_os o' /\
  screen o' = screen (show (line "Starting 391 Shell" ++ power_transcript ++ chars "391OS> " ++ line "exit") power_os).
Proof.
  destruct power_serves as (k & Hs & Ht). exists k.
  destruct (@shell_keeps_transcript kstate kstate_machine kstate_kernel kstate_commands _ _ power_os k 0x83FF000
    [chars "0"; chars "cat x"] [] power_transcript 3 3 Hs eq_refl) as (k' & o' & E & Hs' & Hw & _ & Esc).
  - split; clear; lia.
  - intros s Hin. destruct (power_strings s Hin) as [Hi Ha]. split; [|exact Ha].
    apply (@text_string kstate kstate_machine _ k shell_file s); [exact Ht|by vm_compute|exact Hi].
  - reflexivity.
  - reflexivity.
  - reflexivity.
  - exact power_session.
  - clear. simpl. lia.
  - exists k', o'. split; [exact Hs|]. split; [exact E|]. split; [exact Hs'|]. split; [exact Hw|exact Esc].
Defined.
